(* ===== verification/_CoqProject ===== *)
-Q . S2P
Prelude.v
Float64.v
Errors.v
Time.v
Calendar.v
Net.v
DataModel.v
Messages.v
Wire.v
Estimator.v
Session.v
Sockets.v
SocketTrait.v
EventLoop.v
LoopTrait.v
Steady.v
Channel.v
Shared.v
Results.v
Serialise.v
LightSender.v
SenderLoop.v
Reflector.v
ReflectorLoop.v
Control.v
ControlClient.v
Handshake.v
Twamp.v
ControlLoop.v
Worker.v
Exchange.v
Network.v
