(* ===== verification/Prelude.v ===== *)
(** * network-tests: a verification development

    [network-tests] is a Rust workspace with two crates: [network_commons] (timestamped sockets,
    an event loop on epoll and timerfd, time, clock-offset statistics) and [twamp], an
    implementation of the Two-Way Active Measurement Protocol (RFC 5357) with four roles chosen
    by [Twamp::generate]: a light sender and a light reflector, which exchange test packets, and
    a control server and client, which first negotiate a test over TCP.  This library is a
    shallow embedding of both crates, with the theorems that make their parts correct.

    ** How the program is put together

    A role builds a [LinuxEventLoop] and registers sockets and timers on it with callbacks.  The
    loop polls; a readable socket runs its callback, a timer runs the callback registered with
    it on the socket it belongs to, and an event of a token that belongs to neither is the end of
    the test's duration: the loop then drops its timers and enters an overtime, and its end
    leaves the loop.  The callbacks share a vector of [Session]s: the sender's timer callback
    sends one packet to each reflector and records it, its second timer corrects the send times
    from the kernel's error queue, its receiving callback completes the recorded packets; the
    reflector's callback answers each packet with its own timestamps and records the answer.
    When the loop ends the sender computes delays, jitters, losses and the clock offset.  In the
    control protocol two state machines exchange a greeting, a setup response, a start message, a
    session request and its acceptance, then a start command and its acknowledgement; each runs
    the test by sending [Register] and [RegisterTimed] messages to the loop of a second thread.

    ** The files, in dependency order

    - [Prelude]: [outcome] (what a fallible function does: [Ok], [Err], a panic, or that it does
      not return), machine
      integers with the two build profiles ([u_arith], [i_arith], [as_u], [as_i]), and the monad
      [op] of stateful operations with the lemmas that run it.
    - [Float64]: [f64] as the Standard Library's binary64, Rust's operations on it, and the
      lemmas that turn a rounded result into a statement about integers.
    - [Errors]: [network_commons/src/error.rs].
    - [Time]: [network_commons/src/time.rs], [interval.rs], and the part of [core::time] they use.
    - [Calendar]: the Gregorian calendar as a reference, and the printed form of a time against it.
    - [Net]: the addresses and ancillary data of [network_commons/src/socket.rs].
    - [DataModel], [Messages], [Wire]: [twamp_common/data_model.rs], [twamp_common/message.rs],
      and an example of codecs with the promises the program needs of the [bebytes] crate.
    - [Estimator]: [network_commons/src/stats/offset_estimator.rs].
    - [Session]: [twamp_common/session.rs] (its [create_udp_socket] is
      [Control.Session_create_udp_socket], beside its only caller).
    - [Sockets]: the operations of [socket.rs], [udp_socket.rs], [tcp_socket.rs]; [SocketTrait]:
      the trait [Socket] as a class with both sockets as instances.
    - [EventLoop], [Channel]: [event_loop.rs], [epoll_loop.rs]; [Channel] holds the
      [DuplexChannel] between threads and [create_non_blocking_unix_datagram].  [LoopTrait]: the
      trait [EventLoopTrait] as a class with laws, a registry that the Linux loop refines.
    - [Steady]: the runs of a loop whose callbacks succeed under an invariant of their state.
    - [Shared]: the state the callbacks of one loop share, and the lifting of operations to it.
    - [Results], [LightSender]: [twamp_light_sender/result.rs], [mod.rs] and [twamp_light.rs];
      [Serialise]: what their [Serialize] implementations, and those of [data_model.rs] and
      [time.rs], hand to a serializer; [SenderLoop]: the sender's callbacks on its event loop.
    - [Reflector]: [twamp_light_reflector/mod.rs] and [reflector.rs]; [ReflectorLoop]: its service
      on its event loop.
    - [Control], [ControlClient]: [twamp_control/control_session.rs], [control.rs],
      [control_client_session.rs], [control_client.rs].
    - [Handshake]: the two state machines of the control protocol against each other.
    - [Twamp]: [twamp/src/lib.rs] and [twamp_control/mod.rs].
    - [ControlLoop]: the [execute] of [control.rs] and [control_client.rs], the two roles of the
      control protocol on their event loops.
    - [Worker]: the control client's second thread, whose loop handles the messages of the first.
    - [Exchange]: a light sender and a reflector (the light one or the control server's) against
      each other, over a network that loses packets.
    - [Network]: the same two hosts over an asynchronous network, as a step relation.

    A Rust function is the definition of the same name ([DateTime::sub] is [DateTime_sub], a
    method that would clash carries its type's name); a struct is a record with its fields, an
    enum an inductive type with its constructors.

    ** Interfaces

    Code outside the repository is a parameter, behind a class: [Libc] (the system calls of the
    sockets, each a function of the state of the operating system), [EpollOs] (poll registry and
    timers), [MioUdp] and [MioTcp] (the sockets the [mio] crate binds), [BeBytes] (encoding and
    decoding), with the laws a theorem needs as classes of their own ([BeBytesLaws];
    [BeBytesSound]: what decodes is in range; [TimersWork]: the kernel grants a timer;
    [ReceiveFits]: a read fits its buffer; [RunsDry]: a callback finds a bounded number of
    datagrams and reports waiting; [DeliversProbes]: what arrives are test messages) or named hypotheses; the natural logarithm, address
    parsing and the text of validation errors are arguments.  The program's own traits are classes
    as well, with laws that their implementations are proved to obey: [EventLoopTrait] and
    [EventLoopLaws], [Socket] and [SocketLaws].  [Sockets.Scripted] is an operating system that answers from a script.
    What [bebytes] derives is not in the repository: [Wire.BigEndian] is no model of it, only a
    codec that keeps the laws, which shows that they can hold and lets the handlers run on
    concrete inputs.

    ** What the theorems show

    - Time: the operations keep times normalised; subtraction of two times is exact to the
      nanosecond; adding then subtracting a duration gives the time back; a time sent as an NTP
      timestamp comes back within the rounding of one 2^-32 s, and where the conversions through
      [f64] go wrong; the date printed for a time, computed in [f64], is the calendar's.
    - Addresses: an IPv4 address survives the conversion to the C structure and back, on a
      little-endian host; an IPv6 address loses its last bytes.
    - Messages: what the builder accepts and gives.
    - Sessions: the invariant of reachable sessions; a reply completes exactly its packet; the
      correction of send times can be done in batches; on a run in which the reflector counts
      each packet it gets, the loss figures are the true ones, and where they are not.
    - Event loop: tokens are fresh and tracked; a test with a duration and an overtime ends, with
      each use of the system on the way (the timers are armed with the right times); the handling
      of each kind of event, errors included; a client of the trait sees the registry of
      its commands, with a fresh token for each.
    - Light sender and reflector: what one tick sends and records; how timestamps are dealt to
      sessions; what an answer holds and what the sessions are after it; a probe sent by one and
      answered by the other gives the sender the four timestamps; which sessions the cleanup
      keeps; what a test sets up; each statistic of each family of delays as
      the mean, the named elements of the sorted values or the deviation; nothing of a packet's
      results is lost when they are written out.  The sender's whole test runs to its end
      whatever arrives and in whatever order its timers fire, as long as its sockets run dry, and
      a socket that never does keeps it in its callback for ever; the reflector's service goes
      on while what arrives are test messages, with one answer recorded for each.
    - The exchange of sender and reflector refines a table: whatever is lost on the way, the
      sender ends up with the numbers and times of what happened, and its loss report counts the
      packets the network lost.  Over a network that also reorders and duplicates (rule induction
      on its steps) no packet is ever given times that are not those of an answer to it, and no
      callback fails.
    - Control protocol: the moves of the two state machines (rule induction on their steps), what
      the server accepts, the complete handshake from two fresh machines to a running test, how
      an accepted connection gets its own session, the set-up and the deadline of a client's test and
      the end of its worker, without which the client never returns; the server's reflector is the light reflector but for the padding of its
      first answer.

    ** Bounds and fuel

    Loops whose end depends on the operating system take fuel ([rx_loop], [drain_timestamps]:
    one unit for each read; [None] is "still reading") or run over a list that is their input
    ([run]: the turns of the loop with their messages and events; [await_token]: the polls of the
    channel).  An operation that has not come to its end within them does not return: [fueled]
    and [client_callback] give [Panic StillRunning], after which nothing of its caller runs, and
    [execute] gives [None].  [SenderLoop.rx_drains] says which fuel is enough for the receiving
    callback (one more than the datagrams waiting) and that none is when there is no end of
    them; [SenderLoop.Bounded] is a system on which ten is.  The rejection sampling of
    [Estimator] takes fuel as well; [Estimator.estimate_nan_never_returns] is an input for which
    none is enough.
    [Session.chunks] and [LightSender.step_by] take the length of their list, which is enough
    since each step consumes an element.  Integers are [Z] at their width: [in_u], [in_i] state
    the ranges, arithmetic panics or wraps by the build profile, and casts wrap.

    ** What is not modelled

    Threads run one after the other: a callback runs with the shared vector to itself, or finds
    its lock taken ([sh_busy]); whether a channel's mutex is free is an input, and nobody holds a
    lock once the loop has ended.  The second thread of [Control::execute] and
    [ControlClient::execute] creates its loop first ([worker_starts]; without one the first thread
    panics) and is then the receiver of the messages sent to it; its loop is that of
    [EventLoop] over [Shared], and [Worker] runs the client's.  What it has made of the sessions
    when it is joined is an argument of [ControlClient_execute], none when it does not end, as
    [Worker.worker_idle] shows of a worker that is given nothing.  Sleeping and parking leave
    the state alone.
    The networks of [Exchange] and [Network] carry the packets of one sender and one reflector
    and do not alter their bytes.
    Not modelled either: the code that the derives of [serde] and [bebytes] generate, beyond the
    calls on a serializer and the laws of a codec; logging; the constructors of the structs that
    only hold a configuration and the handles of a channel ([Control], [ControlClient],
    [Reflector], [Twamp], [TwampLight], [DuplexChannel::clone], [get_communication_channel]);
    the unused declaration [ScmTimestamping]; the test macro [assert_approx_eq] and the example
    binary, which only read their configuration and print. *)
From stdpp Require Import base list option numbers strings gmap.
From Stdlib Require Import ZArith Lia.

(** ** Build profiles, panics and outcomes *)

(** Rust checks integer overflow in debug builds and wraps in release builds;
    every definition that adds or subtracts machine integers takes the profile. *)
Class BuildProfile := overflow_checks : bool.

(** Why an operation of the program does not return: it panics or, in one case of its own, it
    is [StillRunning]: a loop has not come to its end within the fuel or the inputs given.
    Nothing that follows either of them runs. *)
Inductive panic :=
  | StillRunning
  | ArithmeticOverflow
  | CapacityOverflow
  | IndexOutOfBounds
  | UnwrapFailed
  | Expect (msg : string)
  | Unimplemented (msg : string)
  | Todo
  | ExplicitPanic (msg : string).

(** What a fallible Rust function does: it returns [Ok], returns [Err], or panics. *)
Inductive outcome (E A : Type) :=
  | Ok (a : A)
  | Err (e : E)
  | Panic (p : panic).
Arguments Ok {_ _} _.
Arguments Err {_ _} _.
Arguments Panic {_ _} _.

#[export] Instance outcome_ret E : MRet (outcome E) := fun _ a => Ok a.
#[export] Instance outcome_bind E : MBind (outcome E) := fun _ _ k o =>
  match o with Ok a => k a | Err e => Err e | Panic p => Panic p end.
#[export] Instance outcome_fmap E : FMap (outcome E) := fun _ _ f o =>
  match o with Ok a => Ok (f a) | Err e => Err e | Panic p => Panic p end.

#[export] Instance panic_eq_dec : EqDecision panic.
Proof. solve_decision. Defined.
#[export] Instance outcome_eq_dec `{EqDecision E, EqDecision A} : EqDecision (outcome E A).
Proof. solve_decision. Defined.

Section outcome.
Context {E : Type}.

Definition is_ok {A} (o : outcome E A) : bool :=
  match o with Ok _ => true | _ => false end.
Definition is_panic {A} (o : outcome E A) : bool :=
  match o with Panic _ => true | _ => false end.
(** [Result::ok] *)
Definition ok_option {A} (o : outcome E A) : option A :=
  match o with Ok a => Some a | _ => None end.
(** [Result::map_err] *)
Definition map_err {A F} (f : E -> F) (o : outcome E A) : outcome F A :=
  match o with Ok a => Ok a | Err e => Err (f e) | Panic p => Panic p end.
(** [Option::ok_or] *)
Definition ok_or {A} (e : E) (o : option A) : outcome E A :=
  match o with Some a => Ok a | None => Err e end.
(** [Result::unwrap_or] and [unwrap_or_default] *)
Definition unwrap_or {A} (a : A) (o : outcome E A) : outcome E A :=
  match o with Err _ => Ok a | _ => o end.
(** A loop that has come to its end within the fuel given has returned. *)
Definition returned {A} (o : option A) : outcome E A :=
  match o with Some a => Ok a | None => Panic StillRunning end.
(** [Option::unwrap] *)
Definition unwrap_option {A} (o : option A) : outcome E A :=
  match o with Some a => Ok a | None => Panic UnwrapFailed end.

Lemma bind_Ok_inv {A B} (o : outcome E A) (k : A -> outcome E B) b :
  (o ≫= k) = Ok b -> exists a, o = Ok a /\ k a = Ok b.
Proof. destruct o; cbn; intros H; try discriminate; eauto. Qed.

Lemma bind_assoc {A B C} (o : outcome E A) (k : A -> outcome E B) (h : B -> outcome E C) :
  ((o ≫= k) ≫= h) = (o ≫= fun a => k a ≫= h).
Proof. by destruct o. Qed.

(** [Iterator::map(..).collect::<Result<Vec<_>, _>>()]: the first failure wins. *)
Fixpoint collect {A B} (f : A -> outcome E B) (l : list A) : outcome E (list B) :=
  match l with
  | [] => Ok []
  | a :: l' => b ← f a; bs ← collect f l'; Ok (b :: bs)
  end.

Lemma collect_Ok {A B} (f : A -> outcome E B) (g : A -> B) l :
  Forall (fun a => f a = Ok (g a)) l -> collect f l = Ok (g <$> l).
Proof.
  induction 1 as [|a l Ha _ IH]; [done|]. cbn. rewrite Ha. cbn. by rewrite IH.
Qed.
End outcome.

(** ** Machine integers *)
Local Open Scope Z_scope.

Definition u_max (w : Z) : Z := 2 ^ w - 1.
Definition i_min (w : Z) : Z := - 2 ^ (w - 1).
Definition i_max (w : Z) : Z := 2 ^ (w - 1) - 1.
Definition in_u (w z : Z) : Prop := 0 <= z < 2 ^ w.
Definition in_i (w z : Z) : Prop := - 2 ^ (w - 1) <= z < 2 ^ (w - 1).

#[export] Instance in_u_dec w z : Decision (in_u w z).
Proof. unfold in_u. apply _. Defined.
#[export] Instance in_i_dec w z : Decision (in_i w z).
Proof. unfold in_i. apply _. Defined.

(** The [as] casts to an unsigned or signed integer of width [w]. *)
Definition as_u (w z : Z) : Z := z mod 2 ^ w.
Definition as_i (w z : Z) : Z := (z + 2 ^ (w - 1)) mod 2 ^ w - 2 ^ (w - 1).

(** The result of an arithmetic operator whose exact value is [z]. *)
Definition u_arith {E} `{BuildProfile} (w z : Z) : outcome E Z :=
  if decide (in_u w z) then Ok z
  else if overflow_checks then Panic ArithmeticOverflow else Ok (as_u w z).
Definition i_arith {E} `{BuildProfile} (w z : Z) : outcome E Z :=
  if decide (in_i w z) then Ok z
  else if overflow_checks then Panic ArithmeticOverflow else Ok (as_i w z).

Definition DEBUG : BuildProfile := true.
Definition RELEASE : BuildProfile := false.

Lemma as_u_small w z : in_u w z -> as_u w z = z.
Proof. intros H. by apply Z.mod_small. Qed.

Lemma as_u_range w z : 0 <= w -> in_u w (as_u w z).
Proof. intros Hw. apply Z.mod_pos_bound. lia. Qed.

Lemma pow2_half w : 0 < w -> 2 ^ w = 2 * 2 ^ (w - 1).
Proof. intros Hw. rewrite <-Z.pow_succ_r by lia. f_equal. lia. Qed.

Lemma as_i_small w z : 0 < w -> in_i w z -> as_i w z = z.
Proof.
  intros Hw [H1 H2]. unfold as_i. rewrite Z.mod_small; [lia|].
  rewrite (pow2_half w Hw). lia.
Qed.

Lemma as_i_range w z : 0 < w -> in_i w (as_i w z).
Proof.
  intros Hw. unfold as_i, in_i.
  pose proof (Z.mod_pos_bound (z + 2 ^ (w - 1)) (2 ^ w) ltac:(lia)).
  pose proof (pow2_half w Hw). lia.
Qed.

Lemma u_arith_in `{BuildProfile} {E} w z : in_u w z -> u_arith (E:=E) w z = Ok z.
Proof. intros Hz. unfold u_arith. by rewrite decide_True. Qed.
Lemma i_arith_in `{BuildProfile} {E} w z : in_i w z -> i_arith (E:=E) w z = Ok z.
Proof. intros Hz. unfold i_arith. by rewrite decide_True. Qed.
Lemma u_arith_out_debug {E} w z : ~ in_u w z -> @u_arith E DEBUG w z = Panic ArithmeticOverflow.
Proof. intros Hz. unfold u_arith. by rewrite decide_False. Qed.
Lemma u_arith_out_release {E} w z : ~ in_u w z -> @u_arith E RELEASE w z = Ok (as_u w z).
Proof. intros Hz. unfold u_arith. by rewrite decide_False. Qed.
Lemma u_arith_release {E} w z : @u_arith E RELEASE w z = Ok (as_u w z).
Proof. unfold u_arith. case_decide; [|done]. by rewrite as_u_small. Qed.
Lemma i_arith_release {E} w z : 0 < w -> @i_arith E RELEASE w z = Ok (as_i w z).
Proof. intros ?. unfold i_arith. case_decide; [|done]. by rewrite as_i_small. Qed.

Create HintDb machine.
#[export] Hint Resolve as_u_range as_i_range : machine.
Create Rewrite HintDb arith_rw.
#[export] Hint Rewrite @u_arith_release @i_arith_release using lia : arith_rw.

(** ** Stateful fallible operations *)

(** An operation on a state: it gives an outcome and leaves a state, also when it fails. *)
Definition op (S E A : Type) : Type := S -> outcome E A * S.

#[export] Instance op_ret S E : MRet (op S E) := fun _ a s => (Ok a, s).
#[export] Instance op_bind S E : MBind (op S E) := fun _ _ k m s =>
  match m s with
  | (Ok a, s') => k a s'
  | (Err e, s') => (Err e, s')
  | (Panic p, s') => (Panic p, s')
  end.

Section op.
Context {S E : Type}.

(** A computation that does not touch the state. *)
Definition lift {A} (o : outcome E A) : op S E A := fun s => (o, s).
Definition gets {A} (f : S -> A) : op S E A := fun s => (Ok (f s), s).
Definition modify (f : S -> S) : op S E () := fun s => (Ok (), f s).
Definition fail {A} (e : E) : op S E A := fun s => (Err e, s).
(** A system call or other total effect. *)
Definition effect {A} (f : S -> A * S) : op S E A := fun s => let '(a, s') := f s in (Ok a, s').
(** The [Result] as a value, for [let _ = ..], [if let Ok(..) = ..] and the like. *)
Definition attempt {A} (m : op S E A) : op S E (E + A) := fun s =>
  match m s with
  | (Ok a, s') => (Ok (inr a), s')
  | (Err e, s') => (Ok (inl e), s')
  | (Panic p, s') => (Panic p, s')
  end.
Definition ignore {A} (m : op S E A) : op S E () := _ ← attempt m; mret ().
(** [for_each], and a [for] loop whose body may return early by [?]. *)
Fixpoint for_each {A} (f : A -> op S E ()) (l : list A) : op S E () :=
  match l with
  | [] => mret ()
  | a :: l' => _ ← f a; for_each f l'
  end.
(** A value in scope is dropped when the operation fails or panics. *)
Definition or_drop {A} (drop_it : S -> S) (m : op S E A) : op S E A := fun s =>
  match m s with
  | (Ok a, s') => (Ok a, s')
  | (Err e, s') => (Err e, drop_it s')
  | (Panic p, s') => (Panic p, drop_it s')
  end.
(** An operation on a part of the state. *)
Definition zoom {T A} (get : S -> T) (set : T -> S -> S) (m : op T E A) : op S E A := fun s =>
  let '(o, t) := m (get s) in (o, set t s).

(** Operations that start alike in a state stay alike. *)
Lemma bind_same {A B} (m m' : op S E A) (k : A -> op S E B) s : m s = m' s -> (m ≫= k) s = (m' ≫= k) s.
Proof. intros Hm. unfold mbind, op_bind. by rewrite Hm. Qed.

Lemma for_each_nil {A} (f : A -> op S E ()) s : for_each f [] s = (Ok (), s).
Proof. done. Qed.

(** An operation all of whose runs preserve a property of the state, whatever the outcome. *)
Definition preserves {A} (P : S -> Prop) (m : op S E A) : Prop := forall s, P s -> P (m s).2.

(** The general form: [Q] after success, [R] after a failure. *)
Definition hoare {A} (P : S -> Prop) (m : op S E A) (Q : A -> S -> Prop) (R : S -> Prop) : Prop :=
  forall s, P s -> match m s with (Ok a, s') => Q a s' | (_, s') => R s' end.

Lemma hoare_preserves {A} P (m : op S E A) : hoare P m (fun _ => P) P <-> preserves P m.
Proof. split; intros Hm s Hs; specialize (Hm s Hs); by destruct (m s) as [[] s']. Qed.
Lemma hoare_weaken {A} P P' (m : op S E A) Q Q' R R' : hoare P m Q R ->
  (forall s, P' s -> P s) -> (forall a s, Q a s -> Q' a s) -> (forall s, R s -> R' s) -> hoare P' m Q' R'.
Proof. intros Hm HP HQ HR s Hs. specialize (Hm s (HP s Hs)). destruct (m s) as [[] s']; auto. Qed.
Lemma hoare_bind {A B} P (m : op S E A) (k : A -> op S E B) Q Q' R :
  hoare P m Q R -> (forall a, hoare (Q a) (k a) Q' R) -> hoare P (m ≫= k) Q' R.
Proof.
  intros Hm Hk s Hs. specialize (Hm s Hs). unfold mbind, op_bind.
  destruct (m s) as [[a|e|p] s']; [by apply Hk|done..].
Qed.
Lemma hoare_ret {A} (a : A) (Q : A -> S -> Prop) R : hoare (Q a) (mret a) Q R.
Proof. by intros s. Qed.
Context (P : S -> Prop).
Lemma preserves_ret {A} (a : A) : preserves P (mret a).
Proof. by intros s. Qed.
Lemma preserves_lift {A} (o : outcome E A) : preserves P (lift o).
Proof. by intros s. Qed.
Lemma preserves_gets {A} (f : S -> A) : preserves P (gets f).
Proof. by intros s. Qed.
Lemma preserves_fail {A} e : preserves P (fail (A:=A) e).
Proof. by intros s. Qed.
Lemma preserves_modify f : (forall s, P s -> P (f s)) -> preserves P (modify f).
Proof. intros Hf s. apply Hf. Qed.
Lemma preserves_effect {A} (f : S -> A * S) : (forall s, P s -> P (f s).2) -> preserves P (effect f).
Proof. intros Hf s Hs. specialize (Hf s Hs). unfold effect. by destruct (f s). Qed.
Lemma preserves_bind {A B} (m : op S E A) (k : A -> op S E B) :
  preserves P m -> (forall a, preserves P (k a)) -> preserves P (m ≫= k).
Proof.
  intros Hm Hk s Hs. specialize (Hm s Hs). unfold mbind, op_bind.
  destruct (m s) as [[a|e|p] s']; [by apply Hk|done..].
Qed.
Lemma preserves_attempt {A} (m : op S E A) : preserves P m -> preserves P (attempt m).
Proof. intros Hm s Hs. specialize (Hm s Hs). unfold attempt. by destruct (m s) as [[]]. Qed.
Lemma preserves_ignore {A} (m : op S E A) : preserves P m -> preserves P (ignore m).
Proof. intros Hm. apply preserves_bind; [by apply preserves_attempt|]. intros ?. apply preserves_ret. Qed.
Lemma preserves_or_drop {A} drop_it (m : op S E A) : (forall s, P s -> P (drop_it s)) -> preserves P m -> preserves P (or_drop drop_it m).
Proof. intros Hd Hm s Hs. specialize (Hm s Hs). unfold or_drop. destruct (m s) as [[]]; [done|by apply Hd..]. Qed.
Lemma preserves_for_each {A} (f : A -> op S E ()) l :
  (forall a, a ∈ l -> preserves P (f a)) -> preserves P (for_each f l).
Proof.
  induction l as [|a l IH]; intros Hf; [apply preserves_ret|]. cbn.
  apply preserves_bind; [apply Hf; left|]. intros _. apply IH. intros b Hb. apply Hf. by right.
Qed.
End op.

Lemma fst_eq_pair {A B} (p : A * B) a : p.1 = a -> p = (a, p.2).
Proof. destruct p. by intros <-. Qed.

Section run.
Context {S E A B : Type}.
Implicit Types s : S.

Lemma bind_gets {C} (f : S -> C) (k : C -> op S E B) s : (gets f ≫= k) s = k (f s) s.
Proof. done. Qed.
Lemma bind_modify (f : S -> S) (k : () -> op S E B) s : (modify f ≫= k) s = k () (f s).
Proof. done. Qed.
Lemma bind_ret (a : A) (k : A -> op S E B) s : (mret a ≫= k) s = k a s.
Proof. done. Qed.
Lemma bind_fail e (k : A -> op S E B) s : (fail e ≫= k) s = (Err e, s).
Proof. done. Qed.
Lemma bind_lift_Ok (a : A) (k : A -> op S E B) s : (lift (Ok a) ≫= k) s = k a s.
Proof. done. Qed.
Lemma bind_bind {C} (m : op S E A) (k : A -> op S E B) (h : B -> op S E C) s :
  ((m ≫= k) ≫= h) s = (m ≫= fun a => k a ≫= h) s.
Proof. unfold mbind, op_bind. by destruct (m s) as [[]]. Qed.
Lemma bind_effect (f : S -> A * S) (k : A -> op S E B) s :
  (effect f ≫= k) s = k (f s).1 (f s).2.
Proof. unfold mbind, op_bind, effect. by destruct (f s). Qed.
Lemma ret_run (a : A) s : (mret a : op S E A) s = (Ok a, s).
Proof. done. Qed.
Lemma fail_run e s : (fail e : op S E A) s = (Err e, s).
Proof. done. Qed.
Lemma bind_Ok (m : op S E A) (k : A -> op S E B) s a s' : m s = (Ok a, s') -> (m ≫= k) s = k a s'.
Proof. unfold mbind, op_bind. by intros ->. Qed.
Lemma bind_Err (m : op S E A) (k : A -> op S E B) s e s' : m s = (Err e, s') -> (m ≫= k) s = (Err e, s').
Proof. unfold mbind, op_bind. by intros ->. Qed.
Lemma op_bind_Ok_inv (m : op S E A) (k : A -> op S E B) s b s' : (m ≫= k) s = (Ok b, s') ->
  exists a s1, m s = (Ok a, s1) /\ k a s1 = (Ok b, s').
Proof. unfold mbind, op_bind. destruct (m s) as [[a|e|p] s1]; [eauto|discriminate..]. Qed.
Lemma ignore_Ok (m : op S E A) s a s' : m s = (Ok a, s') -> ignore m s = (Ok (), s').
Proof. unfold ignore, attempt, mbind, op_bind. by intros ->. Qed.
Lemma ignore_Err (m : op S E A) s e s' : m s = (Err e, s') -> ignore m s = (Ok (), s').
Proof. unfold ignore, attempt, mbind, op_bind. by intros ->. Qed.
Lemma bind_attempt_Ok (m : op S E A) (k : E + A -> op S E B) s a s' : m s = (Ok a, s') ->
  (attempt m ≫= k) s = k (inr a) s'.
Proof. unfold attempt, mbind, op_bind. by intros ->. Qed.
Lemma bind_attempt_Err (m : op S E A) (k : E + A -> op S E B) s e s' : m s = (Err e, s') ->
  (attempt m ≫= k) s = k (inl e) s'.
Proof. unfold attempt, mbind, op_bind. by intros ->. Qed.
Lemma bind_attempt_Panic (m : op S E A) (k : E + A -> op S E B) s p s' : m s = (Panic p, s') ->
  (attempt m ≫= k) s = (Panic p, s').
Proof. unfold attempt, mbind, op_bind. by intros ->. Qed.
Lemma bind_Panic (m : op S E A) (k : A -> op S E B) s p s' : m s = (Panic p, s') -> (m ≫= k) s = (Panic p, s').
Proof. unfold mbind, op_bind. by intros ->. Qed.
End run.

(** Running the operations whose effect is known. *)
Create Rewrite HintDb run_op.
#[export] Hint Rewrite @bind_gets @bind_modify @bind_ret @bind_fail @bind_lift_Ok @bind_bind @bind_effect
  @ret_run @fail_run : run_op.
Ltac run_op := autorewrite with run_op; cbv beta iota.

Create HintDb preserves.
#[export] Hint Resolve preserves_ret preserves_lift preserves_gets preserves_fail preserves_modify
  preserves_effect preserves_bind preserves_attempt preserves_ignore preserves_for_each : preserves.
