(* ===== verification/Float64.v ===== *)
(** * IEEE binary64 ([f64])

    The program's [f64] is the Standard Library's executable specification of
    binary64 ([SpecFloat] at precision 53, maximal exponent 1024, round to nearest,
    ties to even).  This file adds the operations of Rust's [f64] the program uses
    ([as] casts, [floor], [round], [powi], [total_cmp]) and the lemmas that turn a
    rounded result into a statement about integers. *)
From stdpp Require Import base list option numbers.
From Stdlib Require Import ZArith Lia SpecFloat.
From S2P Require Import Prelude.
Local Open Scope Z_scope.

Abbreviation f64 := spec_float (only parsing).
Abbreviation binary_round_aux64 := (binary_round_aux 53 1024).

Definition f64_add : f64 -> f64 -> f64 := SFadd 53 1024.
Definition f64_sub : f64 -> f64 -> f64 := SFsub 53 1024.
Definition f64_mul : f64 -> f64 -> f64 := SFmul 53 1024.
Definition f64_div : f64 -> f64 -> f64 := SFdiv 53 1024.
Definition f64_sqrt : f64 -> f64 := SFsqrt 53 1024.
Definition f64_ltb : f64 -> f64 -> bool := SFltb.
Definition f64_leb : f64 -> f64 -> bool := SFleb.
Definition f64_eqb : f64 -> f64 -> bool := SFeqb.

(** [z as f64] for an integer [z] of any type. *)
Definition f64_of_Z (z : Z) : f64 := binary_normalize 53 1024 z 0 false.

(** A decimal literal [n / 10^k]: both integers are below 2^53 in the program's
    literals and [10^k <= 10^22], so the correctly rounded quotient is the literal. *)
Definition f64_lit (n d : Z) : f64 := f64_div (f64_of_Z n) (f64_of_Z d).

(** Integer parts of a finite value. *)
Definition floor_Z (s : bool) (m : positive) (e : Z) : Z :=
  if 0 <=? e then cond_Zopp s (Zpos m * 2 ^ e) else cond_Zopp s (Zpos m) / 2 ^ (- e).
Definition trunc_Z (s : bool) (m : positive) (e : Z) : Z :=
  cond_Zopp s (if 0 <=? e then Zpos m * 2 ^ e else Zpos m / 2 ^ (- e)).
Definition round_Z (s : bool) (m : positive) (e : Z) : Z :=
  cond_Zopp s (if 0 <=? e then Zpos m * 2 ^ e
               else (2 * Zpos m + 2 ^ (- e)) / (2 * 2 ^ (- e))).

(** [f64::floor] and [f64::round] (half away from zero). *)
Definition f64_floor (x : f64) : f64 :=
  match x with
  | S754_finite s m e => binary_normalize 53 1024 (floor_Z s m e) 0 s
  | _ => x
  end.
Definition f64_round (x : f64) : f64 :=
  match x with
  | S754_finite s m e => binary_normalize 53 1024 (round_Z s m e) 0 s
  | _ => x
  end.

(** [x as uN] / [x as iN]: truncate toward zero, saturate, NaN to 0. *)
Definition f64_as (lo hi : Z) (x : f64) : Z :=
  match x with
  | S754_zero _ | S754_nan => 0
  | S754_infinity s => if s then lo else hi
  | S754_finite s m e => Z.max lo (Z.min hi (trunc_Z s m e))
  end.
Definition f64_as_u (w : Z) : f64 -> Z := f64_as 0 (u_max w).

(** [f64::powi] with a small non-negative exponent, by repeated multiplication. *)
Fixpoint f64_powi (x : f64) (n : nat) : f64 :=
  match n with
  | O => f64_of_Z 1
  | S O => x
  | S n' => f64_mul x (f64_powi x n')
  end.

(** [Iterator::sum::<f64>]: a left fold from zero. *)
Definition f64_sum (l : list f64) : f64 := fold_left f64_add l (S754_zero false).

(** [f64::total_cmp] on the values the program sorts, none of which is a NaN. *)
Definition f64_total_cmp (x y : f64) : comparison :=
  match x, y with
  | S754_zero s, S754_zero t =>
      match s, t with true, false => Lt | false, true => Gt | _, _ => Eq end
  | _, _ => match SFcompare x y with Some c => c | None => Eq end
  end.
Definition f64_total_leb (x y : f64) : bool :=
  match f64_total_cmp x y with Gt => false | _ => true end.

(** ** Shifting right with a rounding location *)

(** Where the fractional part of [N / D] lies. *)
Definition loc_of (N D : Z) : location :=
  if N mod D =? 0 then loc_Exact else loc_Inexact (2 * (N mod D) ?= D).

(** [N / D] rounded to the nearest integer, ties to even. *)
Definition rne (N D : Z) : Z := round_nearest_even (N / D) (loc_of N D).

Definition shr_rep (mrs : shr_record) (N D : Z) : Prop :=
  shr_m mrs = N / D /\ loc_of_shr_record mrs = loc_of N D.

Lemma shr_rep_of_loc N D : shr_rep (shr_record_of_loc (N / D) (loc_of N D)) N D.
Proof.
  unfold shr_rep, loc_of. destruct (N mod D =? 0); [done|].
  by destruct (2 * (N mod D) ?= D).
Qed.

Lemma div_mod_double N D : 0 < D ->
  N / (2 * D) = (N / D) / 2 /\ N mod (2 * D) = ((N / D) mod 2) * D + N mod D.
Proof.
  intros HD. rewrite (Z.mul_comm 2 D), <-Z.div_div by lia. split; [done|].
  rewrite (Z.mod_eq N (D * 2)), (Z.mod_eq N D), (Z.mod_eq (N / D) 2) by lia.
  rewrite Z.div_div by lia. ring.
Qed.

Lemma shr_1_m mrs : 0 <= shr_m mrs -> shr_m (shr_1 mrs) = shr_m mrs / 2.
Proof.
  destruct mrs as [m r s]; cbn. intros Hm.
  destruct m as [|[p|p|]|p]; cbn; try done.
  - by rewrite Pos2Z.inj_xI, Z.mul_comm, Z.div_add_l by lia.
  - by rewrite Pos2Z.inj_xO, Z.mul_comm, Z.div_mul by lia.
Qed.

Lemma loc_of_shr_1 mrs : 0 <= shr_m mrs ->
  loc_of_shr_record (shr_1 mrs) =
    match Z.odd (shr_m mrs), loc_of_shr_record mrs with
    | false, loc_Exact => loc_Exact
    | false, _ => loc_Inexact Lt
    | true, loc_Exact => loc_Inexact Eq
    | true, _ => loc_Inexact Gt
    end.
Proof.
  destruct mrs as [m r s]; cbn. intros Hm.
  destruct m as [|[p|p|]|p], r, s; cbn; done.
Qed.

Lemma loc_of_double N D : 0 < D ->
  loc_of N (2 * D) =
    match Z.odd (N / D), loc_of N D with
    | false, loc_Exact => loc_Exact
    | false, _ => loc_Inexact Lt
    | true, loc_Exact => loc_Inexact Eq
    | true, _ => loc_Inexact Gt
    end.
Proof.
  intros HD. destruct (div_mod_double N D HD) as [_ Hm]. unfold loc_of. rewrite Hm.
  rewrite Zmod_odd. pose proof (Z.mod_pos_bound N D HD).
  destruct (Z.odd (N / D)), (Z.eqb_spec (N mod D) 0) as [->|?].
  - rewrite (proj2 (Z.eqb_neq _ 0)) by lia. f_equal. apply Z.compare_eq_iff. lia.
  - rewrite (proj2 (Z.eqb_neq _ 0)) by lia.
    assert ((2 * (1 * D + N mod D) ?= 2 * D) = Gt) as -> by (apply Z.compare_gt_iff; lia).
    done.
  - done.
  - rewrite (proj2 (Z.eqb_neq _ 0)) by lia.
    assert ((2 * (0 * D + N mod D) ?= 2 * D) = Lt) as -> by (apply Z.compare_lt_iff; lia).
    done.
Qed.

Lemma shr_1_rep mrs N D : 0 <= N -> 0 < D ->
  shr_rep mrs N D -> shr_rep (shr_1 mrs) N (2 * D).
Proof.
  intros HN HD [Hm Hl].
  assert (0 <= shr_m mrs) by (rewrite Hm; apply Z.div_pos; lia).
  split.
  - rewrite shr_1_m by done. rewrite Hm. symmetry. by apply div_mod_double.
  - rewrite loc_of_shr_1 by done. by rewrite Hm, Hl, loc_of_double by done.
Qed.

Lemma pow2_double k : 0 <= k -> 2 ^ (2 * k) = 2 ^ k * 2 ^ k.
Proof. intros Hk. rewrite <-Z.pow_add_r by lia. f_equal. lia. Qed.

Lemma iter_shr_1_rep p mrs N D : 0 <= N -> 0 < D ->
  shr_rep mrs N D -> shr_rep (iter_pos shr_1 p mrs) N (D * 2 ^ Zpos p).
Proof.
  intros HN. revert mrs D. induction p as [p IH|p IH|]; intros mrs D HD Hr; cbn [iter_pos].
  - replace (D * 2 ^ Zpos p~1) with ((2 * D * 2 ^ Zpos p) * 2 ^ Zpos p).
    { apply IH; [lia|]. apply IH; [lia|]. by apply shr_1_rep. }
    rewrite (Pos2Z.inj_xI p), Z.pow_add_r, pow2_double by lia. ring.
  - replace (D * 2 ^ Zpos p~0) with ((D * 2 ^ Zpos p) * 2 ^ Zpos p).
    { apply IH; [lia|]. by apply IH. }
    rewrite (Pos2Z.inj_xO p), pow2_double by lia. ring.
  - rewrite Z.pow_1_r, Z.mul_comm. by apply shr_1_rep.
Qed.

Lemma shr_spec mrs N D e n : 0 <= N -> 0 < D -> shr_rep mrs N D ->
  shr_rep (fst (shr mrs e n)) N (D * 2 ^ Z.max 0 n) /\ snd (shr mrs e n) = e + Z.max 0 n.
Proof.
  intros HN HD Hr. destruct n as [|p|p]; cbn [shr fst snd].
  - rewrite Z.max_id, Z.pow_0_r, Z.mul_1_r. split; [done|lia].
  - rewrite (Z.max_r 0 (Zpos p)) by lia. split; [by apply iter_shr_1_rep|done].
  - rewrite Z.max_l by lia. rewrite Z.pow_0_r, Z.mul_1_r. split; [done|lia].
Qed.

(** ** Rounding to nearest *)

Lemma rne_spec N D : 0 < D -> 2 * Z.abs (rne N D * D - N) <= D.
Proof.
  intros HD. unfold rne, loc_of.
  pose proof (Z.div_mod N D ltac:(lia)) as HN. pose proof (Z.mod_pos_bound N D HD).
  destruct (Z.eqb_spec (N mod D) 0) as [Hz|Hz]; cbn [round_nearest_even].
  { rewrite Hz in HN. nia. }
  destruct (Z.compare_spec (2 * (N mod D)) D); cbn; [destruct (Z.even _)| |]; nia.
Qed.

Lemma rne_bounds N D lo hi : 0 < D -> lo * D <= N -> N <= hi * D -> lo <= rne N D <= hi.
Proof.
  intros HD Hlo Hhi. pose proof (rne_spec N D HD).
  split; apply Z.lt_succ_r; apply (Z.mul_lt_mono_pos_r D); lia.
Qed.

Lemma rne_exact k D : 0 < D -> rne (k * D) D = k.
Proof. intros HD. pose proof (rne_bounds (k * D) D k k HD ltac:(lia) ltac:(lia)). lia. Qed.

Lemma Zdigits2_spec m : 0 < m -> 2 ^ (Zdigits2 m - 1) <= m < 2 ^ Zdigits2 m.
Proof.
  intros Hm. destruct m as [|p|p]; try lia. clear Hm. cbn [Zdigits2].
  assert (forall q, 2 ^ (Zpos (digits2_pos q) - 1) <= Zpos q < 2 ^ Zpos (digits2_pos q)) as H;
    [|apply H].
  induction q as [q IH|q IH|]; cbn [digits2_pos]; [| |done].
  - rewrite (Pos2Z.inj_xI q), Pos2Z.inj_succ.
    replace (Z.succ (Zpos (digits2_pos q)) - 1) with (Z.succ (Zpos (digits2_pos q) - 1)) by lia.
    rewrite !Z.pow_succ_r by lia. lia.
  - rewrite (Pos2Z.inj_xO q), Pos2Z.inj_succ.
    replace (Z.succ (Zpos (digits2_pos q)) - 1) with (Z.succ (Zpos (digits2_pos q) - 1)) by lia.
    rewrite !Z.pow_succ_r by lia. lia.
Qed.

Lemma Zdigits2_gt m d : 0 <= d -> 2 ^ d <= m -> d < Zdigits2 m.
Proof.
  intros Hd Hm. destruct (Zdigits2_spec m) as [_ H]; [lia|].
  apply (Z.pow_lt_mono_r_iff 2); [lia|destruct m; cbn; lia|lia].
Qed.

Lemma Zdigits2_unique m d : 0 < d -> 2 ^ (d - 1) <= m < 2 ^ d -> Zdigits2 m = d.
Proof.
  intros Hd [H1 H2]. assert (0 < m) by (assert (0 < 2 ^ (d - 1)) by lia; lia).
  destruct (Zdigits2_spec m ltac:(done)) as [H3 H4].
  assert (0 < Zdigits2 m) by (destruct m; cbn; lia).
  assert (d - 1 < Zdigits2 m) by (apply (Z.pow_lt_mono_r_iff 2); lia).
  assert (Zdigits2 m - 1 < d) by (apply (Z.pow_lt_mono_r_iff 2); lia). lia.
Qed.

Lemma fexp64_normal x : -1021 <= x -> fexp 53 1024 x = x - 53.
Proof. intros Hx. unfold fexp, emin. lia. Qed.

(** Rounding the integer mantissa [m] at exponent [e]. *)
Lemma shr_fexp_exact_id m e : 2 ^ 52 <= m < 2 ^ 53 -> -1074 <= e ->
  shr_fexp 53 1024 m e loc_Exact = (Build_shr_record m false false, e).
Proof.
  intros Hm He. unfold shr_fexp. rewrite (Zdigits2_unique m 53) by lia.
  rewrite fexp64_normal by lia. by replace (53 + e - 53 - e) with 0 by lia.
Qed.

(** [m] is a normalised mantissa, nearest to [N] in units of [U]; at the bottom of a
    binade, where the next lower float is half a unit away, within a quarter unit. *)
Definition near (m N U : Z) : Prop :=
  2 ^ 52 <= m < 2 ^ 53 /\ 2 * Z.abs (m * U - N) <= U /\ (m = 2 ^ 52 -> 4 * (m * U - N) <= U).

Lemma near_scale c m N U : 0 < c -> near m (N * c) (U * c) <-> near m N U.
Proof.
  intros Hc. unfold near.
  replace (m * (U * c) - N * c) with ((m * U - N) * c) by ring.
  rewrite Z.abs_mul, (Z.abs_eq c) by lia.
  rewrite !Z.mul_assoc, <-!(Z.mul_le_mono_pos_r _ _ c) by done. done.
Qed.

(** What rounding to 53 bits gives on [N / D * 2^e] (normal range): a normalised
    mantissa [m], [k] bits shorter than the quotient, nearest to the exact value. *)
Lemma binary_round_aux_spec s N D e : 0 < D -> 0 <= N ->
  53 <= Zdigits2 (N / D) -> -1021 <= Zdigits2 (N / D) + e <= 1023 ->
  exists m k, binary_round_aux64 s (N / D) e (loc_of N D) = S754_finite s m (e + k) /\
    0 <= k <= Zdigits2 (N / D) - 52 /\ near (Zpos m) N (D * 2 ^ k).
Proof.
  intros HD HN Hd He. set (d := Zdigits2 (N / D)) in *. set (k := d - 53).
  assert (Hq : 0 < N / D).
  { destruct (N / D) eqn:E; cbn in d; [lia|lia|].
    pose proof (Z.div_pos N D). lia. }
  destruct (Zdigits2_spec (N / D) Hq) as [Hlo Hhi]. fold d in Hlo, Hhi.
  assert (HkD : 0 < D * 2 ^ k) by (apply Z.mul_pos_pos; lia).
  assert (2 ^ (d - 1) = 2 ^ 52 * 2 ^ k) as Elo by (rewrite <-Z.pow_add_r by lia; f_equal; lia).
  assert (2 ^ d = 2 ^ 53 * 2 ^ k) as Ehi by (rewrite <-Z.pow_add_r by lia; f_equal; lia).
  pose proof (Z.mul_div_le N D HD). pose proof (Z.mul_succ_div_gt N D HD).
  assert (2 ^ 52 * (D * 2 ^ k) <= N) as HNlo by nia.
  destruct (rne_bounds N (D * 2 ^ k) (2 ^ 52) (2 ^ 53) HkD) as [Hm1 Hm2]; [done|nia|].
  pose proof (rne_spec N (D * 2 ^ k) HkD) as Hr.
  unfold binary_round_aux. unfold shr_fexp at 1. fold d. rewrite fexp64_normal by lia.
  destruct (shr_spec _ N D e (d + e - 53 - e) HN HD (shr_rep_of_loc N D)) as [[Hsm Hsl] He'].
  rewrite Z.max_r in Hsm, Hsl, He' by lia.
  replace (d + e - 53 - e) with k in * by lia.
  destruct (shr _ e k) as [mrs e']. cbn [fst snd] in *. subst e'.
  rewrite Hsm, Hsl. fold (rne N (D * 2 ^ k)).
  destruct (decide (rne N (D * 2 ^ k) = 2 ^ 53)) as [E|E].
  - rewrite E in *. unfold shr_fexp. rewrite (Zdigits2_unique (2 ^ 53) 54) by lia.
    rewrite fexp64_normal by lia. replace (54 + (e + k) - 53 - (e + k)) with 1 by lia.
    cbn [shr shr_record_of_loc iter_pos]. change (shr_1 _) with (Build_shr_record (2 ^ 52) false false).
    cbn [shr_m Z.pow]. rewrite (proj2 (Z.leb_le _ _)) by lia.
    exists (2 ^ 52)%positive, (k + 1). split; [f_equal; lia|]. split; [lia|].
    rewrite (Z.pow_add_r 2 k 1) by lia. change (Z.pos (2 ^ 52)) with (2 ^ 52). unfold near.
    replace (2 ^ 52 * (D * (2 ^ k * 2 ^ 1))) with (2 ^ 53 * (D * 2 ^ k)) by ring. lia.
  - rewrite shr_fexp_exact_id by lia. cbn [shr_m].
    destruct (rne N (D * 2 ^ k)) as [|m|m] eqn:Em; try lia.
    rewrite (proj2 (Z.leb_le _ _)) by lia. exists m, k. split; [done|]. split; [lia|].
    unfold near. lia.
Qed.

Lemma loc_of_1 N : loc_of N 1 = loc_Exact.
Proof. unfold loc_of. by rewrite Z.mod_1_r. Qed.

(** The same for an exact integer mantissa. *)
Lemma binary_round_aux_exact s N e : 2 ^ 52 <= N -> -1021 <= Zdigits2 N + e <= 1023 ->
  exists m k, binary_round_aux64 s N e loc_Exact = S754_finite s m (e + k) /\
    0 <= k <= Zdigits2 N - 52 /\ near (Zpos m) N (2 ^ k).
Proof.
  intros HN He.
  destruct (binary_round_aux_spec s N 1 e) as (m & k & H1 & H2 & H3); rewrite ?Z.div_1_r; try lia.
  - destruct (Zdigits2_spec N) as [_ H]; [lia|].
    pose proof (Zdigits2_gt N 52). lia.
  - rewrite Z.div_1_r in H2. rewrite Z.div_1_r, loc_of_1 in H1.
    exists m, k. by rewrite Z.mul_1_l in H3.
Qed.

(** A nearest mantissa of an exactly representable value is that value's. *)
Lemma near_exact m e m0 e0 U V : 0 < U -> 0 < V -> 2 ^ 52 <= m0 < 2 ^ 53 ->
  near m (m0 * V) U -> (e <= e0 -> V = U * 2 ^ (e0 - e)) -> (e0 <= e -> U = V * 2 ^ (e - e0)) ->
  m = m0 /\ e = e0.
Proof.
  intros HU HV Hm0 (Hm & Hn & Hq) H1 H2.
  assert (m0 * V <= (2 ^ 53 - 1) * V) as Hm0V by (apply Z.mul_le_mono_nonneg_r; lia).
  destruct (Z.lt_trichotomy e e0) as [Hlt|[->|Hgt]].
  - exfalso. specialize (H1 ltac:(lia)).
    assert (2 <= 2 ^ (e0 - e)) by (change 2 with (2 ^ 1) at 1; apply Z.pow_le_mono_r; lia).
    assert (U * 2 <= V) by (rewrite H1; apply Z.mul_le_mono_nonneg_l; lia).
    assert (2 ^ 52 * V <= m0 * V) by (apply Z.mul_le_mono_nonneg_r; lia).
    assert (m * U <= (2 ^ 53 - 1) * U) by (apply Z.mul_le_mono_nonneg_r; lia). lia.
  - split; [|done]. rewrite Z.sub_diag, Z.pow_0_r, Z.mul_1_r in H1.
    rewrite (H1 ltac:(lia)) in *.
    replace (m * U - m0 * U) with ((m - m0) * U) in Hn by ring.
    rewrite Z.abs_mul, (Z.abs_eq U) in Hn by lia.
    assert (Z.abs (m - m0) < 1) by (apply (Z.mul_lt_mono_pos_r U); lia). lia.
  - exfalso. specialize (H2 ltac:(lia)).
    assert (2 <= 2 ^ (e - e0)) by (change 2 with (2 ^ 1) at 1; apply Z.pow_le_mono_r; lia).
    assert (V * 2 <= U) by (rewrite H2; apply Z.mul_le_mono_nonneg_l; lia).
    destruct (Z.eq_dec m (2 ^ 52)) as [->|]; [specialize (Hq eq_refl); lia|].
    assert ((2 ^ 52 + 1) * U <= m * U) by (apply Z.mul_le_mono_nonneg_r; lia). lia.
Qed.

(** ** The operations on normal positive values *)

Lemma iter_xO d m : Zpos (Pos.iter xO m d) = Zpos m * 2 ^ Zpos d.
Proof.
  induction d as [|d IH] using Pos.peano_ind; [cbn [Pos.iter]; lia|].
  rewrite Pos.iter_succ, (Pos2Z.inj_xO (Pos.iter _ _ _)), IH, Pos2Z.inj_succ, Z.pow_succ_r by lia. ring.
Qed.

(** An integer below 2^53 at any exponent is normalised exactly. *)
Lemma normalize_exact z e : 0 < z < 2 ^ 53 -> -900 <= e <= 900 ->
  exists m k, binary_normalize 53 1024 z e false = S754_finite false m (e - k) /\ 2 ^ 52 <= Zpos m < 2 ^ 53 /\
    0 <= k <= 52 /\ Zpos m = z * 2 ^ k.
Proof.
  intros Hz He. destruct z as [|p|p]; try lia. unfold binary_normalize, binary_round.
  destruct (Zdigits2_spec (Zpos p) ltac:(lia)) as [Hlo Hhi]. cbn [Zdigits2] in Hlo, Hhi.
  set (d := Zpos (digits2_pos p)) in *.
  assert (d - 1 < 53) by (apply (Z.pow_lt_mono_r_iff 2); lia).
  rewrite fexp64_normal by lia. unfold shl_align. replace (d + e - 53 - e) with (d - 53) by lia.
  replace (d + e - 53) with (e - (53 - d)) by lia.
  assert (exists m, (match d - 53 with Zneg d0 => (Pos.iter xO p d0, e - (53 - d)) | _ => (p, e) end)
    = (m, e - (53 - d)) /\ Zpos m = Zpos p * 2 ^ (53 - d)) as (m & -> & Hm).
  { destruct (d - 53) as [|x|x] eqn:E; [|lia|].
    - exists p. rewrite (ltac:(lia) : 53 - d = 0), Z.sub_0_r. split; [done|]. lia.
    - exists (Pos.iter xO p x). rewrite iter_xO, (ltac:(lia) : 53 - d = Zpos x). done. }
  assert (2 ^ 53 = 2 ^ d * 2 ^ (53 - d)) as E53 by (rewrite <-Z.pow_add_r by lia; f_equal; lia).
  assert (2 ^ 52 = 2 ^ (d - 1) * 2 ^ (53 - d)) as E52
    by (rewrite <-Z.pow_add_r by lia; f_equal; lia).
  assert (0 < 2 ^ (53 - d)) by lia.
  assert (2 ^ 52 <= Zpos m < 2 ^ 53) as Hb.
  { rewrite Hm, E52. split; [apply Z.mul_le_mono_nonneg_r; lia|].
    rewrite E53. apply Z.mul_lt_mono_pos_r; lia. }
  clear E52 E53. exists m, (53 - d). unfold binary_round_aux.
  rewrite shr_fexp_exact_id by lia. cbn [shr_m loc_of_shr_record round_nearest_even].
  rewrite shr_fexp_exact_id by lia. cbn [shr_m].
  rewrite (proj2 (Z.leb_le _ _)) by lia. split; [done|]. split; [done|]. split; [lia|done].
Qed.

(** [of_Z] is exact below 2^53. *)
Lemma f64_of_Z_exact z : 0 < z < 2 ^ 53 ->
  exists m e, f64_of_Z z = S754_finite false m e /\ 2 ^ 52 <= Zpos m < 2 ^ 53 /\
    -52 <= e <= 0 /\ Zpos m = z * 2 ^ (- e).
Proof.
  intros Hz. destruct (normalize_exact z 0 Hz ltac:(lia)) as (m & k & E & Hm & Hk & Ev).
  exists m, (0 - k). split; [exact E|]. split; [done|]. split; [lia|]. by replace (- (0 - k)) with k by lia.
Qed.

Lemma f64_mul_pos s1 m1 e1 s2 m2 e2 :
  2 ^ 52 <= Zpos m1 < 2 ^ 53 -> 2 ^ 52 <= Zpos m2 < 2 ^ 53 ->
  -1100 <= e1 + e2 <= 900 ->
  exists m k, f64_mul (S754_finite s1 m1 e1) (S754_finite s2 m2 e2)
      = S754_finite (xorb s1 s2) m (e1 + e2 + k) /\
    0 <= k <= 54 /\ near (Zpos m) (Zpos m1 * Zpos m2) (2 ^ k).
Proof.
  intros Hm1 Hm2 He. unfold f64_mul, SFmul. rewrite Pos2Z.inj_mul.
  assert (2 ^ 52 * 2 ^ 52 <= Zpos m1 * Zpos m2) by (apply Z.mul_le_mono_nonneg; lia).
  assert (Zpos m1 * Zpos m2 < 2 ^ 53 * 2 ^ 53) by (apply Z.mul_lt_mono_nonneg; lia).
  destruct (Zdigits2_spec (Zpos m1 * Zpos m2)) as [Hlo Hhi]; [lia|].
  assert (104 < Zdigits2 (Zpos m1 * Zpos m2)) by (apply Zdigits2_gt; lia).
  assert (Zdigits2 (Zpos m1 * Zpos m2) - 1 < 106) by (apply (Z.pow_lt_mono_r_iff 2); lia).
  destruct (binary_round_aux_exact (xorb s1 s2) (Zpos m1 * Zpos m2) (e1 + e2)) as (m & k & Hb1 & Hb2 & Hb3);
    [lia|lia|]. exists m, k. split; [done|]. split; [lia|done].
Qed.

Lemma new_location_spec N D : 0 < D -> new_location D (N mod D) = loc_of N D.
Proof.
  intros HD. pose proof (Z.mod_pos_bound N D HD).
  unfold new_location, new_location_even, new_location_odd, loc_of.
  destruct (Z.even D) eqn:E; [done|]. destruct (N mod D =? 0); [done|]. f_equal.
  assert (D = 2 * (D / 2) + 1).
  { rewrite (Z.div_mod D 2) at 1 by lia. rewrite Zmod_odd, <-Z.negb_even, E. done. }
  destruct (Z.compare_spec (2 * (N mod D) + 1) D), (Z.compare_spec (2 * (N mod D)) D); lia || done.
Qed.

Lemma f64_div_pos s1 m1 e1 s2 m2 e2 :
  2 ^ 52 <= Zpos m1 < 2 ^ 53 -> 2 ^ 52 <= Zpos m2 < 2 ^ 53 ->
  -1000 <= e1 - e2 <= 900 ->
  exists m k, f64_div (S754_finite s1 m1 e1) (S754_finite s2 m2 e2)
      = S754_finite (xorb s1 s2) m (e1 - e2 - 53 + k) /\
    0 <= k <= 2 /\ near (Zpos m) (Zpos m1 * 2 ^ 53) (Zpos m2 * 2 ^ k).
Proof.
  intros Hm1 Hm2 He. unfold f64_div, SFdiv, SFdiv_core_binary.
  rewrite (Zdigits2_unique (Zpos m1) 53), (Zdigits2_unique (Zpos m2) 53) by lia.
  rewrite fexp64_normal by lia.
  rewrite (Z.min_l (53 + e1 - (53 + e2) - 53)) by lia.
  replace (e1 - e2 - (53 + e1 - (53 + e2) - 53)) with 53 by lia.
  replace (53 + e1 - (53 + e2) - 53) with (e1 - e2 - 53) by lia.
  rewrite Z.shiftl_mul_pow2 by lia. set (N := Zpos m1 * 2 ^ 53).
  pose proof (Z_div_mod N (Zpos m2) ltac:(lia)) as Hdm.
  pose proof (Z.div_mod N (Zpos m2) ltac:(lia)) as Hdm'.
  unfold Z.div, Z.modulo in *.
  change (let (q, _) := Z.div_eucl N (Zpos m2) in q) with (N / Zpos m2).
  destruct (Z.div_eucl N (Zpos m2)) as [q r] eqn:Eqr.
  assert (q = N / Zpos m2) as -> by (unfold Z.div; by rewrite Eqr).
  assert (r = N mod Zpos m2) as -> by (unfold Z.modulo; by rewrite Eqr).
  clear Eqr Hdm Hdm'. rewrite new_location_spec by lia.
  assert (2 ^ 52 <= N / Zpos m2) by (apply Z.div_le_lower_bound; lia).
  assert (N / Zpos m2 < 2 ^ 54) by (apply Z.div_lt_upper_bound; lia).
  destruct (Zdigits2_spec (N / Zpos m2)) as [Hlo Hhi]; [lia|].
  assert (52 < Zdigits2 (N / Zpos m2)) by (apply Zdigits2_gt; lia).
  assert (Zdigits2 (N / Zpos m2) - 1 < 54) by (apply (Z.pow_lt_mono_r_iff 2); lia).
  destruct (binary_round_aux_spec (xorb s1 s2) N (Zpos m2) (e1 - e2 - 53)) as (m & k & Hb1 & Hb2 & Hb3);
    [lia|lia|lia|lia|]. exists m, k. split; [done|]. split; [lia|done].
Qed.

(** ** Floats as rationals

    [f64_near r N D x]: [x] is the float nearest to [N / D]; [f64_exact r N D x]:
    [x] is [N / D].  Both only of positive normal values, of exponent within [r]. *)
Definition f64_near (r N D : Z) (x : f64) : Prop :=
  exists m u v, x = S754_finite false m (v - u) /\ 0 <= u /\ 0 <= v /\ - r <= v - u <= r /\
    near (Zpos m) (N * 2 ^ u) (D * 2 ^ v).
Definition f64_exact (r N D : Z) (x : f64) : Prop :=
  exists m u v, x = S754_finite false m (v - u) /\ 0 <= u /\ 0 <= v /\ - r <= v - u <= r /\
    2 ^ 52 <= Zpos m < 2 ^ 53 /\ Zpos m * (D * 2 ^ v) = N * 2 ^ u.

Lemma f64_near_scale r c N D x : 0 < c -> f64_near r (N * c) (D * c) x <-> f64_near r N D x.
Proof.
  intros Hc. unfold f64_near.
  split; intros (m & u & v & H1 & H2 & H3 & H4 & H5); exists m, u, v;
    (do 4 (split; [done|])); revert H5;
    rewrite (ltac:(ring) : N * c * 2 ^ u = N * 2 ^ u * c),
      (ltac:(ring) : D * c * 2 ^ v = D * 2 ^ v * c); apply near_scale; done.
Qed.

Lemma f64_exact_near r N D x : 0 < D -> f64_exact r N D x -> f64_near r N D x.
Proof.
  intros HD (m & u & v & H1 & H2 & H3 & H4 & H5 & H6). exists m, u, v.
  do 4 (split; [done|]). unfold near. rewrite H6, Z.sub_diag.
  assert (0 < D * 2 ^ v) by (apply Z.mul_pos_pos; lia). lia.
Qed.

(** The nearest float to an exactly representable rational is that rational. *)
Lemma f64_near_exact r r' N D x y : 0 < D -> f64_near r N D x -> f64_exact r' N D y -> x = y.
Proof.
  intros HD (m & u & v & -> & Hu & Hv & Hr & Hn) (m0 & u0 & v0 & -> & Hu0 & Hv0 & Hr0 & Hm0 & E).
  assert (Hn' : near (Zpos m) (Zpos m0 * (D * 2 ^ (v0 + u))) (D * 2 ^ (v + u0))).
  { rewrite !Z.pow_add_r by lia.
    replace (Zpos m0 * (D * (2 ^ v0 * 2 ^ u))) with (Zpos m0 * (D * 2 ^ v0) * 2 ^ u) by ring.
    rewrite E. replace (N * 2 ^ u0 * 2 ^ u) with (N * 2 ^ u * 2 ^ u0) by ring.
    rewrite Z.mul_assoc. apply near_scale; [lia|done]. }
  assert (Hpow : forall a b c, 0 <= b -> 0 <= c -> a = b + c -> D * 2 ^ a = D * 2 ^ b * 2 ^ c).
  { intros a b c Hb Hc ->. rewrite Z.pow_add_r by lia. ring. }
  assert (HU : 0 < D * 2 ^ (v + u0)) by (apply Z.mul_pos_pos; lia).
  assert (HV : 0 < D * 2 ^ (v0 + u)) by (apply Z.mul_pos_pos; lia).
  destruct (near_exact (Zpos m) (v - u) (Zpos m0) (v0 - u0) _ _ HU HV Hm0 Hn') as [E1 E2].
  - intros ?. apply Hpow; lia.
  - intros ?. apply Hpow; lia.
  - congruence.
Qed.

Lemma f64_of_Z_is z : 0 < z < 2 ^ 53 -> f64_exact 52 z 1 (f64_of_Z z).
Proof.
  intros Hz. destruct (f64_of_Z_exact z Hz) as (m & e & E & Hm & He & Hv).
  exists m, (- e), 0. rewrite E, Z.pow_0_r, !Z.mul_1_r.
  split; [f_equal; lia|]. do 3 (split; [lia|]). done.
Qed.

Lemma f64_mul_near r1 r2 N1 D1 N2 D2 x y : 0 < D1 -> 0 < D2 -> r1 + r2 <= 900 ->
  f64_exact r1 N1 D1 x -> f64_exact r2 N2 D2 y ->
  f64_near (r1 + r2 + 54) (N1 * N2) (D1 * D2) (f64_mul x y).
Proof.
  intros HD1 HD2 Hr (m1 & u1 & v1 & -> & ? & ? & ? & Hm1 & E1) (m2 & u2 & v2 & -> & ? & ? & ? & Hm2 & E2).
  destruct (f64_mul_pos false m1 (v1 - u1) false m2 (v2 - u2)) as (m & k & -> & Hk & Hn); [done|done|lia|].
  exists m, (u1 + u2), (v1 + v2 + k). split; [cbn; f_equal; lia|].
  do 3 (split; [lia|]). rewrite !Z.pow_add_r by lia.
  replace (N1 * N2 * (2 ^ u1 * 2 ^ u2)) with ((N1 * 2 ^ u1) * (N2 * 2 ^ u2)) by ring.
  rewrite <-E1, <-E2.
  replace (Zpos m1 * (D1 * 2 ^ v1) * (Zpos m2 * (D2 * 2 ^ v2)))
    with (Zpos m1 * Zpos m2 * (D1 * 2 ^ v1 * (D2 * 2 ^ v2))) by ring.
  replace (D1 * D2 * (2 ^ v1 * 2 ^ v2 * 2 ^ k))
    with (2 ^ k * (D1 * 2 ^ v1 * (D2 * 2 ^ v2))) by ring.
  apply near_scale; [|done]. repeat apply Z.mul_pos_pos; lia.
Qed.

Lemma f64_div_near r1 r2 N1 D1 N2 D2 x y : 0 < D1 -> 0 < D2 -> 0 < N2 -> r1 + r2 <= 800 ->
  f64_exact r1 N1 D1 x -> f64_exact r2 N2 D2 y ->
  f64_near (r1 + r2 + 53) (N1 * D2) (D1 * N2) (f64_div x y).
Proof.
  intros HD1 HD2 HN2 Hr (m1 & u1 & v1 & -> & ? & ? & ? & Hm1 & E1) (m2 & u2 & v2 & -> & ? & ? & ? & Hm2 & E2).
  destruct (f64_div_pos false m1 (v1 - u1) false m2 (v2 - u2)) as (m & k & -> & Hk & Hn); [done|done|lia|].
  exists m, (u1 + v2 + 53), (v1 + u2 + k). split; [cbn; f_equal; lia|].
  do 3 (split; [lia|]). rewrite !Z.pow_add_r by lia.
  replace (N1 * D2 * (2 ^ u1 * 2 ^ v2 * 2 ^ 53)) with ((N1 * 2 ^ u1) * (D2 * 2 ^ v2) * 2 ^ 53) by ring.
  replace (D1 * N2 * (2 ^ v1 * 2 ^ u2 * 2 ^ k)) with (D1 * 2 ^ v1 * (N2 * 2 ^ u2) * 2 ^ k) by ring.
  rewrite <-E1, <-E2.
  replace (Zpos m1 * (D1 * 2 ^ v1) * (D2 * 2 ^ v2) * 2 ^ 53)
    with (Zpos m1 * 2 ^ 53 * (D1 * 2 ^ v1 * (D2 * 2 ^ v2))) by ring.
  replace (D1 * 2 ^ v1 * (Zpos m2 * (D2 * 2 ^ v2)) * 2 ^ k)
    with (Zpos m2 * 2 ^ k * (D1 * 2 ^ v1 * (D2 * 2 ^ v2))) by ring.
  apply near_scale; [|done]. repeat apply Z.mul_pos_pos; lia.
Qed.

(** Scaling by a power of two is exact. *)
Lemma f64_exact_pow2 j : 0 <= j <= 900 -> f64_exact 900 (2 ^ j) 1 (S754_finite false (2 ^ 52) (j - 52)).
Proof.
  intros Hj. exists (2 ^ 52)%positive, 52, j. split; [done|]. do 4 (split; [lia|]). lia.
Qed.

Lemma f64_of_Z_pow2 j : 0 <= j < 53 -> f64_of_Z (2 ^ j) = S754_finite false (2 ^ 52) (j - 52).
Proof.
  intros Hj. apply (f64_near_exact 52 900 (2 ^ j) 1); [lia| |by apply f64_exact_pow2; lia].
  apply f64_exact_near; [lia|]. apply f64_of_Z_is.
  assert (2 ^ j < 2 ^ 53) by (apply Z.pow_lt_mono_r; lia). lia.
Qed.

Lemma f64_mul_pow2 s m e j : 2 ^ 52 <= Zpos m < 2 ^ 53 -> 0 <= j < 53 -> -900 <= e <= 800 ->
  f64_mul (S754_finite s m e) (f64_of_Z (2 ^ j)) = S754_finite s m (e + j).
Proof.
  intros Hm Hj He. rewrite f64_of_Z_pow2 by done.
  destruct (f64_mul_pos s m e false (2 ^ 52) (j - 52)) as (m' & k & -> & Hk & Hn);
    [done|lia|lia|].
  destruct (near_exact (Zpos m') (k - 52) (Zpos m) 0 (2 ^ k) (2 ^ 52)) as [E1 E2]; try done; try lia.
  - intros ?. rewrite <-Z.pow_add_r by lia. f_equal. lia.
  - intros ?. rewrite <-Z.pow_add_r by lia. f_equal. lia.
  - injection E1 as ->. rewrite xorb_false_r. f_equal. lia.
Qed.

Lemma f64_div_pow2 s m e j : 2 ^ 52 <= Zpos m < 2 ^ 53 -> 0 <= j < 53 -> -800 <= e <= 800 ->
  f64_div (S754_finite s m e) (f64_of_Z (2 ^ j)) = S754_finite s m (e - j).
Proof.
  intros Hm Hj He. rewrite f64_of_Z_pow2 by done.
  destruct (f64_div_pos s m e false (2 ^ 52) (j - 52)) as (m' & k & -> & Hk & Hn);
    [done|lia|lia|].
  change (Z.pos (2 ^ 52)) with (2 ^ 52) in Hn.
  destruct (near_exact (Zpos m') (k - 1) (Zpos m) 0 (2 ^ 52 * 2 ^ k) (2 ^ 53)) as [E1 E2]; try done; try lia.
  - intros ?. rewrite <-!Z.pow_add_r by lia. f_equal. lia.
  - intros ?. rewrite <-!Z.pow_add_r by lia. f_equal. lia.
  - injection E1 as ->. rewrite xorb_false_r. f_equal. lia.
Qed.

Lemma f64_near_mul_pow2 r N D x j : 0 <= j < 53 -> 0 <= r <= 700 -> f64_near r N D x ->
  f64_near (r + 53) (N * 2 ^ j) D (f64_mul x (f64_of_Z (2 ^ j))).
Proof.
  intros Hj Hr (m & u & v & -> & Hu & Hv & Hb & Hn). destruct Hn as (Hm & Hn).
  rewrite f64_mul_pow2 by lia. exists m, u, (v + j).
  split; [f_equal; lia|]. do 3 (split; [lia|]).
  rewrite Z.pow_add_r, Z.mul_assoc by lia.
  replace (N * 2 ^ j * 2 ^ u) with (N * 2 ^ u * 2 ^ j) by ring.
  apply near_scale; [lia|]. by split.
Qed.

Lemma f64_near_div_pow2 r N D x j : 0 <= j < 53 -> 0 <= r <= 700 -> f64_near r N D x ->
  f64_near (r + 53) N (D * 2 ^ j) (f64_div x (f64_of_Z (2 ^ j))).
Proof.
  intros Hj Hr (m & u & v & -> & Hu & Hv & Hb & Hn). destruct Hn as (Hm & Hn).
  rewrite f64_div_pow2 by lia. exists m, (u + j), v.
  split; [f_equal; lia|]. do 3 (split; [lia|]).
  rewrite Z.pow_add_r, Z.mul_assoc by lia.
  replace (D * 2 ^ j * 2 ^ v) with (D * 2 ^ v * 2 ^ j) by ring.
  apply near_scale; [lia|]. by split.
Qed.

(** ** Integer parts of rounded values *)

(** A value below [2^53] has a non-positive exponent. *)
Lemma f64_near_nonpos r N D x : 0 < D -> N < (2 ^ 53 - 1) * D -> f64_near r N D x ->
  exists m p, x = S754_finite false m (- p) /\ 0 <= p /\ near (Zpos m) (N * 2 ^ p) D.
Proof.
  intros HD HN (m & u & v & -> & Hu & Hv & Hb & Hn).
  destruct (Z_le_gt_dec v u) as [Hle|Hgt].
  - exists m, (u - v). split; [f_equal; lia|]. split; [lia|].
    apply (near_scale (2 ^ v)); [lia|]. rewrite <-Z.mul_assoc, <-Z.pow_add_r by lia.
    by replace (u - v + v) with u by lia.
  - exfalso. destruct Hn as (Hm & Hn & _).
    assert (HU : 0 < 2 ^ u) by lia.
    assert (2 ^ v = 2 ^ (v - u) * 2 ^ u) as Ev by (rewrite <-Z.pow_add_r by lia; f_equal; lia).
    assert (2 <= 2 ^ (v - u)) by (change 2 with (2 ^ 1) at 1; apply Z.pow_le_mono_r; lia).
    assert (N * 2 ^ u < (2 ^ 53 - 1) * (D * 2 ^ u)).
    { rewrite Z.mul_assoc. apply Z.mul_lt_mono_pos_r; lia. }
    set (V := D * 2 ^ u) in *. assert (0 < V) by (apply Z.mul_pos_pos; lia).
    assert (D * 2 ^ v = 2 ^ (v - u) * V) as E by (rewrite Ev; unfold V; ring).
    rewrite E in Hn. assert (2 * V <= 2 ^ (v - u) * V) by (apply Z.mul_le_mono_nonneg_r; lia).
    assert (2 ^ 52 * (2 ^ (v - u) * V) <= Zpos m * (2 ^ (v - u) * V)) by (apply Z.mul_le_mono_nonneg_r; lia).
    lia.
Qed.

(** Rounding a quotient with a small numerator does not cross an integer. *)
Lemma near_floor m N D P : 0 < D -> 0 < P -> 0 < N < 2 ^ 53 - 1 ->
  near m (N * P) D -> m / P = N / D.
Proof.
  intros HD HP HN (Hm & Hn & _). symmetry. apply Z.div_unique with (m - P * (N / D)); [left|ring].
  pose proof (Z.mul_div_le N D HD) as Hq1. pose proof (Z.mul_succ_div_gt N D HD) as Hq2.
  set (q := N / D) in *. rewrite Z.mul_succ_r in Hq2.
  (* D < 2P, since the mantissa has 53 bits *)
  assert (2 ^ 52 * D <= m * D) as H1 by (apply Z.mul_le_mono_nonneg_r; lia).
  assert (D < 2 * P) as HDP.
  { assert (N * P <= (2 ^ 53 - 2) * P) by (apply Z.mul_le_mono_nonneg_r; lia). lia. }
  assert (D * q * P <= N * P) as H2 by (apply Z.mul_le_mono_nonneg_r; lia).
  assert (N * P <= (D * q + D - 1) * P) as H3 by (apply Z.mul_le_mono_nonneg_r; lia).
  split.
  - apply Zle_minus_le_0. apply Z.lt_succ_r, (Z.mul_lt_mono_pos_r D); lia.
  - apply Z.lt_sub_lt_add_r. apply (Z.mul_lt_mono_pos_r D); lia.
Qed.

Lemma f64_as_near r lo hi N D x : 0 < D -> 0 < N < 2 ^ 53 - 1 -> f64_near r N D x ->
  f64_as lo hi x = Z.max lo (Z.min hi (N / D)).
Proof.
  intros HD HN Hx. destruct (f64_near_nonpos r N D x) as (m & p & -> & Hp & Hn); [done|nia|done|].
  cbn [f64_as]. do 2 f_equal. unfold trunc_Z. cbn [cond_Zopp].
  rewrite Z.opp_involutive.
  rewrite <-(near_floor (Zpos m) N D (2 ^ p)) by (done || lia).
  destruct (Z.leb_spec 0 (- p)); [|done].
  assert (p = 0) as -> by lia. by rewrite Z.div_1_r, Z.mul_1_r.
Qed.

Lemma f64_floor_near r N D x : 0 < D -> 0 < N < 2 ^ 53 - 1 -> f64_near r N D x ->
  f64_floor x = f64_of_Z (N / D).
Proof.
  intros HD HN Hx. destruct (f64_near_nonpos r N D x) as (m & p & -> & Hp & Hn); [done|nia|done|].
  cbn [f64_floor]. unfold f64_of_Z. f_equal. unfold floor_Z. cbn [cond_Zopp].
  rewrite Z.opp_involutive.
  rewrite <-(near_floor (Zpos m) N D (2 ^ p)) by (done || lia).
  destruct (Z.leb_spec 0 (- p)); [|done].
  assert (p = 0) as -> by lia. by rewrite Z.div_1_r, Z.mul_1_r.
Qed.

(** Rounding an exact quotient, halves up. *)
Lemma f64_round_exact r N D x : 0 < D -> N < (2 ^ 53 - 1) * D -> f64_exact r N D x ->
  f64_round x = f64_of_Z ((2 * N + D) / (2 * D)).
Proof.
  intros HD HN (m & u & v & -> & Hu & Hv & Hb & Hm & E).
  assert (v <= u) as Huv.
  { destruct (Z_le_gt_dec v u); [done|exfalso].
    assert (2 ^ v = 2 ^ (v - u) * 2 ^ u) as Ev by (rewrite <-Z.pow_add_r by lia; f_equal; lia).
    assert (2 <= 2 ^ (v - u)) by (change 2 with (2 ^ 1) at 1; apply Z.pow_le_mono_r; lia).
    assert (Zpos m * D * 2 ^ (v - u) = N) by (apply (Z.mul_reg_r _ _ (2 ^ u)); lia).
    assert (2 ^ 52 * D * 2 <= Zpos m * D * 2 ^ (v - u)).
    { apply Z.mul_le_mono_nonneg; [lia|apply Z.mul_le_mono_nonneg_r; lia|lia|lia]. } lia. }
  set (p := u - v). assert (Ep : Zpos m * D = N * 2 ^ p).
  { apply (Z.mul_reg_r _ _ (2 ^ v)); [lia|].
    rewrite <-!Z.mul_assoc, <-Z.pow_add_r by lia. by replace (p + v) with u by lia. }
  cbn [f64_round]. unfold f64_of_Z. f_equal. unfold round_Z. cbn [cond_Zopp].
  replace (v - u) with (- p) by lia. rewrite Z.opp_involutive.
  assert (H2 : (2 * N + D) / (2 * D) = (2 * Zpos m + 2 ^ p) / (2 * 2 ^ p)).
  { rewrite <-(Z.div_mul_cancel_r (2 * N + D) (2 * D) (2 ^ p)) by lia.
    replace ((2 * N + D) * 2 ^ p) with (2 * (N * 2 ^ p) + D * 2 ^ p) by ring. rewrite <-Ep.
    replace (2 * (Zpos m * D) + D * 2 ^ p) with ((2 * Zpos m + 2 ^ p) * D) by ring.
    replace (2 * D * 2 ^ p) with (2 * 2 ^ p * D) by ring. apply Z.div_mul_cancel_r; lia. }
  rewrite H2. destruct (Z.leb_spec 0 (- p)); [|done].
  assert (p = 0) as -> by lia. cbn [Z.opp Z.pow]. rewrite Z.mul_1_r.
  apply Z.div_unique with 1; [left; lia|lia].
Qed.

(** ** Addition *)

Lemma shl_align_le m e e' : e' <= e -> Zpos (fst (shl_align m e e')) = Zpos m * 2 ^ (e - e').
Proof.
  intros He. unfold shl_align. destruct (e' - e) as [|p|p] eqn:E; [|lia|].
  - replace (e - e') with 0 by lia. cbn [fst]. lia.
  - cbn [fst]. rewrite iter_xO. by replace (e - e') with (Zpos p) by lia.
Qed.

Lemma binary_round_exact m e : 2 ^ 52 <= Zpos m -> -1021 <= Zdigits2 (Zpos m) + e <= 1023 ->
  exists m' k, binary_round 53 1024 false m e = S754_finite false m' (e + k) /\
    0 <= k <= Zdigits2 (Zpos m) - 52 /\ near (Zpos m') (Zpos m) (2 ^ k).
Proof.
  intros Hm He. unfold binary_round.
  pose proof (Zdigits2_gt (Zpos m) 52) as Hd. cbn [Zdigits2] in *.
  rewrite fexp64_normal by lia.
  assert (shl_align m e (Zpos (digits2_pos m) + e - 53) = (m, e)) as ->.
  { unfold shl_align. destruct (_ - e) eqn:E; [done|done|lia]. }
  apply (binary_round_aux_exact false (Zpos m) e Hm). cbn [Zdigits2]. lia.
Qed.

Lemma f64_add_pos m1 e1 m2 e2 :
  2 ^ 52 <= Zpos m1 < 2 ^ 53 -> 2 ^ 52 <= Zpos m2 < 2 ^ 53 ->
  -300 <= e1 <= 300 -> -300 <= e2 <= 300 ->
  let ez := Z.min e1 e2 in
  exists m k, f64_add (S754_finite false m1 e1) (S754_finite false m2 e2) = S754_finite false m (ez + k) /\
    0 <= k /\ near (Zpos m) (Zpos m1 * 2 ^ (e1 - ez) + Zpos m2 * 2 ^ (e2 - ez)) (2 ^ k).
Proof.
  intros Hm1 Hm2 He1 He2 ez. unfold f64_add, SFadd. cbn [cond_Zopp]. fold ez.
  pose proof (shl_align_le m1 e1 ez ltac:(lia)) as E1.
  pose proof (shl_align_le m2 e2 ez ltac:(lia)) as E2.
  set (a1 := fst (shl_align m1 e1 ez)) in *. set (a2 := fst (shl_align m2 e2 ez)) in *.
  rewrite <-E1, <-E2. change (Zpos a1 + Zpos a2) with (Zpos (a1 + a2)).
  cbn [binary_normalize].
  assert (forall a m e, Zpos a = Zpos m * 2 ^ (e - ez) -> 2 ^ 52 <= Zpos m < 2 ^ 53 ->
    0 <= e - ez <= 600 -> 2 ^ 52 <= Zpos a < 2 ^ 653) as Hb.
  { intros a m e -> Hm He. split.
    - assert (1 <= 2 ^ (e - ez)) by lia.
      replace (2 ^ 52) with (2 ^ 52 * 1) by lia. apply Z.mul_le_mono_nonneg; lia.
    - assert (2 ^ (e - ez) <= 2 ^ 600) by (apply Z.pow_le_mono_r; lia).
      change (2 ^ 653) with (2 ^ 53 * 2 ^ 600).
      apply Z.lt_le_trans with (2 ^ 53 * 2 ^ (e - ez)).
      + apply Z.mul_lt_mono_pos_r; lia.
      + apply Z.mul_le_mono_nonneg_l; lia. }
  assert (2 ^ 52 <= Zpos a1 < 2 ^ 653) by (apply (Hb a1 m1 e1); lia || done).
  assert (2 ^ 52 <= Zpos a2 < 2 ^ 653) by (apply (Hb a2 m2 e2); lia || done).
  destruct (Zdigits2_spec (Zpos (a1 + a2))) as [Hlo Hhi]; [lia|].
  assert (Zdigits2 (Zpos (a1 + a2)) - 1 < 654).
  { apply (Z.pow_lt_mono_r_iff 2); [lia|lia|]. change (2 ^ 654) with (2 ^ 653 + 2 ^ 653). lia. }
  pose proof (Zdigits2_gt (Zpos (a1 + a2)) 52 ltac:(lia) ltac:(lia)).
  destruct (binary_round_exact (a1 + a2) ez) as (m & k & Hr & Hk & Hn); [lia|lia|].
  exists m, k. split; [done|]. split; [lia|]. done.
Qed.

(** *** Sums and differences as rationals *)

Lemma normalize_near z e : 0 < z < 2 ^ 700 -> -300 <= e <= 300 ->
  exists m u v, binary_normalize 53 1024 z e false = S754_finite false m (e + v - u) /\ 0 <= u <= 52 /\ 0 <= v <= 700 /\
    near (Zpos m) (z * 2 ^ u) (2 ^ v).
Proof.
  intros Hz He. destruct (Z_lt_le_dec z (2 ^ 53)) as [Hs|Hl].
  - destruct (normalize_exact z e) as (m & k & E & Hm & Hk & Ev); [lia|lia|]. exists m, k, 0.
    split; [rewrite E; f_equal; lia|]. split; [done|]. split; [lia|]. rewrite <-Ev. unfold near. lia.
  - destruct z as [|p|p]; try lia. destruct (Zdigits2_spec (Zpos p)) as [Hlo Hhi]; [lia|].
    assert (Zdigits2 (Zpos p) - 1 < 700) by (apply (Z.pow_lt_mono_r_iff 2); lia).
    pose proof (Zdigits2_gt (Zpos p) 53 ltac:(lia) ltac:(lia)).
    destruct (binary_round_exact p e) as (m & k & E & Hk & Hn); [lia|lia|].
    exists m, 0, k. rewrite Z.mul_1_r. split; [cbn [binary_normalize]; rewrite E; f_equal; lia|]. split; [lia|]. split; [lia|done].
Qed.

(** The mantissa of [N / D], aligned to a smaller exponent [e]. *)
Lemma aligned N D m u v e s : 0 <= u -> 0 <= v -> e <= v - u -> v <= s -> e <= s -> Zpos m * (D * 2 ^ v) = N * 2 ^ u ->
  Zpos (fst (shl_align m (v - u) e)) * (D * 2 ^ s) = N * 2 ^ (s - e).
Proof.
  intros Hu Hv He Hs Hse E. rewrite shl_align_le by done.
  replace (2 ^ s) with (2 ^ v * 2 ^ (s - v)) by (rewrite <-Z.pow_add_r by lia; f_equal; lia).
  replace (Zpos m * 2 ^ (v - u - e) * (D * (2 ^ v * 2 ^ (s - v))))
    with (Zpos m * (D * 2 ^ v) * (2 ^ (v - u - e) * 2 ^ (s - v))) by ring.
  rewrite E, <-Z.pow_add_r, <-Z.mul_assoc, <-Z.pow_add_r by lia. do 2 f_equal. lia.
Qed.

Lemma aligned_bound m e e' : 2 ^ 52 <= Zpos m < 2 ^ 53 -> e' <= e -> e - e' <= 600 ->
  0 < Zpos (fst (shl_align m e e')) < 2 ^ 653.
Proof.
  intros Hm He Hd. rewrite shl_align_le by done. split; [apply Z.mul_pos_pos; lia|].
  change (2 ^ 653) with (2 ^ 53 * 2 ^ 600). assert (2 ^ (e - e') <= 2 ^ 600) by (apply Z.pow_le_mono_r; lia).
  apply Z.lt_le_trans with (2 ^ 53 * 2 ^ (e - e')); [apply Z.mul_lt_mono_pos_r; lia|apply Z.mul_le_mono_nonneg_l; lia].
Qed.

(** Rounding [z * 2^e], which is [N / D]. *)
Lemma normalize_rational z e N D s : 0 < z < 2 ^ 700 -> -300 <= e <= 300 -> 0 < D -> 0 <= s -> e <= s ->
  z * (D * 2 ^ s) = N * 2 ^ (s - e) -> f64_near 1100 N D (binary_normalize 53 1024 z e false).
Proof.
  intros Hz He HD Hs Hse E. destruct (normalize_near z e Hz He) as (m & u & v & -> & Hu & Hv & Hn).
  exists m, (s - e + u), (s + v). split; [f_equal; lia|]. do 3 (split; [lia|]).
  rewrite !Z.pow_add_r, !Z.mul_assoc, <-E by lia.
  replace (z * (D * 2 ^ s) * 2 ^ u) with (z * 2 ^ u * (D * 2 ^ s)) by ring.
  replace (D * 2 ^ s * 2 ^ v) with (2 ^ v * (D * 2 ^ s)) by ring. apply near_scale; [apply Z.mul_pos_pos; lia|done].
Qed.

Lemma f64_add_near r1 r2 N1 D1 N2 D2 x y : 0 < D1 -> 0 < D2 -> r1 <= 300 -> r2 <= 300 ->
  f64_exact r1 N1 D1 x -> f64_exact r2 N2 D2 y -> f64_near 1100 (N1 * D2 + N2 * D1) (D1 * D2) (f64_add x y).
Proof.
  intros HD1 HD2 Hr1 Hr2 (m1 & u1 & v1 & -> & ? & ? & ? & Hm1 & E1) (m2 & u2 & v2 & -> & ? & ? & ? & Hm2 & E2).
  unfold f64_add, SFadd. cbn [cond_Zopp]. set (e := Z.min (v1 - u1) (v2 - u2)). set (s := v1 + v2).
  pose proof (aligned N1 D1 m1 u1 v1 e s ltac:(lia) ltac:(lia) ltac:(lia) ltac:(lia) ltac:(lia) E1) as A1.
  pose proof (aligned N2 D2 m2 u2 v2 e s ltac:(lia) ltac:(lia) ltac:(lia) ltac:(lia) ltac:(lia) E2) as A2.
  pose proof (aligned_bound m1 (v1 - u1) e Hm1 ltac:(lia) ltac:(lia)) as B1.
  pose proof (aligned_bound m2 (v2 - u2) e Hm2 ltac:(lia) ltac:(lia)) as B2.
  apply (normalize_rational _ e _ _ s); [split; [lia|]|lia|lia|lia|lia|].
  - apply Z.lt_le_trans with (2 ^ 653 + 2 ^ 653); [lia|done].
  - transitivity (Zpos (fst (shl_align m1 (v1 - u1) e)) * (D1 * 2 ^ s) * D2 + Zpos (fst (shl_align m2 (v2 - u2) e)) * (D2 * 2 ^ s) * D1);
      [ring|rewrite A1, A2; ring].
Qed.

Lemma f64_sub_near r1 r2 N1 D1 N2 D2 x y : 0 < D1 -> 0 < D2 -> r1 <= 300 -> r2 <= 300 -> N2 * D1 < N1 * D2 ->
  f64_exact r1 N1 D1 x -> f64_exact r2 N2 D2 y -> f64_near 1100 (N1 * D2 - N2 * D1) (D1 * D2) (f64_sub x y).
Proof.
  intros HD1 HD2 Hr1 Hr2 Hlt (m1 & u1 & v1 & -> & ? & ? & ? & Hm1 & E1) (m2 & u2 & v2 & -> & ? & ? & ? & Hm2 & E2).
  unfold f64_sub, SFsub. cbn [cond_Zopp]. set (e := Z.min (v1 - u1) (v2 - u2)). set (s := v1 + v2).
  pose proof (aligned N1 D1 m1 u1 v1 e s ltac:(lia) ltac:(lia) ltac:(lia) ltac:(lia) ltac:(lia) E1) as A1.
  pose proof (aligned N2 D2 m2 u2 v2 e s ltac:(lia) ltac:(lia) ltac:(lia) ltac:(lia) ltac:(lia) E2) as A2.
  pose proof (aligned_bound m1 (v1 - u1) e Hm1 ltac:(lia) ltac:(lia)) as B1.
  pose proof (aligned_bound m2 (v2 - u2) e Hm2 ltac:(lia) ltac:(lia)) as B2.
  set (a1 := Zpos (fst (shl_align m1 _ e))) in *. set (a2 := Zpos (fst (shl_align m2 _ e))) in *.
  assert (E : (a1 - a2) * (D1 * D2 * 2 ^ s) = (N1 * D2 - N2 * D1) * 2 ^ (s - e)).
  { transitivity (a1 * (D1 * 2 ^ s) * D2 - a2 * (D2 * 2 ^ s) * D1); [ring|rewrite A1, A2; ring]. }
  assert (Hpos : 0 < a1 - a2).
  { apply (Z.mul_pos_cancel_r _ (D1 * D2 * 2 ^ s)); [repeat apply Z.mul_pos_pos; lia|]. rewrite E. apply Z.mul_pos_pos; lia. }
  apply (normalize_rational _ e _ _ s); [split; [lia|]|lia|lia|lia|lia|exact E].
  apply Z.lt_le_trans with (2 ^ 653); [lia|done].
Qed.

(** *** Small dyadic values are computed exactly *)

Lemma f64_dyadic N j : 0 < N < 2 ^ 53 -> 0 <= j <= 100 -> exists y, f64_exact 200 N (2 ^ j) y.
Proof.
  intros HN Hj. destruct (f64_of_Z_is N HN) as (m & u & v & _ & Hu & Hv & Hr & Hm & E).
  exists (S754_finite false m (v - (u + j))), m, (u + j), v. split; [done|]. do 3 (split; [lia|]). split; [done|].
  rewrite Z.pow_add_r by lia. replace (Zpos m * (2 ^ j * 2 ^ v)) with (Zpos m * (1 * 2 ^ v) * 2 ^ j) by ring. rewrite E. ring.
Qed.

Lemma f64_near_dyadic r N j x : 0 < N < 2 ^ 53 -> 0 <= j <= 100 -> f64_near r N (2 ^ j) x -> f64_exact 200 N (2 ^ j) x.
Proof.
  intros HN Hj Hx. destruct (f64_dyadic N j HN Hj) as (y & Hy). by rewrite (f64_near_exact r 200 N (2 ^ j) x y) by (done || lia).
Qed.

Lemma f64_near_integer r N x : 0 < N < 2 ^ 53 -> f64_near r N 1 x -> x = f64_of_Z N.
Proof. intros HN Hx. apply (f64_near_exact r 52 N 1); [lia|done|by apply f64_of_Z_is]. Qed.

Lemma f64_add_of_Z a b : 0 < a -> 0 < b -> a + b < 2 ^ 53 -> f64_add (f64_of_Z a) (f64_of_Z b) = f64_of_Z (a + b).
Proof.
  intros Ha Hb Hab. apply (f64_near_integer 1100); [lia|]. replace (a + b) with (a * 1 + b * 1) by ring.
  apply (f64_add_near 52 52 a 1 b 1); first [lia|apply f64_of_Z_is; lia].
Qed.
Lemma f64_sub_of_Z a b : 0 < b < a -> a < 2 ^ 53 -> f64_sub (f64_of_Z a) (f64_of_Z b) = f64_of_Z (a - b).
Proof.
  intros Hb Ha. apply (f64_near_integer 1100); [lia|]. replace (a - b) with (a * 1 - b * 1) by ring.
  apply (f64_sub_near 52 52 a 1 b 1); first [lia|apply f64_of_Z_is; lia].
Qed.

(** The floor of a quotient, of a product. *)
Lemma f64_floor_div r1 r2 N1 D1 N2 D2 x y : 0 < D1 -> 0 < D2 -> 0 < N2 -> r1 + r2 <= 800 -> 0 < N1 * D2 < 2 ^ 53 - 1 ->
  f64_exact r1 N1 D1 x -> f64_exact r2 N2 D2 y -> f64_floor (f64_div x y) = f64_of_Z (N1 * D2 / (D1 * N2)).
Proof.
  intros HD1 HD2 HN2 Hr HN Hx Hy. apply (f64_floor_near (r1 + r2 + 53)); [lia|done|by apply f64_div_near].
Qed.
Lemma f64_floor_mul r1 r2 N1 D1 N2 D2 x y : 0 < D1 -> 0 < D2 -> r1 + r2 <= 900 -> 0 < N1 * N2 < 2 ^ 53 - 1 ->
  f64_exact r1 N1 D1 x -> f64_exact r2 N2 D2 y -> f64_floor (f64_mul x y) = f64_of_Z (N1 * N2 / (D1 * D2)).
Proof.
  intros HD1 HD2 Hr HN Hx Hy. apply (f64_floor_near (r1 + r2 + 54)); [lia|done|by apply f64_mul_near].
Qed.

Lemma f64_as_of_Z lo hi z : 0 < z < 2 ^ 53 - 1 -> f64_as lo hi (f64_of_Z z) = Z.max lo (Z.min hi z).
Proof.
  intros Hz. rewrite <-(Z.div_1_r z) at 2. apply (f64_as_near 52); [lia|done|]. apply f64_exact_near; [lia|]. apply f64_of_Z_is. lia.
Qed.

(** *** Rounding errors, absolutely

    A value of 2^30 at most is within 2^-21 of what it rounds. *)

Lemma f64_near_value r N D x : 0 < D -> D <= N -> N <= 2 ^ 30 * D -> f64_near r N D x ->
  exists M P, f64_exact 200 M P x /\ 0 < P /\ 2 ^ 22 * Z.abs (M * D - N * P) <= 2 * P * D.
Proof.
  intros HD H1 H30 Hx. destruct (f64_near_nonpos r N D x HD ltac:(lia) Hx) as (m & p & -> & Hp & Hm & Hn & _).
  assert (Hlo : 2 ^ 52 * D <= Zpos m * D) by (apply Z.mul_le_mono_nonneg_r; lia).
  assert (Hhi : Zpos m * D <= (2 ^ 53 - 1) * D) by (apply Z.mul_le_mono_nonneg_r; lia).
  assert (Hp52 : p < 54).
  { destruct (Z_lt_le_dec p 54) as [?|H54]; [done|exfalso]. assert (2 ^ 54 <= 2 ^ p) by (apply Z.pow_le_mono_r; lia).
    assert (D * 2 ^ 54 <= N * 2 ^ p) by (apply Z.mul_le_mono_nonneg; lia). lia. }
  assert (HNP : N * 2 ^ p <= 2 ^ 30 * D * 2 ^ p) by (apply Z.mul_le_mono_nonneg_r; lia).
  assert (HP : 2 ^ 21 <= 2 ^ p).
  { apply (Z.mul_le_mono_pos_l _ _ (2 ^ 30 * D)); [lia|]. lia. }
  exists (Zpos m), (2 ^ p). split; [|split; [lia|]].
  - exists m, p, 0. split; [f_equal; lia|]. do 3 (split; [lia|]). split; [done|]. lia.
  - assert (2 ^ 21 * D <= 2 ^ p * D) by (apply Z.mul_le_mono_nonneg_r; lia). lia.
Qed.

(** A decimal literal that is dyadic is exact. *)
Lemma f64_lit_dyadic n d N j : 0 < n < 2 ^ 53 -> 0 < d < 2 ^ 53 -> 0 < N < 2 ^ 53 -> 0 <= j <= 100 -> n * 2 ^ j = N * d ->
  f64_exact 200 N (2 ^ j) (f64_lit n d).
Proof.
  intros Hn Hd HN Hj E. apply (f64_near_dyadic (52 + 52 + 53)); [done|done|].
  pose proof (f64_div_near 52 52 n 1 d 1 _ _ ltac:(lia) ltac:(lia) ltac:(lia) ltac:(lia) (f64_of_Z_is n Hn) (f64_of_Z_is d Hd)) as Hx.
  apply (f64_near_scale _ (2 ^ j)) in Hx; [|lia]. rewrite Z.mul_1_r, Z.mul_1_l, E, (Z.mul_comm d) in Hx.
  apply (proj1 (f64_near_scale _ d N (2 ^ j) _ (proj1 Hd))). exact Hx.
Qed.

Lemma f64_floor_exact r M P x : 0 < P -> 0 < M -> f64_exact r M P x -> f64_floor x = f64_of_Z (M / P).
Proof.
  intros HP HM (m & u & v & -> & Hu & Hv & _ & Hm & E). cbn [f64_floor]. unfold f64_of_Z. f_equal.
  unfold floor_Z. cbn [cond_Zopp]. assert (E' : M / P = Zpos m * 2 ^ v / 2 ^ u).
  { rewrite <-(Z.div_mul_cancel_r M P (2 ^ u)), <-E by lia.
    replace (Zpos m * (P * 2 ^ v)) with (Zpos m * 2 ^ v * P) by ring. rewrite (Z.mul_comm P). apply Z.div_mul_cancel_r; lia. }
  rewrite E'. destruct (Z.leb_spec 0 (v - u)).
  - replace v with (v - u + u) at 2 by lia. rewrite Z.pow_add_r, Z.mul_assoc, Z.div_mul by lia. done.
  - replace u with (u - v + v) at 2 by lia. rewrite Z.pow_add_r, Z.div_mul_cancel_r by lia. f_equal. f_equal. lia.
Qed.
