(* ===== verification/Errors.v ===== *)
(** * [network_commons/src/error.rs]: the error type of the program

    [CommonError] with the source's constructors, its [From] conversions and its
    [Display].  Errors that belong to other crates or to the operating system are
    carried as what the program shows of them: a message. *)
From stdpp Require Import base list option strings.
From Stdlib Require Import ZArith.
From S2P Require Import Prelude.

(** [std::io::Error]: the [errno] of the failed call, or a custom error with a message. *)
Inductive io_error :=
  | os_error (errno : Z)
  | custom_io_error (msg : string).

(** Messages of foreign error types ([TryFromSliceError], [AddrParseError],
    [validator::ValidationErrors]). *)
Definition foreign_error : Type := string.

Inductive CommonError :=
  | Io (e : io_error)
  | NotEnoughBytes (s : string)
  | ConversionFromBytes (e : foreign_error)
  | AddrParseError (e : foreign_error)
  | Infallible (e : Empty_set)
  | Lock
  | Dns (e : io_error)
  | Generic (s : string)
  | ValidationError (e : foreign_error)
  | SendError (s : string)
  | TryRecvError (s : string)
  | IterError (s : string)
  | SocketCreateFailed (e : io_error)
  | SocketConnectFailed (e : io_error)
  | SocketBindFailed (e : io_error)
  | SocketListenFailed (e : io_error)
  | SocketAcceptFailed (e : io_error)
  | SocketGetPeerName (e : io_error)
  | UnknownAddressFamily.

(** [pub type Result<T> = std::result::Result<T, CommonError>], with panics. *)
Definition result : Type -> Type := outcome CommonError.

#[export] Instance io_error_eq_dec : EqDecision io_error.
Proof. solve_decision. Defined.
#[export] Instance empty_set_eq_dec : EqDecision Empty_set.
Proof. intros []. Defined.
#[export] Instance CommonError_eq_dec : EqDecision CommonError.
Proof. unfold foreign_error in *. solve_decision. Defined.

(** The [From] conversions the [?] operator applies. *)
Definition from_io (e : io_error) : CommonError := Io e.
Definition from_slice (e : foreign_error) : CommonError := ConversionFromBytes e.
Definition from_addr_parse (e : foreign_error) : CommonError := AddrParseError e.
Definition from_infallible (e : Empty_set) : CommonError := Infallible e.
(** A boxed error is its text. *)
Definition from_boxed (e : foreign_error) : CommonError := Generic e.
Definition from_str (s : string) : CommonError := Generic s.
Definition from_poison {A} (_ : A) : CommonError := Lock.
Definition from_try_recv (msg : string) : CommonError := TryRecvError msg.
Definition from_send (msg : string) : CommonError := SendError msg.

Section display.
(** [Display] of [std::io::Error] is the C library's [strerror] text. *)
Context (show_io : io_error -> string).

Definition CommonError_fmt (e : CommonError) : string :=
  match e with
  | Io e => "I/O error: " +:+ show_io e
  | NotEnoughBytes s => "Not enough bytes: " +:+ s
  | ConversionFromBytes e => "Conversion error: " +:+ e
  | AddrParseError e => "Address parsing error: " +:+ e
  | Infallible e => match e with end
  | Lock => "Lock poisoned"
  | Dns e => "DNS error: " +:+ show_io e
  | ValidationError e => "Failed to validate: " +:+ e
  | SendError e => "Failed to send: " +:+ e
  | TryRecvError e => "Failed to receive: " +:+ e
  | IterError e => "Failed to iterate: " +:+ e
  | Generic e => "We've entered uncharted waters: " +:+ e
  | SocketCreateFailed e => "Failed to create Socket: " +:+ show_io e
  | SocketConnectFailed e => "Failed to connect to address: " +:+ show_io e
  | SocketBindFailed e => "Failed to bind Socket to provided address: " +:+ show_io e
  | SocketListenFailed e => "Failed to call listen on socket: " +:+ show_io e
  | SocketAcceptFailed e => "Failed to accept TCP connection: " +:+ show_io e
  | SocketGetPeerName e => "Failed to get peer socket address: " +:+ show_io e
  | UnknownAddressFamily => "Failed to match address family"
  end.
End display.
