(* ===== verification/Time.v ===== *)
(** * [network_commons/src/time.rs] and [interval.rs]

    UNIX timestamps ([DateTime]), signed intervals and NTP timestamps, with the
    program's conversions between them: integer arithmetic at the widths of the
    source, [f64] arithmetic where the source goes through floating point. *)
From stdpp Require Import base list option numbers strings pretty.
From Stdlib Require Import ZArith Lia SpecFloat.
From S2P Require Import Prelude Float64 Errors.
Local Open Scope Z_scope.

(** ** [core::time::Duration] *)

(** Seconds ([u64]) and nanoseconds below 10^9. *)
Record Duration := { as_secs : Z; subsec_nanos : Z }.

Definition NANOS_PER_SEC : Z := 1000000000.
Definition duration_wf (d : Duration) : Prop :=
  in_u 64 (as_secs d) /\ 0 <= subsec_nanos d < NANOS_PER_SEC.
Definition Duration_as_nanos (d : Duration) : Z := as_secs d * NANOS_PER_SEC + subsec_nanos d.
Definition Duration_from_secs (s : Z) : Duration := {| as_secs := s; subsec_nanos := 0 |}.
Definition Duration_from_millis (ms : Z) : Duration :=
  {| as_secs := ms / 1000; subsec_nanos := ms mod 1000 * 1000000 |}.
Definition Duration_from_nanos (ns : Z) : Duration :=
  {| as_secs := ns / NANOS_PER_SEC; subsec_nanos := ns mod NANOS_PER_SEC |}.
Definition Duration_ZERO : Duration := Duration_from_secs 0.
(** [Duration::new]: excess nanoseconds carry; the carry may overflow the seconds. *)
Definition Duration_new {E} (s n : Z) : outcome E Duration :=
  if n <? NANOS_PER_SEC then Ok {| as_secs := s; subsec_nanos := n |}
  else if decide (in_u 64 (s + n / NANOS_PER_SEC))
  then Ok {| as_secs := s + n / NANOS_PER_SEC; subsec_nanos := n mod NANOS_PER_SEC |}
  else Panic (Expect "overflow in Duration::new").
(** [Duration + Duration]: panics on overflow. *)
Definition Duration_add {E} (a b : Duration) : outcome E Duration :=
  let n := subsec_nanos a + subsec_nanos b in
  let s := as_secs a + as_secs b + n / NANOS_PER_SEC in
  if decide (in_u 64 s) then Ok {| as_secs := s; subsec_nanos := n mod NANOS_PER_SEC |}
  else Panic (Expect "overflow when adding durations").
(** The derived ordering, on the pair of fields. *)
Definition Duration_gtb (a b : Duration) : bool :=
  (as_secs b <? as_secs a) || ((as_secs a =? as_secs b) && (subsec_nanos b <? subsec_nanos a)).

#[export] Instance Duration_eq_dec : EqDecision Duration.
Proof. solve_decision. Defined.

(** ** [Interval] *)

Record Interval := { duration : Duration; multiplier : Z }.

Definition Interval_new (d : Duration) (m : Z) : Interval := {| duration := d; multiplier := m |}.
Definition Interval_as_nanos {E} `{BuildProfile} (i : Interval) : outcome E Z :=
  i_arith 64 (as_i 64 (Duration_as_nanos (duration i)) * multiplier i).
Definition Duration_from_Interval (dws : Interval) : Duration := duration dws.

(** ** [DateTime] *)

Record timespec := { tv_sec : Z; tv_nsec : Z }.

Record DateTime := { sec : Z; nanos : Z }.

#[export] Instance DateTime_eq_dec : EqDecision DateTime.
Proof. solve_decision. Defined.

(** What the Rust type guarantees of the fields. *)
Definition datetime_u32 (t : DateTime) : Prop := in_u 32 (sec t) /\ in_u 32 (nanos t).
(** A normalised time: what the kernel's clock and the conversions should give. *)
Definition datetime_wf (t : DateTime) : Prop := in_u 32 (sec t) /\ 0 <= nanos t < NANOS_PER_SEC.
(** Nanoseconds since the UNIX epoch. *)
Definition datetime_nanos (t : DateTime) : Z := sec t * NANOS_PER_SEC + nanos t.

Definition from_timespec (ts : timespec) : DateTime :=
  {| sec := as_u 32 (tv_sec ts); nanos := as_u 32 (tv_nsec ts) |}.
(** [utc_now] is [from_timespec] of the clock's value. *)
Definition utc_now (clock : timespec) : DateTime :=
  {| sec := as_u 32 (tv_sec clock); nanos := as_u 32 (tv_nsec clock) |}.
Definition from_nanos (n : Z) : DateTime :=
  {| sec := as_u 32 (n / 1000000000); nanos := as_u 32 (n mod 1000000000) |}.
Definition timestamp (t : DateTime) : f64 :=
  f64_add (f64_of_Z (sec t)) (f64_div (f64_of_Z (nanos t)) (f64_of_Z 1000000000)).
Definition get_sec (self : DateTime) : Z := sec self.
Definition get_nanos (self : DateTime) : Z := nanos self.
Definition set_sec (t : DateTime) (s : Z) : DateTime := {| sec := s; nanos := nanos t |}.
Definition set_nanos (t : DateTime) (n : Z) : DateTime := {| sec := sec t; nanos := n |}.

Section arith.
Context `{BuildProfile}.

(** [impl Add<Duration> for DateTime] *)
Definition DateTime_add (self : DateTime) (other : Duration) : result DateTime :=
  secs ← u_arith 32 (sec self + as_u 32 (as_secs other));
  ns ← u_arith 32 (nanos self + subsec_nanos other);
  let secs_overflow := ns / 1000000000 in
  let ns := ns mod 1000000000 in
  s ← u_arith 32 (secs + secs_overflow);
  Ok {| sec := s; nanos := ns |}.

(** [impl Sub<Duration> for DateTime] *)
Definition DateTime_sub_duration (self : DateTime) (other : Duration) : result DateTime :=
  secs ← i_arith 64 (sec self - as_i 64 (as_secs other));
  ns ← i_arith 64 (nanos self - subsec_nanos other);
  '(secs, ns) ← (if ns <? 0
                 then secs ← i_arith 64 (secs - 1);
                      ns ← i_arith 64 (ns + 1000000000);
                      Ok (secs, ns)
                 else Ok (secs, ns));
  let '(secs, ns) := if secs <? 0 then (0, 0) else (secs, ns) in
  Ok {| sec := as_u 32 secs; nanos := as_u 32 ns |}.

(** [impl Sub<DateTime> for DateTime] *)
Definition DateTime_sub (self other : DateTime) : result Interval :=
  secs_diff ← i_arith 64 (sec self - sec other);
  nanos_diff ← i_arith 64 (nanos self - nanos other);
  prod ← i_arith 64 (secs_diff * 1000000000);
  total_nanos_diff ← i_arith 64 (prod + nanos_diff);
  let sign := if total_nanos_diff <? 0 then -1 else 1 in
  abs_nanos_diff ← i_arith 64 (Z.abs total_nanos_diff);
  let duration_secs := as_u 64 (Z.quot abs_nanos_diff 1000000000) in
  let duration_nanos := as_u 32 (Z.rem abs_nanos_diff 1000000000) in
  d ← Duration_new duration_secs duration_nanos;
  Ok (Interval_new d sign).
End arith.

(** ** [NtpTimestamp] *)

Record NtpTimestamp := { seconds : Z; fraction : Z }.

#[export] Instance NtpTimestamp_eq_dec : EqDecision NtpTimestamp.
Proof. solve_decision. Defined.

Definition NTP_EPOCH : Z := 2208988800.
Definition NSECS_CONVERSION : f64 := f64_of_Z 1000000000.
Definition FRACTION_CONVERSION : f64 := f64_of_Z 4294967296.

Definition ntp_wf (t : NtpTimestamp) : Prop := in_u 32 (seconds t) /\ in_u 32 (fraction t).

(** [NtpTimestamp::now], of the duration since the UNIX epoch. *)
Definition ntp_now {E} `{BuildProfile} (unix_duration : Duration) : outcome E NtpTimestamp :=
  s ← u_arith 64 (as_secs unix_duration + 2208988800);
  let ntp_fraction :=
    f64_as_u 32 (f64_mul (f64_div (f64_of_Z (subsec_nanos unix_duration)) (f64_of_Z 1000000000))
                         (f64_of_Z (2 ^ 32))) in
  Ok {| seconds := as_u 32 s; fraction := ntp_fraction |}.

Definition ntp_from_timespec {E} `{BuildProfile} (sec_since_unix_epoch nanosec_since_last_sec : Z)
    : outcome E NtpTimestamp :=
  s ← u_arith 64 (sec_since_unix_epoch + NTP_EPOCH);
  let seconds := f64_as_u 32 (f64_of_Z s) in
  let fraction := f64_as_u 32 (f64_mul (f64_div (f64_of_Z nanosec_since_last_sec) (f64_of_Z 1000000000))
                                       (f64_powi (f64_of_Z 2) 32)) in
  Ok {| seconds := seconds; fraction := fraction |}.

(** The fields of the C library's [tm] that [get_timezone_offset] reads. *)
Record tm := { tm_hour : Z; tm_min : Z }.
Definition get_timezone_offset {E} `{BuildProfile} (local_tm gmt_tm : tm) : outcome E Z :=
  hour_offset ← i_arith 32 (tm_hour local_tm - tm_hour gmt_tm);
  min_offset ← i_arith 32 (tm_min local_tm - tm_min gmt_tm);
  h ← i_arith 32 (hour_offset * 60);
  i_arith 32 (h + min_offset).

(** [impl From<DateTime> for NtpTimestamp] *)
Definition ntp_of_datetime {E} `{BuildProfile} (dt : DateTime) : outcome E NtpTimestamp :=
  s ← u_arith 32 (f64_as_u 32 (timestamp dt) + as_u 32 NTP_EPOCH);
  let f := f64_as_u 32 (f64_mul (f64_div (f64_of_Z (nanos dt)) NSECS_CONVERSION) FRACTION_CONVERSION) in
  Ok {| seconds := s; fraction := f |}.

(** [impl TryFrom<NtpTimestamp> for DateTime] *)
Definition datetime_of_ntp {E} `{BuildProfile} (t : NtpTimestamp) : outcome E DateTime :=
  s ← i_arith 64 (seconds t - NTP_EPOCH);
  let nsecs := f64_as_u 32 (f64_round (f64_div (f64_mul (f64_of_Z (fraction t)) NSECS_CONVERSION)
                                               FRACTION_CONVERSION)) in
  Ok {| sec := as_u 32 s; nanos := nsecs |}.

(** ** [Display for DateTime] *)

(** The calendar date of [sec], by the source's floating-point Julian day computation. *)
Definition date_fields (s : Z) : Z * Z * Z :=
  let jdn := f64_add (f64_floor (f64_div (f64_of_Z s) (f64_of_Z 86400))) (f64_lit 24405875 10) in
  let z := f64_floor (f64_add jdn (f64_lit 5 10)) in
  let w := f64_floor (f64_div (f64_sub z (f64_lit 186721625 100)) (f64_lit 3652425 100)) in
  let x := f64_floor (f64_div w (f64_of_Z 4)) in
  let a := f64_sub (f64_add (f64_add z (f64_of_Z 1)) w) x in
  let b := f64_add a (f64_of_Z 1524) in
  let c := f64_floor (f64_div (f64_sub b (f64_lit 1221 10)) (f64_lit 36525 100)) in
  let d := f64_floor (f64_mul (f64_lit 36525 100) c) in
  let e := f64_floor (f64_div (f64_sub b d) (f64_lit 306001 10000)) in
  let day_frac := f64_floor (f64_mul (f64_lit 306001 10000) e) in
  let day := f64_as_u 8 (f64_sub (f64_sub b d) day_frac) in
  let month := if f64_ltb e (f64_lit 135 10)
               then f64_as_u 8 (f64_sub e (f64_of_Z 1))
               else f64_as_u 8 (f64_sub e (f64_of_Z 13)) in
  let year := if f64_ltb (f64_lit 25 10) (f64_of_Z month)
              then f64_as_u 16 (f64_sub c (f64_of_Z 4716))
              else f64_as_u 16 (f64_sub c (f64_of_Z 4715)) in
  (year, month, day).

Definition time_fields (s : Z) : Z * Z * Z :=
  (as_u 8 ((s mod 86400) / 3600), as_u 8 ((s mod 3600) / 60), as_u 8 (s mod 60)).

(** [{:0w}] *)
Fixpoint zeros (n : nat) : string :=
  match n with O => "" | S n' => "0" +:+ zeros n' end.
Definition fmt_pad (w : nat) (n : Z) : string :=
  let s := pretty n in zeros (w - String.length s) +:+ s.

Definition DateTime_fmt (t : DateTime) : string :=
  let '(year, month, day) := date_fields (sec t) in
  let '(hour, min, s) := time_fields (sec t) in
  fmt_pad 4 year +:+ "-" +:+ fmt_pad 2 month +:+ "-" +:+ fmt_pad 2 day +:+ "T" +:+
  fmt_pad 2 hour +:+ ":" +:+ fmt_pad 2 min +:+ ":" +:+ fmt_pad 2 s +:+ "." +:+
  fmt_pad 9 (nanos t) +:+ "Z".

(** ** Lemmas *)

Lemma quot_rem_nanos z : 0 <= z ->
  0 <= Z.rem z NANOS_PER_SEC < NANOS_PER_SEC /\ z = Z.quot z NANOS_PER_SEC * NANOS_PER_SEC + Z.rem z NANOS_PER_SEC.
Proof.
  intros Hz. unfold NANOS_PER_SEC. rewrite Z.quot_div_nonneg, Z.rem_mod_nonneg by lia.
  pose proof (Z.div_mod z 1000000000). pose proof (Z.mod_pos_bound z 1000000000). lia.
Qed.

Lemma datetime_nanos_inj a b : datetime_wf a -> datetime_wf b ->
  datetime_nanos a = datetime_nanos b -> a = b.
Proof.
  destruct a as [s n], b as [s' n']. unfold datetime_wf, datetime_nanos, NANOS_PER_SEC. cbn.
  intros [_ ?] [_ ?] ?. f_equal; lia.
Qed.

(** The seconds and nanoseconds of an integer number of nanoseconds. *)
Lemma nanos_split q r : 0 <= r < NANOS_PER_SEC ->
  (q * NANOS_PER_SEC + r) / NANOS_PER_SEC = q /\ (q * NANOS_PER_SEC + r) mod NANOS_PER_SEC = r.
Proof.
  unfold NANOS_PER_SEC. intros Hr. split.
  - rewrite Z.div_add_l by lia. rewrite Z.div_small; lia.
  - rewrite Z.add_comm, Z.mod_add by lia. by apply Z.mod_small.
Qed.

Lemma Duration_gtb_spec a b : duration_wf a -> duration_wf b ->
  Duration_gtb a b = true <-> Duration_as_nanos b < Duration_as_nanos a.
Proof.
  unfold duration_wf, Duration_gtb, Duration_as_nanos, NANOS_PER_SEC. intros [_ ?] [_ ?].
  destruct (Z.ltb_spec (as_secs b) (as_secs a)); cbn; [split; [lia|done]|].
  destruct (Z.eqb_spec (as_secs a) (as_secs b)); cbn; [rewrite Z.ltb_lt|]; split; try done; lia.
Qed.

Ltac arith_in := first [rewrite i_arith_in by (unfold in_i; lia) | rewrite u_arith_in by (unfold in_u; lia)].
Ltac run_arith := repeat (arith_in; cbn [mbind outcome_bind]).

(** Differences of times are exact and never overflow, in either build profile. *)
Lemma DateTime_sub_spec `{BuildProfile} a b : datetime_u32 a -> datetime_u32 b ->
  exists i, DateTime_sub a b = Ok i /\ duration_wf (duration i) /\
    Duration_as_nanos (duration i) = Z.abs (datetime_nanos a - datetime_nanos b) /\
    multiplier i = (if datetime_nanos a <? datetime_nanos b then -1 else 1).
Proof.
  intros [[? ?] [? ?]] [[? ?] [? ?]]. unfold DateTime_sub, datetime_nanos, NANOS_PER_SEC.
  run_arith. set (T := (sec a - sec b) * 1000000000 + (nanos a - nanos b)).
  destruct (quot_rem_nanos (Z.abs T) ltac:(lia)) as [Hr Hq]. unfold NANOS_PER_SEC in Hr, Hq.
  rewrite !as_u_small by (unfold in_u; lia).
  unfold Duration_new. rewrite (proj2 (Z.ltb_lt (Z.rem _ _) _)) by (unfold NANOS_PER_SEC; lia).
  eexists. split; [reflexivity|]. cbn. unfold duration_wf, Duration_as_nanos, in_u, NANOS_PER_SEC. cbn.
  split; [lia|]. split; [lia|].
  destruct (Z.ltb_spec T 0), (Z.ltb_spec (sec a * 1000000000 + nanos a) (sec b * 1000000000 + nanos b)); lia.
Qed.

Lemma Interval_as_nanos_spec `{BuildProfile} {E} i : Duration_as_nanos (duration i) <= i_max 64 ->
  0 <= Duration_as_nanos (duration i) -> multiplier i = 1 \/ multiplier i = -1 ->
  Interval_as_nanos (E:=E) i = Ok (multiplier i * Duration_as_nanos (duration i)).
Proof.
  unfold i_max. intros Hd Hd' Hm. unfold Interval_as_nanos.
  rewrite as_i_small by (unfold in_i; lia). rewrite i_arith_in by (unfold in_i; lia).
  f_equal. lia.
Qed.

(** ** The NTP fraction *)

Lemma f64_exact_0 : f64_of_Z 0 = S754_zero false.
Proof. done. Qed.

Lemma f64_div_zero m e : f64_div (S754_zero false) (S754_finite false m e) = S754_zero false.
Proof. done. Qed.
Lemma f64_mul_zero m e : f64_mul (S754_zero false) (S754_finite false m e) = S754_zero false.
Proof. done. Qed.

Lemma nanos_quotient_near n : 0 < n < 2 ^ 53 ->
  f64_near 157 n NANOS_PER_SEC (f64_div (f64_of_Z n) (f64_of_Z 1000000000)).
Proof.
  intros Hn. replace n with (n * 1) at 1 by lia.
  replace NANOS_PER_SEC with (1 * 1000000000) by done.
  apply (f64_div_near 52 52); try lia; apply f64_of_Z_is; lia.
Qed.

(** The fraction the source computes in floating point is the exact integer part. *)
Lemma ntp_fraction_exact n : 0 <= n < NANOS_PER_SEC ->
  f64_as_u 32 (f64_mul (f64_div (f64_of_Z n) (f64_of_Z 1000000000)) (f64_of_Z 4294967296))
    = n * 2 ^ 32 / NANOS_PER_SEC.
Proof.
  unfold NANOS_PER_SEC. intros Hn. destruct (decide (n = 0)) as [->|Hn0]; [done|].
  assert (H : f64_near 210 (n * 2 ^ 23) (5 ^ 9)
    (f64_mul (f64_div (f64_of_Z n) (f64_of_Z 1000000000)) (f64_of_Z (2 ^ 32)))).
  { apply (f64_near_scale _ (2 ^ 9)); [lia|].
    replace (n * 2 ^ 23 * 2 ^ 9) with (n * 2 ^ 32) by lia.
    apply (f64_near_mul_pow2 157); [lia|lia|]. apply nanos_quotient_near. lia. }
  change 4294967296 with (2 ^ 32). unfold f64_as_u.
  rewrite (f64_as_near 210 0 (u_max 32) (n * 2 ^ 23) (5 ^ 9)) by (exact H || lia).
  assert (n * 2 ^ 23 / 5 ^ 9 = n * 2 ^ 32 / 1000000000) as ->.
  { rewrite <-(Z.div_mul_cancel_r (n * 2 ^ 23) (5 ^ 9) (2 ^ 9)) by lia. f_equal; lia. }
  unfold u_max. assert (0 <= n * 2 ^ 32 / 1000000000 < 2 ^ 32); [|lia].
  split; [apply Z.div_pos; lia|apply Z.div_lt_upper_bound; lia].
Qed.

(** [f * 10^9] is [f * 5^9] shifted: it is exact, so only the final rounding rounds. *)
Lemma ntp_nanos_exact f : in_u 32 f ->
  f64_as_u 32 (f64_round (f64_div (f64_mul (f64_of_Z f) NSECS_CONVERSION) FRACTION_CONVERSION))
    = (f * NANOS_PER_SEC + 2 ^ 31) / 2 ^ 32.
Proof.
  unfold NANOS_PER_SEC, in_u. intros Hf. destruct (decide (f = 0)) as [->|Hf0]; [done|].
  unfold NSECS_CONVERSION, FRACTION_CONVERSION.
  assert (Hx : f64_exact 52 (f * 5 ^ 9) 1 (f64_of_Z (f * 5 ^ 9))) by (apply f64_of_Z_is; lia).
  destruct Hx as (m & u & v & Ex & Hu & Hv & Hb & Hm & E).
  assert (Hy : f64_mul (f64_of_Z f) (f64_of_Z 1000000000) = S754_finite false m (v + 9 - u)).
  { apply (f64_near_exact (52 + 52 + 54) 61 (f * 1000000000) (1 * 1)); [lia| |].
    - apply f64_mul_near; try lia; apply f64_of_Z_is; lia.
    - exists m, u, (v + 9). do 4 (split; [lia || done|]). split; [done|].
      rewrite Z.pow_add_r by lia. lia. }
  rewrite Hy. change 4294967296 with (2 ^ 32).
  rewrite f64_div_pow2 by lia.
  rewrite (f64_round_exact 100 (f * 5 ^ 9) (2 ^ 23)); [|lia|lia|].
  2:{ exists m, (u + 23), v. split; [f_equal; lia|]. do 3 (split; [lia|]). split; [done|].
      rewrite Z.pow_add_r, Z.mul_assoc by lia. lia. }
  assert ((2 * (f * 5 ^ 9) + 2 ^ 23) / (2 * 2 ^ 23) = (f * 1000000000 + 2 ^ 31) / 2 ^ 32) as ->.
  { rewrite <-(Z.div_mul_cancel_r _ (2 * 2 ^ 23) (2 ^ 8)) by lia. f_equal; lia. }
  assert (0 <= (f * 1000000000 + 2 ^ 31) / 2 ^ 32 <= 1000000000) as Hr.
  { split; [apply Z.div_pos; lia|].
    apply Z.lt_succ_r, Z.div_lt_upper_bound; lia. }
  set (q := (f * 1000000000 + 2 ^ 31) / 2 ^ 32) in *.
  destruct (decide (q = 0)) as [->|Hq0]; [done|].
  unfold f64_as_u, u_max.
  rewrite (f64_as_near 52 _ _ q 1); [rewrite Z.div_1_r; lia|lia|lia|].
  apply f64_exact_near; [lia|]. apply f64_of_Z_is. lia.
Qed.

(** ** Seconds of [timestamp] *)

(** The shape of [sec as f64 + nanos as f64 / 1e9]: the exact sum [s * 2^p2 + m2] at
    exponent [-p2], where [m2 / 2^p2] is the rounded quotient, rounded to [m * 2^k]. *)
Lemma timestamp_shape t : 0 < sec t < 2 ^ 32 -> 0 < nanos t < NANOS_PER_SEC ->
  exists m p2 k m2, timestamp t = S754_finite false m (k - p2) /\ 53 <= p2 /\ 0 <= k /\
    near (Zpos m) (sec t * 2 ^ p2 + m2) (2 ^ k) /\ 0 < m2 /\
    2 * Z.abs (m2 * NANOS_PER_SEC - nanos t * 2 ^ p2) <= NANOS_PER_SEC.
Proof.
  unfold NANOS_PER_SEC. intros Hs Hn. unfold timestamp.
  destruct (f64_of_Z_exact (sec t)) as (m1 & e1 & -> & Hm1 & He1 & E1); [lia|].
  pose proof (nanos_quotient_near (nanos t) ltac:(lia)) as Hq. unfold NANOS_PER_SEC in Hq.
  pose proof Hq as (m2' & u & v & E & _ & _ & Hr & _).
  destruct (f64_near_nonpos 157 (nanos t) 1000000000 _ ltac:(lia) ltac:(lia) Hq)
    as (m2 & p2 & Eq & Hp & Hm2 & Hn2 & _).
  rewrite Eq in *. injection E as _ Ep. clear Hq m2'.
  assert (53 <= p2).
  { apply Z.nlt_ge. intros Hlt.
    assert (2 ^ p2 <= 2 ^ 52) by (apply Z.pow_le_mono_r; lia).
    assert (nanos t * 2 ^ p2 <= 999999999 * 2 ^ p2) by (apply Z.mul_le_mono_nonneg_r; lia). lia. }
  destruct (f64_add_pos m1 e1 m2 (- p2)) as (m & k & -> & Hk & Hnear); [done|done|lia|lia|].
  rewrite Z.min_r in * by lia. exists m, p2, k, (Zpos m2).
  split; [f_equal; lia|]. do 2 (split; [lia|]).
  replace (- p2 - - p2) with 0 in Hnear by lia. rewrite Z.pow_0_r, Z.mul_1_r, E1 in Hnear.
  rewrite <-Z.mul_assoc, <-Z.pow_add_r in Hnear by lia.
  replace (- e1 + (e1 - - p2)) with p2 in Hnear by lia. split; [done|]. lia.
Qed.

(** A mantissa near [S] whose value lies in one second: the truncation. *)
Lemma as_u32_between m p2 k s : 0 <= k <= p2 -> 0 <= s <= u_max 32 ->
  s * 2 ^ p2 <= Zpos m * 2 ^ k < (s + 1) * 2 ^ p2 ->
  f64_as_u 32 (S754_finite false m (k - p2)) = s.
Proof.
  intros Hk Hs Hm. unfold f64_as_u. cbn [f64_as].
  assert (trunc_Z false m (k - p2) = s) as ->; [|unfold u_max in *; lia].
  assert (E : 2 ^ p2 = 2 ^ (p2 - k) * 2 ^ k) by (rewrite <-Z.pow_add_r by lia; f_equal; lia).
  rewrite E, !Z.mul_assoc in Hm.
  assert (s * 2 ^ (p2 - k) <= Zpos m) by (apply (Z.mul_le_mono_pos_r _ _ (2 ^ k)); lia).
  assert (Zpos m < (s + 1) * 2 ^ (p2 - k)) by (apply (Z.mul_lt_mono_pos_r (2 ^ k)); lia).
  unfold trunc_Z. cbn [cond_Zopp]. destruct (Z.leb_spec 0 (k - p2)).
  - assert (k = p2) as -> by lia. rewrite Z.sub_diag, Z.pow_0_r in *. lia.
  - replace (- (k - p2)) with (p2 - k) by lia.
    symmetry. apply Z.div_unique with (Zpos m - s * 2 ^ (p2 - k)); [left; lia|ring].
Qed.

Lemma f64_as_u32_of_Z z : 0 <= z < 2 ^ 32 -> f64_as_u 32 (f64_of_Z z) = z.
Proof.
  intros Hz. unfold f64_as_u, u_max. destruct (decide (z = 0)) as [->|]; [done|]. rewrite f64_as_of_Z by lia. lia.
Qed.

Lemma f64_add_zero_l x : f64_add (S754_zero false) x = x \/ x = S754_zero true.
Proof. destruct x as [[]|[]| |]; cbn; auto. Qed.
Lemma f64_add_zero_r s m e : f64_add (S754_finite s m e) (S754_zero false) = S754_finite s m e.
Proof. done. Qed.

(** The sum does not round up to the next second below the threshold. *)
Lemma timestamp_secs_exact t : 0 <= sec t < 2 ^ 32 -> 0 <= nanos t <= 999999761 ->
  f64_as_u 32 (timestamp t) = sec t.
Proof.
  intros Hs Hn. destruct (decide (nanos t = 0)) as [En|En].
  { unfold timestamp. rewrite En. change (f64_div (f64_of_Z 0) _) with (S754_zero false).
    destruct (decide (sec t = 0)) as [->|]; [done|].
    destruct (f64_of_Z_exact (sec t)) as (m & e & E & _); [lia|].
    rewrite E, f64_add_zero_r, <-E. apply f64_as_u32_of_Z. lia. }
  destruct (decide (sec t = 0)) as [Es|Es].
  { unfold timestamp. rewrite Es, f64_exact_0.
    pose proof (nanos_quotient_near (nanos t) ltac:(lia)) as Hq.
    destruct (f64_add_zero_l (f64_div (f64_of_Z (nanos t)) (f64_of_Z 1000000000))) as [->|E].
    - unfold f64_as_u. rewrite (f64_as_near 157 _ _ (nanos t) NANOS_PER_SEC);
        [|unfold NANOS_PER_SEC; lia|lia|done].
      rewrite Z.div_small by (unfold NANOS_PER_SEC; lia). done.
    - rewrite E in Hq. destruct Hq as (? & ? & ? & ? & _). discriminate. }
  destruct (timestamp_shape t) as (m & p2 & k & m2 & -> & Hp2 & Hk & (Hm & Hnear & Hbot) & Hm2 & Hq);
    [lia|unfold NANOS_PER_SEC; lia|]. unfold NANOS_PER_SEC in Hq.
  assert (HA : 2 ^ 53 <= 2 ^ p2) by (apply Z.pow_le_mono_r; lia).
  assert (nanos t * 2 ^ p2 <= 999999761 * 2 ^ p2) by (apply Z.mul_le_mono_nonneg_r; lia).
  assert (sec t * 2 ^ p2 <= (2 ^ 32 - 1) * 2 ^ p2) by (apply Z.mul_le_mono_nonneg_r; lia).
  assert (k <= p2 - 21) as Hk21.
  { apply Z.nlt_ge. intros Hlt.
    assert (2 ^ p2 <= 2 ^ 20 * 2 ^ k).
    { rewrite <-Z.pow_add_r by lia. apply Z.pow_le_mono_r; lia. }
    assert (2 ^ 52 * 2 ^ k <= Zpos m * 2 ^ k) by (apply Z.mul_le_mono_nonneg_r; lia).
    destruct (decide (Zpos m = 2 ^ 52)) as [E|]; [specialize (Hbot E); lia|].
    assert ((2 ^ 52 + 1) * 2 ^ k <= Zpos m * 2 ^ k) by (apply Z.mul_le_mono_nonneg_r; lia). lia. }
  assert (E : 2 ^ p2 = 2 ^ (p2 - k) * 2 ^ k) by (rewrite <-Z.pow_add_r by lia; f_equal; lia).
  assert (2 ^ 21 * 2 ^ k <= 2 ^ p2).
  { rewrite <-Z.pow_add_r by lia. apply Z.pow_le_mono_r; lia. }
  apply as_u32_between; [lia|unfold u_max; lia|]. split; [|lia].
  rewrite E, Z.mul_assoc. apply Z.mul_le_mono_nonneg_r; [lia|].
  apply Z.lt_succ_r, (Z.mul_lt_mono_pos_r (2 ^ k)); [lia|].
  replace (sec t * 2 ^ (p2 - k) * 2 ^ k) with (sec t * 2 ^ p2) by (rewrite E; ring). lia.
Qed.

(** From 2004 to 2038 the sum rounds up in the last 119 nanoseconds of every second. *)
Lemma timestamp_secs_carry t : 2 ^ 30 <= sec t < 2 ^ 31 -> 999999881 <= nanos t < NANOS_PER_SEC ->
  f64_as_u 32 (timestamp t) = sec t + 1.
Proof.
  intros Hs Hn. destruct (timestamp_shape t) as (m & p2 & k & m2 & -> & Hp2 & Hk & (Hm & Hnear & Hbot) & Hm2 & Hq);
    [lia|lia|]. unfold NANOS_PER_SEC in *.
  assert (HA : 2 ^ 53 <= 2 ^ p2) by (apply Z.pow_le_mono_r; lia).
  assert (999999881 * 2 ^ p2 <= nanos t * 2 ^ p2 <= 999999999 * 2 ^ p2)
    by (split; apply Z.mul_le_mono_nonneg_r; lia).
  assert (2 ^ 30 * 2 ^ p2 <= sec t * 2 ^ p2 <= (2 ^ 31 - 1) * 2 ^ p2)
    by (split; apply Z.mul_le_mono_nonneg_r; lia).
  assert (2 ^ 52 * 2 ^ k <= Zpos m * 2 ^ k <= (2 ^ 53 - 1) * 2 ^ k)
    by (split; apply Z.mul_le_mono_nonneg_r; lia).
  assert (k <= p2 - 21) as Hk21.
  { apply Z.nlt_ge. intros Hlt.
    assert (2 ^ p2 <= 2 ^ 20 * 2 ^ k) by (rewrite <-Z.pow_add_r by lia; apply Z.pow_le_mono_r; lia).
    lia. }
  assert (p2 - 22 <= k) as Hk22.
  { apply Z.nlt_ge. intros Hlt.
    assert (2 ^ 23 * 2 ^ k <= 2 ^ p2) by (rewrite <-Z.pow_add_r by lia; apply Z.pow_le_mono_r; lia).
    lia. }
  apply as_u32_between; [lia|unfold u_max; lia|].
  destruct (decide (k = p2 - 21)) as [->|].
  - assert (2 ^ p2 = 2 ^ 21 * 2 ^ (p2 - 21)) by (rewrite <-Z.pow_add_r by lia; f_equal; lia). lia.
  - assert (2 ^ p2 = 2 ^ 22 * 2 ^ k) as E by (rewrite <-Z.pow_add_r by lia; f_equal; lia).
    split; [|lia]. rewrite E, Z.mul_assoc. apply Z.mul_le_mono_nonneg_r; [lia|].
    apply Z.lt_succ_r, (Z.mul_lt_mono_pos_r (2 ^ k)); [lia|]. lia.
Qed.

(** In general the sum truncates to its second or, by rounding, to the next one. *)
Lemma timestamp_secs_bounds t : 0 <= sec t < 2 ^ 32 - 1 -> 0 <= nanos t < NANOS_PER_SEC ->
  f64_as_u 32 (timestamp t) = sec t \/ f64_as_u 32 (timestamp t) = sec t + 1.
Proof.
  intros Hs Hn. destruct (decide (nanos t <= 999999761)); [left; apply timestamp_secs_exact; lia|].
  destruct (decide (sec t = 0)) as [Es|Es].
  { left. unfold timestamp. rewrite Es, f64_exact_0.
    pose proof (nanos_quotient_near (nanos t) ltac:(unfold NANOS_PER_SEC in *; lia)) as Hq.
    destruct (f64_add_zero_l (f64_div (f64_of_Z (nanos t)) (f64_of_Z 1000000000))) as [->|E].
    - unfold f64_as_u. rewrite (f64_as_near 157 _ _ (nanos t) NANOS_PER_SEC);
        [|unfold NANOS_PER_SEC; lia|unfold NANOS_PER_SEC in *; lia|done].
      rewrite Z.div_small by done. done.
    - rewrite E in Hq. destruct Hq as (? & ? & ? & ? & _). discriminate. }
  destruct (timestamp_shape t) as (m & p2 & k & m2 & -> & Hp2 & Hk & (Hm & Hnear & Hbot) & Hm2 & Hq);
    [lia|lia|]. unfold NANOS_PER_SEC in *.
  assert (HA : 2 ^ 53 <= 2 ^ p2) by (apply Z.pow_le_mono_r; lia).
  assert (nanos t * 2 ^ p2 <= 999999999 * 2 ^ p2) by (apply Z.mul_le_mono_nonneg_r; lia).
  assert (sec t * 2 ^ p2 <= (2 ^ 32 - 2) * 2 ^ p2) by (apply Z.mul_le_mono_nonneg_r; lia).
  assert (k <= p2 - 19) as Hk19.
  { apply Z.nlt_ge. intros Hlt.
    assert (2 ^ p2 <= 2 ^ 18 * 2 ^ k).
    { rewrite <-Z.pow_add_r by lia. apply Z.pow_le_mono_r; lia. }
    assert (2 ^ 52 * 2 ^ k <= Zpos m * 2 ^ k) by (apply Z.mul_le_mono_nonneg_r; lia). lia. }
  assert (E : 2 ^ p2 = 2 ^ (p2 - k) * 2 ^ k) by (rewrite <-Z.pow_add_r by lia; f_equal; lia).
  assert (2 ^ 19 * 2 ^ k <= 2 ^ p2) by (rewrite <-Z.pow_add_r by lia; apply Z.pow_le_mono_r; lia).
  assert (sec t * 2 ^ p2 <= Zpos m * 2 ^ k).
  { rewrite E, Z.mul_assoc. apply Z.mul_le_mono_nonneg_r; [lia|].
    apply Z.lt_succ_r, (Z.mul_lt_mono_pos_r (2 ^ k)); [lia|].
    replace (sec t * 2 ^ (p2 - k) * 2 ^ k) with (sec t * 2 ^ p2) by (rewrite E; ring). lia. }
  destruct (Z.lt_ge_cases (Zpos m * 2 ^ k) ((sec t + 1) * 2 ^ p2)).
  - left. apply as_u32_between; [lia|unfold u_max; lia|lia].
  - right. apply as_u32_between; [lia|unfold u_max; lia|lia].
Qed.

(** ** Additions and subtractions of durations *)

Lemma DateTime_add_spec `{BuildProfile} self d T : datetime_wf self -> duration_wf d ->
  T = datetime_nanos self + Duration_as_nanos d ->
  T < 2 ^ 32 * NANOS_PER_SEC ->
  DateTime_add self d = Ok {| sec := T / NANOS_PER_SEC; nanos := T mod NANOS_PER_SEC |}.
Proof.
  unfold datetime_wf, duration_wf, datetime_nanos, Duration_as_nanos, in_u, NANOS_PER_SEC.
  intros [? ?] [? ?] HTeq HT. unfold DateTime_add.
  rewrite as_u_small by (unfold in_u; lia). run_arith.
  assert (Hq : 0 <= (nanos self + subsec_nanos d) / 1000000000 <= 1).
  { split; [apply Z.div_pos; lia|]. apply Z.lt_succ_r, Z.div_lt_upper_bound; lia. }
  pose proof (Z.div_mod (nanos self + subsec_nanos d) 1000000000 ltac:(lia)) as Hdm.
  pose proof (Z.mod_pos_bound (nanos self + subsec_nanos d) 1000000000 ltac:(lia)).
  destruct (nanos_split (sec self + as_secs d + (nanos self + subsec_nanos d) / 1000000000)
    ((nanos self + subsec_nanos d) mod 1000000000)) as [E1 E2]; [done|].
  unfold NANOS_PER_SEC in E1, E2.
  assert (T = (sec self + as_secs d + (nanos self + subsec_nanos d) / 1000000000) * 1000000000
    + (nanos self + subsec_nanos d) mod 1000000000) as ET by lia.
  rewrite ET, E1, E2. run_arith. done.
Qed.

Lemma DateTime_sub_duration_spec `{BuildProfile} self d T : datetime_wf self -> duration_wf d ->
  as_secs d < 2 ^ 63 ->
  T = Z.max 0 (datetime_nanos self - Duration_as_nanos d) ->
  DateTime_sub_duration self d = Ok {| sec := T / NANOS_PER_SEC; nanos := T mod NANOS_PER_SEC |}.
Proof.
  unfold datetime_wf, duration_wf, datetime_nanos, Duration_as_nanos, in_u, NANOS_PER_SEC.
  intros [? ?] [? ?] Hd HT. unfold DateTime_sub_duration.
  rewrite (as_i_small 64) by (unfold in_i; lia). run_arith.
  assert (Hfin : forall s n, 0 <= n < 1000000000 -> s < 2 ^ 32 ->
    sec self * 1000000000 + nanos self - (as_secs d * 1000000000 + subsec_nanos d) = s * 1000000000 + n ->
    (let '(secs, ns) := if s <? 0 then (0, 0) else (s, n) in
     Ok (E:=CommonError) {| sec := as_u 32 secs; nanos := as_u 32 ns |})
    = Ok {| sec := T / 1000000000; nanos := T mod 1000000000 |}).
  { intros s n Hn Hs E. rewrite HT, E. destruct (Z.ltb_spec s 0).
    - rewrite Z.max_l by lia. done.
    - rewrite Z.max_r by lia. destruct (nanos_split s n Hn) as [E1 E2].
      unfold NANOS_PER_SEC in E1, E2. rewrite E1, E2, !as_u_small by (unfold in_u; lia). done. }
  destruct (Z.ltb_spec (nanos self - subsec_nanos d) 0); run_arith; apply Hfin; lia.
Qed.

Lemma T_wf T : 0 <= T < 2 ^ 32 * NANOS_PER_SEC ->
  datetime_wf {| sec := T / NANOS_PER_SEC; nanos := T mod NANOS_PER_SEC |} /\
  datetime_nanos {| sec := T / NANOS_PER_SEC; nanos := T mod NANOS_PER_SEC |} = T.
Proof.
  unfold datetime_wf, datetime_nanos, in_u, NANOS_PER_SEC. cbn. intros HT.
  pose proof (Z.div_mod T 1000000000 ltac:(lia)). pose proof (Z.mod_pos_bound T 1000000000 ltac:(lia)).
  split; [|lia]. split; [|lia].
  split; [apply Z.div_pos; lia|apply Z.div_lt_upper_bound; lia].
Qed.

(** ** Conversions to and from NTP *)

Lemma ntp_of_datetime_spec `{BuildProfile} {E} t s' :
  datetime_wf t -> f64_as_u 32 (timestamp t) = s' -> in_u 32 (s' + NTP_EPOCH) ->
  ntp_of_datetime (E:=E) t
    = Ok {| seconds := s' + NTP_EPOCH; fraction := nanos t * 2 ^ 32 / NANOS_PER_SEC |}.
Proof.
  intros [_ Hn] Hs Hin. unfold ntp_of_datetime. rewrite Hs.
  change (as_u 32 NTP_EPOCH) with NTP_EPOCH. rewrite u_arith_in by done. cbn [mbind outcome_bind].
  unfold NSECS_CONVERSION, FRACTION_CONVERSION. by rewrite ntp_fraction_exact.
Qed.

Lemma fraction_range n : 0 <= n < NANOS_PER_SEC -> in_u 32 (n * 2 ^ 32 / NANOS_PER_SEC).
Proof.
  unfold in_u, NANOS_PER_SEC. intros Hn.
  split; [apply Z.div_pos; lia|apply Z.div_lt_upper_bound; lia].
Qed.

(** Before the end of NTP era 0 the conversions of a normalised time do not fail. *)
Lemma ntp_of_datetime_ok `{BuildProfile} {E} t : datetime_wf t -> sec t + 1 + NTP_EPOCH < 2 ^ 32 ->
  exists n, ntp_of_datetime (E:=E) t = Ok n /\ ntp_wf n.
Proof.
  intros Ht Hs. destruct (Ht) as [[? ?] Hn]. unfold NTP_EPOCH in Hs.
  destruct (timestamp_secs_bounds t) as [Es|Es]; [lia|done|..];
    (eexists; split; [eapply (ntp_of_datetime_spec t); [done|exact Es|unfold in_u, NTP_EPOCH; lia]|]);
    (split; cbn [seconds fraction]; [unfold in_u, NTP_EPOCH; lia|by apply fraction_range]).
Qed.

Lemma datetime_of_ntp_spec `{BuildProfile} {E} t : ntp_wf t ->
  datetime_of_ntp (E:=E) t = Ok {| sec := as_u 32 (seconds t - NTP_EPOCH);
    nanos := (fraction t * NANOS_PER_SEC + 2 ^ 31) / 2 ^ 32 |}.
Proof.
  intros [Hs Hf]. unfold datetime_of_ntp. unfold in_u, NTP_EPOCH in *.
  rewrite i_arith_in by (unfold in_i; lia). cbn [mbind outcome_bind].
  by rewrite ntp_nanos_exact.
Qed.

Lemma nanos_of_fraction n : 0 <= n < NANOS_PER_SEC ->
  (n * 2 ^ 32 / NANOS_PER_SEC * NANOS_PER_SEC + 2 ^ 31) / 2 ^ 32 = n.
Proof.
  unfold NANOS_PER_SEC. intros Hn.
  pose proof (Z.div_mod (n * 2 ^ 32) 1000000000 ltac:(lia)).
  pose proof (Z.mod_pos_bound (n * 2 ^ 32) 1000000000 ltac:(lia)).
  symmetry. apply Z.div_unique with (n * 2 ^ 32 / 1000000000 * 1000000000 + 2 ^ 31 - 2 ^ 32 * n);
    [left; lia|ring].
Qed.

Lemma as_u_sub_epoch s : 0 <= s < 2 ^ 32 -> as_u 32 (s + NTP_EPOCH - NTP_EPOCH) = s.
Proof. intros Hs. rewrite Z.add_simpl_r. by apply as_u_small. Qed.

(** A time whose [timestamp] truncates to [s'] comes back with [s'] as its seconds. *)
Lemma ntp_roundtrip_secs `{BuildProfile} t s' : datetime_wf t ->
  f64_as_u 32 (timestamp t) = s' -> 0 <= s' -> s' + NTP_EPOCH < 2 ^ 32 ->
  (ntp ← ntp_of_datetime (E:=CommonError) t; datetime_of_ntp ntp)
    = Ok {| sec := s'; nanos := nanos t |}.
Proof.
  intros Ht Hs Hs0 Hs1. rewrite (ntp_of_datetime_spec t s') by (done || (unfold in_u, NTP_EPOCH in *; lia)).
  cbn [mbind outcome_bind]. destruct Ht as [_ Hn].
  rewrite datetime_of_ntp_spec.
  - cbn [seconds fraction]. rewrite nanos_of_fraction by done.
    rewrite as_u_sub_epoch by (unfold NTP_EPOCH in *; lia). done.
  - split; cbn [seconds fraction]; [unfold in_u, NTP_EPOCH in *; lia|by apply fraction_range].
Qed.

(** ** Properties *)

(** C16: the difference of two times, as nanoseconds, is the exact signed difference for
    every pair of [u32] fields: no intermediate [i64] or [u64] operation overflows, in
    debug and in release builds. *)
Theorem DateTime_sub_exact `{BuildProfile} a b :
  datetime_u32 a -> datetime_u32 b ->
  (i ← DateTime_sub a b; Interval_as_nanos i) = Ok (datetime_nanos a - datetime_nanos b).
Proof.
  intros Ha Hb. destruct (DateTime_sub_spec a b Ha Hb) as (i & -> & _ & Hd & Hm).
  cbn [mbind outcome_bind]. destruct Ha as [[? ?] [? ?]], Hb as [[? ?] [? ?]].
  assert (Z.abs (datetime_nanos a - datetime_nanos b) <= i_max 64)
    by (unfold datetime_nanos, i_max, NANOS_PER_SEC; lia).
  rewrite Interval_as_nanos_spec; [|lia|lia|destruct (_ <? _); auto].
  rewrite Hd, Hm. f_equal. destruct (Z.ltb_spec (datetime_nanos a) (datetime_nanos b)); lia.
Qed.

Example DateTime_sub_exact_witness :
  (i ← @DateTime_sub DEBUG {| sec := 5; nanos := 1 |} {| sec := 7; nanos := 2 |};
   @Interval_as_nanos CommonError DEBUG i) = Ok (-2000000001).
Proof. apply (@DateTime_sub_exact DEBUG); split; unfold in_u; cbn; lia. Defined.

(** Adding a duration to a normalised time and subtracting it again is the identity,
    and the intermediate time is normalised and exactly that much later, in both build
    profiles, as long as the sum is before the end of the [u32] range. *)
Theorem DateTime_add_sub_roundtrip `{BuildProfile} t d :
  datetime_wf t -> duration_wf d ->
  datetime_nanos t + Duration_as_nanos d < 2 ^ 32 * NANOS_PER_SEC ->
  exists t', DateTime_add t d = Ok t' /\ datetime_wf t' /\
    datetime_nanos t' = datetime_nanos t + Duration_as_nanos d /\
    DateTime_sub_duration t' d = Ok t.
Proof.
  intros Ht Hd HT. rewrite (DateTime_add_spec _ _ _ Ht Hd eq_refl HT). eexists. split; [done|].
  assert (0 <= datetime_nanos t /\ 0 <= Duration_as_nanos d) as [? ?].
  { destruct Ht as [[? ?] ?], Hd as [[? ?] ?]. unfold datetime_nanos, Duration_as_nanos, NANOS_PER_SEC. lia. }
  destruct (T_wf (datetime_nanos t + Duration_as_nanos d) ltac:(lia)) as [Hwf E].
  split; [done|]. split; [done|]. erewrite DateTime_sub_duration_spec; [|done|done| |done].
  - f_equal. rewrite E, Z.add_simpl_r, Z.max_r by lia.
    destruct (T_wf (datetime_nanos t)) as [Hwf' E']; [lia|]. by apply datetime_nanos_inj.
  - destruct Hd as [[? ?] ?]. unfold Duration_as_nanos, NANOS_PER_SEC in *. lia.
Qed.

Example DateTime_add_sub_roundtrip_witness :
  exists t', @DateTime_add DEBUG {| sec := 1700000000; nanos := 999999999 |} {| as_secs := 2; subsec_nanos := 5 |} = Ok t'
    /\ datetime_wf t' /\ datetime_nanos t' = 1700000000999999999 + 2000000005 /\
    @DateTime_sub_duration DEBUG t' {| as_secs := 2; subsec_nanos := 5 |} = Ok {| sec := 1700000000; nanos := 999999999 |}.
Proof.
  apply (@DateTime_add_sub_roundtrip DEBUG {| sec := 1700000000; nanos := 999999999 |} {| as_secs := 2; subsec_nanos := 5 |});
    unfold datetime_wf, duration_wf, in_u, datetime_nanos, Duration_as_nanos, NANOS_PER_SEC; cbn; lia.
Defined.

(** C34: the operations on times keep their representation normalised, in debug and in release
    builds, wrap-around included: whatever they return for normalised times and durations
    (the addition for any fields at all) has its fields in range and less than a second of
    nanoseconds, and the difference of two times is a normalised duration with a sign. *)
Theorem time_normalised `{BuildProfile} :
  (forall n, datetime_wf (from_nanos n)) /\
  (forall ts, 0 <= tv_nsec ts < NANOS_PER_SEC -> datetime_wf (from_timespec ts)) /\
  (forall t d t', DateTime_add t d = Ok t' -> datetime_wf t') /\
  (forall t d t', datetime_wf t -> duration_wf d -> DateTime_sub_duration t d = Ok t' -> datetime_wf t') /\
  (forall t u i, datetime_u32 t -> datetime_u32 u -> DateTime_sub t u = Ok i ->
     duration_wf (duration i) /\ (multiplier i = 1 \/ multiplier i = -1)).
Proof.
  assert (Hu : forall w z v, 0 <= w -> u_arith (E:=CommonError) w z = Ok v -> in_u w v).
  { intros w z v Hw. unfold u_arith. case_decide; [by intros [= <-]|]. destruct overflow_checks; [done|].
    intros [= <-]. by apply as_u_range. }
  split; [|split; [|split; [|split]]].
  - intros n. pose proof (Z.mod_pos_bound n 1000000000 ltac:(lia)). unfold from_nanos, datetime_wf, NANOS_PER_SEC. cbn [sec nanos].
    split; [by apply as_u_range|]. rewrite as_u_small by (unfold in_u; lia). done.
  - intros ts Hts. unfold from_timespec, datetime_wf, NANOS_PER_SEC in *. cbn [sec nanos].
    split; [by apply as_u_range|]. rewrite as_u_small by (unfold in_u; lia). done.
  - intros t d t' (s & _ & (n & _ & (s' & Hs' & [= <-])%bind_Ok_inv)%bind_Ok_inv)%bind_Ok_inv.
    split; cbn [sec nanos]; [by eapply Hu|]. apply Z.mod_pos_bound. unfold NANOS_PER_SEC. lia.
  - intros t d t' [_ Ht] [_ Hd]. unfold DateTime_sub_duration, NANOS_PER_SEC in *.
    intros (s & _ & E)%bind_Ok_inv. rewrite (i_arith_in 64 (nanos t - subsec_nanos d)) in E by (unfold in_i; lia). cbn [mbind outcome_bind] in E.
    assert (Hfin : forall s n, 0 <= n < 1000000000 ->
      (let '(secs, ns) := if s <? 0 then (0, 0) else (s, n) in
       Ok (E:=CommonError) {| sec := as_u 32 secs; nanos := as_u 32 ns |}) = Ok t' -> datetime_wf t').
    { intros s' n Hn. destruct (s' <? 0); intros [= <-]; (split; cbn [sec nanos]; [by apply as_u_range|]);
        rewrite as_u_small by (unfold in_u; lia); unfold NANOS_PER_SEC; lia. }
    destruct (Z.ltb_spec (nanos t - subsec_nanos d) 0); [|apply (Hfin s (nanos t - subsec_nanos d)); [lia|exact E]].
    apply bind_Ok_inv in E as ([s' n'] & (s'' & _ & E')%bind_Ok_inv & E). rewrite i_arith_in in E' by (unfold in_i; lia).
    injection E' as <- <-. apply (Hfin s'' (nanos t - subsec_nanos d + 1000000000)); [lia|exact E].
  - intros t u i Ht Hu' E. destruct (DateTime_sub_spec t u Ht Hu') as (i' & E' & Hd & _ & Hm).
    rewrite E in E'. injection E' as <-. split; [done|]. rewrite Hm. destruct (_ <? _); auto.
Qed.

Example time_normalised_witness :
  exists t', @DateTime_sub_duration RELEASE {| sec := 1700000000; nanos := 5 |} {| as_secs := 2 ^ 63 + 5; subsec_nanos := 7 |} = Ok t'
    /\ datetime_wf t'.
Proof.
  eexists. split; [vm_compute; reflexivity|].
  destruct (@time_normalised RELEASE) as (_ & _ & _ & Hsub & _).
  apply (Hsub {| sec := 1700000000; nanos := 5 |} {| as_secs := 2 ^ 63 + 5; subsec_nanos := 7 |});
    [unfold datetime_wf, in_u, NANOS_PER_SEC; cbn; lia|unfold duration_wf, in_u, NANOS_PER_SEC; cbn; lia|vm_compute; reflexivity].
Defined.

(** Up to the last 238 nanoseconds of a second the conversion is exact. *)
Lemma ntp_roundtrip_early `{BuildProfile} t : datetime_wf t -> nanos t <= 999999761 -> sec t + NTP_EPOCH < 2 ^ 32 ->
  (ntp ← ntp_of_datetime t; datetime_of_ntp ntp) = Ok (E:=CommonError) t.
Proof.
  intros Ht Hn Hs. pose proof Ht as [[? ?] [? _]].
  rewrite (ntp_roundtrip_secs t (sec t)) by (done || (apply timestamp_secs_exact; lia)). by destruct t.
Qed.

(** C17: a normalised time survives the trip through the NTP format, whose fraction is
    computed in floating point, for every nanosecond count up to 999_999_761 and every
    second up to the end of NTP era 0; the seconds and the fraction of the NTP timestamp are the exact ones. *)
Theorem ntp_roundtrip `{BuildProfile} t : datetime_wf t ->
  nanos t <= 999999761 -> sec t + NTP_EPOCH < 2 ^ 32 ->
  ntp_of_datetime (E:=CommonError) t
    = Ok {| seconds := sec t + NTP_EPOCH; fraction := nanos t * 2 ^ 32 / NANOS_PER_SEC |} /\
  (ntp ← ntp_of_datetime t; datetime_of_ntp ntp) = Ok (E:=CommonError) t.
Proof.
  intros Ht Hn Hs. pose proof Ht as [[? ?] [? _]].
  assert (Es : f64_as_u 32 (timestamp t) = sec t) by (apply timestamp_secs_exact; lia). split.
  - apply ntp_of_datetime_spec; [done|done|]. unfold in_u, NTP_EPOCH in *. lia.
  - by apply ntp_roundtrip_early.
Qed.

Example ntp_roundtrip_witness :
  (ntp ← @ntp_of_datetime CommonError DEBUG {| sec := 1700000000; nanos := 123456789 |};
   @datetime_of_ntp CommonError DEBUG ntp) = Ok {| sec := 1700000000; nanos := 123456789 |}.
Proof.
  apply (@ntp_roundtrip DEBUG {| sec := 1700000000; nanos := 123456789 |});
    unfold datetime_wf, in_u, NANOS_PER_SEC, NTP_EPOCH; cbn; lia.
Defined.

(** From 2004 to 2036, a time in the last 119 nanoseconds of a second is converted to
    an NTP timestamp one second late: [timestamp] adds the seconds and the fraction in
    [f64] and the sum rounds up to the next second, while the fraction stays. *)
Theorem ntp_of_datetime_second_late `{BuildProfile} t : datetime_wf t ->
  2 ^ 30 <= sec t -> sec t + 1 + NTP_EPOCH < 2 ^ 32 -> 999999881 <= nanos t ->
  (ntp ← ntp_of_datetime t; datetime_of_ntp ntp)
    = Ok (E:=CommonError) {| sec := sec t + 1; nanos := nanos t |}.
Proof.
  intros Ht Hs Hs' Hn. pose proof Ht as [_ [_ ?]].
  apply ntp_roundtrip_secs; [done| |lia|lia].
  apply timestamp_secs_carry; [unfold NTP_EPOCH in *; lia|lia].
Qed.

Example ntp_of_datetime_second_late_witness :
  (ntp ← @ntp_of_datetime CommonError RELEASE {| sec := 1700000000; nanos := 999999881 |};
   @datetime_of_ntp CommonError RELEASE ntp) = Ok {| sec := 1700000001; nanos := 999999881 |}.
Proof.
  apply (@ntp_of_datetime_second_late RELEASE {| sec := 1700000000; nanos := 999999881 |});
    unfold datetime_wf, in_u, NANOS_PER_SEC, NTP_EPOCH; cbn; lia.
Defined.

(** Converting an NTP timestamp never fails and gives the fraction rounded to the
    nearest nanosecond; the result is a normalised time except for the two largest
    fractions, which give 1_000_000_000 nanoseconds. *)
Theorem datetime_of_ntp_total `{BuildProfile} t : ntp_wf t ->
  exists dt, datetime_of_ntp (E:=CommonError) t = Ok dt /\
    2 * Z.abs (nanos dt * 2 ^ 32 - fraction t * NANOS_PER_SEC) <= 2 ^ 32 /\
    (sec dt + NTP_EPOCH) mod 2 ^ 32 = seconds t /\
    (fraction t < 2 ^ 32 - 2 -> datetime_wf dt) /\
    (2 ^ 32 - 2 <= fraction t -> nanos dt = NANOS_PER_SEC).
Proof.
  intros Ht. pose proof Ht as [Hs Hf]. rewrite datetime_of_ntp_spec by done.
  eexists. split; [done|]. cbn [sec nanos]. unfold in_u, NANOS_PER_SEC in *.
  set (q := (fraction t * 1000000000 + 2 ^ 31) / 2 ^ 32).
  pose proof (Z.div_mod (fraction t * 1000000000 + 2 ^ 31) (2 ^ 32) ltac:(lia)) as Hq. fold q in Hq.
  pose proof (Z.mod_pos_bound (fraction t * 1000000000 + 2 ^ 31) (2 ^ 32) ltac:(lia)) as Hr.
  split; [lia|]. split.
  - unfold as_u. rewrite Zplus_mod_idemp_l, Z.sub_add. by apply Z.mod_small.
  - split; [|lia]. intros ?. split; [apply as_u_range; lia|cbn [nanos]; unfold NANOS_PER_SEC; lia].
Qed.

Example datetime_of_ntp_total_witness :
  exists dt, @datetime_of_ntp CommonError DEBUG {| seconds := 3908988800; fraction := 4294967295 |} = Ok dt /\
    2 * Z.abs (nanos dt * 2 ^ 32 - 4294967295 * NANOS_PER_SEC) <= 2 ^ 32 /\
    (sec dt + NTP_EPOCH) mod 2 ^ 32 = 3908988800 /\
    (4294967295 < 2 ^ 32 - 2 -> datetime_wf dt) /\
    (2 ^ 32 - 2 <= 4294967295 -> nanos dt = NANOS_PER_SEC).
Proof.
  apply (@datetime_of_ntp_total DEBUG {| seconds := 3908988800; fraction := 4294967295 |});
    split; unfold in_u; cbn; lia.
Defined.

(** The three ways of making an NTP timestamp of the same instant agree, outside the
    last 239 nanoseconds of a second: [now] (integer seconds), [ntp_from_timespec] (seconds
    through [f64]) and the conversion from [DateTime] ([timestamp] in [f64]). *)
Theorem ntp_constructors_agree `{BuildProfile} t : datetime_wf t ->
  nanos t <= 999999761 -> sec t + NTP_EPOCH < 2 ^ 32 ->
  ntp_now (E:=CommonError) {| as_secs := sec t; subsec_nanos := nanos t |} = ntp_of_datetime t /\
  ntp_from_timespec (sec t) (nanos t) = ntp_of_datetime (E:=CommonError) t.
Proof.
  intros Ht Hn Hs. rewrite (ntp_of_datetime_spec t (sec t));
    [|done|apply timestamp_secs_exact; destruct Ht as [[? ?] ?]; lia
     |destruct Ht as [[? ?] ?]; unfold in_u, NTP_EPOCH in *; lia].
  destruct Ht as [[? ?] Hn'].
  unfold ntp_now, ntp_from_timespec. cbn [as_secs subsec_nanos].
  change (f64_of_Z (2 ^ 32)) with (f64_of_Z 4294967296).
  change (f64_powi (f64_of_Z 2) 32) with (f64_of_Z 4294967296).
  unfold NTP_EPOCH in *.
  rewrite !u_arith_in by (unfold in_u; lia). cbn [mbind outcome_bind].
  rewrite !ntp_fraction_exact by done.
  rewrite f64_as_u32_of_Z by lia. rewrite as_u_small by (unfold in_u; lia). done.
Qed.

Example ntp_constructors_agree_witness :
  @ntp_now CommonError DEBUG {| as_secs := 1700000000; subsec_nanos := 5 |}
    = @ntp_of_datetime CommonError DEBUG {| sec := 1700000000; nanos := 5 |} /\
  @ntp_from_timespec CommonError DEBUG 1700000000 5
    = @ntp_of_datetime CommonError DEBUG {| sec := 1700000000; nanos := 5 |}.
Proof.
  apply (@ntp_constructors_agree DEBUG {| sec := 1700000000; nanos := 5 |});
    unfold datetime_wf, in_u, NANOS_PER_SEC, NTP_EPOCH; cbn; lia.
Defined.

(** The broken-down time of a minute of the day. *)
Definition tm_of_minute (m : Z) : tm := {| tm_hour := m / 60; tm_min := m mod 60 |}.

(** [get_timezone_offset] subtracts hours and minutes without the day: at minute [g] of the
    UTC day and offset [o] it gives [o] exactly when local time is on the same day, and is a
    day off otherwise. *)
Theorem get_timezone_offset_same_day `{BuildProfile} g o :
  0 <= g < 1440 -> -1440 < o < 1440 ->
  exists r, get_timezone_offset (E:=CommonError) (tm_of_minute ((g + o) mod 1440)) (tm_of_minute g) = Ok r /\
    (r = o <-> 0 <= g + o < 1440) /\ (r - o) mod 1440 = 0.
Proof.
  intros Hg Ho. unfold get_timezone_offset, tm_of_minute. cbn [tm_hour tm_min].
  pose proof (Z.mod_pos_bound (g + o) 1440 ltac:(lia)) as Hl.
  pose proof (Z.div_mod (g + o) 1440 ltac:(lia)) as Hd.
  set (l := (g + o) mod 1440) in *.
  pose proof (Z.div_mod l 60 ltac:(lia)). pose proof (Z.mod_pos_bound l 60 ltac:(lia)).
  pose proof (Z.div_mod g 60 ltac:(lia)). pose proof (Z.mod_pos_bound g 60 ltac:(lia)).
  run_arith. eexists. split; [reflexivity|].
  replace ((l / 60 - g / 60) * 60 + (l mod 60 - g mod 60)) with (l - g) by lia. split; [lia|].
  apply Z.mod_divide; [lia|]. exists (- ((g + o) / 1440)). lia.
Qed.

Example get_timezone_offset_same_day_witness :
  exists r, @get_timezone_offset CommonError DEBUG (tm_of_minute ((60 + (-120)) mod 1440)) (tm_of_minute 60) = Ok r /\
    (r = -120 <-> 0 <= 60 + (-120) < 1440) /\ (r - (-120)) mod 1440 = 0.
Proof. apply (@get_timezone_offset_same_day DEBUG 60 (-120)); lia. Defined.
