(* ===== verification/Calendar.v ===== *)
(** * The printed form of a time is right

    [DateTime]'s [Display] computes the calendar date from the Julian day in floating point
    ([network_commons/src/time.rs]).  This file gives the calendar by its rules (leap years,
    lengths of the months), proves that the floating-point computation agrees with it for
    every [u32] of seconds, and that a reader of the printed form gets the time back.  The way
    there is in three steps: the floating-point steps are floors of rational numbers; these
    are an integer formula of the day; that formula is right on the first and the last day
    of each of the 1640 months, and steady in between. *)
From stdpp Require Import base list option numbers strings pretty.
From Stdlib Require Import ZArith Lia SpecFloat Ascii.
From S2P Require Import Prelude Float64 Errors Time.
Local Open Scope Z_scope.

(** ** The calendar *)

Definition leap (year : Z) : bool := (year mod 4 =? 0) && (negb (year mod 100 =? 0) || (year mod 400 =? 0)).
Definition days_in_month (year month : Z) : Z :=
  match month with
  | 2 => if leap year then 29 else 28
  | 4 | 6 | 9 | 11 => 30
  | _ => 31
  end.
Definition year_length (year : Z) : Z := if leap year then 366 else 365.

Record valid_date (year month day : Z) : Prop := {
  valid_year : 1970 <= year;
  valid_month : 1 <= month <= 12;
  valid_day : 1 <= day <= days_in_month year month
}.

(** Days since the first of January 1970. *)
Fixpoint days_before_year (k : nat) : Z :=
  match k with O => 0 | S k => days_before_year k + year_length (1970 + Z.of_nat k) end.
Fixpoint days_before_month (year : Z) (k : nat) : Z :=
  match k with O => 0 | S k => days_before_month year k + days_in_month year (Z.of_nat (S k)) end.
Definition day_number (year month day : Z) : Z :=
  days_before_year (Z.to_nat (year - 1970)) + days_before_month year (Z.to_nat (month - 1)) + (day - 1).

(** The month after. *)
Definition next_month (year month : Z) : Z * Z := if month =? 12 then (year + 1, 1) else (year, month + 1).

Lemma year_of_months year : days_before_month year 12 = year_length year.
Proof. unfold year_length. lazy -[leap Z.add]. destruct (leap year); reflexivity. Qed.

Lemma day_number_next year month : 1970 <= year -> 1 <= month <= 12 ->
  let '(year', month') := next_month year month in
  1970 <= year' /\ 1 <= month' <= 12 /\ day_number year' month' 1 = day_number year month 1 + days_in_month year month.
Proof.
  intros Hy Hm. unfold next_month. destruct (Z.eqb_spec month 12) as [->|Hne]; (split; [lia|]; split; [lia|]); unfold day_number.
  - replace (Z.to_nat (year + 1 - 1970)) with (S (Z.to_nat (year - 1970))) by lia. cbn [days_before_year].
    replace (1970 + Z.of_nat (Z.to_nat (year - 1970))) with year by lia. rewrite <-year_of_months.
    change (days_before_month year 12) with (days_before_month year 11 + days_in_month year 12).
    change (Z.to_nat (12 - 1)) with 11%nat. change (Z.to_nat (1 - 1)) with 0%nat. cbn [days_before_month]. lia.
  - replace (Z.to_nat (month + 1 - 1)) with (S (Z.to_nat (month - 1))) by lia. cbn [days_before_month].
    replace (Z.of_nat (S (Z.to_nat (month - 1)))) with month by lia. lia.
Qed.

(** ** The integer formula *)

(** The source's variables, for the day [n]: the centuries, the day counted from the year
    -4716, the year, its days, the month. *)
Definition julian_w (n : Z) : Z := (4 * (n + 2440588) - 7468865) / 146097.
Definition julian_b (n : Z) : Z := n + 2440588 + 1 + julian_w n - julian_w n / 4 + 1524.
Definition julian_c (n : Z) : Z := (20 * julian_b n - 2442) / 7305.
Definition julian_d (n : Z) : Z := 1461 * julian_c n / 4.
Definition julian_e (n : Z) : Z := 10000 * (julian_b n - julian_d n) / 306001.
Definition month_of (e : Z) : Z := if e <=? 13 then e - 1 else e - 13.
Definition civil (n : Z) : Z * Z * Z :=
  let month := month_of (julian_e n) in
  (if 3 <=? month then julian_c n - 4716 else julian_c n - 4715, month,
   julian_b n - julian_d n - 306001 * julian_e n / 10000).

(** All of them, each computed once. *)
Definition julian (n : Z) : Z * Z * Z * (Z * Z * Z) :=
  let w := (4 * (n + 2440588) - 7468865) / 146097 in
  let b := n + 2440588 + 1 + w - w / 4 + 1524 in
  let c := (20 * b - 2442) / 7305 in
  let d := 1461 * c / 4 in
  let e := 10000 * (b - d) / 306001 in
  let month := month_of e in
  (w, c, e, (if 3 <=? month then c - 4716 else c - 4715, month, b - d - 306001 * e / 10000)).

Lemma julian_spec n : julian n = (julian_w n, julian_c n, julian_e n, civil n).
Proof. reflexivity. Qed.

(** Right on the first day of a month, and the variables of its last day are the same. *)
Definition month_agrees (year month n : Z) : bool :=
  let '(w, c, e, (y, m, d)) := julian n in
  let '(w1, c1, e1, _) := julian (n + days_in_month year month - 1) in
  (w =? w1) && (c =? c1) && (e =? e1) && ((y =? year) && (m =? month) && (d =? 1)).

Fixpoint months_agree (fuel : nat) (year month n : Z) : bool :=
  match fuel with
  | O => 49710 <? n
  | S fuel =>
      month_agrees year month n &&
      (let '(year', month') := next_month year month in months_agree fuel year' month' (n + days_in_month year month))
  end.

Lemma julian_w_mono n n' : n <= n' -> julian_w n <= julian_w n'.
Proof. intros Hn. unfold julian_w. apply Z.div_le_mono; lia. Qed.

Lemma month_agrees_civil year month n k : month_agrees year month n = true -> 0 <= k < days_in_month year month ->
  civil (n + k) = (year, month, k + 1).
Proof.
  set (n1 := n + days_in_month year month - 1). unfold month_agrees. rewrite !julian_spec. fold n1. intros Ha Hk.
  assert (E : civil n = (year, month, 1)).
  { destruct (civil n) as [[y m] d]. rewrite !andb_true_iff, !Z.eqb_eq in Ha. destruct Ha as [_ [[-> ->] ->]]. done. }
  destruct (civil n) as [[y m] d] eqn:Ec. rewrite !andb_true_iff, !Z.eqb_eq in Ha. destruct Ha as [[[Hw Hc] He] _].
  injection E as -> -> ->.
  assert (Hw' : julian_w (n + k) = julian_w n).
  { pose proof (julian_w_mono n (n + k) ltac:(lia)). pose proof (julian_w_mono (n + k) n1 ltac:(lia)). lia. }
  assert (Hb : julian_b (n + k) = julian_b n + k) by (unfold julian_b; rewrite Hw'; lia).
  assert (Hb1 : julian_b n1 = julian_b n + (n1 - n)) by (unfold julian_b; rewrite <-Hw; lia).
  assert (Hc' : julian_c (n + k) = julian_c n).
  { assert (julian_c n <= julian_c (n + k)) by (unfold julian_c; apply Z.div_le_mono; lia).
    assert (julian_c (n + k) <= julian_c n1) by (unfold julian_c; apply Z.div_le_mono; lia). lia. }
  assert (Hd' : julian_d (n + k) = julian_d n) by (unfold julian_d; by rewrite Hc').
  assert (Hd1 : julian_d n1 = julian_d n) by (unfold julian_d; by rewrite Hc).
  assert (He' : julian_e (n + k) = julian_e n).
  { assert (julian_e n <= julian_e (n + k)) by (unfold julian_e; apply Z.div_le_mono; lia).
    assert (julian_e (n + k) <= julian_e n1) by (unfold julian_e; apply Z.div_le_mono; lia). lia. }
  unfold civil in *. rewrite He', Hc', Hd', Hb. injection Ec as E1 E2 E3. rewrite <-E1, <-E2. f_equal. lia.
Qed.

Lemma months_agree_civil fuel year month n0 : months_agree fuel year month n0 = true -> 1970 <= year -> 1 <= month <= 12 ->
  day_number year month 1 = n0 -> forall n, n0 <= n <= 49710 ->
  let '(y, m, d) := civil n in valid_date y m d /\ day_number y m d = n.
Proof.
  revert year month n0. induction fuel as [|fuel IH]; intros year month n0 Hc Hy Hm Hn0 n Hn; cbn [months_agree] in Hc.
  { apply Z.ltb_lt in Hc. lia. }
  apply andb_true_iff in Hc as [Hc1 Hc2]. destruct (Z_lt_le_dec n (n0 + days_in_month year month)) as [Hlt|Hge].
  - replace n with (n0 + (n - n0)) by lia. rewrite (month_agrees_civil _ _ _ (n - n0) Hc1) by lia.
    split; [constructor; lia|]. revert Hn0. unfold day_number. lia.
  - pose proof (day_number_next year month Hy Hm) as Hnext. destruct (next_month year month) as [y' m'].
    destruct Hnext as (Hy' & Hm' & Hd). by apply (IH y' m' (n0 + days_in_month year month)); [|..|lia|lia].
Qed.

(** The formula is right for every day of a [u32] of seconds. *)
Lemma civil_calendar n : 0 <= n <= 49710 -> let '(y, m, d) := civil n in valid_date y m d /\ day_number y m d = n.
Proof.
  intros Hn. apply (months_agree_civil 1640 1970 1 0); [vm_compute; reflexivity|lia|lia|reflexivity|lia].
Qed.

(** ** The floating-point steps *)

Lemma day_float s : in_u 32 s -> f64_floor (f64_div (f64_of_Z s) (f64_of_Z 86400)) = f64_of_Z (s / 86400).
Proof.
  unfold in_u. intros Hs. destruct (decide (s = 0)) as [->|Hne]; [reflexivity|].
  rewrite (f64_floor_div 52 52 s 1 86400 1) by first [lia|apply f64_of_Z_is; lia]. by rewrite Z.mul_1_r, Z.mul_1_l.
Qed.

Lemma z_float n : 1 <= n <= 49710 ->
  f64_floor (f64_add (f64_add (f64_of_Z n) (f64_lit 24405875 10)) (f64_lit 5 10)) = f64_of_Z (n + 2440588).
Proof.
  intros Hn. assert (Hj : f64_exact 200 (2 * n + 4881175) (2 ^ 1) (f64_add (f64_of_Z n) (f64_lit 24405875 10))).
  { apply (f64_near_dyadic 1100); [lia|lia|]. replace (2 * n + 4881175) with (n * 2 ^ 1 + 4881175 * 1) by ring.
    rewrite <-(Z.mul_1_l (2 ^ 1)) at 2. apply (f64_add_near 52 200); [lia..|apply f64_of_Z_is; lia|].
    apply f64_lit_dyadic; lia. }
  pose proof (f64_add_near 200 200 _ (2 ^ 1) 1 (2 ^ 1) _ (f64_lit 5 10) ltac:(lia) ltac:(lia) ltac:(lia) ltac:(lia) Hj
    ltac:(apply f64_lit_dyadic; lia)) as Hz.
  erewrite f64_floor_near; [| |  |exact Hz]; [|lia..]. f_equal. symmetry. apply Z.div_unique_exact; lia.
Qed.

Lemma w_float n : 1 <= n <= 49710 ->
  f64_floor (f64_div (f64_sub (f64_of_Z (n + 2440588)) (f64_lit 186721625 100)) (f64_lit 3652425 100)) = f64_of_Z (julian_w n).
Proof.
  intros Hn. assert (Hz : f64_exact 200 (4 * (n + 2440588) - 7468865) (2 ^ 2) (f64_sub (f64_of_Z (n + 2440588)) (f64_lit 186721625 100))).
  { apply (f64_near_dyadic 1100); [lia|lia|].
    replace (4 * (n + 2440588) - 7468865) with ((n + 2440588) * 2 ^ 2 - 7468865 * 1) by ring.
    rewrite <-(Z.mul_1_l (2 ^ 2)) at 2. apply (f64_sub_near 52 200); [lia..|apply f64_of_Z_is; lia|]. apply f64_lit_dyadic; lia. }
  pose proof (f64_lit_dyadic 3652425 100 146097 2 ltac:(lia) ltac:(lia) ltac:(lia) ltac:(lia) ltac:(lia)) as Hl.
  erewrite f64_floor_div; [|..|exact Hz|exact Hl]; [|lia..].
  f_equal. unfold julian_w. replace (2 ^ 2 * 146097) with (146097 * 2 ^ 2) by lia. apply Z.div_mul_cancel_r; lia.
Qed.

Lemma quarter_float k : 0 < k < 2 ^ 40 -> f64_floor (f64_div (f64_of_Z k) (f64_of_Z 4)) = f64_of_Z (k / 4).
Proof.
  intros Hk. rewrite (f64_floor_div 52 52 k 1 4 1) by first [lia|apply f64_of_Z_is; lia]. by rewrite Z.mul_1_r, Z.mul_1_l.
Qed.

Lemma d_float c : 0 < c < 2 ^ 30 -> f64_floor (f64_mul (f64_lit 36525 100) (f64_of_Z c)) = f64_of_Z (1461 * c / 4).
Proof.
  intros Hc. rewrite (f64_floor_mul 200 52 1461 (2 ^ 2) c 1); [done|lia|lia|lia|lia|apply f64_lit_dyadic; lia|apply f64_of_Z_is; lia].
Qed.

(** 122.1 is not a binary fraction: its float is within 2^-46. *)
Lemma lit_1221 : exists K, f64_exact 200 K (2 ^ 46) (f64_lit 1221 10) /\ Z.abs (10 * K - 1221 * 2 ^ 46) <= 10.
Proof.
  exists 8592023664092774. split; [|vm_compute; discriminate]. exists 8592023664092774%positive, 46, 0.
  split; [vm_compute; reflexivity|]. lia.
Qed.

(** The year: the quotient is at least 2/7305 away from the next integer, far more than the
    rounding errors. *)
Lemma c_float b : 2440000 <= b <= 2500000 ->
  f64_floor (f64_div (f64_sub (f64_of_Z b) (f64_lit 1221 10)) (f64_lit 36525 100)) = f64_of_Z ((20 * b - 2442) / 7305).
Proof.
  intros Hb. destruct lit_1221 as (K & HK & Hk).
  pose proof (f64_sub_near 52 200 b 1 K (2 ^ 46) _ _ ltac:(lia) ltac:(lia) ltac:(lia) ltac:(lia) ltac:(lia)
    (f64_of_Z_is b ltac:(lia)) HK) as Hx.
  destruct (f64_near_value _ (b * 2 ^ 46 - K * 1) (1 * 2 ^ 46) _ ltac:(lia) ltac:(lia) ltac:(lia) Hx) as (M & P & HM & HP & HMP).
  assert (Hb1 : 2439800 * P <= b * P - 122 * P) by nia. assert (Hb2 : b * P <= 2500000 * P) by nia.
  assert (HKP : Z.abs (10 * (K * P) - 1221 * 2 ^ 46 * P) <= 10 * P) by nia.
  set (bP := b * P) in *. set (KP := K * P) in *.
  assert (HMb : Z.abs (M * 2 ^ 46 - (bP * 2 ^ 46 - KP)) <= 2 ^ 25 * P).
  { replace (bP * 2 ^ 46 - KP) with ((b * 2 ^ 46 - K * 1) * P) by (unfold bP, KP; ring). lia. }
  pose proof (f64_lit_dyadic 36525 100 1461 2 ltac:(lia) ltac:(lia) ltac:(lia) ltac:(lia) ltac:(lia)) as Hl.
  pose proof (f64_div_near 200 200 M P 1461 (2 ^ 2) _ _ ltac:(lia) ltac:(lia) ltac:(lia) ltac:(lia) HM Hl) as Hy.
  destruct (f64_near_value _ (M * 2 ^ 2) (P * 1461) _ ltac:(lia) ltac:(lia) ltac:(lia) Hy) as (M' & P' & HM' & HP' & HMP').
  set (q := (20 * b - 2442) / 7305).
  assert (Hq : 7305 * q + 3 <= 20 * b - 2442 <= 7305 * q + 7303).
  { subst q. pose proof (Z.div_mod (20 * b - 2442) 7305). pose proof (Z.mod_pos_bound (20 * b - 2442) 7305). lia. }
  clearbody q. assert (HX : 0 < P * P') by (apply Z.mul_pos_pos; lia).
  assert (H1 : Z.abs ((M * 2 ^ 46 - (bP * 2 ^ 46 - KP)) * P') <= 2 ^ 25 * P * P').
  { rewrite Z.abs_mul, (Z.abs_eq P') by lia. apply Z.mul_le_mono_nonneg_r; lia. }
  assert (H2 : Z.abs ((10 * KP - 1221 * 2 ^ 46 * P) * P') <= 10 * P * P').
  { rewrite Z.abs_mul, (Z.abs_eq P') by lia. apply Z.mul_le_mono_nonneg_r; lia. }
  assert (H3 : (7305 * q + 3) * (P * P') <= (20 * b - 2442) * (P * P')) by (apply Z.mul_le_mono_nonneg_r; lia).
  assert (H4 : (20 * b - 2442) * (P * P') <= (7305 * q + 7303) * (P * P')) by (apply Z.mul_le_mono_nonneg_r; lia).
  assert (Hfloor : q * P' <= M' < (q + 1) * P').
  { unfold bP, KP in *. split; [apply (proj2 (Z.mul_le_mono_pos_r _ _ P HP))|apply (proj2 (Z.mul_lt_mono_pos_r P _ _ HP))]; lia. }
  rewrite (f64_floor_exact 200 M' P') by (done || lia). f_equal. symmetry. apply Z.div_unique with (M' - q * P'); [left|]; lia.
Qed.

(** 30.6001 is not a binary fraction either, but few quotients occur: all are computed. *)
#[local] Instance spec_float_eq_dec : EqDecision spec_float.
Proof. solve_decision. Defined.

Lemma table (f g : Z -> f64) lo n : forallb (fun k => bool_decide (f k = g k)) (seqZ lo n) = true ->
  forall k, lo <= k < lo + n -> f k = g k.
Proof.
  intros Hf k Hk. rewrite forallb_forall in Hf. specialize (Hf k). rewrite bool_decide_eq_true in Hf. apply Hf.
  by apply list_elem_of_In, elem_of_seqZ.
Qed.

Lemma e_float k : 122 <= k <= 489 ->
  f64_floor (f64_div (f64_of_Z k) (f64_lit 306001 10000)) = f64_of_Z (10000 * k / 306001).
Proof.
  intros Hk. apply (table (fun k => f64_floor (f64_div (f64_of_Z k) (f64_lit 306001 10000)))
    (fun k => f64_of_Z (10000 * k / 306001)) 122 368); [vm_compute; reflexivity|lia].
Qed.

Lemma day_frac_float e : 3 <= e <= 15 ->
  f64_floor (f64_mul (f64_lit 306001 10000) (f64_of_Z e)) = f64_of_Z (306001 * e / 10000).
Proof.
  intros He. apply (table (fun e => f64_floor (f64_mul (f64_lit 306001 10000) (f64_of_Z e)))
    (fun e => f64_of_Z (306001 * e / 10000)) 3 13); [vm_compute; reflexivity|lia].
Qed.

Lemma month_float e : 4 <= e <= 15 ->
  (if f64_ltb (f64_of_Z e) (f64_lit 135 10) then f64_as_u 8 (f64_sub (f64_of_Z e) (f64_of_Z 1))
   else f64_as_u 8 (f64_sub (f64_of_Z e) (f64_of_Z 13))) = month_of e.
Proof.
  intros He. assert (Hin : e ∈ seqZ 4 12) by (apply elem_of_seqZ; lia). revert e Hin He.
  apply (proj1 (Forall_forall (fun e => 4 <= e <= 15 -> _ = month_of e) (seqZ 4 12))). repeat constructor.
Qed.

Lemma month_ltb m : 1 <= m <= 12 -> f64_ltb (f64_lit 25 10) (f64_of_Z m) = (3 <=? m).
Proof.
  intros Hm. assert (Hin : m ∈ seqZ 1 12) by (apply elem_of_seqZ; lia). clear Hm. revert m Hin.
  apply (proj1 (Forall_forall (fun m => f64_ltb _ (f64_of_Z m) = _) (seqZ 1 12))). repeat constructor.
Qed.

(** The ranges of the variables. *)
Lemma julian_ranges n : 0 <= n <= 49710 ->
  15 <= julian_w n <= 17 /\ 2440000 <= julian_b n <= 2500000 /\ 6600 <= julian_c n <= 6900 /\
  2400000 <= julian_d n < julian_b n /\ 122 <= julian_b n - julian_d n <= 489 /\ 4 <= julian_e n <= 15 /\
  306001 * julian_e n / 10000 < julian_b n - julian_d n.
Proof.
  intros Hn. assert (Hw : 15 <= julian_w n <= 17).
  { unfold julian_w. split; [apply Z.div_le_lower_bound; lia|apply Z.lt_succ_r, Z.div_lt_upper_bound; lia]. }
  assert (Hb : 2440000 <= julian_b n <= 2500000) by (unfold julian_b; Z.div_mod_to_equations; lia).
  assert (Hc : 6600 <= julian_c n <= 6900).
  { unfold julian_c. split; [apply Z.div_le_lower_bound; lia|apply Z.lt_succ_r, Z.div_lt_upper_bound; lia]. }
  assert (Hd : 123 <= julian_b n - julian_d n <= 489) by (unfold julian_d, julian_c; Z.div_mod_to_equations; lia).
  assert (He : 4 <= julian_e n <= 15).
  { unfold julian_e. split; [apply Z.div_le_lower_bound; lia|apply Z.lt_succ_r, Z.div_lt_upper_bound; lia]. }
  assert (Hf : 306001 * julian_e n / 10000 < julian_b n - julian_d n).
  { apply Z.div_lt_upper_bound; [lia|]. assert (306001 * julian_e n <= 10000 * (julian_b n - julian_d n)) by (apply Z.mul_div_le; lia).
    lia. }
  split_and!; lia.
Qed.

(** The floating-point computation is the integer formula. *)
Lemma date_fields_civil s : in_u 32 s -> date_fields s = civil (s / 86400).
Proof.
  intros Hs. assert (Hn : 0 <= s / 86400 <= 49710).
  { unfold in_u in Hs. split; [apply Z.div_pos; lia|apply Z.lt_succ_r, Z.div_lt_upper_bound; lia]. }
  unfold date_fields. rewrite (day_float s Hs). set (n := s / 86400) in *. clearbody n.
  destruct (decide (n = 0)) as [->|Hne]; [vm_compute; reflexivity|].
  destruct (julian_ranges n Hn) as (Hw & Hb & Hc & Hd & Hbd & He & Hday).
  rewrite z_float, w_float, quarter_float by lia.
  assert (Hx : 3 <= julian_w n / 4 <= 4) by (Z.div_mod_to_equations; lia).
  rewrite f64_add_of_Z, f64_add_of_Z, f64_sub_of_Z, f64_add_of_Z by lia. fold (julian_b n).
  rewrite c_float by lia. fold (julian_c n). rewrite d_float by lia. fold (julian_d n).
  rewrite (f64_sub_of_Z (julian_b n)) by lia. rewrite e_float by lia. fold (julian_e n).
  rewrite day_frac_float, month_float by lia. assert (Hm : 1 <= month_of (julian_e n) <= 12) by (unfold month_of; case_match; lia).
  rewrite month_ltb by lia. assert (Hq : 0 < 306001 * julian_e n / 10000) by (Z.div_mod_to_equations; lia).
  rewrite (f64_sub_of_Z (julian_b n - julian_d n)) by lia. unfold civil.
  pose proof (civil_calendar n Hn) as Hcal. unfold civil in Hcal. destruct Hcal as [[Hy _ Hdim] _].
  assert (days_in_month (if 3 <=? month_of (julian_e n) then julian_c n - 4716 else julian_c n - 4715) (month_of (julian_e n)) <= 31).
  { unfold days_in_month. repeat case_match; lia. }
  unfold f64_as_u, u_max. rewrite f64_as_of_Z by lia. f_equal; [f_equal|lia].
  destruct (3 <=? _); rewrite f64_sub_of_Z, f64_as_of_Z by lia; lia.
Qed.

(** ** Reading a printed time *)

Definition digit_value (c : ascii) : option Z :=
  let n := Z.of_nat (nat_of_ascii c) - 48 in if (0 <=? n) && (n <=? 9) then Some n else None.

(** The numbers of a text, each ended by a character that is not a digit. *)
Fixpoint read_numbers (s : string) (acc : Z) : list Z :=
  match s with
  | EmptyString => []
  | String c s' =>
      match digit_value c with
      | Some d => read_numbers s' (10 * acc + d)
      | None => acc :: read_numbers s' 0
      end
  end.

(** The time of a text like [2024-02-29T12:34:56.000000789Z]. *)
Definition read_time (s : string) : option DateTime :=
  match read_numbers s 0 with
  | [year; month; day; hour; minute; second; nanosecond] =>
      Some {| sec := 86400 * day_number year month day + 3600 * hour + 60 * minute + second; nanos := nanosecond |}
  | _ => None
  end.

Lemma append_assoc (a b c : string) : (a +:+ b) +:+ c = a +:+ (b +:+ c).
Proof. induction a as [|x a IH]; [done|]. change (String x ((a +:+ b) +:+ c) = String x (a +:+ (b +:+ c))). by rewrite IH. Qed.

Lemma digit_value_char x : (x < 10)%N -> digit_value (pretty_N_char x) = Some (Z.of_N x).
Proof. intros Hx. destruct x as [|[[[[]|[]|]|[[]|[]|]|]|[[[]|[]|]|[[]|[]|]|]|]]; try done; lia. Qed.

Lemma read_zeros k s : read_numbers (zeros k +:+ s) 0 = read_numbers s 0.
Proof. induction k as [|k IH]; [done|]. exact IH. Qed.

(** The digits of [x], read with [acc] before them: [acc] times the power of ten, plus [x]. *)
Lemma read_pretty_go x : exists p, forall s acc, read_numbers (pretty_N_go x s) acc = read_numbers s (acc * p + Z.of_N x).
Proof.
  induction (N.lt_wf_0 x) as [x _ IH]. destruct (decide (x = 0%N)) as [->|Hx].
  - exists 1. intros s acc. rewrite pretty_N_go_0. f_equal. lia.
  - destruct (IH (x `div` 10)%N) as [p Hp]; [apply N.div_lt; lia|]. exists (p * 10). intros s acc.
    rewrite pretty_N_go_step, Hp by lia. cbn [read_numbers]. rewrite digit_value_char by (apply N.mod_lt; lia). f_equal.
    pose proof (N.div_mod x 10). lia.
Qed.

Lemma pretty_go_app x s s' : pretty_N_go x s +:+ s' = pretty_N_go x (s +:+ s').
Proof.
  revert s. induction (N.lt_wf_0 x) as [x _ IH]; intros s. destruct (decide (x = 0%N)) as [->|Hx]; [by rewrite !pretty_N_go_0|].
  rewrite !(pretty_N_go_step x) by lia. apply (IH (x `div` 10)%N). apply N.div_lt; lia.
Qed.

Lemma read_field w n c s : 0 <= n -> digit_value c = None -> read_numbers (fmt_pad w n +:+ String c s) 0 = n :: read_numbers s 0.
Proof.
  intros Hn Hc. unfold fmt_pad. rewrite append_assoc, read_zeros. destruct n as [|p|p]; [|..|lia].
  - cbn [pretty pretty_Z]. change ("0" +:+ String c s) with (String "0"%char (String c s)). cbn [read_numbers]. change (digit_value "0"%char) with (Some 0). cbn [read_numbers]. by rewrite Hc.
  - change (pretty (Zpos p)) with (pretty_N_go (Npos p) ""). rewrite pretty_go_app.
    destruct (read_pretty_go (Npos p)) as [q Hq]. rewrite Hq. change ("" +:+ String c s) with (String c s). cbn [read_numbers]. rewrite Hc. f_equal.
Qed.

Lemma time_fields_spec s : 0 <= s -> let '(h, m, x) := time_fields s in
  0 <= h < 24 /\ 0 <= m < 60 /\ 0 <= x < 60 /\ s = 86400 * (s / 86400) + 3600 * h + 60 * m + x.
Proof.
  intros Hs. unfold time_fields.
  assert (H1 : 0 <= (s mod 86400) / 3600 < 24) by (Z.div_mod_to_equations; lia).
  assert (H2 : 0 <= (s mod 3600) / 60 < 60) by (Z.div_mod_to_equations; lia).
  assert (H3 : 0 <= s mod 60 < 60) by (Z.div_mod_to_equations; lia).
  rewrite !as_u_small by (unfold in_u; lia). split_and!; try lia. Z.div_mod_to_equations; lia.
Qed.

(** ** Properties *)

(** C24: the date that is printed is the date of the calendar: for every [u32] of seconds the
    floating-point computation gives a valid date, leap days included, and that date is as
    many days after 1970-01-01 as have passed; the time of day is the rest. *)
Theorem date_fields_calendar s : in_u 32 s ->
  let '(year, month, day) := date_fields s in let '(hour, minute, second) := time_fields s in
  valid_date year month day /\ 0 <= hour < 24 /\ 0 <= minute < 60 /\ 0 <= second < 60 /\
  s = 86400 * day_number year month day + 3600 * hour + 60 * minute + second.
Proof.
  intros Hs. rewrite (date_fields_civil s Hs). assert (Hn : 0 <= s / 86400 <= 49710).
  { unfold in_u in Hs. split; [apply Z.div_pos; lia|apply Z.lt_succ_r, Z.div_lt_upper_bound; lia]. }
  pose proof (civil_calendar _ Hn) as Hc. pose proof (time_fields_spec s (proj1 Hs)) as Ht.
  destruct (civil (s / 86400)) as [[y m] d], (time_fields s) as [[h mi] x]. destruct Hc as [Hv ->]. split; [exact Hv|exact Ht].
Qed.

Example date_fields_calendar_witness :
  date_fields 4107542399 = (2100, 2, 28) /\ date_fields 4107542400 = (2100, 3, 1) /\ day_number 2100 3 1 = 47541 /\
  valid_date 2100 2 28.
Proof.
  split; [vm_compute; reflexivity|]. split; [vm_compute; reflexivity|]. split; [vm_compute; reflexivity|].
  assert (Hs : in_u 32 4107542399) by (unfold in_u; lia).
  pose proof (date_fields_calendar 4107542399 Hs) as Hd.
  assert (E : date_fields 4107542399 = (2100, 2, 28)) by (vm_compute; reflexivity). rewrite E in Hd. apply Hd.
Defined.

(** What is printed can be read back: the printed form of a time, date and time of day with
    nine digits of nanoseconds, names that time and no other, for every time with [u32] fields. *)
Theorem print_read t : datetime_u32 t -> read_time (DateTime_fmt t) = Some t.
Proof.
  intros [Hs Hn]. assert (Hd : 0 <= sec t / 86400 <= 49710).
  { unfold in_u in Hs. split; [apply Z.div_pos; lia|apply Z.lt_succ_r, Z.div_lt_upper_bound; lia]. }
  unfold DateTime_fmt, read_time. rewrite (date_fields_civil _ Hs).
  pose proof (civil_calendar _ Hd) as Hc. pose proof (time_fields_spec (sec t) (proj1 Hs)) as Ht.
  destruct (civil _) as [[y m] d], (time_fields (sec t)) as [[h mi] x].
  destruct Hc as [[Hy Hm Hday] Hc], Ht as (Hh & Hmi & Hx & Ht).
  match goal with |- context [read_numbers ?s 0] => assert (read_numbers s 0 = [y; m; d; h; mi; x; nanos t]) as ->; [|] end.
  { etransitivity; [apply (read_field 4 y "-"%char); [lia|done]|]. f_equal.
    etransitivity; [apply (read_field 2 m "-"%char); [lia|done]|]. f_equal.
    etransitivity; [apply (read_field 2 d "T"%char); [lia|done]|]. f_equal.
    etransitivity; [apply (read_field 2 h ":"%char); [lia|done]|]. f_equal.
    etransitivity; [apply (read_field 2 mi ":"%char); [lia|done]|]. f_equal.
    etransitivity; [apply (read_field 2 x "."%char); [lia|done]|]. f_equal.
    etransitivity; [apply (read_field 9 (nanos t) "Z"%char); [apply Hn|done]|]. done. }
  rewrite Hc, <-Ht. by destruct t.
Qed.

Example print_read_witness :
  DateTime_fmt {| sec := 4294967295; nanos := 7 |} = "2106-02-07T06:28:15.000000007Z"%string /\
  read_time "2106-02-07T06:28:15.000000007Z" = Some {| sec := 4294967295; nanos := 7 |}.
Proof.
  assert (E : DateTime_fmt {| sec := 4294967295; nanos := 7 |} = "2106-02-07T06:28:15.000000007Z"%string) by (vm_compute; reflexivity).
  split; [exact E|]. rewrite <-E. apply (print_read {| sec := 4294967295; nanos := 7 |}). split; unfold in_u; cbn; lia.
Defined.
