(* ===== verification/Net.v ===== *)
(** * Addresses and ancillary data: [network_commons/src/socket.rs]

    [std::net] addresses, their conversion to and from the C library's socket address
    structures (byte by byte, on a host of given endianness), the control messages of a
    received datagram, and the message headers [recvmmsg] is called with. *)
From stdpp Require Import base list option numbers strings.
From Stdlib Require Import ZArith Lia.
From S2P Require Import Prelude Float64 Errors Time.
Local Open Scope Z_scope.

(** ** [std::net] *)

Record Ipv4Addr := Ipv4Addr_new { oct0 : Z; oct1 : Z; oct2 : Z; oct3 : Z }.
(** Sixteen octets. *)
Definition Ipv6Addr : Type := list Z.
Inductive IpAddr := IpV4 (a : Ipv4Addr) | IpV6 (a : Ipv6Addr).
Inductive SocketAddr :=
  | SockV4 (ip : Ipv4Addr) (port : Z)
  | SockV6 (ip : Ipv6Addr) (port flowinfo scope_id : Z).

#[export] Instance Ipv4Addr_eq_dec : EqDecision Ipv4Addr.
Proof. solve_decision. Defined.
#[export] Instance IpAddr_eq_dec : EqDecision IpAddr.
Proof. unfold Ipv6Addr in *. solve_decision. Defined.
#[export] Instance SocketAddr_eq_dec : EqDecision SocketAddr.
Proof. unfold Ipv6Addr in *. solve_decision. Defined.

Definition v4_octets (a : Ipv4Addr) : list Z := [oct0 a; oct1 a; oct2 a; oct3 a].
Definition sock_port (a : SocketAddr) : Z :=
  match a with SockV4 _ p => p | SockV6 _ p _ _ => p end.
Definition sock_ip (a : SocketAddr) : IpAddr :=
  match a with SockV4 ip _ => IpV4 ip | SockV6 ip _ _ _ => IpV6 ip end.
(** [SocketAddr::new(ip, port)] *)
Definition SocketAddr_new (ip : IpAddr) (port : Z) : SocketAddr :=
  match ip with IpV4 a => SockV4 a port | IpV6 a => SockV6 a port 0 0 end.

Definition byte_ok (b : Z) : Prop := 0 <= b < 256.
Definition v4_wf (a : Ipv4Addr) : Prop := Forall byte_ok (v4_octets a).
Definition v6_wf (a : Ipv6Addr) : Prop := length a = 16%nat /\ Forall byte_ok a.
Definition sock_wf (a : SocketAddr) : Prop :=
  match a with
  | SockV4 ip p => v4_wf ip /\ in_u 16 p
  | SockV6 ip p f s => v6_wf ip /\ in_u 16 p /\ in_u 32 f /\ in_u 32 s
  end.

(** ** Integers in memory *)

(** The byte order of the host the program runs on. *)
Class HostEndian := little_endian : bool.
Definition LE : HostEndian := true.
Definition BE : HostEndian := false.

Fixpoint le_bytes (n : nat) (z : Z) : list Z :=
  match n with O => [] | S n' => z mod 256 :: le_bytes n' (z / 256) end.
Fixpoint le_value (l : list Z) : Z :=
  match l with [] => 0 | b :: l' => b + 256 * le_value l' end.
Definition be_bytes (n : nat) (z : Z) : list Z := rev (le_bytes n z).
Definition be_value (l : list Z) : Z := le_value (rev l).

Section host.
Context `{HostEndian}.

(** Storing and loading a native integer. *)
Definition ne_bytes (n : nat) (z : Z) : list Z :=
  if little_endian then le_bytes n z else be_bytes n z.
Definition ne_value (l : list Z) : Z :=
  if little_endian then le_value l else be_value l.
(** [u16::to_be]: swaps the bytes on a little-endian host. *)
Definition to_be (n : nat) (z : Z) : Z := ne_value (be_bytes n z).

(** [AF_INET], [AF_INET6] on Linux. *)
Definition AF_INET : Z := 2.
Definition AF_INET6 : Z := 10.

(** [sockaddr_in] / [sockaddr_in6] written at the start of a zeroed [sockaddr_storage];
    the function returns the first [size_of::<sockaddr>() = 16] bytes of it, and the
    size of the structure that was written. *)
Definition socketaddr_to_sockaddr (addr : SocketAddr) : list Z * Z :=
  let '(written, len) :=
    match addr with
    | SockV4 a port =>
        (ne_bytes 2 AF_INET ++ ne_bytes 2 (to_be 2 port) ++ ne_bytes 4 (ne_value (v4_octets a)), 16)
    | SockV6 a port flowinfo scope_id =>
        (ne_bytes 2 AF_INET6 ++ ne_bytes 2 (to_be 2 port) ++ ne_bytes 4 flowinfo ++ a
           ++ ne_bytes 4 scope_id, 28)
    end in
  let storage := written ++ replicate (128 - length written) 0 in
  (take 16 storage, len).

(** [storage_to_socket_addr]: the IPv6 branch transmutes a reference to the reference,
    so it reads the bytes of the pointer and of what follows it on the stack. *)
Definition storage_to_socket_addr (storage stack : list Z) : result SocketAddr :=
  let family := ne_value (take 2 storage) in
  if family =? AF_INET then
    let s_addr := ne_value (take 4 (drop 4 storage)) in
    let ip_bytes := be_bytes 4 s_addr in
    match ip_bytes with
    | [b0; b1; b2; b3] =>
        Ok (SockV4 (Ipv4Addr_new b3 b2 b1 b0) (to_be 2 (ne_value (take 2 (drop 2 storage)))))
    | _ => Panic IndexOutOfBounds
    end
  else if family =? AF_INET6 then
    Ok (SocketAddr_new (IpV6 (take 16 (drop 8 stack))) (to_be 2 (ne_value (take 2 (drop 2 stack)))))
  else Err UnknownAddressFamily.
End host.

(** ** Control messages *)

Definition SOL_SOCKET : Z := 1.
Definition SCM_TIMESTAMPING : Z := 37.

(** A control message of a received header; the data of a timestamping message is the
    three [timespec]s of [scm_timestamping]. *)
Record cmsghdr := { cmsg_level : Z; cmsg_type : Z; cmsg_timespecs : list timespec }.

(** [retrieve_data_from_header]: walks the control messages; the last timestamping
    message decides, by its first timestamp. *)
Fixpoint retrieve_loop (cmsgs : list cmsghdr) (acc : result DateTime) : result DateTime :=
  match cmsgs with
  | [] => acc
  | c :: cmsgs' =>
      let acc := if (cmsg_level c =? SOL_SOCKET) && (cmsg_type c =? SCM_TIMESTAMPING)
                 then match cmsg_timespecs c with
                      | ts :: _ => Ok (from_timespec ts)
                      | [] => Panic IndexOutOfBounds
                      end
                 else acc in
      retrieve_loop cmsgs' acc
  end.
Definition retrieve_data_from_header (cmsgs : list cmsghdr) : result DateTime :=
  retrieve_loop cmsgs (Err (Generic "No tx timestamp found")).

(** [retrieve_data_from_headers]: every header must carry a timestamp. *)
Definition retrieve_data_from_headers (hdrs : list (list cmsghdr)) : result (list DateTime) :=
  collect retrieve_data_from_header hdrs.

(** [init_vec_of_mmsghdr]: the address given to each of [max_msg] headers (those with a
    buffer); the index is taken modulo the number of addresses. *)
Definition init_vec_of_mmsghdr (max_msg n_buffers : nat) (addresses : list SocketAddr)
    : result (list (option SocketAddr)) :=
  hdrs ← collect (fun i : nat =>
      if decide (length addresses = 0%nat) then Panic ArithmeticOverflow
      else match addresses !! (i mod length addresses)%nat with
           | Some a => Ok (Some a)
           | None => Panic IndexOutOfBounds
           end) (seq 0 (max_msg `min` n_buffers));
  Ok (hdrs ++ replicate (max_msg - n_buffers) None).

(** ** Lemmas *)

Lemma le_bytes_length n z : length (le_bytes n z) = n.
Proof. revert z. induction n; intros; cbn; [done|]. by rewrite IHn. Qed.

Lemma be_bytes_length n z : length (be_bytes n z) = n.
Proof. unfold be_bytes. by rewrite length_rev, le_bytes_length. Qed.

Lemma le_bytes_ok n z : Forall byte_ok (le_bytes n z).
Proof.
  revert z. induction n; intros; cbn; constructor; [|done].
  unfold byte_ok. pose proof (Z.mod_pos_bound z 256). lia.
Qed.

Lemma be_bytes_ok n z : Forall byte_ok (be_bytes n z).
Proof. apply Forall_rev, le_bytes_ok. Qed.

Lemma le_value_range l : Forall byte_ok l -> 0 <= le_value l < 256 ^ Z.of_nat (length l).
Proof.
  induction 1 as [|b l Hb _ IH]; [cbn; lia|]. unfold byte_ok in Hb.
  cbn [le_value length]. rewrite Nat2Z.inj_succ, Z.pow_succ_r by lia. lia.
Qed.

Lemma le_value_bytes n z : le_value (le_bytes n z) = z mod 256 ^ Z.of_nat n.
Proof.
  revert z. induction n as [|n IH]; intros z; [cbn; by rewrite Z.mod_1_r|].
  cbn [le_bytes le_value]. rewrite IH, Nat2Z.inj_succ, Z.pow_succ_r by lia.
  rewrite Z.rem_mul_r by lia. lia.
Qed.

Lemma le_bytes_value l : Forall byte_ok l -> le_bytes (length l) (le_value l) = l.
Proof.
  induction 1 as [|b l Hb _ IH]; [done|]. unfold byte_ok in Hb. cbn [le_value length le_bytes].
  rewrite Z.mul_comm. rewrite Z.mod_add by lia. rewrite Z.mod_small by lia.
  rewrite Z.div_add by lia. rewrite Z.div_small by lia. by rewrite Z.add_0_l, IH.
Qed.

Lemma be_value_bytes n z : be_value (be_bytes n z) = z mod 256 ^ Z.of_nat n.
Proof. unfold be_value, be_bytes. rewrite rev_involutive. apply le_value_bytes. Qed.

Lemma be_bytes_value l : Forall byte_ok l -> be_bytes (length l) (be_value l) = l.
Proof.
  intros Hl. unfold be_bytes, be_value. rewrite <-(length_rev l) at 1.
  rewrite le_bytes_value by (by apply Forall_rev). apply rev_involutive.
Qed.

Lemma be_value_range l : Forall byte_ok l -> 0 <= be_value l < 256 ^ Z.of_nat (length l).
Proof.
  intros Hl. unfold be_value. rewrite <-(length_rev l). apply le_value_range. by apply Forall_rev.
Qed.

Create Rewrite HintDb bytes.
#[export] Hint Rewrite le_bytes_length be_bytes_length @length_app @length_replicate : bytes.
#[export] Hint Resolve le_bytes_ok be_bytes_ok : machine.

Section host_lemmas.
Context `{HostEndian}.

Lemma ne_bytes_length n z : length (ne_bytes n z) = n.
Proof. unfold ne_bytes. destruct little_endian; autorewrite with bytes; done. Qed.

Lemma ne_value_bytes n z : in_u (8 * Z.of_nat n) z -> ne_value (ne_bytes n z) = z.
Proof.
  unfold ne_value, ne_bytes, in_u. rewrite Z.pow_mul_r by lia. change (2 ^ 8) with 256. intros Hz.
  destruct little_endian; rewrite ?le_value_bytes, ?be_value_bytes; by apply Z.mod_small.
Qed.

Lemma ne_bytes_value l : Forall byte_ok l -> ne_bytes (length l) (ne_value l) = l.
Proof.
  intros Hl. unfold ne_value, ne_bytes.
  destruct little_endian; [by apply le_bytes_value|by apply be_bytes_value].
Qed.

(** A [u16] stored through [to_be] is in network order. *)
Lemma ne_bytes_to_be n z : ne_bytes n (to_be n z) = be_bytes n z.
Proof.
  unfold to_be. rewrite <-(be_bytes_length n z) at 1. apply ne_bytes_value, be_bytes_ok.
Qed.

Lemma to_be_loaded n z : in_u (8 * Z.of_nat n) z -> to_be n (ne_value (be_bytes n z)) = z.
Proof.
  unfold in_u. rewrite Z.pow_mul_r by lia. change (2 ^ 8) with 256. intros Hz.
  unfold to_be, ne_value. destruct little_endian.
  - assert (E : le_bytes n (le_value (be_bytes n z)) = be_bytes n z).
    { rewrite <-(be_bytes_length n z) at 1. apply le_bytes_value, be_bytes_ok. }
    unfold be_bytes at 1. rewrite E. unfold be_bytes.
    rewrite rev_involutive, le_value_bytes. exact (Z.mod_small _ _ Hz).
  - rewrite !be_value_bytes, Zmod_mod. exact (Z.mod_small _ _ Hz).
Qed.

Lemma v4_octets_ok a : v4_wf a -> ne_bytes 4 (ne_value (v4_octets a)) = v4_octets a.
Proof. intros Ha. change 4%nat with (length (v4_octets a)). by apply ne_bytes_value. Qed.

(** The layout of the returned [sockaddr] of an IPv4 address. *)
Lemma sockaddr_v4_layout a port : v4_wf a ->
  socketaddr_to_sockaddr (SockV4 a port)
    = (ne_bytes 2 AF_INET ++ be_bytes 2 port ++ v4_octets a ++ replicate 8 0, 16).
Proof.
  intros Ha. unfold socketaddr_to_sockaddr. rewrite ne_bytes_to_be, v4_octets_ok by done.
  f_equal. rewrite !length_app, ne_bytes_length, be_bytes_length. cbn [length v4_octets Nat.add Nat.sub].
  destruct (ne_bytes 2 AF_INET) as [|? [|? [|]]] eqn:E1;
    pose proof (ne_bytes_length 2 AF_INET) as L1; rewrite E1 in L1; try discriminate.
  destruct (be_bytes 2 port) as [|? [|? [|]]] eqn:E2;
    pose proof (be_bytes_length 2 port) as L2; rewrite E2 in L2; try discriminate.
  done.
Qed.

(** A [sockaddr_storage] that begins with a family, a port in network order and an address. *)
Lemma storage_v4_layout f p o rest stack : length f = 2%nat -> length p = 2%nat -> length o = 4%nat ->
  Forall byte_ok o -> ne_value f = AF_INET ->
  storage_to_socket_addr (f ++ p ++ o ++ rest) stack
    = match be_bytes 4 (ne_value o) with
      | [b0; b1; b2; b3] => Ok (SockV4 (Ipv4Addr_new b3 b2 b1 b0) (to_be 2 (ne_value p)))
      | _ => Panic IndexOutOfBounds
      end.
Proof.
  intros Lf Lp Lo Ho Hf. unfold storage_to_socket_addr.
  rewrite (take_app_length' f) by done. rewrite Hf. cbn [Z.eqb AF_INET Pos.eqb].
  rewrite app_assoc, (drop_app_length' (f ++ p)) by (rewrite length_app; lia).
  rewrite (take_app_length' o) by done.
  rewrite <-app_assoc, (drop_app_length' f) by done. by rewrite (take_app_length' p) by done.
Qed.
End host_lemmas.

(** ** Properties *)

Lemma sockaddr_v4_inverse a port rest stack : v4_wf a -> in_u 16 port ->
  @storage_to_socket_addr LE (fst (@socketaddr_to_sockaddr LE (SockV4 a port)) ++ rest) stack
    = Ok (SockV4 a port).
Proof.
  intros Ha Hp. rewrite sockaddr_v4_layout by done. cbn [fst]. rewrite <-!app_assoc.
  rewrite storage_v4_layout; [|done|apply be_bytes_length|done|done|done].
  rewrite to_be_loaded by (by unfold in_u in *).
  unfold be_bytes. change (@ne_value LE (v4_octets a)) with (le_value (v4_octets a)).
  change 4%nat with (length (v4_octets a)). rewrite le_bytes_value by done. cbn.
  by destruct a.
Qed.

(** C40: on a little-endian host an IPv4 socket address survives the conversion to the C
    library's structure and back. *)
Theorem sockaddr_v4_roundtrip a port rest stack : v4_wf a -> in_u 16 port ->
  @storage_to_socket_addr LE (fst (@socketaddr_to_sockaddr LE (SockV4 a port)) ++ rest) stack
    = Ok (SockV4 a port).
Proof. apply sockaddr_v4_inverse. Qed.

Example sockaddr_v4_roundtrip_witness :
  @storage_to_socket_addr LE (fst (@socketaddr_to_sockaddr LE (SockV4 (Ipv4Addr_new 10 16 128 220) 60001)) ++ replicate 112 0) []
    = Ok (SockV4 (Ipv4Addr_new 10 16 128 220) 60001).
Proof.
  apply sockaddr_v4_roundtrip; [|unfold in_u; lia].
  unfold v4_wf, byte_ok. repeat (constructor; cbn; try lia).
Defined.

(** The returned [sockaddr] of an IPv6 socket address holds only the first eight octets
    of the address: two addresses that differ in the other octets (or in the scope) give
    the same structure, and the announced length is larger than the structure. *)
Theorem sockaddr_v6_truncated `{HostEndian} hi lo lo' port flow scope scope' :
  length hi = 8%nat ->
  socketaddr_to_sockaddr (SockV6 (hi ++ lo) port flow scope)
    = socketaddr_to_sockaddr (SockV6 (hi ++ lo') port flow scope') /\
  Z.of_nat (length (fst (socketaddr_to_sockaddr (SockV6 (hi ++ lo) port flow scope))))
    < snd (socketaddr_to_sockaddr (SockV6 (hi ++ lo) port flow scope)).
Proof.
  intros Lh.
  assert (E : forall l s, socketaddr_to_sockaddr (SockV6 (hi ++ l) port flow s)
    = (ne_bytes 2 AF_INET6 ++ ne_bytes 2 (to_be 2 port) ++ ne_bytes 4 flow ++ hi, 28)).
  { intros l s. unfold socketaddr_to_sockaddr. f_equal. rewrite <-!app_assoc.
    rewrite (app_assoc (ne_bytes 2 AF_INET6)), (app_assoc _ (ne_bytes 4 flow)), (app_assoc _ hi).
    rewrite take_app_length'; [by rewrite <-!app_assoc|].
    rewrite !length_app, !ne_bytes_length, Lh. done. }
  rewrite !E. split; [done|]. cbn [fst snd]. rewrite !length_app, !ne_bytes_length, Lh. cbn. lia.
Qed.

Example sockaddr_v6_truncated_witness :
  @socketaddr_to_sockaddr LE (SockV6 (replicate 8 0 ++ [0;0;0;0;0;0;0;1]) 80 0 0)
    = @socketaddr_to_sockaddr LE (SockV6 (replicate 8 0 ++ [0;0;0;0;0;0;0;2]) 80 0 7).
Proof.
  apply (@sockaddr_v6_truncated LE (replicate 8 0) [0;0;0;0;0;0;0;1] [0;0;0;0;0;0;0;2] 80 0 0 7).
  reflexivity.
Defined.

(** The timestamp read from a received header is the first [timespec] of its last
    timestamping control message; without one the read fails and nothing else changes. *)
Theorem retrieve_data_from_header_last cmsgs :
  Forall (fun c => cmsg_timespecs c <> []) cmsgs ->
  retrieve_data_from_header cmsgs =
    match last (filter (fun c => cmsg_level c = SOL_SOCKET /\ cmsg_type c = SCM_TIMESTAMPING) cmsgs) with
    | Some c => unwrap_option (from_timespec <$> head (cmsg_timespecs c))
    | None => Err (Generic "No tx timestamp found")
    end.
Proof.
  unfold retrieve_data_from_header. generalize (@Err CommonError DateTime (Generic "No tx timestamp found")).
  induction cmsgs as [|c cmsgs IH]; intros acc Hts; [done|].
  apply Forall_cons in Hts as [Hc Hts]. cbn [retrieve_loop].
  rewrite IH by done. rewrite filter_cons.
  assert (Hb : (cmsg_level c =? SOL_SOCKET) && (cmsg_type c =? SCM_TIMESTAMPING) = true <->
    cmsg_level c = SOL_SOCKET /\ cmsg_type c = SCM_TIMESTAMPING) by (rewrite andb_true_iff, !Z.eqb_eq; done).
  case_decide as Hd.
  - rewrite (proj2 Hb Hd). destruct (filter _ cmsgs) as [|c' l]; [cbn; by destruct (cmsg_timespecs c)|].
    change (last (c :: c' :: l)) with (last (c' :: l)).
    destruct (last (c' :: l)) eqn:El; [done|]. apply last_None in El. discriminate.
  - destruct (_ && _); [by exfalso; apply Hd, Hb|done].
Qed.

Example retrieve_data_from_header_last_witness :
  retrieve_data_from_header
    [{| cmsg_level := 1; cmsg_type := 37; cmsg_timespecs := [{| tv_sec := 5; tv_nsec := 6 |}] |};
     {| cmsg_level := 0; cmsg_type := 1; cmsg_timespecs := [{| tv_sec := 0; tv_nsec := 0 |}] |}]
  = Ok {| sec := 5; nanos := 6 |}.
Proof.
  rewrite retrieve_data_from_header_last; [reflexivity|]. repeat constructor; discriminate.
Defined.
