(* ===== verification/DataModel.v ===== *)
(** * [twamp/src/twamp_common/data_model.rs]

    Packet results with their four timestamps, the mode bit mask, and the enumerations
    of the control protocol with their discriminants. *)
From stdpp Require Import base list option numbers strings.
From Stdlib Require Import ZArith Lia.
From S2P Require Import Prelude Float64 Errors Time Net.
Local Open Scope Z_scope.

(** ** Packet results *)

Record PacketResults := {
  sender_seq : Z;
  reflector_seq : option Z;
  t1 : DateTime;
  t2 : option DateTime;
  t3 : option DateTime;
  t4 : option DateTime
}.

#[export] Instance PacketResults_eq_dec : EqDecision PacketResults.
Proof. solve_decision. Defined.

Record SessionPackets := { address : SocketAddr; packets : option (list PacketResults) }.
Record TimestampsResult := { session : SessionPackets; error : option string }.

Section packet_results.
Context `{BuildProfile}.

(** The [?] operator on an [Option]; [Ok None] is the early return. *)
Definition try_opt {A B} (o : option A) (k : A -> result (option B)) : result (option B) :=
  match o with Some a => k a | None => Ok None end.

Definition calculate_rtt (p : PacketResults) : result (option Duration) :=
  try_opt (t4 p) (fun t4 => i ← DateTime_sub t4 (t1 p); Ok (Some (Duration_from_Interval i))).
Definition calculate_owd_forward (p : PacketResults) : result (option Interval) :=
  try_opt (t2 p) (fun t2 => i ← DateTime_sub t2 (t1 p); Ok (Some i)).
Definition calculate_owd_backward (p : PacketResults) : result (option Interval) :=
  try_opt (t4 p) (fun t4 => try_opt (t3 p) (fun t3 => i ← DateTime_sub t4 t3; Ok (Some i))).
Definition calculate_rpd (p : PacketResults) : result (option Duration) :=
  try_opt (t3 p) (fun t3 => try_opt (t2 p) (fun t2 =>
    i ← DateTime_sub t3 t2; Ok (Some (Duration_from_Interval i)))).
End packet_results.

(** ** Error estimates *)

Record ErrorEstimate := ErrorEstimate_new { s_bit : Z; z_bit : Z; scale : Z; err_multiplier : Z }.

#[export] Instance ErrorEstimate_eq_dec : EqDecision ErrorEstimate.
Proof. solve_decision. Defined.

(** ** Modes *)

Inductive Mode := Closed | Unauthenticated | Authenticated | Encrypted.

#[export] Instance Mode_eq_dec : EqDecision Mode.
Proof. solve_decision. Defined.

Definition mode_of_u8 (value : Z) : Mode :=
  match value with
  | 0 => Closed
  | 1 => Unauthenticated
  | 2 => Authenticated
  | 4 => Encrypted
  | _ => Closed
  end.

(** [From<Mode> for u8], which is also the discriminant [mode as u8]. *)
Definition u8_of_mode (m : Mode) : Z :=
  match m with Closed => 0 | Unauthenticated => 1 | Authenticated => 2 | Encrypted => 4 end.

Record Modes := Modes_new { bits : Z }.

#[export] Instance Modes_eq_dec : EqDecision Modes.
Proof. solve_decision. Defined.

Definition Modes_set (self : Modes) (mode : Mode) : Modes :=
  {| bits := Z.lor (bits self) (u8_of_mode mode) |}.
(** [!(mode as u8)] is the complement in eight bits. *)
Definition Modes_unset (self : Modes) (mode : Mode) : Modes :=
  {| bits := Z.land (bits self) (255 - u8_of_mode mode) |}.
Definition Modes_is_set (self : Modes) (mode : Mode) : bool :=
  Z.land (bits self) (u8_of_mode mode) =? u8_of_mode mode.
Definition Modes_bitand (self rhs : Modes) : Modes := {| bits := Z.land (bits self) (bits rhs) |}.

Definition modes_wf (m : Modes) : Prop := in_u 8 (bits m).

(** ** Enumerations of the control protocol *)

Module AcceptFields.
Inductive t :=
  | Ok | Failure | InternalError | NotSupported
  | PermanentResourceLimitation | TemporaryResourceLimitation.

#[export] Instance eq_dec : EqDecision t.
Proof. solve_decision. Defined.
End AcceptFields.

(** [accept as u8] *)
Definition u8_of_accept (a : AcceptFields.t) : Z :=
  match a with
  | AcceptFields.Ok => 0 | AcceptFields.Failure => 1 | AcceptFields.InternalError => 2
  | AcceptFields.NotSupported => 3 | AcceptFields.PermanentResourceLimitation => 4
  | AcceptFields.TemporaryResourceLimitation => 5
  end.

Module TwampControlCommand.
Inductive t :=
  | Forbidden | StartSessions | StopSessions | RequestTwSession | StartNSessions
  | StartNAck | StopNSessions | StopNAck | Other.

#[export] Instance eq_dec : EqDecision t.
Proof. solve_decision. Defined.

(** [#[default]] *)
Definition default : t := Forbidden.
End TwampControlCommand.

(** [command as u8]; [Other] has no explicit discriminant and follows [StopNAck]. *)
Definition u8_of_command (c : TwampControlCommand.t) : Z :=
  match c with
  | TwampControlCommand.Forbidden => 1 | TwampControlCommand.StartSessions => 2
  | TwampControlCommand.StopSessions => 3 | TwampControlCommand.RequestTwSession => 5
  | TwampControlCommand.StartNSessions => 7 | TwampControlCommand.StartNAck => 8
  | TwampControlCommand.StopNSessions => 9 | TwampControlCommand.StopNAck => 10
  | TwampControlCommand.Other => 11
  end.

Module ServerCtrlConnectionState.
Inductive t := Greeting | Authentication | Negotiation | Start | Monitor | End | Retry | Error.

#[export] Instance eq_dec : EqDecision t.
Proof. solve_decision. Defined.
End ServerCtrlConnectionState.

Module SenderSessionState.
Inductive t :=
  | AwaitingServerGreeting | SendingClientSetup | AwaitingServerStart | SendingRequestSession
  | AwaitingSessionAcceptance | SessionEstablished | AwaitingStartAck | TestInProgress
  | SessionRefused | ClosingConnection | FinalState.

#[export] Instance eq_dec : EqDecision t.
Proof. solve_decision. Defined.
End SenderSessionState.

(** A control connection; nothing constructs one. *)
Record CtrlConnection := {
  cn_name : string;
  client_socket_addr : SocketAddr;
  server_socket_address : SocketAddr;
  cn_state : option ServerCtrlConnectionState.t;
  control_packet_dscp : option Z;
  selected_mode : option Mode;
  cn_key_id : option string;
  cn_count : option Z;
  max_count_exponent : option Z;
  cn_salt : option (list Z);
  cn_server_iv : option (list Z);
  cn_challenge : option (list Z)
}.

(** ** Lemmas *)

Definition opt_datetime_u32 (o : option DateTime) : Prop :=
  match o with Some t => datetime_u32 t | None => True end.
Definition packet_u32 (p : PacketResults) : Prop :=
  datetime_u32 (t1 p) /\ opt_datetime_u32 (t2 p) /\ opt_datetime_u32 (t3 p) /\ opt_datetime_u32 (t4 p).

(** The signed difference of two times, as an interval. *)
Definition interval_between (a b : DateTime) (i : Interval) : Prop :=
  duration_wf (duration i) /\
  Duration_as_nanos (duration i) = Z.abs (datetime_nanos a - datetime_nanos b) /\
  multiplier i = (if datetime_nanos a <? datetime_nanos b then -1 else 1).

Lemma calculate_rtt_Some `{BuildProfile} p a : t4 p = Some a -> datetime_u32 (t1 p) -> datetime_u32 a ->
  exists d, calculate_rtt p = Ok (Some d) /\ duration_wf d /\
    Duration_as_nanos d = Z.abs (datetime_nanos a - datetime_nanos (t1 p)).
Proof.
  intros E H1 Ha. unfold calculate_rtt. rewrite E. cbn [try_opt].
  destruct (DateTime_sub_spec a (t1 p) Ha H1) as (i & -> & ? & ? & ?). by exists (duration i).
Qed.

Lemma calculate_owd_forward_Some `{BuildProfile} p a : t2 p = Some a -> datetime_u32 (t1 p) -> datetime_u32 a ->
  exists i, calculate_owd_forward p = Ok (Some i) /\ interval_between a (t1 p) i.
Proof.
  intros E H1 Ha. unfold calculate_owd_forward. rewrite E. cbn [try_opt].
  destruct (DateTime_sub_spec a (t1 p) Ha H1) as (i & -> & ? & ? & ?). by exists i.
Qed.

Lemma calculate_owd_backward_Some `{BuildProfile} p a b : t4 p = Some a -> t3 p = Some b ->
  datetime_u32 a -> datetime_u32 b ->
  exists i, calculate_owd_backward p = Ok (Some i) /\ interval_between a b i.
Proof.
  intros E E' Ha Hb. unfold calculate_owd_backward. rewrite E, E'. cbn [try_opt].
  destruct (DateTime_sub_spec a b Ha Hb) as (i & -> & ? & ? & ?). by exists i.
Qed.

Lemma calculate_rpd_Some `{BuildProfile} p a b : t3 p = Some a -> t2 p = Some b ->
  datetime_u32 a -> datetime_u32 b ->
  exists d, calculate_rpd p = Ok (Some d) /\ duration_wf d /\
    Duration_as_nanos d = Z.abs (datetime_nanos a - datetime_nanos b).
Proof.
  intros E E' Ha Hb. unfold calculate_rpd. rewrite E, E'. cbn [try_opt].
  destruct (DateTime_sub_spec a b Ha Hb) as (i & -> & ? & ? & ?). by exists (duration i).
Qed.

Lemma interval_between_nanos `{BuildProfile} {E} a b i : datetime_u32 a -> datetime_u32 b ->
  interval_between a b i -> Interval_as_nanos (E:=E) i = Ok (datetime_nanos a - datetime_nanos b).
Proof.
  intros [[? ?] [? ?]] [[? ?] [? ?]] (Hwf & Hd & Hm).
  assert (Z.abs (datetime_nanos a - datetime_nanos b) <= i_max 64)
    by (unfold datetime_nanos, i_max, NANOS_PER_SEC; lia).
  rewrite Interval_as_nanos_spec; [|lia|lia|rewrite Hm; destruct (_ <? _); auto].
  rewrite Hd, Hm. f_equal. destruct (Z.ltb_spec (datetime_nanos a) (datetime_nanos b)); lia.
Qed.

(** A mode other than [Closed] is one bit of the mask. *)
Definition mode_bit (m : Mode) : option Z :=
  match m with Closed => None | Unauthenticated => Some 0 | Authenticated => Some 1 | Encrypted => Some 2 end.

Lemma land_pow2_eqb b k : 0 <= k -> (Z.land b (2 ^ k) =? 2 ^ k) = Z.testbit b k.
Proof.
  intros Hk. destruct (Z.testbit b k) eqn:E.
  - apply Z.eqb_eq. apply Z.bits_inj'. intros n Hn. rewrite Z.land_spec.
    destruct (Z.eq_dec n k) as [->|]; [by rewrite Z.pow2_bits_true, E by lia|].
    rewrite Z.pow2_bits_false by lia. apply andb_false_r.
  - apply Z.eqb_neq. intros Heq. apply (f_equal (fun z => Z.testbit z k)) in Heq.
    rewrite Z.land_spec, Z.pow2_bits_true, E in Heq by lia. discriminate.
Qed.

Lemma Modes_is_set_bit m mode : Modes_is_set m mode =
  match mode_bit mode with Some k => Z.testbit (bits m) k | None => true end.
Proof.
  unfold Modes_is_set. destruct mode; cbn [u8_of_mode mode_bit].
  - by rewrite Z.land_0_r.
  - exact (land_pow2_eqb (bits m) 0 ltac:(lia)).
  - exact (land_pow2_eqb (bits m) 1 ltac:(lia)).
  - exact (land_pow2_eqb (bits m) 2 ltac:(lia)).
Qed.

Lemma u8_of_mode_testbit mode k : 0 <= k ->
  Z.testbit (u8_of_mode mode) k = bool_decide (mode_bit mode = Some k).
Proof.
  intros Hk. destruct mode; cbn [u8_of_mode mode_bit]; [by rewrite Z.testbit_0_l|..].
  all: match goal with |- Z.testbit ?z _ = bool_decide (Some ?j = _) =>
    change z with (2 ^ j); rewrite Z.pow2_bits_eqb by lia;
    destruct (Z.eqb_spec j k); case_bool_decide; congruence end.
Qed.

(** ** Properties *)

(** For a packet with all four timestamps the one-way delays and the remote processing
    time add up to the round trip: the forward and backward intervals are exact signed
    differences, and the two reported durations are the absolute values of the remaining ones. *)
Theorem packet_delays_add_up `{BuildProfile} p a2 a3 a4 : packet_u32 p ->
  t2 p = Some a2 -> t3 p = Some a3 -> t4 p = Some a4 ->
  exists rtt fwd bwd rpd f b,
    calculate_rtt p = Ok (Some rtt) /\ calculate_rpd p = Ok (Some rpd) /\
    calculate_owd_forward p = Ok (Some fwd) /\ Interval_as_nanos (E:=CommonError) fwd = Ok f /\
    calculate_owd_backward p = Ok (Some bwd) /\ Interval_as_nanos (E:=CommonError) bwd = Ok b /\
    Duration_as_nanos rtt = Z.abs (f + (datetime_nanos a3 - datetime_nanos a2) + b) /\
    Duration_as_nanos rpd = Z.abs (datetime_nanos a3 - datetime_nanos a2).
Proof.
  intros (H1 & H2 & H3 & H4) E2 E3 E4. rewrite E2 in H2. rewrite E3 in H3. rewrite E4 in H4.
  cbn [opt_datetime_u32] in *.
  destruct (calculate_rtt_Some p a4) as (rtt & Er & _ & Dr); [done..|].
  destruct (calculate_rpd_Some p a3 a2) as (rpd & Ep & _ & Dp); [done..|].
  destruct (calculate_owd_forward_Some p a2) as (fwd & Ef & If); [done..|].
  destruct (calculate_owd_backward_Some p a4 a3) as (bwd & Eb & Ib); [done..|].
  exists rtt, fwd, bwd, rpd. do 2 eexists. do 3 (split; [done|]).
  split; [by apply (interval_between_nanos a2 (t1 p))|]. split; [done|].
  split; [by apply (interval_between_nanos a4 a3)|]. rewrite Dr, Dp. split; [|done]. f_equal. lia.
Qed.

Definition sample_packet : PacketResults := {|
  sender_seq := 3; reflector_seq := Some 2; t1 := {| sec := 100; nanos := 900000000 |};
  t2 := Some {| sec := 100; nanos := 950000000 |}; t3 := Some {| sec := 101; nanos := 1000 |};
  t4 := Some {| sec := 101; nanos := 60000000 |} |}.

Example packet_delays_add_up_witness :
  exists rtt fwd bwd rpd f b,
    @calculate_rtt DEBUG sample_packet = Ok (Some rtt) /\ @calculate_rpd DEBUG sample_packet = Ok (Some rpd) /\
    @calculate_owd_forward DEBUG sample_packet = Ok (Some fwd) /\ @Interval_as_nanos CommonError DEBUG fwd = Ok f /\
    @calculate_owd_backward DEBUG sample_packet = Ok (Some bwd) /\ @Interval_as_nanos CommonError DEBUG bwd = Ok b /\
    Duration_as_nanos rtt = Z.abs (f + (101000001000 - 100950000000) + b) /\
    Duration_as_nanos rpd = Z.abs (101000001000 - 100950000000).
Proof.
  apply (@packet_delays_add_up DEBUG sample_packet {| sec := 100; nanos := 950000000 |}
    {| sec := 101; nanos := 1000 |} {| sec := 101; nanos := 60000000 |}); [|reflexivity..].
  unfold packet_u32, opt_datetime_u32, datetime_u32, in_u, sample_packet; cbn; lia.
Defined.

(** The mode mask behaves as a set of modes: setting a mode adds it and no other,
    unsetting one removes it and no other ([Closed], the empty mask, is always set), the
    intersection of masks is the intersection of the sets, and all stay within eight bits. *)
Theorem modes_are_sets m m' mode mode' : modes_wf m -> modes_wf m' ->
  Modes_is_set (Modes_set m mode) mode' = bool_decide (mode = mode') || Modes_is_set m mode' /\
  Modes_is_set (Modes_unset m mode) mode' =
    bool_decide (mode' = Closed) || (negb (bool_decide (mode = mode')) && Modes_is_set m mode') /\
  Modes_is_set (Modes_bitand m m') mode = Modes_is_set m mode && Modes_is_set m' mode /\
  modes_wf (Modes_set m mode) /\ modes_wf (Modes_unset m mode) /\ modes_wf (Modes_bitand m m').
Proof.
  intros Hm Hm'. rewrite !Modes_is_set_bit. cbn [bits Modes_set Modes_unset Modes_bitand].
  split; [|split; [|split]].
  - destruct (mode_bit mode') as [k|] eqn:E; [|by rewrite orb_true_r].
    rewrite Z.lor_spec, u8_of_mode_testbit, orb_comm by (destruct mode'; simplify_eq/=; lia).
    f_equal. destruct mode, mode'; simplify_eq/=; done.
  - destruct mode'; cbn [mode_bit]; [done|..];
      rewrite Z.land_spec, andb_comm; cbn [orb]; f_equal; by destruct mode.
  - destruct (mode_bit mode); [|done]. apply Z.land_spec.
  - assert (Hu : in_u 8 (u8_of_mode mode) /\ in_u 8 (255 - u8_of_mode mode))
      by (unfold in_u; destruct mode; cbn; lia).
    unfold modes_wf, Modes_set, Modes_unset, Modes_bitand in *. cbn [bits].
    assert (Hr : forall z, in_u 8 z <-> Z.land z (Z.ones 8) = z).
    { intros z. rewrite Z.land_ones by lia. unfold in_u. split; [apply Z.mod_small|].
      intros <-. apply Z.mod_pos_bound. lia. }
    rewrite !Hr in *. destruct Hu as [Hu1 Hu2].
    rewrite Z.land_lor_distr_l, <-!Z.land_assoc, Hm, Hu1, Hu2, Hm'. done.
Qed.

Example modes_are_sets_witness :
  Modes_is_set (Modes_set (Modes_new 2) Encrypted) Encrypted =
    bool_decide (Encrypted = Encrypted) || Modes_is_set (Modes_new 2) Encrypted.
Proof.
  apply (modes_are_sets (Modes_new 2) (Modes_new 0) Encrypted Encrypted); unfold modes_wf, in_u; cbn; lia.
Defined.
