(* ===== verification/Messages.v ===== *)
(** * [twamp/src/twamp_common/message.rs]

    The TWAMP test and control messages, the [Message] trait, and the builder of the
    session request.  Encoding and decoding are derived by the [bebytes] crate, which is
    not part of the repository: they enter as the interface [BeBytes] with the laws
    [BeBytesLaws]; the file [Wire] has one instance of it, big-endian fields in the order and
    at the widths of the struct declarations, so that every law has a model. *)
From stdpp Require Import base list option numbers strings.
From Stdlib Require Import ZArith Lia.
From S2P Require Import Prelude Float64 Errors Time Net DataModel.
Local Open Scope Z_scope.

Definition MIN_UNAUTH_PADDING : Z := 27.

(** ** Messages *)

Record SenderMessage := SenderMessage_new {
  sequence_number : Z;
  timestamp_ : NtpTimestamp;
  error_estimate : ErrorEstimate;
  padding : list Z
}.

Record ReflectedMessage := {
  reflector_sequence_number : Z;
  rm_timestamp : NtpTimestamp;
  rm_error_estimate : ErrorEstimate;
  rm_mbz1 : Z;
  receive_timestamp : NtpTimestamp;
  sender_sequence_number : Z;
  sender_timestamp : NtpTimestamp;
  sender_error_estimate : ErrorEstimate;
  rm_mbz2 : Z;
  sender_ttl : Z;
  rm_padding : list Z
}.

Record ServerGreeting := ServerGreeting_new {
  unused : list Z;
  modes : Modes;
  challenge : list Z;
  salt : list Z;
  count : Z;
  sg_mbz : list Z
}.

Record ClientSetupResponse := ClientSetupResponse_new {
  mode : Modes;
  key_id : list Z;
  token : list Z;
  client_iv : list Z
}.

Record ServerStart := {
  ss_mbz1 : list Z;
  ss_accept : AcceptFields.t;
  server_iv : list Z;
  ss_start_time : NtpTimestamp;
  ss_mbz2 : list Z
}.

Record ControlMessage := {
  control_command : Z;
  cm_mbz : list Z;
  cm_hmac : list Z
}.

Record StopNSessions := {
  sn_control_command : TwampControlCommand.t;
  sn_accept_field : AcceptFields.t;
  sn_mbz1 : list Z;
  sn_number_of_sessions : Z;
  sn_mbz2 : list Z;
  sn_hmac : list Z
}.

Record AcceptSessionMessage := AcceptSessionMessage_new {
  accept : AcceptFields.t;
  as_mbz1 : Z;
  as_port : Z;
  as_sid : list Z;
  as_mbz2 : list Z;
  as_hmac : list Z
}.

Record RequestTwSession := {
  request_type : TwampControlCommand.t;
  rq_mbz1 : Z;
  ipvn : Z;
  conf_sender : Z;
  conf_receiver : Z;
  num_schedule_slots : Z;
  num_packets : Z;
  sender_port : Z;
  reflector_port : Z;
  sender_address : list Z;
  reflector_address : list Z;
  sid : list Z;
  padding_length : Z;
  start_time : NtpTimestamp;
  timeout : Z;
  type_p : Z;
  rq_mbz2 : list Z;
  hmac : list Z
}.

(** ** The [Message] trait *)

Class Message (T : Type) := packet_results : T -> result PacketResults.

Section message.
Context `{BuildProfile}.

(** [DateTime::try_from(..).unwrap()] *)
Definition unwrap_datetime (t : NtpTimestamp) : result DateTime :=
  match datetime_of_ntp (E:=CommonError) t with
  | Ok d => Ok d
  | Err _ => Panic UnwrapFailed
  | Panic p => Panic p
  end.

#[export] Instance SenderMessage_Message : Message SenderMessage := fun m =>
  t1 ← unwrap_datetime (timestamp_ m);
  Ok {| sender_seq := sequence_number m; reflector_seq := None; t1 := t1;
        t2 := None; t3 := None; t4 := None |}.

(** [DateTime::try_from(..).ok()] *)
Definition try_datetime (t : NtpTimestamp) : result (option DateTime) :=
  match datetime_of_ntp (E:=CommonError) t with
  | Ok d => Ok (Some d)
  | Err _ => Ok None
  | Panic p => Panic p
  end.

#[export] Instance ReflectedMessage_Message : Message ReflectedMessage := fun m =>
  t1 ← unwrap_datetime (sender_timestamp m);
  t2 ← try_datetime (receive_timestamp m);
  t3 ← try_datetime (rm_timestamp m);
  Ok {| sender_seq := sender_sequence_number m; reflector_seq := Some (reflector_sequence_number m);
        t1 := t1; t2 := t2; t3 := t3; t4 := None |}.
End message.

(** ** The session request builder *)

Record RequestTwSessionBuilder := {
  b_request_type : option TwampControlCommand.t;
  b_ipvn : option Z;
  b_conf_sender : option Z;
  b_conf_receiver : option Z;
  b_num_schedule_slots : option Z;
  b_num_packets : option Z;
  b_sender_port : option Z;
  b_receiver_port : option Z;
  b_sender_address : option IpAddr;
  b_receiver_address : option IpAddr;
  b_sid : option (list Z);
  b_padding_length : option Z;
  b_start_time : option NtpTimestamp;
  b_timeout : option Z;
  b_type_p : option Z;
  b_hmac : option (list Z)
}.

Definition RequestTwSessionBuilder_new : RequestTwSessionBuilder := {|
  b_request_type := None; b_ipvn := None; b_conf_sender := None; b_conf_receiver := None;
  b_num_schedule_slots := None; b_num_packets := None; b_sender_port := None; b_receiver_port := None;
  b_sender_address := None; b_receiver_address := None; b_sid := None; b_padding_length := None;
  b_start_time := None; b_timeout := None; b_type_p := None; b_hmac := None |}.

(** The setters: each replaces one field. *)
Inductive builder_field :=
  | set_request_type (v : TwampControlCommand.t)
  | set_ipvn (v : Z)
  | set_num_schedule_slots (v : Z)
  | set_num_packets (v : Z)
  | set_sender_port (v : Z)
  | set_receiver_port (v : Z)
  | set_sender_address (v : IpAddr)
  | set_receiver_address (v : IpAddr)
  | set_sid (v : list Z)
  | set_padding_length (v : Z)
  | set_start_time (v : NtpTimestamp)
  | set_timeout (v : Z)
  | set_type_p (v : Z)
  | set_hmac (v : list Z).

Definition builder_set (b : RequestTwSessionBuilder) (f : builder_field) : RequestTwSessionBuilder :=
  let '(Build_RequestTwSessionBuilder rt iv cs cr ns np sp rp sa ra si pl st ti tp hm) := b in
  match f with
  | set_request_type v => Build_RequestTwSessionBuilder (Some v) iv cs cr ns np sp rp sa ra si pl st ti tp hm
  | set_ipvn v => Build_RequestTwSessionBuilder rt (Some v) cs cr ns np sp rp sa ra si pl st ti tp hm
  | set_num_schedule_slots v => Build_RequestTwSessionBuilder rt iv cs cr (Some v) np sp rp sa ra si pl st ti tp hm
  | set_num_packets v => Build_RequestTwSessionBuilder rt iv cs cr ns (Some v) sp rp sa ra si pl st ti tp hm
  | set_sender_port v => Build_RequestTwSessionBuilder rt iv cs cr ns np (Some v) rp sa ra si pl st ti tp hm
  | set_receiver_port v => Build_RequestTwSessionBuilder rt iv cs cr ns np sp (Some v) sa ra si pl st ti tp hm
  | set_sender_address v => Build_RequestTwSessionBuilder rt iv cs cr ns np sp rp (Some v) ra si pl st ti tp hm
  | set_receiver_address v => Build_RequestTwSessionBuilder rt iv cs cr ns np sp rp sa (Some v) si pl st ti tp hm
  | set_sid v => Build_RequestTwSessionBuilder rt iv cs cr ns np sp rp sa ra (Some v) pl st ti tp hm
  | set_padding_length v => Build_RequestTwSessionBuilder rt iv cs cr ns np sp rp sa ra si (Some v) st ti tp hm
  | set_start_time v => Build_RequestTwSessionBuilder rt iv cs cr ns np sp rp sa ra si pl (Some v) ti tp hm
  | set_timeout v => Build_RequestTwSessionBuilder rt iv cs cr ns np sp rp sa ra si pl st (Some v) tp hm
  | set_type_p v => Build_RequestTwSessionBuilder rt iv cs cr ns np sp rp sa ra si pl st ti (Some v) hm
  | set_hmac v => Build_RequestTwSessionBuilder rt iv cs cr ns np sp rp sa ra si pl st ti tp (Some v)
  end.

(** The sixteen address octets of the request: an IPv4 address goes to the last four. *)
Definition address_octets (a : option IpAddr) : list Z :=
  match a with
  | Some (IpV4 addr) => replicate 12 0 ++ v4_octets addr
  | Some (IpV6 addr) => addr
  | None => replicate 16 0
  end.

Definition is_v4 (a : option IpAddr) : bool := match a with Some (IpV4 _) => true | _ => false end.
Definition is_v6 (a : option IpAddr) : bool := match a with Some (IpV6 _) => true | _ => false end.
Definition is_none {A} (o : option A) : bool := match o with None => true | _ => false end.

Definition mismatch_sender : string := "Mismatch between ipvn and sender_address type".
Definition mismatch_receiver : string := "Mismatch between ipvn and receiver_address type".

(** The check of the IP version against the addresses. *)
Definition build_check_ipvn (self : RequestTwSessionBuilder) : result () :=
  match b_ipvn self with
  | None => Ok ()
  | Some v =>
      if v =? 4 then
        if is_v6 (b_sender_address self) then Err (from_str mismatch_sender)
        else if is_v6 (b_receiver_address self) then Err (from_str mismatch_receiver) else Ok ()
      else if v =? 6 then
        if is_v4 (b_sender_address self) then Err (from_str mismatch_sender)
        else if is_v4 (b_receiver_address self) then Err (from_str mismatch_receiver) else Ok ()
      else Err (from_str "Invalid ipvn, must be 4 or 6")
  end.

Definition build (self : RequestTwSessionBuilder) : result RequestTwSession :=
  if is_none (b_request_type self) then Err (from_str "request_type is not set") else
  _ ← build_check_ipvn self;
  if is_none (b_start_time self) then Err (from_str "start_time is not set") else
  if is_none (b_type_p self) then Err (from_str "type_p is not set") else
  start_time ← unwrap_option (b_start_time self);
  Ok {| request_type := default TwampControlCommand.default (b_request_type self);
        rq_mbz1 := 0;
        ipvn := default 0 (b_ipvn self);
        conf_sender := 0;
        conf_receiver := 0;
        num_schedule_slots := default 0 (b_num_schedule_slots self);
        num_packets := default 0 (b_num_packets self);
        sender_port := default 0 (b_sender_port self);
        reflector_port := default 0 (b_receiver_port self);
        sender_address := address_octets (b_sender_address self);
        reflector_address := address_octets (b_receiver_address self);
        sid := default (replicate 16 0) (b_sid self);
        padding_length := default MIN_UNAUTH_PADDING (b_padding_length self);
        start_time := start_time;
        timeout := default 0 (b_timeout self);
        type_p := default 0 (b_type_p self);
        rq_mbz2 := replicate 8 0;
        hmac := default (replicate 16 0) (b_hmac self) |}.

(** ** Encoding: the interface of the [bebytes] crate *)

Class BeBytes (T : Type) := {
  to_be_bytes : T -> list Z;
  (** the message and the number of bytes read, or the text of the error *)
  try_from_be_bytes : list Z -> outcome string (T * Z)
}.

(** [?] on the crate's boxed error: [From<Box<dyn Error>> for CommonError]. *)
Definition parse {T} `{BeBytes T} (bs : list Z) : result (T * Z) := map_err Generic (try_from_be_bytes bs).

(** What the crate documents: decoding an encoded message gives the message back; a message
    without a variable-length tail is decoded from a longer buffer too. *)
Class BeBytesLaws (T : Type) `{BeBytes T} (wf : T -> Prop) (fixed : bool) := {
  be_roundtrip : forall m rest, wf m -> (fixed = true \/ rest = []) ->
    try_from_be_bytes (to_be_bytes m ++ rest) = Ok (m, Z.of_nat (length (to_be_bytes m)))
}.

(** Decoding octets does not panic, and what it gives has fields of their types: [good]. *)
Class BeBytesSound (T : Type) `{BeBytes T} (good : T -> Prop) : Prop := {
  be_total : forall bs p, try_from_be_bytes bs <> Panic p;
  be_sound : forall bs m n, Forall byte_ok bs -> try_from_be_bytes bs = Ok (m, n) -> good m
}.

(** ** Lemmas *)

Lemma parse_sound {T} `{BeBytes T} good `{!BeBytesSound T good} bs : Forall byte_ok bs ->
  (exists e, parse (T:=T) bs = Err e) \/ exists m n, parse bs = Ok (m, n) /\ good m.
Proof.
  intros Hb. unfold parse. pose proof (be_total (T:=T) bs) as Ht. pose proof (be_sound (T:=T) bs) as Hs.
  destruct (try_from_be_bytes bs) as [[m n]|e|p]; [right; exists m, n; eauto|left; by eexists|by destruct (Ht p)].
Qed.

Lemma datetime_of_ntp_ok `{BuildProfile} {E} t : ntp_wf t ->
  exists d, datetime_of_ntp (E:=E) t = Ok d /\ datetime_u32 d.
Proof.
  intros Ht. rewrite datetime_of_ntp_spec by done. eexists. split; [done|].
  destruct Ht as [_ Hf]. unfold in_u, NANOS_PER_SEC in *.
  split; cbn [sec nanos]; [by apply as_u_range|].
  split; [apply Z.div_pos; lia|apply Z.div_lt_upper_bound; lia].
Qed.

(** The results of the two test messages, of which only the timestamps are converted. *)
Lemma sender_results `{BuildProfile} m : ntp_wf (timestamp_ m) ->
  exists d, datetime_of_ntp (E:=CommonError) (timestamp_ m) = Ok d /\ datetime_u32 d /\
    packet_results m = Ok {| sender_seq := sequence_number m; reflector_seq := None; t1 := d;
                             t2 := None; t3 := None; t4 := None |}.
Proof.
  intros Ht. destruct (datetime_of_ntp_ok (E:=CommonError) _ Ht) as (d & E & Hd). exists d.
  split; [done|]. split; [done|]. unfold packet_results, SenderMessage_Message, unwrap_datetime.
  by rewrite E.
Qed.

Definition reflected_wf (m : ReflectedMessage) : Prop :=
  ntp_wf (rm_timestamp m) /\ ntp_wf (receive_timestamp m) /\ ntp_wf (sender_timestamp m).

(** ** Properties *)

(** Evaluating a reflected message never panics, whatever the peer put in its three
    timestamps, although [t1] is unwrapped: the result carries both sequence numbers, all
    three times are present with [u32] fields, and only [t4] is left open. *)
Theorem reflected_results_total `{BuildProfile} m : reflected_wf m ->
  exists d1 d2 d3,
    packet_results m = Ok {| sender_seq := sender_sequence_number m;
      reflector_seq := Some (reflector_sequence_number m);
      t1 := d1; t2 := Some d2; t3 := Some d3; t4 := None |} /\
    datetime_u32 d1 /\ datetime_u32 d2 /\ datetime_u32 d3 /\
    (sec d1 + NTP_EPOCH) mod 2 ^ 32 = seconds (sender_timestamp m) /\
    (sec d2 + NTP_EPOCH) mod 2 ^ 32 = seconds (receive_timestamp m) /\
    (sec d3 + NTP_EPOCH) mod 2 ^ 32 = seconds (rm_timestamp m).
Proof.
  intros (H3 & H2 & H1).
  assert (Hsec : forall t d, ntp_wf t -> datetime_of_ntp (E:=CommonError) t = Ok d ->
    (sec d + NTP_EPOCH) mod 2 ^ 32 = seconds t).
  { intros t d Ht Hd. rewrite datetime_of_ntp_spec in Hd by done. injection Hd as <-.
    cbn [sec]. unfold as_u. rewrite Zplus_mod_idemp_l, Z.sub_add. apply Z.mod_small, Ht. }
  destruct (datetime_of_ntp_ok (E:=CommonError) _ H1) as (d1 & E1 & ?).
  destruct (datetime_of_ntp_ok (E:=CommonError) _ H2) as (d2 & E2 & ?).
  destruct (datetime_of_ntp_ok (E:=CommonError) _ H3) as (d3 & E3 & ?).
  exists d1, d2, d3. split; [|by eauto 10].
  unfold packet_results, ReflectedMessage_Message, unwrap_datetime, try_datetime.
  by rewrite E1, E2, E3.
Qed.

Definition sample_reflected : ReflectedMessage := {|
  reflector_sequence_number := 4; rm_timestamp := {| seconds := 3908988800; fraction := 4294967295 |};
  rm_error_estimate := ErrorEstimate_new 1 0 1 1; rm_mbz1 := 0;
  receive_timestamp := {| seconds := 0; fraction := 0 |}; sender_sequence_number := 7;
  sender_timestamp := {| seconds := 4294967295; fraction := 17 |};
  sender_error_estimate := ErrorEstimate_new 1 0 1 1; rm_mbz2 := 0; sender_ttl := 255; rm_padding := [] |}.

Example reflected_results_total_witness :
  exists d1 d2 d3,
    @packet_results _ (@ReflectedMessage_Message DEBUG) sample_reflected =
      Ok {| sender_seq := 7; reflector_seq := Some 4; t1 := d1; t2 := Some d2; t3 := Some d3; t4 := None |} /\
    datetime_u32 d1 /\ datetime_u32 d2 /\ datetime_u32 d3 /\
    (sec d1 + NTP_EPOCH) mod 2 ^ 32 = 4294967295 /\ (sec d2 + NTP_EPOCH) mod 2 ^ 32 = 0 /\
    (sec d3 + NTP_EPOCH) mod 2 ^ 32 = 3908988800.
Proof.
  apply (@reflected_results_total DEBUG sample_reflected).
  unfold reflected_wf, ntp_wf, in_u, sample_reflected; cbn; lia.
Defined.

(** The versions and addresses the builder accepts together. *)
Definition ipvn_consistent (b : RequestTwSessionBuilder) : Prop :=
  match b_ipvn b with
  | None => True
  | Some v => (v = 4 /\ is_v6 (b_sender_address b) = false /\ is_v6 (b_receiver_address b) = false) \/
              (v = 6 /\ is_v4 (b_sender_address b) = false /\ is_v4 (b_receiver_address b) = false)
  end.

Lemma build_check_ipvn_spec b :
  (ipvn_consistent b /\ build_check_ipvn b = Ok ()) \/
  (~ ipvn_consistent b /\ exists e, build_check_ipvn b = Err e).
Proof.
  unfold build_check_ipvn, ipvn_consistent.
  destruct (b_ipvn b) as [v|]; [|by left].
  destruct (Z.eqb_spec v 4) as [->|]; [|destruct (Z.eqb_spec v 6) as [->|]].
  - destruct (is_v6 (b_sender_address b)), (is_v6 (b_receiver_address b));
      first [left; split; [by left|done] | right; split; [intros [(_ & ? & ?)|(? & _)]; done|by eexists]].
  - destruct (is_v4 (b_sender_address b)), (is_v4 (b_receiver_address b));
      first [left; split; [by right|done] | right; split; [intros [(? & _)|(_ & ? & ?)]; done|by eexists]].
  - right. split; [by intros [[? _]|[? _]]|by eexists].
Qed.


Definition sample_builder : RequestTwSessionBuilder :=
  foldl builder_set RequestTwSessionBuilder_new
    [set_request_type TwampControlCommand.RequestTwSession; set_ipvn 4;
     set_sender_address (IpV4 (Ipv4Addr_new 10 0 0 1)); set_receiver_address (IpV4 (Ipv4Addr_new 10 0 0 2));
     set_start_time {| seconds := 3908988800; fraction := 0 |}; set_type_p 0].

