(* ===== verification/Wire.v ===== *)
(** * An example of the [BeBytes] interface

    The code that the [bebytes] crate derives is not in the repository, and the program's
    theorems are stated against an interface with laws.  This file shows that the laws can hold:
    big-endian codecs of the message structs, field by field in declaration order, at the
    declared widths ([#[U8(size, pos)]] fields share a byte, first field highest; a [Vec] tail
    takes the rest of the buffer), which satisfy [BeBytesLaws].  They make no claim about the
    crate; they make the handlers executable. *)
From stdpp Require Import base list option numbers strings.
From Stdlib Require Import ZArith Lia.
From S2P Require Import Prelude Float64 Errors Time Net DataModel Messages.
Local Open Scope Z_scope.

(** ** Codecs *)

Record codec (A : Type) := {
  cwf : A -> Prop;
  enc : A -> list Z;
  dec : list Z -> option (A * list Z);
  dec_enc : forall a r, cwf a -> dec (enc a ++ r) = Some (a, r)
}.
Arguments cwf {_} _ _.
Arguments enc {_} _ _.
Arguments dec {_} _ _.

(** A fixed number of bytes read by [f]. *)
Definition dec_fixed {A} (n : nat) (f : list Z -> A) (bs : list Z) : option (A * list Z) :=
  if (n <=? length bs)%nat then Some (f (take n bs), drop n bs) else None.

Lemma dec_fixed_app {A} n (f : list Z -> A) l r : length l = n ->
  dec_fixed n f (l ++ r) = Some (f l, r).
Proof.
  intros Hl. unfold dec_fixed. rewrite (proj2 (Nat.leb_le _ _)) by (rewrite length_app; lia).
  by rewrite take_app_length', drop_app_length'.
Qed.

Definition c_uint (n : nat) : codec Z.
Proof.
  refine {| cwf z := in_u (8 * Z.of_nat n) z; enc z := be_bytes n z; dec := dec_fixed n be_value |}.
  intros z r Hz. rewrite dec_fixed_app by apply be_bytes_length.
  rewrite be_value_bytes. unfold in_u in Hz. rewrite Z.pow_mul_r in Hz by lia.
  by rewrite Z.mod_small.
Defined.

Definition c_bytes (n : nat) : codec (list Z).
Proof.
  refine {| cwf l := length l = n; enc l := l; dec := dec_fixed n (fun l => l) |}.
  intros l r Hl. by apply dec_fixed_app.
Defined.

Definition c_pair {A B} (ca : codec A) (cb : codec B) : codec (A * B).
Proof.
  refine {|
    cwf p := cwf ca p.1 /\ cwf cb p.2;
    enc p := enc ca p.1 ++ enc cb p.2;
    dec bs := '(a, bs1) ← dec ca bs; '(b, bs2) ← dec cb bs1; Some ((a, b), bs2)
  |}.
  intros [a b] r [Ha Hb]. cbn [fst snd] in *. rewrite <-app_assoc.
  rewrite (dec_enc _ ca) by done. cbn. by rewrite (dec_enc _ cb).
Defined.

(** A codec of [B] through one of [A], for the well-formed [b] that [to] and [from] keep. *)
Definition c_iso {A B} (ca : codec A) (to : B -> A) (from : A -> option B) : codec B.
Proof.
  refine {|
    cwf b := cwf ca (to b) /\ from (to b) = Some b;
    enc b := enc ca (to b);
    dec bs := '(a, r) ← dec ca bs; b ← from a; Some (b, r)
  |}.
  intros b r [Ha Hb]. rewrite (dec_enc _ ca) by done. cbn. by rewrite Hb.
Defined.

Infix "⋈" := c_pair (at level 35, right associativity).

(** An enumeration by its discriminants. *)
Definition c_enum {A} (to : A -> Z) (all : list A) : codec A :=
  c_iso (c_uint 1) to (fun z => list_find (fun a => to a = z) all ≫= fun p => Some p.2).

Section instances.
Context {A : Type} (c : codec A).

Definition codec_parse (bs : list Z) : outcome string (A * Z) :=
  match dec c bs with
  | Some (a, r) => Ok (a, Z.of_nat (length bs) - Z.of_nat (length r))
  | None => Err "Not enough bytes"%string
  end.
Definition codec_BeBytes : BeBytes A := {| to_be_bytes := enc c; try_from_be_bytes := codec_parse |}.

Lemma codec_laws : @BeBytesLaws A codec_BeBytes (cwf c) true.
Proof.
  constructor. intros m rest Hm _. cbn. unfold codec_parse. rewrite (dec_enc _ c) by done.
  do 2 f_equal. rewrite length_app. lia.
Qed.

(** A message with a [Vec<u8>] tail. *)
Definition tail_parse (bs : list Z) : outcome string ((A * list Z) * Z) :=
  match dec c bs with
  | Some (a, r) => Ok ((a, r), Z.of_nat (length bs))
  | None => Err "Not enough bytes"%string
  end.
End instances.

(** *** What is decoded from octets has the types of its fields *)

Definition sound {A} (c : codec A) (good : A -> Prop) : Prop := forall bs a r,
  Forall byte_ok bs -> dec c bs = Some (a, r) -> good a /\ Forall byte_ok r.

Lemma dec_fixed_sound {A} n (f : list Z -> A) bs a r : Forall byte_ok bs -> dec_fixed n f bs = Some (a, r) ->
  a = f (take n bs) /\ length (take n bs) = n /\ Forall byte_ok (take n bs) /\ Forall byte_ok r.
Proof.
  intros Hb. unfold dec_fixed. destruct (Nat.leb_spec n (length bs)); [|done]. intros [= <- <-].
  rewrite length_take. split; [done|]. split; [lia|]. split; [by apply Forall_take|by apply Forall_drop].
Qed.

Lemma sound_uint n : sound (c_uint n) (in_u (8 * Z.of_nat n)).
Proof.
  intros bs a r Hb E. destruct (dec_fixed_sound n be_value bs a r Hb E) as (-> & Hl & Hk & Hr). split; [|done].
  pose proof (be_value_range _ Hk) as Hv. rewrite Hl in Hv. unfold in_u. by rewrite Z.pow_mul_r by lia.
Qed.

Lemma sound_pair {A B} (ca : codec A) (cb : codec B) P Q : sound ca P -> sound cb Q ->
  sound (c_pair ca cb) (fun p => P p.1 /\ Q p.2).
Proof.
  intros Ha Hb bs [a b] r Hbs E. cbn [dec c_pair] in E.
  destruct (dec ca bs) as [[a' bs1]|] eqn:E1; [|done]. cbn in E.
  destruct (dec cb bs1) as [[b' bs2]|] eqn:E2; [|done]. cbn in E. injection E as -> -> ->.
  destruct (Ha _ _ _ Hbs E1) as [HP Hbs1]. by destruct (Hb _ _ _ Hbs1 E2).
Qed.

Lemma sound_iso {A B} (ca : codec A) (to : B -> A) from P (Q : B -> Prop) : sound ca P ->
  (forall a b, P a -> from a = Some b -> Q b) -> sound (c_iso ca to from) Q.
Proof.
  intros Ha HQ bs b r Hbs E. cbn [dec c_iso] in E.
  destruct (dec ca bs) as [[a bs1]|] eqn:E1; [|done]. cbn in E.
  destruct (from a) as [b'|] eqn:E2; [|done]. cbn in E. injection E as -> ->.
  destruct (Ha _ _ _ Hbs E1) as [HP Hbs1]. split; [by eapply HQ|done].
Qed.

Lemma sound_weaken {A} (c : codec A) (P Q : A -> Prop) : (forall a, P a -> Q a) -> sound c P -> sound c Q.
Proof. intros HPQ Hs bs a r Hb E. destruct (Hs bs a r Hb E). auto. Qed.

(** ** The messages *)

Definition c_ntp : codec NtpTimestamp :=
  c_iso (c_uint 4 ⋈ c_uint 4) (fun t => (seconds t, fraction t))
    (fun '(s, f) => Some {| seconds := s; fraction := f |}).

Definition c_error_estimate : codec ErrorEstimate :=
  c_iso (c_uint 1 ⋈ c_uint 1)
    (fun e => (s_bit e * 128 + z_bit e * 64 + scale e, err_multiplier e))
    (fun '(b, m) => Some (ErrorEstimate_new (b / 128) (b / 64 mod 2) (b mod 64) m)).

Definition c_modes : codec Modes := c_iso (c_uint 1) bits (fun b => Some (Modes_new b)).

Definition all_accept : list AcceptFields.t :=
  [AcceptFields.Ok; AcceptFields.Failure; AcceptFields.InternalError; AcceptFields.NotSupported;
   AcceptFields.PermanentResourceLimitation; AcceptFields.TemporaryResourceLimitation].
Definition c_accept : codec AcceptFields.t := c_enum u8_of_accept all_accept.

Definition all_commands : list TwampControlCommand.t :=
  [TwampControlCommand.Forbidden; TwampControlCommand.StartSessions; TwampControlCommand.StopSessions;
   TwampControlCommand.RequestTwSession; TwampControlCommand.StartNSessions;
   TwampControlCommand.StartNAck; TwampControlCommand.StopNSessions; TwampControlCommand.StopNAck;
   TwampControlCommand.Other].
Definition c_command : codec TwampControlCommand.t := c_enum u8_of_command all_commands.

Definition c_greeting : codec ServerGreeting :=
  c_iso (c_bytes 12 ⋈ c_modes ⋈ c_bytes 16 ⋈ c_bytes 16 ⋈ c_uint 4 ⋈ c_bytes 12)
    (fun g => (unused g, (modes g, (challenge g, (salt g, (count g, sg_mbz g))))))
    (fun '(a, (b, (c, (d, (e, f))))) => Some (ServerGreeting_new a b c d e f)).

Definition c_setup : codec ClientSetupResponse :=
  c_iso (c_modes ⋈ c_bytes 80 ⋈ c_bytes 64 ⋈ c_bytes 16)
    (fun s => (mode s, (key_id s, (token s, client_iv s))))
    (fun '(a, (b, (c, d))) => Some (ClientSetupResponse_new a b c d)).

Definition c_start : codec ServerStart :=
  c_iso (c_bytes 15 ⋈ c_accept ⋈ c_bytes 16 ⋈ c_ntp ⋈ c_bytes 8)
    (fun s => (ss_mbz1 s, (ss_accept s, (server_iv s, (ss_start_time s, ss_mbz2 s)))))
    (fun '(a, (b, (c, (d, e)))) => Some (Build_ServerStart a b c d e)).

Definition c_control : codec ControlMessage :=
  c_iso (c_uint 1 ⋈ c_bytes 15 ⋈ c_bytes 16)
    (fun m => (control_command m, (cm_mbz m, cm_hmac m)))
    (fun '(a, (b, c)) => Some (Build_ControlMessage a b c)).

Definition c_stop_n_sessions : codec StopNSessions :=
  c_iso (c_command ⋈ c_accept ⋈ c_bytes 2 ⋈ c_uint 4 ⋈ c_bytes 8 ⋈ c_bytes 4)
    (fun m => (sn_control_command m, (sn_accept_field m, (sn_mbz1 m, (sn_number_of_sessions m, (sn_mbz2 m, sn_hmac m))))))
    (fun '(a, (b, (c, (d, (e, f))))) => Some (Build_StopNSessions a b c d e f)).

Definition c_accept_session : codec AcceptSessionMessage :=
  c_iso (c_accept ⋈ c_uint 1 ⋈ c_uint 2 ⋈ c_bytes 16 ⋈ c_bytes 12 ⋈ c_bytes 16)
    (fun m => (accept m, (as_mbz1 m, (as_port m, (as_sid m, (as_mbz2 m, as_hmac m))))))
    (fun '(a, (b, (c, (d, (e, f))))) => Some (AcceptSessionMessage_new a b c d e f)).

Definition c_request : codec RequestTwSession :=
  c_iso (c_command ⋈ c_uint 1 ⋈ c_uint 1 ⋈ c_uint 1 ⋈ c_uint 4 ⋈ c_uint 4 ⋈ c_uint 2 ⋈ c_uint 2
         ⋈ c_bytes 16 ⋈ c_bytes 16 ⋈ c_bytes 16 ⋈ c_uint 4 ⋈ c_ntp ⋈ c_uint 4 ⋈ c_uint 1
         ⋈ c_bytes 8 ⋈ c_bytes 16)
    (fun m => (request_type m, (rq_mbz1 m * 16 + ipvn m, (conf_sender m, (conf_receiver m,
       (num_schedule_slots m, (num_packets m, (sender_port m, (reflector_port m, (sender_address m,
       (reflector_address m, (sid m, (padding_length m, (start_time m, (timeout m, (type_p m,
       (rq_mbz2 m, hmac m)))))))))))))))))
    (fun '(a, (bc, (d, (e, (f, (g, (h, (i, (j, (k, (l, (m, (n, (o, (p, (q, r)))))))))))))))) =>
       Some (Build_RequestTwSession a (bc / 16) (bc mod 16) d e f g h i j k l m n o p q r)).

(** The fields before the tail of the test messages. *)
Definition c_sender_head : codec (Z * (NtpTimestamp * ErrorEstimate)) :=
  c_uint 4 ⋈ c_ntp ⋈ c_error_estimate.
Definition c_reflected_head :
    codec (Z * (NtpTimestamp * (ErrorEstimate * (Z * (NtpTimestamp * (Z * (NtpTimestamp * (ErrorEstimate * (Z * Z))))))))) :=
  c_uint 4 ⋈ c_ntp ⋈ c_error_estimate ⋈ c_uint 2 ⋈ c_ntp ⋈ c_uint 4 ⋈ c_ntp ⋈ c_error_estimate
    ⋈ c_uint 2 ⋈ c_uint 1.

Definition sender_head (m : SenderMessage) := (sequence_number m, (timestamp_ m, error_estimate m)).
Definition reflected_head (m : ReflectedMessage) :=
  (reflector_sequence_number m, (rm_timestamp m, (rm_error_estimate m, (rm_mbz1 m, (receive_timestamp m,
    (sender_sequence_number m, (sender_timestamp m, (sender_error_estimate m, (rm_mbz2 m, sender_ttl m))))))))).

Module BigEndian.
#[export] Instance ServerGreeting_bytes : BeBytes ServerGreeting := codec_BeBytes c_greeting.
#[export] Instance ClientSetupResponse_bytes : BeBytes ClientSetupResponse := codec_BeBytes c_setup.
#[export] Instance ServerStart_bytes : BeBytes ServerStart := codec_BeBytes c_start.
#[export] Instance ControlMessage_bytes : BeBytes ControlMessage := codec_BeBytes c_control.
#[export] Instance StopNSessions_bytes : BeBytes StopNSessions := codec_BeBytes c_stop_n_sessions.
#[export] Instance AcceptSessionMessage_bytes : BeBytes AcceptSessionMessage := codec_BeBytes c_accept_session.
#[export] Instance RequestTwSession_bytes : BeBytes RequestTwSession := codec_BeBytes c_request.
#[export] Instance SenderMessage_bytes : BeBytes SenderMessage := {|
  to_be_bytes m := enc c_sender_head (sender_head m) ++ padding m;
  try_from_be_bytes bs := '((s, (t, e)), p, n) ← tail_parse c_sender_head bs;
                          Ok (SenderMessage_new s t e p, n)
|}.
#[export] Instance ReflectedMessage_bytes : BeBytes ReflectedMessage := {|
  to_be_bytes m := enc c_reflected_head (reflected_head m) ++ rm_padding m;
  try_from_be_bytes bs :=
    '((a, (b, (c, (d, (e, (f, (g, (h, (i, j))))))))), p, n) ← tail_parse c_reflected_head bs;
    Ok (Build_ReflectedMessage a b c d e f g h i j p, n)
|}.

#[export] Instance ServerGreeting_laws : BeBytesLaws ServerGreeting (cwf c_greeting) true := codec_laws _.
#[export] Instance ClientSetupResponse_laws : BeBytesLaws ClientSetupResponse (cwf c_setup) true := codec_laws _.
#[export] Instance ServerStart_laws : BeBytesLaws ServerStart (cwf c_start) true := codec_laws _.
#[export] Instance ControlMessage_laws : BeBytesLaws ControlMessage (cwf c_control) true := codec_laws _.
#[export] Instance StopNSessions_laws : BeBytesLaws StopNSessions (cwf c_stop_n_sessions) true := codec_laws _.
#[export] Instance AcceptSessionMessage_laws : BeBytesLaws AcceptSessionMessage (cwf c_accept_session) true := codec_laws _.
#[export] Instance RequestTwSession_laws : BeBytesLaws RequestTwSession (cwf c_request) true := codec_laws _.

#[export] Instance SenderMessage_laws :
  BeBytesLaws SenderMessage (fun m => cwf c_sender_head (sender_head m)) false.
Proof.
  constructor. intros m rest Hm [ | -> ]; [discriminate|]. cbn [to_be_bytes try_from_be_bytes SenderMessage_bytes].
  rewrite app_nil_r. unfold tail_parse. rewrite (dec_enc _ c_sender_head) by done.
  cbn. by destruct m.
Qed.

#[export] Instance ReflectedMessage_laws :
  BeBytesLaws ReflectedMessage (fun m => cwf c_reflected_head (reflected_head m)) false.
Proof.
  constructor. intros m rest Hm [ | -> ]; [discriminate|]. cbn [to_be_bytes try_from_be_bytes ReflectedMessage_bytes].
  rewrite app_nil_r. unfold tail_parse. rewrite (dec_enc _ c_reflected_head) by done.
  cbn. by destruct m.
Qed.

Lemma sound_ntp : sound c_ntp ntp_wf.
Proof.
  eapply sound_iso; [apply sound_pair; apply (sound_uint 4)|]. intros [s f] t [Hs Hf] [= <-]. by split.
Qed.
Lemma sound_error_estimate : sound c_error_estimate (fun _ => True).
Proof. eapply sound_iso; [apply sound_pair; apply (sound_uint 1)|done]. Qed.

#[export] Instance SenderMessage_sound :
  BeBytesSound SenderMessage (fun m => in_u 32 (sequence_number m) /\ ntp_wf (timestamp_ m)).
Proof.
  constructor; intros bs; cbn [try_from_be_bytes SenderMessage_bytes]; unfold tail_parse.
  - intros p. by destruct (dec c_sender_head bs) as [[(s & t & e) r]|].
  - intros m n Hb. destruct (dec c_sender_head bs) as [[(s & t & e) r]|] eqn:E; [|done]. intros [= <- <-].
    destruct (sound_pair (c_uint 4) _ _ _ (sound_uint 4) (sound_pair _ _ _ _ sound_ntp sound_error_estimate) _ _ _ Hb E)
      as [(Hs & Ht & _) _]. by split.
Qed.

#[export] Instance ReflectedMessage_sound :
  BeBytesSound ReflectedMessage reflected_wf.
Proof.
  constructor; intros bs; cbn [try_from_be_bytes ReflectedMessage_bytes]; unfold tail_parse.
  - intros p. by destruct (dec c_reflected_head bs) as [[(a & b & c & d & e & f & g & h & i & j) r]|].
  - intros m n Hb. destruct (dec c_reflected_head bs) as [[(a & b & c & d & e & f & g & h & i & j) r]|] eqn:E; [|done].
    intros [= <- <-]. assert (Hs : sound c_reflected_head (fun '(_, (b, (_, (_, (e, (_, (g, _))))))) =>
      ntp_wf b /\ ntp_wf e /\ ntp_wf g)).
    { unfold c_reflected_head. pose proof sound_ntp. pose proof sound_error_estimate.
      eapply sound_weaken; [|repeat (apply sound_pair; [first [apply (sound_uint 4)|apply (sound_uint 2)|eassumption]|]); apply (sound_uint 1)].
      intros (? & ? & ? & ? & ? & ? & ? & ? & ? & ?). cbn. tauto. }
    by destruct (Hs _ _ _ Hb E) as [? _].
Qed.
End BigEndian.
Import BigEndian.

(** ** What the builder makes fits the codec *)

Definition in_range (w : Z) (o : option Z) : Prop := match o with Some z => in_u w z | None => True end.
Definition octets (n : nat) (o : option (list Z)) : Prop := match o with Some l => length l = n | None => True end.
Definition address_wf (o : option IpAddr) : Prop :=
  match o with Some (IpV6 a) => length a = 16%nat | _ => True end.

(** The types of the builder's fields. *)
Definition builder_wf (b : RequestTwSessionBuilder) : Prop :=
  in_range 32 (b_num_schedule_slots b) /\ in_range 32 (b_num_packets b) /\
  in_range 16 (b_sender_port b) /\ in_range 16 (b_receiver_port b) /\
  address_wf (b_sender_address b) /\ address_wf (b_receiver_address b) /\ octets 16 (b_sid b) /\
  in_range 32 (b_padding_length b) /\ match b_start_time b with Some t => ntp_wf t | None => True end /\
  in_range 32 (b_timeout b) /\ in_range 8 (b_type_p b) /\ octets 16 (b_hmac b).

Lemma in_range_default w d o : in_range w o -> in_u w d -> in_u w (default d o).
Proof. by destruct o. Qed.
Lemma octets_default n o : octets n o -> length (default (replicate n 0) o) = n.
Proof. destruct o; [done|]. intros _. apply length_replicate. Qed.
Lemma address_octets_length o : address_wf o -> length (address_octets o) = 16%nat.
Proof. by destruct o as [[]|]. Qed.

Lemma c_ntp_wf t : ntp_wf t -> cwf c_ntp t.
Proof. intros [? ?]. split; [done|]. by destruct t. Qed.
Lemma c_command_wf c : cwf c_command c.
Proof. split; [unfold in_u|]; destruct c; cbn; (lia || done). Qed.

Lemma build_ipvn b r : build b = Ok r -> ipvn r = 0 \/ ipvn r = 4 \/ ipvn r = 6.
Proof.
  unfold build. destruct (is_none _); [done|].
  destruct (build_check_ipvn_spec b) as [[Hc ->]|[_ [e ->]]]; [|done]. cbn [mbind outcome_bind].
  destruct (is_none (b_start_time b)), (is_none (b_type_p b)), (b_start_time b); try done.
  intros [= <-]. cbn. unfold ipvn_consistent in Hc. destruct (b_ipvn b); naive_solver.
Qed.

Lemma build_cwf b r : builder_wf b -> build b = Ok r -> cwf c_request r.
Proof.
  intros (? & ? & ? & ? & ? & ? & ? & ? & Hst & ? & ? & ?) Hr.
  pose proof (build_ipvn b r Hr) as Hv. revert Hr. unfold build.
  destruct (is_none _); [done|]. destruct (build_check_ipvn b) as [[]| |]; [|done..]. cbn [mbind outcome_bind].
  destruct (b_start_time b) as [st|]; cbn [is_none]; [|done].
  destruct (is_none _); [done|]. cbn [unwrap_option mbind outcome_bind]. intros [= <-]. cbn in Hv.
  assert (Hv' : 0 <= default 0 (b_ipvn b) < 16) by lia.
  split; [|cbn; by destruct Hv as [->|[->| ->]]]. cbn.
  assert (Hcmd : forall c, in_u 8 (u8_of_command c)) by (intros []; unfold in_u; cbn; lia).
  assert (Hz : forall w, 0 < w -> in_u w 0) by (intros w ?; unfold in_u; lia).
  repeat match goal with |- _ /\ _ => split end;
    first [ apply in_range_default; [done|unfold in_u, MIN_UNAUTH_PADDING; lia]
          | by apply (octets_default 16) | by apply address_octets_length | done | apply Hcmd
          | apply Hz; lia | apply Hst | by destruct st | exact (proj2 (c_command_wf _))
          | unfold in_u; cbn; lia ].
Qed.

Definition sample_sender : SenderMessage :=
  SenderMessage_new 7 {| seconds := 3908988800; fraction := 17 |} (ErrorEstimate_new 1 0 1 1) (replicate 27 0).
