(* ===== verification/Estimator.v ===== *)
(** * [network_commons/src/stats/offset_estimator.rs]

    The linear congruential generator, the Gamma sampler and the clock-offset estimate.
    The natural logarithm is the platform's [libm] function and enters as the parameter
    [ln]; the two rejection loops take fuel, [None] being "still looping". *)
From stdpp Require Import base list option numbers strings sorting.
From Stdlib Require Import ZArith Lia SpecFloat.
From S2P Require Import Prelude Float64 Time.
Local Open Scope Z_scope.

Declare Scope f64_scope.
Delimit Scope f64_scope with f64.
Infix "+" := f64_add : f64_scope.
Infix "-" := f64_sub : f64_scope.
Infix "*" := f64_mul : f64_scope.
Infix "/" := f64_div : f64_scope.
Notation "- x" := (SFopp x) : f64_scope.
Infix "<?" := f64_ltb : f64_scope.
Infix "<=?" := f64_leb : f64_scope.

Definition f64_is_nan (x : f64) : bool := match x with S754_nan => true | _ => false end.
Definition f64_zero : f64 := S754_zero false.
Definition f64_one : f64 := f64_of_Z 1.
Definition f64_two : f64 := f64_of_Z 2.

(** ** [LcgRng] *)

Record LcgRng := { lcg_state : Z; lcg_a : Z; lcg_c : Z; lcg_m : Z }.

Definition LcgRng_new (seed : Z) : LcgRng :=
  {| lcg_state := seed; lcg_a := 6364136223846793005; lcg_c := 1442695040888963407; lcg_m := u_max 64 |}.

Definition next_u64 (self : LcgRng) : Z * LcgRng :=
  let s := as_u 64 (as_u 64 (lcg_a self * lcg_state self) + lcg_c self) mod lcg_m self in
  (s, {| lcg_state := s; lcg_a := lcg_a self; lcg_c := lcg_c self; lcg_m := lcg_m self |}).

Definition gen_range (start end_ : f64) (self : LcgRng) : f64 * LcgRng :=
  let '(random_u64, self) := next_u64 self in
  let random_f64 := f64_div (f64_of_Z random_u64) (f64_of_Z (u_max 64)) in
  ((start + random_f64 * (end_ - start))%f64, self).

(** ** Sorting by [partial_cmp(..).unwrap()] *)

Definition f64_le (x y : f64) : Prop := f64_leb x y = true.
#[export] Instance f64_le_dec x y : Decision (f64_le x y).
Proof. unfold f64_le. apply _. Defined.

(** Every element of a vector of two or more is compared, so a NaN among them panics. *)
Definition sort_partial {E} (v : list f64) : outcome E (list f64) :=
  if (2 <=? length v)%nat && existsb f64_is_nan v then Panic UnwrapFailed
  else Ok (merge_sort f64_le v).

Definition sort_values {E} (v : list f64) : outcome E (list f64) := sort_partial v.

(** [v[i]] *)
Definition index {E A} (v : list A) (i : nat) : outcome E A :=
  match v !! i with Some x => Ok x | None => Panic IndexOutOfBounds end.

(** ** Estimates *)

Definition f64_len {A} (v : list A) : f64 := f64_of_Z (Z.of_nat (length v)).

Definition estimate_alpha_beta_from_owd {E} (x : list f64) : outcome E (f64 * f64) :=
  let n := f64_len x in
  x_vec ← sort_partial x;
  median_x ← (if Nat.even (length x_vec) then
      (* [x_vec.len() / 2 - 1] underflows for an empty vector: the program never has one *)
      let mid := (length x_vec / 2)%nat in
      if (mid =? 0)%nat then Panic IndexOutOfBounds else
      p ← index x_vec (mid - 1); q ← index x_vec mid; Ok ((p + q) / f64_two)%f64
    else index x_vec (length x_vec / 2));
  let sum_sq_diff := f64_sum ((fun xi => f64_powi (xi - median_x)%f64 2) <$> x_vec) in
  let var_x := (sum_sq_diff / (n - f64_one))%f64 in
  Ok ((f64_powi median_x 2 / var_x)%f64, (var_x / median_x)%f64).

Section sampler.
(** [f64::ln] *)
Context (ln : f64 -> f64).

Fixpoint marsaglia_polar_sample (fuel : nat) (rng : LcgRng) : option (f64 * LcgRng) :=
  match fuel with
  | O => None
  | S fuel =>
      let '(u, rng) := gen_range (- f64_one)%f64 f64_one rng in
      let '(v, rng) := gen_range (- f64_one)%f64 f64_one rng in
      let s := (u * u + v * v)%f64 in
      if (s <? f64_one)%f64 && negb (f64_eqb s f64_zero)
      then Some ((u * f64_sqrt ((- f64_two) * ln s / s))%f64, rng)
      else marsaglia_polar_sample fuel rng
  end.

Definition third : f64 := f64_lit 1 3.

(** One Gamma value: the body of [map], with its [loop]. *)
Fixpoint gamma_value (fuel : nat) (d c beta : f64) (rng : LcgRng) : option (f64 * LcgRng) :=
  match fuel with
  | O => None
  | S fuel' =>
      '(x, rng) ← marsaglia_polar_sample fuel rng;
      let v := (f64_one + c * x)%f64 in
      if (v <=? f64_zero)%f64 then gamma_value fuel' d c beta rng
      else
        let v := (v * v * v)%f64 in
        let '(u, rng) := gen_range f64_zero f64_one rng in
        let x_squared := (x * x)%f64 in
        if (u <? f64_one - f64_lit 331 10000 * x_squared * x_squared)%f64
           || (ln u <? f64_lit 1 2 * x_squared + d * (f64_one - v + ln v))%f64
        then Some ((d * v * beta)%f64, rng)
        else gamma_value fuel' d c beta rng
  end.

Fixpoint gamma_values (fuel num_samples : nat) (d c beta : f64) (rng : LcgRng) : option (list f64) :=
  match num_samples with
  | O => Some []
  | S k => '(g, rng) ← gamma_value fuel d c beta rng;
           gs ← gamma_values fuel k d c beta rng; Some (g :: gs)
  end.

Definition generate_random_gamma_values (fuel : nat) (alpha beta : f64) (num_samples : nat) (seed : Z)
    : option (list f64) :=
  let d := (alpha - third)%f64 in
  gamma_values fuel num_samples d (third / f64_sqrt d)%f64 beta (LcgRng_new seed).

(** [as_secs() ^ subsec_nanos()] of the time since the epoch; [None] when the clock is before it. *)
Definition get_time_based_seed {E} (now : option Duration) : outcome E Z :=
  match now with
  | Some d => Ok (Z.lxor (as_secs d) (subsec_nanos d))
  | None => Panic (Expect "Time went backwards")
  end.

Definition f64_mean (v : list f64) : f64 := (f64_sum v / f64_len v)%f64.

Definition estimate_offset {E} (x_sort y : list f64) : outcome E f64 :=
  let n := length x_sort in
  points ← collect (fun i =>
    let p_value := ((f64_of_Z (Z.of_nat i + 1) - f64_lit 1 2) / f64_of_Z (Z.of_nat n))%f64 in
    yi ← index y i; xi ← index x_sort i; Ok ((xi - p_value)%f64, yi)) (seq 0 n);
  let x_regression := fst <$> points in
  let y_regression := snd <$> points in
  let x_mean := f64_mean x_regression in
  let y_mean := f64_mean y_regression in
  let numerator := f64_sum ((fun '(x, y) => ((x - x_mean) * (y - y_mean))%f64)
                            <$> zip x_regression y_regression) in
  let denominator := f64_sum ((fun x => f64_powi (x - x_mean)%f64 2) <$> x_regression) in
  let beta := (numerator / denominator)%f64 in
  let gamma := (y_mean - beta * x_mean)%f64 in
  Ok (- gamma / beta)%f64.

(** The shape is kept between one and four. *)
Definition clamp_alpha (alpha : f64) : f64 :=
  if (f64_of_Z 4 <? alpha)%f64 then f64_of_Z 4
  else if (alpha <? f64_one)%f64 then f64_one else alpha.

(** [None] inside: the sampler is still looping after [fuel] rounds. *)
Definition estimate {E} (fuel : nat) (now : option Duration) (time_values : list f64)
    : outcome E (option f64) :=
  '(alpha, beta) ← estimate_alpha_beta_from_owd time_values;
  let alpha := clamp_alpha alpha in
  seed ← get_time_based_seed now;
  match generate_random_gamma_values fuel alpha beta (length time_values) seed with
  | None => Ok None
  | Some random_values =>
      sorted ← sort_values time_values;
      random_sorted ← sort_partial random_values;
      r ← estimate_offset sorted random_sorted; Ok (Some r)
  end.
End sampler.

(** ** Lemmas *)

Lemma f64_mul_nan_l x : f64_mul S754_nan x = S754_nan.
Proof. by destruct x. Qed.
Lemma f64_sub_nan_l x : f64_sub S754_nan x = S754_nan.
Proof. by destruct x. Qed.

Section nan.
Context (ln : f64 -> f64).

Lemma gamma_value_nan fuel cc beta rng g rng' :
  gamma_value ln fuel S754_nan cc beta rng = Some (g, rng') -> g = S754_nan.
Proof.
  revert rng. induction fuel as [|fuel IH]; [done|]. intros rng. cbn [gamma_value].
  destruct (marsaglia_polar_sample ln (S fuel) rng) as [[x r1]|]; [|done]. cbn [mbind option_bind].
  destruct (f64_leb _ _); [apply IH|]. destruct (gen_range _ _ r1) as [u r2].
  destruct (_ || _); [|apply IH]. by intros [= <- _].
Qed.

Lemma gamma_values_nan fuel k cc beta rng l :
  gamma_values ln fuel k S754_nan cc beta rng = Some l -> l = replicate k S754_nan.
Proof.
  revert rng l. induction k as [|k IH]; intros rng l; cbn [gamma_values]; [by intros [= <-]|].
  destruct (gamma_value ln fuel _ cc beta rng) as [[g r]|] eqn:E; [|done]. cbn.
  destruct (gamma_values ln fuel k _ cc beta r) as [gs|] eqn:E'; [|done]. intros [= <-].
  apply gamma_value_nan in E as ->. apply IH in E' as ->. done.
Qed.
End nan.

Lemma index_lookup {E A} (v : list A) i x : v !! i = Some x -> index (E:=E) v i = Ok x.
Proof. unfold index. by intros ->. Qed.

Lemma gamma_values_length ln fuel k d cc beta rng l :
  gamma_values ln fuel k d cc beta rng = Some l -> length l = k.
Proof.
  revert rng l. induction k as [|k IH]; intros rng l; cbn [gamma_values]; [by intros [= <-]|].
  destruct (gamma_value ln fuel d cc beta rng) as [[g r]|]; [|done]. cbn.
  destruct (gamma_values ln fuel k d cc beta r) eqn:E; [|done]. intros [= <-].
  cbn. f_equal. by eapply IH.
Qed.

Lemma sort_partial_ok {E} v : existsb f64_is_nan v = false ->
  exists l, sort_partial (E:=E) v = Ok l /\ l ≡ₚ v.
Proof.
  intros H. unfold sort_partial. rewrite H, andb_false_r. eexists. split; [done|].
  apply merge_sort_Permutation.
Qed.

Lemma median_ok {E} v : v <> [] -> existsb f64_is_nan v = false ->
  exists ab, estimate_alpha_beta_from_owd (E:=E) v = Ok ab.
Proof.
  intros Hv Hn. unfold estimate_alpha_beta_from_owd.
  destruct (sort_partial_ok (E:=E) v Hn) as (x & -> & Hp). cbn [mbind outcome_bind].
  assert (Hx : (0 < length x)%nat) by (rewrite (Permutation_length Hp); destruct v; [done|cbn; lia]).
  pose proof (Nat.div_lt (length x) 2 Hx ltac:(lia)) as Hlt.
  destruct (lookup_lt_is_Some_2 x _ Hlt) as [q Hq]. rewrite !(index_lookup _ _ _ Hq).
  destruct (Nat.even (length x)) eqn:Ev; [|by eexists].
  destruct (Nat.eqb_spec (length x / 2) 0) as [H0|H0].
  - apply Nat.div_small_iff in H0; [|lia]. assert (length x = 1)%nat as H1 by lia. by rewrite H1 in Ev.
  - destruct (lookup_lt_is_Some_2 x (length x / 2 - 1)) as [p Hp']; [lia|].
    rewrite (index_lookup _ _ _ Hp'). by eexists.
Qed.

Lemma collect_index_ok {E} {A B C} (g : A -> B -> nat -> C) (x : list A) (y : list B) n :
  (n <= length x)%nat -> (n <= length y)%nat ->
  exists l, length l = n /\
    collect (E:=E) (fun i => yi ← index y i; xi ← index x i; Ok (g xi yi i)) (seq 0 n) = Ok l.
Proof.
  intros Hx Hy.
  assert (forall k s, (s + k <= n)%nat -> exists l, length l = k /\
    collect (E:=E) (fun i => yi ← index y i; xi ← index x i; Ok (g xi yi i)) (seq s k) = Ok l) as H.
  { induction k as [|k IH]; intros s Hs; [by exists []|]. cbn [seq collect].
    destruct (IH (S s)) as (l & Hl & E'); [lia|].
    destruct (lookup_lt_is_Some_2 y s) as [yi Hyi]; [lia|].
    destruct (lookup_lt_is_Some_2 x s) as [xi Hxi]; [lia|].
    rewrite (index_lookup y s yi Hyi), (index_lookup x s xi Hxi). cbn [mbind outcome_bind]. rewrite E'. eexists. split; [|done]. cbn. lia. }
  apply H. lia.
Qed.

(** ** Properties *)

(** The generator stays in its state space and is a pure function of the seed: every
    drawn word is below [2^64 - 1], whatever the seed, so no draw ever returns [u64::MAX]. *)
Theorem lcg_invariant seed : in_u 64 seed ->
  forall k, let rng := Nat.iter k (fun r => snd (next_u64 r)) (LcgRng_new seed) in
    lcg_m rng = u_max 64 /\ 0 <= fst (next_u64 rng) < u_max 64 /\ in_u 64 (lcg_state rng).
Proof.
  intros Hs k rng.
  assert (Hm : lcg_m rng = u_max 64 /\ in_u 64 (lcg_state rng)).
  { subst rng. induction k as [|k [IH1 IH2]]; [done|]. rewrite Nat.iter_succ.
    revert IH1 IH2. generalize (Nat.iter k (fun r => snd (next_u64 r)) (LcgRng_new seed)). intros r IH1 IH2.
    cbn [next_u64 snd lcg_m lcg_state]. split; [done|]. rewrite IH1. match goal with |- in_u _ (?z mod _) =>
      pose proof (Z.mod_pos_bound z (u_max 64) ltac:(done)) end. unfold in_u, u_max in *. lia. }
  destruct Hm as [Hm Hst]. split; [done|]. split; [|done]. cbn [next_u64 fst]. rewrite Hm.
  by apply Z.mod_pos_bound.
Qed.

(** The sampler's [gen_range] over a half-open range can return the end of the range:
    the largest words round up to [2^64] when they become [f64]. *)
Theorem gen_range_end_reached : exists seed, in_u 64 seed /\
  fst (next_u64 (LcgRng_new seed)) < u_max 64 /\
  fst (gen_range f64_zero f64_one (LcgRng_new seed)) = f64_one.
Proof. exists 1758047245461552843. vm_compute. intuition congruence. Qed.

(** A non-empty chunk of delays without a NaN is estimated: when the clock is past the
    epoch and the sampler has produced its values, none of them a NaN, an offset is returned;
    no index is out of bounds and no sort panics. *)
Theorem estimate_returns {E} ln fuel now v :
  v <> [] -> existsb f64_is_nan v = false ->
  exists alpha beta, estimate_alpha_beta_from_owd (E:=E) v = Ok (alpha, beta) /\
    forall l, generate_random_gamma_values ln fuel (clamp_alpha alpha) beta (length v)
                (Z.lxor (as_secs now) (subsec_nanos now)) = Some l ->
      existsb f64_is_nan l = false ->
      exists r, estimate (E:=E) ln fuel (Some now) v = Ok (Some r).
Proof.
  intros Hv Hn. unfold estimate. destruct (median_ok (E:=E) v Hv Hn) as ([al be] & ->).
  exists al, be. split; [done|]. intros l Hl Hnl.
  cbn [mbind outcome_bind get_time_based_seed]. rewrite Hl.
  unfold sort_values. destruct (sort_partial_ok (E:=E) v Hn) as (x & -> & Hx).
  destruct (sort_partial_ok (E:=E) l Hnl) as (y & -> & Hy). cbn [mbind outcome_bind].
  unfold generate_random_gamma_values in Hl. apply gamma_values_length in Hl.
  assert (length y = length x) as Hyx by (rewrite (Permutation_length Hx), (Permutation_length Hy); done).
  unfold estimate_offset.
  destruct (collect_index_ok (E:=E) (fun xi yi i => ((xi - (f64_of_Z (Z.of_nat i + 1) - f64_lit 1 2)
    / f64_of_Z (Z.of_nat (length x)))%f64, yi)) x y (length x)) as (pts & _ & Hpts); [lia..|].
  cbn zeta. rewrite Hpts. cbn [mbind outcome_bind]. by eexists.
Qed.

(** When the shape estimate of a chunk is a NaN (five equal zero delays, for one), the
    estimate never returns a value: whatever the logarithm, the clock and the fuel, the
    sampler either still loops or the sort of its NaN samples panics. *)
Theorem estimate_nan_never_returns {E} ln fuel now v beta r :
  (2 <= length v)%nat -> estimate_alpha_beta_from_owd (E:=E) v = Ok (S754_nan, beta) ->
  estimate (E:=E) ln fuel now v <> Ok (Some r).
Proof.
  intros Hl Ha. unfold estimate. rewrite Ha. cbn [mbind outcome_bind].
  rewrite (eq_refl : clamp_alpha S754_nan = S754_nan).
  destruct (get_time_based_seed now) as [seed| |]; [|done..]. cbn [mbind outcome_bind].
  destruct (generate_random_gamma_values ln fuel S754_nan beta (length v) seed) as [l|] eqn:Eg; [|done].
  unfold generate_random_gamma_values in Eg. rewrite f64_sub_nan_l in Eg.
  apply gamma_values_nan in Eg as ->. destruct (sort_values v); [|done..].
  unfold sort_partial. rewrite length_replicate.
  replace (2 <=? length v)%nat with true by (symmetry; apply Nat.leb_le; lia).
  destruct (length v) as [|k]; [lia|]. done.
Qed.

Example estimate_returns_witness : exists r,
  estimate (E:=unit) (fun x => (x - f64_one)%f64) 40 (Some (Duration_from_secs 17))
    (f64_of_Z <$> [10; 20; 35; 41; 60]) = Ok (Some r).
Proof.
  destruct (estimate_returns (E:=unit) (fun x => (x - f64_one)%f64) 40 (Duration_from_secs 17)
    (f64_of_Z <$> [10; 20; 35; 41; 60])) as (al & be & Hab & H).
  - done.
  - vm_compute. reflexivity.
  - vm_compute in Hab. injection Hab as <- <-. eapply H; vm_compute; reflexivity.
Defined.

Example lcg_invariant_witness : in_u 64 17 /\ 0 <= fst (next_u64 (LcgRng_new 17)) < u_max 64.
Proof.
  assert (in_u 64 17) as H by (unfold in_u; lia). split; [exact H|].
  exact (proj1 (proj2 (lcg_invariant 17 H 0))).
Defined.

Example estimate_nan_never_returns_witness :
  estimate (E:=unit) (fun x => x) 40 (Some (Duration_from_secs 17)) (replicate 5 f64_zero) <> Ok (Some f64_one).
Proof. apply (estimate_nan_never_returns _ _ _ _ S754_nan); [cbn; lia|vm_compute; reflexivity]. Defined.
