(* ===== verification/Session.v ===== *)
(** * [twamp/src/twamp_common/session.rs]

    A session with one reflector: the packets sent, in order, with what came back for
    each, the next sequence number, and how many send timestamps have been corrected.
    The [RwLock] of the results is held only inside one operation; its guard is never
    poisoned in a model where a panic ends the run. *)
From stdpp Require Import base list option numbers strings sorting relations.
From Stdlib Require Import ZArith Lia SpecFloat.
From S2P Require Import Prelude Float64 Errors Time Net DataModel Messages Estimator.
Local Open Scope Z_scope.

Record Session := {
  rx_socket_address : SocketAddr;
  tx_socket_address : SocketAddr;
  seq_number : Z;
  results : list PacketResults;
  last_updated : nat
}.

Definition Session_new (rx tx : SocketAddr) : Session :=
  {| rx_socket_address := rx; tx_socket_address := tx; seq_number := 0; results := []; last_updated := 0 |}.

Definition with_results (s : Session) (r : list PacketResults) : Session :=
  {| rx_socket_address := rx_socket_address s; tx_socket_address := tx_socket_address s;
     seq_number := seq_number s; results := r; last_updated := last_updated s |}.

Definition set_t1 (p : PacketResults) (t : DateTime) : PacketResults :=
  {| sender_seq := sender_seq p; reflector_seq := reflector_seq p; t1 := t;
     t2 := t2 p; t3 := t3 p; t4 := t4 p |}.

(** What a response writes into the packet it answers. *)
Definition receive_into (p r : PacketResults) (t4 : DateTime) : PacketResults :=
  {| sender_seq := sender_seq p; reflector_seq := reflector_seq r; t1 := t1 p;
     t2 := t2 r; t3 := t3 r; t4 := Some t4 |}.

(** [iter_mut().find(..)] and the update of the element found. *)
Fixpoint update_first {A} (f : A -> bool) (g : A -> A) (l : list A) : list A :=
  match l with
  | [] => []
  | x :: l' => if f x then g x :: l' else x :: update_first f g l'
  end.

Definition same_seq (r p : PacketResults) : bool := sender_seq p =? sender_seq r.

(** [Iterator::chunks(n)] *)
Fixpoint chunks_fuel {A} (fuel n : nat) (l : list A) : list (list A) :=
  match fuel, l with
  | O, _ | _, [] => []
  | S fuel, _ => take n l :: chunks_fuel fuel n (drop n l)
  end.
Definition chunks {A} (n : nat) (l : list A) : list (list A) := chunks_fuel (length l) n l.

Section operations.
Context `{BuildProfile}.

Definition add_to_received {M} `{Message M} (self : Session) (message : M) (t4 : DateTime) : result Session :=
  r ← packet_results message;
  Ok (with_results self (update_first (same_seq r) (fun p => receive_into p r t4) (results self))).

(** [fetch_add] wraps in both profiles. *)
Definition add_to_sent {M} `{Message M} (self : Session) (message : M) : result Session :=
  r ← packet_results message;
  Ok {| rx_socket_address := rx_socket_address self; tx_socket_address := tx_socket_address self;
        seq_number := as_u 32 (seq_number self + 1); results := results self ++ [r];
        last_updated := last_updated self |}.

Definition get_latest_result (self : Session) : option TimestampsResult :=
  r ← last (results self);
  Some {| session := {| address := rx_socket_address self; packets := Some [r] |}; error := None |}.

(** The loop over the results not yet corrected; gives the results and how many changed. *)
Fixpoint update_loop (rs : list PacketResults) (timestamps : list DateTime)
    : result (list PacketResults * nat) :=
  match rs with
  | [] => Ok ([], O)
  | r :: rs' =>
      match timestamps with
      | [] => '(rs'', k) ← update_loop rs' []; Ok (r :: rs'', k)
      | ts :: timestamps' =>
          (* [delta] is only logged, but it is computed *)
          _ ← DateTime_sub ts (t1 r);
          '(rs'', k) ← update_loop rs' timestamps'; Ok (set_t1 r ts :: rs'', S k)
      end
  end.

Definition update_tx_timestamps (self : Session) (timestamps : list DateTime) : result Session :=
  '(rs, k) ← update_loop (drop (last_updated self) (results self)) timestamps;
  Ok {| rx_socket_address := rx_socket_address self; tx_socket_address := tx_socket_address self;
        seq_number := seq_number self; results := take (last_updated self) (results self) ++ rs;
        last_updated := last_updated self + k |}.

(** ** Packet loss *)

Record loss_state := {
  forward_loss : Z;
  total_loss : Z;
  last_successful : option (Z * option Z)  (* sender and reflector sequence numbers *)
}.

Definition loss_delta (last_sender last_reflector sender reflector : Z) : result Z :=
  d1 ← i_arith 32 (as_i 32 sender - as_i 32 last_sender);
  d2 ← i_arith 32 (as_i 32 reflector - as_i 32 last_reflector);
  i_arith 32 (d1 - d2).

Definition loss_step (st : loss_state) (current : PacketResults) : result loss_state :=
  match reflector_seq current with
  | None =>
      total ← i_arith 32 (total_loss st + 1);
      Ok {| forward_loss := forward_loss st; total_loss := total; last_successful := last_successful st |}
  | Some current_reflector_seq =>
      forward ← match last_successful st with
                | Some (last_sender_seq, Some last_reflector_seq) =>
                    delta ← loss_delta last_sender_seq last_reflector_seq
                                       (sender_seq current) current_reflector_seq;
                    if 0 <=? delta then i_arith 32 (forward_loss st + delta) else Ok (forward_loss st)
                | _ => Ok (forward_loss st)
                end;
      Ok {| forward_loss := forward; total_loss := total_loss st;
            last_successful := Some (sender_seq current, Some current_reflector_seq) |}
  end.

Fixpoint loss_loop (st : loss_state) (l : list PacketResults) : result loss_state :=
  match l with
  | [] => Ok st
  | p :: l' => st' ← loss_step st p; loss_loop st' l'
  end.

Definition seq_le (p q : PacketResults) : Prop := sender_seq p <= sender_seq q.
#[export] Instance seq_le_dec p q : Decision (seq_le p q).
Proof. unfold seq_le. apply _. Defined.

(** [sort_unstable_by_key]: the keys of a session are distinct, so the order is the sorted one. *)
Definition sort_by_seq (l : list PacketResults) : list PacketResults := merge_sort seq_le l.

(** (forward, backward, total) *)
Definition analyze_packet_loss (self : Session) : result (Z * Z * Z) :=
  let rs := sort_by_seq (results self) in
  let first_lost := match rs with p :: _ => bool_decide (reflector_seq p = None) | [] => false end in
  st ← loss_loop {| forward_loss := 0; total_loss := if first_lost then 1 else 0; last_successful := None |}
                 (drop 1 rs);
  backward ← i_arith 32 (total_loss st - forward_loss st);
  Ok (as_u 32 (forward_loss st), as_u 32 backward, as_u 32 (total_loss st)).

(** ** Clock offset *)

(** The sum of the estimates of the chunks, the clock read anew for each. *)
Fixpoint sum_estimates (ln : f64 -> f64) (fuel : nat) (clock : nat -> option Duration)
    (acc : f64) (chunks : list (list f64)) : result (option f64) :=
  match chunks with
  | [] => Ok (Some acc)
  | slice :: chunks' =>
      o ← estimate ln fuel (clock (length chunks')) slice;
      match o with
      | Some e => sum_estimates ln fuel clock (f64_add acc e) chunks'
      | None => Ok None
      end
  end.

(** The outer option is [None] while a sampler still loops. *)
Definition calculate_gamlr_offset (ln : f64 -> f64) (fuel : nat) (clock_f clock_b : nat -> option Duration)
    (forward_owd backward_owd : list f64) : result (option (option f64)) :=
  if (length forward_owd <? 5)%nat || (length backward_owd <? 5)%nat then Ok (Some None) else
  let f_chunks := filter (fun c => length c = 5%nat) (chunks 5 forward_owd) in
  let b_chunks := filter (fun c => length c = 5%nat) (chunks 5 backward_owd) in
  f ← sum_estimates ln fuel clock_f f64_zero f_chunks;
  match f with
  | None => Ok None
  | Some f_offset =>
      b ← sum_estimates ln fuel clock_b f64_zero b_chunks;
      match b with
      | None => Ok None
      | Some b_offset =>
          Ok (Some (Some ((f_offset / f64_len f_chunks - b_offset / f64_len b_chunks) / f64_two)%f64))
      end
  end.
End operations.

(** ** Lemmas *)

Lemma update_first_length {A} f g (l : list A) : length (update_first f g l) = length l.
Proof. induction l as [|x l IH]; [done|]. cbn. destruct (f x); cbn; by rewrite ?IH. Qed.

Lemma update_first_fmap {A B} (h : A -> B) f g l :
  (forall x, f x = true -> h (g x) = h x) -> h <$> update_first f g l = h <$> l.
Proof.
  intros Hg. induction l as [|x l IH]; [done|]. cbn. destruct (f x) eqn:E; cbn; [by rewrite Hg|by f_equal].
Qed.

Lemma update_first_Forall {A} (P : A -> Prop) f g l :
  (forall x, P x -> f x = true -> P (g x)) -> Forall P l -> Forall P (update_first f g l).
Proof.
  intros Hg. induction 1 as [|x l Hx Hl IH]; [constructor|]. cbn.
  destruct (f x) eqn:E; constructor; auto.
Qed.

Lemma update_first_none {A} f g (l : list A) : Forall (fun x => f x = false) l -> update_first f g l = l.
Proof. induction 1 as [|x l Hx _ IH]; [done|]. cbn. by rewrite Hx, IH. Qed.

(** With distinct keys, the first element with a key is the only one. *)
Lemma update_first_alter {A} (h : A -> Z) (k : Z) g l i x :
  NoDup (h <$> l) -> l !! i = Some x -> h x = k ->
  update_first (fun y => h y =? k) g l = <[i := g x]> l.
Proof.
  revert i. induction l as [|y l IH]; [done|]. intros [|i] Hnd Hi Hk; cbn in *.
  - injection Hi as ->. by rewrite (proj2 (Z.eqb_eq _ _) Hk).
  - apply NoDup_cons in Hnd as [Hy Hnd]. destruct (Z.eqb_spec (h y) k) as [He|_].
    + exfalso. apply Hy. rewrite He, <-Hk. apply list_elem_of_fmap_2. by eapply list_elem_of_lookup_2.
    + by rewrite (IH i).
Qed.

Lemma update_loop_spec `{BuildProfile} rs ts :
  Forall packet_u32 rs -> Forall datetime_u32 ts ->
  update_loop rs ts =
    Ok (zip_with set_t1 rs ts ++ drop (length ts) rs, Nat.min (length rs) (length ts)).
Proof.
  intros Hrs. revert ts. induction Hrs as [|r rs Hr Hrs IH]; intros ts Hts; [by destruct ts|].
  destruct Hts as [|ts tss Ht Hts]; cbn [update_loop].
  - rewrite (IH []) by constructor. cbn. by rewrite zip_with_nil_r, Nat.min_0_r, drop_0.
  - destruct Hr as (Hr & _). destruct (DateTime_sub_spec ts (t1 r) Ht Hr) as (i & -> & _).
    cbn [mbind outcome_bind]. by rewrite (IH tss).
Qed.

(** The invariant of a session the sender drives. *)
Record session_inv (s : Session) : Prop := {
  inv_seqs : sender_seq <$> results s = (fun i => as_u 32 (Z.of_nat i)) <$> seq 0 (length (results s));
  inv_seq_number : seq_number s = as_u 32 (Z.of_nat (length (results s)));
  inv_last_updated : (last_updated s <= length (results s))%nat;
  inv_packets : Forall packet_u32 (results s)
}.

(** What the three callbacks of the sender do to a session. *)
Inductive session_step `{BuildProfile} (s : Session) : Session -> Prop :=
  | step_sent (m : SenderMessage) s' : sequence_number m = seq_number s -> ntp_wf (timestamp_ m) ->
      add_to_sent s m = Ok s' -> session_step s s'
  | step_received (m : ReflectedMessage) t4 s' : reflected_wf m -> datetime_u32 t4 ->
      add_to_received s m t4 = Ok s' -> session_step s s'
  | step_corrected ts s' : Forall datetime_u32 ts ->
      update_tx_timestamps s ts = Ok s' -> session_step s s'.

Lemma reflected_results `{BuildProfile} m : reflected_wf m -> exists r,
  packet_results m = Ok r /\ sender_seq r = sender_sequence_number m /\
  reflector_seq r = Some (reflector_sequence_number m) /\ is_Some (t2 r) /\ is_Some (t3 r) /\ packet_u32 r.
Proof.
  intros (H3 & H2 & H1). unfold packet_results, ReflectedMessage_Message, unwrap_datetime, try_datetime.
  destruct (datetime_of_ntp_ok (E:=CommonError) _ H1) as (d1 & -> & ?).
  destruct (datetime_of_ntp_ok (E:=CommonError) _ H2) as (d2 & -> & ?).
  destruct (datetime_of_ntp_ok (E:=CommonError) _ H3) as (d3 & -> & ?).
  eexists. split; [done|]. cbn. unfold packet_u32. cbn. eauto 10.
Qed.

Lemma receive_into_u32 p r t4 : packet_u32 p -> packet_u32 r -> datetime_u32 t4 -> packet_u32 (receive_into p r t4).
Proof. intros (? & _) (_ & ? & ? & _) ?. unfold packet_u32. cbn. auto. Qed.

Lemma set_t1_u32 p t : packet_u32 p -> datetime_u32 t -> packet_u32 (set_t1 p t).
Proof. intros (_ & ? & ? & ?) ?. unfold packet_u32. cbn. auto. Qed.

Lemma add_to_sent_spec `{BuildProfile} s (m : SenderMessage) : ntp_wf (timestamp_ m) ->
  exists d, datetime_u32 d /\ add_to_sent s m = Ok
    {| rx_socket_address := rx_socket_address s; tx_socket_address := tx_socket_address s;
       seq_number := as_u 32 (seq_number s + 1);
       results := results s ++ [{| sender_seq := sequence_number m; reflector_seq := None; t1 := d;
                                   t2 := None; t3 := None; t4 := None |}];
       last_updated := last_updated s |}.
Proof.
  intros Hm. destruct (sender_results m Hm) as (d & _ & Hd & E). exists d. split; [done|].
  unfold add_to_sent. by rewrite E.
Qed.

Lemma add_to_received_spec `{BuildProfile} s (m : ReflectedMessage) t4 : reflected_wf m -> exists r,
  packet_results m = Ok r /\ sender_seq r = sender_sequence_number m /\ packet_u32 r /\
  add_to_received s m t4 =
    Ok (with_results s (update_first (same_seq r) (fun p => receive_into p r t4) (results s))).
Proof.
  intros Hm. destruct (reflected_results m Hm) as (r & E & ? & _ & _ & _ & ?). exists r.
  unfold add_to_received. by rewrite E.
Qed.

Lemma update_tx_spec `{BuildProfile} s ts : Forall packet_u32 (results s) -> Forall datetime_u32 ts ->
  update_tx_timestamps s ts = Ok
    {| rx_socket_address := rx_socket_address s; tx_socket_address := tx_socket_address s;
       seq_number := seq_number s;
       results := take (last_updated s) (results s) ++
         zip_with set_t1 (drop (last_updated s) (results s)) ts ++
         drop (last_updated s + length ts) (results s);
       last_updated := last_updated s + Nat.min (length (results s) - last_updated s) (length ts) |}.
Proof.
  intros Hp Hts. unfold update_tx_timestamps. rewrite update_loop_spec by (done || by apply Forall_drop).
  cbn. by rewrite drop_drop, length_drop.
Qed.

(** The packet at index [i] once the timestamps [ts] were delivered from index [u] on. *)
Definition corrected (u : nat) (ts : list DateTime) (i : nat) (p : PacketResults) : PacketResults :=
  if (i <? u)%nat then p else match ts !! (i - u)%nat with Some t => set_t1 p t | None => p end.

Lemma zip_set_t1_lookup rs ts j :
  (zip_with set_t1 rs ts ++ drop (length ts) rs) !! j = corrected 0 ts j <$> rs !! j.
Proof.
  unfold corrected. cbn. rewrite Nat.sub_0_r. revert ts j.
  induction rs as [|r rs IH]; intros [|t ts] [|j]; cbn; try done; first [apply IH | by destruct (rs !! j)].
Qed.

Lemma corrected_lookup u rs ts i : (u <= length rs)%nat ->
  (take u rs ++ zip_with set_t1 (drop u rs) ts ++ drop (u + length ts) rs) !! i = corrected u ts i <$> rs !! i.
Proof.
  intros Hu. rewrite <-drop_drop. assert (Hl : length (take u rs) = u) by (rewrite length_take; lia).
  destruct (Nat.lt_ge_cases i u) as [Hi|Hi].
  - rewrite lookup_app_l, lookup_take_lt by lia. unfold corrected.
    rewrite (proj2 (Nat.ltb_lt _ _) Hi). by destruct (rs !! i).
  - rewrite lookup_app_r, Hl, zip_set_t1_lookup, lookup_drop by lia. replace (u + (i - u))%nat with i by lia.
    unfold corrected. rewrite (proj2 (Nat.ltb_ge _ _) Hi). cbn. by rewrite Nat.sub_0_r.
Qed.

Lemma corrected_app u ts ts' i p :
  corrected (u + length ts) ts' i (corrected u ts i p) = corrected u (ts ++ ts') i p.
Proof.
  unfold corrected. destruct (Nat.ltb_spec i u), (Nat.ltb_spec i (u + length ts)); try lia; [done|..].
  - by rewrite lookup_app_l by lia.
  - rewrite lookup_app_r, (lookup_ge_None_2 ts) by lia. by replace (i - (u + length ts))%nat with (i - u - length ts)%nat by lia.
Qed.

Lemma update_tx_inv `{BuildProfile} s ts : Forall packet_u32 (results s) ->
  (last_updated s <= length (results s))%nat -> Forall datetime_u32 ts -> exists s',
    update_tx_timestamps s ts = Ok s' /\
    (forall i, results s' !! i = corrected (last_updated s) ts i <$> results s !! i) /\
    last_updated s' = Nat.min (length (results s)) (last_updated s + length ts) /\
    rx_socket_address s' = rx_socket_address s /\ tx_socket_address s' = tx_socket_address s /\
    seq_number s' = seq_number s /\ length (results s') = length (results s).
Proof.
  intros Hp Hu Ht. rewrite update_tx_spec by done. eexists. split; [done|]. cbn.
  split; [intros i; by apply corrected_lookup|]. split; [lia|]. do 3 (split; [done|]).
  rewrite !length_app, length_zip_with, !length_drop, length_take. lia.
Qed.

Lemma zip_set_t1_seq rs ts :
  sender_seq <$> (zip_with set_t1 rs ts ++ drop (length ts) rs) = sender_seq <$> rs.
Proof.
  revert ts. induction rs as [|r rs IH]; intros [|t ts]; [done..|]. cbn. f_equal. apply IH.
Qed.

Lemma seqs_snoc n x : x = as_u 32 (Z.of_nat n) ->
  ((fun i => as_u 32 (Z.of_nat i)) <$> seq 0 n) ++ [x] = (fun i => as_u 32 (Z.of_nat i)) <$> seq 0 (S n).
Proof. intros ->. by rewrite seq_S, fmap_app. Qed.

Lemma as_u_succ n : as_u 32 (as_u 32 (Z.of_nat n) + 1) = as_u 32 (Z.of_nat (S n)).
Proof. unfold as_u. rewrite Zplus_mod_idemp_l. f_equal. lia. Qed.

Lemma session_inv_sent `{BuildProfile} s (m : SenderMessage) s' :
  session_inv s -> sequence_number m = seq_number s -> ntp_wf (timestamp_ m) ->
  add_to_sent s m = Ok s' -> session_inv s'.
Proof.
  intros [Hs Hn Hl Hp] Hm Ht. destruct (add_to_sent_spec s m Ht) as (d & Hd & ->). intros [= <-].
  constructor; cbn [results seq_number last_updated]; rewrite ?length_app; cbn [length];
    rewrite ?Nat.add_1_r, ?Hn, ?as_u_succ; [|done|lia|].
  - rewrite fmap_app, Hs. cbn [fmap list_fmap sender_seq]. apply seqs_snoc. by rewrite Hm.
  - apply Forall_app. split; [done|]. constructor; [|done]. unfold packet_u32. by cbn.
Qed.

Lemma session_inv_received `{BuildProfile} s (m : ReflectedMessage) t4 s' :
  session_inv s -> reflected_wf m -> datetime_u32 t4 ->
  add_to_received s m t4 = Ok s' -> session_inv s'.
Proof.
  intros [Hs Hn Hl Hp] Hm Ht. destruct (add_to_received_spec s m t4 Hm) as (r & _ & _ & Hr & ->).
  intros [= <-]. constructor; cbn; rewrite ?update_first_length; [|done..|].
  - rewrite update_first_fmap; done.
  - apply update_first_Forall; [|done]. intros. by apply receive_into_u32.
Qed.

Lemma session_inv_corrected `{BuildProfile} s ts s' :
  session_inv s -> Forall datetime_u32 ts -> update_tx_timestamps s ts = Ok s' -> session_inv s'.
Proof.
  intros [Hs Hn Hl Hp] Ht. rewrite update_tx_spec by done. intros [= <-].
  set (u := last_updated s) in *.
  assert (Hseq : sender_seq <$> (take u (results s) ++
    zip_with set_t1 (drop u (results s)) ts ++ drop (u + length ts) (results s)) = sender_seq <$> results s).
  { rewrite fmap_app, <-drop_drop, zip_set_t1_seq, <-fmap_app. by rewrite take_drop. }
  pose proof (f_equal length Hseq) as Hlen. rewrite !length_fmap in Hlen.
  constructor; cbn [results seq_number last_updated]; rewrite ?Hlen, ?Hseq; [done..|lia|].
  apply Forall_app. split; [by apply Forall_take|]. apply Forall_app. split; [|by apply Forall_drop].
  apply (Forall_drop _ u) in Hp. clear -Hp Ht.
  revert ts Ht. induction Hp as [|p ps Hp _ IH]; intros ts Ht; [constructor|].
  destruct Ht; [constructor|]. constructor; [by apply set_t1_u32|by apply IH].
Qed.

(** ** Properties *)

(** C6: in every session the sender's callbacks can reach, whatever the reflector answers, the
    recorded packets are numbered 0, 1, 2, … in sending order (modulo 2^32), the next sequence
    number is the number of packets, no more timestamps were corrected than packets exist, and
    every recorded time has [u32] fields; and from there no operation fails or panics. *)
Theorem session_reachable_inv `{BuildProfile} rx tx s : rtc session_step (Session_new rx tx) s ->
  session_inv s /\
  (forall m : SenderMessage, ntp_wf (timestamp_ m) -> is_ok (add_to_sent s m) = true) /\
  (forall (m : ReflectedMessage) t4, reflected_wf m -> is_ok (add_to_received s m t4) = true) /\
  (forall ts, Forall datetime_u32 ts -> is_ok (update_tx_timestamps s ts) = true).
Proof.
  intros Hr. assert (Hinv : session_inv s).
  { revert Hr. apply (rtc_ind_r session_inv); [by constructor|].
    intros y z _ Hstep IH. destruct Hstep.
    - by eapply session_inv_sent.
    - by eapply session_inv_received.
    - by eapply session_inv_corrected. }
  split; [done|]. destruct Hinv as [_ _ _ Hp]. split; [|split].
  - intros m Hm. by destruct (add_to_sent_spec s m Hm) as (d & _ & ->).
  - intros m t4 Hm. by destruct (add_to_received_spec s m t4 Hm) as (r & _ & _ & _ & ->).
  - intros ts Hts. by rewrite update_tx_spec.
Qed.

Definition sample_addr : SocketAddr := SockV4 (Ipv4Addr_new 127 0 0 1) 862.
Definition sample_sent : SenderMessage :=
  SenderMessage_new 0 {| seconds := 3908988800; fraction := 0 |} (ErrorEstimate_new 1 0 1 1) [].

Example session_reachable_inv_witness : exists s,
  @add_to_sent _ (@SenderMessage_Message DEBUG) (Session_new sample_addr sample_addr) sample_sent = Ok s /\ session_inv s.
Proof.
  eexists. split; [vm_compute; reflexivity|].
  eapply (@session_reachable_inv DEBUG sample_addr sample_addr). apply rtc_once.
  apply (@step_sent DEBUG _ sample_sent); [reflexivity|unfold ntp_wf, in_u; cbn; lia|vm_compute; reflexivity].
Defined.

Lemma add_to_received_update `{BuildProfile} s (m : ReflectedMessage) t4 :
  session_inv s -> reflected_wf m -> Z.of_nat (length (results s)) <= 2 ^ 32 ->
  0 <= sender_sequence_number m ->
  exists r s', packet_results m = Ok r /\ add_to_received s m t4 = Ok s' /\
    seq_number s' = seq_number s /\ last_updated s' = last_updated s /\
    match results s !! Z.to_nat (sender_sequence_number m) with
    | Some p => results s' = <[Z.to_nat (sender_sequence_number m) := receive_into p r t4]> (results s)
    | None => results s' = results s
    end.
Proof.
  intros [Hs _ _ _] Hm Hlen Hk. destruct (add_to_received_spec s m t4 Hm) as (r & E & Hr & _ & ->).
  eexists r, _. split; [done|]. split; [done|]. split; [done|]. split; [done|]. cbn [results with_results].
  set (k := sender_sequence_number m) in *.
  assert (Hnth : forall i p, results s !! i = Some p -> sender_seq p = Z.of_nat i).
  { intros i p Hi. pose proof (lookup_lt_Some _ _ _ Hi).
    apply (f_equal (fun l => l !! i)) in Hs. rewrite !list_lookup_fmap, Hi, lookup_seq_lt in Hs by done.
    injection Hs as ->. apply as_u_small. unfold in_u. lia. }
  unfold same_seq. rewrite Hr. destruct (results s !! Z.to_nat k) as [p|] eqn:Hp.
  - apply (update_first_alter sender_seq k (fun p => receive_into p r t4)); [|done|by rewrite (Hnth _ _ Hp); lia].
    apply NoDup_alt. intros i j x Hi Hj. rewrite list_lookup_fmap in Hi, Hj.
    destruct (results s !! i) as [pi|] eqn:Ei; [|done]. destruct (results s !! j) as [pj|] eqn:Ej; [|done].
    cbn in Hi, Hj. rewrite (Hnth _ _ Ei) in Hi. rewrite (Hnth _ _ Ej) in Hj. simplify_eq. lia.
  - apply update_first_none. apply Forall_lookup_2. intros i p Hi. apply Z.eqb_neq.
    rewrite (Hnth _ _ Hi). intros Heq. rewrite <-Heq, Nat2Z.id, Hi in Hp. done.
Qed.

(** The time an NTP timestamp stands for: seconds of 1970, and the nearest nanosecond. *)
Definition time_of_ntp (t : NtpTimestamp) : DateTime := {|
  sec := (seconds t - NTP_EPOCH) mod 2 ^ 32; nanos := (fraction t * 10 ^ 9 + 2 ^ 31) / 2 ^ 32 |}.

Lemma reflected_results_exact `{BuildProfile} m : reflected_wf m -> packet_results m = Ok {|
  sender_seq := sender_sequence_number m; reflector_seq := Some (reflector_sequence_number m);
  t1 := time_of_ntp (sender_timestamp m); t2 := Some (time_of_ntp (receive_timestamp m));
  t3 := Some (time_of_ntp (rm_timestamp m)); t4 := None |}.
Proof.
  intros (H3 & H2 & H1). unfold packet_results, ReflectedMessage_Message, unwrap_datetime, try_datetime.
  by rewrite (datetime_of_ntp_spec (E:=CommonError) _ H1), (datetime_of_ntp_spec (E:=CommonError) _ H2), (datetime_of_ntp_spec (E:=CommonError) _ H3).
Qed.

(** C9: a response updates exactly the packet it answers: in a session of fewer than 2^32
    packets a well-formed response is always taken; the packet at index [k] of sequence number
    [k] keeps its own number and send time and takes the reflector's number, the time at which
    the probe reached the reflector as [t2], the one at which the answer left it as [t3] and
    the time of reception as [t4]; every other packet, the counter and the addresses are
    unchanged, and a response to a number never sent changes nothing. *)
Theorem add_to_received_exact `{BuildProfile} s (m : ReflectedMessage) time :
  session_inv s -> reflected_wf m -> Z.of_nat (length (results s)) <= 2 ^ 32 ->
  0 <= sender_sequence_number m ->
  let k := Z.to_nat (sender_sequence_number m) in
  exists s', add_to_received s m time = Ok s' /\
    seq_number s' = seq_number s /\ last_updated s' = last_updated s /\
    rx_socket_address s' = rx_socket_address s /\ tx_socket_address s' = tx_socket_address s /\
    match results s !! k with
    | None => s' = s
    | Some p => results s' = <[k := {| sender_seq := sender_seq p; reflector_seq := Some (reflector_sequence_number m);
        t1 := t1 p; t2 := Some (time_of_ntp (receive_timestamp m)); t3 := Some (time_of_ntp (rm_timestamp m)); t4 := Some time |}]> (results s)
    end.
Proof.
  intros Hs Hm Hl Hk k. destruct (add_to_received_update s m time Hs Hm Hl Hk) as (r & s' & E & E' & H1 & H2 & H3).
  rewrite (reflected_results_exact m Hm) in E. injection E as <-. exists s'. do 3 (split; [done|]).
  assert (Hr : exists rs, s' = with_results s rs).
  { unfold add_to_received in E'. rewrite (reflected_results_exact m Hm) in E'. injection E' as <-. by eexists. }
  destruct Hr as [rs ->]. do 2 (split; [done|]). fold k in H3. destruct (results s !! k) as [p|]; [done|].
  cbn in H3. subst rs. by destruct s.
Qed.

(** Of three packets the second is answered. *)
Definition sample_answer : ReflectedMessage := {|
  reflector_sequence_number := 4; rm_timestamp := {| seconds := 3908988803; fraction := 2147483648 |};
  rm_error_estimate := ErrorEstimate_new 1 0 1 1; rm_mbz1 := 0;
  receive_timestamp := {| seconds := 3908988802; fraction := 1073741824 |}; sender_sequence_number := 1;
  sender_timestamp := {| seconds := 3908988801; fraction := 0 |};
  sender_error_estimate := ErrorEstimate_new 1 0 1 1; rm_mbz2 := 0; sender_ttl := 255; rm_padding := [] |}.

Definition session_of (rs : list PacketResults) : Session := {|
  rx_socket_address := sample_addr; tx_socket_address := sample_addr;
  seq_number := as_u 32 (Z.of_nat (length rs)); results := rs; last_updated := 0 |}.
Definition sent_packet (k : Z) : PacketResults := {|
  sender_seq := k; reflector_seq := None; t1 := {| sec := 1700000000 + k; nanos := 0 |};
  t2 := None; t3 := None; t4 := None |}.

Lemma session_of_inv n : (n <= 100)%nat -> session_inv (session_of (sent_packet ∘ Z.of_nat <$> seq 0 n)).
Proof.
  intros Hn. constructor; cbn [results session_of seq_number last_updated].
  - rewrite length_fmap, length_seq, <-list_fmap_compose. apply list_fmap_ext. intros i x Hx. cbn.
    apply lookup_seq in Hx as [-> ?]. symmetry. apply as_u_small. unfold in_u. lia.
  - done.
  - lia.
  - apply Forall_fmap, Forall_seq. intros j Hj. unfold packet_u32, datetime_u32, in_u. cbn. lia.
Qed.

Example add_to_received_exact_witness : exists s',
  @add_to_received _ (@ReflectedMessage_Message DEBUG) (session_of (sent_packet <$> [0; 1; 2])) sample_answer
    {| sec := 1700000005; nanos := 6 |} = Ok s' /\
  results s' = [sent_packet 0; {| sender_seq := 1; reflector_seq := Some 4; t1 := {| sec := 1700000001; nanos := 0 |};
    t2 := Some {| sec := 1700000002; nanos := 250000000 |}; t3 := Some {| sec := 1700000003; nanos := 500000000 |};
    t4 := Some {| sec := 1700000005; nanos := 6 |} |}; sent_packet 2].
Proof.
  destruct (@add_to_received_exact DEBUG (session_of (sent_packet <$> [0; 1; 2])) sample_answer {| sec := 1700000005; nanos := 6 |})
    as (s' & E & _ & _ & _ & _ & Hr).
  - apply (session_of_inv 3). lia.
  - unfold reflected_wf, ntp_wf, in_u, sample_answer; cbn; lia.
  - cbn. lia.
  - cbn. lia.
  - exists s'. split; [exact E|]. etransitivity; [exact Hr|]. vm_compute. reflexivity.
Defined.

(** Corrections accumulate in order: correcting with one batch of timestamps and then
    with another is correcting once with both, so the packet at index [i] ends up with the
    [i]-th timestamp ever delivered, as long as no batch is longer than the packets waiting. *)
Theorem update_tx_timestamps_compose `{BuildProfile} s ts ts' :
  session_inv s -> Forall datetime_u32 ts -> Forall datetime_u32 ts' ->
  (last_updated s + length ts <= length (results s))%nat ->
  exists s', (s1 ← update_tx_timestamps s ts; update_tx_timestamps s1 ts') = Ok s' /\
    update_tx_timestamps s (ts ++ ts') = Ok s' /\
    last_updated s' = Nat.min (length (results s)) (last_updated s + length (ts ++ ts')) /\
    forall i, results s' !! i = corrected (last_updated s) (ts ++ ts') i <$> results s !! i.
Proof.
  intros Hinv Ht Ht' Hlen. destruct (Hinv) as [_ _ Hu Hp].
  destruct (update_tx_inv s ts Hp Hu Ht) as (s1 & E1 & L1 & U1 & R1 & T1 & N1 & Hlen1).
  destruct (session_inv_corrected s ts s1 Hinv Ht E1) as [_ _ Hu1 Hp1].
  destruct (update_tx_inv s1 ts' Hp1 Hu1 Ht') as (s2 & E2 & L2 & U2 & R2 & T2 & N2 & _).
  destruct (update_tx_inv s (ts ++ ts') Hp Hu) as (s3 & E3 & L3 & U3 & R3 & T3 & N3 & _); [by apply Forall_app|].
  rewrite E1. cbn [mbind outcome_bind]. exists s3. rewrite E2, E3, U3.
  split; [|by rewrite <-U3]. f_equal.
  assert (Hr : results s2 = results s3).
  { apply list_eq. intros i. rewrite L2, L3, U1, L1, <-option_fmap_compose.
    destruct (results s !! i) as [p|]; [|done]. cbn. f_equal.
    rewrite <-corrected_app. f_equal. lia. }
  rewrite length_app in U3. rewrite U1, Hlen1 in U2.
  destruct s2, s3. cbn in *. f_equal; try congruence. lia.
Qed.

Example update_tx_timestamps_compose_witness :
  let s := session_of (sent_packet ∘ Z.of_nat <$> seq 0 3) in
  let a := {| sec := 1700000000; nanos := 5 |} in
  let b := {| sec := 1700000001; nanos := 6 |} in
  exists s', (s1 ← @update_tx_timestamps DEBUG s [a]; @update_tx_timestamps DEBUG s1 [b]) = Ok s' /\
    @update_tx_timestamps DEBUG s [a; b] = Ok s' /\ last_updated s' = 2%nat.
Proof.
  intros s a b.
  destruct (@update_tx_timestamps_compose DEBUG s [a] [b]) as (s' & H1 & H2 & H3 & _).
  - apply session_of_inv. lia.
  - repeat constructor; cbn; lia.
  - repeat constructor; cbn; lia.
  - cbn. lia.
  - exists s'. split; [exact H1|]. split; [exact H2|exact H3].
Defined.

(** ** Loss *)

(** What happened to each packet, and the sequence numbers an orderly reflector leaves: it
    numbers the packets that reach it from [r] on. *)
Inductive fate := LostForward | LostBackward | Delivered.

Fixpoint honest (s r : Z) (l : list fate) : list (Z * option Z) :=
  match l with
  | [] => []
  | LostForward :: l' => (s, None) :: honest (s + 1) r l'
  | LostBackward :: l' => (s, None) :: honest (s + 1) (r + 1) l'
  | Delivered :: l' => (s, Some r) :: honest (s + 1) (r + 1) l'
  end.

Definition is_delivered (f : fate) : bool := match f with Delivered => true | _ => false end.
Definition is_lost_forward (f : fate) : bool := match f with LostForward => true | _ => false end.
Definition lost (l : list fate) : Z := Z.of_nat (length (filter (fun f => is_delivered f = false) l)).
Definition lost_forward (l : list fate) : Z := Z.of_nat (length (filter (fun f => is_lost_forward f = true) l)).

(** The packets lost on the way out with a delivered one before them ([before]: already
    seen) and a delivered one after them. *)
Fixpoint enclosed (before : bool) (l : list fate) : Z :=
  match l with
  | [] => 0
  | f :: l' => (if is_lost_forward f && before && existsb is_delivered l' then 1 else 0)
               + enclosed (before || is_delivered f) l'
  end.

Definition seqs_of (p : PacketResults) : Z * option Z := (sender_seq p, reflector_seq p).

Lemma enclosed_bounds b l : 0 <= enclosed b l <= Z.of_nat (length l).
Proof.
  revert b. induction l as [|f l IH]; intros b; cbn [enclosed length]; [lia|].
  specialize (IH (b || is_delivered f)). destruct (_ && _); lia.
Qed.

Lemma lost_cons f l : lost (f :: l) = (if is_delivered f then 0 else 1) + lost l.
Proof.
  unfold lost. rewrite filter_cons. case_decide as E; destruct f; try discriminate; try (by destruct E);
    cbn [is_delivered length]; lia.
Qed.
Lemma lost_bounds l : 0 <= lost l <= Z.of_nat (length l).
Proof. induction l as [|f l IH]; [done|]. rewrite lost_cons. cbn [length]. destruct (is_delivered f); lia. Qed.

(** The state after the packets before [s], [pending] of them lost forward since the last
    delivered one. *)
Definition loss_at (before : bool) (pending s r : Z) (st : loss_state) : Prop :=
  match last_successful st with
  | None => before = false
  | Some (ls, lr) => before = true /\ exists lr', lr = Some lr' /\
      0 <= ls < s /\ 0 <= lr' < r /\ 0 <= pending /\ s - 1 - ls = pending + (r - 1 - lr')
  end.

Lemma as_i_nat z : 0 <= z < 2 ^ 31 -> as_i 32 z = z.
Proof. intros Hz. apply as_i_small; [lia|]. unfold in_i. lia. Qed.

(** An answered packet adds those lost on the way out since the last answered one. *)
Lemma loss_step_delivered `{BuildProfile} p s r before pending st :
  loss_at before pending s r st -> sender_seq p = s -> reflector_seq p = Some r ->
  0 <= s < 2 ^ 31 -> 0 <= r < 2 ^ 31 -> 0 <= forward_loss st -> forward_loss st + (if before then pending else 0) <= s ->
  loss_step st p = Ok {| forward_loss := forward_loss st + (if before then pending else 0);
                         total_loss := total_loss st; last_successful := Some (s, Some r) |} /\
  0 <= forward_loss st + (if before then pending else 0).
Proof.
  intros Hst Hp1 Hp2 Hs Hr HF HFp. unfold loss_step, loss_at in *. rewrite Hp1, Hp2.
  destruct (last_successful st) as [[ls lr]|]; [|rewrite Hst, Z.add_0_r; split; [done|lia]].
  destruct Hst as (-> & lr' & -> & ? & ? & ? & ?). split; [|lia]. unfold loss_delta.
  rewrite !as_i_nat by lia. rewrite !i_arith_in by (unfold in_i; lia). cbn [mbind outcome_bind].
  rewrite i_arith_in by (unfold in_i; lia). cbn [mbind outcome_bind].
  rewrite (proj2 (Z.leb_le _ _)) by lia. rewrite i_arith_in by (unfold in_i; lia). cbn [mbind outcome_bind].
  repeat f_equal. lia.
Qed.

Lemma loss_loop_honest `{BuildProfile} l ps s r before pending st :
  seqs_of <$> ps = honest s r l -> loss_at before pending s r st ->
  0 <= s -> 0 <= r -> s + Z.of_nat (length l) < 2 ^ 31 -> r + Z.of_nat (length l) < 2 ^ 31 ->
  0 <= forward_loss st -> forward_loss st + (if before then pending else 0) <= s -> 0 <= total_loss st <= s ->
  exists st', loss_loop st ps = Ok st' /\
    forward_loss st' = forward_loss st + (if before && existsb is_delivered l then pending else 0) + enclosed before l /\
    total_loss st' = total_loss st + lost l.
Proof.
  revert ps s r before pending st. induction l as [|f l IH]; intros ps s r before pending st Hps Hst Hs Hr Hsl Hrl HF HFp HT.
  { destruct ps; [|done]. exists st. split; [done|]. cbn. rewrite andb_false_r. cbn. unfold lost. cbn. lia. }
  cbn [length] in *. rewrite lost_cons.
  assert (Hlost : forall p ps' pending' r', f <> Delivered -> seqs_of p = (s, None) ->
    seqs_of <$> ps' = honest (s + 1) r' l -> ps = p :: ps' ->
    r <= r' <= r + 1 -> pending' = (if is_lost_forward f then pending + 1 else pending) ->
    r' = (if is_lost_forward f then r else r + 1) -> exists st',
      loss_loop st ps = Ok st' /\
      forward_loss st' = forward_loss st + (if before && existsb is_delivered (f :: l) then pending else 0)
                         + enclosed before (f :: l) /\
      total_loss st' = total_loss st + ((if is_delivered f then 0 else 1) + lost l)).
  { intros p ps' pending' r' Hf Hp Hps' -> Hr' Hpend Hr''. unfold seqs_of in Hp. injection Hp as Hp1 Hp2.
    cbn [loss_loop]. unfold loss_step at 1. rewrite Hp2. rewrite i_arith_in by (unfold in_i; lia).
    cbn [mbind outcome_bind].
    edestruct (IH ps' (s + 1) r' before pending') as (st' & E & E1 & E2); [done|..|].
    9: { exists st'. split; [exact E|]. cbn [forward_loss total_loss] in E1, E2. rewrite E1, E2.
         split; [|destruct f; cbn; (done || lia)]. subst. destruct f; [| |done]; cbn.
         - rewrite orb_false_r. destruct before, (existsb is_delivered l); cbn; lia.
         - rewrite orb_false_r. destruct before, (existsb is_delivered l); cbn; lia. }
    all: cbn [forward_loss total_loss]; try lia.
    - unfold loss_at in *. cbn [last_successful]. destruct (last_successful st) as [[ls lr]|]; [|done].
      destruct Hst as (-> & lr' & -> & ? & ? & ? & ?). split; [done|]. exists lr'.
      subst. destruct (is_lost_forward f); repeat split; lia.
    - subst. destruct before, (is_lost_forward f); lia.
  }
  destruct f; cbn [honest] in Hps; destruct ps as [|p ps']; try discriminate; cbn in Hps; injection Hps as Hp1 Hp2 Hps'.
  - eapply (Hlost p ps'); [done|by unfold seqs_of; rewrite Hp1, Hp2|exact Hps'|done|lia|done|done].
  - eapply (Hlost p ps'); [done|by unfold seqs_of; rewrite Hp1, Hp2|exact Hps'|done|lia|done|done].
  - clear Hlost. cbn [loss_loop].
    destruct (loss_step_delivered p s r before pending st Hst Hp1 Hp2) as [-> HF']; try lia.
    set (F' := forward_loss st + (if before then pending else 0)) in *. cbn [mbind outcome_bind].
    edestruct (IH ps' (s + 1) (r + 1) true 0) as (st' & E & E1 & E2); [exact Hps'|..].
    9: { exists st'. split; [exact E|]. cbn [forward_loss total_loss] in E1, E2. rewrite E1, E2. subst F'.
         cbn. rewrite orb_true_r, andb_true_r. split; [|lia].
         destruct before, (existsb is_delivered l); cbn; lia. }
    all: cbn [forward_loss total_loss]; try lia.
    unfold loss_at. cbn [last_successful]. split; [done|]. exists r. repeat split; lia.
Qed.

#[export] Instance seq_le_trans : Transitive seq_le.
Proof. intros p q r. unfold seq_le. lia. Qed.
#[export] Instance seq_le_total : Total seq_le.
Proof. intros p q. unfold seq_le. lia. Qed.

Lemma honest_seqs l s r p : p ∈ honest s r l -> s <= p.1.
Proof.
  revert s r. induction l as [|f l IH]; intros s r; cbn; [by intros ?%not_elem_of_nil|].
  destruct f; intros [->|Hp]%elem_of_cons; cbn; try lia; specialize (IH _ _ Hp); lia.
Qed.

Lemma honest_sorted ps l s r : seqs_of <$> ps = honest s r l ->
  StronglySorted (fun p q => sender_seq p < sender_seq q) ps.
Proof.
  revert ps s r. induction l as [|f l IH]; intros [|p ps] s r; try discriminate; [by constructor|by destruct f|].
  intros Hps. assert (sender_seq p = s /\ exists r', seqs_of <$> ps = honest (s + 1) r' l) as [Hp [r' Hps']].
  { destruct f; cbn in Hps; injection Hps as ? ? ?; eauto. }
  constructor; [by eapply IH|]. apply Forall_forall. intros q Hq.
  pose proof (honest_seqs l (s + 1) r' (seqs_of q)) as Hle. cbn in Hle.
  specialize (Hle ltac:(rewrite <-Hps'; by apply list_elem_of_fmap_2)). lia.
Qed.

Lemma sort_by_seq_sorted ps qs : StronglySorted (fun p q => sender_seq p < sender_seq q) ps ->
  qs ≡ₚ ps -> sort_by_seq qs = ps.
Proof.
  intros Hs Hq.
  apply (StronglySorted_unique_strong seq_le).
  - intros x y Hx Hy. unfold sort_by_seq in Hx. rewrite (merge_sort_Permutation seq_le), Hq in Hx.
    clear -Hs Hx Hy. induction Hs as [|z l Hs IH Hz]; [by apply not_elem_of_nil in Hx|].
    rewrite Forall_forall in Hz. unfold seq_le in *. rewrite elem_of_cons in Hx, Hy.
    destruct Hx as [->|Hx], Hy as [->|Hy]; try done; [apply Hz in Hy; lia|apply Hz in Hx; lia|auto].
  - apply StronglySorted_merge_sort; apply _.
  - clear -Hs. induction Hs as [|z l Hs IH Hz]; constructor; [done|].
    eapply Forall_impl; [exact Hz|]. unfold seq_le. intros. cbn in *. lia.
  - etrans; [apply merge_sort_Permutation|done].
Qed.

Lemma analyze_honest `{BuildProfile} s ps r0 f fates :
  results s ≡ₚ ps -> seqs_of <$> ps = honest 0 r0 (f :: fates) -> 0 <= r0 ->
  r0 + Z.of_nat (length (f :: fates)) < 2 ^ 31 ->
  analyze_packet_loss s =
    Ok (enclosed false fates, lost (f :: fates) - enclosed false fates, lost (f :: fates)) /\
  0 <= enclosed false fates <= lost (f :: fates).
Proof.
  intros Hperm Hps Hr0 Hlen. unfold analyze_packet_loss. rewrite (sort_by_seq_sorted _ _ (honest_sorted _ _ _ _ Hps) Hperm).
  assert (Hel : forall b l, enclosed b l <= lost l).
  { intros b l. revert b. induction l as [|g l IH]; intros b; [done|]. cbn [enclosed]. rewrite lost_cons.
    specialize (IH (b || is_delivered g)). destruct g, b, (existsb is_delivered l); cbn in *; lia. }
  cbn [length] in Hlen. pose proof (enclosed_bounds false fates). pose proof (lost_bounds fates).
  pose proof (Hel false fates). rewrite !lost_cons.
  destruct ps as [|p ps]; [by destruct f|].
  assert (Hp : exists r', seqs_of <$> ps = honest 1 r' fates /\ r0 <= r' <= r0 + 1 /\
    bool_decide (reflector_seq p = None) = negb (is_delivered f)).
  { destruct f; cbn in Hps; injection Hps as Hp1 Hp2 Hps'; eexists; (split; [exact Hps'|]);
      (split; [lia|]); rewrite Hp2; by case_bool_decide. }
  destruct Hp as (r' & Hps' & Hr' & ->). change (drop 1 (p :: ps)) with ps.
  destruct (loss_loop_honest fates ps 1 r' false 0 {| forward_loss := 0;
    total_loss := if negb (is_delivered f) then 1 else 0; last_successful := None |})
    as (st' & -> & EF & ET); try done; cbn [forward_loss total_loss]; try lia; [by destruct f|].
  cbn [mbind outcome_bind]. cbn [forward_loss total_loss] in EF, ET. cbn in EF.
  rewrite EF, ET. assert (Hf : (if negb (is_delivered f) then 1 else 0) = if is_delivered f then 0 else 1) by by destruct f.
  rewrite Hf. rewrite i_arith_in by (unfold in_i; destruct (is_delivered f); lia). cbn [mbind outcome_bind].
  rewrite !as_u_small by (unfold in_u; destruct (is_delivered f); lia).
  split; [done|]. destruct (is_delivered f); lia.
Qed.

Lemma honest_fates_length r0 fates ps : seqs_of <$> ps = honest 0 r0 fates -> length ps = length fates.
Proof.
  intros H. apply (f_equal length) in H. rewrite length_fmap in H. rewrite H. clear. generalize 0.
  revert r0. induction fates as [|[] l IH]; intros r0 z; cbn; [done|f_equal; apply IH..].
Qed.

Lemma enclosed_all l : enclosed true (l ++ [Delivered]) = lost_forward l.
Proof.
  induction l as [|f l IH]; [done|]. cbn [app enclosed]. unfold lost_forward in *. rewrite filter_cons.
  rewrite orb_true_l, IH. rewrite existsb_app. cbn [existsb is_delivered orb]. rewrite orb_true_r, !andb_true_r.
  case_decide as E; destruct f; try discriminate; try (by destruct E); cbn [is_lost_forward length]; lia.
Qed.

Lemma enclosed_none k l : enclosed false (replicate k LostForward ++ Delivered :: l) = enclosed true l.
Proof. induction k as [|k IH]; [done|exact IH]. Qed.

(** When the first, the second and the last packet were answered, the report is exact. *)
Lemma analyze_exact `{BuildProfile} s r0 fates :
  seqs_of <$> results s = honest 0 r0 (Delivered :: Delivered :: fates ++ [Delivered]) -> 0 <= r0 ->
  r0 + Z.of_nat (length fates) + 3 < 2 ^ 31 ->
  analyze_packet_loss s = Ok (lost_forward fates, lost fates - lost_forward fates, lost fates).
Proof.
  intros Hs Hr Hl.
  destruct (analyze_honest s (results s) r0 Delivered (Delivered :: fates ++ [Delivered])) as [-> _];
    [done..|cbn [length]; rewrite length_app; cbn [length]; lia|].
  change (enclosed false (Delivered :: ?l)) with (enclosed true l).
  rewrite enclosed_all, !lost_cons. cbn [is_delivered].
  assert (lost (fates ++ [Delivered]) = lost fates) as Hlost.
  { clear. induction fates as [|f l IH]; [done|]. cbn [app]. by rewrite !lost_cons, IH. }
  rewrite Hlost. repeat f_equal; lia.
Qed.

(** ** Properties *)

(** C19: with a reflector that numbers what reaches it in order, the loss report of a session of
    fewer than 2^31 packets is: the total is the number of packets without an answer; forward
    loss counts, from the second packet on, the packets lost on the way out that have an
    answered packet before and after them; everything else lost is reported as backward loss.
    No arithmetic overflows, in either build profile. *)
Theorem analyze_packet_loss_spec `{BuildProfile} s ps r0 f fates :
  results s ≡ₚ ps -> seqs_of <$> ps = honest 0 r0 (f :: fates) -> 0 <= r0 ->
  r0 + Z.of_nat (length (f :: fates)) < 2 ^ 31 ->
  analyze_packet_loss s =
    Ok (enclosed false fates, lost (f :: fates) - enclosed false fates, lost (f :: fates)) /\
  0 <= enclosed false fates <= lost (f :: fates).
Proof. apply analyze_honest. Qed.

Definition answered (k r : Z) : PacketResults := {|
  sender_seq := k; reflector_seq := Some r; t1 := {| sec := 1700000000 + k; nanos := 0 |};
  t2 := Some {| sec := 1700000000 + k; nanos := 10 |}; t3 := Some {| sec := 1700000000 + k; nanos := 20 |};
  t4 := Some {| sec := 1700000000 + k; nanos := 30 |} |}.

Example analyze_packet_loss_spec_witness :
  @analyze_packet_loss DEBUG (session_of [answered 0 0; sent_packet 1; answered 2 1; sent_packet 3; answered 4 3])
    = Ok (0, 2, 2).
Proof.
  apply (@analyze_packet_loss_spec DEBUG _ [answered 0 0; sent_packet 1; answered 2 1; sent_packet 3; answered 4 3] 0
    Delivered [LostForward; Delivered; LostBackward; Delivered]); [reflexivity|reflexivity|lia|cbn; lia].
Defined.

(** Losses on the way out right after the first packet are reported as backward losses:
    the loop starts at the second packet and never records the first one as answered. *)
Theorem analyze_packet_loss_first `{BuildProfile} s r0 k :
  seqs_of <$> results s = honest 0 r0 (Delivered :: replicate k LostForward ++ [Delivered]) -> 0 <= r0 ->
  r0 + Z.of_nat k + 2 < 2 ^ 31 ->
  analyze_packet_loss s = Ok (0, Z.of_nat k, Z.of_nat k).
Proof.
  intros Hs Hr Hl.
  destruct (analyze_honest s (results s) r0 Delivered (replicate k LostForward ++ [Delivered])) as [-> _];
    [done..|cbn [length]; rewrite length_app, length_replicate; cbn [length]; lia|].
  rewrite enclosed_none, lost_cons. cbn [enclosed is_delivered].
  assert (lost (replicate k LostForward ++ [Delivered]) = Z.of_nat k) as ->.
  { clear. induction k as [|k IH]; [done|]. cbn [replicate app]. rewrite lost_cons, IH. cbn [is_delivered]. lia. }
  repeat f_equal; lia.
Qed.

Example analyze_packet_loss_first_witness :
  @analyze_packet_loss RELEASE (session_of [answered 0 0; sent_packet 1; sent_packet 2; answered 3 1]) = Ok (0, 2, 2).
Proof. apply (@analyze_packet_loss_first RELEASE _ 0 2); [reflexivity|lia|cbn; lia]. Defined.

(** When the reflector restarts its numbering during a test (its stale-session cleanup does
    that) no packet is lost, yet the report claims forward losses and a backward loss that is a
    negative number cast to [u32]. *)
Theorem analyze_packet_loss_restart `{BuildProfile} s p0 p1 p2 k r0 : 0 <= k < 2 ^ 31 - 1 ->
  results s = [p0; p1; p2] ->
  seqs_of <$> results s = [(0, Some r0); (1, Some k); (2, Some 0)] ->
  analyze_packet_loss s = Ok (k + 1, 2 ^ 32 - (k + 1), 0).
Proof.
  intros Hk Hs Hseq. rewrite Hs in Hseq. cbn in Hseq. unfold seqs_of in Hseq.
  injection Hseq as H0 R0 H1 R1 H2 R2. unfold analyze_packet_loss. rewrite Hs.
  assert (sort_by_seq [p0; p1; p2] = [p0; p1; p2]) as ->.
  { apply sort_by_seq_sorted; [|done]. repeat constructor; lia. }
  cbn [skipn loss_loop]. unfold loss_step. rewrite R0, R1, R2, H1, H2. cbn [mbind outcome_bind forward_loss total_loss last_successful].
  unfold loss_delta. rewrite !as_i_nat by lia. rewrite !i_arith_in by (unfold in_i; lia). cbn [mbind outcome_bind].
  rewrite i_arith_in by (unfold in_i; lia). cbn [mbind outcome_bind]. rewrite (proj2 (Z.leb_le _ _)) by lia.
  rewrite i_arith_in by (unfold in_i; lia). cbn [mbind outcome_bind forward_loss total_loss].
  rewrite bool_decide_false by done. rewrite i_arith_in by (unfold in_i; lia). cbn [mbind outcome_bind].
  rewrite (as_u_small 32 (0 + (2 - 1 - (0 - k)))), (as_u_small 32 0) by (unfold in_u; lia).
  replace (as_u 32 (0 - (0 + (2 - 1 - (0 - k))))) with (2 ^ 32 - (k + 1)); [by replace (0 + (2 - 1 - (0 - k))) with (k + 1) by lia|].
  unfold as_u. apply Z.mod_unique_pos with (-1); lia.
Qed.

Example analyze_packet_loss_restart_witness :
  @analyze_packet_loss DEBUG (session_of [answered 0 8; answered 1 9; answered 2 0]) = Ok (10, 4294967286, 0).
Proof. apply (@analyze_packet_loss_restart DEBUG _ (answered 0 8) (answered 1 9) (answered 2 0) 9 8); [lia|reflexivity|reflexivity]. Defined.
