(* ===== verification/Sockets.v ===== *)
(** * [network_commons/src/socket.rs], [udp_socket.rs], [tcp_socket.rs]

    The timestamped sockets over the C library.  The system calls are the interface
    [Libc]: each takes the state of the operating system and gives the call's result,
    [-1] being failure with [errno].  The operations keep the program's order of calls,
    its arguments (lengths included) and its error mapping. *)
From stdpp Require Import base list option numbers strings.
From Stdlib Require Import ZArith Lia.
From S2P Require Import Prelude Float64 Errors Time Net DataModel Messages.
Local Open Scope Z_scope.

Definition CMSG_SPACE_SIZE : Z := 128.
Definition DEFAULT_BUFFER_SIZE : Z := 4096.
Definition MAX_MSG : nat := 2.

(** Linux values of the C library's constants. *)
Definition SOCK_STREAM : Z := 1.
Definition SOCK_DGRAM : Z := 2.
Definition F_GETFL : Z := 3.
Definition F_SETFL : Z := 4.
Definition O_NONBLOCK : Z := 2048.
Definition O_CLOEXEC : Z := 524288.
Definition SOL_IP : Z := 0.
Definition IPPROTO_IP : Z := 0.
Definition IP_TOS : Z := 1.
Definition IP_RECVERR : Z := 11.
Definition IP_RECVTOS : Z := 13.
Definition SO_REUSEADDR : Z := 2.
Definition SO_TIMESTAMPING : Z := 37.
Definition SOF_TIMESTAMPING_TX_SOFTWARE : Z := 2.
Definition SOF_TIMESTAMPING_RX_SOFTWARE : Z := 8.
Definition SOF_TIMESTAMPING_SOFTWARE : Z := 16.
Definition MSG_ERRQUEUE : Z := 8192.
Definition MSG_NOSIGNAL : Z := 16384.

(** What [setsockopt] is given: a pointer to an [int] and a length, or an integer cast to a pointer. *)
Inductive optval := IntPtr (value len : Z) | RawPtr (address len : Z).

(** A message header: the name and its length, the lengths of the buffers it points to, how
    many buffers it claims, and the size of its control buffer. *)
Record msghdr := {
  msg_name : list Z;
  msg_namelen : Z;
  msg_iov : list Z;
  msg_iovlen : Z;
  msg_controllen : Z
}.

(** What a receive call leaves: the data, the memory the name pointer designates (and the stack
    above it), and the control messages. *)
Record datagram := {
  dg_bytes : list Z;
  dg_name : list Z;
  dg_stack : list Z;
  dg_cmsgs : list cmsghdr
}.

Class Libc (W : Type) := {
  sys_socket : Z -> Z -> W -> Z * W;
  sys_bind : Z -> list Z -> Z -> W -> Z * W;
  sys_connect : Z -> list Z -> Z -> W -> Z * W;
  sys_listen : Z -> Z -> W -> Z * W;
  sys_accept : Z -> W -> (Z * (list Z * list Z)) * W;
  sys_getpeername : Z -> W -> (Z * (list Z * list Z)) * W;
  sys_setsockopt : Z -> Z -> Z -> optval -> W -> Z * W;
  sys_fcntl : Z -> Z -> Z -> W -> Z * W;
  sys_close : Z -> W -> Z * W;
  sys_send : Z -> list Z -> Z -> W -> Z * W;
  sys_sendmsg : Z -> msghdr -> list Z -> W -> Z * W;
  sys_recv : Z -> Z -> Z -> W -> (Z * list Z) * W;
  sys_recvmsg : Z -> msghdr -> Z -> W -> (Z * datagram) * W;
  sys_recvmmsg : Z -> list msghdr -> Z -> Z -> W -> (Z * list datagram) * W;
  sys_clock : W -> timespec * W;
  last_errno : W -> Z;
  strerror : Z -> string
}.

(** A state of which the operating system is a part: a call acts on that part. *)
Definition on_part {S W A} (get : S -> W) (put : W -> S -> S) (f : W -> A * W) (s : S) : A * S :=
  let '(a, w) := f (get s) in (a, put w s).

Definition part_libc {S W} `{Libc W} (get : S -> W) (put : W -> S -> S) : Libc S := {|
  sys_socket d t := on_part get put (sys_socket d t);
  sys_bind fd a n := on_part get put (sys_bind fd a n);
  sys_connect fd a n := on_part get put (sys_connect fd a n);
  sys_listen fd b := on_part get put (sys_listen fd b);
  sys_accept fd := on_part get put (sys_accept fd);
  sys_getpeername fd := on_part get put (sys_getpeername fd);
  sys_setsockopt fd l n v := on_part get put (sys_setsockopt fd l n v);
  sys_fcntl fd c a := on_part get put (sys_fcntl fd c a);
  sys_close fd := on_part get put (sys_close fd);
  sys_send fd d f := on_part get put (sys_send fd d f);
  sys_sendmsg fd h d := on_part get put (sys_sendmsg fd h d);
  sys_recv fd n f := on_part get put (sys_recv fd n f);
  sys_recvmsg fd h f := on_part get put (sys_recvmsg fd h f);
  sys_recvmmsg fd h n f := on_part get put (sys_recvmmsg fd h n f);
  sys_clock := on_part get put sys_clock;
  last_errno s := last_errno (get s);
  strerror := strerror (W:=W)
|}.

(** A received prefix written into a buffer. *)
Definition write_buffer (buffer data : list Z) : list Z := data ++ drop (length data) buffer.

Section sockets.
Context {W : Type} `{Libc W, HostEndian}.

#[local] Abbreviation io := (op W CommonError).

Definition last_os_error : io io_error := gets (fun w => os_error (last_errno w)).

(** [libc_call!]: on [-1] the enclosing function returns an I/O error that carries the
    text of the system's error. *)
Definition libc_call (f : W -> Z * W) : io Z :=
  result ← effect f;
  if result =? -1 then
    errno ← gets last_errno; fail (from_io (custom_io_error (strerror errno)))
  else mret result.

(** [DateTime::utc_now] *)
Definition now : io DateTime := ts ← effect sys_clock; mret (from_timespec ts).

(** ** The [Socket] trait's provided methods *)

(** The length is that of an [Option<i32>]: eight bytes. *)
Definition set_socket_options (fd level name : Z) (value : option Z) : io Z :=
  libc_call (sys_setsockopt fd level name (IntPtr (default 0 value) 8)).

Definition set_fcntl_options (fd : Z) : io Z :=
  flags ← libc_call (sys_fcntl fd F_GETFL 0);
  let new_flags := Z.lor (Z.lor flags O_NONBLOCK) O_CLOEXEC in
  libc_call (sys_fcntl fd F_SETFL new_flags).

Definition set_timestamping_options (fd : Z) : io Z :=
  let value := Z.lor (Z.lor SOF_TIMESTAMPING_SOFTWARE SOF_TIMESTAMPING_RX_SOFTWARE)
                     SOF_TIMESTAMPING_TX_SOFTWARE in
  set_socket_options fd SOL_SOCKET SO_TIMESTAMPING (Some value).

(** [msg_iovlen] is the size in bytes of one [iovec], although the header has one buffer. *)
Definition to_msghdr (bytes_len : Z) (address : SocketAddr) : msghdr :=
  let '(sockaddr, _) := socketaddr_to_sockaddr address in
  {| msg_name := sockaddr; msg_namelen := 16; msg_iov := [bytes_len]; msg_iovlen := 16;
     msg_controllen := CMSG_SPACE_SIZE |}.
Definition zero_msghdr : msghdr :=
  {| msg_name := []; msg_namelen := 0; msg_iov := []; msg_iovlen := 0; msg_controllen := 0 |}.

(** ** [TimestampedUdpSocket] *)

Record TimestampedUdpSocket := UdpSocket_new { udp_inner : Z }.

Definition socket_domain (addr : SocketAddr) : Z :=
  match addr with SockV4 _ _ => AF_INET | SockV6 _ _ _ _ => AF_INET6 end.

Definition UdpSocket_bind (addr : SocketAddr) : io TimestampedUdpSocket :=
  socket_fd ← effect (sys_socket (socket_domain addr) SOCK_DGRAM);
  if socket_fd <? 0 then e ← last_os_error; fail (SocketCreateFailed e) else
  let '(sock_addr, sock_addr_len) := socketaddr_to_sockaddr addr in
  r ← effect (sys_bind socket_fd sock_addr sock_addr_len);
  if r <? 0 then e ← last_os_error; fail (SocketBindFailed e) else
  mret (UdpSocket_new socket_fd).

(** [Drop] *)
Definition UdpSocket_drop (self : TimestampedUdpSocket) : io () := _ ← effect (sys_close (udp_inner self)); mret ().

Definition UdpSocket_connect (self : TimestampedUdpSocket) (address : SocketAddr) : io Z :=
  let '(addr, len) := socketaddr_to_sockaddr address in
  libc_call (sys_connect (udp_inner self) addr len).

Definition UdpSocket_send {T} `{BeBytes T} (self : TimestampedUdpSocket) (buffer : T) : io (Z * DateTime) :=
  let data := to_be_bytes buffer in
  timestamp ← now;
  result ← libc_call (sys_send (udp_inner self) data 0);
  mret (result, timestamp).

(** The result of [sendmsg] is returned unchecked. *)
Definition UdpSocket_send_to {T} `{BeBytes T} (self : TimestampedUdpSocket) (address : SocketAddr) (message : T)
    : io (Z * DateTime) :=
  let bytes := to_be_bytes message in
  let '(sock_addr, _) := socketaddr_to_sockaddr address in
  let msg := {| msg_name := sock_addr; msg_namelen := 16; msg_iov := [Z.of_nat (length bytes)];
                msg_iovlen := 1; msg_controllen := 0 |} in
  utc_now ← now;
  result ← effect (sys_sendmsg (udp_inner self) msg bytes);
  mret (result, utc_now).

Definition UdpSocket_receive (self : TimestampedUdpSocket) (buffer : list Z) : io (list Z * Z * DateTime) :=
  lift (Panic (Unimplemented "")).

(** The buffer after the call, the byte count, the sender and the time of reception. *)
Definition UdpSocket_receive_from (self : TimestampedUdpSocket) (buffer : list Z)
    : io (list Z * Z * SocketAddr * DateTime) :=
  let msg := {| msg_name := replicate 128 0; msg_namelen := 128; msg_iov := [Z.of_nat (length buffer)];
                msg_iovlen := 1; msg_controllen := 64 |} in
  timestamp ← now;
  '(n, dg) ← effect (sys_recvmsg (udp_inner self) msg 0);
  if n <? 0 then e ← last_os_error; fail (Io e) else
  socket_addr ← lift (storage_to_socket_addr (dg_name dg) (dg_stack dg));
  let timestamp := match retrieve_data_from_header (dg_cmsgs dg) with
                   | Ok date_time => date_time
                   | _ => timestamp
                   end in
  mret (write_buffer buffer (dg_bytes dg), n, socket_addr, timestamp).

Definition recvmmsg_timestamped (fd : Z) (msg_hdrs : list msghdr) (num_messages : Z)
    : io (DateTime * Z * list datagram) :=
  timestamp ← now;
  '(result, dgs) ← effect (sys_recvmmsg fd msg_hdrs num_messages 0);
  if result <? 0 then e ← last_os_error; fail (from_io e) else
  (* [msg_hdrs[0]] is read for the log *)
  match msg_hdrs with
  | [] => lift (Panic IndexOutOfBounds)
  | _ => mret (timestamp, result, dgs)
  end.

(** The timestamp of a message without one is that of the message before it. *)
Fixpoint received_data (timestamp : DateTime) (dgs : list datagram) : io (list (Z * SocketAddr * DateTime)) :=
  match dgs with
  | [] => mret []
  | dg :: dgs' =>
      socket_addr ← lift (storage_to_socket_addr (dg_name dg) (dg_stack dg));
      let timestamp := match retrieve_data_from_header (dg_cmsgs dg) with
                       | Ok datetime => datetime
                       | _ => timestamp
                       end in
      rest ← received_data timestamp dgs';
      mret ((Z.of_nat (length (dg_bytes dg)), socket_addr, timestamp) :: rest)
  end.

Definition receive_from_multiple (self : TimestampedUdpSocket) (n_buffers : nat) (num_messages : Z)
    : io (list (Z * SocketAddr * DateTime)) :=
  let hdr := {| msg_name := replicate 32 0; msg_namelen := 32; msg_iov := [DEFAULT_BUFFER_SIZE];
                msg_iovlen := 16; msg_controllen := CMSG_SPACE_SIZE |} in
  if (n_buffers =? 0)%nat then lift (Panic IndexOutOfBounds) else
  '(timestamp, result, dgs) ← recvmmsg_timestamped (udp_inner self) (replicate n_buffers hdr) num_messages;
  received_data timestamp (take (Z.to_nat result) dgs).

(** Every header is searched, received or not; those without a timestamp are skipped. *)
Definition retrieve_tx_timestamps (self : TimestampedUdpSocket) (addresses : list SocketAddr) : io (list DateTime) :=
  hdrs ← lift (init_vec_of_mmsghdr MAX_MSG MAX_MSG addresses);
  let msgvec := (fun o => match o with
                          | Some a => to_msghdr DEFAULT_BUFFER_SIZE a
                          | None => zero_msghdr
                          end) <$> hdrs in
  '(res, dgs) ← effect (sys_recvmmsg (udp_inner self) msgvec (Z.of_nat (length msgvec)) MSG_ERRQUEUE);
  if 0 <=? res then
    mret (omap (fun dg => ok_option (retrieve_data_from_header (dg_cmsgs dg))) dgs)
  else e ← last_os_error; fail (Io e).

(** The address is decoded before the result of the call is looked at. *)
Definition retrieve_tx_timestamp (self : TimestampedUdpSocket) : io (Z * SocketAddr * DateTime) :=
  let msgh := to_msghdr DEFAULT_BUFFER_SIZE (SockV4 (Ipv4Addr_new 0 0 0 0) 0) in
  '(res, dg) ← effect (sys_recvmsg (udp_inner self) msgh MSG_ERRQUEUE);
  socket_addr ← lift (storage_to_socket_addr (dg_name dg) (dg_stack dg));
  if 0 <=? res then
    datetime ← lift (retrieve_data_from_header (dg_cmsgs dg));
    mret (res, socket_addr, datetime)
  else e ← last_os_error; fail (Io e).

(** ** [TimestampedTcpSocket] *)

Record TimestampedTcpSocket := TcpSocket { tcp_inner : Z }.

(** The option value is the address [1], not a pointer to one; the result is ignored. *)
Definition TcpSocket_new (socket : Z) : io TimestampedTcpSocket :=
  _ ← effect (sys_setsockopt socket SOL_SOCKET SO_REUSEADDR (RawPtr 1 4));
  mret (TcpSocket socket).

Definition TcpSocket_drop (self : TimestampedTcpSocket) : io () := _ ← effect (sys_close (tcp_inner self)); mret ().

Definition TcpSocket_bind (addr : SocketAddr) : io TimestampedTcpSocket :=
  socket_fd ← effect (sys_socket (socket_domain addr) SOCK_STREAM);
  if socket_fd <? 0 then e ← last_os_error; fail (SocketCreateFailed e) else
  let '(sock_addr, sock_addr_len) := socketaddr_to_sockaddr addr in
  r ← effect (sys_bind socket_fd sock_addr sock_addr_len);
  if r <? 0 then e ← last_os_error; fail (SocketBindFailed e) else
  mret (TcpSocket socket_fd).

Definition TcpSocket_listen (self : TimestampedTcpSocket) (backlog : Z) : io () :=
  r ← effect (sys_listen (tcp_inner self) backlog);
  if r <? 0 then e ← last_os_error; fail (SocketListenFailed e) else mret ().

Definition TcpSocket_accept (self : TimestampedTcpSocket) : io (TimestampedTcpSocket * SocketAddr) :=
  '(new_socket_fd, (storage, stack)) ← effect (sys_accept (tcp_inner self));
  if new_socket_fd <? 0 then e ← last_os_error; fail (SocketAcceptFailed e) else
  client_addr ← lift (storage_to_socket_addr storage stack);
  mret (TcpSocket new_socket_fd, client_addr).

Definition TcpSocket_connect (self : TimestampedTcpSocket) (addr : SocketAddr) : io Z :=
  let socket_fd := tcp_inner self in
  if socket_fd <? 0 then e ← last_os_error; fail (SocketCreateFailed e) else
  let '(sock_addr, sock_addr_len) := socketaddr_to_sockaddr addr in
  result ← effect (sys_connect socket_fd sock_addr sock_addr_len);
  if result <? 0 then
    e ← last_os_error; _ ← effect (sys_close socket_fd); fail (SocketConnectFailed e)
  else mret result.

Definition TcpSocket_send {T} `{BeBytes T} (self : TimestampedTcpSocket) (message : T) : io (Z * DateTime) :=
  let bytes := to_be_bytes message in
  timestamp ← now;
  result ← effect (sys_send (tcp_inner self) bytes MSG_NOSIGNAL);
  if result <? 0 then e ← last_os_error; fail (from_io e) else mret (result, timestamp).

Definition TcpSocket_send_to {T} `{BeBytes T} (self : TimestampedTcpSocket) (_address : SocketAddr) (message : T)
    : io (Z * DateTime) := TcpSocket_send self message.

Definition TcpSocket_receive (self : TimestampedTcpSocket) (buffer : list Z) : io (list Z * Z * DateTime) :=
  timestamp ← now;
  '(result, data) ← effect (sys_recv (tcp_inner self) (Z.of_nat (length buffer)) MSG_NOSIGNAL);
  if result <? 0 then e ← last_os_error; fail (from_io e) else
  mret (write_buffer buffer data, result, timestamp).

Definition TcpSocket_receive_from (self : TimestampedTcpSocket) (buffer : list Z)
    : io (list Z * Z * SocketAddr * DateTime) :=
  '(buffer, result, timestamp) ← TcpSocket_receive self buffer;
  '(r, (storage, stack)) ← effect (sys_getpeername (tcp_inner self));
  if r =? -1 then e ← last_os_error; fail (SocketGetPeerName e) else
  peer_address ← lift (storage_to_socket_addr storage stack);
  mret (buffer, result, peer_address, timestamp).
End sockets.

(** ** What receiving promises *)

(** [recvmsg] stays within the one buffer it is given, and what it writes there are octets. *)
Class ReceiveFits (W : Type) `{Libc W} : Prop := recvmsg_fits : forall fd hdr flags len (w : W), 0 <= len -> msg_iov hdr = [len] ->
  let r := (sys_recvmsg fd hdr flags w).1 in
  r.1 <= len /\ Z.of_nat (length (dg_bytes r.2)) <= len /\ Forall byte_ok (dg_bytes r.2).

#[export] Instance part_receive {S W} `{LC : Libc W, !ReceiveFits W} (get : S -> W) (put : W -> S -> S) :
  ReceiveFits S (H:=part_libc get put).
Proof.
  intros fd hdr flags len s Hlen E. cbn. unfold on_part. pose proof (recvmsg_fits fd hdr flags len (get s) Hlen E) as Hr.
  by destruct (sys_recvmsg fd hdr flags (get s)) as [[]].
Qed.

Lemma length_write_buffer buffer data : (length data <= length buffer)%nat -> length (write_buffer buffer data) = length buffer.
Proof. intros Hl. unfold write_buffer. rewrite length_app, length_drop. lia. Qed.
Lemma write_buffer_octets buffer data : Forall byte_ok buffer -> Forall byte_ok data -> Forall byte_ok (write_buffer buffer data).
Proof. intros Hb Hd. apply Forall_app. split; [done|]. by apply Forall_drop. Qed.

(** A kernel timestamp has [u32] fields. *)
Lemma from_timespec_u32 ts : datetime_u32 (from_timespec ts).
Proof. unfold datetime_u32, from_timespec. cbn [sec nanos]. split; apply as_u_range; lia. Qed.
Lemma retrieve_u32 cmsgs d : retrieve_data_from_header cmsgs = Ok d -> datetime_u32 d.
Proof.
  unfold retrieve_data_from_header. 
  assert (forall acc, (forall d', acc = Ok d' -> datetime_u32 d') -> retrieve_loop cmsgs acc = Ok d -> datetime_u32 d) as Hloop.
  { induction cmsgs as [|c cs IH]; intros acc Hacc; cbn [retrieve_loop]; [by apply Hacc|]. apply IH. intros d2.
    case_match; [|apply Hacc]. case_match; [done|]. intros [= <-]. apply from_timespec_u32. }
  by apply Hloop.
Qed.

(** Receiving into a buffer fails or keeps it a buffer of octets; it never panics, and the time is one of
    [u32] fields. *)
Lemma receive_from_fits {W} `{Libc W, HostEndian, !ReceiveFits W} self buffer (w : W) : Forall byte_ok buffer ->
  (exists e w', UdpSocket_receive_from self buffer w = (Err e, w')) \/
  exists buffer' n addr t w', UdpSocket_receive_from self buffer w = (Ok (buffer', n, addr, t), w') /\
    n <= Z.of_nat (length buffer) /\ length buffer' = length buffer /\ Forall byte_ok buffer' /\ datetime_u32 t.
Proof.
  intros Hb. unfold UdpSocket_receive_from, now. run_op.
  pose proof (from_timespec_u32 (sys_clock w).1) as Ht. set (t0 := from_timespec _) in *. set (w1 := (sys_clock w).2).
  match goal with |- context [sys_recvmsg ?fd ?h 0 w1] =>
    pose proof (recvmsg_fits fd h 0 (Z.of_nat (length buffer)) w1 ltac:(lia) eq_refl) as (Hn & Hl & Hok);
    destruct (sys_recvmsg fd h 0 w1) as [[n dg] w2] end. cbn [fst snd] in *.
  destruct (n <? 0); [left; unfold last_os_error; run_op; by do 2 eexists|].
  assert (Htime : datetime_u32 match retrieve_data_from_header (dg_cmsgs dg) with Ok d => d | _ => t0 end).
  { destruct (retrieve_data_from_header (dg_cmsgs dg)) as [d|e|p] eqn:E; [|done..]. by eapply retrieve_u32. }
  unfold storage_to_socket_addr. destruct (_ =? _); [|destruct (_ =? _)].
  - match goal with |- context [be_bytes 4 ?z] =>
      pose proof (be_bytes_length 4 z); destruct (be_bytes 4 z) as [|? [|? [|? [|? []]]]]; try discriminate end.
    run_op. right. do 5 eexists. split; [reflexivity|]. split_and!; [done|apply length_write_buffer; lia|by apply write_buffer_octets|done].
  - run_op. right. do 5 eexists. split; [reflexivity|]. split_and!; [done|apply length_write_buffer; lia|by apply write_buffer_octets|done].
  - left. by do 2 eexists.
Qed.

(** ** The option calls leave alone what does not depend on the operating system *)

Section part.
Context {S W : Type} `{LC : Libc W} (get : S -> W) (put : W -> S -> S).
Variable P : S -> Prop.
Hypothesis put_P : forall w s, P s -> P (put w s).

Lemma preserves_on_part {A} (f : W -> A * W) : preserves (E:=CommonError) P (effect (on_part get put f)).
Proof using put_P. apply preserves_effect. intros s Hs. unfold on_part. destruct (f (get s)). by apply put_P. Qed.

Lemma preserves_libc_call f : preserves P (libc_call (H:=part_libc get put) (on_part get put f)).
Proof using put_P.
  unfold libc_call. apply preserves_bind; [apply preserves_on_part|]. intros r. case_match; [|apply preserves_ret].
  apply preserves_bind; [apply preserves_gets|]. intros e. apply preserves_fail.
Qed.

Lemma preserves_fcntl_options fd : preserves P (set_fcntl_options (H:=part_libc get put) fd).
Proof using put_P. apply preserves_bind; [apply preserves_libc_call|]. intros f. apply preserves_libc_call. Qed.

Lemma preserves_timestamping_options fd : preserves P (set_timestamping_options (H:=part_libc get put) fd).
Proof using put_P. apply preserves_libc_call. Qed.
End part.


(** ** A scripted operating system

    Every call takes its result from a script and is logged; it makes the operations
    executable and the hypotheses on system calls concrete. *)
Inductive call :=
  | CSocket (domain type : Z) | CBind (fd : Z) | CConnect (fd : Z) | CListen (fd : Z) | CAccept (fd : Z)
  | CGetpeername (fd : Z) | CSetsockopt (fd level name : Z) (v : optval) | CFcntl (fd cmd arg : Z)
  | CClose (fd : Z) | CSend (fd : Z) (data : list Z) | CSendmsg (fd : Z) (h : msghdr) (data : list Z)
  | CRecv (fd : Z) | CRecvmsg (fd : Z) | CRecvmmsg (fd : Z).

Record scripted := { script : list Z; datagrams : list datagram; errno_ : Z; calls : list call }.

Definition empty_datagram : datagram := {| dg_bytes := []; dg_name := []; dg_stack := []; dg_cmsgs := [] |}.

Definition step_call (c : call) (w : scripted) : Z * scripted :=
  (default 0 (head (script w)),
   {| script := tail (script w); datagrams := datagrams w; errno_ := errno_ w;
      calls := calls w ++ [c] |}).
Definition step_datagram (c : call) (w : scripted) : (Z * datagram) * scripted :=
  let '(r, w') := step_call c w in
  ((r, default empty_datagram (head (datagrams w))),
   {| script := script w'; datagrams := tail (datagrams w); errno_ := errno_ w';
      calls := calls w' |}).

Module Scripted.
#[export] Instance scripted_libc : Libc scripted := {
  sys_socket d t := step_call (CSocket d t);
  sys_bind fd _ _ := step_call (CBind fd);
  sys_connect fd _ _ := step_call (CConnect fd);
  sys_listen fd _ := step_call (CListen fd);
  sys_accept fd w := let '((r, dg), w') := step_datagram (CAccept fd) w in ((r, (dg_name dg, dg_stack dg)), w');
  sys_getpeername fd w :=
    let '((r, dg), w') := step_datagram (CGetpeername fd) w in ((r, (dg_name dg, dg_stack dg)), w');
  sys_setsockopt fd l n v := step_call (CSetsockopt fd l n v);
  sys_fcntl fd c a := step_call (CFcntl fd c a);
  sys_close fd := step_call (CClose fd);
  sys_send fd data _ := step_call (CSend fd data);
  sys_sendmsg fd h data := step_call (CSendmsg fd h data);
  sys_recv fd _ _ w := let '((r, dg), w') := step_datagram (CRecv fd) w in ((r, dg_bytes dg), w');
  sys_recvmsg fd _ _ := step_datagram (CRecvmsg fd);
  sys_recvmmsg fd hdrs _ _ w :=
    let '(r, w') := step_call (CRecvmmsg fd) w in
    ((r, take (length hdrs) (datagrams w)),
     {| script := script w'; datagrams := drop (length hdrs) (datagrams w); errno_ := errno_ w';
        calls := calls w' |});
  sys_clock w := ({| tv_sec := 1700000000; tv_nsec := 5 |}, w);
  last_errno := errno_;
  strerror _ := "error"%string
}.
End Scripted.
Import Scripted.

Definition scripted_of (results : list Z) (dgs : list datagram) : scripted :=
  {| script := results; datagrams := dgs; errno_ := 98; calls := [] |}.

(** The same system keeping the promises of a kernel: what it receives fits the buffer. *)
Module Kernel.
Definition clip (len : Z) (dg : datagram) : datagram := {|
  dg_bytes := (fun b => b mod 256) <$> take (Z.to_nat len) (dg_bytes dg); dg_name := dg_name dg; dg_stack := dg_stack dg;
  dg_cmsgs := dg_cmsgs dg |}.

#[export] Instance kernel_libc : Libc scripted := {|
  sys_socket := sys_socket; sys_bind := sys_bind; sys_connect := sys_connect; sys_listen := sys_listen; sys_accept := sys_accept;
  sys_getpeername := sys_getpeername; sys_setsockopt := sys_setsockopt; sys_fcntl := sys_fcntl; sys_close := sys_close;
  sys_send := sys_send; sys_sendmsg := sys_sendmsg; sys_recv := sys_recv;
  sys_recvmsg fd h f w := let '((n, dg), w') := sys_recvmsg fd h f w in
                          let len := default 0 (head (msg_iov h)) in ((Z.min n len, clip len dg), w');
  sys_recvmmsg := sys_recvmmsg; sys_clock := sys_clock; last_errno := last_errno; strerror := strerror (W:=scripted)
|}.

#[export] Instance kernel_receive : ReceiveFits scripted.
Proof.
  intros fd hdr flags len w Hlen E. unfold sys_recvmsg, kernel_libc. destruct (@sys_recvmsg _ scripted_libc fd hdr flags w) as [[n dg] w'].
  rewrite E. cbn. split; [lia|]. split; [rewrite length_fmap, length_take; lia|].
  apply Forall_fmap, Forall_true. intros b. unfold byte_ok. cbn. pose proof (Z.mod_pos_bound b 256). lia.
Qed.
End Kernel.

(** ** Properties *)

(** [send_to] of a UDP socket never fails, whatever the system call does: a failed
    [sendmsg] is an [Ok] whose byte count is [-1], with the time of the attempt, so callers
    that match on [Ok] take a packet that was not sent for a sent one; [send] of the same
    socket does return the error. *)
Theorem udp_send_to_never_fails {W T} `{Libc W, HostEndian, BeBytes T} self address (m : T) (w : W) :
  (exists r t w', UdpSocket_send_to self address m w = (Ok (r, t), w')) /\
  forall ts w0 w1, sys_clock w = (ts, w0) -> sys_send (udp_inner self) (to_be_bytes m) 0 w0 = (-1, w1) ->
    exists e, UdpSocket_send self m w = (Err (Io e), w1).
Proof.
  unfold UdpSocket_send_to, UdpSocket_send, now, libc_call, effect, mbind, op_bind. split.
  - destruct (socketaddr_to_sockaddr address) as [sa len]. destruct (sys_clock w) as [ts w0].
    cbn [mret op_ret]. destruct (sys_sendmsg _ _ _ _) as [r w']. by do 3 eexists.
  - intros ts w0 w1 -> E. cbn [mret op_ret]. rewrite E. by eexists.
Qed.

(** A UDP socket whose [bind] fails is never closed: the error leaves the operating
    system as it was right after the failed call, with the new descriptor open. *)
Theorem udp_bind_failure_leaks {W} `{Libc W, HostEndian} addr (w w1 w2 : W) fd r :
  sys_socket (socket_domain addr) SOCK_DGRAM w = (fd, w1) -> 0 <= fd ->
  sys_bind fd (socketaddr_to_sockaddr addr).1 (socketaddr_to_sockaddr addr).2 w1 = (r, w2) -> r < 0 ->
  UdpSocket_bind addr w = (Err (SocketBindFailed (os_error (last_errno w2))), w2).
Proof.
  intros Hs Hfd Hb Hr. unfold UdpSocket_bind, effect, mbind, op_bind. rewrite Hs.
  rewrite (proj2 (Z.ltb_ge _ _)) by lia. destruct (socketaddr_to_sockaddr addr) as [sa len].
  cbn [fst snd] in Hb. rewrite Hb, (proj2 (Z.ltb_lt _ _)) by lia. done.
Qed.

Example udp_bind_failure_leaks_witness :
  @UdpSocket_bind _ scripted_libc LE (SockV4 (Ipv4Addr_new 10 0 0 1) 862) (scripted_of [3; -1] []) =
    (Err (SocketBindFailed (os_error 98)),
     {| script := []; datagrams := []; errno_ := 98;
        calls := [CSocket 2 2; CBind 3] |}).
Proof.
  apply (@udp_bind_failure_leaks _ scripted_libc LE (SockV4 (Ipv4Addr_new 10 0 0 1) 862) (scripted_of [3; -1] [])
    (step_call (CSocket 2 2) (scripted_of [3; -1] [])).2
    (step_call (CBind 3) (step_call (CSocket 2 2) (scripted_of [3; -1] [])).2).2 3 (-1)); [reflexivity|lia|reflexivity|lia].
Defined.

(** A TCP socket whose [connect] fails is closed by [connect] and closed again when the
    value is dropped: two [close] calls on the same descriptor number. *)
Theorem tcp_connect_failure_double_close {W} `{Libc W, HostEndian} fd addr (w w1 w2 w3 : W) r c1 c2 :
  0 <= fd ->
  sys_connect fd (socketaddr_to_sockaddr addr).1 (socketaddr_to_sockaddr addr).2 w = (r, w1) -> r < 0 ->
  sys_close fd w1 = (c1, w2) -> sys_close fd w2 = (c2, w3) ->
  exists e, TcpSocket_connect (TcpSocket fd) addr w = (Err (SocketConnectFailed e), w2) /\
    TcpSocket_drop (TcpSocket fd) w2 = (Ok (), w3).
Proof.
  intros Hfd Hc Hr H1 H2. unfold TcpSocket_connect, TcpSocket_drop, effect, mbind, op_bind. cbn [tcp_inner].
  rewrite (proj2 (Z.ltb_ge _ _)) by lia. destruct (socketaddr_to_sockaddr addr) as [sa len].
  cbn [fst snd] in Hc. rewrite Hc, (proj2 (Z.ltb_lt _ _)) by lia. unfold last_os_error, gets.
  rewrite H1, H2. by eexists.
Qed.

Example tcp_connect_failure_double_close_witness :
  exists e, @TcpSocket_connect _ scripted_libc LE (TcpSocket 4) (SockV4 (Ipv4Addr_new 10 0 0 1) 862)
      (scripted_of [-1] []) = (Err (SocketConnectFailed e),
       {| script := []; datagrams := []; errno_ := 98;
          calls := [CConnect 4; CClose 4] |}) /\
    @TcpSocket_drop _ scripted_libc (TcpSocket 4)
       {| script := []; datagrams := []; errno_ := 98;
          calls := [CConnect 4; CClose 4] |} =
      (Ok (), {| script := []; datagrams := []; errno_ := 98;
                 calls := [CConnect 4; CClose 4; CClose 4] |}).
Proof.
  eapply (@tcp_connect_failure_double_close _ scripted_libc LE 4 (SockV4 (Ipv4Addr_new 10 0 0 1) 862)
    (scripted_of [-1] [])); [lia|reflexivity|vm_compute; reflexivity|reflexivity|reflexivity].
Defined.

(** Receiving from an IPv4 peer. *)
Lemma receive_from_v4 {W} `{Libc W} self buffer a port (w w1 w2 : W) ts n dg rest :
  v4_wf a -> in_u 16 port -> 0 <= n ->
  sys_clock w = (ts, w1) ->
  sys_recvmsg (udp_inner self) {| msg_name := replicate 128 0; msg_namelen := 128;
    msg_iov := [Z.of_nat (length buffer)]; msg_iovlen := 1; msg_controllen := 64 |} 0 w1 = ((n, dg), w2) ->
  dg_name dg = (@socketaddr_to_sockaddr LE (SockV4 a port)).1 ++ rest ->
  @UdpSocket_receive_from _ _ LE self buffer w =
    (Ok (write_buffer buffer (dg_bytes dg), n, SockV4 a port,
         default (from_timespec ts) (ok_option (retrieve_data_from_header (dg_cmsgs dg)))), w2).
Proof.
  intros Ha Hp Hn Hc Hr Hd. unfold UdpSocket_receive_from, now, effect, mbind, op_bind. rewrite Hc.
  cbn [mret op_ret]. rewrite Hr. rewrite (proj2 (Z.ltb_ge _ _)) by lia. unfold lift.
  rewrite Hd, sockaddr_v4_inverse by done. by destruct (retrieve_data_from_header _).
Qed.

(** The name of an IPv4 peer: the family in the byte order of the host, the port in that of the
    network, the four octets, and whatever follows. *)
Lemma storage_v4_octets a port rest stack : v4_wf a -> in_u 16 port ->
  storage_to_socket_addr (H:=LE) ([2; 0; port / 256; port mod 256; oct0 a; oct1 a; oct2 a; oct3 a] ++ rest) stack = Ok (SockV4 a port).
Proof.
  intros Ha Hp. assert (Hb : [port / 256; port mod 256] = be_bytes 2 port).
  { unfold in_u in Hp. cbn. rewrite (Z.mod_small (port / 256)); [done|]. split; [apply Z.div_pos; lia|apply Z.div_lt_upper_bound; lia]. }
  change ([2; 0; port / 256; port mod 256; oct0 a; oct1 a; oct2 a; oct3 a] ++ rest)
    with ([2; 0] ++ [port / 256; port mod 256] ++ v4_octets a ++ rest).
  rewrite Hb, storage_v4_layout; [|done|apply be_bytes_length|done|done|done].
  rewrite to_be_loaded by (by unfold in_u in * ). unfold be_bytes. change (@ne_value LE (v4_octets a)) with (le_value (v4_octets a)).
  change 4%nat with (length (v4_octets a)). rewrite le_bytes_value by done. by destruct a.
Qed.

Definition is_timestamp (c : cmsghdr) : bool := (cmsg_level c =? 1) && (cmsg_type c =? 37).

Lemma retrieve_untimed cmsgs acc : Forall (fun c => is_timestamp c = false) cmsgs -> retrieve_loop cmsgs acc = acc.
Proof.
  intros Hc. revert acc. induction Hc as [|c cmsgs Hc _ IH]; intros acc; [done|]. cbn [retrieve_loop].
  change ((cmsg_level c =? SOL_SOCKET) && (cmsg_type c =? SCM_TIMESTAMPING)) with (is_timestamp c). by rewrite Hc.
Qed.

Lemma retrieve_last before c t others after acc : is_timestamp c = true -> cmsg_timespecs c = t :: others ->
  Forall (fun c => is_timestamp c = false) after -> retrieve_loop (before ++ c :: after) acc = Ok (from_timespec t).
Proof.
  intros Hc Ht Ha. revert acc. induction before as [|b before IH]; intros acc; cbn [app retrieve_loop]; [|by rewrite IH].
  change ((cmsg_level c =? SOL_SOCKET) && (cmsg_type c =? SCM_TIMESTAMPING)) with (is_timestamp c).
  rewrite Hc, Ht. by apply retrieve_untimed.
Qed.

(** C32: what [receive_from] makes of a datagram, on a little-endian host.  The clock is read
    first, then the system is asked once, for as much as the buffer holds.  When the system
    reports a failure its error is returned.  Otherwise, for an IPv4 peer, as the octets of the
    socket address name it (family 2, the port in network order, the address), the result is
    the data at the start of the buffer, the count, that address and that port, and the time:
    the first of the three times of the last control message of level 1 (the socket) and type
    37 (timestamping), its seconds and nanoseconds as 32-bit numbers; without such a message
    the time read from the clock before the call. *)
Theorem udp_receive_from_spec {W} `{Libc W} self buffer (w w1 w2 : W) clock n dg :
  sys_clock w = (clock, w1) ->
  sys_recvmsg (udp_inner self) {| msg_name := replicate 128 0; msg_namelen := 128;
    msg_iov := [Z.of_nat (length buffer)]; msg_iovlen := 1; msg_controllen := 64 |} 0 w1 = ((n, dg), w2) ->
  let result := @UdpSocket_receive_from _ _ LE self buffer w in
  (n < 0 -> result = (Err (Io (os_error (last_errno w2))), w2)) /\
  forall a port rest, 0 <= n -> v4_wf a -> in_u 16 port ->
    dg_name dg = [2; 0; port / 256; port mod 256; oct0 a; oct1 a; oct2 a; oct3 a] ++ rest ->
    let received (time : timespec) := (Ok (dg_bytes dg ++ drop (length (dg_bytes dg)) buffer, n, SockV4 a port,
      {| sec := tv_sec time mod 2 ^ 32; nanos := tv_nsec time mod 2 ^ 32 |}), w2) in
    (Forall (fun c => is_timestamp c = false) (dg_cmsgs dg) -> result = received clock) /\
    (forall before c time others after, dg_cmsgs dg = before ++ c :: after ->
       cmsg_level c = 1 -> cmsg_type c = 37 -> cmsg_timespecs c = time :: others ->
       Forall (fun c => is_timestamp c = false) after -> result = received time).
Proof.
  intros Hc Hr result. unfold result, UdpSocket_receive_from, now, effect, mbind, op_bind. rewrite Hc.
  cbn [mret op_ret]. rewrite Hr. split.
  { intros Hn. by rewrite (proj2 (Z.ltb_lt _ _)). }
  intros a port rest Hn Ha Hp Hd. cbv zeta. rewrite (proj2 (Z.ltb_ge _ _)) by lia. unfold lift.
  rewrite Hd, storage_v4_octets by done. unfold retrieve_data_from_header. split.
  - intros Hf. by rewrite retrieve_untimed.
  - intros before c time others after E Hl Ht Hts Hf. rewrite E.
    assert (Hct : is_timestamp c = true) by (unfold is_timestamp; by rewrite Hl, Ht).
    by rewrite (retrieve_last _ _ _ _ _ _ Hct Hts Hf).
Qed.

Definition sample_datagram (bytes : list Z) : datagram := {|
  dg_bytes := bytes; dg_name := (@socketaddr_to_sockaddr LE (SockV4 (Ipv4Addr_new 10 0 0 2) 862)).1 ++ replicate 112 0;
  dg_stack := [];
  dg_cmsgs := [{| cmsg_level := 1; cmsg_type := 37; cmsg_timespecs := [{| tv_sec := 1700000001; tv_nsec := 9 |};
                  {| tv_sec := 0; tv_nsec := 0 |}; {| tv_sec := 0; tv_nsec := 0 |}] |}] |}.

(** Two timestamping messages arrive, and something else after them. *)
Definition stamp (t : Z) : cmsghdr := {| cmsg_level := 1; cmsg_type := 37; cmsg_timespecs :=
  [{| tv_sec := t; tv_nsec := 9 |}; {| tv_sec := 0; tv_nsec := 0 |}; {| tv_sec := 0; tv_nsec := 0 |}] |}.
Definition stamped_datagram : datagram := {|
  dg_bytes := [7; 8]; dg_name := [2; 0; 3; 94; 10; 0; 0; 2] ++ replicate 120 1; dg_stack := [];
  dg_cmsgs := [stamp 1700000001; stamp 1700000002; {| cmsg_level := 0; cmsg_type := 37; cmsg_timespecs := [] |}] |}.

Example udp_receive_from_spec_witness :
  (@UdpSocket_receive_from _ scripted_libc LE (UdpSocket_new 3) [0; 0; 0] (scripted_of [2] [stamped_datagram])).1
    = Ok ([7; 8; 0], 2, SockV4 (Ipv4Addr_new 10 0 0 2) 862, {| sec := 1700000002; nanos := 9 |}).
Proof.
  destruct (@udp_receive_from_spec _ scripted_libc (UdpSocket_new 3) [0; 0; 0] (scripted_of [2] [stamped_datagram])
    (scripted_of [2] [stamped_datagram]) (step_datagram (CRecvmsg 3) (scripted_of [2] [stamped_datagram])).2
    {| tv_sec := 1700000000; tv_nsec := 5 |} 2 stamped_datagram eq_refl eq_refl) as [_ H].
  destruct (H (Ipv4Addr_new 10 0 0 2) 862 (replicate 120 1)) as [_ Ht]; [lia|repeat constructor; cbn; lia|unfold in_u; cbn; lia|reflexivity|].
  refine (f_equal fst (Ht [stamp 1700000001] (stamp 1700000002) _ _ [{| cmsg_level := 0; cmsg_type := 37; cmsg_timespecs := [] |}]
    eq_refl eq_refl eq_refl eq_refl _)). by repeat constructor.
Defined.
