(* ===== verification/SocketTrait.v ===== *)
(** * The interface [Socket] of [network_commons/src/socket.rs]

    The required methods of the trait as a class, the two sockets as its instances with the
    conversions from and to descriptors, and what holds of every socket: a descriptor survives
    the conversions, and [send] reports a failed call as an error, which the datagram socket's
    [send_to] does not. *)
From stdpp Require Import base list option numbers strings.
From Stdlib Require Import ZArith Lia.
From S2P Require Import Prelude Float64 Errors Time Net DataModel Messages Sockets.
Local Open Scope Z_scope.

(** The byte count and the time; a receive call gives the buffer too. *)
Class Socket (W T : Type) := {
  from_raw_fd : Z -> T;
  raw_fd : T -> Z;
  send {M} `{BeBytes M} : T -> M -> op W CommonError (Z * DateTime);
  send_to {M} `{BeBytes M} : T -> SocketAddr -> M -> op W CommonError (Z * DateTime);
  receive : T -> list Z -> op W CommonError (list Z * Z * DateTime);
  receive_from : T -> list Z -> op W CommonError (list Z * Z * SocketAddr * DateTime)
}.

Section instances.
Context {W : Type} `{LC : Libc W, HE : HostEndian}.

(** [AsRawFd], [Deref], [From<&mut i32>] and [Socket::from_raw_fd] of the datagram socket. *)
Definition UdpSocket_as_raw_fd (self : TimestampedUdpSocket) : Z := udp_inner self.
Definition UdpSocket_deref (self : TimestampedUdpSocket) : Z := udp_inner self.
Definition UdpSocket_from_i32 (value : Z) : op W CommonError TimestampedUdpSocket := mret (UdpSocket_new value).
Definition UdpSocket_from_raw_fd (fd : Z) : TimestampedUdpSocket := {| udp_inner := fd |}.

(** Those of the stream socket: its [From] goes through [new], which sets an option. *)
Definition TcpSocket_as_raw_fd (self : TimestampedTcpSocket) : Z := tcp_inner self.
Definition TcpSocket_deref (self : TimestampedTcpSocket) : Z := tcp_inner self.
Definition TcpSocket_from_i32 (value : Z) : op W CommonError TimestampedTcpSocket := TcpSocket_new value.
Definition TcpSocket_from_raw_fd (fd : Z) : TimestampedTcpSocket := {| tcp_inner := fd |}.

#[export] Instance UdpSocket_socket : Socket W TimestampedUdpSocket := {
  from_raw_fd := UdpSocket_from_raw_fd;
  raw_fd := UdpSocket_as_raw_fd;
  send M _ := UdpSocket_send;
  send_to M _ := UdpSocket_send_to;
  receive := UdpSocket_receive;
  receive_from := UdpSocket_receive_from
}.

#[export] Instance TcpSocket_socket : Socket W TimestampedTcpSocket := {
  from_raw_fd := TcpSocket_from_raw_fd;
  raw_fd := TcpSocket_as_raw_fd;
  send M _ := TcpSocket_send;
  send_to M _ := TcpSocket_send_to;
  receive := TcpSocket_receive;
  receive_from := TcpSocket_receive_from
}.

(** [SocketError] of the stream socket's file, which nothing raises. *)
Inductive SocketError :=
  | BindFailed (e : io_error)
  | ListenFailed (e : io_error)
  | AcceptFailed (e : io_error).
End instances.

(** ** Every socket *)

(** The provided methods act on the descriptor, whichever socket it is. *)
Definition socket_set_fcntl_options {W T} `{Libc W, Socket W T} (self : T) : op W CommonError Z :=
  set_fcntl_options (raw_fd self).
Definition socket_set_timestamping_options {W T} `{Libc W, Socket W T} (self : T) : op W CommonError Z :=
  set_timestamping_options (raw_fd self).

(** A call that succeeds did not return [-1]. *)
Class SocketLaws (W T : Type) `{Socket W T} : Prop := {
  raw_fd_from fd : raw_fd (from_raw_fd fd : T) = fd;
  from_raw_fd_of (s : T) : from_raw_fd (raw_fd s) = s;
  send_reports {M} `{BeBytes M} (s : T) (m : M) (w : W) n t w' : send s m w = (Ok (n, t), w') -> n <> -1
}.

Section laws.
Context {W : Type} `{LC : Libc W, HE : HostEndian}.

#[export] Instance UdpSocket_laws : SocketLaws W TimestampedUdpSocket.
Proof.
  constructor; [done|by intros []|]. intros M ? s m w n t w'. cbn. unfold UdpSocket_send, now, libc_call. run_op.
  destruct (_ =? -1) eqn:E; run_op; [done|]. intros [= <- _ _]. by apply Z.eqb_neq in E.
Qed.

#[export] Instance TcpSocket_laws : SocketLaws W TimestampedTcpSocket.
Proof.
  constructor; [done|by intros []|]. intros M ? s m w n t w'. cbn. unfold TcpSocket_send, now, last_os_error. run_op.
  destruct (_ <? 0) eqn:E; run_op; [done|]. intros [= <- _ _]. apply Z.ltb_ge in E. lia.
Qed.
End laws.

(** ** Properties *)

(** [send_to] keeps the same promise on a stream, and not on a datagram socket. *)
Theorem send_to_reports {W M} `{Libc W, HostEndian, BeBytes M} (m : M) address (w : W) :
  (forall (s : TimestampedTcpSocket) n t w', send_to s address m w = (Ok (n, t), w') -> n <> -1) /\
  (forall (s : TimestampedUdpSocket), (sys_sendmsg (udp_inner s)
      {| msg_name := (socketaddr_to_sockaddr address).1; msg_namelen := 16; msg_iov := [Z.of_nat (length (to_be_bytes m))];
         msg_iovlen := 1; msg_controllen := 0 |} (to_be_bytes m) (sys_clock w).2).1 = -1 ->
    exists t w', send_to s address m w = (Ok (-1, t), w')).
Proof.
  split; [intros s n t w' E; exact (send_reports s m w n t w' E)|]. intros s. cbn. unfold UdpSocket_send_to, now.
  destruct (socketaddr_to_sockaddr address) as [name len]. run_op. cbn [fst]. intros ->. by do 2 eexists.
Qed.
