(* ===== verification/EventLoop.v ===== *)
(** * [network_commons/src/event_loop.rs] and [epoll_loop.rs]

    The event loop: tokens, sources and timed sources, the channel messages, the loop's
    duration / overtime / cleanup life cycle.  The poll, the timers and the descriptors
    are the operating system ([EpollOs], [Libc]); the messages and the events of each turn
    of the loop are its input.

    The two maps are behind [RwLock]s that only the loop's own thread takes, so a [try_]
    call fails exactly when the same thread already holds the lock: the only such place is
    the sweep of closed descriptors, and the operation called there takes the state of the
    lock as an argument.  The channel's mutex is shared with other threads: whether it is
    free is an input. *)
From stdpp Require Import base list option numbers strings gmap.
From Stdlib Require Import ZArith Lia.
From S2P Require Import Prelude Float64 Errors Time Net DataModel Messages Sockets.
Local Open Scope Z_scope.

(** ** [event_loop.rs] *)

(** [Token(usize)] *)
Definition Token : Type := Z.

Record Itimerspec := { it_interval : Duration; it_value : Duration }.

Definition duration_millis `{BuildProfile} {E} (self : Itimerspec) : outcome E Z :=
  seconds_in_millis ← u_arith 64 (as_secs (it_value self) * 1000);
  let nanos_in_millis := subsec_nanos (it_value self) / 1000000 in
  s ← u_arith 64 (seconds_in_millis + nanos_in_millis);
  Ok (as_i 64 s).

Definition duration_micros `{BuildProfile} {E} (self : Itimerspec) : outcome E Z :=
  ms ← duration_millis self; i_arith 64 (ms * 1000).

(** [libc::itimerspec] *)
Record itimerspec := { c_interval : timespec; c_value : timespec }.

Definition itimerspec_to_libc (itimer : Itimerspec) : itimerspec := {|
  c_interval := {| tv_sec := as_i 64 (as_secs (it_interval itimer)); tv_nsec := subsec_nanos (it_interval itimer) |};
  c_value := {| tv_sec := as_i 64 (as_secs (it_value itimer)); tv_nsec := subsec_nanos (it_value itimer) |} |}.

(** ** The operating system of the loop *)

Definition CLOCK_REALTIME : Z := 0.
Definition TFD_NONBLOCK : Z := 2048.
Definition F_GETFD : Z := 1.
Definition EBADF : Z := 9.
Definition USIZE_MAX : Z := u_max 64.

Class EpollOs (W : Type) := {
  timerfd_create : Z -> Z -> W -> Z * W;
  timerfd_settime : Z -> Z -> itimerspec -> W -> Z * W;
  timerfd_gettime : Z -> W -> (Z * itimerspec) * W;
  (** [Poll::new], [Registry::register] and [deregister] of mio *)
  poll_new : W -> option io_error * W;
  poll_register : Z -> Z -> W -> option io_error * W;
  poll_deregister : Z -> W -> option io_error * W;
  unpark : Z -> W -> W;
  show_io : io_error -> string
}.

Definition part_epoll {S W} `{EpollOs W} (get : S -> W) (put : W -> S -> S) : EpollOs S := {|
  timerfd_create c f := on_part get put (timerfd_create c f);
  timerfd_settime fd f t := on_part get put (timerfd_settime fd f t);
  timerfd_gettime fd := on_part get put (timerfd_gettime fd);
  poll_new := on_part get put poll_new;
  poll_register fd t := on_part get put (poll_register fd t);
  poll_deregister fd := on_part get put (poll_deregister fd);
  unpark t s := put (unpark t (get s)) s;
  show_io := show_io (W:=W)
|}.

(** A value that owns a descriptor: [AsRawFd], and what dropping it does. *)
Class AsRawFd (W T : Type) := {
  as_raw_fd : T -> Z;
  drop_value : T -> W -> W
}.

Section event_loop.
Context {W T : Type} `{Libc W, EpollOs W, AsRawFd W T}.

(** [FnMut(&mut T, Token) -> Result<isize, CommonError>]: what the closure captures is in [W]. *)
Definition CallBack : Type := Token -> op (T * W) CommonError Z.
Definition Source : Type := T * CallBack.
Definition TimedSource : Type := Z * Token * CallBack.

(** A callback that does not change its socket. *)
Definition as_callback (f : T -> Token -> op W CommonError Z) : CallBack :=
  fun token '(socket, s) => let '(o, s') := f socket token s in (o, (socket, s')).

Inductive EventLoopMessages :=
  | AddDuration (time_spec : Itimerspec)
  | RegisterTimed (time_spec : Itimerspec) (token : Token) (callback : CallBack)
  | Register (source : Source)
  | Unregister (token : Token)
  | Clean
  | TimedCleanup (timer_spec : Itimerspec) (thread : Z).

Record LinuxEventLoop := {
  sources : gmap Token Source;
  timed_sources : gmap Token TimedSource;
  next_token : Z;
  overtime : option Itimerspec;
  overtime_exceptions : list Token;
  cleanup : option Itimerspec;
  cleanup_token : option Token;
  channel_token : Z;  (* of the [DuplexChannel] *)
  os : W
}.

(** The loop that [LinuxEventLoop::new] gives once it has its poll. *)
Definition empty_loop (w : W) : LinuxEventLoop := {|
  sources := ∅; timed_sources := ∅; next_token := 0;
  overtime := Some {| it_interval := Duration_ZERO; it_value := Duration_from_secs 1 |};
  overtime_exceptions := []; cleanup := None; cleanup_token := None;
  channel_token := USIZE_MAX; os := w |}.

Definition with_os (l : LinuxEventLoop) (w : W) := {|
  sources := sources l; timed_sources := timed_sources l; next_token := next_token l; overtime := overtime l;
  overtime_exceptions := overtime_exceptions l; cleanup := cleanup l; cleanup_token := cleanup_token l;
  channel_token := channel_token l; os := w |}.
Definition with_sources (m : gmap Token Source) (l : LinuxEventLoop) := {|
  sources := m; timed_sources := timed_sources l; next_token := next_token l; overtime := overtime l;
  overtime_exceptions := overtime_exceptions l; cleanup := cleanup l; cleanup_token := cleanup_token l;
  channel_token := channel_token l; os := os l |}.
Definition with_timed (m : gmap Token TimedSource) (l : LinuxEventLoop) := {|
  sources := sources l; timed_sources := m; next_token := next_token l; overtime := overtime l;
  overtime_exceptions := overtime_exceptions l; cleanup := cleanup l; cleanup_token := cleanup_token l;
  channel_token := channel_token l; os := os l |}.
Definition with_next_token (n : Z) (l : LinuxEventLoop) := {|
  sources := sources l; timed_sources := timed_sources l; next_token := n; overtime := overtime l;
  overtime_exceptions := overtime_exceptions l; cleanup := cleanup l; cleanup_token := cleanup_token l;
  channel_token := channel_token l; os := os l |}.
Definition with_overtime (o : option Itimerspec) (l : LinuxEventLoop) := {|
  sources := sources l; timed_sources := timed_sources l; next_token := next_token l; overtime := o;
  overtime_exceptions := overtime_exceptions l; cleanup := cleanup l; cleanup_token := cleanup_token l;
  channel_token := channel_token l; os := os l |}.
Definition with_cleanup (c : option Itimerspec) (l : LinuxEventLoop) := {|
  sources := sources l; timed_sources := timed_sources l; next_token := next_token l; overtime := overtime l;
  overtime_exceptions := overtime_exceptions l; cleanup := c; cleanup_token := cleanup_token l;
  channel_token := channel_token l; os := os l |}.
Definition with_cleanup_token (t : option Token) (l : LinuxEventLoop) := {|
  sources := sources l; timed_sources := timed_sources l; next_token := next_token l; overtime := overtime l;
  overtime_exceptions := overtime_exceptions l; cleanup := cleanup l; cleanup_token := t;
  channel_token := channel_token l; os := os l |}.
Definition with_channel_token (t : Z) (l : LinuxEventLoop) := {|
  sources := sources l; timed_sources := timed_sources l; next_token := next_token l; overtime := overtime l;
  overtime_exceptions := overtime_exceptions l; cleanup := cleanup l; cleanup_token := cleanup_token l;
  channel_token := t; os := os l |}.

Definition set_overtime (o : Itimerspec) (l : LinuxEventLoop) : LinuxEventLoop := with_overtime (Some o) l.
Definition add_overtime_exception (t : Token) (l : LinuxEventLoop) : LinuxEventLoop := {|
  sources := sources l; timed_sources := timed_sources l; next_token := next_token l; overtime := overtime l;
  overtime_exceptions := overtime_exceptions l ++ [t]; cleanup := cleanup l; cleanup_token := cleanup_token l;
  channel_token := channel_token l; os := os l |}.

(** [Poll::new()?]; the channels cannot fail. *)
Definition LinuxEventLoop_new : op W CommonError LinuxEventLoop :=
  r ← effect poll_new;
  match r with Some e => fail (from_io e) | None => gets empty_loop end.

#[local] Abbreviation loop := (op LinuxEventLoop CommonError).

(** A system call. *)
Definition sys {A} (f : W -> A * W) : loop A :=
  effect (fun l => let '(a, w) := f (os l) in (a, with_os l w)).
(** An operation of the sockets' layer. *)
Definition sys_op {A} (m : op W CommonError A) : loop A := zoom os (fun w l => with_os l w) m.

(** [let event_loop = LinuxEventLoop::new(..)?]; what is owned by then is dropped on an error. *)
Definition new_loop (drop_owned : W -> W) : loop () :=
  or_drop (fun l => with_os l (drop_owned (os l)))
    (l ← sys_op LinuxEventLoop_new; modify (fun _ => l)).

Definition generate_token : loop Token :=
  token ← gets next_token;
  _ ← modify (fun l => with_next_token (as_u 64 (next_token l + 1)) l);
  mret token.

(** [Registry::register(..)?] *)
Definition register_fd (fd : Z) (token : Token) : loop () :=
  r ← sys (poll_register fd token);
  match r with Some e => fail (from_io e) | None => mret () end.

(** The timer of a [time_spec]; the result of [timerfd_settime] is not looked at. *)
Definition create_timer (time_spec : Itimerspec) : loop Z :=
  fd ← sys (timerfd_create CLOCK_REALTIME TFD_NONBLOCK);
  _ ← sys (timerfd_settime fd 0 (itimerspec_to_libc time_spec));
  mret fd.

Definition register_timer (time_spec : Itimerspec) (token : Token) (callback : CallBack) : loop Token :=
  timer_fd ← create_timer time_spec;
  new_token ← generate_token;
  _ ← register_fd timer_fd new_token;
  ss ← gets sources;
  _ ← (match ss !! token with
       | Some _ => modify (fun l => with_timed (<[new_token := (timer_fd, token, callback)]> (timed_sources l)) l)
       | None => mret ()
       end);
  mret new_token.

Definition add_duration (time_spec : Itimerspec) : loop Token :=
  timer_fd ← create_timer time_spec;
  new_token ← generate_token;
  _ ← register_fd timer_fd new_token;
  mret new_token.

Definition register_event_source (event_source : T) (callback : CallBack) : loop Token :=
  token ← generate_token;
  r ← sys (poll_register (as_raw_fd event_source) token);
  match r with
  | Some e => _ ← sys (fun w => ((), drop_value event_source w)); fail (from_io e)
  | None =>
      _ ← modify (fun l => with_sources (<[token := (event_source, callback)]> (sources l)) l);
      mret token
  end.

(** Nothing is done when the lock of [sources] is not free. The value removed is dropped. *)
Definition unregister_event_source (sources_free : bool) (token : Token) : loop () :=
  if sources_free then
    ss ← gets sources;
    match ss !! token with
    | Some (event_source, _) =>
        _ ← modify (fun l => with_sources (delete token (sources l)) l);
        r ← sys (poll_deregister (as_raw_fd event_source));
        _ ← sys (fun w => ((), drop_value event_source w));
        match r with
        | Some e => fail (from_str ("Failed to deregister event source: " +:+ show_io e))
        | None => mret ()
        end
    | None => fail (from_str "Failed to unregister event source: token not found")
    end
  else mret ().

(** The descriptor of the timer is deregistered and not closed. *)
Definition unregister_timed_event_source (token : Token) : loop () :=
  ts ← gets timed_sources;
  match ts !! token with
  | Some (timer_fd, _event_token, _) =>
      _ ← modify (fun l => with_timed (delete token (timed_sources l)) l);
      r ← sys (poll_deregister timer_fd);
      match r with
      | Some e => fail (from_str ("Failed to deregister timed event source: " +:+ show_io e))
      | None => mret ()
      end
  | None => fail (from_str "Failed to unregister timed event source: token not found")
  end.

Definition add_cleanup (time_spec : Itimerspec) : loop Token :=
  _ ← modify (with_cleanup (Some time_spec));
  timer_fd ← create_timer time_spec;
  new_token ← generate_token;
  _ ← register_fd timer_fd new_token;
  _ ← modify (with_cleanup_token (Some new_token));
  mret new_token.

Definition reset_timer (timer_raw : Z) : loop () :=
  '(r, timer_spec) ← sys (fun w => timerfd_gettime timer_raw w);
  if r =? -1 then e ← sys (fun w => (last_errno w, w)); fail (from_io (custom_io_error (strerror e))) else
  _ ← sys_op (libc_call (timerfd_settime timer_raw 0 timer_spec));
  mret ().

Definition is_fd_open (fd : Z) : loop bool :=
  res ← sys (sys_fcntl fd F_GETFD 0);
  errno ← sys (fun w => (last_errno w, w));
  mret (negb ((res =? -1) && (errno =? EBADF))).

(** [DuplexChannel::set_token] through [try_lock()?]. *)
Definition set_token (channel_free : bool) (t : Token) : loop () :=
  if channel_free then modify (with_channel_token t) else fail Lock.

(** [DuplexChannel::get_token], with the error left by [set_error]: the result and the error
    state after it. *)
Definition get_token (token_value : Z) (error : option CommonError) : result Token * option CommonError :=
  if negb (token_value =? USIZE_MAX) then (Ok token_value, error)
  else match error with
       | Some err => (Err err, None)
       | None => (Err (Generic "Invalid token"), None)
       end.

(** ** [run] *)

Definition handle_message (m : EventLoopMessages * bool) : loop () :=
  let '(message, channel_free) := m in
  match message with
  | Register (event_source, callback) =>
      token ← register_event_source event_source callback; set_token channel_free token
  | Unregister token => unregister_event_source true token
  | RegisterTimed time_spec token callback =>
      timer_token ← register_timer time_spec token callback; set_token channel_free timer_token
  | Clean =>
      ss ← gets sources;
      for_each (fun '(_, (source, _)) => _ ← sys (sys_close (as_raw_fd source)); mret ()) (map_to_list ss)
  | AddDuration time_spec => token ← add_duration time_spec; set_token channel_free token
  | TimedCleanup timer_spec thread =>
      token ← add_cleanup timer_spec; _ ← set_token channel_free token;
      sys (fun w => ((), unpark thread w))
  end.

Inductive flow := NextEvent | BreakOuter | ContinueOuter.

(** Calling [callback] on the source registered under [token]. *)
Definition call_back (token : Token) (source : T) (own : CallBack) (callback : CallBack) (arg : Token) : loop Z :=
  fun l => let '(o, (source', w)) := callback arg (source, os l) in
           (o, with_os (with_sources (<[token := (source', own)]> (sources l)) l) w).

Definition enter_overtime : loop flow :=
  ts ← gets timed_sources;
  let tokens := (map_to_list ts).*1 in
  exceptions ← gets overtime_exceptions;
  _ ← for_each (fun token => if decide (token ∈ exceptions) then mret ()
                             else ignore (unregister_timed_event_source token)) tokens;
  o ← gets overtime;
  match o with
  | None => lift (Panic (Expect "No overtime"))
  | Some spec =>
      _ ← modify (with_overtime None);
      t ← add_duration spec;
      _ ← modify (with_cleanup_token (Some t));
      mret NextEvent
  end.

Definition handle_event (token : Token) : loop flow :=
  ss ← gets sources;
  ts ← gets timed_sources;
  match ss !! token with
  | Some (source, callback) =>
      r ← attempt (call_back token source callback callback token);
      match r with
      | inr _ => mret NextEvent
      | inl e => _ ← ignore (unregister_event_source true token); mret NextEvent
      end
  | None =>
      match ts !! token with
      | Some (timer_source, inner_token, callback) =>
          match ss !! inner_token with
          | Some (source, own) =>
              _ ← call_back inner_token source own callback inner_token;
              _ ← reset_timer timer_source;
              mret NextEvent
          | None => mret NextEvent
          end
      | None =>
          o ← gets overtime; c ← gets cleanup; ct ← gets cleanup_token;
          match o, c, ct with
          | None, None, _ => mret BreakOuter
          | None, Some _, Some t =>
              _ ← unregister_timed_event_source t;
              _ ← modify (with_cleanup_token None);
              mret ContinueOuter
          | _, _, _ => enter_overtime
          end
      end
  end.

(** The events of one poll: token and readiness. *)
Fixpoint handle_events (events : list (Token * bool)) : loop flow :=
  match events with
  | [] => mret NextEvent
  | (token, readable) :: events' =>
      f ← (if readable : bool then handle_event token else mret NextEvent);
      match f with NextEvent => handle_events events' | _ => mret f end
  end.

(** The sweep of closed descriptors holds the read lock of [sources] throughout. *)
Definition sweep_entry (p : Token * Source) : loop () :=
  let '(token, (source, _)) := p in
  is_open ← is_fd_open (as_raw_fd source);
  if is_open : bool then mret ()
  else _ ← ignore (unregister_event_source false token);
       ignore (unregister_timed_event_source token).
Definition sweep : loop () := ss ← gets sources; for_each sweep_entry (map_to_list ss).

(** One turn of the loop: the messages waiting, and what the poll gives. *)
Record turn := { t_messages : list (EventLoopMessages * bool); t_polled : io_error + list (Token * bool) }.

Definition run_turn (t : turn) : loop bool :=
  _ ← for_each handle_message (t_messages t);
  events ← (match t_polled t with inl e => fail (from_io e) | inr evs => mret evs end);
  f ← handle_events events;
  match f with
  | BreakOuter => mret true
  | ContinueOuter => mret false
  | NextEvent => _ ← sweep; mret false
  end.

(** [Ok true]: the loop returned; [Ok false]: it is still running after these turns. *)
Fixpoint run (turns : list turn) : loop bool :=
  match turns with
  | [] => mret false
  | t :: turns' => b ← run_turn t; if b : bool then mret true else run turns'
  end.
End event_loop.

(** ** Lemmas *)

Section facts.
Context {W T : Type} `{LC : Libc W, EO : EpollOs W, AR : AsRawFd W T}.
#[local] Abbreviation loop := (op (LinuxEventLoop (W:=W) (T:=T)) CommonError).
Implicit Types l : LinuxEventLoop (W:=W) (T:=T).

(** Tokens were generated before, [sources] and [timed_sources] share none, and the cleanup
    token belongs to neither map; fewer than [b] tokens were generated. *)
Record loop_inv (b : Z) l : Prop := {
  inv_next : 0 <= next_token l <= b;
  inv_sources : forall t s, sources l !! t = Some s -> 0 <= t < next_token l;
  inv_timed : forall t s, timed_sources l !! t = Some s -> 0 <= t < next_token l;
  inv_disjoint : forall t s, sources l !! t = Some s -> timed_sources l !! t = None;
  inv_cleanup : forall t, cleanup_token l = Some t ->
    0 <= t < next_token l /\ sources l !! t = None /\ timed_sources l !! t = None
}.

(** A generated token not yet used. *)
Definition fresh (t : Token) l : Prop :=
  0 <= t < next_token l /\ sources l !! t = None /\ timed_sources l !! t = None /\ cleanup_token l <> Some t.

Lemma loop_inv_mono b b' l : b <= b' -> loop_inv b l -> loop_inv b' l.
Proof. intros Hb [? ? ? ? ?]. constructor; [lia|done..]. Qed.

Lemma loop_inv_os b l w : loop_inv b l -> loop_inv b (with_os l w).
Proof. by intros [? ? ? ? ?]. Qed.

Lemma sys_preserves {A} (f : W -> A * W) (P : LinuxEventLoop -> Prop) :
  (forall l w, P l -> P (with_os l w)) -> preserves P (sys f).
Proof. intros Hos. apply preserves_effect. intros l Hl. destruct (f (os l)). by apply Hos. Qed.

Lemma sys_op_preserves {A} (m : op W CommonError A) (P : LinuxEventLoop -> Prop) :
  (forall l w, P l -> P (with_os l w)) -> preserves P (sys_op m).
Proof. intros Hos l Hl. unfold sys_op, zoom. destruct (m (os l)). by apply Hos. Qed.

Lemma fresh_os b t l w : loop_inv b l /\ fresh t l -> loop_inv b (with_os l w) /\ fresh t (with_os l w).
Proof. intros [Hi Hf]. split; [by apply loop_inv_os|exact Hf]. Qed.

(** An operation that generates at most [n] tokens. *)
Definition grows {A} (n : Z) (m : loop A) : Prop :=
  forall b l, b + n < 2 ^ 64 -> loop_inv b l -> loop_inv (b + n) (m l).2.

Lemma grows_0 {A} (m : loop A) : (forall b, preserves (loop_inv b) m) -> grows 0 m.
Proof. intros Hm b l _ Hl. rewrite Z.add_0_r. by apply Hm. Qed.

Lemma grows_bind {A B} n k (m : loop A) (f : A -> loop B) : 0 <= k ->
  grows n m -> (forall a, grows k (f a)) -> grows (n + k) (m ≫= f).
Proof.
  intros Hk Hm Hf b l Hb Hl. specialize (Hm b l ltac:(lia) Hl). unfold mbind, op_bind.
  destruct (m l) as [[a|e|p] l']; cbn [snd] in Hm.
  - rewrite Z.add_assoc. apply Hf; [lia|done].
  - eapply loop_inv_mono; [|exact Hm]. lia.
  - eapply loop_inv_mono; [|exact Hm]. lia.
Qed.

Lemma generate_token_fresh b l : b + 1 < 2 ^ 64 -> loop_inv b l ->
  exists l', generate_token l = (Ok (next_token l), l') /\ loop_inv (b + 1) l' /\ fresh (next_token l) l'.
Proof.
  intros Hb [Hn Hs Ht Hd Hc]. unfold generate_token, gets, modify, mbind, op_bind. cbn [mret op_ret].
  eexists. split; [done|]. rewrite as_u_small by (unfold in_u; lia). split.
  - constructor; cbn; [lia|intros ? ? E; apply Hs in E; lia|intros ? ? E; apply Ht in E; lia|done|].
    intros t E. destruct (Hc _ E) as (? & ? & ?). split; [lia|done].
  - split; [cbn; lia|]. cbn. split; [|split].
    + destruct (sources l !! next_token l) eqn:E; [|done]. apply Hs in E. lia.
    + destruct (timed_sources l !! next_token l) eqn:E; [|done]. apply Ht in E. lia.
    + intros E. destruct (Hc _ E) as [? _]. lia.
Qed.

(** What is done with a fresh token needs to preserve the invariant only. *)
Lemma grows_generate {A} (k : Token -> loop A) :
  (forall b t, hoare (fun l => loop_inv b l /\ fresh t l) (k t) (fun _ => loop_inv b) (loop_inv b)) ->
  grows 1 (generate_token ≫= k).
Proof.
  intros Hk b l Hb Hl. destruct (generate_token_fresh b l Hb Hl) as (l' & E & Hl' & Hf).
  unfold mbind, op_bind. rewrite E. specialize (Hk (b + 1) (next_token l) l' (conj Hl' Hf)).
  by destruct (k (next_token l) l') as [[]].
Qed.

Lemma sys_hoare {A} (f : W -> A * W) (P : LinuxEventLoop -> Prop) :
  (forall l w, P l -> P (with_os l w)) -> hoare P (sys f) (fun _ => P) P.
Proof. intros Hos. by apply hoare_preserves, sys_preserves. Qed.

Lemma insert_timed_inv b l t v : loop_inv b l -> fresh t l ->
  loop_inv b (with_timed (<[t := v]> (timed_sources l)) l).
Proof.
  intros [Hn Hs Ht Hd Hc] (Hf & Hfs & Hft & Hfc). constructor; cbn; [done|done|..].
  - intros t' s [[<- <-]|[? ?]]%lookup_insert_Some; [done|by eapply Ht].
  - intros t' s E. rewrite lookup_insert_ne; [by eapply Hd|congruence].
  - intros t' E. destruct (Hc _ E) as (? & ? & ?). repeat split; try lia; [done|].
    rewrite lookup_insert_ne; [done|congruence].
Qed.

Lemma insert_source_inv b l t v : loop_inv b l -> fresh t l ->
  loop_inv b (with_sources (<[t := v]> (sources l)) l).
Proof.
  intros [Hn Hs Ht Hd Hc] (Hf & Hfs & Hft & Hfc). constructor; cbn; [done|..].
  - intros t' s [[<- <-]|[? ?]]%lookup_insert_Some; [done|by eapply Hs].
  - done.
  - intros t' s [[<- <-]|[? ?]]%lookup_insert_Some; [done|by eapply Hd].
  - intros t' E. destruct (Hc _ E) as (? & ? & ?). repeat split; try lia; [|done].
    rewrite lookup_insert_ne; [done|congruence].
Qed.

Lemma replace_source_inv b l t s0 s : loop_inv b l -> sources l !! t = Some s0 ->
  loop_inv b (with_sources (<[t := s]> (sources l)) l).
Proof.
  intros [Hn Hs Ht Hd Hc] H0. constructor; cbn; [done|..].
  - intros t' s' [[<- <-]|[? ?]]%lookup_insert_Some; [by eapply Hs|by eapply Hs].
  - done.
  - intros t' s' [[<- <-]|[? ?]]%lookup_insert_Some; by eapply Hd.
  - intros t' E. destruct (Hc _ E) as (? & ? & ?). repeat split; try lia; [|done].
    rewrite lookup_insert_ne; [done|congruence].
Qed.

Lemma delete_source_inv b l t : loop_inv b l -> loop_inv b (with_sources (delete t (sources l)) l).
Proof.
  intros [Hn Hs Ht Hd Hc]. constructor; cbn; [done|..].
  - intros t' s' [? ?]%lookup_delete_Some. by eapply Hs.
  - done.
  - intros t' s' [? ?]%lookup_delete_Some. by eapply Hd.
  - intros t' E. destruct (Hc _ E) as (? & ? & ?). repeat split; try lia; [|done].
    by apply lookup_delete_None; right.
Qed.

Lemma delete_timed_inv b l t : loop_inv b l -> loop_inv b (with_timed (delete t (timed_sources l)) l).
Proof.
  intros [Hn Hs Ht Hd Hc]. constructor; cbn; [done|done|..].
  - intros t' s' [? ?]%lookup_delete_Some. by eapply Ht.
  - intros t' s' E. apply lookup_delete_None. right. by eapply Hd.
  - intros t' E. destruct (Hc _ E) as (? & ? & ?). repeat split; try lia; [done|].
    by apply lookup_delete_None; right.
Qed.

Lemma preserves_sys_inv {A} (f : W -> A * W) b : preserves (loop_inv b) (sys f).
Proof. apply sys_preserves. intros. by apply loop_inv_os. Qed.
Lemma preserves_sys_op_inv {A} (m : op W CommonError A) b : preserves (loop_inv b) (sys_op m).
Proof. apply sys_op_preserves. intros. by apply loop_inv_os. Qed.
Hint Resolve preserves_sys_inv preserves_sys_op_inv loop_inv_os delete_source_inv delete_timed_inv : preserves.

Lemma sys_fresh {A} (f : W -> A * W) b t :
  hoare (fun l => loop_inv b l /\ fresh t l) (sys f) (fun _ l => loop_inv b l /\ fresh t l) (loop_inv b).
Proof.
  intros l Hl. unfold sys, effect. destruct (f (os l)) as [a w]. by apply fresh_os.
Qed.

Lemma register_fd_fresh b t fd : hoare (fun l => loop_inv b l /\ fresh t l) (register_fd fd t)
  (fun _ l => loop_inv b l /\ fresh t l) (loop_inv b).
Proof.
  unfold register_fd. eapply hoare_bind; [apply sys_fresh|]. intros [e|]; [by intros l []|by intros l].
Qed.

Lemma register_timer_grows spec t cb : grows 1 (register_timer spec t cb).
Proof.
  unfold register_timer. apply (grows_bind 0 1); [lia| |intros fd; apply grows_generate].
  { apply grows_0. intros b. unfold create_timer. eauto with preserves. }
  intros b nt. eapply hoare_bind; [apply register_fd_fresh|].
  intros _ l [Hl Hf]. unfold gets, mbind, op_bind. destruct (sources l !! t); cbn; [|done].
  by apply insert_timed_inv.
Qed.

Lemma add_duration_grows spec : grows 1 (add_duration spec).
Proof.
  unfold add_duration. apply (grows_bind 0 1); [lia| |intros fd; apply grows_generate].
  { apply grows_0. intros b. unfold create_timer. eauto with preserves. }
  intros b nt. eapply hoare_bind; [apply register_fd_fresh|].
  by intros _ l [Hl Hf].
Qed.

Lemma cleanup_token_inv b t l : loop_inv b l -> fresh t l -> loop_inv b (with_cleanup_token (Some t) l).
Proof. intros [Hn Hs Ht Hd Hc] (? & ? & ? & ?). constructor; cbn; [done..|]. by intros ? [= <-]. Qed.

(** [add_duration] whose token becomes the cleanup token. *)
Lemma add_duration_cleanup_grows {A} spec (a : Token -> A) :
  grows 1 (t ← add_duration spec; _ ← modify (with_cleanup_token (Some t)); mret (a t)).
Proof.
  unfold add_duration. intros b l Hb Hl.
  assert (preserves (loop_inv b) (create_timer spec)) as Hp by (unfold create_timer; eauto with preserves).
  specialize (Hp l Hl). unfold mbind, op_bind.
  destruct (create_timer spec l) as [[fd|e|p] l1]; cbn [snd] in Hp |- *;
    [|eapply loop_inv_mono; [|done]; lia..].
  destruct (generate_token_fresh b l1 Hb Hp) as (l2 & -> & Hi & Hf).
  pose proof (register_fd_fresh (b + 1) (next_token l1) fd l2 (conj Hi Hf)) as Hr.
  destruct (register_fd fd (next_token l1) l2) as [[u|e|p] l3]; [|done..].
  destruct Hr. cbn. by apply cleanup_token_inv.
Qed.

Lemma add_cleanup_grows spec : grows 1 (add_cleanup spec).
Proof.
  intros b l Hb Hl. unfold add_cleanup.
  change (modify (with_cleanup (Some spec)) ≫= ?k) with (fun l => k () (with_cleanup (Some spec) l)).
  cbv beta. assert (Hl' : loop_inv b (with_cleanup (Some spec) l)) by (by destruct Hl).
  revert Hl'. generalize (with_cleanup (Some spec) l). clear l Hl. intros l Hl.
  assert (preserves (loop_inv b) (create_timer spec)) as Hp by (unfold create_timer; eauto with preserves).
  specialize (Hp l Hl). unfold mbind, op_bind.
  destruct (create_timer spec l) as [[fd|e|p] l1]; cbn [snd] in Hp |- *;
    [|eapply loop_inv_mono; [|done]; lia..].
  destruct (generate_token_fresh b l1 Hb Hp) as (l2 & -> & Hi & Hf).
  pose proof (register_fd_fresh (b + 1) (next_token l1) fd l2 (conj Hi Hf)) as Hr.
  destruct (register_fd fd (next_token l1) l2) as [[u|e|p] l3]; [|done..].
  destruct Hr. cbn. by apply cleanup_token_inv.
Qed.

Lemma register_event_source_grows s cb : grows 1 (register_event_source s cb).
Proof.
  unfold register_event_source. apply grows_generate. intros b t.
  eapply hoare_bind; [apply sys_fresh|].
  intros [e|]; cbn beta iota.
  - intros l [Hl Hf]. apply (proj2 (hoare_preserves (loop_inv b) _)); [|done]. eauto with preserves.
  - intros l [Hl Hf]. cbn. by apply insert_source_inv.
Qed.

Lemma unregister_event_source_preserves b free t : preserves (loop_inv b) (unregister_event_source free t).
Proof.
  unfold unregister_event_source. destruct free; [|apply preserves_ret].
  apply preserves_bind; [apply preserves_gets|]. intros ss. destruct (ss !! t) as [[src cb]|]; [|apply preserves_fail].
  apply preserves_bind; [apply preserves_modify; intros; by apply delete_source_inv|]. intros _.
  apply preserves_bind; [apply preserves_sys_inv|]. intros r.
  apply preserves_bind; [apply preserves_sys_inv|]. intros _. destruct r; eauto with preserves.
Qed.

Lemma unregister_timed_preserves b t : preserves (loop_inv b) (unregister_timed_event_source t).
Proof.
  unfold unregister_timed_event_source. apply preserves_bind; [apply preserves_gets|].
  intros ts. destruct (ts !! t) as [[[fd et] cb]|]; [|apply preserves_fail].
  apply preserves_bind; [apply preserves_modify; intros; by apply delete_timed_inv|]. intros _.
  apply preserves_bind; [apply preserves_sys_inv|]. intros []; eauto with preserves.
Qed.
Hint Resolve unregister_event_source_preserves unregister_timed_preserves : preserves.

Lemma set_token_preserves b free t : preserves (loop_inv b) (set_token free t).
Proof.
  unfold set_token. destruct free; [|apply preserves_fail]. apply preserves_modify. by intros l [].
Qed.

Lemma grows_weaken {A} n k (m : loop A) : n <= k -> grows n m -> grows k m.
Proof. intros Hk Hm b l Hb Hl. eapply loop_inv_mono; [|apply (Hm b); [lia|done]]. lia. Qed.

Lemma handle_message_grows m : grows 1 (handle_message m).
Proof.
  destruct m as [[spec|spec t cb|[src cb]|t| |spec th] free]; unfold handle_message.
  - apply (grows_bind 1 0); [lia|apply add_duration_grows|]. intros. apply grows_0. intros. apply set_token_preserves.
  - apply (grows_bind 1 0); [lia|apply register_timer_grows|]. intros. apply grows_0. intros. apply set_token_preserves.
  - apply (grows_bind 1 0); [lia|apply register_event_source_grows|]. intros. apply grows_0. intros. apply set_token_preserves.
  - apply (grows_weaken 0); [lia|]. apply grows_0. eauto with preserves.
  - apply (grows_weaken 0); [lia|]. apply grows_0. intros b. apply preserves_bind; [apply preserves_gets|].
    intros ss. apply preserves_for_each. intros [t [src cb]] _. eauto with preserves.
  - apply (grows_bind 1 0); [lia|apply add_cleanup_grows|]. intros. apply grows_0. intros.
    apply preserves_bind; [apply set_token_preserves|eauto with preserves].
Qed.

Lemma call_back_preserves b t src own cb arg l : sources l !! t = Some (src, own) -> loop_inv b l ->
  loop_inv b (call_back t src own cb arg l).2.
Proof.
  intros Ht Hl. unfold call_back. destruct (cb arg (src, os l)) as [o [src' w]]. cbn.
  apply loop_inv_os. by eapply replace_source_inv.
Qed.

Lemma enter_overtime_grows : grows 1 enter_overtime.
Proof.
  unfold enter_overtime. apply (grows_bind 0 1); [lia|apply grows_0; eauto with preserves|]. intros ts.
  apply (grows_bind 0 1); [lia|apply grows_0; eauto with preserves|]. intros exc.
  apply (grows_bind 0 1); [lia|apply grows_0; intros b|intros _].
  { apply preserves_for_each. intros t _. destruct (decide _); eauto with preserves. }
  apply (grows_bind 0 1); [lia|apply grows_0; eauto with preserves|]. intros [spec|].
  - apply (grows_bind 0 1); [lia|apply grows_0; intros b; apply preserves_modify; by intros l []|]. intros _.
    apply (add_duration_cleanup_grows spec (fun _ => NextEvent)).
  - apply (grows_weaken 0); [lia|]. apply grows_0. eauto with preserves.
Qed.

Lemma handle_event_grows t : grows 1 (handle_event t).
Proof.
  intros b l Hb Hl. assert (Hl1 : loop_inv (b + 1) l) by (eapply loop_inv_mono; [|done]; lia).
  unfold handle_event. change ((gets ?f ≫= ?k) l) with (k (f l) l). cbv beta.
  change ((gets ?f ≫= ?k) l) with (k (f l) l). cbv beta.
  destruct (sources l !! t) as [[src cb]|] eqn:Es.
  - pose proof (call_back_preserves (b + 1) t src cb cb t l Es Hl1) as Hc.
    unfold attempt, mbind, op_bind. destruct (call_back t src cb cb t l) as [[z|e|p] l']; [done| |done].
    cbn [snd] in Hc. pose proof (preserves_ignore _ _ (unregister_event_source_preserves (b + 1) true t) l' Hc) as Hu.
    by destruct (ignore _ l') as [[]].
  - destruct (timed_sources l !! t) as [[[fd inner] cb]|] eqn:Et.
    + destruct (sources l !! inner) as [[src own]|] eqn:Ei; [|done].
      pose proof (call_back_preserves (b + 1) inner src own cb inner l Ei Hl1) as Hc.
      unfold mbind at 1, op_bind at 1. destruct (call_back inner src own cb inner l) as [[z|e|p] l']; [|done..].
      cbn [snd] in Hc. apply (preserves_bind (loop_inv (b + 1)) (reset_timer fd)); [|eauto with preserves|done].
      unfold reset_timer. apply preserves_bind; [apply preserves_sys_inv|]. intros [r sp].
      destruct (r =? -1); eauto with preserves.
    + change ((gets ?f ≫= ?k) l) with (k (f l) l). cbv beta.
      change ((gets ?f ≫= ?k) l) with (k (f l) l). cbv beta.
      change ((gets ?f ≫= ?k) l) with (k (f l) l). cbv beta.
      destruct (overtime l); [by apply enter_overtime_grows|].
      destruct (cleanup l); [|done]. destruct (cleanup_token l) as [ct|]; [|by apply enter_overtime_grows].
      apply (preserves_bind (loop_inv (b + 1)) (unregister_timed_event_source ct)); [eauto with preserves| |done].
      intros _. apply preserves_bind; [apply preserves_modify|eauto with preserves].
      intros l' [Hn Hs Ht Hd Hc]. constructor; cbn; done.
Qed.

Lemma handle_events_grows evs : grows (Z.of_nat (length evs)) (handle_events evs).
Proof.
  induction evs as [|[t r] evs IH]; [apply grows_0; eauto with preserves|].
  cbn [handle_events length]. replace (Z.of_nat (S (length evs))) with (1 + Z.of_nat (length evs)) by lia.
  apply grows_bind; [lia|destruct r; [apply handle_event_grows|]|].
  - apply (grows_weaken 0); [lia|]. apply grows_0. eauto with preserves.
  - intros [| |]; [done|apply (grows_weaken 0); [lia|]; apply grows_0; eauto with preserves..].
Qed.

Lemma for_each_grows {A} (f : A -> loop ()) xs : (forall a, grows 1 (f a)) ->
  grows (Z.of_nat (length xs)) (for_each f xs).
Proof.
  intros Hf. induction xs as [|x xs IH]; [apply grows_0; eauto with preserves|]. cbn [for_each length].
  replace (Z.of_nat (S (length xs))) with (1 + Z.of_nat (length xs)) by lia.
  apply grows_bind; [lia|done|done].
Qed.

Lemma sweep_preserves b : preserves (loop_inv b) sweep.
Proof.
  unfold sweep. apply preserves_bind; [apply preserves_gets|]. intros ss.
  apply preserves_for_each. intros [t [src cb]] _. unfold sweep_entry. apply preserves_bind.
  - unfold is_fd_open. eauto with preserves.
  - intros []; eauto with preserves.
Qed.

Definition turn_size (t : turn (W:=W) (T:=T)) : Z :=
  Z.of_nat (length (t_messages t)) + match t_polled t with inl _ => 0 | inr evs => Z.of_nat (length evs) end.

Lemma run_turn_grows t : grows (turn_size t) (run_turn t).
Proof.
  unfold run_turn, turn_size. apply grows_bind; [destruct (t_polled t); lia|apply for_each_grows, handle_message_grows|].
  intros _. destruct (t_polled t) as [e|evs]; [apply grows_0; intros b l Hl; exact Hl|].
  change (mret evs ≫= ?k) with (k evs). cbv beta.
  rewrite <-(Z.add_0_r (Z.of_nat (length evs))). apply grows_bind; [lia|apply handle_events_grows|].
  intros f. apply grows_0. intros b. destruct f; [|apply preserves_ret..].
  apply preserves_bind; [apply sweep_preserves|eauto with preserves].
Qed.

Lemma run_grows ts : grows (foldr (fun t n => turn_size t + n) 0 ts) (run ts).
Proof.
  assert (Hpos : forall ts', 0 <= foldr (fun t n => turn_size t + n) 0 ts').
  { induction ts' as [|t ts' IH]; cbn; [lia|]. unfold turn_size at 1. destruct (t_polled t); lia. }
  induction ts as [|t ts IH]; [apply grows_0; intros b; apply preserves_ret|]. cbn [foldr run].
  apply grows_bind; [apply Hpos|apply run_turn_grows|]. intros [|]; [|done].
  apply (grows_weaken 0); [apply Hpos|]. apply grows_0. intros b. apply preserves_ret.
Qed.

(** ** What the operations do *)

(** The loop without the state of the operating system and the timed sources. *)
Definition only_timed (l l' : LinuxEventLoop (W:=W) (T:=T)) (m : gmap Token TimedSource) : Prop :=
  exists w, l' = with_os (with_timed m l) w.

Lemma sys_os {A} (f : W -> A * W) l : exists a w, sys f l = (Ok a, with_os l w).
Proof. unfold sys, effect. destruct (f (os l)) as [a w]. by exists a, w. Qed.

(** A system call in a program: its answer is some [a], and only the system changes. *)
Lemma bind_sys {A B} (f : W -> A * W) (k : A -> loop B) l :
  exists a w, (sys f ≫= k) l = k a (with_os l w) /\ f (os l) = (a, w).
Proof. unfold sys, effect, mbind, op_bind. destruct (f (os l)) as [a w]. by exists a, w. Qed.

Ltac run_sys r w := match goal with
  |- context [(sys ?f ≫= ?k) ?l] => destruct (bind_sys f k l) as (r & w & -> & _) end.

(** The descriptors of the timers in [ps] that are not exceptions, and the system without them. *)
Definition dropped_timers (exc : list Token) (ps : list (Token * TimedSource (W:=W) (T:=T))) : list Z :=
  (fun p => p.2.1.1) <$> filter (fun p => p.1 ∉ exc) ps.
Definition deregister_all (fds : list Z) (w : W) : W := foldl (fun w fd => (poll_deregister fd w).2) w fds.

(** A timer that exists is forgotten and deregistered, whatever the system says to it. *)
Lemma unregister_timed_known l t fd inner cb : timed_sources l !! t = Some (fd, inner, cb) ->
  ignore (unregister_timed_event_source t) l =
    (Ok (), with_os (with_timed (delete t (timed_sources l)) l) (poll_deregister fd (os l)).2).
Proof.
  intros Ht. set (l' := with_os _ _).
  assert (exists o, unregister_timed_event_source t l = (o, l') /\ (o = Ok () \/ exists e, o = Err e)) as (o & E & Ho).
  { unfold unregister_timed_event_source. run_op. unfold TimedSource in *. rewrite Ht. run_op.
    match goal with |- context [(sys ?f ≫= ?k) ?l0] => destruct (bind_sys f k l0) as (r & w & -> & E) end.
    cbn [os with_timed] in E. subst l'. rewrite E. destruct r; run_op; eexists; (split; [reflexivity|eauto]). }
  destruct Ho as [->|[e ->]]; [by eapply ignore_Ok|by eapply ignore_Err].
Qed.

Lemma unregister_timed_unknown l t : timed_sources l !! t = None ->
  ignore (unregister_timed_event_source t) l = (Ok (), l).
Proof.
  intros Ht. apply (ignore_Err _ _ (from_str "Failed to unregister timed event source: token not found")).
  unfold unregister_timed_event_source. run_op. unfold TimedSource in *. by rewrite Ht.
Qed.

Lemma unregister_timers_exact (exc : list Token) ps l : NoDup ps.*1 ->
  (forall t x, (t, x) ∈ ps -> timed_sources l !! t = Some x) ->
  for_each (fun t => if decide (t ∈ exc) then mret () else ignore (unregister_timed_event_source t)) ps.*1 l =
    (Ok (), with_os (with_timed (filter (fun p => p.1 ∈ exc \/ p.1 ∉ ps.*1) (timed_sources l)) l)
                    (deregister_all (dropped_timers exc ps) (os l))).
Proof.
  revert l. induction ps as [|[t [[fd inner] cb]] ps IH]; intros l Hn Hps.
  - cbn. rewrite map_filter_id; [by destruct l|]. intros. right. apply not_elem_of_nil.
  - cbn [fmap list_fmap fst for_each] in *. apply NoDup_cons in Hn as [Ht Hn].
    unfold dropped_timers. rewrite filter_cons. cbn [fst]. destruct (decide (t ∈ exc)) as [Hx|Hx].
    + rewrite decide_False by (by intros ?). run_op. rewrite IH; [|done|intros ???; apply Hps; by right].
      assert (filter (fun p => p.1 ∈ exc \/ p.1 ∉ ps.*1) (timed_sources l)
        = filter (fun p => p.1 ∈ exc \/ p.1 ∉ t :: ps.*1) (timed_sources l)) as ->; [|done].
      apply map_filter_ext. intros k x _. cbn. rewrite not_elem_of_cons. destruct (decide (k = t)) as [->|]; intuition congruence.
    + rewrite decide_True by done.
      rewrite (bind_Ok _ _ _ _ _ (unregister_timed_known l t fd inner cb (Hps _ _ ltac:(left)))).
      rewrite IH; [|done|]; cbn [timed_sources os with_os with_timed]; [|intros t' x Hin;
        rewrite lookup_delete_ne; [apply Hps; by right|intros <-; apply Ht, list_elem_of_fmap; by exists (t, x)]].
      assert (filter (fun p => p.1 ∈ exc \/ p.1 ∉ ps.*1) (delete t (timed_sources l))
        = filter (fun p => p.1 ∈ exc \/ p.1 ∉ t :: ps.*1) (timed_sources l)) as ->; [|done].
      apply map_eq. intros k. apply option_eq. intros x.
      rewrite !map_lookup_filter_Some, lookup_delete_Some. cbn. rewrite not_elem_of_cons.
      destruct (decide (k = t)) as [->|]; intuition congruence.
Qed.

(** A timer armed for the first expiry and the interval given, and registered. *)
Definition arm (spec : Itimerspec) (t : Token) (w : W) : W :=
  let '(fd, w1) := timerfd_create CLOCK_REALTIME TFD_NONBLOCK w in
  let w2 := (timerfd_settime fd 0
    {| c_interval := {| tv_sec := as_i 64 (as_secs (it_interval spec)); tv_nsec := subsec_nanos (it_interval spec) |};
       c_value := {| tv_sec := as_i 64 (as_secs (it_value spec)); tv_nsec := subsec_nanos (it_value spec) |} |} w1).2 in
  (poll_register fd t w2).2.

Lemma create_timer_os spec l : exists fd w, create_timer spec l = (Ok fd, with_os l w).
Proof.
  unfold create_timer, mbind, op_bind. destruct (sys_os (timerfd_create CLOCK_REALTIME TFD_NONBLOCK) l) as (fd & w & ->).
  destruct (sys_os (timerfd_settime fd 0 (itimerspec_to_libc spec)) (with_os l w)) as (r & w' & ->). by exists fd, w'.
Qed.

(** The operating system creates polls and registers every descriptor it is asked to. *)
Definition registers : Prop :=
  (forall w : W, (poll_new w).1 = None) /\ forall fd t (w : W), (poll_register fd t w).1 = None.

Lemma register_fd_os fd t l : registers -> exists w, register_fd fd t l = (Ok (), with_os l w).
Proof.
  intros [_ Hr]. unfold register_fd, mbind, op_bind, sys, effect. specialize (Hr fd t (os l)).
  destruct (poll_register fd t (os l)) as [o w]. cbn in Hr. subst. by exists w.
Qed.

Lemma add_duration_exact spec l : registers -> add_duration spec l =
  (Ok (next_token l), with_os (with_next_token (as_u 64 (next_token l + 1)) l) (arm spec (next_token l) (os l))).
Proof.
  intros [_ Hr]. unfold add_duration, create_timer, generate_token, register_fd, arm. rewrite !bind_bind.
  match goal with |- context [(sys ?f ≫= ?k) ?l0] => destruct (bind_sys f k l0) as (fd & w1 & -> & ->) end.
  rewrite !bind_bind.
  match goal with |- context [(sys ?f ≫= ?k) ?l0] => destruct (bind_sys f k l0) as (r & w2 & -> & E2) end.
  run_op. cbn [os with_os next_token with_next_token] in *. unfold itimerspec_to_libc in E2. rewrite E2. cbn [snd].
  match goal with |- context [(sys ?f ≫= ?k) ?l0] => destruct (bind_sys f k l0) as (o & w3 & -> & E3) end.
  cbn [os with_os with_next_token] in E3. pose proof (Hr fd (next_token l) w2) as Hn. rewrite E3 in Hn |- *. cbn in Hn. by subst o.
Qed.

Lemma add_duration_spec spec l : registers -> exists w, add_duration spec l =
  (Ok (next_token l), with_os (with_next_token (as_u 64 (next_token l + 1)) l) w).
Proof. intros Hr. eexists. by apply add_duration_exact. Qed.

Lemma sys_op_Ok {A} (m : op W CommonError A) l a w : m (os l) = (Ok a, w) -> sys_op m l = (Ok a, with_os l w).
Proof. unfold sys_op, zoom. by intros ->. Qed.

Lemma register_timer_spec spec t cb src l : registers -> sources l !! t = Some src -> exists fd w,
  register_timer spec t cb l = (Ok (next_token l),
    with_os (with_timed (<[next_token l := (fd, t, cb)]> (timed_sources l))
      (with_next_token (as_u 64 (next_token l + 1)) l)) w).
Proof.
  intros Hr Hs. unfold register_timer. destruct (create_timer_os spec l) as (fd & w & E).
  rewrite (bind_Ok _ _ _ _ _ E). unfold generate_token. run_op. cbn [next_token with_os].
  match goal with |- context [(register_fd fd ?n ≫= _) ?l1] => destruct (register_fd_os fd n l1 Hr) as (w2 & E2) end.
  rewrite (bind_Ok _ _ _ _ _ E2). run_op. cbn [sources with_os with_next_token]. unfold Source in *.
  rewrite Hs. run_op. by exists fd, w2.
Qed.

Lemma register_event_source_exact s cb l : registers ->
  register_event_source s cb l = (Ok (next_token l),
    with_os (with_sources (<[next_token l := (s, cb)]> (sources l)) (with_next_token (as_u 64 (next_token l + 1)) l))
      (poll_register (as_raw_fd s) (next_token l) (os l)).2).
Proof.
  intros Hr. unfold register_event_source, generate_token. run_op.
  match goal with |- context [(sys ?f ≫= ?k) ?l1] => destruct (bind_sys f k l1) as (r & w & -> & E) end.
  pose proof (proj2 Hr (as_raw_fd s) (next_token l) (os l)) as Hn. cbn [os with_next_token] in E.
  rewrite E in Hn |- *. cbn in Hn. subst r. by run_op.
Qed.

Lemma register_event_source_spec s cb l : registers -> exists w,
  register_event_source s cb l = (Ok (next_token l),
    with_os (with_sources (<[next_token l := (s, cb)]> (sources l))
      (with_next_token (as_u 64 (next_token l + 1)) l)) w).
Proof. intros Hr. rewrite register_event_source_exact by done. by eexists. Qed.

(** The state once the duration has expired. *)
Definition in_overtime (w : W) (l : LinuxEventLoop (W:=W) (T:=T)) : LinuxEventLoop := {|
  sources := sources l;
  timed_sources := filter (fun p => p.1 ∈ overtime_exceptions l) (timed_sources l);
  next_token := as_u 64 (next_token l + 1); overtime := None; overtime_exceptions := overtime_exceptions l;
  cleanup := cleanup l; cleanup_token := Some (next_token l); channel_token := channel_token l; os := w |}.

Lemma filter_all_keys (exc : list Token) (m : gmap Token (TimedSource (W:=W) (T:=T))) :
  filter (fun p => p.1 ∈ exc \/ p.1 ∉ (map_to_list m).*1) m = filter (fun p => p.1 ∈ exc) m.
Proof.
  apply map_filter_ext. intros k x Hx. cbn. split; [|by left]. intros [?|Hn]; [done|]. exfalso.
  apply Hn, list_elem_of_fmap. exists (k, x). split; [done|]. by apply elem_of_map_to_list.
Qed.

(** The system when the overtime has begun: the timers that are not exceptions deregistered, and
    the timer of the overtime armed. *)
Definition overtime_begins (spec : Itimerspec) l : W :=
  arm spec (next_token l) (deregister_all (dropped_timers (overtime_exceptions l) (map_to_list (timed_sources l))) (os l)).

Lemma enter_overtime_exact l spec : registers -> overtime l = Some spec ->
  enter_overtime l = (Ok NextEvent, in_overtime (overtime_begins spec l) l).
Proof.
  intros Hr Ho. unfold enter_overtime. run_op.
  assert (E := unregister_timers_exact (overtime_exceptions l) (map_to_list (timed_sources l)) l (NoDup_fst_map_to_list _)
    (fun t x => proj1 (elem_of_map_to_list _ t x))).
  rewrite filter_all_keys in E. rewrite (bind_Ok _ _ _ _ _ E). run_op. cbn [overtime with_os with_timed]. rewrite Ho. run_op.
  match goal with |- context [(add_duration spec ≫= _) ?l1] => rewrite (bind_Ok _ _ _ _ _ (add_duration_exact spec l1 Hr)) end.
  run_op. by destruct l.
Qed.

Lemma enter_overtime_spec l spec : registers -> overtime l = Some spec ->
  exists w, enter_overtime l = (Ok NextEvent, in_overtime w l).
Proof. intros Hr Ho. eexists. by apply enter_overtime_exact. Qed.

Lemma new_loop_exact drop_owned l : registers -> new_loop drop_owned l = (Ok (), empty_loop (poll_new (os l)).2).
Proof.
  intros [Hn _]. specialize (Hn (os l)). unfold new_loop, or_drop, LinuxEventLoop_new, sys_op, zoom, mbind, op_bind, effect, gets, modify.
  destruct (poll_new (os l)) as [o w]. cbn in Hn. by subst o.
Qed.

(** Without a poll there is no loop, and what was owned is dropped. *)
Lemma new_loop_fails drop_owned l e w : poll_new (os l) = (Some e, w) ->
  new_loop drop_owned l = (Err (from_io e), with_os l (drop_owned w)).
Proof.
  intros E. unfold new_loop, or_drop, LinuxEventLoop_new, sys_op, zoom, mbind, op_bind, effect. by rewrite E.
Qed.

(** A token that belongs to neither map: a duration, an overtime or a cleanup timer. *)
Definition untracked (t : Token) l : Prop := sources l !! t = None /\ timed_sources l !! t = None.

Lemma handle_event_untracked t l : untracked t l -> handle_event t l =
  match overtime l, cleanup l, cleanup_token l with
  | None, None, _ => (Ok BreakOuter, l)
  | None, Some _, Some ct =>
      (_ ← unregister_timed_event_source ct; _ ← modify (with_cleanup_token None); mret ContinueOuter) l
  | _, _, _ => enter_overtime l
  end.
Proof.
  intros [Hs Ht]. unfold handle_event. run_op. unfold Source, TimedSource in *. rewrite Hs, Ht. run_op.
  by destruct (overtime l), (cleanup l), (cleanup_token l).
Qed.

(** The system after the sweep: each source's descriptor was looked at. *)
Definition swept (ps : list (Token * Source (W:=W) (T:=T))) (w : W) : W :=
  foldl (fun w p => (sys_fcntl (as_raw_fd p.2.1) F_GETFD 0 w).2) w ps.

Lemma sweep_entry_exact l p : timed_sources l !! p.1 = None -> sweep_entry p l = (Ok (), with_os l (swept [p] (os l))).
Proof.
  destruct p as [t [src cb]]. intros Hp. unfold sweep_entry, is_fd_open, swept. run_op. cbn [foldl fst snd].
  match goal with |- context [(sys ?f ≫= ?k) ?l0] => destruct (bind_sys f k l0) as (r & w & -> & ->) end. run_op.
  match goal with |- context [(sys ?f ≫= ?k) ?l0] => destruct (bind_sys f k l0) as (e & w' & -> & E) end. run_op.
  cbn [os with_os] in E. injection E as <- <-. destruct (negb _); run_op; [done|].
  rewrite (bind_Ok _ _ _ _ _ (ignore_Ok (unregister_event_source false t) _ () _ eq_refl)).
  by rewrite unregister_timed_unknown.
Qed.

(** With no token shared between the maps, the sweep of closed descriptors removes nothing. *)
Lemma sweep_exact l : (forall t s, sources l !! t = Some s -> timed_sources l !! t = None) ->
  sweep l = (Ok (), with_os l (swept (map_to_list (sources l)) (os l))).
Proof.
  intros Hd. unfold sweep. run_op.
  assert (Hin : Forall (fun p => timed_sources l !! p.1 = None) (map_to_list (sources l))).
  { apply Forall_forall. intros [k x] Hk. apply elem_of_map_to_list in Hk. by eapply Hd. }
  revert Hin. generalize (map_to_list (sources l)). clear Hd. intros ps Hin. revert l Hin.
  induction ps as [|p ps IH]; intros l Hin; [by destruct l|].
  apply Forall_cons in Hin as [Hp Hin]. cbn [for_each]. rewrite (bind_Ok _ _ _ _ _ (sweep_entry_exact l p Hp)).
  by rewrite IH.
Qed.

Lemma sweep_noop l : (forall t s, sources l !! t = Some s -> timed_sources l !! t = None) ->
  exists w, sweep l = (Ok (), with_os l w).
Proof. intros Hd. eexists. by apply sweep_exact. Qed.

(** A property of the state that no call of the loop itself changes; callbacks may. *)
Record quiet (P : W -> Prop) : Prop := {
  quiet_new : forall w, P w -> P (poll_new w).2;
  quiet_fcntl : forall fd c a w, P w -> P (sys_fcntl fd c a w).2;
  quiet_create : forall c f w, P w -> P (timerfd_create c f w).2;
  quiet_settime : forall fd f t w, P w -> P (timerfd_settime fd f t w).2;
  quiet_gettime : forall fd w, P w -> P (timerfd_gettime fd w).2;
  quiet_register : forall fd t w, P w -> P (poll_register fd t w).2;
  quiet_deregister : forall fd w, P w -> P (poll_deregister fd w).2;
  quiet_drop : forall (x : T) w, P w -> P (drop_value x w)
}.

Lemma preserves_sys_os {A} (P : W -> Prop) (f : W -> A * W) : (forall w, P w -> P (f w).2) ->
  preserves (fun l => P (os l)) (sys f).
Proof.
  intros Hf. apply preserves_effect. intros l Hl. specialize (Hf _ Hl). by destruct (f (os l)).
Qed.

Lemma sweep_quiet P : quiet P -> preserves (fun l => P (os l)) sweep.
Proof.
  intros [_ Hf _ _ _ Hr Hd Hx]. unfold sweep. apply preserves_bind; [apply preserves_gets|]. intros ss.
  apply preserves_for_each. intros [t [src cb]] _. unfold sweep_entry, is_fd_open.
  repeat (apply preserves_bind; [|intros]); try (apply preserves_sys_os; by auto); [apply preserves_ret|].
  destruct a; [apply preserves_ret|]. apply preserves_bind; [by apply preserves_ignore, preserves_ret|].
  intros _. apply preserves_ignore. unfold unregister_timed_event_source.
  apply preserves_bind; [apply preserves_gets|]. intros ts. destruct (ts !! t) as [[[fd et] cb']|]; [|apply preserves_fail].
  apply preserves_bind; [by apply preserves_modify|]. intros _.
  apply preserves_bind; [apply preserves_sys_os; by auto|]. intros [e|]; [apply preserves_fail|apply preserves_ret].
Qed.

Lemma new_loop_quiet P drop_owned : quiet P -> (forall w, P w -> P (drop_owned w)) ->
  preserves (fun l => P (os l)) (new_loop drop_owned).
Proof.
  intros Hq Hd. unfold new_loop. apply preserves_or_drop; [intros l; apply Hd|].
  intros l Hl. unfold LinuxEventLoop_new, sys_op, zoom, mbind, op_bind, effect.
  pose proof (quiet_new _ Hq (os l) Hl) as Hp. by destruct (poll_new (os l)) as [[e|] w].
Qed.

Lemma generate_token_quiet P : preserves (fun l => P (os l)) generate_token.
Proof.
  unfold generate_token. apply preserves_bind; [apply preserves_gets|]. intros t.
  apply preserves_bind; [by apply preserves_modify|]. intros _. apply preserves_ret.
Qed.

Lemma add_duration_quiet P spec : quiet P -> preserves (fun l => P (os l)) (add_duration spec).
Proof.
  intros [_ _ Hc Hs _ Hr _ _]. unfold add_duration, create_timer, register_fd.
  repeat first [apply generate_token_quiet|apply preserves_ret|apply preserves_fail
    |apply preserves_sys_os; solve [auto]|case_match|apply preserves_bind; [|intros]].
Qed.

Lemma register_timer_quiet P spec t cb : quiet P -> preserves (fun l => P (os l)) (register_timer spec t cb).
Proof.
  intros [_ _ Hc Hs _ Hr _ _]. unfold register_timer, create_timer, register_fd.
  repeat first [apply generate_token_quiet|apply preserves_ret|apply preserves_fail|apply preserves_gets
    |apply preserves_modify; done|apply preserves_sys_os; solve [auto]|case_match|apply preserves_bind; [|intros]].
Qed.

Lemma register_event_source_quiet P s cb : quiet P -> preserves (fun l => P (os l)) (register_event_source s cb).
Proof.
  intros [_ _ _ _ _ Hr Hd Hx]. unfold register_event_source.
  apply preserves_bind; [apply generate_token_quiet|].
  intros t. apply preserves_bind; [apply preserves_sys_os; by auto|]. intros [e|].
  - apply preserves_bind; [apply preserves_sys_os; eauto|]. intros _. apply preserves_fail.
  - apply preserves_bind; [by apply preserves_modify|]. intros _. apply preserves_ret.
Qed.
End facts.

Ltac run_sys r w := match goal with
  |- context [(sys ?f ≫= ?k) ?l] => destruct (bind_sys f k l) as (r & w & -> & _) end.

(** What does not depend on the operating system is quiet. *)
Lemma part_quiet {S W T} `{Libc W, EpollOs W} (get : S -> W) (put : W -> S -> S) `{AR : AsRawFd S T} (P : S -> Prop) :
  (forall w s, P s -> P (put w s)) -> (forall (x : T) s, P s -> P (drop_value x s)) ->
  quiet (LC:=part_libc get put) (EO:=part_epoll get put) (T:=T) P.
Proof.
  intros Hp Hd. constructor; [..|done]; intros; cbn; unfold on_part; case_match; cbn; by apply Hp.
Qed.

(** ** A scripted operating system *)

Module ScriptedLoop.
#[export] Instance scripted_epoll : EpollOs scripted := {
  timerfd_create _ _ := step_call (CSocket 0 0);
  timerfd_settime fd _ _ := step_call (CFcntl fd 0 0);
  timerfd_gettime fd w := let '(r, w') := step_call (CFcntl fd 0 0) w in
    ((r, {| c_interval := {| tv_sec := 0; tv_nsec := 0 |}; c_value := {| tv_sec := 0; tv_nsec := 0 |} |}), w');
  poll_new w := (None, w);
  poll_register _ _ w := (None, w);
  poll_deregister _ w := (None, w);
  unpark _ w := w;
  show_io _ := "error"%string
}.
(** The value is its descriptor. *)
#[export] Instance scripted_fd : AsRawFd scripted Z := { as_raw_fd := id; drop_value fd w := (step_call (CClose fd) w).2 }.
End ScriptedLoop.
Import Scripted ScriptedLoop.

Definition no_callback : CallBack (W:=scripted) (T:=Z) := fun _ => mret 0.
Definition failing_callback : CallBack (W:=scripted) (T:=Z) := fun _ => fail Lock.

(** Source 0, a timer 1 on it, and a duration 2. *)
Definition sample_loop : LinuxEventLoop (W:=scripted) (T:=Z) := {|
  sources := {[ 0 := (7, no_callback) ]}; timed_sources := {[ 1 := (8, 0, no_callback) ]}; next_token := 3;
  overtime := Some {| it_interval := Duration_ZERO; it_value := Duration_from_secs 1 |};
  overtime_exceptions := []; cleanup := None; cleanup_token := None; channel_token := 2; os := scripted_of [] [] |}.

Lemma sample_loop_inv : loop_inv 3 sample_loop.
Proof.
  constructor; cbn; [lia|..|done].
  - intros t s [<- _]%lookup_singleton_Some. lia.
  - intros t s [<- _]%lookup_singleton_Some. lia.
  - intros t s [<- _]%lookup_singleton_Some. done.
Qed.

Lemma scripted_registers : registers (W:=scripted).
Proof. by split. Qed.

Section properties.
Context {W T : Type} `{LC : Libc W, EO : EpollOs W, AR : AsRawFd W T}.
Implicit Types l : LinuxEventLoop (W:=W) (T:=T).

(** A turn with no message and the given readable tokens. *)
Definition events_turn (ts : list Token) : turn (W:=W) (T:=T) :=
  {| t_messages := []; t_polled := inr ((fun t => (t, true)) <$> ts) |}.

Lemma run_turn_events ts l f l' : handle_events ((fun t => (t, true)) <$> ts) l = (Ok f, l') ->
  run_turn (events_turn ts) l =
    match f with BreakOuter => (Ok true, l') | ContinueOuter => (Ok false, l')
               | NextEvent => (_ ← sweep; mret false) l' end.
Proof.
  intros E. unfold run_turn, events_turn. cbn [t_messages t_polled for_each]. run_op.
  rewrite (bind_Ok _ _ _ _ _ E). by destruct f.
Qed.

Lemma handle_events_cons t ts l f l' : handle_event t l = (Ok f, l') ->
  handle_events ((fun t => (t, true)) <$> t :: ts) l =
    match f with NextEvent => handle_events ((fun t => (t, true)) <$> ts) l' | _ => (Ok f, l') end.
Proof. intros E. cbn [fmap list_fmap handle_events]. rewrite (bind_Ok _ _ _ _ _ E). by destruct f. Qed.

Lemma in_overtime_disjoint b l w t s : loop_inv b l ->
  sources (in_overtime w l) !! t = Some s -> timed_sources (in_overtime w l) !! t = None.
Proof.
  intros [_ _ _ Hd _] E. cbn in *. apply map_lookup_filter_None. left. by eapply Hd.
Qed.

Lemma next_untracked b l w : loop_inv b l -> untracked (next_token l) (in_overtime w l).
Proof.
  intros [Hn Hs Ht _ _]. split; cbn.
  - destruct (sources l !! next_token l) eqn:E; [|done]. apply Hs in E. lia.
  - apply map_lookup_filter_None. left. destruct (timed_sources l !! next_token l) eqn:E; [|done].
    apply Ht in E. lia.
Qed.

Lemma duration_event b l d spec : registers (W:=W) -> loop_inv b l -> overtime l = Some spec -> untracked d l ->
  exists w, handle_event d l = (Ok NextEvent, in_overtime w l).
Proof.
  intros Hr Hl Ho Hd. rewrite handle_event_untracked, Ho by done. by apply (enter_overtime_spec l spec).
Qed.

Lemma with_os_in_overtime w w' l : with_os (in_overtime w l) w' = in_overtime w' l.
Proof. done. Qed.

Lemma duration_turn b l d spec : registers (W:=W) -> loop_inv b l -> overtime l = Some spec -> untracked d l ->
  exists w, run_turn (events_turn [d]) l = (Ok false, in_overtime w l).
Proof.
  intros Hr Hl Ho Hd. destruct (duration_event b l d spec Hr Hl Ho Hd) as (w & E).
  rewrite (run_turn_events _ _ NextEvent (in_overtime w l)) by (by rewrite (handle_events_cons _ _ _ _ _ E)).
  destruct (sweep_noop (in_overtime w l)) as (w' & E'); [intros; by eapply in_overtime_disjoint|].
  rewrite (bind_Ok _ _ _ _ _ E'). by exists w'.
Qed.

(** The same, with what the system is asked for. *)
Lemma duration_turn_exact b l d spec : registers (W:=W) -> loop_inv b l -> overtime l = Some spec -> untracked d l ->
  run_turn (events_turn [d]) l = (Ok false, in_overtime (swept (map_to_list (sources l)) (overtime_begins spec l)) l).
Proof.
  intros Hr Hl Ho Hd.
  assert (E : handle_event d l = (Ok NextEvent, in_overtime (overtime_begins spec l) l)).
  { rewrite handle_event_untracked, Ho by done. by apply enter_overtime_exact. }
  rewrite (run_turn_events _ _ NextEvent (in_overtime (overtime_begins spec l) l)) by (by rewrite (handle_events_cons _ _ _ _ _ E)).
  by rewrite (bind_Ok _ _ _ _ _ (sweep_exact (in_overtime _ l) (fun t s => in_overtime_disjoint b l _ t s Hl))).
Qed.

(** An overtime that has begun is ended by its timer. *)
Lemma overtime_ends b l w rest : loop_inv b l -> cleanup l = None ->
  run (events_turn [next_token l] :: rest) (in_overtime w l) = (Ok true, in_overtime w l).
Proof.
  intros Hl Hc. assert (E2 : handle_event (next_token l) (in_overtime w l) = (Ok BreakOuter, in_overtime w l)).
  { rewrite handle_event_untracked by (by eapply next_untracked). cbn. by rewrite Hc. }
  cbn [run]. rewrite (bind_Ok _ _ _ true (in_overtime w l)); [done|].
  rewrite (run_turn_events _ _ BreakOuter (in_overtime w l)); [done|].
  by rewrite (handle_events_cons _ _ _ _ _ E2).
Qed.

(** A duration timer starts the overtime; the overtime's timer ends the loop. *)
Lemma duration_ends b l d spec rest : registers (W:=W) -> loop_inv b l -> overtime l = Some spec ->
  cleanup l = None -> untracked d l ->
  exists w, run_turn (events_turn [d]) l = (Ok false, in_overtime w l) /\
    run (events_turn [d] :: events_turn [next_token l] :: rest) l = (Ok true, in_overtime w l).
Proof.
  intros Hr Hl Ho Hc Hd. destruct (duration_turn b l d spec Hr Hl Ho Hd) as (w & E).
  exists w. split; [done|]. cbn [run]. rewrite (bind_Ok _ _ _ _ _ E). by apply (overtime_ends b).
Qed.

(** With a timed cleanup the end of the overtime is an error. *)
Lemma overtime_end_fails b l w spec rest : loop_inv b l -> cleanup l = Some spec ->
  run (events_turn [next_token l] :: rest) (in_overtime w l) =
    (Err (Generic "Failed to unregister timed event source: token not found"), in_overtime w l).
Proof.
  intros Hl Hc. cbn [run]. apply bind_Err. unfold run_turn. cbn [events_turn t_messages t_polled for_each]. run_op.
  apply bind_Err. cbn [fmap list_fmap handle_events]. apply bind_Err.
  rewrite handle_event_untracked by (by eapply next_untracked). cbn [overtime cleanup cleanup_token in_overtime].
  rewrite Hc. apply bind_Err. unfold unregister_timed_event_source. run_op.
  destruct (next_untracked b l w Hl) as [_ Ht]. unfold TimedSource in *. by rewrite Ht.
Qed.

(** A source whose callback succeeds keeps the value the callback leaves. *)
Lemma source_event_succeeds l t src (cb : CallBack) src' w' z : sources l !! t = Some (src, cb) ->
  cb t (src, os l) = (Ok z, (src', w')) ->
  handle_event t l = (Ok NextEvent, with_os (with_sources (<[t := (src', cb)]> (sources l)) l) w').
Proof.
  intros Hs Hcb. unfold handle_event. run_op. unfold Source in *. rewrite Hs.
  erewrite bind_attempt_Ok; [|unfold call_back; rewrite Hcb; reflexivity]. done.
Qed.

(** A source whose callback fails is dropped, and the loop goes on. *)
(** The source of a failed callback is forgotten, deregistered and dropped. *)
Lemma source_event_fails l t src (cb : CallBack) src' w' e :
  sources l !! t = Some (src, cb) -> cb t (src, os l) = (Err e, (src', w')) ->
  handle_event t l = (Ok NextEvent, with_os (with_sources (delete t (sources l)) l)
    (drop_value src' (poll_deregister (as_raw_fd src') w').2)).
Proof.
  intros Hs Hcb. unfold handle_event. run_op. unfold Source in *. rewrite Hs.
  erewrite bind_attempt_Err; [|unfold call_back; rewrite Hcb; reflexivity]. cbv iota.
  set (l1 := with_os _ w'). set (l2 := with_os _ (drop_value _ _)).
  assert (exists o, unregister_event_source true t l1 = (o, l2) /\ (o = Ok () \/ exists e', o = Err e')) as (o & E & Ho).
  { unfold unregister_event_source. run_op. subst l1. cbn [sources with_os with_sources].
    unfold Source in *. rewrite lookup_insert_eq. run_op.
    match goal with |- context [(sys ?f ≫= ?k) ?l0] => destruct (bind_sys f k l0) as (r & w & -> & Ew) end. run_op.
    match goal with |- context [(sys ?f ≫= ?k) ?l0] => destruct (bind_sys f k l0) as (u & w2 & -> & Ew2) end. run_op.
    cbn [os with_os with_sources] in Ew, Ew2. injection Ew2 as _ <-.
    assert (El : with_os (with_os (with_sources (delete t (<[t:=(src', cb)]> (sources l))) (with_os (with_sources (<[t:=(src', cb)]> (sources l)) l) w')) w)
      (drop_value src' w) = l2) by (unfold l2; rewrite Ew; unfold with_os, with_sources; cbn; by rewrite delete_insert_eq).
    destruct r as [er|]; run_op; eexists; (split; [f_equal; exact El|eauto]). }
  assert (ignore (unregister_event_source true t) l1 = (Ok (), l2)) as Hi.
  { destruct Ho as [->|[e' ->]]; [by eapply ignore_Ok|by eapply ignore_Err]. }
  by rewrite (bind_Ok _ _ _ _ _ Hi).
Qed.
End properties.

(** ** Properties *)

(** C23: tokens are never mixed up: in every run from a new loop, over any messages and events
    (fewer than 2^64 of them) and any callbacks and system calls, also when it fails, the
    tokens in use were generated before, no token is both a source and a timed source, and the
    cleanup token is neither. *)
Theorem event_loop_tokens {W T} `{Libc W, EpollOs W, AsRawFd W T} (w : W) (turns : list (turn (W:=W) (T:=T))) :
  foldr (fun t n => turn_size t + n) 0 turns < 2 ^ 64 ->
  let l := (run turns (empty_loop w)).2 in
  0 <= next_token l <= foldr (fun t n => turn_size t + n) 0 turns /\
  (forall t, is_Some (sources l !! t) \/ is_Some (timed_sources l !! t) -> 0 <= t < next_token l) /\
  (forall t, is_Some (sources l !! t) -> timed_sources l !! t = None) /\
  (forall t, cleanup_token l = Some t -> untracked t l).
Proof.
  intros Hsize l. assert (Hl : loop_inv (0 + foldr (fun t n => turn_size t + n) 0 turns) l).
  { apply run_grows; [lia|]. constructor; cbn; done. }
  destruct Hl as [Hn Hs Ht Hd Hc]. split; [lia|]. split; [|split].
  - intros t [[s E]|[s E]]; [by eapply Hs|by eapply Ht].
  - intros t [s E]. by eapply Hd.
  - intros t E. by destruct (Hc t E) as (_ & ? & ?).
Qed.

Example event_loop_tokens_witness :
  let turns := [{| t_messages := [(Register (7, no_callback), true); (RegisterTimed
      {| it_interval := Duration_ZERO; it_value := Duration_ZERO |} 0 no_callback, true)]; t_polled := inr [(1, true)] |}] in
  0 <= next_token (run turns (empty_loop (scripted_of [] []))).2 <= 3.
Proof. intros turns. apply (event_loop_tokens (scripted_of [] []) turns). reflexivity. Defined.

(** C7: a loop that waits for its duration ends: in the turn in which the duration timer fires the
    loop drops every timed source but the exceptions, each one's descriptor deregistered once,
    keeps its sources, and starts the overtime: a new timer, created, armed with the seconds
    and nanoseconds of the overtime as its first expiry and its interval, and registered under
    the next token; of the system nothing else is asked but whether the sources' descriptors
    are open.  The event of that timer, in the next turn, makes [run] return [Ok]. *)
Theorem event_loop_terminates {W T} `{Libc W, EpollOs W, AsRawFd W T}
    b (l : LinuxEventLoop (W:=W) (T:=T)) d spec rest :
  registers (W:=W) -> loop_inv b l -> overtime l = Some spec -> cleanup l = None -> untracked d l ->
  let w1 := deregister_all (dropped_timers (overtime_exceptions l) (map_to_list (timed_sources l))) (os l) in
  let w2 := arm spec (next_token l) w1 in
  let w3 := swept (map_to_list (sources l)) w2 in
  run_turn (events_turn [d]) l = (Ok false, in_overtime w3 l) /\
  run (events_turn [d] :: events_turn [next_token l] :: rest) l = (Ok true, in_overtime w3 l).
Proof.
  intros Hr Hl Ho Hc Hd w1 w2 w3. pose proof (duration_turn_exact b l d spec Hr Hl Ho Hd) as E. split; [exact E|].
  cbn [run]. rewrite (bind_Ok _ _ _ _ _ E). by apply (overtime_ends b).
Qed.

(** The timer 1 is deregistered, the overtime's is on the descriptor the script gives, 12. *)
Example event_loop_terminates_witness :
  let l := with_os sample_loop (scripted_of [12] []) in
  run [events_turn [2]; events_turn [3]] l =
    (Ok true, in_overtime {| script := []; datagrams := []; errno_ := 98;
       calls := [CSocket 0 0; CFcntl 12 0 0; CFcntl 7 F_GETFD 0] |} l).
Proof.
  intros l. destruct (event_loop_terminates 3 l 2 {| it_interval := Duration_ZERO; it_value := Duration_from_secs 1 |} [])
    as [_ E]; [apply scripted_registers|apply loop_inv_os, sample_loop_inv|done|done|done|exact E].
Defined.

(** C36: a loop with a timed cleanup does not end with [Ok]: once the cleanup timer fired (it
    starts the overtime, as a duration does) the next timer makes [run] fail with "token not
    found", because the cleanup token is never among the timed sources. *)
Theorem event_loop_cleanup_fails {W T} `{Libc W, EpollOs W, AsRawFd W T}
    b (l : LinuxEventLoop (W:=W) (T:=T)) d spec spec' rest :
  registers (W:=W) -> loop_inv b l -> overtime l = Some spec -> cleanup l = Some spec' -> untracked d l ->
  exists w, run (events_turn [d] :: events_turn [next_token l] :: rest) l =
    (Err (Generic "Failed to unregister timed event source: token not found"), in_overtime w l).
Proof.
  intros Hr Hl Ho Hc Hd. destruct (duration_turn b l d spec Hr Hl Ho Hd) as (w & E).
  exists w. cbn [run]. rewrite (bind_Ok _ _ _ _ _ E). by apply (overtime_end_fails b l w spec').
Qed.

Example event_loop_cleanup_fails_witness : exists w,
  run [events_turn [2]; events_turn [3]]
      (with_cleanup (Some {| it_interval := Duration_ZERO; it_value := Duration_from_secs 5 |}) sample_loop) =
    (Err (Generic "Failed to unregister timed event source: token not found"),
     in_overtime w (with_cleanup (Some {| it_interval := Duration_ZERO; it_value := Duration_from_secs 5 |}) sample_loop)).
Proof.
  apply (event_loop_cleanup_fails 3 (with_cleanup (Some {| it_interval := Duration_ZERO; it_value := Duration_from_secs 5 |}) sample_loop)
    2 {| it_interval := Duration_ZERO; it_value := Duration_from_secs 1 |}
    {| it_interval := Duration_ZERO; it_value := Duration_from_secs 5 |} []);
    [apply scripted_registers|destruct sample_loop_inv; by constructor|done|done|done].
Defined.

(** When a duration and a running timer are ready in the same poll, the loop ends at once:
    the timer was dropped by the duration's handler, so its event is taken for the end of an
    overtime that has not begun. *)
Theorem event_loop_stale_timer {W T} `{Libc W, EpollOs W, AsRawFd W T}
    b (l : LinuxEventLoop (W:=W) (T:=T)) d t ts spec :
  registers (W:=W) -> loop_inv b l -> overtime l = Some spec -> cleanup l = None -> untracked d l ->
  timed_sources l !! t = Some ts -> t ∉ overtime_exceptions l ->
  exists w, run_turn (events_turn [d; t]) l = (Ok true, in_overtime w l).
Proof.
  intros Hr Hl Ho Hc Hd Ht Hx. destruct (duration_event b l d spec Hr Hl Ho Hd) as (w & E).
  exists w. rewrite (run_turn_events _ _ BreakOuter (in_overtime w l)); [done|].
  rewrite (handle_events_cons _ _ _ _ _ E).
  assert (E2 : handle_event t (in_overtime w l) = (Ok BreakOuter, in_overtime w l)).
  { rewrite handle_event_untracked; [cbn; by rewrite Hc|]. split; cbn.
    - destruct (sources l !! t) eqn:Es; [|done]. apply (inv_disjoint b l Hl) in Es. congruence.
    - apply map_lookup_filter_None. right. by intros x _. }
  by rewrite (handle_events_cons _ _ _ _ _ E2).
Qed.

Example event_loop_stale_timer_witness : exists w,
  run_turn (events_turn [2; 1]) sample_loop = (Ok true, in_overtime w sample_loop).
Proof.
  apply (event_loop_stale_timer 3 sample_loop 2 1 (8, 0, no_callback)
    {| it_interval := Duration_ZERO; it_value := Duration_from_secs 1 |});
    [apply scripted_registers|apply sample_loop_inv|done|done|done|done|apply not_elem_of_nil].
Defined.

(** Sources whose descriptor is closed are never removed: after a [Clean] message has
    closed every source, the sweep finds them and removes none, since it holds the lock that
    the removal tries to take; the turn leaves both maps as they were. *)
Theorem event_loop_sweep_removes_nothing {W T} `{Libc W, EpollOs W, AsRawFd W T}
    b (l : LinuxEventLoop (W:=W) (T:=T)) free :
  loop_inv b l ->
  exists w, run_turn {| t_messages := [(Clean, free)]; t_polled := inr [] |} l = (Ok false, with_os l w).
Proof.
  intros Hl. unfold run_turn. cbn [t_messages t_polled for_each handle_message handle_events]. run_op.
  assert (forall (ps : list (Token * Source (W:=W) (T:=T))) (l1 : LinuxEventLoop (W:=W) (T:=T)), exists w, for_each (fun '(_, (source, _)) =>
    _ ← sys (sys_close (as_raw_fd source)); mret ()) ps l1 = (Ok (), with_os l1 w)) as Hclose.
  { induction ps as [|[t [s c]] ps IH]; intros l1; [exists (os l1); by destruct l1|]. cbn [for_each]. run_op.
    run_sys r w. destruct (IH (with_os l1 w)) as (w' & E). by exists w'. }
  destruct (Hclose (map_to_list (sources l)) l) as (w & E). rewrite (bind_Ok _ _ _ _ _ E). run_op.
  destruct (sweep_noop (with_os l w)) as (w' & E'); [apply (inv_disjoint b l Hl)|].
  change (handle_events []) with (mret NextEvent : op (LinuxEventLoop (W:=W) (T:=T)) CommonError flow). run_op.
  rewrite (bind_Ok _ _ _ _ _ E'). by exists w'.
Qed.

Example event_loop_sweep_removes_nothing_witness : exists w,
  run_turn {| t_messages := [(Clean, true)]; t_polled := inr [] |} sample_loop = (Ok false, with_os sample_loop w).
Proof. apply (event_loop_sweep_removes_nothing 3), sample_loop_inv. Defined.

(** C31: an event on a source calls its callback once, on its value and token; when the callback
    succeeds the source keeps the new value, and when it fails that source is forgotten, its
    descriptor deregistered and its value dropped, and every other source and timed source is
    left alone; the loop goes on either way. *)
Theorem source_event_spec {W T} `{Libc W, EpollOs W, AsRawFd W T}
    (l : LinuxEventLoop (W:=W) (T:=T)) t src (cb : CallBack) src' w' :
  sources l !! t = Some (src, cb) ->
  (forall z, cb t (src, os l) = (Ok z, (src', w')) ->
     handle_event t l = (Ok NextEvent, with_os (with_sources (<[t := (src', cb)]> (sources l)) l) w')) /\
  (forall e, cb t (src, os l) = (Err e, (src', w')) ->
     handle_event t l = (Ok NextEvent, with_os (with_sources (delete t (sources l)) l)
       (drop_value src' (poll_deregister (as_raw_fd src') w').2))).
Proof.
  intros Hs. split; [intros z; by apply source_event_succeeds|intros e; by apply source_event_fails].
Qed.

Example source_event_spec_witness :
  let l := with_sources {[ 0 := (7, failing_callback) ]} sample_loop in
  handle_event 0 l = (Ok NextEvent, with_os (with_sources (delete 0 (sources l)) l) (drop_value 7 (poll_deregister 7 (os l)).2)).
Proof.
  intros l. apply (proj2 (source_event_spec l 0 7 failing_callback 7 (os l) ltac:(reflexivity)) Lock). reflexivity.
Defined.

(** A timer registered for a source that does not exist is reported as registered, but it
    is kept nowhere: when it fires during normal operation the loop takes it for the end of
    the duration and enters its overtime. *)
Theorem register_timer_missing_source {W T} `{Libc W, EpollOs W, AsRawFd W T}
    b (l : LinuxEventLoop (W:=W) (T:=T)) spec t cb over :
  registers (W:=W) -> loop_inv b l -> b + 1 < 2 ^ 64 -> overtime l = Some over -> sources l !! t = None ->
  exists l', register_timer spec t cb l = (Ok (next_token l), l') /\
    sources l' = sources l /\ timed_sources l' = timed_sources l /\
    exists w, run_turn (events_turn [next_token l]) l' = (Ok false, in_overtime w l').
Proof.
  intros Hr Hl Hb Ho Hs. unfold register_timer.
  destruct (create_timer_os spec l) as (fd & w & E). rewrite (bind_Ok _ _ _ _ _ E).
  destruct (generate_token_fresh b (with_os l w) Hb (loop_inv_os _ _ _ Hl)) as (l2 & E2 & Hl2 & Hf).
  assert (l2 = with_next_token (as_u 64 (next_token l + 1)) (with_os l w)) as -> by (by injection E2).
  rewrite (bind_Ok _ _ _ _ _ E2). cbn [next_token with_os].
  match goal with |- context [(register_fd fd ?n ≫= _) ?l1] => destruct (register_fd_os fd n l1 Hr) as (w2 & E3) end.
  rewrite (bind_Ok _ _ _ _ _ E3). run_op. cbn [sources with_os with_next_token]. unfold Source in *.
  rewrite Hs. run_op. eexists. split; [reflexivity|]. split; [done|]. split; [done|].
  apply (duration_turn (b + 1) _ _ over); [done| |done|].
  - exact (loop_inv_os _ _ w2 Hl2).
  - destruct Hf as (_ & ? & ? & _). by split.
Qed.

Example register_timer_missing_source_witness : exists l',
  register_timer {| it_interval := Duration_ZERO; it_value := Duration_ZERO |} 5 no_callback sample_loop = (Ok 3, l') /\
  sources l' = sources sample_loop /\ timed_sources l' = timed_sources sample_loop /\
  exists w, run_turn (events_turn [3]) l' = (Ok false, in_overtime w l').
Proof.
  apply (register_timer_missing_source 3 sample_loop _ 5 no_callback
    {| it_interval := Duration_ZERO; it_value := Duration_from_secs 1 |});
    [apply scripted_registers|apply sample_loop_inv|lia|done|done].
Defined.
