(* ===== verification/LoopTrait.v ===== *)
(** * The interface [EventLoopTrait] of [network_commons/src/event_loop.rs]

    The operations of the trait as a class, what their documentation promises as laws over an
    abstract registry (the sources and the timers registered, the tokens given out), a client
    proved from the laws alone, and the proof that [LinuxEventLoop] obeys them. *)
From stdpp Require Import base list option numbers strings gmap.
From Stdlib Require Import ZArith Lia.
From S2P Require Import Prelude Float64 Errors Time Net DataModel Messages Sockets EventLoop.
Local Open Scope Z_scope.

(** ** The trait *)

(** [L]: the loop, [CB]: its callbacks, [Turn]: what one turn of [run] meets outside (the
    receiver of the trait's [run] is all it needs in the program). *)
Class EventLoopTrait (W L T CB Turn : Type) := {
  el_new : op W CommonError L;
  el_generate_token : op L CommonError Token;
  el_register_event_source : T -> CB -> op L CommonError Token;
  el_unregister_event_source : Token -> op L CommonError ();
  el_unregister_timed_event_source : Token -> op L CommonError ();
  el_run : list Turn -> op L CommonError bool;
  el_add_duration : Itimerspec -> op L CommonError Token;
  el_add_cleanup : Itimerspec -> op L CommonError Token;
  el_register_timer : Itimerspec -> Token -> CB -> op L CommonError Token
}.

(** ** What it promises *)

Section registry.
Context {T CB : Type}.

(** The sources, the timers with the token of the source each is for, the tokens given out. *)
Record registry := {
  reg_sources : gmap Token (T * CB);
  reg_timers : gmap Token (Token * CB);
  reg_issued : Token -> Prop
}.

Inductive command :=
  | GenerateToken
  | RegisterSource (source : T) (callback : CB)
  | UnregisterSource (token : Token)
  | UnregisterTimer (token : Token)
  | AddDurationTimer (spec : Itimerspec)
  | AddCleanupTimer (spec : Itimerspec)
  | RegisterTimer (spec : Itimerspec) (token : Token) (callback : CB).

(** A new token: not given out before, given out now. *)
Definition granted (t : Token) (a a' : registry) : Prop := ~ reg_issued a t /\ reg_issued a' t.

Definition extends (a a' : registry) : Prop := forall t, reg_issued a t -> reg_issued a' t.

(** The maps after a command that succeeded with a token, if it gives one. *)
Definition commanded (c : command) (t : option Token) (a a' : registry) : Prop :=
  match c, t with
  | (GenerateToken | AddDurationTimer _ | AddCleanupTimer _), Some t =>
      granted t a a' /\ reg_sources a' = reg_sources a /\ reg_timers a' = reg_timers a
  | RegisterSource s cb, Some t =>
      granted t a a' /\ reg_sources a' = <[t := (s, cb)]> (reg_sources a) /\ reg_timers a' = reg_timers a
  | RegisterTimer _ s cb, Some t => granted t a a' /\ reg_sources a' = reg_sources a /\
      reg_timers a' = match reg_sources a !! s with Some _ => <[t := (s, cb)]> (reg_timers a) | None => reg_timers a end
  | UnregisterSource t, None => is_Some (reg_sources a !! t) /\
      reg_sources a' = delete t (reg_sources a) /\ reg_timers a' = reg_timers a
  | UnregisterTimer t, None => is_Some (reg_timers a !! t) /\
      reg_timers a' = delete t (reg_timers a) /\ reg_sources a' = reg_sources a
  | _, _ => False
  end.

(** After a command that failed: an unregistered token is gone all the same. *)
Definition refused (c : command) (a a' : registry) : Prop :=
  match c with
  | UnregisterSource t => reg_sources a' = delete t (reg_sources a) /\ reg_timers a' = reg_timers a
  | UnregisterTimer t => reg_timers a' = delete t (reg_timers a) /\ reg_sources a' = reg_sources a
  | _ => reg_sources a' = reg_sources a /\ reg_timers a' = reg_timers a
  end.

Definition command_spec (c : command) (r : outcome CommonError (option Token)) (a a' : registry) : Prop :=
  extends a a' /\ match r with Ok t => commanded c t a a' | Err _ => refused c a a' | Panic _ => False end.

Section trait.
Context {W L Turn : Type} `{EL : EventLoopTrait W L T CB Turn}.

Definition command_exec (c : command) : op L CommonError (option Token) :=
  match c with
  | GenerateToken => t ← el_generate_token; mret (Some t)
  | RegisterSource s cb => t ← el_register_event_source s cb; mret (Some t)
  | UnregisterSource t => _ ← el_unregister_event_source t; mret None
  | UnregisterTimer t => _ ← el_unregister_timed_event_source t; mret None
  | AddDurationTimer spec => t ← el_add_duration spec; mret (Some t)
  | AddCleanupTimer spec => t ← el_add_cleanup spec; mret (Some t)
  | RegisterTimer spec t cb => t ← el_register_timer spec t cb; mret (Some t)
  end.
End trait.
End registry.
Arguments registry : clear implicits.
Arguments command : clear implicits.

(** Fewer than [b] tokens were given out: [el_good b]; they are [usize]. *)
Class EventLoopLaws (W L T CB Turn : Type) `{EL : EventLoopTrait W L T CB Turn} := {
  el_good : Z -> L -> Prop;
  el_registry : L -> registry T CB;
  el_turn_size : Turn -> Z;
  el_new_good w l w' : el_new w = (Ok l, w') -> el_good 0 l;
  el_new_empty w l w' : el_new w = (Ok l, w') -> reg_sources (el_registry l) = ∅ /\ reg_timers (el_registry l) = ∅ /\
    forall t, ~ reg_issued (el_registry l) t;
  el_command c b l r l' : el_good b l -> b + 1 < 2 ^ 64 -> command_exec c l = (r, l') ->
    el_good (b + 1) l' /\ command_spec c r (el_registry l) (el_registry l');
  el_run_good turns b l : el_good b l -> b + foldr (fun t n => el_turn_size t + n) 0 turns < 2 ^ 64 ->
    el_good (b + foldr (fun t n => el_turn_size t + n) 0 turns) (el_run turns l).2
}.

(** ** A client *)

Section client.
Context {W L T CB Turn : Type} `{ELL : EventLoopLaws W L T CB Turn}.

(** A program of commands, none of whose failures stops it: the tokens it is given. *)
Fixpoint command_run (cs : list (command T CB)) (l : L) : list (command T CB * Token) * L :=
  match cs with
  | [] => ([], l)
  | c :: cs' =>
      let '(r, l1) := command_exec c l in
      let '(ts, l2) := command_run cs' l1 in
      (match r with Ok (Some t) => (c, t) :: ts | _ => ts end, l2)
  end.

Definition unregisters (t : Token) (c : command T CB) : Prop := c = UnregisterSource t.

Lemma command_run_spec cs b l : el_good b l -> b + Z.of_nat (length cs) < 2 ^ 64 ->
  let '(ts, l') := command_run cs l in
  el_good (b + Z.of_nat (length cs)) l' /\ extends (el_registry l) (el_registry l') /\
  NoDup ts.*2 /\ Forall (fun t => ~ reg_issued (el_registry l) t /\ reg_issued (el_registry l') t) ts.*2 /\
  (forall t s cb, reg_sources (el_registry l) !! t = Some (s, cb) -> Forall (fun c => ~ unregisters t c) cs ->
     reg_issued (el_registry l) t -> reg_sources (el_registry l') !! t = Some (s, cb)) /\
  (forall t s cb, (RegisterSource s cb, t) ∈ ts -> Forall (fun c => ~ unregisters t c) cs ->
     reg_sources (el_registry l') !! t = Some (s, cb)).
Proof.
  revert b l. induction cs as [|c cs IH]; intros b l Hg Hb; cbn [command_run length].
  { rewrite Z.add_0_r. split; [done|]. split; [by intros t|]. split; [constructor|]. split; [constructor|]. split; [done|].
    intros t s cb Ht. by apply not_elem_of_nil in Ht. }
  destruct (command_exec c l) as [r l1] eqn:Ec.
  destruct (el_command c b l r l1 Hg ltac:(cbn [length] in Hb; lia) Ec) as [Hg1 [He1 Hs1]].
  specialize (IH (b + 1) l1 Hg1 ltac:(cbn [length] in Hb; lia)).
  destruct (command_run cs l1) as [ts l2]. destruct IH as (Hg2 & He2 & Hnd & Hf & Hkeep & Hreg).
  replace (b + Z.of_nat (S (length cs))) with (b + 1 + Z.of_nat (length cs)) by lia.
  assert (Hf' : Forall (fun t => ~ reg_issued (el_registry l) t /\ reg_issued (el_registry l2) t) ts.*2).
  { eapply Forall_impl; [exact Hf|]. intros t [Hn Hi]. split; [|done]. intros Ht. by apply Hn, He1. }
  (* what was registered stays after [c] *)
  assert (Hk1 : forall t s cb, reg_sources (el_registry l) !! t = Some (s, cb) -> ~ unregisters t c ->
    reg_issued (el_registry l) t -> reg_sources (el_registry l1) !! t = Some (s, cb)).
  { intros t s cb Ht Hu Hi. destruct r as [o|e|p]; [|destruct c; cbn in Hs1; destruct Hs1 as [H1 H2]; try congruence|done].
    - destruct c, o; cbn in Hs1; try done; destruct Hs1 as (H1 & H2 & H3); try congruence.
      + rewrite H2, lookup_insert_ne; [done|]. intros ->. by destruct H1.
      + rewrite H2, lookup_delete_ne; [done|]. intros ->. by apply Hu.
    - rewrite H1, lookup_delete_ne; [done|]. intros ->. by apply Hu. }
  assert (Hk : forall t s cb, reg_sources (el_registry l) !! t = Some (s, cb) -> Forall (fun c => ~ unregisters t c) (c :: cs) ->
    reg_issued (el_registry l) t -> reg_sources (el_registry l2) !! t = Some (s, cb)).
  { intros t s cb Ht Hu Hi. apply Forall_cons in Hu as [Hu Hus]. apply Hkeep; [by apply Hk1|done|by apply He1]. }
  assert (He : extends (el_registry l) (el_registry l2)) by (intros t Ht; by apply He2, He1).
  assert (Hr : forall t s cb, (RegisterSource s cb, t) ∈ ts -> Forall (fun c => ~ unregisters t c) (c :: cs) ->
    reg_sources (el_registry l2) !! t = Some (s, cb)).
  { intros t s cb Ht Hu. apply Forall_cons in Hu as [_ Hu]. by apply Hreg. }
  destruct r as [[t|]|e|p]; split_and!; try done.
  - assert (Hg0 : granted t (el_registry l) (el_registry l1)).
    { destruct c; cbn in Hs1; (done || by destruct Hs1). }
    cbn [fmap list_fmap snd]. constructor; [|done]. intros Hin. rewrite Forall_forall in Hf.
    by destruct (Hf t Hin) as [[] _]; apply Hg0.
  - assert (Hg0 : granted t (el_registry l) (el_registry l1)).
    { destruct c; cbn in Hs1; (done || by destruct Hs1). }
    constructor; [|done]. split; [apply Hg0|]. by apply He2, Hg0.
  - intros t0 s cb [Heq|Ht]%elem_of_cons Hu; [|by apply Hr]. injection Heq as <- ->.
    cbn in Hs1. destruct Hs1 as ((_ & Hi) & H2 & _). apply Forall_cons in Hu as [_ Hu]. apply Hkeep; [|done|done].
    by rewrite H2, lookup_insert_eq.
Qed.
End client.

(** ** [LinuxEventLoop] keeps the promise *)

Section linux.
Context {W T : Type} `{LC : Libc W, EO : EpollOs W, AR : AsRawFd W T}.
#[local] Abbreviation L := (LinuxEventLoop (W:=W) (T:=T)).

#[export] Instance LinuxEventLoop_trait : EventLoopTrait W L T CallBack (turn (W:=W) (T:=T)) := {
  el_new := LinuxEventLoop_new;
  el_generate_token := generate_token;
  el_register_event_source := register_event_source;
  el_unregister_event_source := unregister_event_source true;
  el_unregister_timed_event_source := unregister_timed_event_source;
  el_run := run;
  el_add_duration := add_duration;
  el_add_cleanup := add_cleanup;
  el_register_timer := register_timer
}.

Lemma new_is_empty w (l : L) w' : LinuxEventLoop_new w = (Ok l, w') -> l = empty_loop w'.
Proof. unfold LinuxEventLoop_new, mbind, op_bind, effect, gets. by destruct (poll_new w) as [[e|] w1]; intros [= <- <-]. Qed.

Lemma empty_loop_inv (w : W) : loop_inv 0 (empty_loop w : L).
Proof. constructor; cbn; (lia || done). Qed.

Definition linux_registry (l : L) : registry T CallBack := {|
  reg_sources := sources l;
  reg_timers := (fun '(_, token, callback) => (token, callback)) <$> timed_sources l;
  reg_issued t := 0 <= t < next_token l
|}.

Implicit Types l : L.

Lemma good_unissued b l : loop_inv b l -> b + 1 < 2 ^ 64 ->
  as_u 64 (next_token l + 1) = next_token l + 1.
Proof. intros Hi Hb. pose proof (inv_next b l Hi). apply as_u_small. unfold in_u. lia. Qed.

Lemma extends_next l l' : next_token l <= next_token l' -> extends (linux_registry l) (linux_registry l').
Proof. intros Hn t. cbn. lia. Qed.

Lemma granted_next l l' : 0 <= next_token l -> next_token l' = next_token l + 1 ->
  granted (next_token l) (linux_registry l) (linux_registry l').
Proof. intros Hl Hn. split; cbn; lia. Qed.

(** Every command grows the invariant by the one token it generates. *)
Lemma command_grows c : grows 1 (command_exec c).
Proof.
  assert (Hret : forall {A} (m : op L CommonError A) (f : A -> option Token), grows 1 m -> grows 1 (t ← m; mret (f t))).
  { intros A m f Hm. apply (grows_bind 1 0); [lia|done|]. intros t. apply grows_0. intros. apply preserves_ret. }
  destruct c; cbn [command_exec LinuxEventLoop_trait el_generate_token el_register_event_source el_unregister_event_source
    el_unregister_timed_event_source el_add_duration el_add_cleanup el_register_timer]; apply Hret.
  - apply (grows_generate (fun t => mret t)). intros b t l' [Hl' _]. exact Hl'.
  - apply register_event_source_grows.
  - apply (grows_weaken 0); [lia|]. apply grows_0. intros. apply unregister_event_source_preserves.
  - apply (grows_weaken 0); [lia|]. apply grows_0. intros. apply unregister_timed_preserves.
  - apply add_duration_grows.
  - apply add_cleanup_grows.
  - apply register_timer_grows.
Qed.

(** Registering a descriptor succeeds or fails, and only the system changes. *)
Lemma register_fd_any fd t l : exists w,
  register_fd fd t l = (Ok (), with_os l w) \/ exists e, register_fd fd t l = (Err e, with_os l w).
Proof.
  unfold register_fd. match goal with |- context [(sys ?f ≫= ?k) l] => destruct (bind_sys f k l) as (r & w & -> & _) end.
  exists w. destruct r; [right; by eexists|by left].
Qed.

(** A new timer, registered under a new token: the common part of three operations. *)
Lemma new_timer_any {A} spec (k : Z -> Token -> op L CommonError A) l : exists fd w,
  let l1 := with_os (with_next_token (as_u 64 (next_token l + 1)) l) w in
  (fd ← create_timer spec; t ← generate_token; _ ← register_fd fd t; k fd t) l = k fd (next_token l) l1 \/
  exists e, (fd ← create_timer spec; t ← generate_token; _ ← register_fd fd t; k fd t) l = (Err e, l1).
Proof.
  destruct (create_timer_os spec l) as (fd & w & E). rewrite (bind_Ok _ _ _ _ _ E). unfold generate_token. run_op.
  match goal with |- context [(register_fd fd ?n ≫= _) ?l1] => destruct (register_fd_any fd n l1) as (w2 & [E2|[e E2]]) end;
    exists fd, w2; [left; by rewrite (bind_Ok _ _ _ _ _ E2)|right; exists e; by rewrite (bind_Err _ _ _ _ _ E2)].
Qed.

#[local] Abbreviation ticked l := (with_next_token (as_u 64 (next_token l + 1)) l).

Lemma register_source_any s cb l : exists w,
  register_event_source s cb l =
    (Ok (next_token l), with_os (with_sources (<[next_token l := (s, cb)]> (sources l)) (ticked l)) w) \/
  exists e, register_event_source s cb l = (Err e, with_os (ticked l) w).
Proof.
  unfold register_event_source, generate_token. run_op.
  match goal with |- context [(sys ?f ≫= ?k) ?l1] => destruct (bind_sys f k l1) as (r & w & -> & _) end.
  destruct r as [e|]; [|run_op; exists w; by left].
  match goal with |- context [(sys ?f ≫= ?k) ?l1] => destruct (bind_sys f k l1) as (u & w2 & -> & _) end.
  exists w2. right. by eexists.
Qed.

Lemma unregister_source_any t l : exists (o : outcome CommonError ()) (w : W),
  unregister_event_source true t l = (o, with_os (with_sources (delete t (sources l)) l) w) /\
  match o with Ok _ => is_Some (sources l !! t) | Err _ => True | Panic _ => False end.
Proof.
  unfold unregister_event_source. run_op. destruct (sources l !! t) as [[s cb]|] eqn:E; run_op.
  - match goal with |- context [(sys ?f ≫= ?k) ?l1] => destruct (bind_sys f k l1) as (r & w & -> & _) end.
    match goal with |- context [(sys ?f ≫= ?k) ?l1] => destruct (bind_sys f k l1) as (u & w2 & -> & _) end.
    destruct r; run_op; do 2 eexists; (split; [reflexivity|]); first [done|by eexists].
  - eexists (Err _), (os l). split; [|done]. rewrite delete_id by done. by destruct l.
Qed.

Lemma unregister_timer_any t l : exists (o : outcome CommonError ()) (w : W),
  unregister_timed_event_source t l = (o, with_os (with_timed (delete t (timed_sources l)) l) w) /\
  match o with Ok _ => is_Some (timed_sources l !! t) | Err _ => True | Panic _ => False end.
Proof.
  unfold unregister_timed_event_source. run_op. destruct (timed_sources l !! t) as [[[fd s] cb]|] eqn:E; run_op.
  - match goal with |- context [(sys ?f ≫= ?k) ?l1] => destruct (bind_sys f k l1) as (r & w & -> & _) end.
    destruct r; run_op; do 2 eexists; (split; [reflexivity|]); first [done|by eexists].
  - eexists (Err _), (os l). split; [|done]. rewrite delete_id by done. by destruct l.
Qed.

Lemma add_duration_any spec l : exists w,
  add_duration spec l = (Ok (next_token l), with_os (ticked l) w) \/ exists e, add_duration spec l = (Err e, with_os (ticked l) w).
Proof.
  unfold add_duration. destruct (new_timer_any spec (fun _ t => mret t) l) as (fd & w & [E|[e E]]); exists w; [by left|right; by exists e].
Qed.

(** Sources, timers and the counter of a loop. *)
Definition same_maps (l l' : L) : Prop := sources l' = sources l /\ timed_sources l' = timed_sources l.

Lemma add_cleanup_any spec l : exists o l',
  add_cleanup spec l = (o, l') /\ same_maps l l' /\ next_token l' = as_u 64 (next_token l + 1) /\
  match o with Ok t => t = next_token l | Err _ => True | Panic _ => False end.
Proof.
  unfold add_cleanup. run_op.
  destruct (new_timer_any spec (fun _ t => _ ← modify (with_cleanup_token (Some t)); mret t) (with_cleanup (Some spec) l))
    as (fd & w & [E|[e E]]); cbv zeta in E; do 2 eexists; (split; [exact E|]); done.
Qed.

Lemma register_timer_any spec t cb l : exists o fd w,
  register_timer spec t cb l = (o, with_os (match o, sources l !! t with
    | Ok _, Some _ => with_timed (<[next_token l := (fd, t, cb)]> (timed_sources l)) (ticked l) | _, _ => ticked l end) w) /\
  match o with Ok t' => t' = next_token l | Err _ => True | Panic _ => False end.
Proof.
  unfold register_timer.
  destruct (new_timer_any spec (fun fd t' => ss ← gets sources;
    _ ← (match ss !! t with
         | Some _ => modify (fun l => with_timed (<[t' := (fd, t, cb)]> (timed_sources l)) l)
         | None => mret ()
         end);
    mret t') l) as (fd & w & [E|[e E]]); cbv zeta in E.
  - revert E. run_op. cbn [sources with_os with_next_token]. destruct (sources l !! t); run_op; intros E;
      eexists (Ok _), fd, w; (split; [exact E|done]).
  - exists (Err e), fd, w. split; [exact E|done].
Qed.

Lemma command_issued c r l l' : next_token l <= next_token l' ->
  match r with Ok t => commanded c t (linux_registry l) (linux_registry l') | Err _ => refused c (linux_registry l) (linux_registry l') | Panic _ => False end ->
  command_spec c r (linux_registry l) (linux_registry l').
Proof. intros Hn Hr. split; [by apply extends_next|exact Hr]. Qed.

Lemma linux_command c b l r l' : loop_inv b l -> b + 1 < 2 ^ 64 -> command_exec c l = (r, l') ->
  command_spec c r (linux_registry l) (linux_registry l').
Proof.
  intros Hi Hb. pose proof (good_unissued b l Hi Hb) as Hn. pose proof (inv_next b l Hi) as [H0 _].
  destruct c; cbn [command_exec LinuxEventLoop_trait el_generate_token el_register_event_source el_unregister_event_source
    el_unregister_timed_event_source el_add_duration el_add_cleanup el_register_timer]; unfold mbind at 1, op_bind at 1.
  - unfold generate_token. run_op. intros [= <- <-]. rewrite Hn.
    apply command_issued; [cbn; lia|]. split; [by apply granted_next|done].
  - destruct (register_source_any source callback l) as (w & [->|[e ->]]); rewrite Hn; intros [= <- <-];
      (apply command_issued; [cbn; lia|]); [|done]. split; [by apply granted_next|done].
  - destruct (unregister_source_any token l) as (o & w & -> & Ho). destruct o; [| |done]; intros [= <- <-]; (by apply command_issued).
  - destruct (unregister_timer_any token l) as (o & w & -> & Ho). destruct o; [| |done]; intros [= <- <-];
      (apply command_issued; [done|]); cbn [commanded refused reg_timers reg_sources linux_registry timed_sources sources with_os with_timed];
      rewrite fmap_delete; [|done]. split; [|done]. rewrite lookup_fmap. by apply fmap_is_Some.
  - destruct (add_duration_any spec l) as (w & [->|[e ->]]); rewrite Hn; intros [= <- <-];
      (apply command_issued; [cbn; lia|]); [|done]. split; [by apply granted_next|done].
  - destruct (add_cleanup_any spec l) as (o & l1 & -> & [Hs Ht] & Hl1 & Ho). rewrite Hn in Hl1. destruct o as [t|e|p]; [subst t| |done];
      intros [= <- <-]; (apply command_issued; [lia|]); cbn [commanded refused reg_timers reg_sources linux_registry]; rewrite Hs, Ht; [|done].
    split; [by apply granted_next|done].
  - destruct (register_timer_any spec token callback l) as (o & fd & w & -> & Ho). destruct o as [t|e|p]; [subst t| |done];
      rewrite Hn; intros [= <- <-]; [|apply command_issued; [cbn; lia|done]].
    destruct (sources l !! token) eqn:Es; (apply command_issued; [cbn; lia|]); (split; [by apply granted_next|]);
      (split; [done|]);
      change (reg_sources (linux_registry l) !! token) with (sources l !! token); rewrite Es; [|done].
    cbn [reg_timers linux_registry timed_sources with_os with_timed with_next_token].
    by rewrite fmap_insert.
Qed.

#[export] Instance LinuxEventLoop_laws : EventLoopLaws W L T CallBack (turn (W:=W) (T:=T)).
Proof.
  refine (Build_EventLoopLaws _ _ _ _ _ _ loop_inv linux_registry turn_size _ _ _ _).
  - intros w l w' ->%new_is_empty. apply empty_loop_inv.
  - intros w l w' ->%new_is_empty. cbn. split; [done|]. split; [apply fmap_empty|lia].
  - intros c b l r l' Hl Hb E. split; [|by eapply linux_command].
    pose proof (command_grows c b l Hb Hl) as Hg. by rewrite E in Hg.
  - intros turns b l Hl Hb. by apply run_grows.
Defined.
End linux.

(** ** Properties *)

(** C22: the loop keeps what [EventLoopTrait] promises, whatever fails in between: in any
    sequence of up to 2^64 - 1 operations on a new loop the tokens it gives are pairwise
    distinct, each was never given before, and a source that was registered is in the loop with
    its callback, under its token, unless that token was unregistered. *)
Theorem loop_tokens_unique {W T} `{LC : Libc W, EO : EpollOs W, AR : AsRawFd W T} cs (w : W) :
  Z.of_nat (length cs) < 2 ^ 64 ->
  let '(ts, l) := command_run (L:=LinuxEventLoop (W:=W) (T:=T)) cs (empty_loop w) in
  NoDup ts.*2 /\ Forall (fun t => 0 <= t < next_token l) ts.*2 /\
  forall s cb t, (RegisterSource s cb, t) ∈ ts -> UnregisterSource t ∉ cs -> sources l !! t = Some (s, cb).
Proof.
  intros Hl. pose proof (command_run_spec cs 0 (empty_loop w) (empty_loop_inv w) ltac:(lia)) as Hr.
  destruct (command_run cs _) as [ts l]. destruct Hr as (_ & _ & Hn & Hf & _ & Hs). split; [exact Hn|]. split.
  - eapply Forall_impl; [exact Hf|]. intros t [_ Ht]. exact Ht.
  - intros s cb t Ht Hu. apply (Hs t s cb Ht). apply Forall_forall. intros c Hc ->. done.
Qed.

(** ** Concrete runs *)

Import Scripted ScriptedLoop.

Definition every_second : Itimerspec := {| it_interval := Duration_from_secs 1; it_value := Duration_from_secs 1 |}.
Definition sample_commands : list (command Z (CallBack (W:=scripted) (T:=Z))) :=
  [RegisterSource 7 no_callback; RegisterTimer every_second 0 no_callback; RegisterSource 9 failing_callback;
   UnregisterSource 0; UnregisterSource 0; AddDurationTimer every_second; RegisterSource 7 no_callback].

Example loop_tokens_unique_witness :
  let '(ts, l) := command_run (L:=LinuxEventLoop (W:=scripted) (T:=Z)) sample_commands (empty_loop (scripted_of [] [])) in
  ts.*2 = [0; 1; 2; 3; 4] /\ sources l !! 2 = Some (9, failing_callback) /\ NoDup ts.*2.
Proof.
  pose proof (loop_tokens_unique sample_commands (scripted_of [] []) ltac:(done)) as Hu.
  destruct (command_run sample_commands _) as [ts l] eqn:E. destruct Hu as (Hn & _ & Hs).
  assert (Ets : ts = (command_run sample_commands (empty_loop (scripted_of [] []))).1) by (by rewrite E).
  split; [rewrite Ets; vm_compute; reflexivity|]. split; [|exact Hn]. apply Hs.
  - rewrite Ets. vm_compute. right. right. left.
  - unfold sample_commands. repeat (apply not_elem_of_cons; split; [intros [=]|]). apply not_elem_of_nil.
Defined.
