(* ===== verification/Steady.v ===== *)
(** * Event loops that keep going

    A loop all of whose callbacks succeed, under an invariant of the state they share that
    depends on the events handled so far: it handles every event of its tokens without failing
    and without losing a source or a timer, through its duration and its overtime.  The
    components prove of their callbacks that they [serve] and get the runs of their loops. *)
From stdpp Require Import base list option numbers strings gmap.
From Stdlib Require Import ZArith Lia.
From S2P Require Import Prelude Float64 Errors Time Net DataModel Messages Sockets EventLoop.
Local Open Scope Z_scope.

(** Reading and setting a timer that exists does not fail. *)
Class TimersWork (W : Type) `{EpollOs W} : Prop := {
  gettime_works : forall fd (w : W), (timerfd_gettime fd w).1.1 <> -1;
  settime_works : forall fd f t (w : W), (timerfd_settime fd f t w).1 <> -1
}.

#[export] Instance part_timers {S W} `{EO : EpollOs W, !TimersWork W} (get : S -> W) (put : W -> S -> S) :
  TimersWork S (H:=part_epoll get put).
Proof.
  constructor; intros; cbn; unfold on_part.
  - pose proof (gettime_works fd (get w)) as Hg. by destruct (timerfd_gettime fd (get w)) as [[]].
  - pose proof (settime_works fd f t (get w)) as Hs. by destruct (timerfd_settime fd f t (get w)).
Qed.

Section steady.
Context {W T : Type} `{LC : Libc W, EO : EpollOs W, AR : AsRawFd W T}.
#[local] Abbreviation EventLoop := (LinuxEventLoop (W:=W) (T:=T)).
Implicit Types l : EventLoop.

(** [P h w]: the state [w] is good after the events [h]. *)
Variable P : list Token -> W -> Prop.

(** Called for the event [t] with the token [arg], the callback succeeds and the state is good
    after one event more. *)
Definition serves (t arg : Token) (src : T) (cb : CallBack) : Prop :=
  forall h w, P h w -> exists z w', cb arg (src, w) = (Ok z, (src, w')) /\ P (h ++ [t]) w'.

Record steady l : Prop := {
  steady_sources : forall t src cb, sources l !! t = Some (src, cb) -> serves t t src cb;
  steady_timers : forall t fd inner cb, timed_sources l !! t = Some (fd, inner, cb) ->
    exists src own, sources l !! inner = Some (src, own) /\ serves t inner src cb
}.

(** A token of a source or of a timer. *)
Definition tracked l (t : Token) : Prop := is_Some (sources l !! t) \/ is_Some (timed_sources l !! t).

Lemma steady_os l w : steady l -> steady (with_os l w).
Proof. by intros [Hs Ht]. Qed.

Lemma steady_overtime l w : steady l -> steady (in_overtime w l).
Proof.
  intros [Hs Ht]. constructor; [done|]. intros t fd inner cb [E _]%map_lookup_filter_Some. by apply Ht in E.
Qed.

Context `{!TimersWork W}.
Hypothesis P_quiet : forall h, quiet (T:=T) (P h).

Lemma reset_timer_works fd l h : P h (os l) -> exists w, reset_timer fd l = (Ok (), with_os l w) /\ P h w.
Proof using P_quiet TimersWork0.
  intros HP. unfold reset_timer. pose proof (gettime_works fd (os l)) as Hg.
  pose proof (quiet_gettime _ (P_quiet h) fd (os l) HP) as HP1.
  match goal with |- context [(sys ?f ≫= ?k) ?l0] => destruct (bind_sys f k l0) as ([r sp] & w & -> & E) end.
  rewrite E in Hg, HP1. cbn [fst snd] in Hg, HP1. rewrite (proj2 (Z.eqb_neq _ _) Hg).
  pose proof (settime_works fd 0 sp w) as Hs. pose proof (quiet_settime _ (P_quiet h) fd 0 sp w HP1) as HP2.
  destruct (timerfd_settime fd 0 sp w) as [r2 w2] eqn:E2. cbn [fst snd] in Hs, HP2.
  assert (Hc : libc_call (timerfd_settime fd 0 sp) (os (with_os l w)) = (Ok r2, w2)).
  { unfold libc_call. run_op. cbn [os with_os]. rewrite E2. cbn [fst snd]. by rewrite (proj2 (Z.eqb_neq _ _) Hs). }
  rewrite (bind_Ok _ _ _ _ _ (sys_op_Ok _ (with_os l w) _ _ Hc)). by exists w2.
Qed.

(** Putting back the value a source already has. *)
Lemma same_source l t s w : sources l !! t = Some s ->
  with_os (with_sources (<[t := s]> (sources l)) l) w = with_os l w.
Proof using. intros Hs. unfold with_os, with_sources. cbn. by rewrite insert_id. Qed.

Lemma steady_event b l t h : loop_inv b l -> steady l -> tracked l t -> P h (os l) ->
  exists w, handle_event t l = (Ok NextEvent, with_os l w) /\ P (h ++ [t]) w.
Proof using P_quiet TimersWork0.
  intros Hl [Hs Ht] [[[src cb] Es]|[[[fd inner] cb] Et]] HP.
  - destruct (Hs t src cb Es h (os l) HP) as (z & w & Ecb & HP'). exists w. split; [|done].
    rewrite (source_event_succeeds l t src cb src w z Es Ecb). by rewrite same_source.
  - destruct (Ht t fd inner cb Et) as (src & own & Ei & Hcb). destruct (Hcb h (os l) HP) as (z & w & Ecb & HP').
    unfold handle_event. run_op. destruct (sources l !! t) as [s|] eqn:Es;
      [exfalso; apply (inv_disjoint b l Hl) in Es; congruence|].
    unfold Source, TimedSource in *. rewrite Et, Ei.
    assert (Ec : call_back inner src own cb inner l = (Ok z, with_os l w)).
    { unfold call_back. rewrite Ecb. by rewrite same_source. }
    rewrite (bind_Ok _ _ _ _ _ Ec). destruct (reset_timer_works fd (with_os l w) (h ++ [t]) HP') as (w' & Er & HP2).
    rewrite (bind_Ok _ _ _ _ _ Er). by exists w'.
Qed.

Lemma steady_events b l ts h : loop_inv b l -> steady l -> Forall (tracked l) ts -> P h (os l) ->
  exists w, handle_events ((fun t => (t, true)) <$> ts) l = (Ok NextEvent, with_os l w) /\ P (h ++ ts) w.
Proof using P_quiet TimersWork0.
  intros Hl Hst Hts. revert l h Hl Hst Hts. induction ts as [|t ts IH]; intros l h Hl Hst Hts HP.
  { exists (os l). rewrite app_nil_r. split; [by destruct l|done]. }
  apply Forall_cons in Hts as [Ht Hts]. destruct (steady_event b l t h Hl Hst Ht HP) as (w & E & HP').
  rewrite (handle_events_cons _ _ _ _ _ E).
  destruct (IH (with_os l w) (h ++ [t]) (loop_inv_os _ _ _ Hl) (steady_os _ _ Hst) Hts HP') as (w' & E' & HP2).
  exists w'. split; [exact E'|]. by rewrite <-app_assoc in HP2.
Qed.

(** The sweep at the end of a turn. *)
Lemma quiet_sweep l h : (forall t s, sources l !! t = Some s -> timed_sources l !! t = None) -> P h (os l) ->
  exists w, sweep l = (Ok (), with_os l w) /\ P h w.
Proof using P_quiet.
  intros Hd HP. destruct (sweep_noop l Hd) as (w & E). exists w. split; [done|].
  pose proof (sweep_quiet (P h) (P_quiet h) l HP) as HP'. by rewrite E in HP'.
Qed.

Lemma steady_turn b l ts h : loop_inv b l -> steady l -> Forall (tracked l) ts -> P h (os l) ->
  exists w, run_turn (events_turn ts) l = (Ok false, with_os l w) /\ P (h ++ ts) w.
Proof using P_quiet TimersWork0.
  intros Hl Hst Hts HP. destruct (steady_events b l ts h Hl Hst Hts HP) as (w & E & HP').
  rewrite (run_turn_events _ _ _ _ E).
  destruct (quiet_sweep (with_os l w) (h ++ ts) (inv_disjoint b l Hl) HP') as (w' & E' & HP2).
  rewrite (bind_Ok _ _ _ _ _ E'). by exists w'.
Qed.

(** Any number of turns leaves the loop as it was, but for the state of its callbacks. *)
Lemma steady_run b l tss rest h : loop_inv b l -> steady l -> Forall (Forall (tracked l)) tss -> P h (os l) ->
  exists w, run ((events_turn <$> tss) ++ rest) l = run rest (with_os l w) /\ P (h ++ concat tss) w.
Proof using P_quiet TimersWork0.
  intros Hl Hst Hts. revert l h Hl Hst Hts. induction tss as [|ts tss IH]; intros l h Hl Hst Hts HP.
  { exists (os l). rewrite app_nil_r. split; [by destruct l|done]. }
  apply Forall_cons in Hts as [Ht Hts]. destruct (steady_turn b l ts h Hl Hst Ht HP) as (w & E & HP').
  cbn [fmap list_fmap app run concat]. rewrite (bind_Ok _ _ _ _ _ E). cbn iota.
  destruct (IH (with_os l w) (h ++ ts) (loop_inv_os _ _ _ Hl) (steady_os _ _ Hst) Hts HP') as (w' & E' & HP2).
  exists w'. split; [exact E'|]. by rewrite <-app_assoc in HP2.
Qed.

Lemma enter_overtime_quiet h : preserves (fun l => P h (os l)) enter_overtime.
Proof using P_quiet.
  unfold enter_overtime. apply preserves_bind; [apply preserves_gets|]. intros ts.
  apply preserves_bind; [apply preserves_gets|]. intros exc. apply preserves_bind.
  { apply preserves_for_each. intros t _. destruct (decide _); [apply preserves_ret|]. apply preserves_ignore.
    unfold unregister_timed_event_source. apply preserves_bind; [apply preserves_gets|]. intros ts'.
    destruct (ts' !! t) as [[[fd et] cb]|]; [|apply preserves_fail].
    apply preserves_bind; [by apply preserves_modify|]. intros _.
    apply preserves_bind; [apply preserves_sys_os, (quiet_deregister _ (P_quiet h))|].
    intros [e|]; [apply preserves_fail|apply preserves_ret]. }
  intros _. apply preserves_bind; [apply preserves_gets|]. intros [spec|]; [|apply preserves_lift].
  apply preserves_bind; [by apply preserves_modify|]. intros _.
  apply preserves_bind; [by apply add_duration_quiet|]. intros t.
  apply preserves_bind; [by apply preserves_modify|]. intros _. apply preserves_ret.
Qed.

Lemma quiet_duration_turn b l d spec h : registers (W:=W) -> loop_inv b l -> overtime l = Some spec -> untracked d l ->
  P h (os l) -> exists w, run_turn (events_turn [d]) l = (Ok false, in_overtime w l) /\ P h w.
Proof using P_quiet.
  intros Hr Hl Ho Hd HP. destruct (enter_overtime_spec l spec Hr Ho) as (w & E).
  pose proof (enter_overtime_quiet h l HP) as HP1. rewrite E in HP1.
  assert (Ed : handle_event d l = (Ok NextEvent, in_overtime w l)) by (by rewrite handle_event_untracked, Ho).
  rewrite (run_turn_events _ _ NextEvent (in_overtime w l)) by (by rewrite (handle_events_cons _ _ _ _ _ Ed)).
  destruct (quiet_sweep (in_overtime w l) h) as (w' & E' & HP2); [intros; by eapply in_overtime_disjoint|done|].
  rewrite (bind_Ok _ _ _ _ _ E'). by exists w'.
Qed.

Lemma in_overtime_inv b l w : loop_inv b l -> b + 1 < 2 ^ 64 -> loop_inv (b + 1) (in_overtime w l).
Proof using.
  intros [Hn Hs Ht Hd Hc] Hb. assert (E : as_u 64 (next_token l + 1) = next_token l + 1) by (apply as_u_small; unfold in_u; lia).
  constructor; cbn; rewrite ?E.
  - lia.
  - intros t s Es. apply Hs in Es. lia.
  - intros t s [Es _]%map_lookup_filter_Some. apply Ht in Es. lia.
  - intros t s Es. apply map_lookup_filter_None. left. by eapply Hd.
  - intros t [= <-]. split; [lia|]. by apply (next_untracked b l w).
Qed.

(** The whole life of a test's loop: events of its tokens, the duration, events of the tokens
    that the overtime keeps, and the end of the overtime. *)
Lemma steady_test b l d spec before after rest h : registers (W:=W) -> loop_inv b l -> b + 1 < 2 ^ 64 -> steady l ->
  overtime l = Some spec -> cleanup l = None -> untracked d l -> Forall (Forall (tracked l)) before ->
  (forall w, Forall (Forall (tracked (in_overtime w l))) after) -> P h (os l) ->
  exists w, run ((events_turn <$> before) ++ events_turn [d] :: (events_turn <$> after) ++ events_turn [next_token l] :: rest) l
    = (Ok true, in_overtime w l) /\ P (h ++ concat before ++ concat after) w.
Proof using P_quiet TimersWork0.
  intros Hr Hl Hb Hst Ho Hc Hd Hbefore Hafter HP.
  destruct (steady_run b l before (events_turn [d] :: (events_turn <$> after) ++ events_turn [next_token l] :: rest) h Hl Hst Hbefore HP)
    as (w1 & -> & HP1).
  destruct (quiet_duration_turn b (with_os l w1) d spec _ Hr (loop_inv_os _ _ _ Hl) Ho Hd HP1) as (w2 & E2 & HP2).
  cbn [run]. rewrite (bind_Ok _ _ _ _ _ E2). cbn iota. change (in_overtime w2 (with_os l w1)) with (in_overtime w2 l).
  destruct (steady_run (b + 1) (in_overtime w2 l) after (events_turn [next_token l] :: rest) (h ++ concat before))
    as (w3 & -> & HP3); [by apply in_overtime_inv|by apply steady_overtime|apply Hafter|done|].
  change (with_os (in_overtime w2 l) w3) with (in_overtime w3 l). exists w3. rewrite <-app_assoc in HP3. split; [|done].
  assert (E : handle_event (next_token l) (in_overtime w3 l) = (Ok BreakOuter, in_overtime w3 l)).
  { rewrite handle_event_untracked by (by eapply next_untracked). cbn. by rewrite Hc. }
  cbn [run]. rewrite (bind_Ok _ _ _ true (in_overtime w3 l)); [done|].
  rewrite (run_turn_events _ _ BreakOuter (in_overtime w3 l)); [done|]. by rewrite (handle_events_cons _ _ _ _ _ E).
Qed.
End steady.

(** A scripted system whose timers work. *)
Module KernelLoop.
Import ScriptedLoop.
#[export] Instance kernel_epoll : EpollOs scripted := {|
  timerfd_create := timerfd_create; timerfd_settime fd f t w := (0, (timerfd_settime fd f t w).2);
  timerfd_gettime fd w := let '((_, t), w') := timerfd_gettime fd w in ((0, t), w');
  poll_new := poll_new; poll_register := poll_register; poll_deregister := poll_deregister; unpark := unpark; show_io := show_io (W:=scripted)
|}.
#[export] Instance kernel_timers : TimersWork scripted.
Proof. by constructor. Qed.
Lemma kernel_registers : registers (W:=scripted).
Proof. by split. Qed.
End KernelLoop.
