(* ===== verification/Channel.v ===== *)
(** * The rest of [network_commons/src/epoll_loop.rs]: [DuplexChannel], [create_non_blocking_unix_datagram]

    The channel by which another thread talks to an event loop: messages one way; the token of
    the last registration, or an error, the other.  Its clones share one state, guarded by the
    mutex each caller locks first, so an operation acts on that state as a whole. *)
From stdpp Require Import base list option numbers strings relations.
From Stdlib Require Import ZArith Lia.
From S2P Require Import Prelude Float64 Errors Time Net DataModel Messages Sockets EventLoop.
Local Open Scope Z_scope.

Section channel.
Context {M : Type}.

(** The messages not yet received, whether the loop still holds the receiving end, the last
    token and the last error. *)
Record DuplexChannel := { ch_messages : list M; ch_receiver : bool; ch_token : Z; ch_error : option CommonError }.

Definition DuplexChannel_new : DuplexChannel :=
  {| ch_messages := []; ch_receiver := true; ch_token := USIZE_MAX; ch_error := None |}.

#[local] Abbreviation io := (op DuplexChannel CommonError).

(** A message sent to a loop that is gone is an error that carries its text. *)
Definition channel_send (text : M -> string) (message : M) : io () := fun c =>
  if ch_receiver c then (Ok (), {| ch_messages := ch_messages c ++ [message]; ch_receiver := true;
                                   ch_token := ch_token c; ch_error := ch_error c |})
  else (Err (from_send (text message)), c).

Definition channel_set_token (token_value : Z) : io () := modify (fun c =>
  {| ch_messages := ch_messages c; ch_receiver := ch_receiver c; ch_token := token_value; ch_error := ch_error c |}).

Definition channel_get_token : io Token := fun c =>
  let '(r, error) := get_token (ch_token c) (ch_error c) in
  (r, {| ch_messages := ch_messages c; ch_receiver := ch_receiver c; ch_token := ch_token c; ch_error := error |}).

Definition channel_set_error (error : CommonError) : io () := modify (fun c =>
  {| ch_messages := ch_messages c; ch_receiver := ch_receiver c; ch_token := ch_token c; ch_error := Some error |}).

(** What the threads may do with the channel between two looks at its token. *)
Inductive channel_step (text : M -> string) : DuplexChannel -> DuplexChannel -> Prop :=
  | step_send m c : channel_step text c (channel_send text m c).2
  | step_get c : channel_step text c (channel_get_token c).2
  | step_error e c : channel_step text c (channel_set_error e c).2.
End channel.
Arguments DuplexChannel _ : clear implicits.

Section datagram.
Context {W : Type} `{Libc W}.

Definition AF_UNIX : Z := 1.

(** A failed [fcntl] closes the socket; the error is the one the system has after that. *)
Definition create_non_blocking_unix_datagram : op W CommonError Z :=
  socket_fd ← effect (sys_socket AF_UNIX SOCK_DGRAM);
  if socket_fd <? 0 then e ← last_os_error; fail (Io e) else
  flags ← effect (sys_fcntl socket_fd F_GETFL 0);
  if flags <? 0 then _ ← effect (sys_close socket_fd); e ← last_os_error; fail (Io e) else
  result ← effect (sys_fcntl socket_fd F_SETFL (Z.lor flags O_NONBLOCK));
  if result <? 0 then _ ← effect (sys_close socket_fd); e ← last_os_error; fail (Io e) else
  mret socket_fd.
End datagram.

(** ** Properties *)

(** Once the loop has set a token it stays: whatever is sent, read or reported afterwards, in
    any order, [get_token] gives that token and no error left in the channel hides it. *)
Theorem channel_token_stays {M} (text : M -> string) t (c c' : DuplexChannel M) : t <> USIZE_MAX ->
  rtc (channel_step text) (channel_set_token t c).2 c' -> (channel_get_token c').1 = Ok t.
Proof.
  intros Ht Hr. assert (Hc : ch_token c' = t).
  { revert Hr. apply (rtc_ind_r (fun x => ch_token x = t)); [done|]. intros x y _ Hstep <-. destruct Hstep as [m z|z|e z]; [| |done].
    - unfold channel_send. by destruct (ch_receiver z).
    - unfold channel_get_token. by destruct (get_token _ _). }
  unfold channel_get_token, get_token. rewrite Hc, (proj2 (Z.eqb_neq _ _) Ht). done.
Qed.

(** Before that an error is reported to the first who asks and to nobody else. *)
Theorem channel_error_once {M} e (c : DuplexChannel M) : ch_token c = USIZE_MAX ->
  let c1 := (channel_set_error e c).2 in
  (channel_get_token c1).1 = Err e /\ (channel_get_token (channel_get_token c1).2).1 = Err (Generic "Invalid token").
Proof. intros Hc. unfold channel_get_token, get_token. cbn. rewrite Hc. done. Qed.

(** The descriptor is returned, or closed by the last call but the reading of the error. *)
Theorem unix_datagram_no_leak {W} `{Libc W} (w : W) :
  match create_non_blocking_unix_datagram w with
  | (Ok fd, _) => fd = (sys_socket AF_UNIX SOCK_DGRAM w).1 /\ 0 <= fd
  | (Err e, w') => e = Io (os_error (last_errno w')) /\
      let fd := (sys_socket AF_UNIX SOCK_DGRAM w).1 in fd < 0 \/ exists w0, w' = (sys_close fd w0).2
  | (Panic _, _) => False
  end.
Proof.
  unfold create_non_blocking_unix_datagram. run_op. destruct (sys_socket _ _ w) as [fd w1]. cbn [fst snd].
  unfold last_os_error. destruct (Z.ltb_spec fd 0); [run_op; split; [done|by left]|]. run_op. destruct (sys_fcntl fd F_GETFL 0 w1) as [fl w2]. cbn [fst snd].
  destruct (fl <? 0); [run_op; split; [done|right; by eexists]|]. run_op.
  destruct (sys_fcntl fd F_SETFL _ w2) as [r w3]. cbn [fst snd].
  destruct (r <? 0); run_op; [split; [done|right; by eexists]|done].
Qed.
