(* ===== verification/Shared.v ===== *)
(** * The state the callbacks share

    The callbacks of one event loop capture the same [Arc<RwLock<Vec<Session>>>]: the loop's
    world is the operating system together with that vector.  The lock is taken by another
    thread only in the control client; [sh_busy] says that it is held there while a callback
    runs, which makes a [try_] call fail. *)
From stdpp Require Import base list option numbers strings.
From Stdlib Require Import ZArith Lia.
From S2P Require Import Prelude Float64 Errors Time Net DataModel Messages Session Sockets EventLoop.
Local Open Scope Z_scope.

Record Shared (W : Type) := { sh_os : W; sh_sessions : list Session; sh_busy : bool }.
Arguments sh_os {_} _.
Arguments sh_sessions {_} _.
Arguments sh_busy {_} _.
Arguments Build_Shared {_} _ _ _.

Section shared.
Context {W : Type}.
Implicit Types s : Shared W.

Definition with_sh_os s (w : W) : Shared W := Build_Shared w (sh_sessions s) (sh_busy s).
Definition with_sessions (l : list Session) s : Shared W := Build_Shared (sh_os s) l (sh_busy s).

Definition set_sh_os (w : W) s : Shared W := with_sh_os s w.
Definition on_os {A} (f : W -> A * W) s : A * Shared W := on_part sh_os set_sh_os f s.

(** The system calls leave the sessions alone. *)
#[export] Instance shared_libc `{Libc W} : Libc (Shared W) := part_libc sh_os set_sh_os.
#[export] Instance shared_epoll `{EpollOs W} : EpollOs (Shared W) := part_epoll sh_os set_sh_os.

(** Dropping a socket closes it. *)
#[export] Instance udp_fd `{Libc W} : AsRawFd (Shared W) TimestampedUdpSocket :=
  { as_raw_fd := udp_inner; drop_value sock w := (sys_close (udp_inner sock) w).2 }.

#[local] Abbreviation io := (op (Shared W) CommonError).

(** [try_read()?] and [try_write()?] of the sessions. *)
Definition try_lock : io () := b ← gets sh_busy; if b : bool then fail Lock else mret ().

(** [NtpTimestamp::now] *)
Definition ntp_timestamp_now `{BuildProfile, Libc W} : io NtpTimestamp :=
  ts ← effect sys_clock;
  if tv_sec ts <? 0 then lift (Panic (Expect "Current time is earlier than UNIX epoch"))
  else lift (ntp_now {| as_secs := tv_sec ts; subsec_nanos := tv_nsec ts |}).
End shared.

(** [mio::net::UdpSocket::bind]: the descriptor of a bound, non-blocking socket. *)
Class MioUdp (W : Type) := mio_udp_bind : SocketAddr -> W -> (io_error + Z) * W.

(** The system clock shows a normalised time before the end of NTP era 0 (February 2036). *)
Definition clock_sane (W : Type) `{Libc W} : Prop := forall w : W,
  0 <= tv_sec (sys_clock w).1 < 2 ^ 32 - NTP_EPOCH - 1 /\ 0 <= tv_nsec (sys_clock w).1 < NANOS_PER_SEC.

Definition time_before_2036 (t : DateTime) : Prop := datetime_wf t /\ sec t + 1 + NTP_EPOCH < 2 ^ 32.

Section facts.
Context {W : Type} `{LC : Libc W, HE : HostEndian, BP : BuildProfile}.
Implicit Types s : Shared W.

Lemma from_timespec_sane : clock_sane W -> forall w,
  time_before_2036 (from_timespec (sys_clock w).1).
Proof.
  intros Hc w. destruct (Hc w) as [? ?]. unfold time_before_2036, from_timespec, datetime_wf, NANOS_PER_SEC, NTP_EPOCH in *.
  cbn [sec nanos]. rewrite !as_u_small by (unfold in_u; lia). split; [split; [unfold in_u|]|]; lia.
Qed.

(** A system call changes the operating system only. *)
Lemma run_clock s : exists w, (sys_clock (W:=Shared W) s) = ((sys_clock (sh_os s)).1, with_sh_os s w).
Proof. cbn. unfold on_part, set_sh_os. destruct (sys_clock (sh_os s)) as [t w]. by exists w. Qed.

Lemma now_shared s : now s = (Ok (from_timespec (sys_clock (sh_os s)).1), with_sh_os s (sys_clock (sh_os s)).2).
Proof. unfold now. run_op. cbn. unfold on_part, set_sh_os. by destruct (sys_clock (sh_os s)). Qed.

(** The header [send_to] hands to [sendmsg]. *)
Definition send_header {T} `{BeBytes T} (addr : SocketAddr) (m : T) : msghdr :=
  {| msg_name := (socketaddr_to_sockaddr addr).1; msg_namelen := 16;
     msg_iov := [Z.of_nat (length (to_be_bytes m))]; msg_iovlen := 1; msg_controllen := 0 |}.

Lemma send_to_shared {T} `{BeBytes T} sock addr (m : T) s : exists r w,
  UdpSocket_send_to sock addr m s = (Ok (r, from_timespec (sys_clock (sh_os s)).1), with_sh_os s w) /\
  sys_sendmsg (udp_inner sock) (send_header addr m) (to_be_bytes m) (sys_clock (sh_os s)).2 = (r, w).
Proof.
  unfold UdpSocket_send_to, send_header. destruct (socketaddr_to_sockaddr addr) as [sa len].
  rewrite (bind_Ok _ _ _ _ _ (now_shared s)). run_op. cbn [fst].
  assert (forall h d s', sys_sendmsg (W:=Shared W) (udp_inner sock) h d s' =
    let '(r, w) := sys_sendmsg (udp_inner sock) h d (sh_os s') in (r, with_sh_os s' w)) as -> by done.
  cbn [sh_os with_sh_os]. destruct (sys_sendmsg _ _ _ _) as [r w']. by exists r, w'.
Qed.

(** Receiving, and reading the error queue, are the system's; the sessions are left alone. *)
Lemma receive_from_shared sock buffer s : UdpSocket_receive_from sock buffer s =
  let '(o, w) := UdpSocket_receive_from sock buffer (sh_os s) in (o, with_sh_os s w).
Proof.
  unfold UdpSocket_receive_from, now, last_os_error, mbind, op_bind, effect, gets, mret, op_ret, fail, lift.
  cbn. unfold on_part, set_sh_os. destruct (sys_clock (sh_os s)) as [ts w1]. cbn [sh_os with_sh_os].
  destruct (sys_recvmsg _ _ _ w1) as [[n dg] w2]. destruct (n <? 0); [done|]. by destruct (storage_to_socket_addr _ _).
Qed.

Lemma retrieve_shared sock addresses s : retrieve_tx_timestamps sock addresses s =
  let '(o, w) := retrieve_tx_timestamps sock addresses (sh_os s) in (o, with_sh_os s w).
Proof.
  unfold retrieve_tx_timestamps, last_os_error, mbind, op_bind, effect, gets, mret, op_ret, fail, lift.
  destruct (init_vec_of_mmsghdr _ _ _) as [hdrs|e|q]; [|by destruct s..].
  cbn. unfold on_part, set_sh_os. destruct (sys_recvmmsg _ _ _ _ _) as [[res dgs] w]. by destruct (0 <=? res).
Qed.

Lemma ntp_now_at s : 0 <= tv_sec (sys_clock (sh_os s)).1 < 2 ^ 32 - NTP_EPOCH - 1 ->
  0 <= tv_nsec (sys_clock (sh_os s)).1 < NANOS_PER_SEC ->
  exists n, ntp_timestamp_now s = (Ok n, with_sh_os s (sys_clock (sh_os s)).2) /\ ntp_wf n.
Proof.
  intros H1 H2. unfold ntp_timestamp_now. run_op.
  assert (sys_clock (W:=Shared W) s = ((sys_clock (sh_os s)).1, with_sh_os s (sys_clock (sh_os s)).2)) as ->
    by (cbn; unfold on_part; by destruct (sys_clock (sh_os s))).
  cbn [fst snd]. rewrite (proj2 (Z.ltb_ge _ _)) by lia.
  unfold lift, ntp_now. cbn [as_secs subsec_nanos]. unfold NTP_EPOCH in *.
  rewrite u_arith_in by (unfold in_u; lia). cbn [mbind outcome_bind]. eexists. split; [done|].
  change (f64_of_Z (2 ^ 32)) with FRACTION_CONVERSION. change (f64_of_Z 1000000000) with NSECS_CONVERSION.
  unfold NSECS_CONVERSION, FRACTION_CONVERSION. rewrite ntp_fraction_exact by done.
  split; cbn [seconds fraction]; [apply as_u_range; lia|by apply fraction_range].
Qed.

Lemma ntp_now_shared s : clock_sane W -> exists n w,
  ntp_timestamp_now s = (Ok n, with_sh_os s w) /\ ntp_wf n.
Proof.
  intros Hc. destruct (Hc (sh_os s)) as [H1 H2]. destruct (ntp_now_at s H1 H2) as (n & E & Hn). eauto.
Qed.
End facts.

(** A poll that registers everything still does under the sessions. *)
Lemma registers_shared {W} `{EpollOs W} : registers (W:=W) -> registers (W:=Shared W).
Proof.
  intros [Hn Hr]. split; [intros s; specialize (Hn (sh_os s))|intros fd t s; specialize (Hr fd t (sh_os s))]; cbn; unfold on_part.
  - by destruct (poll_new (sh_os s)).
  - by destruct (poll_register fd t (sh_os s)).
Qed.

Lemma scripted_clock_sane : clock_sane scripted (H := Scripted.scripted_libc).
Proof. intros w. cbn. unfold NTP_EPOCH, NANOS_PER_SEC. lia. Qed.
