(* ===== verification/Results.v ===== *)
(** * [twamp_light_sender/result.rs], and the results of [twamp_light.rs]

    The statistics of a session: the delays and jitters of its answered packets, their
    averages, extrema, deviations, medians and percentiles, and the rounding done when they
    are written out. *)
From stdpp Require Import base list option numbers strings sorting.
From Stdlib Require Import ZArith Lia SpecFloat.
From S2P Require Import Prelude Float64 Errors Time Net DataModel Messages Estimator Session.
Local Open Scope Z_scope.

(** ** [result.rs] *)

Record NetworkStatistics := {
  avg_rtt : option f64; min_rtt : option f64; max_rtt : option f64; std_dev_rtt : option f64;
  median_rtt : option f64; low_percentile_rtt : option f64; high_percentile_rtt : option f64;
  avg_forward_owd : option f64; min_forward_owd : option f64; max_forward_owd : option f64;
  std_dev_forward_owd : option f64; median_forward_owd : option f64;
  low_percentile_forward_owd : option f64; high_percentile_forward_owd : option f64;
  avg_backward_owd : option f64; min_backward_owd : option f64; max_backward_owd : option f64;
  std_dev_backward_owd : option f64; median_backward_owd : option f64;
  low_percentile_backward_owd : option f64; high_percentile_backward_owd : option f64;
  avg_process_time : option f64; min_process_time : option f64; max_process_time : option f64;
  std_dev_process_time : option f64; median_process_time : option f64;
  low_percentile_process_time : option f64; high_percentile_process_time : option f64;
  avg_forward_jitter : option f64; avg_backward_jitter : option f64;
  std_dev_forward_jitter : option f64; std_dev_backward_jitter : option f64;
  forward_loss_ : Z; backward_loss_ : Z; total_loss_ : Z; total_packets : Z;
  gamlr_offset : option f64
}.

Record SessionResult := {
  sr_address : SocketAddr; status : option string; network_statistics : option NetworkStatistics
}.
Record TwampResult := { session_results : list SessionResult; tr_error : option string }.

Definition NETWORK_PRECISION : nat := 0.

(** The number handed to [serialize_f64]. *)
Definition round_f64_with_precision (num : f64) : f64 :=
  let factor := f64_powi (f64_of_Z 10) NETWORK_PRECISION in
  (f64_round (num * factor) / factor)%f64.
Definition round_option_f64_with_precision (num : option f64) : f64 :=
  round_f64_with_precision (default f64_zero num).

(** ** Statistics of a vector *)

Definition median {E} (v : list f64) : outcome E (option f64) :=
  match v with
  | [] => Ok None
  | _ =>
      let mid := (length v / 2)%nat in
      if Nat.even (length v)
      then a ← index v (mid - 1); b ← index v mid; Ok (Some ((a + b) / f64_two)%f64)
      else a ← index v mid; Ok (Some a)
  end.

Definition percentile {E} (v : list f64) (p : f64) : outcome E (option f64) :=
  match v with
  | [] => Ok None
  | _ =>
      let idx := f64_as_u 64 (f64_round (p / f64_of_Z 100 * f64_of_Z (Z.of_nat (length v) - 1))%f64) in
      a ← index v (Z.to_nat idx); Ok (Some a)
  end.

Definition calculate_std_dev (v : list f64) (mean : f64) : option f64 :=
  match v with
  | [] => None
  | _ =>
      let variance := (f64_sum ((fun value => f64_powi (value - mean)%f64 2) <$> v) / f64_len v)%f64 in
      Some (f64_sqrt variance)
  end.

(** [sort_by(total_cmp)], [min_by(total_cmp)] (the first of equals), [max_by] (the last). *)
Definition total_le (x y : f64) : Prop := f64_total_leb x y = true.
#[export] Instance total_le_dec x y : Decision (total_le x y).
Proof. unfold total_le. apply _. Defined.
Definition sort_total (v : list f64) : list f64 := merge_sort total_le v.
Definition min_total (v : list f64) : option f64 :=
  match v with [] => None | x :: l => Some (fold_left (fun m y => if decide (total_le m y) then m else y) l x) end.
Definition max_total (v : list f64) : option f64 :=
  match v with [] => None | x :: l => Some (fold_left (fun m y => if decide (total_le m y) then y else m) l x) end.

(** ** The delays of a session *)

Record delays := {
  rtt_vec : list f64; f_owd_vec : list f64; b_owd_vec : list f64; rpd_vec : list f64;
  forward_jitter_vec : list f64; backward_jitter_vec : list f64;
  rtt_sum : f64; f_owd_sum : f64; b_owd_sum : f64; rpd_sum : f64;
  prev_forward_owd : option f64; prev_backward_owd : option f64
}.

Definition no_delays : delays := {|
  rtt_vec := []; f_owd_vec := []; b_owd_vec := []; rpd_vec := [];
  forward_jitter_vec := []; backward_jitter_vec := [];
  rtt_sum := f64_zero; f_owd_sum := f64_zero; b_owd_sum := f64_zero; rpd_sum := f64_zero;
  prev_forward_owd := None; prev_backward_owd := None |}.

Definition push_rtt (x : f64) (d : delays) : delays := {|
  rtt_vec := rtt_vec d ++ [x]; f_owd_vec := f_owd_vec d; b_owd_vec := b_owd_vec d; rpd_vec := rpd_vec d;
  forward_jitter_vec := forward_jitter_vec d; backward_jitter_vec := backward_jitter_vec d;
  rtt_sum := f64_add (rtt_sum d) x; f_owd_sum := f_owd_sum d; b_owd_sum := b_owd_sum d; rpd_sum := rpd_sum d;
  prev_forward_owd := prev_forward_owd d; prev_backward_owd := prev_backward_owd d |}.
(** The jitter of a delay after the one before it. *)
Definition jitter (prev : option f64) (x : f64) : list f64 :=
  match prev with Some p => [SFabs (x - p)%f64] | None => [] end.
Definition push_f_owd (x : f64) (d : delays) : delays := {|
  rtt_vec := rtt_vec d; f_owd_vec := f_owd_vec d ++ [x]; b_owd_vec := b_owd_vec d; rpd_vec := rpd_vec d;
  forward_jitter_vec := forward_jitter_vec d ++ jitter (prev_forward_owd d) x;
  backward_jitter_vec := backward_jitter_vec d;
  rtt_sum := rtt_sum d; f_owd_sum := f64_add (f_owd_sum d) x; b_owd_sum := b_owd_sum d; rpd_sum := rpd_sum d;
  prev_forward_owd := Some x; prev_backward_owd := prev_backward_owd d |}.
Definition push_b_owd (x : f64) (d : delays) : delays := {|
  rtt_vec := rtt_vec d; f_owd_vec := f_owd_vec d; b_owd_vec := b_owd_vec d ++ [x]; rpd_vec := rpd_vec d;
  forward_jitter_vec := forward_jitter_vec d;
  backward_jitter_vec := backward_jitter_vec d ++ jitter (prev_backward_owd d) x;
  rtt_sum := rtt_sum d; f_owd_sum := f_owd_sum d; b_owd_sum := f64_add (b_owd_sum d) x; rpd_sum := rpd_sum d;
  prev_forward_owd := prev_forward_owd d; prev_backward_owd := Some x |}.
Definition push_rpd (x : f64) (d : delays) : delays := {|
  rtt_vec := rtt_vec d; f_owd_vec := f_owd_vec d; b_owd_vec := b_owd_vec d; rpd_vec := rpd_vec d ++ [x];
  forward_jitter_vec := forward_jitter_vec d; backward_jitter_vec := backward_jitter_vec d;
  rtt_sum := rtt_sum d; f_owd_sum := f_owd_sum d; b_owd_sum := b_owd_sum d; rpd_sum := f64_add (rpd_sum d) x;
  prev_forward_owd := prev_forward_owd d; prev_backward_owd := prev_backward_owd d |}.

Definition is_answered (p : PacketResults) : bool :=
  match t2 p, t3 p with Some _, Some _ => true | _, _ => false end.

Section results.
Context `{BuildProfile}.

(** [if let Some(d) = packet.calculate_..() { .. }] *)
Definition if_let {A} (o : result (option A)) (nanos_of : A -> result Z) (push : f64 -> delays -> delays)
    (d : delays) : result delays :=
  a ← o;
  match a with
  | Some a => n ← nanos_of a; Ok (push (f64_of_Z n) d)
  | None => Ok d
  end.

(** The body of the loop over the answered packets. *)
Definition add_packet (d : delays) (packet : PacketResults) : result delays :=
  d ← if_let (calculate_rtt packet) (fun d => Ok (Duration_as_nanos d)) push_rtt d;
  d ← if_let (calculate_owd_forward packet) Interval_as_nanos push_f_owd d;
  d ← if_let (calculate_owd_backward packet) Interval_as_nanos push_b_owd d;
  if_let (calculate_rpd packet) (fun d => Ok (Duration_as_nanos d)) push_rpd d.

Fixpoint add_packets (d : delays) (packets : list PacketResults) : result delays :=
  match packets with
  | [] => Ok d
  | packet :: packets' => d ← add_packet d packet; add_packets d packets'
  end.

Definition sort_delays (d : delays) : delays := {|
  rtt_vec := sort_total (rtt_vec d); f_owd_vec := sort_total (f_owd_vec d);
  b_owd_vec := sort_total (b_owd_vec d); rpd_vec := sort_total (rpd_vec d);
  forward_jitter_vec := sort_total (forward_jitter_vec d);
  backward_jitter_vec := sort_total (backward_jitter_vec d);
  rtt_sum := rtt_sum d; f_owd_sum := f_owd_sum d; b_owd_sum := b_owd_sum d; rpd_sum := rpd_sum d;
  prev_forward_owd := prev_forward_owd d; prev_backward_owd := prev_backward_owd d |}.

(** [Option::unwrap_or_default] of [analyze_packet_loss], which does not give [None] here. *)
Definition statistics (packets : nat) (loss : Z * Z * Z) (gamlr : option f64) (d : delays)
    : result NetworkStatistics :=
  let '(fl, bl, tl) := loss in
  let n := f64_of_Z (Z.of_nat packets) in
  let avg sum := if (0 <? packets)%nat then Some (sum / n)%f64 else None in
  let mean v := (f64_sum v / f64_len v)%f64 in
  let avg_jitter v := match v with [] => None | _ => Some (mean v) end in
  med_rtt ← median (rtt_vec d); low_rtt ← percentile (rtt_vec d) (f64_of_Z 25); high_rtt ← percentile (rtt_vec d) (f64_of_Z 75);
  med_f ← median (f_owd_vec d); low_f ← percentile (f_owd_vec d) (f64_of_Z 25); high_f ← percentile (f_owd_vec d) (f64_of_Z 75);
  med_b ← median (b_owd_vec d); low_b ← percentile (b_owd_vec d) (f64_of_Z 25); high_b ← percentile (b_owd_vec d) (f64_of_Z 75);
  med_p ← median (rpd_vec d); low_p ← percentile (rpd_vec d) (f64_of_Z 25); high_p ← percentile (rpd_vec d) (f64_of_Z 75);
  Ok {|
    avg_rtt := avg (rtt_sum d); min_rtt := min_total (rtt_vec d); max_rtt := max_total (rtt_vec d);
    std_dev_rtt := calculate_std_dev (rtt_vec d) (rtt_sum d / n)%f64;
    median_rtt := med_rtt; low_percentile_rtt := low_rtt; high_percentile_rtt := high_rtt;
    avg_forward_owd := avg (f_owd_sum d); min_forward_owd := min_total (f_owd_vec d);
    max_forward_owd := max_total (f_owd_vec d);
    std_dev_forward_owd := calculate_std_dev (f_owd_vec d) (f_owd_sum d / n)%f64;
    median_forward_owd := med_f; low_percentile_forward_owd := low_f; high_percentile_forward_owd := high_f;
    avg_backward_owd := avg (b_owd_sum d); min_backward_owd := min_total (b_owd_vec d);
    max_backward_owd := max_total (b_owd_vec d);
    std_dev_backward_owd := calculate_std_dev (b_owd_vec d) (b_owd_sum d / n)%f64;
    median_backward_owd := med_b; low_percentile_backward_owd := low_b; high_percentile_backward_owd := high_b;
    avg_process_time := avg (rpd_sum d); min_process_time := min_total (rpd_vec d);
    max_process_time := max_total (rpd_vec d);
    std_dev_process_time := calculate_std_dev (rpd_vec d) (rpd_sum d / n)%f64;
    median_process_time := med_p; low_percentile_process_time := low_p; high_percentile_process_time := high_p;
    avg_forward_jitter := avg_jitter (forward_jitter_vec d);
    avg_backward_jitter := avg_jitter (backward_jitter_vec d);
    std_dev_forward_jitter := calculate_std_dev (forward_jitter_vec d) (mean (forward_jitter_vec d));
    std_dev_backward_jitter := calculate_std_dev (backward_jitter_vec d) (mean (backward_jitter_vec d));
    forward_loss_ := fl; backward_loss_ := bl; total_loss_ := tl; total_packets := Z.of_nat packets;
    gamlr_offset := gamlr |}.

(** The closure of [calculate_session_results]: [None] while a sampler of the clock offset
    still loops. *)
Definition calculate_session_result (ln : f64 -> f64) (fuel : nat) (clock_f clock_b : nat -> option Duration)
    (session : Session) : result (option SessionResult) :=
  let answered := filter (fun p => is_answered p = true) (results session) in
  loss ← unwrap_or (0, 0, 0) (analyze_packet_loss session);
  d ← add_packets no_delays answered;
  let d := sort_delays d in
  gamlr ← calculate_gamlr_offset ln fuel clock_f clock_b (f_owd_vec d) (b_owd_vec d);
  match gamlr with
  | None => Ok None
  | Some gamlr =>
      s ← statistics (length answered) loss gamlr d;
      Ok (Some {| sr_address := tx_socket_address session; status := Some "Success"%string;
                  network_statistics := Some s |})
  end.

(** One result per session, in order; the clock readings of each session are its own. *)
Fixpoint calculate_session_results (ln : f64 -> f64) (fuel : nat)
    (clocks : nat -> (nat -> option Duration) * (nat -> option Duration)) (sessions : list Session)
    : result (option (list SessionResult)) :=
  match sessions with
  | [] => Ok (Some [])
  | session :: sessions' =>
      let '(cf, cb) := clocks (length sessions') in
      r ← calculate_session_result ln fuel cf cb session;
      match r with
      | None => Ok None
      | Some r =>
          rs ← calculate_session_results ln fuel clocks sessions';
          Ok (cons r <$> rs)
      end
  end.
End results.

(** ** Lemmas *)

Lemma f64_exact_div_pow2 r N D x j : 0 <= j < 53 -> 0 <= r <= 700 -> f64_exact r N D x ->
  f64_exact (r + 53) N (D * 2 ^ j) (f64_div x (f64_of_Z (2 ^ j))).
Proof.
  intros Hj Hr (m & u & v & -> & Hu & Hv & Hb & Hm & E).
  rewrite f64_div_pow2 by lia. exists m, (u + j), v.
  split; [f_equal; lia|]. do 4 (split; [lia|]).
  rewrite (Z.pow_add_r 2 u j) by lia. rewrite (Z.mul_assoc N), <-E. ring.
Qed.

Lemma f64_quarter_exact k : (k = 1 \/ k = 3) -> forall n, 0 <= n < 2 ^ 50 ->
  (f64_of_Z (25 * k) / f64_of_Z 100 * f64_of_Z n)%f64 = f64_div (f64_of_Z (k * n)) (f64_of_Z 4).
Proof.
  intros Hk n Hn. assert (exists m0 e0, f64_div (f64_of_Z (25 * k)) (f64_of_Z 100) = S754_finite false m0 e0 /\
    f64_exact 60 k 4 (S754_finite false m0 e0)) as (m0 & e0 & -> & Hq).
  { destruct Hk as [-> | ->]; (eexists _, _; split; [vm_compute; reflexivity|]).
    - exists 4503599627370496%positive, 54, 0. vm_compute. intuition congruence.
    - exists 6755399441055744%positive, 53, 0. vm_compute. intuition congruence. }
  destruct (Z.eq_dec n 0) as [->|Hn0].
  { rewrite Z.mul_0_r. change (f64_of_Z 0) with (S754_zero false). vm_compute. done. }
  apply (f64_near_exact (60 + 52 + 54) 105 (k * n) 4).
  - lia.
  - pose proof (f64_mul_near 60 52 k 4 n 1 _ _ ltac:(lia) ltac:(lia) ltac:(lia) Hq (f64_of_Z_is n ltac:(lia))) as Hm.
    exact Hm.
  - pose proof (f64_exact_div_pow2 52 (k * n) 1 _ 2 ltac:(lia) ltac:(lia) (f64_of_Z_is (k * n) ltac:(lia))) as He.
    exact He.
Qed.

Lemma f64_round_quarter z : 0 <= z < 2 ^ 52 -> f64_round (f64_div (f64_of_Z z) (f64_of_Z 4)) = f64_of_Z ((z + 2) / 4).
Proof.
  intros Hz. destruct (Z.eq_dec z 0) as [->|Hz0]; [by vm_compute|].
  pose proof (f64_exact_div_pow2 52 z 1 _ 2 ltac:(lia) ltac:(lia) (f64_of_Z_is z ltac:(lia))) as He.
  change (f64_of_Z 4) with (f64_of_Z (2 ^ 2)).
  rewrite (f64_round_exact _ z (1 * 2 ^ 2) _ ltac:(lia) ltac:(lia) He). f_equal.
  change (1 * 2 ^ 2) with 4. rewrite (ltac:(ring) : 2 * z + 4 = 2 * (z + 2)), Z.div_mul_cancel_l by lia. done.
Qed.

Lemma f64_as_u64_of_Z z : 0 <= z < 2 ^ 52 -> f64_as_u 64 (f64_of_Z z) = z.
Proof.
  intros Hz. unfold f64_as_u. destruct (decide (z = 0)) as [->|]; [done|]. rewrite f64_as_of_Z by lia.
  unfold u_max. lia.
Qed.

(** The index of the lower (k = 1) and the upper (k = 3) quartile. *)
Lemma quartile_index {E} k v : (k = 1 \/ k = 3) -> v <> [] -> Z.of_nat (length v) < 2 ^ 50 ->
  exists x, v !! Z.to_nat ((k * (Z.of_nat (length v) - 1) + 2) / 4) = Some x /\
    percentile (E:=E) v (f64_of_Z (25 * k)) = Ok (Some x).
Proof.
  intros Hk Hv Hl. assert (0 < Z.of_nat (length v)) by (destruct v; [done|cbn [length]; lia]).
  destruct (lookup_lt_is_Some_2 v (Z.to_nat ((k * (Z.of_nat (length v) - 1) + 2) / 4))) as [x Hx].
  { apply Nat2Z.inj_lt. rewrite Z2Nat.id by (apply Z.div_pos; lia). apply Z.div_lt_upper_bound; lia. }
  exists x. split; [done|]. unfold percentile. destruct v as [|y v]; [done|].
  rewrite f64_quarter_exact by lia. rewrite f64_round_quarter by lia.
  rewrite f64_as_u64_of_Z by (split; [apply Z.div_pos; lia|apply Z.div_lt_upper_bound; lia]).
  by rewrite (index_lookup _ _ _ Hx).
Qed.

(** *** [total_cmp] is a total order on the values that are not a NaN *)

Definition f64_key (x : f64) : Z * Z * Z :=
  match x with
  | S754_nan => (0, 0, 0)
  | S754_infinity s => (if s then -2 else 2, 0, 0)
  | S754_zero s => (0, if s then 0 else 1, 0)
  | S754_finite s m e => if s then (-1, - e, - Zpos m) else (1, e, Zpos m)
  end.
Definition lex_le (p q : Z * Z * Z) : Prop :=
  let '(a, b, c) := p in let '(a', b', c') := q in
  a < a' \/ a = a' /\ (b < b' \/ b = b' /\ c <= c').

Lemma total_le_key x y : f64_is_nan x = false -> f64_is_nan y = false ->
  total_le x y <-> lex_le (f64_key x) (f64_key y).
Proof.
  intros Hx Hy. unfold total_le, f64_total_leb, f64_total_cmp.
  destruct x as [[]|[]| |[] m e], y as [[]|[]| |[] m' e']; try discriminate; cbn; try (split; [lia|done]);
    try (split; [done|lia]).
  - change (Pos.compare_cont Eq m m') with (m ?= m')%positive.
    destruct (Z.compare_spec e e'), (Pos.compare_spec m m'); cbn; split; intros; first [done|lia].
  - change (Pos.compare_cont Eq m m') with (m ?= m')%positive.
    destruct (Z.compare_spec e e'), (Pos.compare_spec m m'); cbn; split; intros; first [done|lia].
Qed.

Lemma total_le_trans x y z : f64_is_nan x = false -> f64_is_nan y = false -> f64_is_nan z = false ->
  total_le x y -> total_le y z -> total_le x z.
Proof.
  intros Hx Hy Hz. rewrite !total_le_key by done.
  destruct (f64_key x) as [[]], (f64_key y) as [[]], (f64_key z) as [[]]. cbn. lia.
Qed.
Lemma total_le_or x y : f64_is_nan x = false -> f64_is_nan y = false -> total_le x y \/ total_le y x.
Proof.
  intros Hx Hy. rewrite !total_le_key by done. destruct (f64_key x) as [[]], (f64_key y) as [[]]. cbn. lia.
Qed.
Lemma total_le_refl x : f64_is_nan x = false -> total_le x x.
Proof. intros Hx. by destruct (total_le_or x x). Qed.

Definition no_nan (v : list f64) : Prop := Forall (fun x => f64_is_nan x = false) v.

(** A left fold that keeps one of two elements keeps the one that is related to all. *)
Lemma fold_choose (R : f64 -> f64 -> Prop) (pick : f64 -> f64 -> f64) x l :
  (forall a b, f64_is_nan a = false -> f64_is_nan b = false ->
     (pick a b = a \/ pick a b = b) /\ R (pick a b) a /\ R (pick a b) b) ->
  (forall a b c, f64_is_nan a = false -> f64_is_nan b = false -> f64_is_nan c = false -> R a b -> R b c -> R a c) ->
  f64_is_nan x = false -> no_nan l ->
  let m := fold_left pick l x in m ∈ x :: l /\ f64_is_nan m = false /\ R m x /\ Forall (R m) l.
Proof.
  intros Hp Ht Hx Hl. revert x Hx. induction Hl as [|y l Hy Hl IH]; intros x Hx; cbn [fold_left].
  { split; [left|]. split; [done|]. split; [|constructor]. destruct (Hp x x Hx Hx) as ([E|E] & H & _); by rewrite E in H. }
  destruct (Hp x y Hx Hy) as (Hor & Hpx & Hpy).
  assert (Hn : f64_is_nan (pick x y) = false) by (destruct Hor as [-> | ->]; done).
  destruct (IH _ Hn) as (Hin & Hm & Hr & HF). split; [|split; [done|split; [by eapply (Ht _ (pick x y))|]]].
  - apply elem_of_cons in Hin as [->|Hin]; [destruct Hor as [-> | ->]; [left|right; left]|by do 2 right].
  - constructor; [by eapply (Ht _ (pick x y))|done].
Qed.

Lemma min_total_spec v : v <> [] -> no_nan v -> exists m, min_total v = Some m /\ m ∈ v /\ Forall (total_le m) v.
Proof.
  destruct v as [|x l]; [done|]. intros _ [Hx Hl]%Forall_cons. eexists. split; [done|].
  destruct (fold_choose total_le (fun m y => if decide (total_le m y) then m else y) x l) as (Hin & _ & Hr & HF);
    [|apply total_le_trans|done|done|split; [done|by constructor]].
  intros a b Ha Hb. case_decide; (split; [auto|]).
  - split; [by apply total_le_refl|done].
  - split; [by destruct (total_le_or a b)|by apply total_le_refl].
Qed.

Lemma max_total_spec v : v <> [] -> no_nan v -> exists m, max_total v = Some m /\ m ∈ v /\ Forall (fun x => total_le x m) v.
Proof.
  destruct v as [|x l]; [done|]. intros _ [Hx Hl]%Forall_cons. eexists. split; [done|].
  destruct (fold_choose (flip total_le) (fun m y => if decide (total_le m y) then y else m) x l) as (Hin & _ & Hr & HF);
    [| |done|done|split; [done|by constructor]].
  - intros a b Ha Hb. unfold flip. case_decide; (split; [auto|]).
    + split; [done|by apply total_le_refl].
    + split; [by apply total_le_refl|by destruct (total_le_or a b)].
  - intros a b c Ha Hb Hc ??. unfold flip in *. by apply (total_le_trans _ b).
Qed.

(** *** Integers are not converted to a NaN *)

Lemma shr_nonneg mrs e n : 0 <= shr_m mrs -> 0 <= shr_m (fst (shr mrs e n)).
Proof.
  intros Hm. destruct n as [|p|p]; [done| |done]. cbn [shr fst].
  revert mrs Hm. induction p as [p IH|p IH|]; intros mrs Hm; cbn [SpecFloat.iter_pos];
    repeat apply IH; rewrite ?shr_1_m by done; try apply Z.div_pos; try done; try lia.
Qed.

Lemma f64_of_Z_not_nan z : f64_is_nan (f64_of_Z z) = false.
Proof.
  assert (forall s m e, 0 <= m -> f64_is_nan (binary_round_aux 53 1024 s m e loc_Exact) = false) as H.
  { intros s m e Hm. unfold binary_round_aux, shr_fexp.
    set (r := shr (shr_record_of_loc m loc_Exact) e _).
    assert (0 <= shr_m (fst r)) as Hr by (by apply shr_nonneg). destruct r as [mrs e']. cbn [fst] in Hr.
    set (r2 := shr _ e' _).
    assert (0 <= shr_m (fst r2)) as Hr2.
    { apply shr_nonneg. cbn. unfold round_nearest_even. destruct (loc_of_shr_record mrs) as [|[]]; cbn; try lia.
      destruct (Z.even _); lia. }
    destruct r2 as [mrs2 e2]. cbn [fst] in Hr2. destruct (shr_m mrs2); [done| |lia]. by destruct (_ <=? _)%Z. }
  unfold f64_of_Z, binary_normalize. destruct z as [|p|p]; [done|..]; unfold binary_round;
    (match goal with |- context [let (_, _) := ?x in _] => destruct x end); by apply H.
Qed.

(** *** The delays of the answered packets *)

(** [a - b] in nanoseconds. *)
Definition delay (a b : option DateTime) : Z :=
  match a, b with Some a, Some b => datetime_nanos a - datetime_nanos b | _, _ => 0 end.
Definition rtt_of (p : PacketResults) : f64 := f64_of_Z (Z.abs (delay (t4 p) (Some (t1 p)))).
Definition f_owd_of (p : PacketResults) : f64 := f64_of_Z (delay (t2 p) (Some (t1 p))).
Definition b_owd_of (p : PacketResults) : f64 := f64_of_Z (delay (t4 p) (t3 p)).
Definition rpd_of (p : PacketResults) : f64 := f64_of_Z (Z.abs (delay (t3 p) (t2 p))).

(** A packet with all four times. *)
Definition complete (p : PacketResults) : Prop :=
  packet_u32 p /\ is_Some (t2 p) /\ is_Some (t3 p) /\ is_Some (t4 p).

(** The jitter of each delay after the one before it. *)
Definition jitters (l : list f64) : list f64 := zip_with (fun p x => SFabs (x - p)%f64) l (tail l).

Lemma jitter_cons prev x l : jitter prev x ++ jitters (x :: l) = jitters (option_list prev ++ x :: l).
Proof. by destruct prev. Qed.

Section delays_of.
Context `{BuildProfile}.

Lemma add_packet_spec d p : complete p -> add_packet d p =
  Ok (push_rpd (rpd_of p) (push_b_owd (b_owd_of p) (push_f_owd (f_owd_of p) (push_rtt (rtt_of p) d)))).
Proof.
  intros [(H1 & H2 & H3 & H4) ([b Eb] & [c Ec] & [e Ee])]. rewrite Eb, Ec, Ee in *. cbn [opt_datetime_u32] in *.
  unfold add_packet, if_let, rtt_of, f_owd_of, b_owd_of, rpd_of, delay.
  destruct (calculate_rtt_Some p e Ee H1 H4) as (i1 & -> & _ & E1).
  destruct (calculate_owd_forward_Some p b Eb H1 H2) as (i2 & -> & I2).
  destruct (calculate_owd_backward_Some p e c Ee Ec H4 H3) as (i3 & -> & I3).
  destruct (calculate_rpd_Some p c b Ec Eb H3 H2) as (i4 & -> & _ & E4).
  cbn [mbind outcome_bind]. rewrite (interval_between_nanos _ _ _ H2 H1 I2), (interval_between_nanos _ _ _ H4 H3 I3).
  cbn [mbind outcome_bind]. by rewrite E1, E4, Eb, Ec, Ee.
Qed.

Lemma add_packets_spec ps d : Forall complete ps -> exists d', add_packets d ps = Ok d' /\
  rtt_vec d' = rtt_vec d ++ (rtt_of <$> ps) /\ f_owd_vec d' = f_owd_vec d ++ (f_owd_of <$> ps) /\
  b_owd_vec d' = b_owd_vec d ++ (b_owd_of <$> ps) /\ rpd_vec d' = rpd_vec d ++ (rpd_of <$> ps) /\
  forward_jitter_vec d' = forward_jitter_vec d ++ jitters (option_list (prev_forward_owd d) ++ (f_owd_of <$> ps)) /\
  backward_jitter_vec d' = backward_jitter_vec d ++ jitters (option_list (prev_backward_owd d) ++ (b_owd_of <$> ps)) /\
  rtt_sum d' = fold_left f64_add (rtt_of <$> ps) (rtt_sum d) /\ f_owd_sum d' = fold_left f64_add (f_owd_of <$> ps) (f_owd_sum d) /\
  b_owd_sum d' = fold_left f64_add (b_owd_of <$> ps) (b_owd_sum d) /\ rpd_sum d' = fold_left f64_add (rpd_of <$> ps) (rpd_sum d).
Proof.
  intros Hps. revert d. induction Hps as [|p ps Hp Hps IH]; intros d.
  { exists d. cbn [fmap list_fmap]. rewrite !app_nil_r. by destruct (prev_forward_owd d), (prev_backward_owd d);
    cbn; rewrite ?app_nil_r. }
  cbn [add_packets]. rewrite (add_packet_spec d p Hp). cbn [mbind outcome_bind].
  match goal with |- context [add_packets ?x ps] => destruct (IH x) as (d' & -> & E1 & E2 & E3 & E4 & E5 & E6 & E7 & E8 & E9 & E10) end.
  exists d'. cbn [push_rtt push_f_owd push_b_owd push_rpd rtt_vec f_owd_vec b_owd_vec rpd_vec forward_jitter_vec
    backward_jitter_vec rtt_sum f_owd_sum b_owd_sum rpd_sum prev_forward_owd prev_backward_owd] in *.
  rewrite E1, E2, E3, E4, E5, E6, E7, E8, E9, E10. rewrite <-!app_assoc. cbn [fmap list_fmap option_list option_rect app].
  rewrite !jitter_cons. repeat (split; [done|]). done.
Qed.
End delays_of.

Lemma sort_total_perm v : sort_total v ≡ₚ v.
Proof. apply merge_sort_Permutation. Qed.
Lemma sort_total_length v : length (sort_total v) = length v.
Proof. apply Permutation_length, sort_total_perm. Qed.

Lemma sort_total_nonempty v : v <> [] -> sort_total v <> [].
Proof. intros Hv E. apply (f_equal (@length _)) in E. rewrite sort_total_length in E. by destruct v. Qed.

Lemma median_spec {E} v : v <> [] -> exists m, median (E:=E) v = Ok (Some m) /\
  (Nat.even (length v) = false -> v !! (length v / 2)%nat = Some m) /\
  (Nat.even (length v) = true -> exists a b, v !! (length v / 2 - 1)%nat = Some a /\
     v !! (length v / 2)%nat = Some b /\ m = f64_div (f64_add a b) f64_two).
Proof.
  intros Hv. assert (0 < length v)%nat by (destruct v; [done|cbn; lia]).
  assert (length v / 2 < length v)%nat by (apply Nat.div_lt; lia).
  destruct (lookup_lt_is_Some_2 v (length v / 2)) as [b Hb]; [done|].
  destruct (lookup_lt_is_Some_2 v (length v / 2 - 1)) as [a Ha]; [lia|].
  unfold median. destruct v as [|x v]; [done|].
  rewrite (index_lookup _ _ _ Ha), (index_lookup _ _ _ Hb). destruct (Nat.even _).
  - eexists. split; [done|]. split; [done|]. intros _. by exists a, b.
  - exists b. done.
Qed.

Lemma no_nan_of_Z {A} (f : A -> Z) l : no_nan ((fun x => f64_of_Z (f x)) <$> l).
Proof. apply Forall_fmap, Forall_true. intros x. apply f64_of_Z_not_nan. Qed.

Lemma no_nan_sorted v : no_nan v -> no_nan (sort_total v).
Proof. unfold no_nan. by rewrite sort_total_perm. Qed.

#[export] Instance total_le_total : Total total_le.
Proof.
  intros x y. unfold total_le, f64_total_leb, f64_total_cmp.
  destruct x as [[]|[]| |[] m e], y as [[]|[]| |[] m' e']; cbn; auto;
    rewrite (Z.compare_antisym e e'); change (Pos.compare_cont Eq m m') with (m ?= m')%positive;
    change (Pos.compare_cont Eq m' m) with (m' ?= m)%positive; rewrite (Pos.compare_antisym m m');
    destruct (e ?= e'), (m ?= m')%positive; cbn; auto.
Qed.

Lemma sort_total_sorted v : Sorted total_le (sort_total v).
Proof. apply (Sorted_merge_sort total_le). Qed.

(** The extrema of a sorted vector are its ends. *)
Lemma min_total_head w : Sorted total_le w -> no_nan w -> min_total w = w !! 0%nat.
Proof.
  destruct w as [|x l]; [done|]. intros Hs Hn. cbn [min_total]. cbn [lookup list_lookup]. f_equal.
  apply Sorted_inv in Hs as [Hl Hx]. apply Forall_cons in Hn as [Hnx Hnl].
  assert (Hall : Forall (total_le x) l).
  { clear -Hl Hx Hnx Hnl. revert x Hx Hnx. induction Hl as [|y l Hl IH Hy]; intros x Hx Hnx; [done|].
    apply HdRel_inv in Hx. apply Forall_cons in Hnl as [Hny Hnl]. constructor; [done|].
    eapply Forall_impl; [apply Forall_and; split; [exact (IH Hnl y Hy Hny)|exact Hnl]|]. intros z [Hz Hnz]. by apply (total_le_trans x y). }
  clear Hx Hl. induction Hall as [|y l Hy Hall IH]; [done|]. cbn [fold_left]. rewrite decide_True by done.
  apply Forall_cons in Hnl as [_ Hnl]. by apply IH.
Qed.

Lemma max_total_last w : Sorted total_le w -> max_total w = w !! (length w - 1)%nat.
Proof.
  destruct w as [|x l]; [done|]. intros Hs. cbn [max_total length]. rewrite Nat.sub_1_r. cbn [Nat.pred].
  revert x Hs. induction l as [|y l IH]; intros x Hs; [done|]. apply Sorted_inv in Hs as [Hs Hx]. apply HdRel_inv in Hx.
  cbn [fold_left length]. rewrite decide_True by done. by apply IH.
Qed.

(** ** What the statistics of a set of packets say

    Seven statistics of the measured values [v], in the order in which they were measured:
    none without a value; otherwise the mean, and, of the values in increasing order, the first,
    the last, the deviation from the mean, the middle one (or the mean of the two middle ones)
    and the ones a quarter and three quarters of the way up. *)
Definition summary (v : list f64) (avg mn mx sd med lo hi : option f64) : Prop :=
  let n := length v in
  match v with
  | [] => avg = None /\ mn = None /\ mx = None /\ sd = None /\ med = None /\ lo = None /\ hi = None
  | _ => exists w, w ≡ₚ v /\ Sorted total_le w /\
      let mean := (f64_sum v / f64_of_Z (Z.of_nat n))%f64 in
      avg = Some mean /\ mn = w !! 0%nat /\ mx = w !! (n - 1)%nat /\
      sd = Some (f64_sqrt (f64_sum ((fun x => f64_powi (x - mean)%f64 2) <$> w) / f64_of_Z (Z.of_nat n))%f64) /\
      (exists a b, w !! ((n - 1) / 2)%nat = Some a /\ w !! (n / 2)%nat = Some b /\
         med = Some (if Nat.even n then ((a + b) / f64_two)%f64 else b)) /\
      is_Some lo /\ lo = w !! ((n + 1) / 4)%nat /\ is_Some hi /\ hi = w !! ((3 * n - 1) / 4)%nat
  end.

(** The mean and the deviation of the jitters, summed in increasing order. *)
Definition jitter_summary (v : list f64) (avg sd : option f64) : Prop :=
  match v with
  | [] => avg = None /\ sd = None
  | _ => exists w, w ≡ₚ v /\ Sorted total_le w /\
      let mean := (f64_sum w / f64_of_Z (Z.of_nat (length v)))%f64 in avg = Some mean /\
      sd = Some (f64_sqrt (f64_sum ((fun x => f64_powi (x - mean)%f64 2) <$> w) / f64_of_Z (Z.of_nat (length v)))%f64)
  end.

Definition measured (ps : list PacketResults) (st : NetworkStatistics) : Prop :=
  total_packets st = Z.of_nat (length ps) /\
  summary (rtt_of <$> ps) (avg_rtt st) (min_rtt st) (max_rtt st) (std_dev_rtt st) (median_rtt st)
    (low_percentile_rtt st) (high_percentile_rtt st) /\
  summary (f_owd_of <$> ps) (avg_forward_owd st) (min_forward_owd st) (max_forward_owd st) (std_dev_forward_owd st)
    (median_forward_owd st) (low_percentile_forward_owd st) (high_percentile_forward_owd st) /\
  summary (b_owd_of <$> ps) (avg_backward_owd st) (min_backward_owd st) (max_backward_owd st) (std_dev_backward_owd st)
    (median_backward_owd st) (low_percentile_backward_owd st) (high_percentile_backward_owd st) /\
  summary (rpd_of <$> ps) (avg_process_time st) (min_process_time st) (max_process_time st) (std_dev_process_time st)
    (median_process_time st) (low_percentile_process_time st) (high_percentile_process_time st) /\
  jitter_summary (jitters (f_owd_of <$> ps)) (avg_forward_jitter st) (std_dev_forward_jitter st) /\
  jitter_summary (jitters (b_owd_of <$> ps)) (avg_backward_jitter st) (std_dev_backward_jitter st).

(** Median and percentiles of a sorted vector never index out of bounds, and the seven
    statistics are those of the summary. *)
Lemma summary_sorted {E} v : no_nan v -> Z.of_nat (length v) < 2 ^ 50 -> exists m lo hi,
  median (E:=E) (sort_total v) = Ok m /\ percentile (E:=E) (sort_total v) (f64_of_Z 25) = Ok lo /\
  percentile (E:=E) (sort_total v) (f64_of_Z 75) = Ok hi /\
  summary v (if (0 <? length v)%nat then Some (f64_sum v / f64_of_Z (Z.of_nat (length v)))%f64 else None)
    (min_total (sort_total v)) (max_total (sort_total v))
    (calculate_std_dev (sort_total v) (f64_sum v / f64_of_Z (Z.of_nat (length v)))%f64) m lo hi.
Proof.
  intros Hn Hl. destruct (decide (v = [])) as [->|Hv]; [by exists None, None, None|].
  assert (Hl0 : (0 < length v)%nat) by (destruct v; [done|cbn; lia]).
  pose proof (sort_total_nonempty v Hv) as Hs.
  destruct (median_spec (E:=E) (sort_total v) Hs) as (m & Em & Hodd & Heven).
  destruct (quartile_index (E:=E) 1 (sort_total v) ltac:(auto) Hs) as (lo & Hlo & Elo); [by rewrite sort_total_length|].
  destruct (quartile_index (E:=E) 3 (sort_total v) ltac:(auto) Hs) as (hi & Hhi & Ehi); [by rewrite sort_total_length|].
  rewrite sort_total_length in Hlo, Hhi, Hodd, Heven.
  exists (Some m), (Some lo), (Some hi). do 3 (split; [done|]). rewrite (proj2 (Nat.ltb_lt _ _)) by done.
  rewrite min_total_head, max_total_last by (apply sort_total_sorted || by apply no_nan_sorted). rewrite sort_total_length.
  unfold summary. destruct v as [|x l] eqn:Ev; [done|]. rewrite <-Ev in *. exists (sort_total v).
  split; [apply sort_total_perm|]. split; [apply sort_total_sorted|]. do 3 (split; [done|]). split.
  { unfold calculate_std_dev, f64_len. rewrite sort_total_length. by destruct (sort_total v). }
  split; [|split; [by eexists|split; [|split; [by eexists|]]]].
  - destruct (Nat.even (length v)) eqn:Ee.
    + destruct (Heven eq_refl) as (a & b & Ha & Hb & ->). exists a, b. split; [|done].
      apply Nat.even_spec in Ee as [k Ek]. rewrite <-Ha. f_equal. rewrite Ek. 
      replace (2 * k - 1)%nat with (1 + (k - 1) * 2)%nat by lia. rewrite Nat.div_add, (Nat.mul_comm 2 k), Nat.div_mul by done.
      change (1 / 2)%nat with 0%nat. lia.
    + specialize (Hodd eq_refl). exists m, m. split; [|done]. rewrite <-Hodd. f_equal.
      assert (Ho : Nat.odd (length v) = true) by (unfold Nat.odd; by rewrite Ee).
      apply Nat.odd_spec in Ho as [k ->]. replace (2 * k + 1 - 1)%nat with (k * 2)%nat by lia.
      replace (2 * k + 1)%nat with (1 + k * 2)%nat by lia. by rewrite Nat.div_add, Nat.div_mul.
  - rewrite <-Hlo. f_equal. rewrite <-(Nat2Z.id (_ / _)%nat). f_equal. rewrite Nat2Z.inj_div. f_equal. lia.
  - rewrite <-Hhi. f_equal. rewrite <-(Nat2Z.id (_ / _)%nat). f_equal. rewrite Nat2Z.inj_div. f_equal. lia.
Qed.

Lemma jitter_summary_sorted v :
  let w := sort_total v in let mean := (f64_sum w / f64_len w)%f64 in
  jitter_summary v (match w with [] => None | _ => Some mean end) (calculate_std_dev w mean).
Proof.
  cbv zeta. unfold jitter_summary. destruct v as [|x l] eqn:Ev; [done|]. rewrite <-Ev. exists (sort_total v).
  split; [apply sort_total_perm|]. split; [apply sort_total_sorted|]. unfold calculate_std_dev, f64_len. rewrite sort_total_length.
  pose proof (sort_total_nonempty v ltac:(congruence)). by destruct (sort_total v).
Qed.

Lemma statistics_spec `{BuildProfile} ps loss gamlr d : Forall complete ps -> Z.of_nat (length ps) < 2 ^ 50 ->
  add_packets no_delays ps = Ok d ->
  exists st, statistics (length ps) loss gamlr (sort_delays d) = Ok st /\ measured ps st /\
    (forward_loss_ st, backward_loss_ st, total_loss_ st) = loss /\ gamlr_offset st = gamlr.
Proof.
  intros Hps Hl Hd. destruct (add_packets_spec ps no_delays Hps) as (d' & E & E1 & E2 & E3 & E4 & E5 & E6 & E7 & E8 & E9 & E10).
  rewrite Hd in E. injection E as <-. destruct loss as [[fl bl] tl]. unfold statistics.
  cbn [sort_delays rtt_vec f_owd_vec b_owd_vec rpd_vec rtt_sum f_owd_sum b_owd_sum rpd_sum forward_jitter_vec backward_jitter_vec].
  rewrite E1, E2, E3, E4, E5, E6, E7, E8, E9, E10.
  cbn [no_delays rtt_vec f_owd_vec b_owd_vec rpd_vec forward_jitter_vec backward_jitter_vec rtt_sum f_owd_sum b_owd_sum rpd_sum
    prev_forward_owd prev_backward_owd option_list option_rect app].
  destruct (summary_sorted (E:=CommonError) (rtt_of <$> ps)) as (m1 & lo1 & hi1 & -> & -> & -> & H1); [apply no_nan_of_Z|by rewrite length_fmap|].
  destruct (summary_sorted (E:=CommonError) (f_owd_of <$> ps)) as (m2 & lo2 & hi2 & -> & -> & -> & H2); [apply no_nan_of_Z|by rewrite length_fmap|].
  destruct (summary_sorted (E:=CommonError) (b_owd_of <$> ps)) as (m3 & lo3 & hi3 & -> & -> & -> & H3); [apply no_nan_of_Z|by rewrite length_fmap|].
  destruct (summary_sorted (E:=CommonError) (rpd_of <$> ps)) as (m4 & lo4 & hi4 & -> & -> & -> & H4); [apply no_nan_of_Z|by rewrite length_fmap|].
  rewrite length_fmap in H1, H2, H3, H4. cbn [mbind outcome_bind]. eexists. split; [reflexivity|]. split; [|done].
  split; [done|]. do 4 (split; [assumption|]). split; apply jitter_summary_sorted.
Qed.

(** ** Properties *)

(** C20: the results of a session say what was measured.  When every answered packet has its
    four times, the measuring itself cannot fail, and whatever the analysis of losses and the
    estimate of the clock offset give is what comes out: a panic of either ends the
    computation, a sampler that still loops keeps it looping, an error of the analysis counts
    as no loss.  Otherwise the session is a success: [total_packets] counts the answered packets;
    for each of the four families of delays (round trip, forward, backward, processing) the
    seven statistics are absent without a packet and else the mean, the least and the greatest
    value, the deviation, the median and the two quartiles of the measured delays; the jitters
    are the absolute differences of consecutive delays, with their mean and deviation. *)
Theorem session_statistics `{BuildProfile} ln fuel cf cb s :
  let ps := filter (fun p => is_answered p = true) (results s) in
  Forall complete ps -> Z.of_nat (length ps) < 2 ^ 50 ->
  let r := calculate_session_result ln fuel cf cb s in
  match analyze_packet_loss s, calculate_gamlr_offset ln fuel cf cb (sort_total (f_owd_of <$> ps)) (sort_total (b_owd_of <$> ps)) with
  | Panic p, _ => r = Panic p
  | _, Panic p => r = Panic p
  | _, Err e => r = Err e
  | _, Ok None => r = Ok None
  | loss, Ok (Some g) => exists st,
      r = Ok (Some {| sr_address := tx_socket_address s; status := Some "Success"%string; network_statistics := Some st |}) /\
      measured ps st /\ gamlr_offset st = g /\
      (forward_loss_ st, backward_loss_ st, total_loss_ st) = match loss with Ok l => l | _ => (0, 0, 0) end
  end.
Proof.
  intros ps Hps Hl. destruct (add_packets_spec ps no_delays Hps) as (d & Ed & _ & E2 & E3 & _).
  cbv zeta. unfold calculate_session_result. fold ps.
  assert (Hd : f_owd_vec (sort_delays d) = sort_total (f_owd_of <$> ps) /\ b_owd_vec (sort_delays d) = sort_total (b_owd_of <$> ps)).
  { cbn [sort_delays f_owd_vec b_owd_vec]. by rewrite E2, E3. }
  destruct Hd as [Hf Hb].
  destruct (analyze_packet_loss s) as [loss|e|p]; cbn [unwrap_or mbind outcome_bind]; [| |done];
    rewrite Ed; cbn [mbind outcome_bind]; rewrite Hf, Hb;
    (destruct (calculate_gamlr_offset _ _ _ _ _ _) as [[g|]|e'|p']; cbn [mbind outcome_bind]; [|done..]).
  - destruct (statistics_spec ps loss g d Hps Hl Ed) as (st & Est & Hm & Hlo & Hg). exists st. by rewrite Est.
  - destruct (statistics_spec ps (0, 0, 0) g d Hps Hl Ed) as (st & Est & Hm & Hlo & Hg). exists st. by rewrite Est.
Qed.

Definition sample_results : Session := session_of [answered 0 5; sent_packet 1; answered 2 6].
Definition no_clock (_ : nat) : option Duration := None.

Example session_statistics_witness : exists st,
  @calculate_session_result DEBUG id 0 no_clock no_clock sample_results =
    Ok (Some {| sr_address := sample_addr; status := Some "Success"%string; network_statistics := Some st |}) /\
  measured [answered 0 5; answered 2 6] st /\ gamlr_offset st = None /\
  (forward_loss_ st, backward_loss_ st, total_loss_ st) = (0, 1, 1).
Proof.
  apply (@session_statistics DEBUG id 0 no_clock no_clock sample_results); [|vm_compute; reflexivity].
  repeat constructor; cbn; lia || eauto.
Defined.

(** The percentiles and the median of [n] values are the elements a reader expects: the
    lower quartile is the one at index [(n + 1) / 4], the upper one at [(3 n - 1) / 4], the
    median the middle one or the mean of the two middle ones; no index is out of bounds. *)
Theorem quantiles_exact {E} (v : list f64) : v <> [] -> Z.of_nat (length v) < 2 ^ 50 ->
  let n := Z.of_nat (length v) in
  (exists lo, percentile (E:=E) v (f64_of_Z 25) = Ok (Some lo) /\ v !! Z.to_nat ((n + 1) / 4) = Some lo) /\
  (exists hi, percentile (E:=E) v (f64_of_Z 75) = Ok (Some hi) /\ v !! Z.to_nat ((3 * n - 1) / 4) = Some hi) /\
  (exists m, median (E:=E) v = Ok (Some m) /\
    (Nat.even (length v) = false -> v !! (length v / 2)%nat = Some m) /\
    (Nat.even (length v) = true -> exists a b, v !! (length v / 2 - 1)%nat = Some a /\
       v !! (length v / 2)%nat = Some b /\ m = f64_div (f64_add a b) f64_two)).
Proof.
  intros Hv Hl n. destruct (quartile_index (E:=E) 1 v ltac:(auto) Hv Hl) as (lo & Hlo & Elo).
  destruct (quartile_index (E:=E) 3 v ltac:(auto) Hv Hl) as (hi & Hhi & Ehi).
  split; [|split; [|by apply median_spec]].
  - exists lo. split; [exact Elo|]. replace (n + 1) with (1 * (n - 1) + 2) by ring. done.
  - exists hi. split; [exact Ehi|]. replace (3 * n - 1) with (3 * (n - 1) + 2) by ring. done.
Qed.

Example quantiles_exact_witness :
  let v := f64_of_Z <$> [3; 5; 8; 13; 21] in
  exists lo, percentile (E:=CommonError) v (f64_of_Z 25) = Ok (Some lo) /\ v !! 1%nat = Some lo.
Proof.
  intros v. assert (Hv : v <> []) by (intros [=]).
  exact (proj1 (quantiles_exact (E:=CommonError) v Hv (eq_refl : Z.of_nat (length v) < 2 ^ 50))).
Defined.

(** What is written out is what was measured: with the precision zero of the program, a
    whole number of nanoseconds below 2^52 (52 days) is written unchanged; the rounding of an
    absent value is zero (its fields are skipped before they get there). *)
Theorem written_value_exact z : 0 <= z < 2 ^ 52 ->
  round_option_f64_with_precision (Some (f64_of_Z z)) = f64_of_Z z /\
  round_option_f64_with_precision None = f64_of_Z 0.
Proof.
  intros Hz. split; [|by vm_compute]. unfold round_option_f64_with_precision, round_f64_with_precision.
  cbn [default]. unfold id. destruct (Z.eq_dec z 0) as [->|Hz0]; [by vm_compute|].
  change (f64_powi (f64_of_Z 10) NETWORK_PRECISION) with (f64_of_Z (2 ^ 0)).
  destruct (f64_of_Z_exact z ltac:(lia)) as (m & e & E & Hm & He & Hv).
  assert (f64_round (f64_of_Z z) = f64_of_Z z) as Hr.
  { rewrite (f64_round_exact 52 z 1 _ ltac:(lia) ltac:(lia) (f64_of_Z_is z ltac:(lia))). f_equal.
    symmetry. apply (Z.div_unique _ _ _ 1); lia. }
  cbn zeta. rewrite E in Hr |- *. rewrite f64_mul_pow2 by lia. rewrite Z.add_0_r, Hr.
  rewrite f64_div_pow2 by lia. by rewrite Z.sub_0_r.
Qed.

Example written_value_exact_witness :
  round_option_f64_with_precision (Some (f64_of_Z 1500)) = f64_of_Z 1500 /\
  round_option_f64_with_precision None = f64_of_Z 0.
Proof. apply (written_value_exact 1500). lia. Defined.
