(* ===== verification/Serialise.v ===== *)
(** * What is written out

    The calls that the program's [Serialize] implementations make on a serializer (the [serde]
    crate, which is not in the repository) as a tree: packet results and times of
    [twamp_common/data_model.rs] and [network_commons/src/time.rs], written by hand there, and
    the results of [twamp_light_sender/result.rs], whose derived code follows the attributes of
    the fields.  A reader of the tree shows that nothing of a packet is lost. *)
From stdpp Require Import base list option numbers strings.
From Stdlib Require Import ZArith Lia SpecFloat.
From S2P Require Import Prelude Float64 Errors Time Calendar Net DataModel Messages Estimator Session Results.
Local Open Scope Z_scope.

(** The data model of [serde], as far as it is used. *)
Inductive value :=
  | VInt (n : Z)
  | VF64 (x : f64)
  | VStr (s : string)
  | VNone
  | VSome (v : value)
  | VSeq (l : list value)
  | VStruct (name : string) (fields : list (string * value)).

(** [serialize_str(&self.to_string())] *)
Definition DateTime_serialize (self : DateTime) : value := VStr (DateTime_fmt self).

Definition option_serialize {A} (f : A -> value) (o : option A) : value :=
  match o with Some a => VSome (f a) | None => VNone end.

(** Every field is written, those without a value too. *)
Definition PacketResults_serialize (self : PacketResults) : value := VStruct "PacketResults" [
  ("sender_seq", VInt (sender_seq self));
  ("reflector_seq", option_serialize VInt (reflector_seq self));
  ("t1", DateTime_serialize (t1 self));
  ("t2", option_serialize DateTime_serialize (t2 self));
  ("t3", option_serialize DateTime_serialize (t3 self));
  ("t4", option_serialize DateTime_serialize (t4 self))]%string.

(** ** Results *)

(** [skip_serializing_if = Option::is_none] and [serialize_with]. *)
Definition rounded_field (field : string * option f64) : list (string * value) :=
  match field with
  | (name, Some x) => [(name, VF64 (round_option_f64_with_precision (Some x)))]
  | (_, None) => []
  end.

Definition delay_fields (self : NetworkStatistics) : list (string * option f64) := [
  ("avg_rtt", avg_rtt self); ("min_rtt", min_rtt self); ("max_rtt", max_rtt self); ("std_dev_rtt", std_dev_rtt self);
  ("median_rtt", median_rtt self); ("low_percentile_rtt", low_percentile_rtt self);
  ("high_percentile_rtt", high_percentile_rtt self);
  ("avg_forward_owd", avg_forward_owd self); ("min_forward_owd", min_forward_owd self);
  ("max_forward_owd", max_forward_owd self); ("std_dev_forward_owd", std_dev_forward_owd self);
  ("median_forward_owd", median_forward_owd self); ("low_percentile_forward_owd", low_percentile_forward_owd self);
  ("high_percentile_forward_owd", high_percentile_forward_owd self);
  ("avg_backward_owd", avg_backward_owd self); ("min_backward_owd", min_backward_owd self);
  ("max_backward_owd", max_backward_owd self); ("std_dev_backward_owd", std_dev_backward_owd self);
  ("median_backward_owd", median_backward_owd self); ("low_percentile_backward_owd", low_percentile_backward_owd self);
  ("high_percentile_backward_owd", high_percentile_backward_owd self);
  ("avg_process_time", avg_process_time self); ("min_process_time", min_process_time self);
  ("max_process_time", max_process_time self); ("std_dev_process_time", std_dev_process_time self);
  ("median_process_time", median_process_time self); ("low_percentile_process_time", low_percentile_process_time self);
  ("high_percentile_process_time", high_percentile_process_time self)]%string.

Definition jitter_fields (self : NetworkStatistics) : list (string * option f64) := [
  ("avg_forward_jitter", avg_forward_jitter self); ("avg_backward_jitter", avg_backward_jitter self);
  ("std_dev_forward_jitter", std_dev_forward_jitter self); ("std_dev_backward_jitter", std_dev_backward_jitter self)]%string.

Definition loss_fields (self : NetworkStatistics) : list (string * value) := [
  ("forward_loss", VInt (forward_loss_ self)); ("backward_loss", VInt (backward_loss_ self));
  ("total_loss", VInt (total_loss_ self)); ("total_packets", VInt (total_packets self))]%string.

Definition NetworkStatistics_serialize (self : NetworkStatistics) : value :=
  VStruct "NetworkStatistics"
    (((delay_fields self ++ jitter_fields self) ≫= rounded_field) ++ loss_fields self ++
     rounded_field ("gamlr_offset"%string, gamlr_offset self)).

Definition skipped {A} (name : string) (f : A -> value) (o : option A) : list (string * value) :=
  match o with Some a => [(name, VSome (f a))] | None => [] end.

Section results.
(** The form of an address is [serde]'s. *)
Variable address_serialize : SocketAddr -> value.

Definition SessionResult_serialize (self : SessionResult) : value := VStruct "SessionResult"
  (("address"%string, address_serialize (sr_address self)) ::
   skipped "status" VStr (status self) ++
   skipped "network_statistics" NetworkStatistics_serialize (network_statistics self)).

Definition TwampResult_serialize (self : TwampResult) : value := VStruct "TwampResult"
  (("session_results"%string, VSeq (SessionResult_serialize <$> session_results self)) :: skipped "error" VStr (tr_error self)).

Definition SessionPackets_serialize (self : SessionPackets) : value := VStruct "SessionPackets"
  (("address"%string, address_serialize (address self)) ::
   skipped "packets" (fun l => VSeq (PacketResults_serialize <$> l)) (packets self)).

Definition TimestampsResult_serialize (self : TimestampsResult) : value := VStruct "TimestampsResult"
  (("session"%string, SessionPackets_serialize (session self)) :: skipped "error" VStr (error self)).
End results.

(** ** A reader *)

Definition read_datetime (v : value) : option DateTime := match v with VStr s => read_time s | _ => None end.
Definition read_int (v : value) : option Z := match v with VInt n => Some n | _ => None end.
Definition read_option {A} (f : value -> option A) (v : value) : option (option A) :=
  match v with VSome v => Some <$> f v | VNone => Some None | _ => None end.

(** The value of the one field of that name. *)
Definition field (name : string) (fields : list (string * value)) : option value :=
  match filter (fun f => f.1 = name) fields with [(_, v)] => Some v | _ => None end.

(** Fields are found by their names, whatever their order. *)
Definition read_packet (v : value) : option PacketResults :=
  match v with
  | VStruct name fields =>
      if decide (name = "PacketResults"%string) then
        s ← field "sender_seq" fields ≫= read_int; r ← field "reflector_seq" fields ≫= read_option read_int;
        a1 ← field "t1" fields ≫= read_datetime; a2 ← field "t2" fields ≫= read_option read_datetime;
        a3 ← field "t3" fields ≫= read_option read_datetime; a4 ← field "t4" fields ≫= read_option read_datetime;
        Some {| sender_seq := s; reflector_seq := r; t1 := a1; t2 := a2; t3 := a3; t4 := a4 |}
      else None
  | _ => None
  end.

Lemma read_datetime_serialize t : datetime_u32 t -> read_datetime (DateTime_serialize t) = Some t.
Proof. apply print_read. Qed.
Lemma read_option_serialize o : opt_datetime_u32 o -> read_option read_datetime (option_serialize DateTime_serialize o) = Some o.
Proof. destruct o as [t|]; [|done]. intros Ht. cbn [option_serialize read_option]. by rewrite read_datetime_serialize. Qed.

Definition packet_fields : list string := ["sender_seq"; "reflector_seq"; "t1"; "t2"; "t3"; "t4"]%string.

Lemma read_packet_fields v1 v2 v3 v4 v5 v6 s r a1 a2 a3 a4 :
  read_int v1 = Some s -> read_option read_int v2 = Some r -> read_datetime v3 = Some a1 ->
  read_option read_datetime v4 = Some a2 -> read_option read_datetime v5 = Some a3 -> read_option read_datetime v6 = Some a4 ->
  read_packet (VStruct "PacketResults" (zip packet_fields [v1; v2; v3; v4; v5; v6])) =
    Some {| sender_seq := s; reflector_seq := r; t1 := a1; t2 := a2; t3 := a3; t4 := a4 |}.
Proof.
  intros E1 E2 E3 E4 E5 E6. set (fs := zip _ _). unfold read_packet. cbn [decide].
  rewrite (eq_refl : field "sender_seq" fs = Some v1), (eq_refl : field "reflector_seq" fs = Some v2),
    (eq_refl : field "t1" fs = Some v3), (eq_refl : field "t2" fs = Some v4), (eq_refl : field "t3" fs = Some v5),
    (eq_refl : field "t4" fs = Some v6).
  rewrite decide_True by done. cbn [mbind option_bind]. by rewrite E1, E2, E3, E4, E5, E6.
Qed.

(** ** Properties *)

(** C25: what is written of a packet is a structure [PacketResults] of exactly its six fields
    under their own names, the absent times too, and nothing is lost: a reader that looks each
    field up by its name, and the numbers of a time in its text, gets the packet back. *)
Theorem packet_read_back p : packet_u32 p ->
  (exists fields, PacketResults_serialize p = VStruct "PacketResults" fields /\ fields.*1 = packet_fields) /\
  read_packet (PacketResults_serialize p) = Some p.
Proof.
  destruct p as [s r a1 a2 a3 a4]. intros (H1 & H2 & H3 & H4). split; [by eexists|]. apply read_packet_fields.
  - done.
  - by destruct r.
  - by apply read_datetime_serialize.
  - by apply read_option_serialize.
  - by apply read_option_serialize.
  - by apply read_option_serialize.
Qed.

Definition sample_packet : PacketResults := {|
  sender_seq := 7; reflector_seq := Some 4; t1 := {| sec := 951782400; nanos := 5 |}; t2 := Some {| sec := 951827696; nanos := 999999999 |};
  t3 := None; t4 := Some {| sec := 4102444799; nanos := 10 |} |}.

Example packet_read_back_witness :
  PacketResults_serialize sample_packet = VStruct "PacketResults" [
    ("sender_seq", VInt 7); ("reflector_seq", VSome (VInt 4)); ("t1", VStr "2000-02-29T00:00:00.000000005Z");
    ("t2", VSome (VStr "2000-02-29T12:34:56.999999999Z")); ("t3", VNone);
    ("t4", VSome (VStr "2099-12-31T23:59:59.000000010Z"))]%string /\
  read_packet (PacketResults_serialize sample_packet) = Some sample_packet.
Proof.
  split; [vm_compute; reflexivity|]. apply (packet_read_back sample_packet).
  repeat split; unfold in_u; cbn; lia.
Defined.
