(* ===== verification/LightSender.v ===== *)
(** * [twamp/src/twamp_light_sender]: [mod.rs], and the sender of [twamp_light.rs]

    The configuration, the sender's set-up of sockets, timers and duration on the event
    loop, and its three callbacks: sending, correcting send timestamps, receiving. *)
From stdpp Require Import base list option numbers strings gmap.
From Stdlib Require Import ZArith Lia.
From S2P Require Import Prelude Float64 Errors Time Net DataModel Messages Wire Session Sockets EventLoop Shared Results.
Local Open Scope Z_scope.

(** ** Configuration *)

Record Configuration := Configuration_new {
  hosts : list SocketAddr;
  source_ip_address : SocketAddr;
  cfg_duration : Z;
  packet_interval : Z;
  cfg_padding : Z;
  last_message_timeout : Z
}.

(** The [#[validate(range(..))]] attributes, in field order; the text of the errors is the
    [validator] crate's. *)
Definition validate (show : list string -> string) (c : Configuration) : result () :=
  let check (name : string) lo hi v := if (lo <=? v) && (v <=? hi) then [] else [name] in
  match check "duration"%string 1 3600 (cfg_duration c) ++ check "packet_interval"%string 1 1000 (packet_interval c)
        ++ check "padding"%string 0 1024 (cfg_padding c)
        ++ check "last_message_timeout"%string 0 1000 (last_message_timeout c) with
  | [] => Ok ()
  | errors => Err (ValidationError (show errors))
  end.

Record SessionSender := {
  targets : list SocketAddr;
  ss_source : SocketAddr;
  ss_packet_interval : Duration;
  ss_last_message_timeout : Duration;
  ss_padding : Z;
  ss_duration : Duration
}.

Definition SessionSender_new (c : Configuration) : SessionSender := {|
  targets := hosts c; ss_source := source_ip_address c;
  ss_duration := Duration_from_secs (cfg_duration c);
  ss_packet_interval := Duration_from_millis (packet_interval c);
  ss_padding := cfg_padding c;
  ss_last_message_timeout := Duration_from_secs (last_message_timeout c) |}.

(** [Iterator::step_by(n)] of a slice's iterator; [n = 0] panics in the program and is not used. *)
Fixpoint step_by_fuel {A} (fuel n : nat) (l : list A) : list A :=
  match fuel, l with
  | O, _ | _, [] => []
  | S fuel, x :: _ => x :: step_by_fuel fuel n (drop n l)
  end.
Definition step_by {A} (n : nat) (l : list A) : list A := step_by_fuel (length l) n l.

Section sender.
Context `{BP : BuildProfile, HE : HostEndian} {W : Type} `{LC : Libc W}.
Context `{SB : BeBytes SenderMessage, RB : BeBytes ReflectedMessage}.
#[local] Abbreviation io := (op (Shared W) CommonError).

Definition create_udp_socket (self : SessionSender) : io TimestampedUdpSocket :=
  my_socket ← UdpSocket_bind (ss_source self);
  or_drop (fun w => (sys_close (udp_inner my_socket) w).2)
    (_ ← set_fcntl_options (udp_inner my_socket);
     _ ← set_socket_options (udp_inner my_socket) SOL_IP IP_RECVERR (Some 1);
     _ ← set_socket_options (udp_inner my_socket) IPPROTO_IP IP_TOS (Some 0);
     _ ← set_timestamping_options (udp_inner my_socket);
     mret my_socket).

(** ** Sending *)

(** The messages of one tick, one for each session; the timestamps of those sent. *)
Fixpoint tx_send (inner_socket : TimestampedUdpSocket) (padding : Z) (sessions : list Session) : io (list DateTime) :=
  match sessions with
  | [] => mret []
  | session :: sessions' =>
      n ← ntp_timestamp_now;
      len ← lift (u_arith 64 (MIN_UNAUTH_PADDING + padding));
      let twamp_test_message :=
        SenderMessage_new (seq_number session) n (ErrorEstimate_new 1 0 1 1) (replicate (Z.to_nat len) 0) in
      r ← attempt (UdpSocket_send_to inner_socket (tx_socket_address session) twamp_test_message);
      rest ← tx_send inner_socket padding sessions';
      match r with
      | inr (sent, timestamp) => mret (timestamp :: rest)
      | inl _ => mret rest
      end
  end.

(** [zip(timestamps).try_for_each(add_to_sent)]: the sessions after it, and its outcome. *)
Fixpoint tx_record (sessions : list Session) (timestamps : list DateTime) : result () * list Session :=
  match sessions, timestamps with
  | session :: sessions', timestamp :: timestamps' =>
      match (n ← ntp_of_datetime timestamp;
             add_to_sent session (SenderMessage_new (seq_number session) n (ErrorEstimate_new 1 0 1 1) [])) with
      | Ok session' => let '(o, rest) := tx_record sessions' timestamps' in (o, session' :: rest)
      | Err e => (Err e, sessions)
      | Panic p => (Panic p, sessions)
      end
  | _, _ => (Ok (), sessions)
  end.

Definition tx_callback (padding : Z) (inner_socket : TimestampedUdpSocket) (_token : Token) : io Z :=
  _ ← try_lock;
  sessions ← gets sh_sessions;
  timestamps ← tx_send inner_socket padding sessions;
  _ ← try_lock;
  sessions ← gets sh_sessions;
  let '(o, sessions') := tx_record sessions timestamps in
  _ ← modify (with_sessions sessions');
  _ ← lift o;
  mret 0.

(** ** Correcting send timestamps *)

(** [while let Ok(..) = retrieve_tx_timestamps(..)]: [None] when the error queue still gives
    messages after [fuel] reads. *)
Fixpoint drain_timestamps (fuel : nat) (inner_socket : TimestampedUdpSocket) (addresses : list SocketAddr)
    (acc : list DateTime) : io (option (list DateTime)) :=
  match fuel with
  | O => mret None
  | S fuel =>
      r ← attempt (retrieve_tx_timestamps inner_socket addresses);
      match r with
      | inl _ => mret (Some acc)
      | inr ts => drain_timestamps fuel inner_socket addresses (acc ++ ts)
      end
  end.

(** Session [i] of [n] takes the timestamps [i], [i + n], [i + 2n], …; an error stops the loop. *)
Fixpoint correct_sessions (i n : nat) (tx_timestamps : list DateTime) (sessions : list Session)
    : result () * list Session :=
  match sessions with
  | [] => (Ok (), [])
  | session :: sessions' =>
      match update_tx_timestamps session (step_by n (drop i tx_timestamps)) with
      | Ok session' => let '(o, rest) := correct_sessions (S i) n tx_timestamps sessions' in (o, session' :: rest)
      | Err e => (Err e, sessions)
      | Panic p => (Panic p, sessions)
      end
  end.

Definition tx_correct_callback (fuel : nat) (inner_socket : TimestampedUdpSocket) (_token : Token)
    : io (option Z) :=
  _ ← try_lock;
  sessions ← gets sh_sessions;
  ts ← drain_timestamps fuel inner_socket (tx_socket_address <$> sessions) [];
  match ts with
  | None => mret None
  | Some tx_timestamps =>
      _ ← try_lock;
      sessions ← gets sh_sessions;
      let '(o, sessions') := correct_sessions 0 (length sessions) tx_timestamps sessions in
      _ ← modify (with_sessions sessions');
      _ ← lift o;
      mret (Some 0)
  end.

(** ** Receiving *)

(** What one datagram does to the sessions: undecodable messages, unknown peers and a busy
    lock are ignored, and so is the result of [add_to_received]; a panic is not. *)
Definition rx_store (busy : bool) (received_bytes : list Z) (socket_address : SocketAddr) (datetime : DateTime)
    (sessions : list Session) : outcome CommonError (list Session) :=
  match parse (T:=ReflectedMessage) received_bytes with
  | Panic p => Panic p
  | Err _ => Ok sessions
  | Ok (twamp_message, _) =>
      if busy then Ok sessions else
      let of_peer s := bool_decide (tx_socket_address s = socket_address) in
      match list_find (fun s => of_peer s = true) sessions with
      | None => Ok sessions
      | Some (i, session) =>
          match add_to_received session twamp_message datetime with
          | Ok session' => Ok (<[i := session']> sessions)
          | Err _ => Ok sessions
          | Panic p => Panic p
          end
      end
  end.

Definition DEFAULT_BUFFER : list Z := replicate 4096 0.

(** [while let Ok(..) = receive_from(buffer)]: [None] when datagrams are still waiting after
    [fuel] of them. *)
Fixpoint rx_loop (fuel : nat) (inner_socket : TimestampedUdpSocket) (buffer : list Z) : io (option Z) :=
  match fuel with
  | O => mret None
  | S fuel =>
      r ← attempt (UdpSocket_receive_from inner_socket buffer);
      match r with
      | inl _ => mret (Some 0)
      | inr (buffer, result, socket_address, datetime) =>
          (* [&buffer[..result as usize]] *)
          if (Z.of_nat (length buffer) <? result) then lift (Panic IndexOutOfBounds) else
          let received_bytes := take (Z.to_nat result) buffer in
          busy ← gets sh_busy;
          sessions ← gets sh_sessions;
          sessions' ← lift (rx_store busy received_bytes socket_address datetime sessions);
          _ ← modify (with_sessions sessions');
          rx_loop fuel inner_socket buffer
      end
  end.
Definition rx_callback (fuel : nat) (inner_socket : TimestampedUdpSocket) (_token : Token) : io (option Z) :=
  rx_loop fuel inner_socket DEFAULT_BUFFER.

(** As callbacks of the loop: a socket that never runs dry keeps the loop in the callback, which
    is then still running, whatever the fuel. *)
Definition fueled (f : TimestampedUdpSocket -> Token -> io (option Z)) : TimestampedUdpSocket -> Token -> io Z :=
  fun socket token => r ← f socket token; lift (returned r).
End sender.

(** ** The test *)

Section execute.
Context `{BP : BuildProfile, HE : HostEndian} {W : Type} `{LC : Libc W, EO : EpollOs W}.
Context `{SB : BeBytes SenderMessage, RB : BeBytes ReflectedMessage}.
#[local] Abbreviation EventLoop := (LinuxEventLoop (W:=Shared W) (T:=TimestampedUdpSocket)).
#[local] Abbreviation loop := (op EventLoop CommonError).

(** [execute] up to [run]: gives the token of the duration. *)
Definition execute_setup (fuel : nat) (self : SessionSender) : loop Token :=
  let sessions := (fun host => Session_new (ss_source self) host) <$> targets self in
  _ ← modify (fun l => with_os l (with_sessions sessions (os l)));
  my_socket ← sys_op (create_udp_socket self);
  _ ← new_loop (drop_value my_socket);
  _ ← modify (set_overtime {| it_interval := Duration_ZERO; it_value := ss_last_message_timeout self |});
  rx_token ← register_event_source my_socket (as_callback (fueled (rx_callback fuel)));
  _tx_token ← register_timer
      {| it_interval := ss_packet_interval self; it_value := Duration_from_nanos 10 |} rx_token
      (as_callback (tx_callback (ss_padding self)));
  tx_correct_token ← register_timer
      {| it_interval := Duration_from_millis 150; it_value := Duration_from_nanos 1 |} rx_token
      (as_callback (fueled (tx_correct_callback fuel)));
  _ ← modify (add_overtime_exception tx_correct_token);
  add_duration {| it_interval := Duration_ZERO; it_value := ss_duration self |}.

(** The end of [execute], here and in the control client: [None] while the loop still runs after
    these turns, or a sampler of the clock offset still loops.  Nobody holds a lock then. *)
Definition finish {L} (sessions_of : L -> list Session) (ln : f64 -> f64) (fuel : nat)
    (clocks : nat -> (nat -> option Duration) * (nat -> option Duration)) (finished : bool) : op L CommonError (option TwampResult) :=
  if finished then
    sessions ← gets sessions_of;
    session_results ← lift (calculate_session_results ln fuel clocks sessions);
    mret ((fun rs => {| session_results := rs; tr_error := None |}) <$> session_results)
  else mret None.

Definition execute (ln : f64 -> f64) (fuel : nat) (clocks : nat -> (nat -> option Duration) * (nat -> option Duration))
    (self : SessionSender) (turns : list turn) : loop (option TwampResult) :=
  _termination_token ← execute_setup fuel self;
  finished ← run turns;
  finish (fun l => sh_sessions (os l)) ln fuel clocks finished.
End execute.

(** ** Lemmas *)

Lemma finish_Ok {L} (sessions_of : L -> list Session) `{BuildProfile} ln fuel clocks l :
  finish sessions_of ln fuel clocks true l =
    (option_map (fun rs => {| session_results := rs; tr_error := None |}) <$>
       calculate_session_results ln fuel clocks (sessions_of l), l).
Proof.
  unfold finish. rewrite bind_gets. unfold mbind, op_bind, lift. by destruct (calculate_session_results _ _ _ _) as [[]|e|p].
Qed.

Lemma step_by_cons {A} n (x : A) l : (0 < n)%nat -> step_by n (x :: l) = x :: step_by n (drop (n - 1) l).
Proof.
  intros Hn. unfold step_by. cbn [length step_by_fuel]. f_equal.
  destruct n as [|n]; [lia|].
  assert (forall f f' (l' : list A), (length l' <= f)%nat -> (length l' <= f')%nat ->
    step_by_fuel f (S n) l' = step_by_fuel f' (S n) l') as Hf.
  { induction f as [|f IH]; intros f' l' H1 H2; destruct l' as [|y l']; cbn in *; try (destruct f'; done); [lia|].
    destruct f' as [|f']; [lia|]. cbn. f_equal. apply IH; rewrite length_drop; lia. }
  replace (S n - 1)%nat with n by lia. apply Hf; rewrite ?length_drop; lia.
Qed.

Lemma step_by_nil {A} n : step_by n ([] : list A) = [].
Proof. done. Qed.

(** Rows of [n] elements, one after the other: starting at [i] and stepping by [n] reads column [i]. *)
Lemma step_by_column {A} n i (rows : list (list A)) : (i < n)%nat -> Forall (fun r => length r = n) rows ->
  step_by n (drop i (concat rows)) = omap (fun r => r !! i) rows.
Proof.
  intros Hi. induction 1 as [|r rows Hr Hrows IH]; [cbn; by rewrite drop_nil|]. cbn [concat omap list_omap].
  destruct (lookup_lt_is_Some_2 r i) as [x Hx]; [lia|]. rewrite Hx.
  rewrite drop_app_le by lia. rewrite (drop_S r x i Hx). cbn [app]. rewrite step_by_cons by lia. f_equal.
  rewrite <-IH. f_equal. rewrite drop_app, drop_drop, length_drop.
  rewrite (drop_ge r) by lia. cbn. f_equal. lia.
Qed.

Lemma update_tx_nil `{BuildProfile} s : session_inv s -> update_tx_timestamps s [] = Ok s.
Proof.
  intros [_ _ Hu Hp]. rewrite update_tx_spec by (done || constructor). f_equal. destruct s as [rx tx sq rs lu]. cbn in *.
  rewrite zip_with_nil_r, Nat.add_0_r, Nat.min_0_r, Nat.add_0_r. cbn. by rewrite take_drop.
Qed.

Lemma update_tx_ok `{BuildProfile} s ts : session_inv s -> Forall datetime_u32 ts ->
  exists s', update_tx_timestamps s ts = Ok s' /\ session_inv s'.
Proof.
  intros Hs Hts. destruct (Hs) as [_ _ Hu Hp]. destruct (update_tx_inv s ts Hp Hu Hts) as (s' & E & _).
  exists s'. split; [done|]. by eapply session_inv_corrected.
Qed.

Lemma step_by_Forall {A} (P : A -> Prop) n l : Forall P l -> Forall P (step_by n l).
Proof.
  unfold step_by. generalize (length l). intros f. revert l.
  induction f as [|f IH]; intros l Hl; [constructor|]. destruct Hl as [|x l Hx Hl]; [constructor|].
  cbn. constructor; [done|]. apply IH. apply Forall_drop. by constructor.
Qed.

Lemma correct_sessions_spec `{BuildProfile} n ts ss : Forall session_inv ss -> Forall datetime_u32 ts ->
  forall i, exists ss', correct_sessions i n ts ss = (Ok (), ss') /\ Forall session_inv ss' /\
    Forall2 (fun s' p => update_tx_timestamps p.1 (step_by n (drop p.2 ts)) = Ok s') ss' (zip ss (seq i (length ss))).
Proof.
  intros Hss Hts. induction Hss as [|s ss Hs Hss IH]; intros i; [by exists []|]. cbn [correct_sessions].
  destruct (update_tx_ok s (step_by n (drop i ts)) Hs) as (s' & E & Hs'); [by apply step_by_Forall, Forall_drop|].
  destruct (IH (S i)) as (ss' & E' & Hss' & HF). rewrite E, E'. exists (s' :: ss'). split; [done|].
  split; [by constructor|]. by constructor.
Qed.

(** One packet more: numbered with the session's next number, and the number incremented. *)
Definition sent_one (s s' : Session) : Prop := exists d, datetime_u32 d /\
  s' = {| rx_socket_address := rx_socket_address s; tx_socket_address := tx_socket_address s;
          seq_number := as_u 32 (seq_number s + 1);
          results := results s ++ [{| sender_seq := seq_number s; reflector_seq := None; t1 := d;
                                      t2 := None; t3 := None; t4 := None |}];
          last_updated := last_updated s |}.

Section tick.
Context `{BP : BuildProfile, HE : HostEndian} {W : Type} `{LC : Libc W}.
Context `{SB : BeBytes SenderMessage}.

Lemma tx_send_spec sock padding ss (s : Shared W) : clock_sane W -> 0 <= padding < 2 ^ 63 ->
  exists ts w, tx_send sock padding ss s = (Ok ts, with_sh_os s w) /\ length ts = length ss /\
    Forall time_before_2036 ts.
Proof.
  intros Hc Hp. revert s. induction ss as [|x ss IH]; intros s.
  { exists [], (sh_os s). split; [by destruct s|]. split; [done|constructor]. }
  cbn [tx_send]. destruct (ntp_now_shared s Hc) as (n & w & E & _). rewrite (bind_Ok _ _ _ _ _ E).
  rewrite u_arith_in by (unfold in_u, MIN_UNAUTH_PADDING; lia). run_op.
  match goal with |- context [UdpSocket_send_to sock ?a ?m] =>
    destruct (send_to_shared sock a m (with_sh_os s w)) as (r & w' & E' & _) end.
  rewrite (bind_attempt_Ok _ _ _ _ _ E'). destruct (IH (with_sh_os s w')) as (ts & w2 & E2 & Hl & Hts).
  change (with_sh_os (with_sh_os s w) w') with (with_sh_os s w'). rewrite (bind_Ok _ _ _ _ _ E2).
  eexists (_ :: ts), w2. split; [done|]. split; [cbn; by f_equal|]. constructor; [|done].
  by apply from_timespec_sane.
Qed.

Lemma tx_record_spec ss ts : length ts = length ss -> Forall time_before_2036 ts ->
  exists ss', tx_record ss ts = (Ok (), ss') /\ Forall2 sent_one ss ss'.
Proof.
  revert ts. induction ss as [|x ss IH]; intros [|t ts]; try discriminate; intros Hl Ht; [by exists []|].
  apply Forall_cons in Ht as [[Ht Ht'] Hts]. injection Hl as Hl. cbn [tx_record].
  destruct (ntp_of_datetime_ok (E:=CommonError) t Ht Ht') as (n & -> & Hn). cbn [mbind outcome_bind].
  destruct (add_to_sent_spec x (SenderMessage_new (seq_number x) n (ErrorEstimate_new 1 0 1 1) []) Hn)
    as (d & Hd & ->). destruct (IH ts Hl Hts) as (ss' & -> & HF). eexists. split; [done|].
  constructor; [by exists d|done].
Qed.
Lemma tx_callback_spec padding sock token (s : Shared W) :
  clock_sane W -> 0 <= padding < 2 ^ 63 -> sh_busy s = false ->
  exists sessions' w, tx_callback padding sock token s = (Ok 0, Build_Shared w sessions' false) /\
    Forall2 sent_one (sh_sessions s) sessions'.
Proof.
  intros Hc Hp Hb. unfold tx_callback, try_lock. run_op. rewrite Hb. run_op.
  destruct (tx_send_spec sock padding (sh_sessions s) s Hc Hp) as (ts & w & E & Hl & Hts).
  rewrite (bind_Ok _ _ _ _ _ E). run_op. cbn [sh_busy with_sh_os]. rewrite Hb. run_op. cbn [sh_sessions with_sh_os].
  destruct (tx_record_spec (sh_sessions s) ts Hl Hts) as (ss' & -> & HF). run_op.
  exists ss', w. split; [by rewrite <-Hb|done].
Qed.
End tick.

(** ** Properties *)

(** One tick of the sending timer sends one message to every session and records exactly
    one packet in each, numbered with that session's next sequence number, whether or not the
    system accepted the messages; the callback succeeds and changes nothing else. *)
Theorem tx_callback_tick `{BuildProfile, HostEndian} {W} `{Libc W, BeBytes SenderMessage}
    padding sock token (s : Shared W) :
  clock_sane W -> 0 <= padding < 2 ^ 63 -> sh_busy s = false ->
  exists sessions' w, tx_callback padding sock token s = (Ok 0, Build_Shared w sessions' false) /\
    Forall2 sent_one (sh_sessions s) sessions'.
Proof. apply tx_callback_spec. Qed.

(** C27: the timestamps of complete rounds are given to the right sessions: when the error queue
    delivers, round after round, one timestamp for each of the [n] sessions, the correction
    succeeds, keeps the sessions' invariant, and session [i] is corrected with exactly the
    [i]-th timestamp of every round. *)
Theorem correct_sessions_rounds `{BuildProfile} sessions rounds :
  Forall session_inv sessions -> Forall (fun r => length r = length sessions) rounds ->
  Forall datetime_u32 (concat rounds) ->
  exists sessions', correct_sessions 0 (length sessions) (concat rounds) sessions = (Ok (), sessions') /\
    Forall session_inv sessions' /\ length sessions' = length sessions /\
    forall i s, sessions !! i = Some s -> exists s', sessions' !! i = Some s' /\
      update_tx_timestamps s (omap (fun r => r !! i) rounds) = Ok s'.
Proof.
  intros Hss Hr Hts. destruct (correct_sessions_spec (length sessions) (concat rounds) sessions Hss Hts 0)
    as (ss' & E & Hss' & HF). exists ss'. split; [done|]. split; [done|].
  assert (Hlen : length ss' = length sessions)
    by (rewrite (Forall2_length _ _ _ HF), length_zip, length_seq; lia).
  split; [done|]. intros i s Hi. pose proof (lookup_lt_Some _ _ _ Hi) as Hlt.
  destruct (Forall2_lookup_r _ _ _ i (s, i) HF) as (s' & Hs' & Eu).
  { apply lookup_zip_with_Some. exists s, i. split; [done|]. split; [done|]. by apply lookup_seq_lt. }
  exists s'. split; [done|]. rewrite <-Eu. cbn [fst snd]. f_equal. symmetry. by apply step_by_column.
Qed.

Import Scripted BigEndian.

Definition sample_shared : Shared scripted := Build_Shared (scripted_of [-1; 41] [])
  [Session_new sample_addr sample_addr; Session_new sample_addr sample_addr] false.

Example tx_callback_tick_witness : exists sessions' (w : scripted),
  tx_callback (BP:=DEBUG) (HE:=LE) 0 (UdpSocket_new 3) 1 sample_shared = (Ok 0, Build_Shared w sessions' false) /\
  Forall2 sent_one (sh_sessions sample_shared) sessions'.
Proof.
  apply (tx_callback_tick (H:=DEBUG) (H0:=LE) 0 (UdpSocket_new 3) 1 sample_shared);
    [apply scripted_clock_sane|lia|reflexivity].
Defined.

Definition t_at (s : Z) : DateTime := {| sec := 1700000000 + s; nanos := 0 |}.
Definition two_sessions : list Session :=
  [session_of (sent_packet ∘ Z.of_nat <$> seq 0 3); session_of (sent_packet ∘ Z.of_nat <$> seq 0 3)].

Lemma two_sessions_inv : Forall session_inv two_sessions.
Proof. do 2 (apply Forall_cons; split; [apply session_of_inv; lia|]). done. Qed.

Example correct_sessions_rounds_witness :
  exists sessions', @correct_sessions DEBUG 0 2 [t_at 1; t_at 2; t_at 3; t_at 4] two_sessions = (Ok (), sessions') /\
    Forall session_inv sessions' /\ length sessions' = 2%nat /\
    forall i s, two_sessions !! i = Some s -> exists s', sessions' !! i = Some s' /\
      @update_tx_timestamps DEBUG s (omap (fun r => r !! i) [[t_at 1; t_at 2]; [t_at 3; t_at 4]]) = Ok s'.
Proof.
  apply (@correct_sessions_rounds DEBUG two_sessions [[t_at 1; t_at 2]; [t_at 3; t_at 4]]);
    [apply two_sessions_inv|repeat constructor|].
  repeat constructor; unfold t_at; cbn; lia.
Defined.

(** A round split over two reads of the error queue is misattributed: the second read
    starts counting at the first session again, so the timestamp of the second session's
    packet corrects a packet of the first one and the second session stays uncorrected. *)
Theorem correct_sessions_split_round `{BuildProfile} s0 s1 a b :
  session_inv s0 -> session_inv s1 -> datetime_u32 a -> datetime_u32 b ->
  exists s0' s0'', correct_sessions 0 2 [a] [s0; s1] = (Ok (), [s0'; s1]) /\
    update_tx_timestamps s0 [a] = Ok s0' /\
    correct_sessions 0 2 [b] [s0'; s1] = (Ok (), [s0''; s1]) /\ update_tx_timestamps s0' [b] = Ok s0''.
Proof.
  intros H0 H1 Ha Hb.
  destruct (update_tx_ok s0 [a] H0) as (s0' & E0 & H0'); [by constructor|].
  destruct (update_tx_ok s0' [b] H0') as (s0'' & E0' & _); [by constructor|].
  exists s0', s0''. cbn [correct_sessions].
  change (step_by 2 (drop 0 [a])) with [a]. change (step_by 2 (drop 0 [b])) with [b].
  change (step_by 2 (drop 1 [a])) with ([] : list DateTime). change (step_by 2 (drop 1 [b])) with ([] : list DateTime).
  rewrite E0, E0', (update_tx_nil s1 H1). done.
Qed.

Example correct_sessions_split_round_witness :
  let s := session_of (sent_packet ∘ Z.of_nat <$> seq 0 3) in
  exists s0' s0'', @correct_sessions DEBUG 0 2 [t_at 1] [s; s] = (Ok (), [s0'; s]) /\
    @update_tx_timestamps DEBUG s [t_at 1] = Ok s0' /\
    @correct_sessions DEBUG 0 2 [t_at 2] [s0'; s] = (Ok (), [s0''; s]) /\ @update_tx_timestamps DEBUG s0' [t_at 2] = Ok s0''.
Proof.
  intros s. apply (@correct_sessions_split_round DEBUG); [apply session_of_inv; lia|apply session_of_inv; lia|..];
    split; unfold t_at, in_u; cbn; lia.
Defined.

(** C28: a reply is stored where it belongs: what the receive callback does with the bytes of a
    reflected message from an address is to record the message in the first session with that
    address and nowhere else; bytes that do not decode, unknown addresses and messages that
    arrive while another thread holds the lock change nothing. *)
Theorem rx_store_exact `{BuildProfile} `{RB : BeBytes ReflectedMessage} wf `{!BeBytesLaws ReflectedMessage wf false}
    m address t sessions : wf m -> reflected_wf m ->
  rx_store true (to_be_bytes m) address t sessions = Ok sessions /\
  ((forall s, s ∈ sessions -> tx_socket_address s <> address) ->
     rx_store false (to_be_bytes m) address t sessions = Ok sessions) /\
  (forall e bytes, try_from_be_bytes (T:=ReflectedMessage) bytes = Err e ->
     rx_store false bytes address t sessions = Ok sessions) /\
  (forall i s, sessions !! i = Some s -> tx_socket_address s = address ->
     (forall j s', (j < i)%nat -> sessions !! j = Some s' -> tx_socket_address s' <> address) ->
     exists s', add_to_received s m t = Ok s' /\
       rx_store false (to_be_bytes m) address t sessions = Ok (<[i := s']> sessions)).
Proof.
  intros Hm Hr. pose proof (be_roundtrip (T:=ReflectedMessage) (fixed:=false) m [] Hm (or_intror eq_refl)) as Hp.
  rewrite app_nil_r in Hp. unfold rx_store, parse. rewrite Hp. cbn [map_err].
  split; [done|]. split; [|split].
  - intros Hn. rewrite (proj2 (list_find_None _ _)); [done|]. apply Forall_forall. intros s Hs.
    rewrite bool_decide_eq_true. by apply Hn.
  - intros e bytes ->. done.
  - intros i s Hi Ha Hbefore. destruct (add_to_received_spec s m t Hr) as (r & _ & _ & _ & E).
    eexists. split; [exact E|].
    rewrite (proj2 (list_find_Some _ _ i s)); [by rewrite E|]. split; [done|]. split; [by apply bool_decide_eq_true|].
    intros j s' Hj Hji. rewrite bool_decide_eq_true. by eapply Hbefore.
Qed.

Example rx_store_exact_witness : exists s',
  @add_to_received _ (@ReflectedMessage_Message DEBUG) (Session_new sample_addr sample_addr) sample_reflected (t_at 0) = Ok s' /\
  @rx_store DEBUG ReflectedMessage_bytes false (to_be_bytes sample_reflected) sample_addr (t_at 0)
    [Session_new sample_addr sample_addr] = Ok [s'].
Proof.
  apply (proj2 (proj2 (proj2 (@rx_store_exact DEBUG ReflectedMessage_bytes _ ReflectedMessage_laws sample_reflected sample_addr
    (t_at 0) [Session_new sample_addr sample_addr] ltac:(repeat split; done)
    ltac:(unfold reflected_wf, ntp_wf, in_u, sample_reflected; cbn; lia)))) 0%nat (Session_new sample_addr sample_addr));
    [reflexivity|reflexivity|lia].
Defined.

Section setup.
Context `{BP : BuildProfile, HE : HostEndian} {W : Type} `{LC : Libc W, EO : EpollOs W}.
Context `{SB : BeBytes SenderMessage, RB : BeBytes ReflectedMessage}.

(** The loop when the test starts: [fd1] and [fd2] are the descriptors of its two timers. *)
Definition test_ready fuel self sock fd1 fd2 (w : Shared W) : LinuxEventLoop (T:=TimestampedUdpSocket) := {|
  sources := {[ 0 := (sock, as_callback (fueled (rx_callback fuel))) ]};
  timed_sources := {[ 1 := (fd1, 0, as_callback (tx_callback (ss_padding self)));
                      2 := (fd2, 0, as_callback (fueled (tx_correct_callback fuel))) ]};
  next_token := 4; overtime := Some {| it_interval := Duration_ZERO; it_value := ss_last_message_timeout self |};
  overtime_exceptions := [2]; cleanup := None; cleanup_token := None; channel_token := USIZE_MAX; os := w |}.

Lemma execute_setup_spec fuel self (w w1 : Shared W) sock : registers (W:=Shared W) ->
  create_udp_socket self (with_sessions (Session_new (ss_source self) <$> targets self) w) = (Ok sock, w1) ->
  exists fd1 fd2 w', execute_setup fuel self (empty_loop w) = (Ok 3, test_ready fuel self sock fd1 fd2 w').
Proof.
  intros Hr Hs. unfold execute_setup. rewrite bind_modify.
  rewrite (bind_Ok _ _ _ _ _ (sys_op_Ok _ (with_os (empty_loop w) _) _ _ Hs)).
  rewrite (bind_Ok _ _ _ _ _ (new_loop_exact _ _ Hr)). run_op.
  match goal with |- context [(register_event_source ?s ?c ≫= _) ?l0] =>
    destruct (register_event_source_spec s c l0 Hr) as (w2 & E2) end.
  rewrite (bind_Ok _ _ _ _ _ E2). clear E2.
  match goal with |- context [(register_timer ?s ?t ?c ≫= _) ?l0] =>
    destruct (register_timer_spec s t c (sock, as_callback (fueled (rx_callback fuel))) l0 Hr eq_refl)
      as (fd1 & w3 & E3) end.
  rewrite (bind_Ok _ _ _ _ _ E3). clear E3.
  match goal with |- context [(register_timer ?s ?t ?c ≫= _) ?l0] =>
    destruct (register_timer_spec s t c (sock, as_callback (fueled (rx_callback fuel))) l0 Hr eq_refl)
      as (fd2 & w4 & E4) end.
  rewrite (bind_Ok _ _ _ _ _ E4). clear E4. run_op.
  match goal with |- context [add_duration ?s ?l0] => destruct (add_duration_spec s l0 Hr) as (w5 & ->) end.
  exists fd1, fd2, w5. unfold test_ready.
  cbn [sources timed_sources with_os with_sources with_timed with_next_token add_overtime_exception set_overtime
    with_overtime empty_loop next_token overtime_exceptions overtime cleanup cleanup_token channel_token].
  change (as_u 64 (0 + 1)) with 1. change (as_u 64 (1 + 1)) with 2.
  rewrite (insert_insert_ne _ 2 1) by done. reflexivity.
Qed.

Lemma test_ready_inv fuel self sock fd1 fd2 w : loop_inv 4 (test_ready fuel self sock fd1 fd2 w).
Proof.
  constructor; cbn; [lia|..|done].
  - intros t s [<- _]%lookup_singleton_Some. lia.
  - intros t s [[<- _]|[_ [<- _]%lookup_singleton_Some]]%lookup_insert_Some; lia.
  - intros t s [<- _]%lookup_singleton_Some. done.
Qed.
End setup.

(** The test of a light sender is set up as intended and ends: once the socket is created,
    [execute] sets up one empty session per target, the socket (token 0), the sending timer (1)
    and the correcting timer (2) on it, and the duration (3); when the duration fires only the
    correcting timer is kept, and when the overtime (4) fires the loop ends, with the socket
    still registered, and the outcome of [execute] is the results of the sessions. *)
Theorem light_sender_test `{BuildProfile, HostEndian} {W} `{Libc W, EpollOs W, BeBytes SenderMessage, BeBytes ReflectedMessage}
    ln fuel clocks self (w w1 : Shared W) sock rest :
  registers (W:=Shared W) ->
  create_udp_socket self (with_sessions (Session_new (ss_source self) <$> targets self) w) = (Ok sock, w1) ->
  exists l, execute_setup fuel self (empty_loop w) = (Ok 3, l) /\ next_token l = 4 /\
    dom (sources l) = {[ 0 ]} /\ dom (timed_sources l) = {[ 1; 2 ]} /\
    (forall t fd src cb, timed_sources l !! t = Some (fd, src, cb) -> src = 0) /\
    exists w', dom (timed_sources (in_overtime w' l)) = {[ 2 ]} /\
      execute ln fuel clocks self (events_turn [3] :: events_turn [4] :: rest) (empty_loop w) =
        (option_map (fun rs => {| session_results := rs; tr_error := None |}) <$>
           calculate_session_results ln fuel clocks (sh_sessions w'), in_overtime w' l).
Proof.
  intros Hr Hs. destruct (execute_setup_spec fuel self w w1 sock Hr Hs) as (fd1 & fd2 & w2 & E).
  eexists. split; [exact E|]. split; [done|]. split; [cbn; set_solver|]. split; [cbn; set_solver|]. split.
  - intros t fd src cb. cbn. rewrite lookup_insert_Some, lookup_singleton_Some. intros [[_ [=]]|[_ [_ [=]]]]; done.
  - destruct (duration_ends 4 (test_ready fuel self sock fd1 fd2 w2) 3 _ rest Hr (test_ready_inv _ _ _ _ _ _) eq_refl eq_refl)
      as (w' & _ & Er); [done|]. exists w'. split.
    + apply set_eq. intros t. rewrite elem_of_dom, elem_of_singleton. split.
      * intros [x [_ Ht]%map_lookup_filter_Some]. by apply list_elem_of_singleton in Ht.
      * intros ->. eexists. apply map_lookup_filter_Some. split; [reflexivity|]. by apply list_elem_of_singleton.
    + unfold execute. rewrite (bind_Ok _ _ _ _ _ E), (bind_Ok _ _ _ _ _ Er). apply (finish_Ok (fun l => sh_sessions (os l))).
Qed.

Import ScriptedLoop.

Lemma shared_registers : registers (W:=Shared scripted).
Proof. by split. Qed.

Definition sample_sender_config : SessionSender := SessionSender_new (Configuration_new [sample_addr] sample_addr 5 100 0 1).

Definition sample_world : Shared scripted := Build_Shared (scripted_of [7] []) [] false.
Definition sample_bound : Shared scripted :=
  (create_udp_socket (HE:=LE) sample_sender_config
     (with_sessions [Session_new sample_addr sample_addr] sample_world)).2.

Example light_sender_test_witness :
  exists l : LinuxEventLoop, execute_setup (BP:=DEBUG) (HE:=LE) 10 sample_sender_config (empty_loop sample_world) = (Ok 3, l)
    /\ next_token l = 4.
Proof.
  assert (Hs : create_udp_socket (HE:=LE) sample_sender_config
    (with_sessions [Session_new sample_addr sample_addr] sample_world) = (Ok (UdpSocket_new 7), sample_bound))
    by (cbv; reflexivity).
  destruct (light_sender_test (H:=DEBUG) (H0:=LE) id 10 (fun _ => (fun _ => None, fun _ => None)) sample_sender_config sample_world sample_bound
    (UdpSocket_new 7) [] shared_registers Hs) as (l & E & En & _).
  exists l. split; [exact E|exact En].
Defined.
