(* ===== verification/SenderLoop.v ===== *)
(** * The light sender on its event loop

    The whole life of a test of [twamp_light_sender/twamp_light.rs]: whatever arrives and in
    whatever order the timers fire, the three callbacks keep the sessions in order and the
    loop goes on until its duration and its overtime have passed, as long as the socket and its
    error queue run dry ([RunsDry]); when they do not, the callback that reads them never
    returns.  [Bounded] is a system on which they do. *)
From stdpp Require Import base list option numbers strings gmap.
From Stdlib Require Import ZArith Lia.
From S2P Require Import Prelude Float64 Errors Time Net DataModel Messages Wire Estimator Session Sockets EventLoop Steady Shared Results LightSender.
Local Open Scope Z_scope.

(** A session with the target [address] after [k] ticks of the sending timer. *)
Record test_session (source : SocketAddr) (k : nat) (address : SocketAddr) (s : Session) : Prop := {
  ts_inv : session_inv s;
  ts_source : rx_socket_address s = source;
  ts_address : tx_socket_address s = address;
  ts_packets : length (results s) = k;
  (** an answered packet has the time at which its answer came *)
  ts_answers : Forall (fun p => is_answered p = true -> is_Some (t4 p)) (results s)
}.

Lemma test_session_new source address : test_session source 0 address (Session_new source address).
Proof. constructor; [by constructor|done..|constructor]. Qed.

Lemma test_session_sent source k address s s' : test_session source k address s -> sent_one s s' ->
  test_session source (S k) address s'.
Proof.
  intros [[Hs Hn Hl Hp] Hso Ha Hk Hc] (d & Hd & ->). constructor; cbn [rx_socket_address tx_socket_address results]; try done.
  - constructor; cbn [results seq_number last_updated]; rewrite ?length_app; cbn [length];
      rewrite ?Nat.add_1_r, ?Hn, ?as_u_succ; [|done|lia|].
    + rewrite fmap_app, Hs. cbn [fmap list_fmap sender_seq]. by apply seqs_snoc.
    + apply Forall_app. split; [done|]. constructor; [|done]. unfold packet_u32. by cbn.
  - rewrite length_app, Hk. cbn. lia.
  - apply Forall_app. split; [done|]. by constructor.
Qed.

Lemma test_session_received `{BuildProfile} source k address s (m : ReflectedMessage) t4 s' :
  test_session source k address s -> reflected_wf m -> datetime_u32 t4 -> add_to_received s m t4 = Ok s' ->
  test_session source k address s'.
Proof.
  intros [Hi Hso Ha Hk Hc] Hm Ht E. pose proof (session_inv_received s m t4 s' Hi Hm Ht E) as Hi'.
  destruct (add_to_received_spec s m t4 Hm) as (r & _ & _ & _ & E'). rewrite E in E'. injection E' as ->.
  constructor; cbn; [done..|by rewrite update_first_length|]. apply update_first_Forall; [|done]. intros p _ _ _. by eexists.
Qed.

Lemma test_session_corrected `{BuildProfile} source k address s ts s' : test_session source k address s ->
  Forall datetime_u32 ts -> update_tx_timestamps s ts = Ok s' -> test_session source k address s'.
Proof.
  intros [Hi Hso Ha Hk Hc] Ht E. pose proof (session_inv_corrected s ts s' Hi Ht E) as Hi'. destruct (Hi) as [_ _ Hu Hp].
  destruct (update_tx_inv s ts Hp Hu Ht) as (s2 & E2 & Hr & _ & Hrx & Htx & _ & Hlen). rewrite E in E2. injection E2 as <-.
  constructor; [done|congruence..|]. apply Forall_lookup_2. intros i p Hip. rewrite Hr in Hip.
  destruct (results s !! i) as [p0|] eqn:Ep; [|done]. cbn in Hip. injection Hip as <-.
  pose proof (Forall_lookup_1 _ _ _ _ Hc Ep) as Hp0. unfold corrected. by repeat case_match.
Qed.

(** The sessions of a test with these targets. *)
Definition test_sessions (source : SocketAddr) (targets : list SocketAddr) (k : nat) (sessions : list Session) : Prop :=
  Forall2 (test_session source k) targets sessions.

Lemma test_sessions_new source targets : test_sessions source targets 0 ((fun host => Session_new source host) <$> targets).
Proof. apply Forall2_fmap_r, Forall2_same_length_lookup. split; [done|]. intros i x y Hx Hy. simplify_eq. apply test_session_new. Qed.

Lemma test_sessions_insert source targets k sessions i s s' : test_sessions source targets k sessions ->
  sessions !! i = Some s -> (forall a, test_session source k a s -> test_session source k a s') ->
  test_sessions source targets k (<[i := s']> sessions).
Proof.
  intros HF Hi Hs. destruct (Forall2_lookup_r _ _ _ _ _ HF Hi) as (a & Ha & Hs0).
  rewrite <-(list_insert_id targets i a Ha). apply Forall2_insert; [done|by apply Hs].
Qed.

(** ** Queues that run dry *)

(** A state is read until a read fails: what was read, and the state after. *)
Inductive reads {X A} (read : X -> outcome CommonError A * X) : X -> list A -> X -> Prop :=
  | reads_dry x e x' : read x = (Err e, x') -> reads read x [] x'
  | reads_more x a x1 l x2 : read x = (Ok a, x1) -> reads read x1 l x2 -> reads read x (a :: l) x2.

Section queues.
Context {W : Type} `{LC : Libc W, HE : HostEndian}.

(** One read of the receiving loop: the octets received, from whom, when; the buffer is kept. *)
Definition rx_read (sock : TimestampedUdpSocket) (x : list Z * W) : outcome CommonError (list Z * SocketAddr * DateTime) * (list Z * W) :=
  let '(buffer, w) := x in
  match UdpSocket_receive_from sock buffer w with
  | (Ok (buffer', n, addr, t), w') => (Ok (take (Z.to_nat n) buffer', addr, t), (buffer', w'))
  | (Err e, w') => (Err e, (buffer, w'))
  | (Panic p, w') => (Panic p, (buffer, w'))
  end.
End queues.

(** A callback finds fewer than [fuel] datagrams waiting, and fewer than [fuel] reports in the
    error queue: what arrives meanwhile does not keep it reading for longer. *)
Class RunsDry (W : Type) `{LC : Libc W, HE : HostEndian} (fuel : nat) : Prop := {
  rx_dry : forall sock buffer (w : W), length buffer = length DEFAULT_BUFFER ->
    exists l x, reads (rx_read sock) (buffer, w) l x /\ (length l < fuel)%nat;
  tx_dry : forall sock addresses (w : W), addresses <> [] ->
    exists l w', reads (retrieve_tx_timestamps sock addresses) w l w' /\ (length l < fuel)%nat
}.

(** What the datagrams do to the sessions, in the order in which they were read. *)
Fixpoint store_all `{BuildProfile, BeBytes ReflectedMessage} (l : list (list Z * SocketAddr * DateTime)) (sessions : list Session)
    : outcome CommonError (list Session) :=
  match l with
  | [] => Ok sessions
  | (bytes, addr, t) :: l' => sessions' ← rx_store false bytes addr t sessions; store_all l' sessions'
  end.

Section callbacks.
Context `{BP : BuildProfile, HE : HostEndian} {W : Type} `{LC : Libc W}.
Context `{SB : BeBytes SenderMessage, RB : BeBytes ReflectedMessage}.
Variables (source : SocketAddr) (targets : list SocketAddr).
Implicit Types s : Shared W.

(** The state the callbacks share during a test, after [k] ticks: nobody else holds the lock. *)
Definition good (k : nat) s : Prop := sh_busy s = false /\ test_sessions source targets k (sh_sessions s).

Lemma good_os k s w : good k s -> good k (with_sh_os s w).
Proof. done. Qed.

(** A system call keeps what does not depend on the system. *)
Lemma preserves_good_sys {A} k (f : W -> A * W) : preserves (E:=CommonError) (good k) (effect (on_part sh_os set_sh_os f)).
Proof. apply preserves_on_part. by intros w s. Qed.
Hint Resolve preserves_good_sys : preserves.

(** *** Sending *)

Lemma tx_serves padding sock token k s : clock_sane W -> 0 <= padding < 2 ^ 63 -> good k s ->
  exists s', tx_callback padding sock token s = (Ok 0, s') /\ good (S k) s'.
Proof.
  intros Hc Hp [Hb Hs]. destruct (tx_callback_spec padding sock token s Hc Hp Hb) as (ss & w & -> & HF).
  eexists. split; [done|]. split; [done|]. cbn [sh_sessions]. clear -Hs HF. unfold test_sessions in *.
  revert ss HF. induction Hs as [|a x ts xs Hx Hxs IH]; intros ss HF; [by apply Forall2_nil_inv_l in HF as ->|].
  apply Forall2_cons_inv_l in HF as (y & ys & Hy & Hys & ->). constructor; [by eapply test_session_sent|by apply IH].
Qed.

(** *** Receiving *)

Lemma rx_store_good `{!BeBytesSound ReflectedMessage reflected_wf} bytes addr t k sessions : Forall byte_ok bytes -> datetime_u32 t ->
  test_sessions source targets k sessions ->
  exists sessions', rx_store false bytes addr t sessions = Ok sessions' /\ test_sessions source targets k sessions'.
Proof.
  intros Hb Ht Hs. unfold rx_store. destruct (parse_sound reflected_wf bytes Hb) as [[e ->]|(m & n & -> & Hm)]; [by eexists|].
  destruct (list_find _ sessions) as [[i s]|] eqn:Ef; [|by eexists]. apply list_find_Some in Ef as (Hi & _).
  destruct (add_to_received_spec s m t Hm) as (r & _ & _ & _ & E). rewrite E. eexists. split; [done|].
  eapply test_sessions_insert; [done|exact Hi|]. intros a Ha. by eapply test_session_received.
Qed.

(** One turn of the receiving loop. *)
Lemma rx_loop_read `{!ReceiveFits W} fuel sock buffer s bytes addr t buffer' w : Forall byte_ok buffer -> sh_busy s = false ->
  rx_read sock (buffer, sh_os s) = (Ok (bytes, addr, t), (buffer', w)) ->
  rx_loop (S fuel) sock buffer s =
    (sessions ← lift (rx_store false bytes addr t (sh_sessions s)); _ ← modify (with_sessions sessions); rx_loop fuel sock buffer') (with_sh_os s w) /\
  Forall byte_ok buffer' /\ Forall byte_ok bytes /\ datetime_u32 t.
Proof.
  intros Hb Hs E. cbn [rx_loop]. unfold rx_read in E. pose proof (receive_from_shared sock buffer s) as Er.
  destruct (receive_from_fits sock buffer (sh_os s) Hb) as [(e & w1 & E1)|(buf & n & a & t1 & w1 & E1 & Hn & Hl & Hok & Ht)];
    rewrite E1 in E, Er; [done|]. injection E as <- <- <- <- <-.
  rewrite (bind_attempt_Ok _ _ _ _ _ Er). rewrite (proj2 (Z.ltb_ge _ _)) by lia. run_op. cbn [sh_busy with_sh_os sh_sessions].
  rewrite Hs. split; [done|]. split; [done|]. split; [by apply Forall_take|done].
Qed.

(** The receiving loop handles what is waiting, in order, and comes to its end. *)
Lemma rx_loop_reads `{!ReceiveFits W} `{!BeBytesSound ReflectedMessage reflected_wf} sock k fuel x l x' s :
  reads (rx_read sock) x l x' -> x.2 = sh_os s -> Forall byte_ok x.1 -> good k s -> (length l < fuel)%nat ->
  exists sessions, store_all l (sh_sessions s) = Ok sessions /\ good k (Build_Shared x'.2 sessions false) /\
    rx_loop fuel sock x.1 s = (Ok (Some 0), Build_Shared x'.2 sessions false).
Proof.
  intros Hr. revert fuel s. induction Hr as [[b w] e [b' w'] E|[b w] [[bytes addr] t] [b1 w1] l x2 E Hr IH]; intros fuel s Ew Hb Hg Hf;
    cbn [fst snd length store_all] in *; subst w; (destruct fuel as [|fuel]; [lia|]).
  - exists (sh_sessions s). split; [done|]. cbn [rx_loop]. unfold rx_read in E. pose proof (receive_from_shared sock b s) as Er.
    destruct (UdpSocket_receive_from sock b (sh_os s)) as [[[[[? ?] ?] ?]|e1|p] w1]; [done| |done]. injection E as <- <- <-.
    rewrite (bind_attempt_Err _ _ _ _ _ Er). destruct Hg as [Hbusy Hg]. split; [by split|]. unfold with_sh_os. by rewrite Hbusy.
  - destruct Hg as [Hbusy Hg]. destruct (rx_loop_read fuel sock b s bytes addr t b1 w1 Hb Hbusy E) as (-> & Hb1 & Hby & Ht).
    destruct (rx_store_good bytes addr t k (sh_sessions s) Hby Ht Hg) as (ss & Ess & Hss). rewrite Ess. run_op.
    cbn [mbind outcome_bind]. apply (IH fuel (with_sessions ss (with_sh_os s w1))); [done|done|by split|lia].
Qed.

(** A socket that never runs dry keeps it reading. *)
Lemma rx_loop_stuck `{!ReceiveFits W} `{!BeBytesSound ReflectedMessage reflected_wf} sock k fuel buffer s :
  (forall l x, ~ reads (rx_read sock) (buffer, sh_os s) l x) -> Forall byte_ok buffer -> good k s ->
  exists s', rx_loop fuel sock buffer s = (Ok None, s').
Proof.
  revert buffer s. induction fuel as [|fuel IH]; intros buffer s Hn Hb [Hbusy Hg]; [by exists s|].
  destruct (rx_read sock (buffer, sh_os s)) as [[[[bytes addr] t]|e|p] [b1 w1]] eqn:E.
  - destruct (rx_loop_read fuel sock buffer s bytes addr t b1 w1 Hb Hbusy E) as (-> & Hb1 & Hby & Ht).
    destruct (rx_store_good bytes addr t k (sh_sessions s) Hby Ht Hg) as (ss & Ess & Hss). rewrite Ess. run_op.
    apply IH; [|done|by split]. intros l x Hl. apply (Hn ((bytes, addr, t) :: l) x). by apply (reads_more _ _ _ (b1, w1)).
  - exfalso. eapply Hn. by eapply reads_dry.
  - exfalso. unfold rx_read in E.
    by destruct (receive_from_fits sock buffer (sh_os s) Hb) as [(e & w2 & E1)|(? & ? & ? & ? & ? & E1 & _)]; rewrite E1 in E.
Qed.

Lemma default_octets : Forall byte_ok DEFAULT_BUFFER.
Proof. apply Forall_replicate. unfold byte_ok. lia. Qed.

Lemma rx_serves `{!ReceiveFits W} `{!BeBytesSound ReflectedMessage reflected_wf} fuel `{!RunsDry W fuel} sock token k s : good k s ->
  exists z s', fueled (rx_callback fuel) sock token s = (Ok z, s') /\ good k s'.
Proof.
  intros Hs. destruct (rx_dry sock DEFAULT_BUFFER (sh_os s) eq_refl) as (l & x & Hr & Hl).
  destruct (rx_loop_reads sock k fuel _ l x s Hr eq_refl default_octets Hs Hl) as (ss & _ & Hg & E).
  eexists 0, _. split; [|exact Hg]. unfold fueled, rx_callback. cbn [fst] in E. by rewrite (bind_Ok _ _ _ _ _ E).
Qed.

(** *** Correcting *)

Lemma retrieve_in_range sock addresses (w : W) ts w' : retrieve_tx_timestamps sock addresses w = (Ok ts, w') -> Forall datetime_u32 ts.
Proof.
  unfold retrieve_tx_timestamps, last_os_error, mbind, op_bind, effect, gets, mret, op_ret, fail, lift.
  destruct (init_vec_of_mmsghdr _ _ _) as [hdrs|e|q]; [|done..]. destruct (sys_recvmmsg _ _ _ _ w) as [[res dgs] w1].
  destruct (0 <=? res); [|done]. intros [= <- _]. apply Forall_forall. intros t (dg & _ & E)%list_elem_of_omap.
  destruct (retrieve_data_from_header (dg_cmsgs dg)) as [d|e|p] eqn:Er; [|done..]. injection E as <-. by eapply retrieve_u32.
Qed.

(** The error queue is read until it is empty. *)
Lemma drain_reads sock addresses fuel w l w' acc s : reads (retrieve_tx_timestamps sock addresses) w l w' -> w = sh_os s ->
  (length l < fuel)%nat ->
  drain_timestamps fuel sock addresses acc s = (Ok (Some (acc ++ concat l)), with_sh_os s w') /\ Forall (Forall datetime_u32) l.
Proof.
  intros Hr. revert fuel acc s. induction Hr as [w e w' E|w ts w1 l w2 E Hr IH]; intros fuel acc s -> Hf; cbn [length] in Hf;
    (destruct fuel as [|fuel]; [lia|]); cbn [drain_timestamps]; pose proof (retrieve_shared sock addresses s) as Es; rewrite E in Es.
  - rewrite (bind_attempt_Err _ _ _ _ _ Es). cbn [concat]. by rewrite app_nil_r.
  - rewrite (bind_attempt_Ok _ _ _ _ _ Es). destruct (IH fuel (acc ++ ts) (with_sh_os s w1) eq_refl ltac:(lia)) as [-> HF].
    cbn [concat]. rewrite <-app_assoc. split; [done|]. constructor; [by eapply retrieve_in_range|done].
Qed.

Lemma correct_good n ts k sessions : Forall datetime_u32 ts -> forall i addresses, Forall2 (test_session source k) addresses sessions ->
  exists sessions', correct_sessions i n ts sessions = (Ok (), sessions') /\ Forall2 (test_session source k) addresses sessions'.
Proof.
  intros Hts. induction sessions as [|s ss IH]; intros i addresses HF; [by exists []|].
  apply Forall2_cons_inv_r in HF as (a & addrs & Ha & HF & ->). cbn [correct_sessions].
  assert (Hst : Forall datetime_u32 (step_by n (drop i ts))) by (by apply step_by_Forall, Forall_drop).
  destruct (update_tx_ok s _ (ts_inv _ _ _ _ Ha) Hst) as (s' & E & _). rewrite E.
  destruct (IH (S i) addrs HF) as (ss' & -> & HF'). eexists. split; [done|]. constructor; [by eapply test_session_corrected|done].
Qed.

Lemma correct_serves fuel `{!RunsDry W fuel} sock token k s : targets <> [] -> good k s ->
  exists z s', fueled (tx_correct_callback fuel) sock token s = (Ok z, s') /\ good k s'.
Proof.
  intros Ht [Hb HF]. unfold fueled, tx_correct_callback, try_lock. run_op. rewrite Hb. run_op.
  destruct (tx_dry sock (tx_socket_address <$> sh_sessions s) (sh_os s)) as (l & w' & Hr & Hl).
  { apply Forall2_length in HF. intros E. apply (f_equal length) in E. rewrite length_fmap in E. by destruct targets, (sh_sessions s). }
  destruct (drain_reads sock _ fuel _ l w' [] s Hr eq_refl Hl) as [E Hts].
  rewrite (bind_Ok _ _ _ _ _ E). run_op. cbn [sh_busy with_sh_os app sh_sessions]. rewrite Hb. run_op. cbn [sh_sessions with_sh_os].
  destruct (correct_good (length (sh_sessions s)) (concat l) k (sh_sessions s) ltac:(by apply Forall_concat) 0%nat targets HF) as (ss & -> & HF').
  run_op. eexists 0, _. split; [reflexivity|]. by split.
Qed.
End callbacks.

(** ** The run of a test *)

(** How often the sending timer (token 1) fired. *)
Definition ticks (events : list Token) : nat := length (filter (fun t => t = 1) events).

Lemma ticks_snoc h t : ticks (h ++ [t]) = (if decide (t = 1) then S (ticks h) else ticks h).
Proof.
  unfold ticks. rewrite list.filter_app, length_app.
  destruct (decide (t = 1)); [rewrite filter_cons_True by done; apply Nat.add_1_r|rewrite filter_cons_False by done; apply Nat.add_0_r].
Qed.

Section test.
Context `{BP : BuildProfile, HE : HostEndian} {W : Type} `{LC : Libc W, EO : EpollOs W}.
Context `{SB : BeBytes SenderMessage, RB : BeBytes ReflectedMessage}.
Context `{!TimersWork W} `{!ReceiveFits W} `{!BeBytesSound ReflectedMessage reflected_wf}.
Variables (fuel : nat) (self : SessionSender).
Context `{!RunsDry W fuel}.
Hypothesis clock : clock_sane W.
Hypothesis padding_wf : 0 <= ss_padding self < 2 ^ 63.
Hypothesis hosts_given : targets self <> [].

Definition test_state (h : list Token) (s : Shared W) : Prop := good (ss_source self) (targets self) (ticks h) s.

Lemma test_state_quiet h : quiet (T:=TimestampedUdpSocket) (test_state h).
Proof using. apply part_quiet; [done|]. intros x s Hs. cbn. unfold on_part. by destruct (sys_close _ _). Qed.

Lemma test_steady sock fd1 fd2 w : steady test_state (test_ready fuel self sock fd1 fd2 w).
Proof using All.
  constructor; cbn [sources timed_sources test_ready].
  - intros t src cb [<- [= <- <-]]%lookup_singleton_Some h s Hs. unfold as_callback.
    destruct (rx_serves (ss_source self) (targets self) fuel sock 0 (ticks h) s Hs) as (z & s' & -> & Hs').
    exists z, s'. split; [done|]. unfold test_state. by rewrite ticks_snoc, decide_False.
  - intros t fd inner cb Ht. exists sock, (as_callback (fueled (rx_callback fuel))).
    apply lookup_insert_Some in Ht as [[<- [= <- <- <-]]|[_ [<- [= <- <- <-]]%lookup_singleton_Some]]; (split; [done|]);
      intros h s Hs; unfold as_callback.
    + destruct (tx_serves (ss_source self) (targets self) (ss_padding self) sock 0 (ticks h) s clock padding_wf Hs) as (s' & -> & Hs').
      exists 0, s'. split; [done|]. unfold test_state. by rewrite ticks_snoc, decide_True.
    + destruct (correct_serves (ss_source self) (targets self) fuel sock 0 (ticks h) s hosts_given Hs) as (z & s' & -> & Hs').
      exists z, s'. split; [done|]. unfold test_state. by rewrite ticks_snoc, decide_False.
Qed.

Lemma create_udp_socket_good k : preserves (good (ss_source self) (targets self) k) (create_udp_socket (W:=W) self).
Proof using.
  unfold create_udp_socket, UdpSocket_bind. apply preserves_bind.
  - apply preserves_bind; [apply preserves_good_sys|]. intros fd. unfold last_os_error.
    destruct (fd <? 0); [apply preserves_bind; eauto with preserves|]. destruct (socketaddr_to_sockaddr _) as [sa len].
    apply preserves_bind; [apply preserves_good_sys|]. intros r. destruct (r <? 0); [apply preserves_bind; eauto with preserves|].
    apply preserves_ret.
  - intros sock. apply preserves_or_drop.
    { intros s Hs. cbn. unfold on_part. by destruct (sys_close _ _). }
    apply preserves_bind; [by apply preserves_fcntl_options|]. intros _.
    apply preserves_bind; [by apply preserves_libc_call|]. intros _.
    apply preserves_bind; [by apply preserves_libc_call|]. intros _.
    apply preserves_bind; [by apply preserves_timestamping_options|]. intros _. apply preserves_ret.
Qed.

(** The set-up leaves the sessions of the targets, empty. *)
Lemma setup_state w (w1 : Shared W) sock fd1 fd2 w2 : sh_busy w = false ->
  create_udp_socket self (with_sessions (Session_new (ss_source self) <$> targets self) w) = (Ok sock, w1) ->
  execute_setup fuel self (empty_loop w) = (Ok 3, test_ready fuel self sock fd1 fd2 w2) -> test_state [] w2.
Proof using.
  intros Hb Hs E. assert (H0 : test_state [] (with_sessions (Session_new (ss_source self) <$> targets self) w)).
  { split; [done|]. apply test_sessions_new. }
  pose proof (create_udp_socket_good 0 _ H0) as H1. rewrite Hs in H1. cbn [snd] in H1.
  pose proof (test_state_quiet []) as Hq.
  unfold execute_setup in E. rewrite bind_modify in E.
  rewrite (bind_Ok _ _ _ _ _ (sys_op_Ok _ (with_os (empty_loop w) _) _ _ Hs)) in E.
  match type of E with ?m ?l0 = _ => assert (Hp : preserves (fun l => test_state [] (os l)) m); [|specialize (Hp l0 H1); by rewrite E in Hp] end.
  apply preserves_bind; [apply new_loop_quiet; [done|]; intros x Hx; apply (quiet_drop _ Hq sock x Hx)|]. intros _.
  apply preserves_bind; [by apply preserves_modify|]. intros _.
  apply preserves_bind; [by apply register_event_source_quiet|]. intros rx.
  apply preserves_bind; [by apply register_timer_quiet|]. intros _.
  apply preserves_bind; [by apply register_timer_quiet|]. intros t.
  apply preserves_bind; [by apply preserves_modify|]. intros _. by apply add_duration_quiet.
Qed.

Lemma test_tracked sock fd1 fd2 w t : t ∈ [0; 1; 2] -> tracked (test_ready fuel self sock fd1 fd2 w) t.
Proof using.
  rewrite !elem_of_cons, elem_of_nil. intros [->|[->|[->|[]]]]; [left|right|right]; eexists; reflexivity.
Qed.
Lemma overtime_tracked sock fd1 fd2 w w' t : t ∈ [0; 2] -> tracked (in_overtime w' (test_ready fuel self sock fd1 fd2 w)) t.
Proof using.
  rewrite !elem_of_cons, elem_of_nil. intros [->|[->|[]]]; [left|right]; eexists; [reflexivity|].
  apply map_lookup_filter_Some. split; [reflexivity|]. by apply list_elem_of_singleton.
Qed.

(** The run from a loop that is set up. *)
Lemma test_runs sock fd1 fd2 w before after rest : registers (W:=Shared W) -> test_state [] w ->
  Forall (Forall (fun t => t ∈ [0; 1; 2])) before -> Forall (Forall (fun t => t ∈ [0; 2])) after ->
  exists w', run ((events_turn <$> before) ++ events_turn [3] :: (events_turn <$> after) ++ events_turn [4] :: rest)
      (test_ready fuel self sock fd1 fd2 w) = (Ok true, in_overtime w' (test_ready fuel self sock fd1 fd2 w)) /\
    test_state (concat before ++ concat after) w'.
Proof using All.
  intros Hr Hw Hbefore Hafter. set (l := test_ready fuel self sock fd1 fd2 w).
  assert (Hi : loop_inv 4 l) by apply test_ready_inv.
  apply (steady_test test_state test_state_quiet 4 l 3 {| it_interval := Duration_ZERO; it_value := ss_last_message_timeout self |} before after rest []);
    try done; [apply test_steady|..].
  - eapply Forall_impl; [exact Hbefore|]. intros ts Hts. eapply Forall_impl; [exact Hts|]. intros t. apply test_tracked.
  - intros w'. eapply Forall_impl; [exact Hafter|]. intros ts Hts. eapply Forall_impl; [exact Hts|]. intros t. apply overtime_tracked.
Qed.
End test.

Lemma complete_answers source k a s : test_session source k a s ->
  Forall complete (filter (fun p => is_answered p = true) (results s)).
Proof.
  intros [[_ _ _ Hp] _ _ _ Hc]. apply Forall_forall. intros p [Ha Hin]%list_elem_of_filter.
  rewrite Forall_forall in Hp, Hc. pose proof (Hc p Hin Ha) as H4. unfold is_answered in Ha.
  split; [by apply Hp|]. destruct (t2 p), (t3 p); try discriminate. eauto.
Qed.

(** ** Properties *)


(** C29: the receiving callback handles what is waiting, in order, and returns when the socket has
    run dry: on the sessions of a test, when reading the socket gives the datagrams [l] and then
    fails, the callback with more fuel than that stores each of them in turn, whatever it holds,
    and returns [Ok] with the system as the failed read left it; on a socket that never runs dry
    no fuel is enough, and the callback never returns. *)
Theorem rx_drains `{BuildProfile, HostEndian} {W} `{Libc W, BeBytes SenderMessage, BeBytes ReflectedMessage}
    `{!ReceiveFits W, !BeBytesSound ReflectedMessage reflected_wf} fuel source targets k sock token (s : Shared W) :
  good source targets k s ->
  (forall l buffer w', reads (rx_read sock) (DEFAULT_BUFFER, sh_os s) l (buffer, w') -> (length l < fuel)%nat ->
     exists sessions, store_all l (sh_sessions s) = Ok sessions /\ test_sessions source targets k sessions /\
       fueled (rx_callback fuel) sock token s = (Ok 0, Build_Shared w' sessions false)) /\
  ((forall l x, ~ reads (rx_read sock) (DEFAULT_BUFFER, sh_os s) l x) ->
     (fueled (rx_callback fuel) sock token s).1 = Panic StillRunning).
Proof.
  intros Hs. split.
  - intros l buffer w' Hr Hl. destruct (rx_loop_reads source targets sock k fuel _ l _ s Hr eq_refl default_octets Hs Hl) as (ss & Ess & Hg & E).
    exists ss. split; [exact Ess|]. split; [apply Hg|]. unfold fueled, rx_callback. cbn [fst] in E. by rewrite (bind_Ok _ _ _ _ _ E).
  - intros Hn. destruct (rx_loop_stuck source targets sock k fuel DEFAULT_BUFFER s Hn default_octets Hs) as (s' & E).
    unfold fueled, rx_callback. by rewrite (bind_Ok _ _ _ _ _ E).
Qed.

(** C37: a configuration without hosts passes the validation and ends the test with a panic: the
    correcting timer, which fires first (after one nanosecond), takes a remainder by the number
    of hosts. *)
Theorem sender_without_hosts_panics `{BuildProfile, HostEndian} {W} `{Libc W, EpollOs W, BeBytes SenderMessage, BeBytes ReflectedMessage}
    show ln fuel clocks c (w w1 : Shared W) sock rest : let self := SessionSender_new c in
  registers (W:=W) -> hosts c = [] -> 1 <= cfg_duration c <= 3600 -> 1 <= packet_interval c <= 1000 ->
  0 <= cfg_padding c <= 1024 -> 0 <= last_message_timeout c <= 1000 -> sh_busy w = false ->
  create_udp_socket self (with_sessions (Session_new (ss_source self) <$> targets self) w) = (Ok sock, w1) ->
  validate show c = Ok () /\
  exists l : LinuxEventLoop, execute ln (S fuel) clocks self (events_turn [2] :: rest) (empty_loop w) = (Panic ArithmeticOverflow, l).
Proof.
  intros self Hr Hh Hd Hi Hp Ht Hb Hs. split.
  { unfold validate. rewrite !(proj2 (Z.leb_le _ _)) by lia. done. }
  pose proof (registers_shared Hr) as Hr'.
  destruct (execute_setup_spec (S fuel) self w w1 sock Hr' Hs) as (fd1 & fd2 & w2 & E).
  pose proof (setup_state (S fuel) self w w1 sock fd1 fd2 w2 Hb Hs E) as [Hb2 Hs2].
  assert (Hss : sh_sessions w2 = []).
  { unfold test_sessions in Hs2. apply Forall2_length in Hs2. cbn in Hs2. rewrite Hh in Hs2. by destruct (sh_sessions w2). }
  unfold execute. rewrite (bind_Ok _ _ _ _ _ E). eexists. apply bind_Panic. cbn [run]. apply bind_Panic.
  unfold run_turn. cbn [events_turn t_messages t_polled for_each]. run_op. cbn [fmap list_fmap handle_events]. run_op.
  apply bind_Panic. unfold handle_event. run_op.
  change (sources (test_ready (S fuel) self sock fd1 fd2 w2) !! 2) with (None : option (Source (W:=Shared W) (T:=TimestampedUdpSocket))).
  change (timed_sources (test_ready (S fuel) self sock fd1 fd2 w2) !! 2) with (Some (fd2, 0, as_callback (fueled (tx_correct_callback (S fuel)))) : option (TimedSource (W:=Shared W) (T:=TimestampedUdpSocket))).
  cbv iota. change (sources (test_ready (S fuel) self sock fd1 fd2 w2) !! 0) with (Some (sock, as_callback (fueled (rx_callback (S fuel)))) : option (Source (W:=Shared W) (T:=TimestampedUdpSocket))).
  cbv iota. apply bind_Panic. unfold call_back, as_callback. cbn [os test_ready].
  assert (E2 : fueled (tx_correct_callback (S fuel)) sock 0 w2 = (Panic ArithmeticOverflow, w2)).
  { unfold fueled, tx_correct_callback, try_lock. apply bind_Panic. run_op. rewrite Hb2. run_op. rewrite Hss.
    apply bind_Panic. cbn [drain_timestamps]. by apply bind_attempt_Panic. }
  rewrite E2. reflexivity.
Qed.

(** ** Concrete runs *)

Import Scripted Kernel KernelLoop BigEndian.

(** A system that holds at most eight datagrams, and as many reports in its error queue. *)
Lemma init_vec_returns max_msg n addresses : addresses <> [] -> exists hdrs, init_vec_of_mmsghdr max_msg n addresses = Ok hdrs.
Proof.
  intros Ha. unfold init_vec_of_mmsghdr. assert (HL : length addresses <> 0%nat) by (by destruct addresses).
  match goal with |- context [collect ?f ?l] => assert (Hc : exists hs, collect f l = Ok hs) end; [|destruct Hc as (hs & ->); by eexists].
  induction (seq _ _) as [|i js IH]; [by eexists|]. cbn [collect]. destruct IH as [hs E].
  destruct (decide (length addresses = 0%nat)) as [Hz|Hz]; [done|].
  destruct (lookup_lt_is_Some_2 addresses (i mod length addresses)) as [a ->]; [by apply Nat.mod_upper_bound|].
  cbn in E |- *. rewrite E. by eexists.
Qed.

Module Bounded.
Definition waiting (w : scripted) : list datagram := take 8 (datagrams w).
Definition reports (w : scripted) : list Z := take 8 (script w).

#[export] Instance bounded_libc : Libc scripted := {|
  sys_socket := sys_socket; sys_bind := sys_bind; sys_connect := sys_connect; sys_listen := sys_listen; sys_accept := sys_accept;
  sys_getpeername := sys_getpeername; sys_setsockopt := sys_setsockopt; sys_fcntl := sys_fcntl; sys_close := sys_close;
  sys_send := sys_send; sys_sendmsg := sys_sendmsg; sys_recv := sys_recv;
  sys_recvmsg fd h f w :=
    let len := default 0 (head (msg_iov h)) in
    match waiting w with
    | [] => ((-1, empty_datagram), w)
    | dg :: rest => ((Z.of_nat (length (dg_bytes (clip len dg))), clip len dg),
                     {| script := script w; datagrams := rest; errno_ := errno_ w; calls := calls w ++ [CRecvmsg fd] |})
    end;
  sys_recvmmsg fd hdrs n f w :=
    match reports w with
    | [] => ((-1, []), w)
    | _ :: rest => ((1, []), {| script := rest; datagrams := datagrams w; errno_ := errno_ w; calls := calls w ++ [CRecvmmsg fd] |})
    end;
  sys_clock := sys_clock; last_errno := last_errno; strerror := strerror (W:=scripted)
|}.

#[export] Instance bounded_receive : ReceiveFits scripted (H:=bounded_libc).
Proof.
  intros fd hdr flags len w Hlen E. cbn. rewrite E. destruct (waiting w) as [|dg rest]; cbn [fst snd head default dg_bytes empty_datagram length].
  { split; [lia|]. split; [cbn; lia|constructor]. }
  cbn [default id clip dg_bytes]. rewrite length_fmap, length_take. split; [lia|]. split; [lia|].
  apply Forall_fmap, Forall_true. intros b. unfold byte_ok. cbn. pose proof (Z.mod_pos_bound b 256). lia.
Qed.

Lemma storage_returns storage stack : (exists a, storage_to_socket_addr (H:=LE) storage stack = Ok a) \/
  storage_to_socket_addr (H:=LE) storage stack = Err UnknownAddressFamily.
Proof.
  unfold storage_to_socket_addr. destruct (_ =? AF_INET); [|destruct (_ =? AF_INET6); eauto].
  pose proof (be_bytes_length 4 (ne_value (H:=LE) (take 4 (drop 4 storage)))) as Hl.
  destruct (be_bytes 4 _) as [|b0 [|b1 [|b2 [|b3 [|]]]]]; try discriminate Hl. eauto.
Qed.

(** A read fails, or takes one of the datagrams that wait. *)
Lemma rx_read_bounded sock buffer (w : scripted) :
  (exists e x, rx_read (LC:=bounded_libc) (HE:=LE) sock (buffer, w) = (Err e, x)) \/
  (exists a buffer' w', rx_read (LC:=bounded_libc) (HE:=LE) sock (buffer, w) = (Ok a, (buffer', w')) /\
     (length (waiting w') < length (waiting w))%nat).
Proof.
  unfold rx_read, UdpSocket_receive_from, now, last_os_error. run_op. cbn [sys_recvmsg bounded_libc sys_clock kernel_libc scripted_libc msg_iov head default fst snd]. unfold id.
  destruct (waiting w) as [|dg rest] eqn:E; cbn [fst snd].
  { left. do 2 eexists. reflexivity. }
  rewrite (proj2 (Z.ltb_ge _ _)) by lia. run_op.
  destruct (storage_returns (dg_name (clip (Z.of_nat (length buffer)) dg)) (dg_stack (clip (Z.of_nat (length buffer)) dg))) as [[a Ea]|Ee].
  - right. rewrite Ea. run_op. do 3 eexists. split; [reflexivity|]. unfold waiting at 1. cbn [datagrams length]. rewrite length_take. lia.
  - left. rewrite Ee. run_op. eauto.
Qed.

Lemma rx_runs_dry sock n buffer (w : scripted) : (length (waiting w) <= n)%nat ->
  exists l x, reads (rx_read (LC:=bounded_libc) (HE:=LE) sock) (buffer, w) l x /\ (length l <= n)%nat.
Proof.
  revert buffer w. induction n as [|n IH]; intros buffer w Hw; destruct (rx_read_bounded sock buffer w) as [(e & x & E)|(a & b1 & w1 & E & Hl)];
    try (exists [], x; split; [by eapply reads_dry|cbn; lia]); [lia|].
  destruct (IH b1 w1 ltac:(lia)) as (l & x & Hr & Hn). exists (a :: l), x. split; [by eapply reads_more|cbn; lia].
Qed.

Lemma tx_runs_dry sock addresses n (w : scripted) : addresses <> [] -> (length (reports w) <= n)%nat ->
  exists l w', reads (retrieve_tx_timestamps (H:=bounded_libc) (H0:=LE) sock addresses) w l w' /\ (length l <= n)%nat.
Proof.
  intros Ha. destruct (init_vec_returns MAX_MSG MAX_MSG addresses Ha) as [hdrs Eh].
  revert w. induction n as [|n IH]; intros w Hw; destruct (reports w) as [|r rest] eqn:E; cbn [length] in Hw; try lia.
  1, 2: exists [], w; split; [|cbn; lia]; apply (reads_dry _ _ (Io (os_error (errno_ w)))); unfold retrieve_tx_timestamps, last_os_error;
    rewrite Eh; run_op; cbn [sys_recvmmsg bounded_libc]; rewrite E; reflexivity.
  set (w1 := {| script := rest; datagrams := datagrams w; errno_ := errno_ w; calls := calls w ++ [CRecvmmsg (udp_inner sock)] |}).
  destruct (IH w1) as (l & x & Hr & Hn). { unfold reports, w1. cbn [script]. rewrite length_take. lia. }
  exists ([] :: l), x. split; [|cbn; lia]. apply (reads_more _ _ _ w1); [|done]. unfold retrieve_tx_timestamps.
  rewrite Eh. run_op. cbn [sys_recvmmsg bounded_libc]. rewrite E. reflexivity.
Qed.

#[export] Instance bounded_dry : RunsDry scripted (LC:=bounded_libc) (HE:=LE) 10.
Proof.
  split.
  - intros sock buffer w _. destruct (rx_runs_dry sock 8 buffer w) as (l & x & Hr & Hl).
    { unfold waiting. rewrite length_take. lia. } exists l, x. split; [done|lia].
  - intros sock addresses w Ha. destruct (tx_runs_dry sock addresses 8 w Ha) as (l & x & Hr & Hl).
    { unfold reports. rewrite length_take. lia. } exists l, x. split; [done|lia].
Qed.
End Bounded.

Import Bounded.

Definition run_world : Shared scripted := Build_Shared (scripted_of [7; 0; 0; 0; 0; 0; 0; 9] [sample_datagram [1; 2; 3]]) [] false.
Definition run_bound (self : SessionSender) : Shared scripted :=
  (create_udp_socket (LC:=kernel_libc) (HE:=LE) self (with_sessions (Session_new (ss_source self) <$> targets self) run_world)).2.
Definition bounded_run (self : SessionSender) : Shared scripted :=
  (create_udp_socket (LC:=bounded_libc) (HE:=LE) self (with_sessions (Session_new (ss_source self) <$> targets self) run_world)).2.
Definition two_hosts : SessionSender :=
  SessionSender_new (Configuration_new [SockV4 (Ipv4Addr_new 10 0 0 2) 862; SockV4 (Ipv4Addr_new 10 0 0 3) 862] sample_addr 5 100 0 1).

Lemma bounded_clock : clock_sane scripted (H:=bounded_libc).
Proof. apply scripted_clock_sane. Qed.


Example sender_without_hosts_panics_witness :
  let c := Configuration_new [] sample_addr 5 100 0 1 in validate (fun _ => ""%string) c = Ok () /\
  exists l : LinuxEventLoop, execute (BP:=RELEASE) (HE:=LE) (LC:=kernel_libc) (EO:=kernel_epoll) id 1 (fun _ => (no_clock, no_clock))
    (SessionSender_new c) [events_turn [2]] (empty_loop run_world) = (Panic ArithmeticOverflow, l).
Proof.
  intros c. apply (sender_without_hosts_panics (H:=RELEASE) (H0:=LE) (H1:=kernel_libc) (H2:=kernel_epoll) (fun _ => ""%string) id 0 (fun _ => (no_clock, no_clock)) c run_world
    (run_bound (SessionSender_new c)) (UdpSocket_new 7) [] kernel_registers); [reflexivity|cbn; lia..|reflexivity|cbv; reflexivity].
Defined.

(** One datagram waits, too short for an answer; the second read fails. *)
Example rx_drains_witness :
  let s := bounded_run two_hosts in let x := rx_read (LC:=bounded_libc) (HE:=LE) (UdpSocket_new 7) (DEFAULT_BUFFER, sh_os s) in
  exists a sessions, x.1 = Ok a /\ store_all (H:=DEBUG) [a] (sh_sessions s) = Ok sessions /\
    fueled (rx_callback (BP:=DEBUG) (HE:=LE) (LC:=bounded_libc) 2) (UdpSocket_new 7) 0 s = (Ok 0, Build_Shared x.2.2 sessions false).
Proof.
  intros s x. assert (Ha : exists a, x.1 = Ok a) by (vm_compute; by eexists). destruct Ha as [a Ha].
  assert (Hg : good sample_addr (targets two_hosts) 0 s) by (split; [reflexivity|apply test_sessions_new]).
  destruct (rx_drains (H:=DEBUG) (H0:=LE) (H1:=bounded_libc) 2 sample_addr (targets two_hosts) 0 (UdpSocket_new 7) 0 s Hg) as [H1 _].
  destruct (H1 [a] x.2.1 x.2.2) as (sessions & E1 & _ & E2).
  - apply (reads_more _ _ a x.2); [rewrite <-Ha; apply injective_projections; reflexivity|]. eapply reads_dry. vm_compute. reflexivity.
  - cbn. lia.
  - exists a, sessions. done.
Defined.
