(* ===== verification/Reflector.v ===== *)
(** * [twamp/src/twamp_light_reflector]: [mod.rs] and [reflector.rs]

    The reflector: a socket on the event loop whose callback answers every test message, with
    one session per sender, and a timer that forgets the sessions that have gone quiet. *)
From stdpp Require Import base list option numbers strings gmap.
From Stdlib Require Import ZArith Lia.
From S2P Require Import Prelude Float64 Errors Time Net DataModel Messages Wire Session Sockets EventLoop Shared Results.
Local Open Scope Z_scope.

(** ** Configuration *)

Record Configuration := { rc_mode : string; rc_source : SocketAddr; ref_wait : Z }.

Definition Configuration_new (source : SocketAddr) (ref_wait : Z) : Configuration :=
  {| rc_mode := "LIGHT"%string; rc_source := source; ref_wait := ref_wait |}.
Definition Configuration_default : Configuration :=
  {| rc_mode := ""%string; rc_source := SockV4 (Ipv4Addr_new 127 0 0 1) 0; ref_wait := 0 |}.

(** [#[validate(contains = "LIGHT")]]; the text of the error is the [validator] crate's. *)
Definition validate (show : list string -> string) (c : Configuration) : result () :=
  match String.index 0 "LIGHT"%string (rc_mode c) with
  | Some _ => Ok ()
  | None => Err (ValidationError (show ["mode"%string]))
  end.

(** ** Receiving *)

(** [vec![0_u8; n]]: more than [isize::MAX] bytes are a panic. *)
Definition vec_zeroed {E} (n : Z) : outcome E (list Z) :=
  if n <=? i_max 64 then Ok (replicate (Z.to_nat n) 0) else Panic CapacityOverflow.

Section reflector.
Context `{BP : BuildProfile, HE : HostEndian} {W : Type} `{LC : Libc W}.
Context `{SB : BeBytes SenderMessage, RB : BeBytes ReflectedMessage}.
#[local] Abbreviation io := (op (Shared W) CommonError).

Definition reflected_message (seq : Z) (e : ErrorEstimate) (utc_now received : DateTime)
    (twamp_test_message : SenderMessage) : result ReflectedMessage :=
  t3 ← ntp_of_datetime utc_now;
  t2 ← ntp_of_datetime received;
  len ← u_arith 64 (Z.of_nat (length (padding twamp_test_message)) - MIN_UNAUTH_PADDING);
  pad ← vec_zeroed len;
  Ok {| reflector_sequence_number := seq; rm_timestamp := t3; rm_error_estimate := e; rm_mbz1 := 0;
        receive_timestamp := t2; sender_sequence_number := sequence_number twamp_test_message;
        sender_timestamp := timestamp_ twamp_test_message;
        sender_error_estimate := error_estimate twamp_test_message;
        rm_mbz2 := 0; sender_ttl := 255; rm_padding := pad |}.

(** Answering in a session: the message is built, sent and recorded. *)
Definition answer_in (inner_socket : TimestampedUdpSocket) (session : Session) (e : ErrorEstimate)
    (socket_address : SocketAddr) (timestamp : DateTime) (twamp_test_message : SenderMessage) : io Session :=
  utc_now ← now;
  reply ← lift (reflected_message (seq_number session) e utc_now timestamp twamp_test_message);
  _ ← UdpSocket_send_to inner_socket socket_address reply;
  lift (add_to_sent session reply).

Definition of_peer (rx_socket_address socket_address : SocketAddr) (session : Session) : bool :=
  bool_decide (Session.rx_socket_address session = rx_socket_address)
  && bool_decide (tx_socket_address session = socket_address).

(** The locks of the reflector's sessions are the blocking ones. *)
Definition rx_callback (rx_socket_address : SocketAddr) (inner_socket : TimestampedUdpSocket) (_token : Token) : io Z :=
  let buffer := replicate (Z.to_nat (2 ^ 16)) 0 in
  '(buffer, result, socket_address, timestamp) ← UdpSocket_receive_from inner_socket buffer;
  if Z.of_nat (length buffer) <? Z.max 0 result then lift (Panic IndexOutOfBounds) else
  '(twamp_test_message, _) ← lift (parse (T:=SenderMessage) (take (Z.to_nat (Z.max 0 result)) buffer));
  sessions ← gets sh_sessions;
  match list_find (fun s => of_peer rx_socket_address socket_address s = true) sessions with
  | Some (i, session) =>
      session' ← answer_in inner_socket session (ErrorEstimate_new 1 0 1 1) socket_address timestamp twamp_test_message;
      _ ← modify (with_sessions (<[i := session']> sessions));
      mret result
  | None =>
      session' ← answer_in inner_socket (Session_new rx_socket_address socket_address)
                   (ErrorEstimate_new 0 0 0 1) socket_address timestamp twamp_test_message;
      _ ← modify (with_sessions (sessions ++ [session']));
      mret result
  end.

(** ** Forgetting *)

Definition keep_session (ref_wait : Z) (session : Session) : io bool :=
  match get_latest_result session with
  | Some r =>
      match packets (DataModel.session r) with
      | Some packet_results =>
          n ← now;
          match last packet_results ≫= t2 with
          | Some last_sent =>
              diff ← lift (DateTime_sub n last_sent);
              mret (negb (Duration_gtb (duration diff) (Duration_from_secs ref_wait)))
          | None => mret true
          end
      | None => mret true
      end
  | None => mret true
  end.

(** [Vec::retain] *)
Fixpoint retain (keep : Session -> io bool) (sessions : list Session) : io (list Session) :=
  match sessions with
  | [] => mret []
  | session :: sessions' =>
      k ← keep session; rest ← retain keep sessions';
      mret (if k : bool then session :: rest else rest)
  end.

Definition cleanup_callback (ref_wait : Z) (_inner_socket : TimestampedUdpSocket) (_token : Token) : io Z :=
  sessions ← gets sh_sessions;
  sessions' ← retain (keep_session ref_wait) sessions;
  _ ← modify (with_sessions sessions');
  mret 0.
End reflector.

(** ** Set-up *)

Section execute.
Context `{BP : BuildProfile, HE : HostEndian} {W : Type} `{LC : Libc W, EO : EpollOs W, MU : MioUdp W}.
Context `{SB : BeBytes SenderMessage, RB : BeBytes ReflectedMessage}.
#[local] Abbreviation EventLoop := (LinuxEventLoop (W:=Shared W) (T:=TimestampedUdpSocket)).
#[local] Abbreviation loop := (op EventLoop CommonError).

Definition create_socket (self : Configuration) : op (Shared W) CommonError TimestampedUdpSocket :=
  r ← effect (on_os (mio_udp_bind (rc_source self)));
  match r with
  | inl e => fail (from_io e)
  | inr fd =>
      let my_socket := UdpSocket_new fd in
      or_drop (fun w => (sys_close fd w).2)
        (_ ← set_fcntl_options fd;
         _ ← set_timestamping_options fd;
         _ ← set_socket_options fd SOL_IP IP_RECVERR (Some 1);
         _ ← set_socket_options fd IPPROTO_IP IP_RECVTOS (Some 1);
         mret my_socket)
  end.

Definition cleanup_stale_sessions (timer_spec : Itimerspec) (rx_token : Token) (ref_wait : Z) : loop Token :=
  register_timer timer_spec rx_token (as_callback (cleanup_callback ref_wait)).

Definition create_session (self : Configuration) (source_ip_address : SocketAddr) (ref_wait : Z) : loop () :=
  socket ← sys_op (create_socket self);
  rx_token ← register_event_source socket (as_callback (rx_callback source_ip_address));
  let timer_spec := {| it_interval := Duration_from_secs 1; it_value := Duration_from_secs 1 |} in
  _tx_token ← cleanup_stale_sessions timer_spec rx_token ref_wait;
  mret ().

(** [execute] up to [run]. *)
Definition execute_setup (self : Configuration) : loop () :=
  _ ← modify (fun l => with_os l (with_sessions [] (os l)));
  _ ← new_loop id;
  create_session self (rc_source self) (ref_wait self).

(** [None]: the loop still runs after these turns. *)
Definition execute (self : Configuration) (turns : list turn) : loop (option TwampResult) :=
  _ ← execute_setup self;
  finished ← run turns;
  mret (if finished : bool then Some {| session_results := []; tr_error := None |} else None).
End execute.

(** ** Lemmas *)

Section facts.
Context `{BP : BuildProfile, HE : HostEndian} {W : Type} `{LC : Libc W}.
Context `{SB : BeBytes SenderMessage, RB : BeBytes ReflectedMessage}.
Implicit Types s : Shared W.

(** The answer to a message [m] received at [t2] and answered at [t3]. *)
Definition answers (seq : Z) (t2 t3 : DateTime) (m : SenderMessage) (reply : ReflectedMessage) : Prop :=
  reflector_sequence_number reply = seq /\
  ntp_of_datetime (E:=CommonError) t3 = Ok (rm_timestamp reply) /\
  ntp_of_datetime (E:=CommonError) t2 = Ok (receive_timestamp reply) /\
  sender_sequence_number reply = sequence_number m /\ sender_timestamp reply = timestamp_ m /\
  sender_error_estimate reply = error_estimate m /\ sender_ttl reply = 255 /\
  Z.of_nat (length (rm_padding reply)) = Z.of_nat (length (padding m)) - MIN_UNAUTH_PADDING.

Definition padded (m : SenderMessage) : Prop := MIN_UNAUTH_PADDING <= Z.of_nat (length (padding m)) < 2 ^ 63.

(** The answer with its converted times. *)
Definition reply_with (seq : Z) (e : ErrorEstimate) (n3 n2 : NtpTimestamp) (m : SenderMessage) : ReflectedMessage :=
  {| reflector_sequence_number := seq; rm_timestamp := n3; rm_error_estimate := e; rm_mbz1 := 0; receive_timestamp := n2;
     sender_sequence_number := sequence_number m; sender_timestamp := timestamp_ m; sender_error_estimate := error_estimate m;
     rm_mbz2 := 0; sender_ttl := 255; rm_padding := replicate (length (padding m) - Z.to_nat MIN_UNAUTH_PADDING) 0 |}.

Lemma reflected_message_with seq e t3 t2 m : time_before_2036 t3 -> time_before_2036 t2 -> padded m ->
  exists n3 n2, reflected_message seq e t3 t2 m = Ok (reply_with seq e n3 n2 m) /\ ntp_wf n3 /\ ntp_wf n2 /\
    ntp_of_datetime (E:=CommonError) t3 = Ok n3 /\ ntp_of_datetime (E:=CommonError) t2 = Ok n2.
Proof.
  intros [H3 H3'] [H2 H2'] [Hp Hp']. unfold reflected_message, vec_zeroed, reply_with, MIN_UNAUTH_PADDING in *.
  destruct (ntp_of_datetime_ok (E:=CommonError) t3 H3 H3') as (n3 & E3 & Hn3).
  destruct (ntp_of_datetime_ok (E:=CommonError) t2 H2 H2') as (n2 & E2 & Hn2). exists n3, n2. rewrite E3, E2.
  cbn [mbind outcome_bind]. rewrite u_arith_in by (unfold in_u; lia). cbn [mbind outcome_bind].
  rewrite (proj2 (Z.leb_le _ _)) by (unfold i_max; lia). cbn [mbind outcome_bind].
  rewrite Z2Nat.inj_sub, Nat2Z.id by lia. done.
Qed.

Lemma reflected_message_ok seq e t3 t2 m : time_before_2036 t3 -> time_before_2036 t2 ->
  ntp_wf (timestamp_ m) -> padded m ->
  exists reply, reflected_message seq e t3 t2 m = Ok reply /\ answers seq t2 t3 m reply /\ reflected_wf reply.
Proof.
  intros H3 H2 Hm Hp. destruct (reflected_message_with seq e t3 t2 m H3 H2 Hp) as (n3 & n2 & E & Hn3 & Hn2 & E3 & E2).
  eexists. split; [exact E|]. split; [|done].
  unfold answers, reply_with, padded, MIN_UNAUTH_PADDING in *. cbn. rewrite length_replicate. repeat (split; [done|]). lia.
Qed.

(** A padding below the minimum is an underflow in either profile. *)
Lemma reflected_message_short seq e t3 t2 m : time_before_2036 t3 -> time_before_2036 t2 ->
  Z.of_nat (length (padding m)) < MIN_UNAUTH_PADDING ->
  reflected_message seq e t3 t2 m = Panic (if overflow_checks then ArithmeticOverflow else CapacityOverflow).
Proof.
  intros [H3 H3'] [H2 H2'] Hp. unfold reflected_message, vec_zeroed, MIN_UNAUTH_PADDING in *.
  destruct (ntp_of_datetime_ok (E:=CommonError) t3 H3 H3') as (n3 & -> & _).
  destruct (ntp_of_datetime_ok (E:=CommonError) t2 H2 H2') as (n2 & -> & _).
  cbn [mbind outcome_bind]. unfold u_arith. rewrite decide_False by (unfold in_u; lia).
  destruct overflow_checks; [done|]. cbn [mbind outcome_bind].
  assert (as_u 64 (Z.of_nat (length (padding m)) - 27) = 2 ^ 64 + (Z.of_nat (length (padding m)) - 27)) as ->.
  { unfold as_u. symmetry. apply (Z.mod_unique _ _ (-1)); [left|]; lia. }
  by rewrite (proj2 (Z.leb_gt _ _)) by (unfold i_max; lia).
Qed.

(** Recording an answer in the reflector's session. *)
Lemma record_answer (session : Session) reply : reflected_wf reply -> exists session' r,
  add_to_sent session reply = Ok session' /\
  rx_socket_address session' = rx_socket_address session /\ tx_socket_address session' = tx_socket_address session /\
  seq_number session' = as_u 32 (seq_number session + 1) /\ results session' = results session ++ [r] /\ packet_u32 r /\
  reflector_seq r = Some (reflector_sequence_number reply).
Proof.
  intros Hr. destruct (reflected_results reply Hr) as (r & E & _ & Hq & _ & _ & Hu). unfold add_to_sent. rewrite E.
  by eexists _, r.
Qed.

(** The clock is read for the reply and again by [send_to]; the reply is sent once. *)
Lemma answer_in_spec sock session e src t2 m s : clock_sane W -> time_before_2036 t2 ->
  ntp_wf (timestamp_ m) -> padded m ->
  let t3 := from_timespec (sys_clock (sh_os s)).1 in let w0 := (sys_clock (sys_clock (sh_os s)).2).2 in
  exists reply session' r, let w := (sys_sendmsg (udp_inner sock) (send_header src reply) (to_be_bytes reply) w0).2 in
    answer_in sock session e src t2 m s = (Ok session', with_sh_os s w) /\
    answers (seq_number session) t2 t3 m reply /\ add_to_sent session reply = Ok session' /\
    results session' = results session ++ [r] /\ seq_number session' = as_u 32 (seq_number session + 1) /\
    tx_socket_address session' = tx_socket_address session /\
    rx_socket_address session' = rx_socket_address session /\ packet_u32 r /\ reflector_seq r = Some (seq_number session) /\
    rm_error_estimate reply = e.
Proof.
  intros Hc Ht Hm Hp t3 w0. unfold answer_in. rewrite (bind_Ok _ _ _ _ _ (now_shared s)). fold t3.
  set (s1 := with_sh_os s _).
  destruct (reflected_message_with (seq_number session) e t3 t2 m) as (n3 & n2 & E & Hn3 & Hn2 & E3 & E2);
    [by apply from_timespec_sane|done|done|]. rewrite E. run_op. set (reply := reply_with _ _ _ _ _).
  destruct (send_to_shared sock src reply s1) as (n & w & Es & Ew). rewrite (bind_Ok _ _ _ _ _ Es).
  assert (Ha : answers (seq_number session) t2 t3 m reply).
  { unfold answers, reply, reply_with, padded, MIN_UNAUTH_PADDING in *. cbn. rewrite length_replicate. repeat (split; [done|]). lia. }
  destruct (record_answer session reply) as (session' & r & Ea & Hrx & Htx & Hseq & Hres & Hu & Hq); [done|].
  unfold lift. rewrite Ea. exists reply, session', r. cbv zeta. unfold w0. change (sys_clock (sh_os s)).2 with (sh_os s1). by rewrite Ew.
Qed.
End facts.

(** ** Properties *)

Definition rx_buffer : list Z := replicate (Z.to_nat (2 ^ 16)) 0.

(** What the callback received: [n] bytes from [src] at [t], in the buffer [buf]. *)
Definition received `{HostEndian} {W} `{Libc W} sock (s s1 : Shared W) buf n src t : Prop :=
  UdpSocket_receive_from sock rx_buffer s = (Ok (buf, n, src, t), s1) /\ 0 <= n <= 2 ^ 16 /\ length buf = length rx_buffer.

Lemma rx_callback_received `{BuildProfile, HostEndian} {W} `{Libc W, BeBytes SenderMessage, BeBytes ReflectedMessage}
    addr sock token (s s1 : Shared W) buf n src t : received sock s s1 buf n src t ->
  rx_callback addr sock token s =
    (r ← lift (parse (T:=SenderMessage) (take (Z.to_nat n) buf));
     sessions ← gets sh_sessions;
     match list_find (fun s => of_peer addr src s = true) sessions with
     | Some (i, session) =>
         session' ← answer_in sock session (ErrorEstimate_new 1 0 1 1) src t r.1;
         _ ← modify (with_sessions (<[i := session']> sessions)); mret n
     | None =>
         session' ← answer_in sock (Session_new addr src) (ErrorEstimate_new 0 0 0 1) src t r.1;
         _ ← modify (with_sessions (sessions ++ [session'])); mret n
     end) s1.
Proof.
  intros (E & Hn & Hl). unfold rx_callback. cbv zeta. fold rx_buffer. rewrite (bind_Ok _ _ _ _ _ E).
  rewrite Hl. unfold rx_buffer at 1. rewrite length_replicate, Z2Nat.id by lia.
  rewrite (proj2 (Z.ltb_ge _ _)) by lia. rewrite Z.max_r by lia.
  unfold mbind, op_bind, lift. by destruct (parse _) as [[m k]| |].
Qed.


(** C38: a test message with less than 27 bytes of padding panics the reflector, in debug and
    in release builds: the length of the reply's padding underflows, which is caught in a
    debug build and asks a release build for more memory than there can be. *)
Theorem reflector_short_padding `{BuildProfile, HostEndian} {W} `{Libc W, BeBytes SenderMessage, BeBytes ReflectedMessage}
    addr sock token (s s1 : Shared W) buf n src t2 m k :
  clock_sane W -> received sock s s1 buf n src t2 -> time_before_2036 t2 ->
  parse (take (Z.to_nat n) buf) = Ok (m, k) -> Z.of_nat (length (padding m)) < MIN_UNAUTH_PADDING ->
  (rx_callback addr sock token s).1 = Panic (if overflow_checks then ArithmeticOverflow else CapacityOverflow).
Proof.
  intros Hc Hrx Ht Hm Hp. rewrite (rx_callback_received _ _ _ _ _ _ _ _ _ Hrx), Hm. run_op. cbn [fst].
  assert (forall x e, exists s2, answer_in sock x e src t2 m s1 = (Panic (if overflow_checks then ArithmeticOverflow else CapacityOverflow), s2)) as Ha.
  { intros x e. unfold answer_in. rewrite (bind_Ok _ _ _ _ _ (now_shared s1)).
    rewrite reflected_message_short; [|by apply from_timespec_sane|done|done].
    by exists (with_sh_os s1 (sys_clock (sh_os s1)).2). }
  destruct (list_find _ _) as [[i x]|]; unfold mbind at 1, op_bind at 1;
    match goal with |- context [answer_in sock ?x ?e _ _ _] => destruct (Ha x e) as (s2 & ->) end; done.
Qed.

(** C39: a datagram the reflector cannot decode (any of fewer than fourteen bytes, with the
    big-endian codec) ends the service: the callback has changed nothing but received it, its
    error makes the loop forget the reflector's only socket, deregister its descriptor and
    close it, and nothing registers it again. *)
Theorem reflector_bad_datagram `{BuildProfile, HostEndian} {W} `{Libc W, EpollOs W, BeBytes SenderMessage, BeBytes ReflectedMessage}
    addr (l : LinuxEventLoop (W:=Shared W)) t sock s1 buf n src t2 e :
  sources l !! t = Some (sock, as_callback (rx_callback addr)) ->
  received sock (os l) s1 buf n src t2 -> parse (T:=SenderMessage) (take (Z.to_nat n) buf) = Err e ->
  handle_event t l = (Ok NextEvent, with_os (with_sources (delete t (sources l)) l)
    (sys_close (udp_inner sock) (poll_deregister (udp_inner sock) s1).2).2).
Proof.
  intros Hs Hrx He. rewrite (source_event_fails l t sock (as_callback (rx_callback addr)) sock s1 e Hs); [reflexivity|].
  unfold as_callback. rewrite (rx_callback_received _ _ _ _ _ _ _ _ _ Hrx), He. done.
Qed.

(** A session whose last packet arrived longer ago than the limit, in either direction of time. *)
Definition stale (ref_wait : Z) (session : Session) (t : DateTime) : Prop :=
  exists p d, last (results session) = Some p /\ t2 p = Some d /\
    ref_wait * NANOS_PER_SEC < Z.abs (datetime_nanos t - datetime_nanos d).

#[export] Instance stale_dec ref_wait session t : Decision (stale ref_wait session t).
Proof.
  unfold stale. destruct (last (results session)) as [p|]; [|right; intros (p & d & E & _); discriminate].
  destruct (t2 p) as [d|] eqn:Ed; [|right; intros (p' & d & E & E' & _); congruence].
  destruct (decide (ref_wait * NANOS_PER_SEC < Z.abs (datetime_nanos t - datetime_nanos d))) as [Hd|Hd]; [left; eauto|right].
  intros (p' & d' & E & E' & H). by simplify_eq.
Defined.

(** The clock is read once for each session with a packet, in order: the reading each session
    is compared with (a session without a packet is never stale), and the system afterwards. *)
Fixpoint readings {W} `{Libc W} (sessions : list Session) (w : W) : list DateTime * W :=
  match sessions with
  | [] => ([], w)
  | session :: sessions' =>
      let '(reading, w1) := sys_clock w in
      let '(rest, w2) := readings sessions' (match results session with [] => w | _ => w1 end) in
      (from_timespec reading :: rest, w2)
  end.

Lemma keep_session_spec `{BuildProfile} {W} `{Libc W} ref_wait session (s : Shared W) :
  clock_sane W -> in_u 64 ref_wait -> Forall packet_u32 (results session) ->
  let '(reading, w1) := sys_clock (sh_os s) in
  keep_session ref_wait session s = (Ok (negb (bool_decide (stale ref_wait session (from_timespec reading)))),
    match results session with [] => s | _ => with_sh_os s w1 end).
Proof.
  intros Hc Hw Hp. pose proof (from_timespec_sane Hc (sh_os s)) as Ht. destruct (sys_clock (sh_os s)) as [reading w1] eqn:Ec.
  cbn [fst] in Ht. set (t := from_timespec reading) in *. unfold keep_session, get_latest_result.
  destruct (last (results session)) as [p|] eqn:El; cbn [mbind option_bind].
  2:{ apply last_None in El. rewrite El, bool_decide_eq_false_2; [done|]. intros (p & d & E & _). by rewrite El in E. }
  assert (Hne : match results session with [] => s | _ => with_sh_os s w1 end = with_sh_os s w1) by (by destruct (results session)).
  rewrite Hne. clear Hne. cbn [packets DataModel.session last]. rewrite (bind_Ok _ _ _ _ _ (now_shared s)). rewrite Ec. cbn [fst snd mbind option_bind].
  assert (Hpp : packet_u32 p) by (eapply Forall_forall; [exact Hp|]; by apply last_Some_elem_of).
  destruct (t2 p) as [d|] eqn:Ed.
  2:{ run_op. rewrite bool_decide_eq_false_2; [done|]. intros (p' & d & E1 & E2 & _). by simplify_eq. }
  assert (Hd : datetime_u32 d) by (destruct Hpp as (_ & H2 & _); by rewrite Ed in H2).
  assert (Ht' : datetime_u32 t).
  { destruct Ht as [[? ?] _]. split; [done|]. unfold in_u, NANOS_PER_SEC in *. lia. }
  fold t. destruct (DateTime_sub_spec t d Ht' Hd) as (i & -> & Hwf & Hi & _). run_op. do 3 f_equal.
  apply Bool.eq_bool_prop_intro. rewrite !Is_true_true.
  rewrite Duration_gtb_spec, Hi, bool_decide_eq_true by (done || (split; [done|unfold NANOS_PER_SEC; cbn; lia])).
  unfold Duration_as_nanos, Duration_from_secs. cbn [as_secs subsec_nanos]. rewrite Z.add_0_r.
  split; [intros ?; by exists p, d|]. intros (p' & d' & E1 & E2 & ?). by simplify_eq.
Qed.

(** The sessions that are not stale at their reading. *)
Definition fresh (ref_wait : Z) (sessions : list Session) (times : list DateTime) : list Session :=
  fst <$> filter (fun p => ~ stale ref_wait p.1 p.2) (zip sessions times).

Lemma retain_spec `{BuildProfile} {W} `{Libc W} ref_wait ss (s : Shared W) :
  clock_sane W -> in_u 64 ref_wait -> Forall (fun x => Forall packet_u32 (results x)) ss ->
  let '(times, w) := readings ss (sh_os s) in retain (keep_session ref_wait) ss s = (Ok (fresh ref_wait ss times), with_sh_os s w).
Proof.
  intros Hc Hw. revert s. induction ss as [|x ss IH]; intros s Hss; [by destruct s|].
  apply Forall_cons in Hss as [Hx Hss]. cbn [retain readings].
  pose proof (keep_session_spec ref_wait x s Hc Hw Hx) as Ek. destruct (sys_clock (sh_os s)) as [reading w1].
  rewrite (bind_Ok _ _ _ _ _ Ek). set (s1 := match results x with [] => s | _ => _ end).
  specialize (IH s1 Hss). replace (match results x with [] => sh_os s | _ => w1 end) with (sh_os s1) by (unfold s1; by destruct (results x)).
  destruct (readings ss (sh_os s1)) as [times w]. rewrite (bind_Ok _ _ _ _ _ IH). run_op. unfold fresh. cbn [zip zip_with].
  rewrite filter_cons. assert (Hs : with_sh_os s1 w = with_sh_os s w) by (unfold s1; by destruct (results x)). rewrite Hs.
  cbn [fst snd]. case_bool_decide as Hst; [rewrite decide_False by tauto|rewrite decide_True by done]; done.
Qed.

(** C30: the clean-up keeps exactly the sessions that are not stale, in their order: it reads
    the clock once for each session with a packet and compares that reading with the time at
    which the last packet answered in it had arrived; a session is dropped when the two are
    more than [ref_wait] seconds apart.  Nothing else changes, and it does not fail. *)
Theorem cleanup_keeps_fresh `{BuildProfile} {W} `{Libc W} ref_wait sock token (s : Shared W) :
  clock_sane W -> in_u 64 ref_wait -> Forall (fun x => Forall packet_u32 (results x)) (sh_sessions s) ->
  let '(times, w) := readings (sh_sessions s) (sh_os s) in
  cleanup_callback ref_wait sock token s =
    (Ok 0, Build_Shared w (fst <$> filter (fun p => ~ stale ref_wait p.1 p.2) (zip (sh_sessions s) times)) (sh_busy s)).
Proof.
  intros Hc Hw Hs. unfold cleanup_callback. run_op. pose proof (retain_spec ref_wait (sh_sessions s) s Hc Hw Hs) as E.
  destruct (readings _ _) as [times w]. rewrite (bind_Ok _ _ _ _ _ E). by run_op.
Qed.

Lemma ntp_of_datetime_back `{BuildProfile} t n : time_before_2036 t -> nanos t <= 999999761 ->
  ntp_of_datetime (E:=CommonError) t = Ok n -> datetime_of_ntp (E:=CommonError) n = Ok t.
Proof.
  intros [Ht Ht'] Hn En. pose proof (ntp_roundtrip_early t Ht Hn ltac:(lia)) as Hrt. by rewrite En in Hrt.
Qed.

(** A probe measures what happened: when the sender's packet [k] is received at [t2],
    answered at [t3] and the answer is received at [t4], the sender's packet [k] ends up
    with the reflector's number and exactly these three times (up to the last 238
    nanoseconds of a second), its own number and send time, and no other packet changes. *)
Theorem probe_exchange `{BuildProfile} s p k seq e a2 a3 a4 m :
  session_inv s -> Z.of_nat (length (results s)) <= 2 ^ 32 -> results s !! k = Some p ->
  sequence_number m = Z.of_nat k -> ntp_wf (timestamp_ m) -> padded m ->
  time_before_2036 a2 -> nanos a2 <= 999999761 -> time_before_2036 a3 -> nanos a3 <= 999999761 ->
  exists reply s', reflected_message seq e a3 a2 m = Ok reply /\ add_to_received s reply a4 = Ok s' /\
    results s' = <[k := {| sender_seq := sender_seq p; reflector_seq := Some seq; t1 := t1 p;
                           t2 := Some a2; t3 := Some a3; t4 := Some a4 |}]> (results s).
Proof.
  intros Hs Hl Hk Hseq Hm Hp H2 N2 H3 N3.
  destruct (reflected_message_ok seq e a3 a2 m H3 H2 Hm Hp) as (reply & E & (A1 & A2 & A3 & A4 & _) & Hr).
  destruct (add_to_received_update s reply a4 Hs Hr Hl) as (r & s' & Er & Es & _ & _ & Hres); [lia|].
  exists reply, s'. split; [done|]. split; [done|].
  rewrite A4, Hseq, Nat2Z.id, Hk in Hres. rewrite Hres. f_equal. unfold receive_into.
  revert Er. unfold packet_results, ReflectedMessage_Message, unwrap_datetime, try_datetime.
  rewrite (ntp_of_datetime_back a2 (receive_timestamp reply)), (ntp_of_datetime_back a3 (rm_timestamp reply)) by done.
  destruct (datetime_of_ntp_ok (E:=CommonError) (sender_timestamp reply)) as (d & -> & _); [apply Hr|].
  cbn [mbind outcome_bind]. intros [= <-]. cbn. by rewrite A1.
Qed.

(** ** Concrete runs *)

Import Scripted BigEndian ScriptedLoop.

Definition sample_peer : SocketAddr := SockV4 (Ipv4Addr_new 10 0 0 2) 862.
Definition reflector_world (bytes : list Z) : Shared scripted :=
  Build_Shared (scripted_of [Z.of_nat (length bytes); 41] [sample_datagram bytes]) [] false.
Definition after_receive (bytes : list Z) : Shared scripted :=
  (UdpSocket_receive_from (H0 := LE) (UdpSocket_new 3) rx_buffer (reflector_world bytes)).2.
Definition sample_time : DateTime := {| sec := 1700000001; nanos := 9 |}.
Definition t_of (s : Z) : DateTime := {| sec := 1700000000 + s; nanos := 7 |}.
Definition sample_short : SenderMessage :=
  SenderMessage_new 7 {| seconds := 3908988800; fraction := 17 |} (ErrorEstimate_new 1 0 1 1) (replicate 26 0).

Lemma write_buffer_length data : (length data <= 100)%nat -> length (write_buffer rx_buffer data) = length rx_buffer.
Proof. intros Hd. unfold write_buffer, rx_buffer. rewrite length_app, length_drop, length_replicate. lia. Qed.

Ltac receive_sample := split; [cbv -[rx_buffer write_buffer]; reflexivity|split; [cbn; lia|apply write_buffer_length; cbn; lia]].
Lemma received_request : received (H := LE) (UdpSocket_new 3) (reflector_world (to_be_bytes sample_sender))
  (after_receive (to_be_bytes sample_sender)) (write_buffer rx_buffer (to_be_bytes sample_sender)) 41 sample_peer sample_time.
Proof. receive_sample. Qed.
Lemma received_short : received (H := LE) (UdpSocket_new 3) (reflector_world (to_be_bytes sample_short))
  (after_receive (to_be_bytes sample_short)) (write_buffer rx_buffer (to_be_bytes sample_short)) 40 sample_peer sample_time.
Proof. receive_sample. Qed.
Lemma received_junk : received (H := LE) (UdpSocket_new 3) (reflector_world [1; 2; 3])
  (after_receive [1; 2; 3]) (write_buffer rx_buffer [1; 2; 3]) 3 sample_peer sample_time.
Proof. receive_sample. Qed.
Lemma sample_time_wf : time_before_2036 sample_time.
Proof. unfold time_before_2036, datetime_wf, in_u, sample_time, NANOS_PER_SEC, NTP_EPOCH. cbn. lia. Qed.


Example reflector_short_padding_witness :
  (rx_callback (BP:=RELEASE) (HE:=LE) sample_addr (UdpSocket_new 3) 0 (reflector_world (to_be_bytes sample_short))).1 =
    Panic CapacityOverflow.
Proof.
  apply (reflector_short_padding (H:=RELEASE) (H0:=LE) sample_addr (UdpSocket_new 3) 0 _ _ _ _ _ _ sample_short 40
    scripted_clock_sane received_short sample_time_wf); [vm_compute; reflexivity|].
  unfold MIN_UNAUTH_PADDING. cbn. lia.
Defined.

Definition reflector_loop (bytes : list Z) : LinuxEventLoop :=
  with_sources {[ 0 := (UdpSocket_new 3, as_callback (rx_callback (BP:=DEBUG) (HE:=LE) sample_addr)) ]}
    (empty_loop (reflector_world bytes)).

Example reflector_bad_datagram_witness :
  handle_event 0 (reflector_loop [1; 2; 3]) = (Ok NextEvent, with_os (with_sources ∅ (reflector_loop [1; 2; 3]))
    (sys_close 3 (poll_deregister 3 (after_receive [1; 2; 3])).2).2).
Proof.
  refine (eq_trans (reflector_bad_datagram (H:=DEBUG) (H0:=LE) sample_addr (reflector_loop [1; 2; 3]) 0 (UdpSocket_new 3)
    (after_receive [1; 2; 3]) _ 3 _ _ (Generic "Not enough bytes") ltac:(reflexivity) received_junk _) _);
    [vm_compute; reflexivity|reflexivity].
Defined.

(** The scripted clock stands at 1700000000: the second session's last packet arrived 1000
    seconds after that. *)
Definition cleanup_sessions : list Session := [session_of [answered 0 0]; session_of [answered 1000 0]; session_of []].

Example cleanup_keeps_fresh_witness :
  cleanup_callback (BP:=DEBUG) 900 (UdpSocket_new 3) 0 (Build_Shared (scripted_of [] []) cleanup_sessions false) =
  (Ok 0, Build_Shared (scripted_of [] []) [session_of [answered 0 0]; session_of []] false).
Proof.
  refine (eq_trans (cleanup_keeps_fresh (H:=DEBUG) 900 (UdpSocket_new 3) 0
    (Build_Shared (scripted_of [] []) cleanup_sessions false) scripted_clock_sane _ _) _).
  - unfold in_u. lia.
  - repeat constructor; cbn; lia.
  - vm_compute. reflexivity.
Defined.

Example probe_exchange_witness :
  let s := session_of [sent_packet 0; sent_packet 1] in
  exists reply s', reflected_message (BP:=DEBUG) 5 (ErrorEstimate_new 1 0 1 1) (t_of 3) (t_of 2)
      (SenderMessage_new 1 {| seconds := 3908988801; fraction := 0 |} (ErrorEstimate_new 1 0 1 1) (replicate 27 0)) = Ok reply /\
    @add_to_received _ (@ReflectedMessage_Message DEBUG) s reply (t_of 4) = Ok s' /\
    results s' = [sent_packet 0; {| sender_seq := 1; reflector_seq := Some 5; t1 := {| sec := 1700000001; nanos := 0 |};
                                    t2 := Some (t_of 2); t3 := Some (t_of 3); t4 := Some (t_of 4) |}].
Proof.
  apply (probe_exchange (H:=DEBUG) (session_of [sent_packet 0; sent_packet 1]) (sent_packet 1) 1 5
    (ErrorEstimate_new 1 0 1 1) (t_of 2) (t_of 3) (t_of 4)
    (SenderMessage_new 1 {| seconds := 3908988801; fraction := 0 |} (ErrorEstimate_new 1 0 1 1) (replicate 27 0)));
    first [ exact (session_of_inv 2 ltac:(lia)) | reflexivity | idtac ];
    unfold ntp_wf, padded, MIN_UNAUTH_PADDING, time_before_2036, datetime_wf, t_of, NANOS_PER_SEC, NTP_EPOCH, in_u; cbn; lia.
Defined.
