(* ===== verification/ReflectorLoop.v ===== *)
(** * The light reflector on its event loop

    The service of [twamp_light_reflector/reflector.rs]: as long as what arrives are test
    messages, the socket's callback and the clean-up timer keep the sessions in order, every
    message is answered once, and the loop goes on. *)
From stdpp Require Import base list option numbers strings gmap.
From Stdlib Require Import ZArith Lia.
From S2P Require Import Prelude Float64 Errors Time Net DataModel Messages Wire Session Sockets EventLoop Steady Shared Results Reflector.
Local Open Scope Z_scope.

(** ** What arrives *)

(** Every datagram received into a buffer of 64 kB is a test message with enough padding, from
    an address that can be decoded, with the kernel's receive timestamp. *)
Class DeliversProbes (W : Type) `{HostEndian, Libc W, BeBytes SenderMessage} : Prop :=
  delivers : forall fd hdr flags (w : W), msg_iov hdr = [2 ^ 16] -> exists dg w' src t m k,
    sys_recvmsg fd hdr flags w = ((Z.of_nat (length (dg_bytes dg)), dg), w') /\ Z.of_nat (length (dg_bytes dg)) <= 2 ^ 16 /\
    storage_to_socket_addr (dg_name dg) (dg_stack dg) = Ok src /\
    retrieve_data_from_header (dg_cmsgs dg) = Ok t /\ time_before_2036 t /\
    parse (T:=SenderMessage) (dg_bytes dg) = Ok (m, k) /\ ntp_wf (timestamp_ m) /\ padded m.

Lemma take_write_buffer buffer data : take (length data) (write_buffer buffer data) = data.
Proof. unfold write_buffer. by rewrite take_app_length. Qed.

Lemma receive_probe `{HostEndian} {W} `{Libc W, BeBytes SenderMessage, !DeliversProbes W} sock (s : Shared W) :
  exists buf n src t w m k, received sock s (with_sh_os s w) buf n src t /\ time_before_2036 t /\
    parse (T:=SenderMessage) (take (Z.to_nat n) buf) = Ok (m, k) /\ ntp_wf (timestamp_ m) /\ padded m.
Proof.
  unfold received, UdpSocket_receive_from. rewrite (bind_Ok _ _ _ _ _ (now_shared s)).
  assert (Hb : Z.of_nat (length rx_buffer) = 2 ^ 16) by (unfold rx_buffer; rewrite length_replicate; lia). rewrite Hb.
  pose proof (length_write_buffer rx_buffer) as Hl.
  set (hdr := {| msg_name := _; msg_namelen := _; msg_iov := _; msg_iovlen := _; msg_controllen := _ |}).
  destruct (delivers (udp_inner sock) hdr 0 (sys_clock (sh_os s)).2 eq_refl) as (dg & w & src & t & m & k & E & Hn & Hsrc & Ht & Hy & Hm & Hp).
  set (s1 := with_sh_os s _).
  assert (Es : sys_recvmsg (W:=Shared W) (udp_inner sock) hdr 0 s1 = ((Z.of_nat (length (dg_bytes dg)), dg), with_sh_os s w)).
  { cbn. unfold on_part. cbn [sh_os s1 with_sh_os]. by rewrite E. }
  run_op. rewrite Es. cbn [fst snd]. rewrite (proj2 (Z.ltb_ge _ _)) by lia.
  rewrite Hsrc, Ht. run_op. exists (write_buffer rx_buffer (dg_bytes dg)), (Z.of_nat (length (dg_bytes dg))), src, t, w, m, k.
  rewrite Nat2Z.id, take_write_buffer. specialize (Hl (dg_bytes dg) ltac:(lia)). clear Hb. destruct Hp. split_and!; try assumption; [reflexivity|lia].
Qed.

(** ** The sessions of a service *)

(** A session of the reflector at [source]: its answers are numbered from 0 and have times in range. *)
Record served (source : SocketAddr) (x : Session) : Prop := {
  sv_source : rx_socket_address x = source;
  sv_packets : Forall packet_u32 (results x);
  sv_next : seq_number x = as_u 32 (Z.of_nat (length (results x)));
  sv_numbers : reflector_seq <$> results x = (fun i => Some (as_u 32 (Z.of_nat i))) <$> seq 0 (length (results x))
}.

(** How many answers are recorded. *)
Definition answers_recorded (sessions : list Session) : nat := sum_list_with (fun x => length (results x)) sessions.

(** How many datagrams arrived (token 0), and whether the clean-up (token 1) ran. *)
Definition arrivals (events : list Token) : nat := length (filter (fun t => t = 0) events).

Lemma arrivals_snoc h t : arrivals (h ++ [t]) = (if decide (t = 0) then S (arrivals h) else arrivals h).
Proof.
  unfold arrivals. rewrite list.filter_app, length_app.
  destruct (decide (t = 0)); [rewrite filter_cons_True by done; apply Nat.add_1_r|rewrite filter_cons_False by done; apply Nat.add_0_r].
Qed.

Record serving {W} (source : SocketAddr) (h : list Token) (s : Shared W) : Prop := {
  sg_sessions : Forall (served source) (sh_sessions s);
  (** no peer has two sessions *)
  sg_peers : NoDup (tx_socket_address <$> sh_sessions s);
  sg_most : (answers_recorded (sh_sessions s) <= arrivals h)%nat;
  (** only the clean-up forgets *)
  sg_all : 1 ∉ h -> answers_recorded (sh_sessions s) = arrivals h
}.

Lemma served_new source src : served source (Session_new source src).
Proof. by constructor. Qed.

(** A session with one answer more. *)
Lemma served_answer source x x' r : served source x -> rx_socket_address x' = rx_socket_address x ->
  results x' = results x ++ [r] -> seq_number x' = as_u 32 (seq_number x + 1) -> packet_u32 r ->
  reflector_seq r = Some (seq_number x) -> served source x'.
Proof.
  intros [Hs Hp Hn Hq] Ex Er En Hr Hrq. constructor; [congruence|..]; rewrite ?Er.
  - apply Forall_app. split; [done|]. by constructor.
  - rewrite En, Hn, as_u_succ, length_app, Nat.add_1_r. done.
  - rewrite length_app, Nat.add_1_r, seq_S, !fmap_app, Hq. cbn. by rewrite Hrq, Hn.
Qed.

Lemma answers_recorded_app l k : answers_recorded (l ++ k) = (answers_recorded l + answers_recorded k)%nat.
Proof. unfold answers_recorded. induction l as [|x l IH]; cbn; [done|]. by rewrite IH, Nat.add_assoc. Qed.

Lemma answers_recorded_insert sessions i x x' : sessions !! i = Some x -> length (results x') = S (length (results x)) ->
  answers_recorded (<[i := x']> sessions) = S (answers_recorded sessions).
Proof.
  intros Hi Hl. rewrite <-(take_drop_middle sessions i x Hi) at 2. rewrite insert_take_drop by (by apply lookup_lt_Some in Hi).
  rewrite !answers_recorded_app. cbn. rewrite Hl. cbn. by rewrite Nat.add_succ_r.
Qed.

Lemma fresh_sublist ref_wait sessions times : fresh ref_wait sessions times `sublist_of` sessions.
Proof.
  unfold fresh. revert times. induction sessions as [|x ss IH]; intros [|t ts]; try apply sublist_nil_l.
  cbn [zip zip_with]. rewrite filter_cons. case_decide; [apply sublist_skip|apply sublist_cons]; apply IH.
Qed.

Lemma answers_recorded_sublist ss ss' : ss `sublist_of` ss' -> (answers_recorded ss <= answers_recorded ss')%nat.
Proof. unfold answers_recorded. induction 1; cbn in *; lia. Qed.

(** ** The callbacks *)

Section callbacks.
Context `{BP : BuildProfile, HE : HostEndian} {W : Type} `{LC : Libc W}.
Context `{SB : BeBytes SenderMessage, RB : BeBytes ReflectedMessage}.
Variable source : SocketAddr.
Implicit Types s : Shared W.

(** The sessions with one answer more. *)
Definition one_more (sessions sessions' : list Session) : Prop :=
  Forall (served source) sessions' /\ NoDup (tx_socket_address <$> sessions') /\
  answers_recorded sessions' = S (answers_recorded sessions).

Lemma serving_arrival h s s' : serving source h s -> one_more (sh_sessions s) (sh_sessions s') -> serving source (h ++ [0]) s'.
Proof.
  intros [_ _ Hm Ha] (H1 & H2 & H3). constructor; [done..| |]; rewrite arrivals_snoc, decide_True by done; [lia|].
  intros Hn. rewrite H3, Ha; [done|]. intros Hin. apply Hn, elem_of_app. by left.
Qed.

Lemma answer_known sessions i x x' r : Forall (served source) sessions -> NoDup (tx_socket_address <$> sessions) ->
  sessions !! i = Some x -> served source x' -> tx_socket_address x' = tx_socket_address x -> results x' = results x ++ [r] ->
  one_more sessions (<[i := x']> sessions).
Proof.
  intros Hs Hn Hi Hx' Ht Hr. split; [by apply Forall_insert|]. split.
  - rewrite list_fmap_insert, Ht, list_insert_id; [done|]. by rewrite list_lookup_fmap, Hi.
  - apply (answers_recorded_insert sessions i x); [done|]. rewrite Hr, length_app. cbn. lia.
Qed.

Lemma answer_unknown src sessions x' r : Forall (served source) sessions -> NoDup (tx_socket_address <$> sessions) ->
  list_find (fun x => of_peer source src x = true) sessions = None -> served source x' -> tx_socket_address x' = src ->
  results x' = [r] -> one_more sessions (sessions ++ [x']).
Proof.
  intros Hs Hn Hf Hx' Ht Hr. split; [apply Forall_app; split; [done|by constructor]|]. split.
  - rewrite fmap_app. apply NoDup_app. split; [done|]. split; [|apply NoDup_singleton].
    intros a (y & -> & Hy)%list_elem_of_fmap Ha. apply list_elem_of_singleton in Ha.
    apply list_find_None in Hf. rewrite Forall_forall in Hf, Hs. apply (Hf y Hy). unfold of_peer.
    rewrite !bool_decide_true by (by rewrite ?Ha, ?(sv_source _ _ (Hs y Hy))). done.
  - rewrite answers_recorded_app. cbn. rewrite Hr. cbn. by rewrite Nat.add_1_r.
Qed.

Lemma message_serves `{!DeliversProbes W} sock token h s : clock_sane W -> serving source h s ->
  exists z s', rx_callback source sock token s = (Ok z, s') /\ serving source (h ++ [0]) s'.
Proof using.
  intros Hc Hs. destruct (receive_probe sock s) as (buf & n & src & t & w & m & k & Hrx & Ht & Hy & Hm & Hp).
  rewrite (rx_callback_received _ _ _ _ _ _ _ _ _ Hrx), Hy. run_op. cbn [fst sh_sessions with_sh_os].
  destruct (list_find _ (sh_sessions s)) as [[i x]|] eqn:Ef.
  - apply list_find_Some in Ef as (Hi & _). pose proof (Forall_lookup_1 _ _ _ _ (sg_sessions _ _ _ Hs) Hi) as Hx.
    destruct (answer_in_spec sock x (ErrorEstimate_new 1 0 1 1) src t m (with_sh_os s w) Hc Ht Hm Hp)
      as (reply & x' & r & E & _ & _ & Er & En & Et & Ex & Hu & Hq & _).
    rewrite (bind_Ok _ _ _ _ _ E). run_op. eexists n, _. split; [reflexivity|].
    apply (serving_arrival h s); [done|]. apply (answer_known _ i x x' r); [apply Hs..|done| |done|done].
    by apply (served_answer source x x' r).
  - destruct (answer_in_spec sock (Session_new source src) (ErrorEstimate_new 0 0 0 1) src t m (with_sh_os s w) Hc Ht Hm Hp)
      as (reply & x' & r & E & _ & _ & Er & En & Et & Ex & Hu & Hq & _).
    rewrite (bind_Ok _ _ _ _ _ E). run_op. eexists n, _. split; [reflexivity|].
    apply (serving_arrival h s); [done|]. apply (answer_unknown src _ x' r); [apply Hs..|done| |done|done].
    by apply (served_answer source (Session_new source src) x' r), Hq; [apply served_new|..].
Qed.

Lemma cleanup_serves ref_wait sock token h s : clock_sane W -> in_u 64 ref_wait -> serving source h s ->
  exists s', cleanup_callback ref_wait sock token s = (Ok 0, s') /\ serving source (h ++ [1]) s'.
Proof using.
  intros Hc Hw [Hs Hn Hm Ha]. unfold cleanup_callback. run_op.
  assert (Hp : Forall (fun x => Forall packet_u32 (results x)) (sh_sessions s)).
  { eapply Forall_impl; [exact Hs|]. intros x Hx. apply Hx. }
  pose proof (retain_spec ref_wait (sh_sessions s) s Hc Hw Hp) as E. destruct (readings _ _) as [times w].
  rewrite (bind_Ok _ _ _ _ _ E). run_op. eexists. split; [reflexivity|]. pose proof (fresh_sublist ref_wait (sh_sessions s) times) as Hk.
  constructor; cbn [sh_sessions with_sessions].
  - rewrite Forall_forall in Hs |- *. intros x Hx. apply Hs. by eapply elem_of_submseteq, sublist_submseteq.
  - eapply sublist_NoDup; [done|]. by apply (fmap_sublist tx_socket_address).
  - rewrite arrivals_snoc, decide_False by done. apply answers_recorded_sublist in Hk. lia.
  - intros Hin. destruct Hin. apply elem_of_app. right. by apply list_elem_of_singleton.
Qed.
End callbacks.

(** ** The run of the service *)

Section service.
Context `{BP : BuildProfile, HE : HostEndian} {W : Type} `{LC : Libc W, EO : EpollOs W, MU : MioUdp W}.
Context `{SB : BeBytes SenderMessage, RB : BeBytes ReflectedMessage}.
Variable self : Configuration.

(** The loop when the service starts: [fd] is the descriptor of the clean-up timer. *)
Definition service_ready sock fd (w : Shared W) : LinuxEventLoop (T:=TimestampedUdpSocket) := {|
  sources := {[ 0 := (sock, as_callback (rx_callback (rc_source self))) ]};
  timed_sources := {[ 1 := (fd, 0, as_callback (cleanup_callback (ref_wait self))) ]};
  next_token := 2; overtime := Some {| it_interval := Duration_ZERO; it_value := Duration_from_secs 1 |}; overtime_exceptions := []; cleanup := None; cleanup_token := None;
  channel_token := USIZE_MAX; os := w |}.

Lemma service_ready_inv sock fd w : loop_inv 2 (service_ready sock fd w).
Proof using.
  constructor; cbn; [lia|..|done]; intros t s [<- _]%lookup_singleton_Some; [lia..|done].
Qed.

Lemma service_quiet h : quiet (T:=TimestampedUdpSocket) (serving (W:=W) (rc_source self) h).
Proof using.
  apply part_quiet; [by intros w s [????]|]. intros x s [????]. cbn. unfold on_part. by destruct (sys_close _ _).
Qed.

Lemma create_socket_keeps (P : Shared W -> Prop) : (forall s w, P s -> P (with_sh_os s w)) -> preserves P (create_socket self).
Proof using.
  intros HP0. assert (HP : forall w s, P s -> P (set_sh_os w s)) by (intros w s; apply HP0). unfold create_socket.
  apply preserves_bind; [by apply (preserves_on_part sh_os set_sh_os)|]. intros [e|fd]; [apply preserves_fail|].
  apply preserves_or_drop; [intros s Hs; cbn; unfold on_part; destruct (sys_close _ _); by apply HP|].
  apply preserves_bind; [by apply preserves_fcntl_options|]. intros _.
  apply preserves_bind; [by apply preserves_timestamping_options|]. intros _.
  apply preserves_bind; [by apply preserves_libc_call|]. intros _.
  apply preserves_bind; [by apply preserves_libc_call|]. intros _. apply preserves_ret.
Qed.

(** The set-up registers the socket and the timer of the clean-up, with no sessions. *)
Lemma reflector_setup (w w1 : Shared W) sock : registers (W:=Shared W) ->
  create_socket self (poll_new (with_sessions [] w)).2 = (Ok sock, w1) ->
  exists fd w2, execute_setup self (empty_loop w) = (Ok (), service_ready sock fd w2) /\ serving (rc_source self) [] w2.
Proof using.
  intros Hr Hs. unfold execute_setup, create_session, cleanup_stale_sessions. rewrite bind_modify.
  rewrite (bind_Ok _ _ _ _ _ (new_loop_exact id _ Hr)). cbn [os with_os]. set (l0 := empty_loop _).
  assert (H1 : serving (rc_source self) [] w1).
  { pose proof (create_socket_keeps (serving (rc_source self) [])) as Hp. specialize (Hp ltac:(by intros s' w' [????]) (poll_new (with_sessions [] w)).2).
    rewrite Hs in Hp. apply Hp. apply (quiet_new _ (service_quiet [])). constructor; cbn; [done|constructor|lia|done]. }
  rewrite (bind_Ok _ _ _ _ _ (sys_op_Ok _ l0 _ _ Hs)).
  pose proof (register_event_source_quiet _ sock (as_callback (rx_callback (rc_source self))) (service_quiet []) (with_os l0 w1) H1) as H2.
  destruct (register_event_source_spec sock (as_callback (rx_callback (rc_source self))) (with_os l0 w1) Hr) as (w2 & E2).
  rewrite E2 in H2. rewrite (bind_Ok _ _ _ _ _ E2). clear E2.
  match goal with |- context [(register_timer ?sp ?t ?c ≫= _) ?l] =>
    pose proof (register_timer_quiet _ sp t c (service_quiet []) l H2) as H3;
    destruct (register_timer_spec sp t c (sock, as_callback (rx_callback (rc_source self))) l Hr eq_refl) as (fd & w3 & E3) end.
  rewrite E3 in H3. rewrite (bind_Ok _ _ _ _ _ E3). exists fd, w3. split; [|exact H3]. unfold service_ready.
  cbn [sources timed_sources with_os with_sources with_timed with_next_token l0 empty_loop next_token overtime_exceptions
    overtime cleanup cleanup_token channel_token].
  change (as_u 64 (0 + 1)) with 1. change (as_u 64 (1 + 1)) with 2. reflexivity.
Qed.

Context `{!TimersWork W, !DeliversProbes W}.
Hypothesis clock : clock_sane W.
Hypothesis ref_wait_wf : in_u 64 (ref_wait self).

Lemma service_steady sock fd w : steady (serving (W:=W) (rc_source self)) (service_ready sock fd w).
Proof using All.
  constructor; cbn [sources timed_sources service_ready].
  - intros t src cb [<- [= <- <-]]%lookup_singleton_Some h s Hs. unfold as_callback.
    destruct (message_serves (rc_source self) sock 0 h s clock Hs) as (z & s' & -> & Hs'). by exists z, s'.
  - intros t fd' inner cb [<- [= <- <- <-]]%lookup_singleton_Some.
    exists sock, (as_callback (rx_callback (rc_source self))). split; [done|]. intros h s Hs. unfold as_callback.
    destruct (cleanup_serves (rc_source self) (ref_wait self) sock 0 h s clock ref_wait_wf Hs) as (s' & -> & Hs'). by exists 0, s'.
Qed.

Lemma service_tracked sock fd w t : t ∈ [0; 1] -> tracked (service_ready sock fd w) t.
Proof using. rewrite !elem_of_cons, elem_of_nil. intros [->|[->|[]]]; [left|right]; eexists; reflexivity. Qed.
End service.

(** ** Properties *)

(** C5: the light reflector goes on serving: when what arrives are test messages with enough
    padding, from any peers in any order, then after any number of turns, with the clean-up
    timer firing at any time, [execute] is still running, its socket and its timer are
    registered and no callback has failed.  Each peer has at most one session; the answers of a
    session are numbered from 0 without a gap; and as long as the clean-up has not run, exactly
    one answer is recorded for each message received, never more afterwards. *)
Theorem light_reflector_serves `{BuildProfile, HostEndian} {W} `{Libc W, EpollOs W, MioUdp W, BeBytes SenderMessage, BeBytes ReflectedMessage}
    `{!TimersWork W, !DeliversProbes W} self (w w1 : Shared W) sock tss :
  registers (W:=W) -> clock_sane W -> in_u 64 (ref_wait self) ->
  create_socket self (poll_new (with_sessions [] w)).2 = (Ok sock, w1) ->
  Forall (Forall (fun t => t ∈ [0; 1])) tss ->
  exists (l : LinuxEventLoop), execute self (events_turn <$> tss) (empty_loop w) = (Ok None, l) /\
    dom (sources l) = {[ 0 ]} /\ dom (timed_sources l) = {[ 1 ]} /\ serving (rc_source self) (concat tss) (os l).
Proof.
  intros Hr Hc Hw Hs Htss. pose proof (registers_shared Hr) as Hr'.
  destruct (reflector_setup self w w1 sock Hr' Hs) as (fd & w2 & E & H0'). unfold execute. rewrite (bind_Ok _ _ _ _ _ E).
  destruct (steady_run (serving (rc_source self)) (service_quiet self) 2 (service_ready self sock fd w2) tss [] []) as (w3 & Er & Hw3);
    [apply service_ready_inv|by apply service_steady| |done|].
  { eapply Forall_impl; [exact Htss|]. intros ts Hts. eapply Forall_impl; [exact Hts|]. intros t. apply service_tracked. }
  rewrite app_nil_r in Er. cbn [run] in Er. rewrite (bind_Ok _ _ _ _ _ Er). eexists. split; [reflexivity|].
  cbn. split; [set_solver|]. split; [set_solver|done].
Qed.

(** ** A concrete run *)

(** A system on which a message of the sample peer is always waiting. *)
Module Probing.
Import Scripted KernelLoop BigEndian ScriptedLoop.

Definition probe_datagram : datagram := sample_datagram (to_be_bytes sample_sender).

#[export] Instance probing_libc : Libc scripted := {|
  sys_socket := sys_socket; sys_bind := sys_bind; sys_connect := sys_connect; sys_listen := sys_listen; sys_accept := sys_accept;
  sys_getpeername := sys_getpeername; sys_setsockopt := sys_setsockopt; sys_fcntl := sys_fcntl; sys_close := sys_close;
  sys_send := sys_send; sys_sendmsg := sys_sendmsg; sys_recv := sys_recv;
  sys_recvmsg fd h f w := ((Z.of_nat (length (dg_bytes probe_datagram)), probe_datagram), w);
  sys_recvmmsg := sys_recvmmsg; sys_clock := sys_clock; last_errno := last_errno; strerror := strerror (W:=scripted)
|}.

#[export] Instance probing_delivers : DeliversProbes (H:=LE) (H0:=probing_libc) scripted.
Proof.
  intros fd hdr flags w _. exists probe_datagram, w, sample_peer, sample_time, sample_sender, 41.
  split; [done|]. split; [cbn; lia|]. split; [reflexivity|]. split; [reflexivity|]. split; [exact sample_time_wf|].
  split; [vm_compute; reflexivity|]. unfold ntp_wf, padded, in_u, MIN_UNAUTH_PADDING. cbn. lia.
Qed.

Lemma probing_clock : clock_sane scripted (H:=probing_libc).
Proof. apply scripted_clock_sane. Qed.

#[export] Instance probing_mio : MioUdp scripted := fun _ w => (inr 7, w).

Definition service : Configuration := Configuration_new sample_addr 900.
Definition service_world : Shared scripted := Build_Shared (scripted_of [] []) [] false.
Definition service_bound : Shared scripted := (create_socket (LC:=probing_libc) service (poll_new (with_sessions [] service_world)).2).2.

End Probing.

Import Scripted KernelLoop BigEndian ScriptedLoop Probing.

Example light_reflector_serves_witness : exists l : LinuxEventLoop,
  execute (BP:=DEBUG) (HE:=LE) (LC:=probing_libc) (EO:=kernel_epoll) service [events_turn [0]; events_turn [1; 0]; events_turn [0]]
    (empty_loop service_world) = (Ok None, l) /\
  serving sample_addr [0; 1; 0; 0] (os l).
Proof.
  destruct (light_reflector_serves (H:=DEBUG) (H0:=LE) (H1:=probing_libc) (H2:=kernel_epoll) service service_world service_bound
    (UdpSocket_new 7) [[0]; [1; 0]; [0]] kernel_registers probing_clock) as (l & E & _ & _ & Hl).
  - unfold in_u. cbn. lia.
  - reflexivity.
  - repeat constructor; set_solver.
  - exists l. split; [exact E|exact Hl].
Defined.
