(* ===== verification/Control.v ===== *)
(** * [twamp/src/twamp_control]: [control_session.rs] and [control.rs]

    The server of the control protocol: one [ControlSession] per TCP connection, a state
    machine stepped by [transition] whenever its socket is readable, and the accepting
    callback that creates them.  Test sockets are handed to the worker's event loop as
    messages; the callback registered with them runs there, on the sessions of this
    control session. *)
From stdpp Require Import base list option numbers strings gmap.
From Stdlib Require Import ZArith Lia.
From S2P Require Import Prelude Float64 Errors Time Net DataModel Messages Wire Session Sockets EventLoop Shared Reflector.
Local Open Scope Z_scope.

(** ** [ControlSession] *)

Record ControlSession := {
  cs_id : Z;
  supported_modes : Modes;
  state : ServerCtrlConnectionState.t;
  twamp_sessions : list Session;
  retry_count : Z;
  error_count : Z;
  rx_buffer : list Z;
  cs_start_time : DateTime
}.

Definition zero_buffer : list Z := replicate (Z.to_nat (2 ^ 16)) 0.

(** The four timeouts of the program are set to constants and never read. *)
Definition ControlSession_new (start_time : DateTime) (token : Z) (mode : Modes) (retry_count error_count : Z)
    : ControlSession := {|
  cs_id := token; supported_modes := mode; state := ServerCtrlConnectionState.Greeting; twamp_sessions := [];
  retry_count := retry_count; error_count := error_count; rx_buffer := zero_buffer; cs_start_time := start_time |}.

Definition with_state (st : ServerCtrlConnectionState.t) (c : ControlSession) : ControlSession := {|
  cs_id := cs_id c; supported_modes := supported_modes c; state := st; twamp_sessions := twamp_sessions c;
  retry_count := retry_count c; error_count := error_count c; rx_buffer := rx_buffer c; cs_start_time := cs_start_time c |}.
Definition with_rx_buffer (b : list Z) (c : ControlSession) : ControlSession := {|
  cs_id := cs_id c; supported_modes := supported_modes c; state := state c; twamp_sessions := twamp_sessions c;
  retry_count := retry_count c; error_count := error_count c; rx_buffer := b; cs_start_time := cs_start_time c |}.

(** The state a control session works on: the operating system, itself, what was sent to the
    worker, and whether the mutex of the worker's channel is free. *)
Record Server (W : Type) := {
  sv_os : W;
  sv_session : ControlSession;
  sv_messages : list (EventLoopMessages (W:=Shared W) (T:=TimestampedUdpSocket));
  sv_channel_free : bool
}.
Arguments Build_Server {_} _ _ _ _.
Arguments sv_os {_} _.
Arguments sv_session {_} _.
Arguments sv_messages {_} _.
Arguments sv_channel_free {_} _.

(** [SocketAddrV4::new(Ipv4Addr::new(ip[0], ip[1], ip[2], ip[3]), port)] *)
Definition first_octets (ip : list Z) (port : Z) : SocketAddr :=
  SockV4 (Ipv4Addr_new (nth 0 ip 0) (nth 1 ip 0) (nth 2 ip 0) (nth 3 ip 0)) port.

Section control.
Context `{BP : BuildProfile, HE : HostEndian} {W : Type} `{LC : Libc W, MU : MioUdp W}.
Context `{SB : BeBytes SenderMessage, RB : BeBytes ReflectedMessage}.
Context `{GB : BeBytes ServerGreeting, CB : BeBytes ClientSetupResponse, StB : BeBytes ServerStart}.
Context `{CoB : BeBytes ControlMessage, AB : BeBytes AcceptSessionMessage, QB : BeBytes RequestTwSession}.

(** *** The callback of a test socket *)

(** The first answer to a sender carries no padding. *)
Definition first_reflected_message (seq : Z) (e : ErrorEstimate) (utc_now received : DateTime)
    (twamp_test_message : SenderMessage) : result ReflectedMessage :=
  t3 ← ntp_of_datetime utc_now;
  t2 ← ntp_of_datetime received;
  Ok {| reflector_sequence_number := seq; rm_timestamp := t3; rm_error_estimate := e; rm_mbz1 := 0;
        receive_timestamp := t2; sender_sequence_number := sequence_number twamp_test_message;
        sender_timestamp := timestamp_ twamp_test_message;
        sender_error_estimate := error_estimate twamp_test_message;
        rm_mbz2 := 0; sender_ttl := 255; rm_padding := [] |}.

Definition rx_callback (rx_socket_address : SocketAddr) (inner_socket : TimestampedUdpSocket) (_token : Token)
    : op (Shared W) CommonError Z :=
  '(buffer, result, socket_address, timestamp) ← UdpSocket_receive_from inner_socket zero_buffer;
  if Z.of_nat (length buffer) <? Z.max 0 result then lift (Panic IndexOutOfBounds) else
  '(twamp_test_message, _) ← lift (parse (T:=SenderMessage) (take (Z.to_nat (Z.max 0 result)) buffer));
  sessions ← gets sh_sessions;
  match list_find (fun s => of_peer rx_socket_address socket_address s = true) sessions with
  | Some (i, session) =>
      session' ← answer_in inner_socket session (ErrorEstimate_new 1 0 1 1) socket_address timestamp twamp_test_message;
      _ ← modify (with_sessions (<[i := session']> sessions));
      mret result
  | None =>
      let session := Session_new rx_socket_address socket_address in
      utc_now ← now;
      reply ← lift (first_reflected_message (seq_number session) (ErrorEstimate_new 0 0 0 1) utc_now timestamp twamp_test_message);
      _ ← UdpSocket_send_to inner_socket socket_address reply;
      session' ← lift (add_to_sent session reply);
      _ ← modify (with_sessions (sessions ++ [session']));
      mret result
  end.

(** [Session::create_udp_socket] of [session.rs] *)
Definition Session_create_udp_socket (self : Session) : op W CommonError TimestampedUdpSocket :=
  r ← effect (mio_udp_bind (rx_socket_address self));
  match r with
  | inl e => fail (from_io e)
  | inr fd =>
      or_drop (fun w => (sys_close fd w).2)
        (_ ← set_fcntl_options fd;
         _ ← set_socket_options fd SOL_IP IP_RECVERR (Some 1);
         _ ← set_timestamping_options fd;
         mret (UdpSocket_new fd))
  end.

(** *** [transition] *)

#[local] Abbreviation io := (op (Server W) CommonError).

Definition on_sys {A} (m : op W CommonError A) : io A :=
  zoom sv_os (fun w s => Build_Server w (sv_session s) (sv_messages s) (sv_channel_free s)) m.
Definition on_session (f : ControlSession -> ControlSession) : io () :=
  modify (fun s => Build_Server (sv_os s) (f (sv_session s)) (sv_messages s) (sv_channel_free s)).
Definition set_state (st : ServerCtrlConnectionState.t) : io () := on_session (with_state st).

(** [worker_event_sender.try_lock()?.send(..)], whose result is ignored. *)
Definition send_worker (m : EventLoopMessages) : io () :=
  free ← gets sv_channel_free;
  if free : bool then modify (fun s => Build_Server (sv_os s) (sv_session s) (sv_messages s ++ [m]) (sv_channel_free s))
  else fail Lock.

(** [socket.receive(&mut self.rx_buffer)] *)
Definition receive (socket : TimestampedTcpSocket) : io Z :=
  s ← gets sv_session;
  '(buffer, n, _) ← on_sys (TcpSocket_receive socket (rx_buffer s));
  _ ← on_session (with_rx_buffer buffer);
  mret n.

(** A message decoded from the whole buffer; [msg] is the text of the error. *)
Definition decode {T} `{BeBytes T} (msg : string) : io T :=
  s ← gets sv_session;
  match try_from_be_bytes (rx_buffer s) with
  | Ok (response, _) => mret response
  | Err _ => fail (Generic msg)
  | Panic p => lift (Panic p)
  end.

Definition greeting (m : Modes) : ServerGreeting :=
  ServerGreeting_new (replicate 12 0) m (replicate 16 0) (replicate 16 0) 1 (replicate 12 0).
Definition start_ack : ControlMessage :=
  {| control_command := u8_of_accept AcceptFields.Ok; cm_mbz := replicate 15 0; cm_hmac := replicate 16 0 |}.
Definition accept_message (a : AcceptFields.t) (port : Z) : AcceptSessionMessage :=
  AcceptSessionMessage_new a 0 port (replicate 16 0) (replicate 12 0) (replicate 16 0).

Definition transition_greeting (socket : TimestampedTcpSocket) : io () :=
  s ← gets sv_session;
  result ← attempt (on_sys (TcpSocket_send socket (greeting (supported_modes s))));
  match result with
  | inr _ => set_state ServerCtrlConnectionState.Negotiation
  | inl _ => fail (Generic "Error sending Greeting response")
  end.

Definition transition_negotiation (socket : TimestampedTcpSocket) : io () :=
  result ← attempt (receive socket);
  match result with
  | inl _ => mret ()
  | inr n =>
      if n =? 0 then fail (Generic "Close signal received") else
      response ← decode (T:=ClientSetupResponse) "Error parsing Greeting response";
      s ← gets sv_session;
      if decide (Modes_bitand (mode response) (supported_modes s) = mode response) then
        start ← lift (ntp_of_datetime (cs_start_time s));
        result ← attempt (on_sys (TcpSocket_send socket
          {| ss_mbz1 := replicate 15 0; ss_accept := AcceptFields.Ok; server_iv := replicate 16 0;
             ss_start_time := start; ss_mbz2 := replicate 8 0 |}));
        match result with
        | inr _ => set_state ServerCtrlConnectionState.Monitor
        | inl _ => fail (Generic "Error sending Greeting response")
        end
      else fail (Generic "Mode not supported")
  end.

Definition transition_start (socket : TimestampedTcpSocket) : io () :=
  _ ← on_sys (TcpSocket_send socket start_ack);
  set_state ServerCtrlConnectionState.Monitor.

(** A test session is requested: the socket is bound at the address of the session that has
    the port, or of a new one, which is not stored. *)
Definition request_session (socket : TimestampedTcpSocket) (response : RequestTwSession) : io () :=
  let source_address := first_octets (reflector_address response) (reflector_port response) in
  let sender_address := first_octets (sender_address response) (sender_port response) in
  s ← gets sv_session;
  let session :=
    match list_find (fun x => sock_port (rx_socket_address x) = reflector_port response) (twamp_sessions s) with
    | Some (_, session) => session
    | None => Session_new source_address sender_address
    end in
  udp_socket ← on_sys (Session_create_udp_socket session);
  _ ← or_drop (fun s => Build_Server (sys_close (udp_inner udp_socket) (sv_os s)).2 (sv_session s) (sv_messages s) (sv_channel_free s))
        (send_worker (Register (udp_socket, as_callback (rx_callback source_address))));
  _ ← on_sys (TcpSocket_send socket (accept_message AcceptFields.Ok (reflector_port response)));
  mret ().

Definition transition_monitor (socket : TimestampedTcpSocket) : io () :=
  result ← attempt (receive socket);
  match result with
  | inl _ => mret ()
  | inr n =>
      if n =? 0 then fail (Generic "Close signal received") else
      response ← decode (T:=RequestTwSession) "Error parsing RequestTwSession response";
      match request_type response with
      | TwampControlCommand.Forbidden => mret ()
      | TwampControlCommand.StartSessions =>
          _ ← set_state ServerCtrlConnectionState.Start; transition_start socket
      | TwampControlCommand.StopSessions => send_worker Clean
      | TwampControlCommand.RequestTwSession => request_session socket response
      | TwampControlCommand.StartNSessions => lift (Panic (Unimplemented "StartNSessions!"))
      | TwampControlCommand.StartNAck => lift (Panic (Unimplemented "StartNAck!"))
      | TwampControlCommand.StopNSessions => lift (Panic (Unimplemented "StopNSessions!"))
      | TwampControlCommand.StopNAck => lift (Panic (Unimplemented "StopNAck!"))
      | TwampControlCommand.Other =>
          _ ← on_sys (TcpSocket_send socket (accept_message AcceptFields.NotSupported (reflector_port response)));
          mret ()
      end
  end.

(** [End], [Retry] and [Error] have their work still to be written. *)
Definition transition_idle : io () := mret ().

Definition transition (socket : TimestampedTcpSocket) : io () :=
  s ← gets sv_session;
  match state s with
  | ServerCtrlConnectionState.Greeting => transition_greeting socket
  | ServerCtrlConnectionState.Authentication => set_state ServerCtrlConnectionState.Negotiation
  | ServerCtrlConnectionState.Negotiation => transition_negotiation socket
  | ServerCtrlConnectionState.Monitor => transition_monitor socket
  | ServerCtrlConnectionState.Start => transition_start socket
  | ServerCtrlConnectionState.End | ServerCtrlConnectionState.Retry | ServerCtrlConnectionState.Error => transition_idle
  end.

(** *** [control.rs]: the accepting callback *)

(** The control sessions, the sockets handed to the control loop (each with
    [session_callback]), and the mutexes of the two channels. *)
Record Acceptor := {
  ac_os : W;
  control_sessions : list ControlSession;
  ac_registered : list TimestampedTcpSocket;
  ac_messages : list (EventLoopMessages (W:=Shared W) (T:=TimestampedUdpSocket));
  ac_worker_free : bool;
  ac_loop_free : bool
}.
#[local] Abbreviation aio := (op Acceptor CommonError).

Definition on_ac {A} (m : op W CommonError A) : aio A :=
  zoom ac_os (fun w s => Build_Acceptor w (control_sessions s) (ac_registered s) (ac_messages s)
                           (ac_worker_free s) (ac_loop_free s)) m.

(** An operation of the control session [c]; [put] stores the new value, given whether the
    operation succeeded. *)
Definition on_control {A} (c : ControlSession) (put : bool -> ControlSession -> list ControlSession -> list ControlSession)
    (m : io A) : aio A := fun s =>
  let '(o, v) := m (Build_Server (ac_os s) c (ac_messages s) (ac_worker_free s)) in
  (o, Build_Acceptor (sv_os v) (put (is_ok o) (sv_session v) (control_sessions s)) (ac_registered s) (sv_messages v)
        (ac_worker_free s) (ac_loop_free s)).

(** The callback registered with an accepted socket: the first control session whose id is
    the socket's descriptor makes a transition; on an error the descriptor is closed. *)
Definition session_callback (socket : TimestampedTcpSocket) : aio Z :=
  sessions ← gets control_sessions;
  match list_find (fun c => cs_id c = tcp_inner socket) sessions with
  | Some (i, cs) =>
      r ← attempt (on_control cs (fun _ cs' => <[i := cs']>) (transition socket));
      match r with
      | inl _ => _ ← on_ac (effect (sys_close (tcp_inner socket))); mret 0
      | inr _ => mret 0
      end
  | None => mret 0
  end.

Definition accept_callback (listener : TimestampedTcpSocket) (_token : Token) : aio Z :=
  '(timestamped_socket, socket_address) ← on_ac (TcpSocket_accept listener);
  let close_it := fun s => Build_Acceptor (sys_close (tcp_inner timestamped_socket) (ac_os s)).2 (control_sessions s)
                             (ac_registered s) (ac_messages s) (ac_worker_free s) (ac_loop_free s) in
  let modes := Modes_set (Modes_new 0) Unauthenticated in
  or_drop close_it
    (start_time ← on_ac now;
     let control_session := ControlSession_new start_time (tcp_inner timestamped_socket) modes 1 1 in
     _ ← on_control control_session (fun ok cs l => if ok : bool then l ++ [cs] else l) (transition timestamped_socket);
     free ← gets ac_loop_free;
     if free : bool then
       _ ← modify (fun s => Build_Acceptor (ac_os s) (control_sessions s) (ac_registered s ++ [timestamped_socket])
                              (ac_messages s) (ac_worker_free s) (ac_loop_free s));
       mret 0
     else fail Lock).
End control.

(** ** Lemmas *)

Section facts.
Context `{BP : BuildProfile, HE : HostEndian} {W : Type} `{LC : Libc W, MU : MioUdp W}.
Context `{SB : BeBytes SenderMessage, RB : BeBytes ReflectedMessage}.
Context `{GB : BeBytes ServerGreeting, CB : BeBytes ClientSetupResponse, StB : BeBytes ServerStart}.
Context `{CoB : BeBytes ControlMessage, AB : BeBytes AcceptSessionMessage, QB : BeBytes RequestTwSession}.
Implicit Types s v : Server W.

(** An operation that leaves the control session alone but for its buffer, in every run. *)
Definition same_session (c c' : ControlSession) : Prop := exists b, c' = with_rx_buffer b c.
Definition keeps_session {A} (m : op (Server W) CommonError A) : Prop :=
  forall c, preserves (fun s => same_session c (sv_session s)) m.

Lemma same_session_refl c : same_session c c.
Proof. exists (rx_buffer c). by destruct c. Qed.

Lemma keeps_on_sys {A} (m : op W CommonError A) : keeps_session (on_sys m).
Proof. intros c s Hs. unfold on_sys, zoom. by destruct (m (sv_os s)). Qed.

Lemma keeps_receive socket : keeps_session (receive socket).
Proof.
  intros c. unfold receive. apply preserves_bind; [apply preserves_gets|]. intros x.
  apply preserves_bind; [apply keeps_on_sys|]. intros [[b n] t].
  apply preserves_bind; [|intros; apply preserves_ret].
  apply preserves_modify. intros s [b' E]. exists b. cbn. rewrite E. by destruct c.
Qed.

Lemma keeps_decode {T} `{BeBytes T} msg : keeps_session (decode (T:=T) msg).
Proof.
  intros c. unfold decode. apply preserves_bind; [apply preserves_gets|]. intros x.
  destruct (try_from_be_bytes (rx_buffer x)) as [[r k]| |];
    [apply preserves_ret|apply preserves_fail|apply preserves_lift].
Qed.

Lemma keeps_send_worker m : keeps_session (send_worker m).
Proof.
  intros c. unfold send_worker. apply preserves_bind; [apply preserves_gets|]. intros [|].
  - by apply preserves_modify.
  - apply preserves_fail.
Qed.

Lemma keeps_request_session socket r : keeps_session (request_session socket r).
Proof.
  intros c. unfold request_session. apply preserves_bind; [apply preserves_gets|]. intros x.
  apply preserves_bind; [apply keeps_on_sys|]. intros u. apply preserves_bind.
  - intros s Hs. pose proof (keeps_send_worker
      (Register (u, as_callback (rx_callback (first_octets (reflector_address r) (reflector_port r))))) c s Hs) as Hk.
    unfold or_drop. by destruct (send_worker _ s) as [[] s'].
  - intros []. apply preserves_bind; [apply keeps_on_sys|]. intros ?. apply preserves_ret.
Qed.

(** The moves of the server's state machine. *)
Inductive server_move : ServerCtrlConnectionState.t -> ServerCtrlConnectionState.t -> Prop :=
  | move_stay st : server_move st st
  | move_greet : server_move ServerCtrlConnectionState.Greeting ServerCtrlConnectionState.Negotiation
  | move_skip : server_move ServerCtrlConnectionState.Authentication ServerCtrlConnectionState.Negotiation
  | move_accept : server_move ServerCtrlConnectionState.Negotiation ServerCtrlConnectionState.Monitor
  | move_start : server_move ServerCtrlConnectionState.Monitor ServerCtrlConnectionState.Start
  | move_acked : server_move ServerCtrlConnectionState.Start ServerCtrlConnectionState.Monitor.

(** The session after a transition: the state moved, and the buffer was written. *)
Definition moved (c c' : ControlSession) : Prop :=
  exists st b, server_move (state c) st /\ c' = with_rx_buffer b (with_state st c).

Lemma same_moved c c' : same_session c c' -> moved c c'.
Proof. intros [b ->]. exists (state c), b. split; [constructor|by destruct c]. Qed.

Lemma set_state_moved c st s : server_move (state c) st -> same_session c (sv_session s) ->
  moved c (sv_session (set_state st s).2).
Proof. intros Hm [b E]. exists st, b. split; [done|]. cbn. rewrite E. by destruct c. Qed.

(** Operations after which the session has moved, from a session that only had its buffer changed. *)
Definition moves {A} (c : ControlSession) (m : op (Server W) CommonError A) : Prop :=
  forall s, same_session c (sv_session s) -> moved c (sv_session (m s).2).

Lemma moves_keep {A} c (m : op (Server W) CommonError A) : keeps_session m -> moves c m.
Proof. intros Hm s Hs. apply same_moved. by apply Hm. Qed.
Lemma moves_bind {A B} c (m : op (Server W) CommonError A) (k : A -> op (Server W) CommonError B) :
  keeps_session m -> (forall a, moves c (k a)) -> moves c (m ≫= k).
Proof.
  intros Hm Hk s Hs. specialize (Hm c s Hs). unfold mbind, op_bind.
  destruct (m s) as [[a|e|p] s']; cbn in Hm; [by apply Hk|by apply same_moved..].
Qed.
Lemma moves_set c st : server_move (state c) st -> moves c (set_state st).
Proof. intros Hm s Hs. by apply set_state_moved. Qed.
Lemma keeps_ret {A} (a : A) : keeps_session (mret a).
Proof. intros c. apply preserves_ret. Qed.
Lemma keeps_lift {A} (o : outcome CommonError A) : keeps_session (lift o).
Proof. intros c. apply preserves_lift. Qed.
Lemma keeps_fail {A} e : keeps_session (fail (A:=A) e).
Proof. intros c. apply preserves_fail. Qed.
Lemma keeps_gets {A} (f : Server W -> A) : keeps_session (gets f).
Proof. intros c. apply preserves_gets. Qed.
Lemma keeps_attempt {A} (m : op (Server W) CommonError A) : keeps_session m -> keeps_session (attempt m).
Proof. intros Hm c. apply preserves_attempt, Hm. Qed.
Lemma keeps_bind {A B} (m : op (Server W) CommonError A) (k : A -> op (Server W) CommonError B) :
  keeps_session m -> (forall a, keeps_session (k a)) -> keeps_session (m ≫= k).
Proof. intros Hm Hk c. apply preserves_bind; [apply Hm|]. intros a. apply Hk. Qed.
End facts.

Create HintDb moves.
#[local] Hint Resolve keeps_on_sys keeps_receive keeps_decode keeps_send_worker keeps_request_session keeps_ret
  keeps_lift keeps_fail keeps_gets keeps_attempt keeps_bind moves_keep moves_bind moves_set same_session_refl : moves.
#[local] Hint Constructors server_move : moves.

Section state_machine.
Context `{BP : BuildProfile, HE : HostEndian} {W : Type} `{LC : Libc W, MU : MioUdp W}.
Context `{SB : BeBytes SenderMessage, RB : BeBytes ReflectedMessage}.
Context `{GB : BeBytes ServerGreeting, CB : BeBytes ClientSetupResponse, StB : BeBytes ServerStart}.
Context `{CoB : BeBytes ControlMessage, AB : BeBytes AcceptSessionMessage, QB : BeBytes RequestTwSession}.

Lemma transition_start_moves c socket : state c = ServerCtrlConnectionState.Start -> moves c (transition_start socket).
Proof. intros Hc. unfold transition_start. apply moves_bind; [auto with moves|]. intros _. apply moves_set. rewrite Hc. constructor. Qed.

Lemma transition_greeting_moves c socket : state c = ServerCtrlConnectionState.Greeting -> moves c (transition_greeting socket).
Proof.
  intros Hc. unfold transition_greeting. apply moves_bind; [auto with moves|]. intros x.
  apply moves_bind; [auto with moves|]. intros [e|r]; [auto with moves|]. apply moves_set. rewrite Hc. constructor.
Qed.

Lemma transition_negotiation_moves c socket :
  state c = ServerCtrlConnectionState.Negotiation -> moves c (transition_negotiation socket).
Proof.
  intros Hc. unfold transition_negotiation. apply moves_bind; [auto with moves|]. intros [e|n]; [auto with moves|].
  destruct (n =? 0); [auto with moves|]. apply moves_bind; [auto with moves|]. intros r.
  apply moves_bind; [auto with moves|]. intros x. destruct (decide _); [|auto with moves].
  apply moves_bind; [auto with moves|]. intros t. apply moves_bind; [auto with moves|].
  intros [e'|y]; [auto with moves|]. apply moves_set. rewrite Hc. constructor.
Qed.

(** Starting from the monitor: the state goes to [Start], and back when the answer is sent. *)
Lemma monitor_start_moves c socket : state c = ServerCtrlConnectionState.Monitor ->
  moves c (_ ← set_state ServerCtrlConnectionState.Start; transition_start socket).
Proof.
  intros Hc s [b Hs]. unfold set_state at 1, on_session. rewrite bind_modify.
  match goal with |- context [transition_start socket ?s1] => set (s1' := s1) end.
  assert (moved (with_state ServerCtrlConnectionState.Start c) (sv_session (transition_start socket s1').2)) as Hm.
  { apply transition_start_moves; [done|]. exists b. cbn. rewrite Hs. by destruct c. }
  destruct Hm as (st & b' & Hmove & ->). exists st, b'. split; [|by destruct c]. rewrite Hc.
  cbn in Hmove. inversion Hmove; subst; constructor.
Qed.

Lemma transition_monitor_moves c socket :
  state c = ServerCtrlConnectionState.Monitor -> moves c (transition_monitor socket).
Proof.
  intros Hc. unfold transition_monitor. apply moves_bind; [auto with moves|]. intros [e|n]; [auto with moves|].
  destruct (n =? 0); [auto with moves|]. apply moves_bind; [auto with moves|]. intros r.
  destruct (request_type r); [auto with moves|by apply monitor_start_moves|auto with moves..|].
  apply moves_keep. auto with moves.
Qed.

Lemma transition_moves (s : Server W) socket : moved (sv_session s) (sv_session (transition socket s).2).
Proof.
  unfold transition. rewrite bind_gets. pose proof (same_session_refl (sv_session s)) as Hr.
  destruct (state (sv_session s)) eqn:E.
  - by apply transition_greeting_moves.
  - apply moves_set; [rewrite E; constructor|done].
  - by apply transition_negotiation_moves.
  - by apply transition_start_moves.
  - by apply transition_monitor_moves.
  - by apply same_moved.
  - by apply same_moved.
  - by apply same_moved.
Qed.
End state_machine.

(** ** Properties *)

Section steps.
Context `{BP : BuildProfile, HE : HostEndian} {W : Type} `{LC : Libc W, MU : MioUdp W}.
Context `{SB : BeBytes SenderMessage, RB : BeBytes ReflectedMessage}.
Context `{GB : BeBytes ServerGreeting, CB : BeBytes ClientSetupResponse, StB : BeBytes ServerStart}.
Context `{CoB : BeBytes ControlMessage, AB : BeBytes AcceptSessionMessage, QB : BeBytes RequestTwSession}.

(** What happens to a control session: a transition, whatever its outcome, or a change of
    the rest of the world (the worker's answers in its sessions included). *)
Inductive server_step (s : Server W) : Server W -> Prop :=
  | step_transition socket : server_step s (transition socket s).2
  | step_world s' : (exists b, same_session b (sv_session s) /\ same_session b (sv_session s')) -> server_step s s'.
End steps.

(** C11: in every run of a control session the state is one of the four the protocol uses (the
    states End, Retry, Error and Authentication are never reached), it never goes back to the
    greeting, and the session keeps its id and the modes it was created with. *)
Theorem control_reachable `{BuildProfile, HostEndian} {W} `{Libc W, MioUdp W}
    `{BeBytes SenderMessage, BeBytes ReflectedMessage, BeBytes ServerGreeting, BeBytes ClientSetupResponse, BeBytes ServerStart}
    `{BeBytes ControlMessage, BeBytes AcceptSessionMessage, BeBytes RequestTwSession}
    (s s' : Server W) t id modes r e :
  sv_session s = ControlSession_new t id modes r e -> rtc server_step s s' ->
  cs_id (sv_session s') = id /\ supported_modes (sv_session s') = modes /\
  (state (sv_session s') = ServerCtrlConnectionState.Greeting \/
   state (sv_session s') = ServerCtrlConnectionState.Negotiation \/
   state (sv_session s') = ServerCtrlConnectionState.Monitor \/
   state (sv_session s') = ServerCtrlConnectionState.Start) /\
  (forall s'', rtc server_step s' s'' -> state (sv_session s') <> ServerCtrlConnectionState.Greeting ->
     state (sv_session s'') <> ServerCtrlConnectionState.Greeting).
Proof.
  intros Hs Hrun.
  assert (forall x y : Server W, server_step x y -> moved (sv_session x) (sv_session y)) as Hstep.
  { intros x y [socket|y' (b & [b1 E1] & [b2 E2])]; [apply transition_moves|].
    rewrite E1, E2. exists (state b), b2. split; [constructor|by destruct b]. }
  assert (forall x y : Server W, rtc server_step x y ->
    state (sv_session x) <> ServerCtrlConnectionState.Greeting -> state (sv_session y) <> ServerCtrlConnectionState.Greeting) as Hg.
  { intros x y Hxy. induction Hxy as [|x y z Hst _ IH]; [done|]. intros Hx. apply IH.
    destruct (Hstep x y Hst) as (st & b & Hm & ->). cbn. inversion Hm; subst; congruence. }
  assert (forall x y : Server W, rtc server_step x y ->
    cs_id (sv_session y) = cs_id (sv_session x) /\ supported_modes (sv_session y) = supported_modes (sv_session x) /\
    (state (sv_session x) = ServerCtrlConnectionState.Greeting \/ state (sv_session x) = ServerCtrlConnectionState.Negotiation \/
     state (sv_session x) = ServerCtrlConnectionState.Monitor \/ state (sv_session x) = ServerCtrlConnectionState.Start ->
     state (sv_session y) = ServerCtrlConnectionState.Greeting \/ state (sv_session y) = ServerCtrlConnectionState.Negotiation \/
     state (sv_session y) = ServerCtrlConnectionState.Monitor \/ state (sv_session y) = ServerCtrlConnectionState.Start)) as Hinv.
  { intros x y Hxy. induction Hxy as [|x y z Hst _ (E1 & E2 & E3)]; [done|].
    destruct (Hstep x y Hst) as (st & b & Hm & Ey). rewrite Ey in E1, E2, E3. cbn in E1, E2, E3.
    split; [done|]. split; [done|]. intros Hx. apply E3. inversion Hm; subst; destruct Hx as [Hx|[Hx|[Hx|Hx]]]; rewrite ?Hx in *; try discriminate; auto. }
  destruct (Hinv s s' Hrun) as (E1 & E2 & E3). rewrite Hs in E1, E2, E3.
  split; [done|]. split; [done|]. split; [apply E3; by left|]. intros s'' Hr'. by apply Hg.
Qed.

(** C12: nobody passes the negotiation without a supported mode: when a transition takes the
    session from negotiation to monitoring, its buffer decodes to a client's set-up response
    all of whose modes the server supports. *)
Theorem negotiation_sound `{BuildProfile, HostEndian} {W} `{Libc W, MioUdp W}
    `{BeBytes SenderMessage, BeBytes ReflectedMessage, BeBytes ServerGreeting, BeBytes ClientSetupResponse, BeBytes ServerStart}
    `{BeBytes ControlMessage, BeBytes AcceptSessionMessage, BeBytes RequestTwSession} (s : Server W) socket :
  state (sv_session s) = ServerCtrlConnectionState.Negotiation ->
  let c' := sv_session (transition socket s).2 in
  state c' = ServerCtrlConnectionState.Monitor ->
  exists response k, try_from_be_bytes (T:=ClientSetupResponse) (rx_buffer c') = Ok (response, k) /\
    Modes_bitand (mode response) (supported_modes c') = mode response.
Proof.
  intros Hs c'. subst c'. unfold transition. rewrite bind_gets, Hs. unfold transition_negotiation.
  pose proof (keeps_receive socket (sv_session s) s (same_session_refl _)) as [b Hb].
  destruct (receive socket s) as [[n|e|p] s1] eqn:Er; cbn [snd] in Hb;
    [rewrite (bind_attempt_Ok _ _ _ _ _ Er)|rewrite (bind_attempt_Err _ _ _ _ _ Er)|rewrite (bind_attempt_Panic _ _ _ _ _ Er)];
    cbv beta iota.
  2:{ cbn. rewrite Hb. cbn. by rewrite Hs. }
  2:{ cbn. rewrite Hb. cbn. by rewrite Hs. }
  destruct (n =? 0); [cbn; rewrite Hb; cbn; by rewrite Hs|].
  unfold decode. rewrite bind_bind, bind_gets.
  destruct (try_from_be_bytes (rx_buffer (sv_session s1))) as [[r k]| |] eqn:Ed;
    [|unfold mbind, op_bind, fail, lift; cbn; rewrite Hb; cbn; by rewrite Hs..].
  rewrite bind_ret, bind_gets. destruct (decide _) as [Hm|]; [|cbn; rewrite Hb; cbn; by rewrite Hs].
  destruct (ntp_of_datetime _) as [start| |]; [rewrite bind_lift_Ok|unfold mbind, op_bind, fail, lift; cbn; rewrite Hb; cbn; by rewrite Hs..].
  match goal with |- context [attempt ?m] => assert (sv_session (m s1).2 = sv_session s1) as Hk
    by (unfold on_sys, zoom; by destruct (TcpSocket_send _ _ _)); destruct (m s1) as [[x|e|p] s2] eqn:Es end; cbn [snd] in Hk;
    [rewrite (bind_attempt_Ok _ _ _ _ _ Es)|rewrite (bind_attempt_Err _ _ _ _ _ Es)|rewrite (bind_attempt_Panic _ _ _ _ _ Es)];
    cbv beta iota.
  2:{ cbn. rewrite Hk, Hb. cbn. by rewrite Hs. }
  2:{ cbn. rewrite Hk, Hb. cbn. by rewrite Hs. }
  intros _. exists r, k. cbn. by rewrite Hk.
Qed.

(** Any client past the negotiation can end the server with one message: the commands
    Start-N-Sessions, Start-N-Ack, Stop-N-Sessions and Stop-N-Ack panic. *)
Theorem monitor_unimplemented `{BuildProfile, HostEndian} {W} `{Libc W, MioUdp W}
    `{BeBytes SenderMessage, BeBytes ReflectedMessage, BeBytes ServerGreeting, BeBytes ClientSetupResponse, BeBytes ServerStart}
    `{BeBytes ControlMessage, BeBytes AcceptSessionMessage, BeBytes RequestTwSession}
    (s s1 : Server W) socket n response k :
  state (sv_session s) = ServerCtrlConnectionState.Monitor ->
  receive socket s = (Ok n, s1) -> n <> 0 ->
  try_from_be_bytes (T:=RequestTwSession) (rx_buffer (sv_session s1)) = Ok (response, k) ->
  u8_of_command (request_type response) ∈ [7; 8; 9; 10] ->
  exists msg, (transition socket s).1 = Panic (Unimplemented msg).
Proof.
  intros Hs Hr Hn Hd Hc. unfold transition. rewrite bind_gets, Hs. unfold transition_monitor.
  rewrite (bind_attempt_Ok _ _ _ _ _ Hr). cbv beta iota. rewrite (proj2 (Z.eqb_neq _ _) Hn).
  unfold decode. rewrite bind_bind, bind_gets, Hd, bind_ret.
  destruct (request_type response); cbn in Hc; try (by eexists); exfalso; revert Hc;
    rewrite !elem_of_cons, elem_of_nil; lia.
Qed.

(** A control connection can be served by the wrong session: the callback of an accepted
    socket runs the first control session with the socket's descriptor, so when a descriptor
    is reused (sessions are never removed from the list) the events of the new connection
    step the old session and the new one stays untouched. *)
Theorem session_callback_first `{BuildProfile, HostEndian} {W} `{Libc W, MioUdp W}
    `{BeBytes SenderMessage, BeBytes ReflectedMessage, BeBytes ServerGreeting, BeBytes ClientSetupResponse, BeBytes ServerStart}
    `{BeBytes ControlMessage, BeBytes AcceptSessionMessage, BeBytes RequestTwSession}
    (s : Acceptor (W:=W)) socket old rest :
  control_sessions s = old :: rest -> cs_id old = tcp_inner socket ->
  exists old', moved old old' /\ control_sessions (session_callback socket s).2 = old' :: rest.
Proof.
  intros Hs Hid. unfold session_callback. rewrite bind_gets, Hs. cbn [list_find]. rewrite decide_True by done.
  set (v := Build_Server (ac_os s) old (ac_messages s) (ac_worker_free s)).
  pose proof (transition_moves v socket) as Hm. exists (sv_session (transition socket v).2). split; [exact Hm|].
  assert (Hrun : on_control old (fun _ cs' => <[0%nat := cs']>) (transition socket) s =
    ((transition socket v).1, Build_Acceptor (sv_os (transition socket v).2) (sv_session (transition socket v).2 :: rest)
       (ac_registered s) (sv_messages (transition socket v).2) (ac_worker_free s) (ac_loop_free s))).
  { unfold on_control. fold v. rewrite Hs. by destruct (transition socket v). }
  destruct (transition socket v) as [[[]|e|p] v']; cbn [fst snd] in *;
    [by rewrite (bind_attempt_Ok _ _ _ _ _ Hrun)|rewrite (bind_attempt_Err _ _ _ _ _ Hrun)|by rewrite (bind_attempt_Panic _ _ _ _ _ Hrun)].
  cbn. unfold on_ac, zoom, effect, mbind, op_bind. cbn. by destruct (sys_close _ _).
Qed.

(** Without its padding. *)
Definition bare (r : ReflectedMessage) : ReflectedMessage := {|
  reflector_sequence_number := reflector_sequence_number r; rm_timestamp := rm_timestamp r;
  rm_error_estimate := rm_error_estimate r; rm_mbz1 := rm_mbz1 r; receive_timestamp := receive_timestamp r;
  sender_sequence_number := sender_sequence_number r; sender_timestamp := sender_timestamp r;
  sender_error_estimate := sender_error_estimate r; rm_mbz2 := rm_mbz2 r; sender_ttl := sender_ttl r; rm_padding := [] |}.

Lemma first_reflected_bare `{BuildProfile} seq e t3 t2 m : padded m ->
  first_reflected_message seq e t3 t2 m = bare <$> reflected_message seq e t3 t2 m.
Proof.
  intros [Hp Hp']. unfold first_reflected_message, reflected_message, vec_zeroed, MIN_UNAUTH_PADDING in *.
  destruct (ntp_of_datetime t3) as [n3|e3|p3]; [cbn [mbind outcome_bind]|done..].
  destruct (ntp_of_datetime t2) as [n2|e2|p2]; [cbn [mbind outcome_bind]|done..].
  rewrite u_arith_in by (unfold in_u; lia). cbn [mbind outcome_bind].
  by rewrite (proj2 (Z.leb_le _ _)) by (unfold i_max; lia).
Qed.

Lemma first_reflected_minimal `{BuildProfile} seq e t3 t2 m : Z.of_nat (length (padding m)) = MIN_UNAUTH_PADDING ->
  first_reflected_message seq e t3 t2 m = reflected_message seq e t3 t2 m.
Proof.
  intros Hp. unfold first_reflected_message, reflected_message. rewrite Hp. done.
Qed.

Lemma control_received `{BuildProfile, HostEndian} {W} `{Libc W, BeBytes SenderMessage, BeBytes ReflectedMessage}
    addr sock token (s s1 : Shared W) buf n src t : received sock s s1 buf n src t ->
  rx_callback addr sock token s =
    (r ← lift (parse (T:=SenderMessage) (take (Z.to_nat n) buf));
     sessions ← gets sh_sessions;
     match list_find (fun s => of_peer addr src s = true) sessions with
     | Some (i, session) =>
         session' ← answer_in sock session (ErrorEstimate_new 1 0 1 1) src t r.1;
         _ ← modify (with_sessions (<[i := session']> sessions)); mret n
     | None =>
         utc_now ← now;
         reply ← lift (first_reflected_message 0 (ErrorEstimate_new 0 0 0 1) utc_now t r.1);
         _ ← UdpSocket_send_to sock src reply;
         session' ← lift (add_to_sent (Session_new addr src) reply);
         _ ← modify (with_sessions (sessions ++ [session'])); mret n
     end) s1.
Proof.
  intros (E & Hn & Hl). unfold rx_callback. cbv zeta. change zero_buffer with Reflector.rx_buffer. rewrite (bind_Ok _ _ _ _ _ E).
  rewrite Hl. unfold Reflector.rx_buffer at 1. rewrite length_replicate, Z2Nat.id by lia.
  rewrite (proj2 (Z.ltb_ge _ _)) by lia. rewrite Z.max_r by lia.
  unfold mbind, op_bind, lift. by destruct (parse _) as [[m k]| |].
Qed.

(** C18: the reflector of the control server and the light reflector are the same service: on
    every state and every datagram, errors and panics included, their callbacks do the same,
    except for a decodable message from a sender not seen before whose padding is not 27
    bytes; and what the control server answers then is the light reflector's answer without
    its padding. *)
Theorem control_reflects_alike `{BuildProfile, HostEndian} {W} `{Libc W, BeBytes SenderMessage, BeBytes ReflectedMessage}
    addr sock token (s : Shared W) :
  (forall buf n src t2 s1 m k, UdpSocket_receive_from sock zero_buffer s = (Ok (buf, n, src, t2), s1) ->
     parse (take (Z.to_nat (Z.max 0 n)) buf) = Ok (m, k) ->
     is_Some (list_find (fun x => of_peer addr src x = true) (sh_sessions s1)) \/
     Z.of_nat (length (padding m)) = MIN_UNAUTH_PADDING) ->
  rx_callback addr sock token s = Reflector.rx_callback addr sock token s /\
  forall seq e t3 t2 m, padded m -> first_reflected_message seq e t3 t2 m = bare <$> reflected_message seq e t3 t2 m.
Proof.
  intros Hknown. split; [|intros; by apply first_reflected_bare].
  unfold rx_callback, Reflector.rx_callback. cbv zeta. change (replicate (Z.to_nat (2 ^ 16)) 0) with zero_buffer.
  destruct (UdpSocket_receive_from sock zero_buffer s) as [[[[[buf n] src] t2]|e|p] s1] eqn:Er;
    [|by rewrite !(bind_Err _ _ _ _ _ Er)|by rewrite !(bind_Panic _ _ _ _ _ Er)].
  rewrite !(bind_Ok _ _ _ _ _ Er). destruct (_ <? _); [done|].
  destruct (parse _) as [[m k]|e|p] eqn:Ep; [|done..]. rewrite !bind_lift_Ok, !bind_gets.
  destruct (Hknown _ _ _ _ _ _ _ eq_refl Ep) as [[[i x] ->]|Hm]; [done|].
  destruct (list_find _ _) as [[i x]|]; [done|]. unfold answer_in. rewrite (bind_bind now).
  destruct (now s1) as [[t3|e|p] s2] eqn:En; [|by rewrite !(bind_Err _ _ _ _ _ En)|by rewrite !(bind_Panic _ _ _ _ _ En)].
  rewrite !(bind_Ok _ _ _ _ _ En), first_reflected_minimal, bind_bind by done.
  destruct (reflected_message _ _ _ _ _) as [reply|e|p]; [|done..]. rewrite !bind_lift_Ok, bind_bind.
  match goal with |- ((?f ≫= _) s2 = _) => destruct (f s2) as [[r|e|p] s3] eqn:Es end;
    [by rewrite !(bind_Ok _ _ _ _ _ Es)|by rewrite !(bind_Err _ _ _ _ _ Es)|by rewrite !(bind_Panic _ _ _ _ _ Es)].
Qed.

(** ** Concrete runs *)

Import Scripted BigEndian.

Module ScriptedMio.
(** The bound socket is the script's next number. *)
#[export] Instance scripted_mio : MioUdp scripted := fun _ w => let '(fd, w') := step_call (CSocket 2 2) w in (inr fd, w').
End ScriptedMio.
Import ScriptedMio.

(** One TCP segment waiting to be read. *)
Definition segment (bytes : list Z) : scripted :=
  scripted_of [Z.of_nat (length bytes)] [{| dg_bytes := bytes; dg_name := []; dg_stack := []; dg_cmsgs := [] |}].
Definition unauthenticated : Modes := Modes_set (Modes_new 0) Unauthenticated.
Definition sample_control (st : ServerCtrlConnectionState.t) : ControlSession :=
  with_state st (ControlSession_new sample_time 5 unauthenticated 1 1).
Definition serve (bytes : list Z) (c : ControlSession) : Server scripted := Build_Server (segment bytes) c [] true.
Definition sample_setup (m : Modes) : ClientSetupResponse :=
  ClientSetupResponse_new m (replicate 80 0) (replicate 64 0) (replicate 16 0).
#[local] Existing Instance DEBUG.
#[local] Existing Instance LE.


Example control_reachable_witness :
  let c := ControlSession_new sample_time 5 unauthenticated 1 1 in
  let s' := (transition (TcpSocket 5) (serve [] c)).2 in
  cs_id (sv_session s') = 5 /\ supported_modes (sv_session s') = unauthenticated.
Proof.
  intros c s'.
  destruct (control_reachable (serve [] c) s' sample_time 5 unauthenticated 1 1 eq_refl
    (rtc_once _ _ (step_transition _ (TcpSocket 5)))) as (E1 & E2 & _).
  by split.
Defined.

Example negotiation_sound_witness :
  let s := serve (to_be_bytes (sample_setup unauthenticated)) (sample_control ServerCtrlConnectionState.Negotiation) in
  exists response k, try_from_be_bytes (T:=ClientSetupResponse)
      (rx_buffer (sv_session (transition (TcpSocket 5) s).2)) = Ok (response, k) /\
    Modes_bitand (mode response) (supported_modes (sv_session (transition (TcpSocket 5) s).2)) = mode response.
Proof. intros s. apply (negotiation_sound s (TcpSocket 5)); [reflexivity|vm_compute; reflexivity]. Defined.

(** A request that is only its command. *)
Definition command (n : Z) : list Z := n :: replicate 104 0.

Definition command_request (c : TwampControlCommand.t) : RequestTwSession :=
  Build_RequestTwSession c 0 0 0 0 0 0 0 0 (replicate 16 0) (replicate 16 0) (replicate 16 0) 0
    {| seconds := 0; fraction := 0 |} 0 0 (replicate 8 0) (replicate 16 0).
Definition monitor_7 : Server scripted := serve (command 7) (sample_control ServerCtrlConnectionState.Monitor).

Example monitor_unimplemented_witness : exists msg, (transition (TcpSocket 5) monitor_7).1 = Panic (Unimplemented msg).
Proof.
  apply (monitor_unimplemented monitor_7 (receive (TcpSocket 5) monitor_7).2 (TcpSocket 5) 105
    (command_request TwampControlCommand.StartNSessions) 105);
    [reflexivity|reflexivity|lia|vm_compute; reflexivity|cbn; set_solver].
Defined.

(** Descriptor 5 was used before by a session that is past its negotiation. *)
Definition reused : Acceptor (W:=scripted) :=
  Build_Acceptor (segment (to_be_bytes (sample_setup unauthenticated)))
    [sample_control ServerCtrlConnectionState.Monitor; sample_control ServerCtrlConnectionState.Negotiation] [] [] true true.

Example session_callback_first_witness : exists old',
  moved (sample_control ServerCtrlConnectionState.Monitor) old' /\
  control_sessions (session_callback (TcpSocket 5) reused).2 = [old'; sample_control ServerCtrlConnectionState.Negotiation].
Proof.
  apply (session_callback_first reused (TcpSocket 5) (sample_control ServerCtrlConnectionState.Monitor)
    [sample_control ServerCtrlConnectionState.Negotiation]); reflexivity.
Defined.

Example control_reflects_alike_witness :
  rx_callback sample_addr (UdpSocket_new 3) 0 (reflector_world (to_be_bytes sample_sender)) =
    Reflector.rx_callback sample_addr (UdpSocket_new 3) 0 (reflector_world (to_be_bytes sample_sender)).
Proof.
  apply (control_reflects_alike sample_addr (UdpSocket_new 3) 0 (reflector_world (to_be_bytes sample_sender))).
  destruct received_request as (E & _). change Reflector.rx_buffer with zero_buffer in E.
  intros buf n src t2 s1 m k Er. rewrite E in Er. injection Er as <- <- <- <- <-.
  assert (parse (take (Z.to_nat (Z.max 0 41)) (write_buffer zero_buffer (to_be_bytes sample_sender))) = Ok (sample_sender, 41)) as Ep
    by (vm_compute; reflexivity).
  intros Ep'. assert (Ok (E:=CommonError) (m, k) = Ok (sample_sender, 41)) as Em by (rewrite <-Ep'; exact Ep).
  injection Em as -> ->. right. reflexivity.
Defined.
