(* ===== verification/ControlClient.v ===== *)
(** * [twamp/src/twamp_control]: [control_client_session.rs] and [control_client.rs]

    The client of the control protocol: the state machine of its one control connection,
    which runs the test itself once the server has acknowledged its start. *)
From stdpp Require Import base list option numbers strings gmap.
From Stdlib Require Import ZArith Lia.
From S2P Require Import Prelude Float64 Errors Time Net DataModel Messages Wire Session Sockets EventLoop Shared LightSender Reflector Control.
Local Open Scope Z_scope.

Record ClientControlSession := {
  cc_id : Z;
  cc_modes : Modes;
  cc_state : SenderSessionState.t;
  test_session : SessionSender;
  cc_retry_count : Z;
  cc_buffer : list Z
}.

Definition ClientControlSession_new (token : Z) (mode : Modes) (retry_count : Z)
    (sessions_configuration : LightSender.Configuration) : ClientControlSession := {|
  cc_id := token; cc_modes := mode; cc_state := SenderSessionState.AwaitingServerGreeting;
  test_session := SessionSender_new sessions_configuration; cc_retry_count := retry_count; cc_buffer := zero_buffer |}.

(** The state the client works on: the operating system and the sessions it shares with the
    worker, itself, and what was sent to the worker.  Whether each [try_lock] of the worker's
    channel succeeds, and the token the channel holds at each poll, are inputs. *)
Record Client (W : Type) := {
  cl_shared : Shared W;
  cl_session : ClientControlSession;
  cl_messages : list (EventLoopMessages (W:=Shared W) (T:=TimestampedUdpSocket));
  cl_locks : list bool;
  cl_tokens : list Z
}.
Arguments Build_Client {_} _ _ _ _ _.
Arguments cl_shared {_} _.
Arguments cl_session {_} _.
Arguments cl_messages {_} _.
Arguments cl_locks {_} _.
Arguments cl_tokens {_} _.

#[local] Existing Instance AcceptFields.eq_dec.

Section client.
Context `{BP : BuildProfile, HE : HostEndian} {W : Type} `{LC : Libc W}.
Context `{SB : BeBytes SenderMessage, RB : BeBytes ReflectedMessage}.
Context `{GB : BeBytes ServerGreeting, CB : BeBytes ClientSetupResponse, StB : BeBytes ServerStart}.
Context `{CoB : BeBytes ControlMessage, AB : BeBytes AcceptSessionMessage, QB : BeBytes RequestTwSession}.

#[local] Abbreviation io := (op (Client W) CommonError).

Definition on_client {A} (m : op (Shared W) CommonError A) : io A :=
  zoom cl_shared (fun w s => Build_Client w (cl_session s) (cl_messages s) (cl_locks s) (cl_tokens s)) m.
Definition on_cc (f : ClientControlSession -> ClientControlSession) : io () :=
  modify (fun s => Build_Client (cl_shared s) (f (cl_session s)) (cl_messages s) (cl_locks s) (cl_tokens s)).
Definition set_cc_state (st : SenderSessionState.t) : io () :=
  on_cc (fun c => {| cc_id := cc_id c; cc_modes := cc_modes c; cc_state := st; test_session := test_session c;
                     cc_retry_count := cc_retry_count c; cc_buffer := cc_buffer c |}).
Definition set_cc_buffer (b : list Z) : io () :=
  on_cc (fun c => {| cc_id := cc_id c; cc_modes := cc_modes c; cc_state := cc_state c; test_session := test_session c;
                     cc_retry_count := cc_retry_count c; cc_buffer := b |}).

Definition cc_receive (socket : TimestampedTcpSocket) : io Z :=
  s ← gets cl_session;
  '(buffer, n, _) ← on_client (TcpSocket_receive socket (cc_buffer s));
  _ ← set_cc_buffer buffer;
  mret n.

Definition cc_decode {T} `{BeBytes T} : io (option T) :=
  s ← gets cl_session;
  match try_from_be_bytes (cc_buffer s) with
  | Ok (response, _) => mret (Some response)
  | Err _ => mret None
  | Panic p => lift (Panic p)
  end.

(** [worker_event_sender.try_lock()?] *)
Definition lock_channel : io () :=
  l ← gets (fun s => default true (head (cl_locks s)));
  _ ← modify (fun s => Build_Client (cl_shared s) (cl_session s) (cl_messages s) (tail (cl_locks s)) (cl_tokens s));
  if l : bool then mret () else fail Lock.
Definition send_message (m : EventLoopMessages) : io () :=
  modify (fun s => Build_Client (cl_shared s) (cl_session s) (cl_messages s ++ [m]) (cl_locks s) (cl_tokens s)).

Definition send_client_setup (socket : TimestampedTcpSocket) : io () :=
  s ← gets cl_session;
  result ← attempt (on_client (TcpSocket_send socket
    (ClientSetupResponse_new (cc_modes s) (replicate 80 0) (replicate 64 0) (replicate 16 0))));
  match result with
  | inr _ => set_cc_state SenderSessionState.AwaitingServerStart
  | inl _ => fail (Generic "Error SendingClientSetup")
  end.

Definition await_server_greeting (socket : TimestampedTcpSocket) : io () :=
  result ← attempt (cc_receive socket);
  match result with
  | inl _ => mret ()
  | inr n =>
      if n =? 0 then mret () else
      response ← cc_decode (T:=ServerGreeting);
      match response with
      | None => fail (Generic "Error parsing Greeting response")
      | Some response =>
          s ← gets cl_session;
          if decide (Modes_bitand (modes response) (cc_modes s) = modes response) then
            _ ← set_cc_state SenderSessionState.SendingClientSetup;
            send_client_setup socket
          else fail (Generic "Mode not supported")
      end
  end.

Definition session_request (t : SessionSender) (target : SocketAddr) (start : NtpTimestamp) : result RequestTwSession :=
  build (foldl builder_set RequestTwSessionBuilder_new [
    set_request_type TwampControlCommand.RequestTwSession;
    set_ipvn (match ss_source t with SockV4 _ _ => 4 | SockV6 _ _ _ _ => 6 end);
    set_num_schedule_slots 0; set_num_packets 0;
    set_sender_port (sock_port (ss_source t)); set_receiver_port (sock_port target);
    set_sender_address (sock_ip (ss_source t)); set_receiver_address (sock_ip target);
    set_sid (replicate 16 0); set_padding_length (as_u 32 (ss_padding t)); set_start_time start;
    set_timeout (as_u 32 (as_secs (ss_last_message_timeout t))); set_type_p 0; set_hmac (replicate 16 0)]).

Definition send_request_session (socket : TimestampedTcpSocket) : io () :=
  s ← gets cl_session;
  let t := test_session s in
  receiver_address ← lift (unwrap_option (head (targets t)));
  start ← on_client ntp_timestamp_now;
  request ← lift (session_request t receiver_address start);
  result ← attempt (on_client (TcpSocket_send socket request));
  match result with
  | inr _ => set_cc_state SenderSessionState.AwaitingSessionAcceptance
  | inl _ => fail (Generic "Error sending RequestTwSession response")
  end.

Definition await_server_start (socket : TimestampedTcpSocket) : io () :=
  result ← attempt (cc_receive socket);
  match result with
  | inl _ => mret ()
  | inr n =>
      if n =? 0 then mret () else
      response ← cc_decode (T:=ServerStart);
      match response with
      | None => fail (Generic "Error parsing Start response")
      | Some response =>
          match ss_accept response with
          | AcceptFields.NotSupported => fail (Generic "Accept field value NotSupported")
          | AcceptFields.Ok =>
              _ ← set_cc_state SenderSessionState.SendingRequestSession;
              send_request_session socket
          | _ => lift (Panic Todo)
          end
      end
  end.

Definition start_sessions : ControlMessage :=
  {| control_command := u8_of_command TwampControlCommand.StartSessions; cm_mbz := replicate 15 0; cm_hmac := replicate 16 0 |}.
Definition stop_sessions : ControlMessage :=
  {| control_command := u8_of_command TwampControlCommand.StopSessions; cm_mbz := replicate 15 0; cm_hmac := replicate 16 0 |}.

Definition establish_session (socket : TimestampedTcpSocket) : io () :=
  _ ← on_client (TcpSocket_send socket start_sessions);
  set_cc_state SenderSessionState.AwaitingStartAck.

Definition await_session_acceptance (socket : TimestampedTcpSocket) : io () :=
  result ← attempt (cc_receive socket);
  match result with
  | inl _ => mret ()
  | inr n =>
      if n =? 0 then mret () else
      response ← cc_decode (T:=AcceptSessionMessage);
      match response with
      | None => fail (Generic "Error parsing Greeting response")
      | Some response =>
          if decide (accept response = AcceptFields.Ok) then
            _ ← set_cc_state SenderSessionState.SessionEstablished; establish_session socket
          else
            _ ← set_cc_state SenderSessionState.SessionRefused; fail (Generic "SessionRefused Error")
      end
  end.

(** The polls of the channel, a tenth of a second apart, until it holds a token; [None] when
    it holds none at any of the polls given. *)
Fixpoint await_token (tokens : list Z) : io (option Token) :=
  match tokens with
  | [] => mret None
  | token_value :: tokens' =>
      _ ← lock_channel;
      match fst (get_token token_value None) with
      | Ok token => mret (Some token)
      | _ => await_token tokens'
      end
  end.

(** [false]: the client is still polling for the token.  Sleeping and parking leave the state
    alone. *)
Definition run_test (fuel : nat) (socket : TimestampedTcpSocket) : io bool :=
  s ← gets cl_session;
  let t := test_session s in
  session_socket ← on_client (create_udp_socket t);
  _ ← or_drop (fun s => Build_Client (sys_close (udp_inner session_socket) (cl_shared s)).2 (cl_session s)
                          (cl_messages s) (cl_locks s) (cl_tokens s)) lock_channel;
  _ ← send_message (Register (session_socket, as_callback (fueled (LightSender.rx_callback fuel))));
  tokens ← gets cl_tokens;
  token ← await_token tokens;
  match token with
  | None => mret false
  | Some token =>
      _ ← send_message (RegisterTimed
            {| it_interval := ss_packet_interval t; it_value := Duration_from_millis 10 |} token
            (as_callback (tx_callback (ss_padding t))));
      timeout ← lift (Duration_add (ss_duration t) (ss_last_message_timeout t));
      _ ← lock_channel;
      _ ← send_message (TimedCleanup {| it_interval := Duration_from_millis 10; it_value := timeout |} 0);
      _ ← on_client (TcpSocket_send socket stop_sessions);
      mret true
  end.

Definition await_start_ack (fuel : nat) (socket : TimestampedTcpSocket) : io bool :=
  n ← cc_receive socket;
  if n =? 0 then mret true else
  response ← cc_decode (T:=ControlMessage);
  match response with
  | None => _ ← set_cc_state SenderSessionState.FinalState; mret true
  | Some response =>
      if control_command response =? u8_of_accept AcceptFields.Ok then
        _ ← set_cc_state SenderSessionState.TestInProgress; run_test fuel socket
      else mret true
  end.

(** The states after a test or a refusal. *)
Definition client_ended (state : SenderSessionState.t) : io bool :=
  match state with
  | SenderSessionState.SessionRefused => fail (Generic "SessionRefused Error")
  | SenderSessionState.ClosingConnection => fail (Generic "ClosingConnection Error")
  | _ => mret true
  end.

Definition client_transition (fuel : nat) (socket : TimestampedTcpSocket) : io bool :=
  s ← gets cl_session;
  match cc_state s with
  | SenderSessionState.AwaitingServerGreeting => _ ← await_server_greeting socket; mret true
  | SenderSessionState.SendingClientSetup => _ ← send_client_setup socket; mret true
  | SenderSessionState.AwaitingServerStart => _ ← await_server_start socket; mret true
  | SenderSessionState.SendingRequestSession => _ ← send_request_session socket; mret true
  | SenderSessionState.AwaitingSessionAcceptance => _ ← await_session_acceptance socket; mret true
  | SenderSessionState.SessionEstablished => _ ← establish_session socket; mret true
  | SenderSessionState.AwaitingStartAck => await_start_ack fuel socket
  | SenderSessionState.TestInProgress => run_test fuel socket
  | SenderSessionState.SessionRefused | SenderSessionState.ClosingConnection | SenderSessionState.FinalState =>
      client_ended (cc_state s)
  end.
End client.

(** ** Lemmas *)

Section facts.
Context `{BP : BuildProfile, HE : HostEndian} {W : Type} `{LC : Libc W}.
Context `{SB : BeBytes SenderMessage, RB : BeBytes ReflectedMessage}.
Context `{GB : BeBytes ServerGreeting, CB : BeBytes ClientSetupResponse, StB : BeBytes ServerStart}.
Context `{CoB : BeBytes ControlMessage, AB : BeBytes AcceptSessionMessage, QB : BeBytes RequestTwSession}.
Implicit Types s : Client W.

Definition keeps_client {A} (m : op (Client W) CommonError A) : Prop :=
  forall c, preserves (fun s => cl_session s = c) m.

Lemma keeps_on_client {A} (m : op (Shared W) CommonError A) : keeps_client (on_client m).
Proof. intros c s Hs. unfold on_client, zoom. by destruct (m (cl_shared s)). Qed.

Lemma keeps_lock_channel : keeps_client lock_channel.
Proof.
  intros c. unfold lock_channel. apply preserves_bind; [apply preserves_gets|]. intros l.
  apply preserves_bind; [by apply preserves_modify|]. intros _.
  destruct l; [apply preserves_ret|apply preserves_fail].
Qed.

Lemma keeps_send_message m : keeps_client (send_message m).
Proof. intros c. by apply preserves_modify. Qed.

Lemma keeps_await_token tokens : keeps_client (await_token tokens).
Proof.
  induction tokens as [|t tokens IH]; intros c; [apply preserves_ret|]. cbn [await_token].
  apply preserves_bind; [apply keeps_lock_channel|]. intros _.
  destruct (get_token t None).1; [apply preserves_ret|apply IH..].
Qed.

(** Running the test leaves the client session, its state included, as it is. *)
Lemma keeps_run_test fuel socket : keeps_client (run_test fuel socket).
Proof.
  intros c. unfold run_test. apply preserves_bind; [apply preserves_gets|]. intros x.
  apply preserves_bind; [apply keeps_on_client|]. intros u.
  apply preserves_bind.
  { intros s Hs. pose proof (keeps_lock_channel c s Hs) as Hk. unfold or_drop. by destruct (lock_channel s) as [[] s']. }
  intros _. apply preserves_bind; [apply keeps_send_message|]. intros _.
  apply preserves_bind; [apply preserves_gets|]. intros tokens.
  apply preserves_bind; [apply keeps_await_token|]. intros [t|]; [|apply preserves_ret].
  apply preserves_bind; [apply keeps_send_message|]. intros _.
  apply preserves_bind; [apply preserves_lift|]. intros d.
  apply preserves_bind; [apply keeps_lock_channel|]. intros _.
  apply preserves_bind; [apply keeps_send_message|]. intros _.
  apply preserves_bind; [apply keeps_on_client|]. intros ?. apply preserves_ret.
Qed.
End facts.

Section test.
Context `{BP : BuildProfile, HE : HostEndian} {W : Type} `{LC : Libc W}.
Context `{SB : BeBytes SenderMessage, RB : BeBytes ReflectedMessage, CoB : BeBytes ControlMessage}.
Implicit Types s : Client W.

Lemma lock_channel_free s : cl_locks s = [] -> lock_channel s = (Ok (), s).
Proof. intros Hl. unfold lock_channel. rewrite bind_gets, bind_modify, Hl. cbn. rewrite <-Hl. by destruct s. Qed.

(** Polling ends at the first token. *)
Lemma await_token_first k tok rest s : cl_locks s = [] -> tok <> USIZE_MAX ->
  await_token (replicate k USIZE_MAX ++ tok :: rest) s = (Ok (Some tok), s).
Proof.
  intros Hl Ht. induction k as [|k IH]; cbn [replicate app await_token]; rewrite (bind_Ok _ _ _ _ _ (lock_channel_free s Hl)).
  - unfold get_token. by rewrite (proj2 (Z.eqb_neq _ _) Ht).
  - exact IH.
Qed.
End test.

(** ** Properties *)

(** The client only accepts a server whose modes are all its own: a server that offers a
    mode the client lacks is refused, also when it supports the client's mode, and a server
    that offers no mode (which is how a server declines) is answered with a set-up. *)
Theorem client_mode_check `{BuildProfile, HostEndian} {W} `{Libc W}
    `{BeBytes SenderMessage, BeBytes ReflectedMessage, BeBytes ServerGreeting, BeBytes ClientSetupResponse, BeBytes ServerStart}
    `{BeBytes ControlMessage, BeBytes AcceptSessionMessage, BeBytes RequestTwSession}
    fuel socket (s s1 : Client W) n response k :
  cc_state (cl_session s) = SenderSessionState.AwaitingServerGreeting ->
  cc_receive socket s = (Ok n, s1) -> n <> 0 ->
  try_from_be_bytes (T:=ServerGreeting) (cc_buffer (cl_session s1)) = Ok (response, k) ->
  let offered := bits (modes response) in let own := bits (cc_modes (cl_session s1)) in
  (Z.land offered own <> offered -> client_transition fuel socket s = (Err (Generic "Mode not supported"), s1)) /\
  (Z.land offered own = offered -> client_transition fuel socket s =
     (_ ← set_cc_state SenderSessionState.SendingClientSetup; _ ← send_client_setup socket; mret true) s1) /\
  (offered = 0 -> Z.land offered own = offered).
Proof.
  intros Hs Hr Hn Hd offered own. unfold client_transition. rewrite bind_gets, Hs.
  unfold await_server_greeting. rewrite bind_bind, (bind_attempt_Ok _ _ _ _ _ Hr). cbv beta iota.
  rewrite (proj2 (Z.eqb_neq _ _) Hn). unfold cc_decode. rewrite !bind_bind, bind_gets, Hd, bind_ret.
  cbv beta iota. rewrite bind_bind, bind_gets.
  assert (Modes_bitand (modes response) (cc_modes (cl_session s1)) = modes response <-> Z.land offered own = offered) as Hiff.
  { unfold Modes_bitand, offered, own. destruct (modes response) as [b]. cbn. split; [by intros [= ->]|by intros ->]. }
  split; [|split; [|by intros ->]].
  - intros Hno. rewrite decide_False by (by rewrite Hiff). done.
  - intros Hyes. rewrite decide_True by (by rewrite Hiff). by rewrite bind_bind.
Qed.

(** A finished test starts over: the client stays in the state that runs the test, so each
    later event on the control socket (the server's closing it, for one) runs the whole test
    again with a new socket, timers and stop message. *)
Theorem client_test_repeats `{BuildProfile, HostEndian} {W} `{Libc W}
    `{BeBytes SenderMessage, BeBytes ReflectedMessage, BeBytes ServerGreeting, BeBytes ClientSetupResponse, BeBytes ServerStart}
    `{BeBytes ControlMessage, BeBytes AcceptSessionMessage, BeBytes RequestTwSession}
    fuel socket (s : Client W) :
  cc_state (cl_session s) = SenderSessionState.TestInProgress ->
  client_transition fuel socket s = run_test fuel socket s /\
  cl_session (client_transition fuel socket s).2 = cl_session s /\
  client_transition fuel socket (client_transition fuel socket s).2 =
    run_test fuel socket (run_test fuel socket s).2.
Proof.
  intros Hs. assert (client_transition fuel socket s = run_test fuel socket s) as E.
  { unfold client_transition. by rewrite bind_gets, Hs. }
  pose proof (keeps_run_test fuel socket (cl_session s) s eq_refl) as Hk.
  split; [done|]. rewrite E. split; [exact Hk|].
  unfold client_transition. by rewrite bind_gets, Hk, Hs.
Qed.

(** A server that declines for any reason but an unsupported mode crashes the client: the
    four other accept values are unfinished branches of the program. *)
Theorem client_refusal_panics `{BuildProfile, HostEndian} {W} `{Libc W}
    `{BeBytes SenderMessage, BeBytes ReflectedMessage, BeBytes ServerGreeting, BeBytes ClientSetupResponse, BeBytes ServerStart}
    `{BeBytes ControlMessage, BeBytes AcceptSessionMessage, BeBytes RequestTwSession}
    fuel socket (s s1 : Client W) n response k :
  cc_state (cl_session s) = SenderSessionState.AwaitingServerStart ->
  cc_receive socket s = (Ok n, s1) -> n <> 0 ->
  try_from_be_bytes (T:=ServerStart) (cc_buffer (cl_session s1)) = Ok (response, k) ->
  ss_accept response <> AcceptFields.Ok -> ss_accept response <> AcceptFields.NotSupported ->
  (client_transition fuel socket s).1 = Panic Todo.
Proof.
  intros Hs Hr Hn Hd Ha Ha'. unfold client_transition. rewrite bind_gets, Hs.
  unfold await_server_start. rewrite bind_bind, (bind_attempt_Ok _ _ _ _ _ Hr). cbv beta iota.
  rewrite (proj2 (Z.eqb_neq _ _) Hn). unfold cc_decode. rewrite !bind_bind, bind_gets, Hd, bind_ret.
  cbv beta iota. by destruct (ss_accept response).
Qed.

(** The client's test is handed over in order: once the acknowledgement is in, the test
    socket is registered with the worker, and, as soon as the worker has given it a token (at
    whichever poll), the sending timer on that token and the clean-up after the duration and
    the timeout; then the server is told to stop. *)
Theorem client_runs_test `{BuildProfile, HostEndian} {W} `{Libc W, BeBytes SenderMessage, BeBytes ReflectedMessage, BeBytes ControlMessage}
    fuel socket (s : Client W) sock w1 w2 r timeout k tok rest :
  let t := test_session (cl_session s) in
  create_udp_socket t (cl_shared s) = (Ok sock, w1) -> cl_locks s = [] ->
  cl_tokens s = replicate k USIZE_MAX ++ tok :: rest -> tok <> USIZE_MAX ->
  Duration_add (E:=CommonError) (ss_duration t) (ss_last_message_timeout t) = Ok timeout ->
  TcpSocket_send socket stop_sessions w1 = (Ok r, w2) ->
  run_test fuel socket s = (Ok true, Build_Client w2 (cl_session s)
    (cl_messages s ++
      [Register (sock, as_callback (fueled (LightSender.rx_callback fuel)));
       RegisterTimed {| it_interval := ss_packet_interval t; it_value := Duration_from_millis 10 |} tok
         (as_callback (tx_callback (ss_padding t)));
       TimedCleanup {| it_interval := Duration_from_millis 10; it_value := timeout |} 0]) [] (cl_tokens s)).
Proof.
  intros t Hu Hl Ht Htok Hd Hsend. unfold run_test. rewrite bind_gets. fold t.
  assert (Hon : forall A (m : op (Shared W) CommonError A) (x : Client W) a w, m (cl_shared x) = (Ok a, w) ->
    on_client m x = (Ok a, Build_Client w (cl_session x) (cl_messages x) (cl_locks x) (cl_tokens x))).
  { intros A m x a w E. unfold on_client, zoom. by rewrite E. }
  rewrite (bind_Ok _ _ _ _ _ (Hon _ _ s _ _ Hu)).
  erewrite bind_Ok; [|unfold or_drop; rewrite lock_channel_free by done; reflexivity].
  unfold send_message. rewrite bind_modify, bind_gets. cbn [cl_tokens cl_shared cl_session cl_messages cl_locks]. rewrite Ht.
  rewrite (bind_Ok _ _ _ _ _ (await_token_first k tok rest (Build_Client _ _ _ (cl_locks s) _) Hl Htok)). cbv iota.
  rewrite bind_modify, Hd, bind_lift_Ok. cbn [cl_tokens cl_shared cl_session cl_messages cl_locks].
  rewrite (bind_Ok _ _ _ _ _ (lock_channel_free (Build_Client _ _ _ (cl_locks s) _) Hl)), bind_modify.
  cbn [cl_tokens cl_shared cl_session cl_messages cl_locks].
  rewrite (bind_Ok _ _ _ _ _ (Hon _ _ (Build_Client w1 _ _ _ _) _ _ Hsend)). cbn [cl_tokens cl_shared cl_session cl_messages cl_locks].
  rewrite ret_run, Hl, <-!app_assoc. done.
Qed.

(** ** Concrete runs *)

Import Scripted BigEndian.
#[local] Existing Instance DEBUG.
#[local] Existing Instance LE.

Definition sample_client (st : SenderSessionState.t) : ClientControlSession := {|
  cc_id := 0; cc_modes := unauthenticated; cc_state := st;
  test_session := SessionSender_new (LightSender.Configuration_new [sample_addr] sample_addr 5 100 0 1);
  cc_retry_count := 0; cc_buffer := zero_buffer |}.
Definition client_reads (bytes : list Z) (c : ClientControlSession) : Client scripted :=
  Build_Client (Build_Shared (segment bytes) [] false) c [] [] [].

(** A server that supports two modes. *)
Definition superset_server : Client scripted :=
  client_reads (to_be_bytes (greeting (Modes_new 3))) (sample_client SenderSessionState.AwaitingServerGreeting).

Example client_mode_check_witness :
  client_transition 0 (TcpSocket 4) superset_server =
    (Err (Generic "Mode not supported"), (cc_receive (TcpSocket 4) superset_server).2).
Proof.
  apply (client_mode_check 0 (TcpSocket 4) superset_server (cc_receive (TcpSocket 4) superset_server).2 61 (greeting (Modes_new 3)) 61);
    [reflexivity|apply fst_eq_pair; reflexivity|lia|vm_compute; reflexivity|vm_compute; discriminate].
Defined.

Example client_test_repeats_witness :
  let s := client_reads [] (sample_client SenderSessionState.TestInProgress) in
  cl_session (client_transition 0 (TcpSocket 4) s).2 = sample_client SenderSessionState.TestInProgress.
Proof. intros s. apply (client_test_repeats 0 (TcpSocket 4) s). reflexivity. Defined.

Definition refusing_server : Client scripted :=
  client_reads (to_be_bytes (Build_ServerStart (replicate 15 0) AcceptFields.Failure (replicate 16 0)
    {| seconds := 0; fraction := 0 |} (replicate 8 0))) (sample_client SenderSessionState.AwaitingServerStart).

Example client_refusal_panics_witness : (client_transition 0 (TcpSocket 4) refusing_server).1 = Panic Todo.
Proof.
  apply (client_refusal_panics 0 (TcpSocket 4) refusing_server (cc_receive (TcpSocket 4) refusing_server).2 48
    (Build_ServerStart (replicate 15 0) AcceptFields.Failure (replicate 16 0) {| seconds := 0; fraction := 0 |} (replicate 8 0)) 48);
    [reflexivity|apply fst_eq_pair; reflexivity|lia|vm_compute; reflexivity|done|done].
Defined.

Definition testing_client : Client scripted :=
  Build_Client (Build_Shared (scripted_of [7] []) [] false) (sample_client SenderSessionState.TestInProgress) [] [] [USIZE_MAX; 0].
Definition test_bound : Shared scripted := (create_udp_socket (test_session (cl_session testing_client)) (cl_shared testing_client)).2.

Example client_runs_test_witness : exists c,
  run_test 9 (TcpSocket 4) testing_client = (Ok true, c) /\ length (cl_messages c) = 3%nat.
Proof.
  eexists. split.
  - apply (client_runs_test 9 (TcpSocket 4) testing_client (UdpSocket_new 7) test_bound
      (TcpSocket_send (TcpSocket 4) stop_sessions test_bound).2 (0, {| sec := 1700000000; nanos := 5 |})
      {| as_secs := 6; subsec_nanos := 0 |} 1 0 []);
      [apply fst_eq_pair; vm_compute; reflexivity|reflexivity|reflexivity|done|reflexivity|apply fst_eq_pair; vm_compute; reflexivity].
  - reflexivity.
Defined.
