(* ===== verification/Handshake.v ===== *)
(** * The control protocol end to end

    The two state machines of [Control] and [ControlClient] run against each other: in each
    turn one side reads exactly the bytes the other side sent in the turn before, over the
    big-endian codec and a scripted operating system whose calls succeed. *)
From stdpp Require Import base list option numbers strings gmap.
From Stdlib Require Import ZArith Lia.
From S2P Require Import Prelude Float64 Errors Time Net DataModel Messages Wire Session Sockets EventLoop Shared LightSender Reflector Control ControlClient.
Local Open Scope Z_scope.
Import Scripted BigEndian ScriptedMio.

(** ** Codecs that decode any long enough input *)

Definition codec_total {A} (n : nat) (c : codec A) : Prop := forall bs, (n <= length bs)%nat ->
  exists a r, dec c bs = Some (a, r) /\ (length r + n = length bs)%nat.

Lemma dec_fixed_total {A} n (f : list Z -> A) bs : (n <= length bs)%nat ->
  exists r, dec_fixed n f bs = Some (f (take n bs), r) /\ (length r + n = length bs)%nat.
Proof.
  intros Hl. unfold dec_fixed. rewrite (proj2 (Nat.leb_le _ _) Hl). eexists. split; [done|]. rewrite length_drop. lia.
Qed.
Lemma uint_total n : codec_total n (c_uint n).
Proof. intros bs Hl. destruct (dec_fixed_total n be_value bs Hl) as (r & E & ?). by eexists _, r. Qed.
Lemma bytes_total n : codec_total n (c_bytes n).
Proof. intros bs Hl. destruct (dec_fixed_total n (fun l => l) bs Hl) as (r & E & ?). by eexists _, r. Qed.
Lemma pair_total {A B} n k (ca : codec A) (cb : codec B) : codec_total n ca -> codec_total k cb -> codec_total (n + k) (ca ⋈ cb).
Proof.
  intros Ha Hb bs Hl. destruct (Ha bs) as (a & r & Ea & Hr); [lia|]. destruct (Hb r) as (b & r' & Eb & Hr'); [lia|].
  exists (a, b), r'. split; [|lia]. cbn. rewrite Ea. cbn. by rewrite Eb.
Qed.
Lemma ntp_total : codec_total 8 c_ntp.
Proof.
  intros bs Hl. destruct (pair_total 4 4 _ _ (uint_total 4) (uint_total 4) bs Hl) as ([a b] & r & E & Hr).
  exists {| seconds := a; fraction := b |}, r. split; [|done]. change (dec c_ntp bs) with
    ('(a, r) ← dec (c_uint 4 ⋈ c_uint 4) bs; b ← (let '(s, f) := a in Some {| seconds := s; fraction := f |}); Some (b, r)).
  by rewrite E.
Qed.

(** Any 105 bytes that begin with a command are a request of that command. *)
Lemma request_decodes c bs : (104 <= length bs)%nat ->
  exists r k, try_from_be_bytes (T:=RequestTwSession) (u8_of_command c :: bs) = Ok (r, k) /\ request_type r = c.
Proof.
  intros Hl.
  pose proof (pair_total _ _ _ _ (uint_total 1) (pair_total _ _ _ _ (uint_total 1) (pair_total _ _ _ _ (uint_total 1)
    (pair_total _ _ _ _ (uint_total 4) (pair_total _ _ _ _ (uint_total 4) (pair_total _ _ _ _ (uint_total 2)
    (pair_total _ _ _ _ (uint_total 2) (pair_total _ _ _ _ (bytes_total 16) (pair_total _ _ _ _ (bytes_total 16)
    (pair_total _ _ _ _ (bytes_total 16) (pair_total _ _ _ _ (uint_total 4) (pair_total _ _ _ _ ntp_total
    (pair_total _ _ _ _ (uint_total 4) (pair_total _ _ _ _ (uint_total 1) (pair_total _ _ _ _ (bytes_total 8)
    (bytes_total 16)))))))))))))))) as Ht.
  destruct (Ht bs Hl) as (x & r & E & _). clear Ht.
  destruct x as (bc & d & e & f & g & h & i & j & k & l & m & n & o & p & q & hm).
  cbn [try_from_be_bytes RequestTwSession_bytes codec_BeBytes]. unfold codec_parse.
  assert (Hc : dec c_command (u8_of_command c :: bs) = Some (c, bs)) by (by destruct c).
  unfold c_request, c_iso. cbn [dec]. unfold c_pair at 1. cbn [dec]. rewrite Hc. cbn [mbind option_bind].
  rewrite E. cbn [mbind option_bind]. by do 2 eexists.
Qed.

Section handshake.
Context `{BP : BuildProfile, HE : HostEndian}.

(** The TCP payloads handed to the operating system. *)
Definition sent_of (w : scripted) : list (list Z) :=
  omap (fun c => match c with CSend _ data => Some data | _ => None end) (calls w).

(** One turn of the server, reading [bytes]: outcome, session, payloads sent, and the number
    of messages to the worker. *)
Definition server_turn (bytes : list Z) (c : ControlSession) : outcome CommonError () * ControlSession * list (list Z) * nat :=
  let '(o, v) := transition (TcpSocket 5) (serve bytes c) in
  (o, sv_session v, sent_of (sv_os v), length (sv_messages v)).

Definition client_turn (bytes : list Z) (c : ClientControlSession) : outcome CommonError bool * ClientControlSession * list (list Z) :=
  let '(o, v) := client_transition 0 (TcpSocket 4) (client_reads bytes c) in
  (o, cl_session v, sent_of (sh_os (cl_shared v))).

(** ** Reading *)

Definition read_os (bytes : list Z) (fd : Z) : scripted :=
  {| script := []; datagrams := []; errno_ := 98; calls := [CRecv fd] |}.
Definition cc_with (st : SenderSessionState.t) (b : list Z) (c : ClientControlSession) : ClientControlSession := {|
  cc_id := cc_id c; cc_modes := cc_modes c; cc_state := st; test_session := test_session c;
  cc_retry_count := cc_retry_count c; cc_buffer := b |}.

Lemma receive_serve bytes c : receive (TcpSocket 5) (serve bytes c) =
  (Ok (Z.of_nat (length bytes)), Build_Server (read_os bytes 5) (with_rx_buffer (write_buffer (rx_buffer c) bytes) c) [] true).
Proof.
  unfold receive, on_sys, zoom, TcpSocket_receive, now, effect, gets, on_session, modify, mbind, op_bind.
  cbn -[Z.of_nat]. rewrite (proj2 (Z.ltb_ge _ _)) by lia. done.
Qed.

Lemma receive_client bytes c : cc_receive (TcpSocket 4) (client_reads bytes c) =
  (Ok (Z.of_nat (length bytes)), Build_Client (Build_Shared (read_os bytes 4) [] false)
     (cc_with (cc_state c) (write_buffer (cc_buffer c) bytes) c) [] [] []).
Proof.
  unfold cc_receive, on_client, zoom, TcpSocket_receive, now, effect, gets, set_cc_buffer, on_cc, modify, mbind, op_bind.
  cbn -[Z.of_nat]. rewrite (proj2 (Z.ltb_ge _ _)) by lia. done.
Qed.

(** A message decodes from the front of a buffer that still holds older bytes. *)
Lemma decode_written {T} `{BeBytesLaws T wf true} (m : T) buffer : wf m ->
  try_from_be_bytes (write_buffer buffer (to_be_bytes m)) = Ok (m, Z.of_nat (length (to_be_bytes m))).
Proof. intros Hm. unfold write_buffer. apply be_roundtrip; auto. Qed.

Lemma c_modes_wf m : modes_wf m -> cwf c_modes m.
Proof. intros Hm. split; [exact Hm|by destruct m]. Qed.
Lemma greeting_wf m : modes_wf m -> cwf c_greeting (greeting m).
Proof. intros Hm. split; [|done]. split; [done|]. split; [by apply c_modes_wf|]. repeat split; done. Qed.
Lemma setup_wf m : modes_wf m -> cwf c_setup (sample_setup m).
Proof. intros Hm. split; [|done]. split; [by apply c_modes_wf|]. repeat split; done. Qed.
Lemma start_wf t : ntp_wf t -> cwf c_start {| ss_mbz1 := replicate 15 0; ss_accept := AcceptFields.Ok;
  server_iv := replicate 16 0; ss_start_time := t; ss_mbz2 := replicate 8 0 |}.
Proof.
  intros Ht. split; [|done]. split; [done|]. split; [repeat split; done|]. split; [done|].
  split; [by apply c_ntp_wf|done].
Qed.
Lemma accept_wf port : in_u 16 port -> cwf c_accept_session (accept_message AcceptFields.Ok port).
Proof.
  intros Hp. split; [|done]. split; [repeat split; done|]. split; [done|]. split; [exact Hp|]. repeat split; done.
Qed.

(** ** Turns *)

Lemma server_greets c : state c = ServerCtrlConnectionState.Greeting ->
  server_turn [] c = (Ok (), with_state ServerCtrlConnectionState.Negotiation c, [to_be_bytes (greeting (supported_modes c))], 0%nat).
Proof. intros Hc. unfold server_turn, transition. rewrite bind_gets. cbn [serve sv_session]. rewrite Hc. done. Qed.

Lemma client_sets_up c m : cc_state c = SenderSessionState.AwaitingServerGreeting -> cc_modes c = m -> modes_wf m ->
  client_turn (to_be_bytes (greeting m)) c =
    (Ok true, cc_with SenderSessionState.AwaitingServerStart (write_buffer (cc_buffer c) (to_be_bytes (greeting m))) c,
     [to_be_bytes (sample_setup m)]).
Proof.
  intros Hc Hm Hw. unfold client_turn, client_transition. rewrite bind_gets. cbn [client_reads cl_session]. rewrite Hc.
  unfold await_server_greeting. rewrite bind_bind, (bind_attempt_Ok _ _ _ _ _ (receive_client _ c)). cbv beta iota.
  change (Z.of_nat (length (to_be_bytes (greeting m))) =? 0) with false. cbv iota.
  unfold cc_decode. rewrite !bind_bind, bind_gets. cbn [cl_session cc_buffer cc_with].
  rewrite (decode_written (wf:=cwf c_greeting)) by (by apply greeting_wf). rewrite bind_ret. cbv beta iota.
  rewrite bind_bind, bind_gets. cbn [cl_session cc_modes cc_with modes greeting]. rewrite Hm.
  rewrite decide_True by (unfold Modes_bitand; rewrite Z.land_diag; by destruct m).
  by rewrite <-Hm.
Qed.

Lemma server_starts c m : state c = ServerCtrlConnectionState.Negotiation -> supported_modes c = m -> modes_wf m ->
  time_before_2036 (cs_start_time c) -> exists t, ntp_wf t /\
  server_turn (to_be_bytes (sample_setup m)) c =
    (Ok (), with_state ServerCtrlConnectionState.Monitor (with_rx_buffer (write_buffer (rx_buffer c) (to_be_bytes (sample_setup m))) c),
     [to_be_bytes {| ss_mbz1 := replicate 15 0; ss_accept := AcceptFields.Ok; server_iv := replicate 16 0;
                     ss_start_time := t; ss_mbz2 := replicate 8 0 |}], 0%nat).
Proof.
  intros Hc Hm Hw [Ht Ht']. destruct (ntp_of_datetime_ok (E:=CommonError) _ Ht Ht') as (t & Et & Hn). exists t. split; [done|].
  unfold server_turn, transition. rewrite bind_gets. cbn [serve sv_session]. rewrite Hc.
  unfold transition_negotiation. rewrite (bind_attempt_Ok _ _ _ _ _ (receive_serve _ c)). cbv beta iota.
  change (Z.of_nat (length (to_be_bytes (sample_setup m))) =? 0) with false. cbv iota.
  unfold decode. rewrite bind_bind, bind_gets. cbn [sv_session rx_buffer with_rx_buffer].
  rewrite (decode_written (wf:=cwf c_setup)) by (by apply setup_wf). rewrite bind_ret, bind_gets.
  cbn [sv_session supported_modes with_rx_buffer mode sample_setup cs_start_time]. rewrite Hm.
  rewrite decide_True by (unfold Modes_bitand; rewrite Z.land_diag; by destruct m).
  rewrite Et. done.
Qed.

Lemma scripted_ntp_now (s : Shared scripted) : ntp_timestamp_now s = (Ok {| seconds := 3908988800; fraction := 21 |}, s).
Proof. destruct s. vm_compute. reflexivity. Qed.

Lemma on_client_Ok {A} (m : op (Shared scripted) CommonError A) s a w : m (cl_shared s) = (Ok a, w) ->
  on_client m s = (Ok a, Build_Client w (cl_session s) (cl_messages s) (cl_locks s) (cl_tokens s)).
Proof. unfold on_client, zoom. by intros ->. Qed.

(** A client of version 4 throughout. *)
Definition v4_client (t : SessionSender) (a : Ipv4Addr) (p : Z) (b : Ipv4Addr) (q : Z) : Prop :=
  ss_source t = SockV4 a p /\ in_u 16 p /\ head (targets t) = Some (SockV4 b q) /\ in_u 16 q.

Definition request_of (t : SessionSender) (a : Ipv4Addr) (p : Z) (b : Ipv4Addr) (q : Z) : RequestTwSession := {|
  request_type := TwampControlCommand.RequestTwSession; rq_mbz1 := 0; ipvn := 4; conf_sender := 0; conf_receiver := 0;
  num_schedule_slots := 0; num_packets := 0; sender_port := p; reflector_port := q;
  sender_address := replicate 12 0 ++ v4_octets a; reflector_address := replicate 12 0 ++ v4_octets b;
  sid := replicate 16 0; padding_length := as_u 32 (ss_padding t);
  start_time := {| seconds := 3908988800; fraction := 21 |}; timeout := as_u 32 (as_secs (ss_last_message_timeout t));
  type_p := 0; rq_mbz2 := replicate 8 0; hmac := replicate 16 0 |}.

Lemma session_request_v4 t a p b q : v4_client t a p b q ->
  session_request t (SockV4 b q) {| seconds := 3908988800; fraction := 21 |} = Ok (request_of t a p b q) /\
  cwf c_request (request_of t a p b q).
Proof.
  intros (Hs & Hp & _ & Hq). assert (session_request t (SockV4 b q) {| seconds := 3908988800; fraction := 21 |} =
    Ok (request_of t a p b q)) as E by (unfold session_request; by rewrite Hs).
  split; [done|]. eapply build_cwf; [|exact E]. rewrite Hs. cbn [sock_port sock_ip].
  repeat split; cbn; try done; try apply Hp; try apply Hq; try (apply as_u_range; lia).
Qed.

Lemma client_requests c t a p b q : cc_state c = SenderSessionState.AwaitingServerStart -> ntp_wf t ->
  v4_client (test_session c) a p b q ->
  let start := {| ss_mbz1 := replicate 15 0; ss_accept := AcceptFields.Ok; server_iv := replicate 16 0;
                  ss_start_time := t; ss_mbz2 := replicate 8 0 |} in
  client_turn (to_be_bytes start) c =
    (Ok true, cc_with SenderSessionState.AwaitingSessionAcceptance (write_buffer (cc_buffer c) (to_be_bytes start)) c,
     [to_be_bytes (request_of (test_session c) a p b q)]).
Proof.
  intros Hc Ht Hv start. unfold client_turn, client_transition. rewrite bind_gets. cbn [client_reads cl_session]. rewrite Hc.
  unfold await_server_start. rewrite bind_bind, (bind_attempt_Ok _ _ _ _ _ (receive_client _ c)). cbv beta iota.
  change (Z.of_nat (length (to_be_bytes start)) =? 0) with false. cbv iota.
  unfold cc_decode. rewrite !bind_bind, bind_gets. cbn [cl_session cc_buffer cc_with].
  rewrite (decode_written (wf:=cwf c_start)) by (by apply start_wf). rewrite bind_ret. cbv beta iota. cbn [ss_accept start].
  unfold set_cc_state, on_cc. rewrite bind_bind, bind_modify. unfold send_request_session. rewrite bind_bind, bind_gets.
  cbn [cl_session test_session cc_with]. destruct (Hv) as (Hs & _ & Hh & _). rewrite Hh. cbn [unwrap_option].
  rewrite bind_bind, bind_lift_Ok, bind_bind. rewrite (bind_Ok _ _ _ _ _ (on_client_Ok _ _ _ _ (scripted_ntp_now _))).
  destruct (session_request_v4 _ a p b q Hv) as [-> _]. rewrite bind_bind, bind_lift_Ok. done.
Qed.

Lemma server_registers c t a p b q : state c = ServerCtrlConnectionState.Monitor -> twamp_sessions c = [] ->
  v4_client t a p b q ->
  server_turn (to_be_bytes (request_of t a p b q)) c =
    (Ok (), with_rx_buffer (write_buffer (rx_buffer c) (to_be_bytes (request_of t a p b q))) c,
     [to_be_bytes (accept_message AcceptFields.Ok q)], 1%nat).
Proof.
  intros Hc Hts Hv. destruct (session_request_v4 _ a p b q Hv) as [_ Hw].
  unfold server_turn, transition. rewrite bind_gets. cbn [serve sv_session]. rewrite Hc.
  unfold transition_monitor. rewrite (bind_attempt_Ok _ _ _ _ _ (receive_serve _ c)). cbv beta iota.
  change (Z.of_nat (length (to_be_bytes (request_of t a p b q))) =? 0) with false. cbv iota.
  unfold decode. rewrite bind_bind, bind_gets. cbn [sv_session rx_buffer with_rx_buffer].
  rewrite (decode_written (wf:=cwf c_request)) by done. rewrite bind_ret. cbn [request_type request_of].
  unfold request_session. rewrite bind_gets. cbn [sv_session twamp_sessions with_rx_buffer]. rewrite Hts. done.
Qed.

Lemma client_starts c port : cc_state c = SenderSessionState.AwaitingSessionAcceptance -> in_u 16 port ->
  client_turn (to_be_bytes (accept_message AcceptFields.Ok port)) c =
    (Ok true, cc_with SenderSessionState.AwaitingStartAck
       (write_buffer (cc_buffer c) (to_be_bytes (accept_message AcceptFields.Ok port))) c, [to_be_bytes start_sessions]).
Proof.
  intros Hc Hp. unfold client_turn, client_transition. rewrite bind_gets. cbn [client_reads cl_session]. rewrite Hc.
  unfold await_session_acceptance. rewrite bind_bind, (bind_attempt_Ok _ _ _ _ _ (receive_client _ c)). cbv beta iota.
  change (Z.of_nat (length (to_be_bytes (accept_message AcceptFields.Ok port))) =? 0) with false. cbv iota.
  unfold cc_decode. rewrite !bind_bind, bind_gets. cbn [cl_session cc_buffer cc_with].
  rewrite (decode_written (wf:=cwf c_accept_session)) by (by apply accept_wf). rewrite bind_ret. cbv beta iota.
  cbn [accept accept_message]. rewrite decide_True by done. done.
Qed.

(** The start command is decoded as a request, its tail being what older messages left. *)
Lemma server_acks c : state c = ServerCtrlConnectionState.Monitor -> (105 <= length (rx_buffer c))%nat ->
  server_turn (to_be_bytes start_sessions) c =
    (Ok (), with_rx_buffer (write_buffer (rx_buffer c) (to_be_bytes start_sessions)) c, [to_be_bytes start_ack], 0%nat).
Proof.
  intros Hc Hl. unfold server_turn, transition. rewrite bind_gets. cbn [serve sv_session]. rewrite Hc.
  unfold transition_monitor. rewrite (bind_attempt_Ok _ _ _ _ _ (receive_serve _ c)). cbv beta iota.
  change (Z.of_nat (length (to_be_bytes start_sessions)) =? 0) with false. cbv iota.
  unfold decode. rewrite bind_bind, bind_gets. cbn [sv_session rx_buffer with_rx_buffer].
  assert (exists rest, write_buffer (rx_buffer c) (to_be_bytes start_sessions) =
    u8_of_command TwampControlCommand.StartSessions :: rest /\ (104 <= length rest)%nat) as (rest & Hb & Hr).
  { eexists. split; [reflexivity|]. rewrite length_app, length_drop. cbn. lia. }
  rewrite Hb at 1. destruct (request_decodes TwampControlCommand.StartSessions rest Hr) as (r & k & -> & Ht).
  rewrite bind_ret, Ht. cbn. do 3 f_equal. unfold with_state, with_rx_buffer. cbn. by rewrite Hc.
Qed.

Lemma write_buffer_longer buffer data : (length buffer <= length (write_buffer buffer data))%nat.
Proof. unfold write_buffer. rewrite length_app, length_drop. lia. Qed.
End handshake.



(** C35: the address a client asks the server to use is lost: the builder puts an IPv4 address
    in the last four octets of the field and the server reads the first four, so for every
    IPv4 request the only address the server binds is 0.0.0.0 at the requested port: two
    systems that bind it alike are not told apart, whatever they do with any other address. *)
Theorem server_binds_unspecified `{BuildProfile, HostEndian} {W} `{Libc W}
    `{BeBytes SenderMessage, BeBytes ReflectedMessage, BeBytes AcceptSessionMessage}
    (MU MU' : MioUdp W) bld r a b (s : Server W) socket :
  build bld = Ok r -> b_receiver_address bld = Some (IpV4 a) -> b_sender_address bld = Some (IpV4 b) ->
  twamp_sessions (sv_session s) = [] ->
  let any := SockV4 (Ipv4Addr_new 0 0 0 0) (reflector_port r) in
  mio_udp_bind (MioUdp:=MU) any (sv_os s) = mio_udp_bind (MioUdp:=MU') any (sv_os s) ->
  request_session (MU:=MU) socket r s = request_session (MU:=MU') socket r s /\
  first_octets (reflector_address r) (reflector_port r) = any /\
  first_octets (sender_address r) (sender_port r) = SockV4 (Ipv4Addr_new 0 0 0 0) (sender_port r).
Proof.
  intros Hb Hr Hsnd Hs any He.
  assert (reflector_address r = replicate 12 0 ++ v4_octets a /\ sender_address r = replicate 12 0 ++ v4_octets b) as [Er Es].
  { revert Hb. unfold build. destruct (is_none (b_request_type bld)); [done|].
    destruct (build_check_ipvn bld) as [[]| |]; [|done..]. cbn [mbind outcome_bind].
    destruct (is_none (b_start_time bld)), (is_none (b_type_p bld)), (b_start_time bld); try done.
    intros [= <-]. cbn. by rewrite Hr, Hsnd. }
  assert (first_octets (reflector_address r) (reflector_port r) = any) as Ea by (by rewrite Er).
  split; [|split; [done|by rewrite Es]]. unfold request_session. rewrite !bind_gets, Hs, Ea. cbn [list_find].
  apply bind_same. unfold on_sys, zoom, Session_create_udp_socket, effect, mbind, op_bind.
  cbn [rx_socket_address Session_new]. by rewrite He.
Qed.

(** Two systems, one of which binds 0.0.0.0 only. *)
Definition any_only_mio : MioUdp scripted := fun a w =>
  if decide (sock_ip a = IpV4 (Ipv4Addr_new 0 0 0 0)) then (inr 7, w) else (inl (os_error 99), w).
Definition every_mio : MioUdp scripted := fun _ w => (inr 7, w).

Example server_binds_unspecified_witness : exists r, build sample_builder = Ok r /\
  request_session (BP:=DEBUG) (HE:=LE) (MU:=any_only_mio) (TcpSocket 5) r (serve [] (sample_control ServerCtrlConnectionState.Monitor))
  = request_session (BP:=DEBUG) (HE:=LE) (MU:=every_mio) (TcpSocket 5) r (serve [] (sample_control ServerCtrlConnectionState.Monitor)).
Proof.
  eexists. split; [reflexivity|].
  apply (server_binds_unspecified (H:=DEBUG) (H0:=LE) any_only_mio every_mio sample_builder _ (Ipv4Addr_new 10 0 0 2) (Ipv4Addr_new 10 0 0 1)
    (serve [] (sample_control ServerCtrlConnectionState.Monitor)) (TcpSocket 5));
    reflexivity.
Defined.
