(* ===== verification/Twamp.v ===== *)
(** * [twamp/src/lib.rs] and [twamp_control/mod.rs]

    The configuration of the library and the choice of the strategy by its mode.  Parsing a
    socket address and the text of validation errors belong to other code: [parse_addr] and
    [show] are arguments. *)
From stdpp Require Import base list option numbers strings gmap.
From Stdlib Require Import ZArith Lia.
From S2P Require Import Prelude Float64 Errors Time Net DataModel Messages Session Sockets EventLoop LightSender Reflector.
Local Open Scope Z_scope.

Record ControlConfiguration := { ctl_source : SocketAddr; ctl_ref_wait : Z }.
Record ClientConfiguration := { cl_mode : string; cl_control_host : SocketAddr; cl_source : SocketAddr }.

Definition ClientConfiguration_new (mode : string) (source_ip_address control_host : SocketAddr) : ClientConfiguration :=
  {| cl_mode := mode; cl_source := source_ip_address; cl_control_host := control_host |}.

Record TwampConfiguration := {
  test_session_hosts : option (list SocketAddr);
  control_host : option SocketAddr;
  tw_mode : string;
  tw_source_ip_address : option string;
  collection_period : option Z;
  tw_packet_interval : option Z;
  tw_padding : option Z;
  tw_last_message_timeout : option Z;
  tw_ref_wait : option Z
}.

(** The four strategies. *)
Inductive strategy :=
  | LightSenderStrategy (s : SessionSender)
  | LightReflectorStrategy (c : Reflector.Configuration)
  | ControlClientStrategy (c : ClientConfiguration) (s : LightSender.Configuration)
  | ControlStrategy (c : ControlConfiguration).

Definition ANY_ADDRESS : string := "0.0.0.0:0".

(** Names of the fields at fault, one after the other. *)
Definition concat_names (l : list string) : string := String.concat " " l.

Section generate.
Context (parse_addr : string -> result SocketAddr) (show : list string -> string).

Definition light_configuration (c : TwampConfiguration) (source_ip : SocketAddr) : LightSender.Configuration :=
  LightSender.Configuration_new (default [] (test_session_hosts c)) source_ip
    (default 0 (collection_period c)) (default 0 (tw_packet_interval c))
    (default 0 (tw_padding c)) (default 0 (tw_last_message_timeout c)).

Definition generate (c : TwampConfiguration) : result strategy :=
  source_ip ← parse_addr (default ANY_ADDRESS (tw_source_ip_address c));
  if decide (tw_mode c = "LIGHT_SENDER"%string) then
    let configuration := light_configuration c source_ip in
    _ ← LightSender.validate show configuration;
    Ok (LightSenderStrategy (SessionSender_new configuration))
  else if decide (tw_mode c = "LIGHT_REFLECTOR"%string) then
    let configuration := Reflector.Configuration_new source_ip (default 900 (tw_ref_wait c)) in
    _ ← Reflector.validate show configuration;
    Ok (LightReflectorStrategy configuration)
  else if decide (tw_mode c = "FULL_SENDER"%string) then
    host ← unwrap_option (control_host c);
    Ok (ControlClientStrategy (ClientConfiguration_new (tw_mode c) source_ip host)
          (light_configuration c source_ip))
  else if decide (tw_mode c = "FULL_REFLECTOR"%string) then
    source ← parse_addr (default ANY_ADDRESS (tw_source_ip_address c));
    Ok (ControlStrategy {| ctl_source := source; ctl_ref_wait := default 900 (tw_last_message_timeout c) |})
  else Panic (ExplicitPanic "No such mode").
End generate.

(** ** Properties *)

Lemma light_validate_ok show c : LightSender.validate show c = Ok () <->
  1 <= cfg_duration c <= 3600 /\ 1 <= packet_interval c <= 1000 /\ 0 <= cfg_padding c <= 1024 /\
  0 <= last_message_timeout c <= 1000.
Proof.
  unfold LightSender.validate.
  destruct (Z.leb_spec 1 (cfg_duration c)), (Z.leb_spec (cfg_duration c) 3600), (Z.leb_spec 1 (packet_interval c)),
    (Z.leb_spec (packet_interval c) 1000), (Z.leb_spec 0 (cfg_padding c)), (Z.leb_spec (cfg_padding c) 1024),
    (Z.leb_spec 0 (last_message_timeout c)), (Z.leb_spec (last_message_timeout c) 1000); cbn;
    split; intros; first [done|lia].
Qed.

Lemma in_check x (name : string) lo hi v :
  x ∈ (if (lo <=? v) && (v <=? hi) then [] else [name]) <-> x = name /\ ~ (lo <= v <= hi).
Proof.
  destruct (Z.leb_spec lo v), (Z.leb_spec v hi); cbn; rewrite ?list_elem_of_singleton, ?elem_of_nil; intuition lia.
Qed.

(** C33: a light sender is built exactly from a configuration in range: its targets, its source,
    its padding and its three durations are those configured (seconds, but milliseconds for
    the interval), with an empty list or zero for what is missing, so that a missing duration
    or interval is refused; the refusal names at least one field, and exactly those out of
    range.  The full sender is not validated: any numbers are handed on as they are, provided
    that a control host is given; without one the program panics. *)
Theorem generate_senders parse_addr show c source :
  parse_addr (default ANY_ADDRESS (tw_source_ip_address c)) = Ok source ->
  let targets := default [] (test_session_hosts c) in
  let duration := default 0 (collection_period c) in let interval := default 0 (tw_packet_interval c) in
  let pad := default 0 (tw_padding c) in let timeout := default 0 (tw_last_message_timeout c) in
  let in_range := 1 <= duration <= 3600 /\ 1 <= interval <= 1000 /\ 0 <= pad <= 1024 /\ 0 <= timeout <= 1000 in
  (tw_mode c = "LIGHT_SENDER"%string ->
     (in_range -> generate parse_addr show c = Ok (LightSenderStrategy {|
        targets := targets; ss_source := source;
        ss_packet_interval := {| as_secs := interval / 1000; subsec_nanos := interval mod 1000 * 1000000 |};
        ss_last_message_timeout := {| as_secs := timeout; subsec_nanos := 0 |};
        ss_padding := pad; ss_duration := {| as_secs := duration; subsec_nanos := 0 |} |})) /\
     (~ in_range -> exists names, names <> [] /\ generate parse_addr show c = Err (ValidationError (show names)) /\
        ("duration" ∈ names <-> ~ 1 <= duration <= 3600)%string /\ ("packet_interval" ∈ names <-> ~ 1 <= interval <= 1000)%string /\
        ("padding" ∈ names <-> ~ 0 <= pad <= 1024)%string /\ ("last_message_timeout" ∈ names <-> ~ 0 <= timeout <= 1000)%string)) /\
  (tw_mode c = "FULL_SENDER"%string ->
     match control_host c with
     | Some host => generate parse_addr show c = Ok (ControlClientStrategy
         {| cl_mode := "FULL_SENDER"; cl_control_host := host; cl_source := source |}
         {| hosts := targets; source_ip_address := source; cfg_duration := duration; packet_interval := interval;
            cfg_padding := pad; last_message_timeout := timeout |})
     | None => generate parse_addr show c = Panic UnwrapFailed
     end).
Proof.
  intros Hp tgs duration interval pad timeout in_range. unfold generate. rewrite Hp. cbn [mbind outcome_bind].
  unfold light_configuration. fold tgs duration interval pad timeout. set (light := LightSender.Configuration_new _ _ _ _ _ _).
  split.
  - intros ->. rewrite decide_True by done. split.
    + intros Hr. rewrite (proj2 (light_validate_ok show light) Hr). done.
    + intros Hr. unfold LightSender.validate. cbn [light cfg_duration packet_interval cfg_padding last_message_timeout]. clearbody duration interval pad timeout.
      match goal with |- context [match ?l with [] => Ok () | _ => _ end] => set (names := l); exists names; assert (Hn : names <> []) end.
      { intros E. apply Hr.
        assert (Hx : forall x, x ∉ names) by (rewrite E; intros x; apply not_elem_of_nil). unfold names in Hx. unfold in_range.
        pose proof (Hx "duration"%string) as H1. pose proof (Hx "packet_interval"%string) as H2.
        pose proof (Hx "padding"%string) as H3. pose proof (Hx "last_message_timeout"%string) as H4.
        rewrite !elem_of_app, !in_check in H1, H2, H3, H4.
        split; [|split; [|split]]; apply dec_stable; intros Hb; [destruct H1|destruct H2|destruct H3|destruct H4]; auto. }
      split; [done|]. split; [by destruct names|]. unfold names. rewrite !elem_of_app, !in_check.
      split; [|split; [|split]]; (split; [intros Hor; repeat destruct Hor as [Hor|Hor]; by destruct Hor|tauto]).
  - intros ->. cbn. by destruct (control_host c).
Qed.

Definition sample_config (mode : string) (duration : option Z) : TwampConfiguration := {|
  test_session_hosts := Some [SockV4 (Ipv4Addr_new 10 0 0 2) 4000]; control_host := None; tw_mode := mode;
  tw_source_ip_address := None; collection_period := duration; tw_packet_interval := Some 100; tw_padding := Some 64;
  tw_last_message_timeout := Some 1; tw_ref_wait := Some 60 |}.
Definition any_addr (_ : string) : result SocketAddr := Ok (SockV4 (Ipv4Addr_new 0 0 0 0) 0).

Example generate_senders_witness :
  generate any_addr concat_names (sample_config "LIGHT_SENDER" (Some 5)) = Ok (LightSenderStrategy {|
    targets := [SockV4 (Ipv4Addr_new 10 0 0 2) 4000]; ss_source := SockV4 (Ipv4Addr_new 0 0 0 0) 0;
    ss_packet_interval := {| as_secs := 0; subsec_nanos := 100000000 |};
    ss_last_message_timeout := {| as_secs := 1; subsec_nanos := 0 |}; ss_padding := 64;
    ss_duration := {| as_secs := 5; subsec_nanos := 0 |} |}).
Proof.
  apply (proj1 (proj1 (generate_senders any_addr concat_names (sample_config "LIGHT_SENDER" (Some 5))
    (SockV4 (Ipv4Addr_new 0 0 0 0) 0) eq_refl) eq_refl)). cbn. lia.
Defined.

(** The reflectors: the light one waits [ref_wait] seconds (900 unless configured), while
    the full one takes the last message timeout for its waiting time and ignores [ref_wait];
    any other mode is a panic. *)
Theorem generate_reflectors parse_addr show c source :
  parse_addr (default ANY_ADDRESS (tw_source_ip_address c)) = Ok source ->
  (tw_mode c = "LIGHT_REFLECTOR"%string -> generate parse_addr show c =
     Ok (LightReflectorStrategy (Reflector.Configuration_new source (default 900 (tw_ref_wait c))))) /\
  (tw_mode c = "FULL_REFLECTOR"%string -> generate parse_addr show c =
     Ok (ControlStrategy {| ctl_source := source; ctl_ref_wait := default 900 (tw_last_message_timeout c) |})) /\
  (tw_mode c ∉ ["LIGHT_SENDER"; "LIGHT_REFLECTOR"; "FULL_SENDER"; "FULL_REFLECTOR"]%string ->
     generate parse_addr show c = Panic (ExplicitPanic "No such mode")).
Proof.
  intros Hp. unfold generate. rewrite Hp. cbn [mbind outcome_bind]. split; [|split].
  - by intros ->.
  - by intros ->.
  - intros Hm. rewrite !not_elem_of_cons in Hm. destruct Hm as (H1 & H2 & H3 & H4 & _).
    by rewrite !decide_False.
Qed.

Example generate_reflectors_witness :
  generate any_addr concat_names (sample_config "FULL_REFLECTOR" None) =
    Ok (ControlStrategy {| ctl_source := SockV4 (Ipv4Addr_new 0 0 0 0) 0; ctl_ref_wait := 1 |}).
Proof.
  apply (proj1 (proj2 (generate_reflectors any_addr concat_names (sample_config "FULL_REFLECTOR" None)
    (SockV4 (Ipv4Addr_new 0 0 0 0) 0) eq_refl)) eq_refl).
Defined.
