(* ===== verification/ControlLoop.v ===== *)
(** * [Control::execute] and [ControlClient::execute] of [twamp/src/twamp_control]

    The two roles of the control protocol on their event loops: the listening socket of the
    server, whose callback accepts connections and hands them to its own loop, and the one
    connection of the client.  The worker thread is started first: when its loop cannot be
    created, it ends without having sent its channel and the [unwrap] of the main thread's
    [recv] panics.  Its loop, the [EventLoop] of [Shared], is the subject of [Worker]; here it is
    the receiver of messages and, for the client, what is joined at the end. *)
From stdpp Require Import base list option numbers strings gmap.
From Stdlib Require Import ZArith Lia.
From S2P Require Import Prelude Float64 Errors Time Net DataModel Messages Wire Session Sockets EventLoop Shared Results LightSender Reflector Control ControlClient Twamp.
Local Open Scope Z_scope.

(** [mio::net::TcpListener::bind]: the descriptor of a bound, listening, non-blocking socket. *)
Class MioTcp (W : Type) := mio_tcp_bind : SocketAddr -> W -> (io_error + Z) * W.

(** Dropping a socket closes it. *)
#[export] Instance tcp_fd `{Libc W} : AsRawFd W TimestampedTcpSocket :=
  { as_raw_fd := tcp_inner; drop_value sock w := (sys_close (tcp_inner sock) w).2 }.

(** The worker thread creates its loop and sends its channel; [rx.recv().unwrap()]. *)
Definition worker_starts {W T} `{EpollOs W} : op (LinuxEventLoop (W:=W) (T:=T)) CommonError () :=
  r ← sys poll_new;
  match r with Some _ => lift (Panic UnwrapFailed) | None => mret () end.

(** ** The server *)

Section server.
Context `{BP : BuildProfile, HE : HostEndian} {W : Type} `{LC : Libc W, EO : EpollOs W, MU : MioUdp W, MT : MioTcp W}.
Context `{SB : BeBytes SenderMessage, RB : BeBytes ReflectedMessage}.
Context `{GB : BeBytes ServerGreeting, CB : BeBytes ClientSetupResponse, StB : BeBytes ServerStart}.
Context `{CoB : BeBytes ControlMessage, AB : BeBytes AcceptSessionMessage, QB : BeBytes RequestTwSession}.

Definition set_ac_os (w : W) (s : Acceptor (W:=W)) : Acceptor :=
  Build_Acceptor w (control_sessions s) (ac_registered s) (ac_messages s) (ac_worker_free s) (ac_loop_free s).
#[export] Instance acceptor_libc : Libc (Acceptor (W:=W)) := part_libc ac_os set_ac_os.
#[export] Instance acceptor_epoll : EpollOs (Acceptor (W:=W)) := part_epoll ac_os set_ac_os.

#[local] Abbreviation EventLoop := (LinuxEventLoop (W:=Acceptor (W:=W)) (T:=TimestampedTcpSocket)).

(** The source an accepted socket is registered as. *)
Definition session_source (socket : TimestampedTcpSocket) : Source :=
  (socket, as_callback (fun socket _token => session_callback socket)).

(** The listening socket of [Control::execute]. *)
Definition create_listener (addr : SocketAddr) : op (Acceptor (W:=W)) CommonError TimestampedTcpSocket :=
  r ← effect (on_part ac_os set_ac_os (mio_tcp_bind addr));
  match r with
  | inl e => fail (from_io e)
  | inr fd =>
      socket ← TcpSocket_new fd;
      or_drop (fun s => (sys_close fd s).2)
        (_ ← set_fcntl_options fd;
         _ ← set_timestamping_options fd;
         _ ← TcpSocket_listen socket 0;
         mret socket)
  end.

(** [Control::execute] up to [run]. *)
Definition Control_execute_setup (self : ControlConfiguration) : op EventLoop CommonError Token :=
  _ ← worker_starts;
  socket ← sys_op (create_listener (ctl_source self));
  _ ← new_loop (drop_value socket);
  register_event_source socket (as_callback accept_callback).

(** [None]: the loop still runs after these turns. *)
Definition Control_execute (self : ControlConfiguration) (turns : list turn) : op EventLoop CommonError (option TwampResult) :=
  _ ← Control_execute_setup self;
  finished ← run turns;
  mret (if finished : bool then Some {| session_results := []; tr_error := None |} else None).
End server.

(** ** The client *)

Section client.
Context `{BP : BuildProfile, HE : HostEndian} {W : Type} `{LC : Libc W, EO : EpollOs W}.
Context `{SB : BeBytes SenderMessage, RB : BeBytes ReflectedMessage}.
Context `{GB : BeBytes ServerGreeting, CB : BeBytes ClientSetupResponse, StB : BeBytes ServerStart}.
Context `{CoB : BeBytes ControlMessage, AB : BeBytes AcceptSessionMessage, QB : BeBytes RequestTwSession}.

Definition set_cl_shared (w : Shared W) (s : Client W) : Client W :=
  Build_Client w (cl_session s) (cl_messages s) (cl_locks s) (cl_tokens s).
#[export] Instance client_libc : Libc (Client W) := part_libc cl_shared set_cl_shared.
#[export] Instance client_epoll : EpollOs (Client W) := part_epoll cl_shared set_cl_shared.

#[local] Abbreviation EventLoop := (LinuxEventLoop (W:=Client W) (T:=TimestampedTcpSocket)).

(** The callback of the control socket; while the client still polls for its worker's token it
    does not return. *)
Definition client_callback (fuel : nat) (listener : TimestampedTcpSocket) (_token : Token) : op (Client W) CommonError Z :=
  returns ← client_transition fuel listener;
  if returns : bool then mret 0 else lift (Panic StillRunning).

(** The socket of [ControlClient::execute] before its options are set. *)
Definition connect_control (control : ClientConfiguration) : op (Client W) CommonError TimestampedTcpSocket :=
  socket ← TcpSocket_bind (cl_source control);
  or_drop (fun s => (sys_close (tcp_inner socket) s).2)
    (_ ← TcpSocket_connect socket (cl_control_host control); mret socket).

(** [ControlClient::execute] up to [run]: gives the token of the duration. *)
Definition ControlClient_execute_setup (fuel : nat) (control : ClientConfiguration) (sessions_configuration : LightSender.Configuration)
    : op EventLoop CommonError Token :=
  let overtime := Duration_from_secs (last_message_timeout sessions_configuration) in
  let duration := Duration_from_secs (cfg_duration sessions_configuration) in
  _ ← worker_starts;
  socket ← sys_op (connect_control control);
  _ ← new_loop (drop_value socket);
  _ ← modify (fun l => with_os l
        (Build_Client
           (with_sessions ((fun host => Session_new (source_ip_address sessions_configuration) host)
                             <$> hosts sessions_configuration) (cl_shared (os l)))
           (ClientControlSession_new 0 (Modes_new (u8_of_mode Unauthenticated)) 0 sessions_configuration)
           (cl_messages (os l)) (cl_locks (os l)) (cl_tokens (os l))));
  _ ← sys_op (or_drop (fun s => (sys_close (tcp_inner socket) s).2)
        (_ ← set_fcntl_options (tcp_inner socket); set_timestamping_options (tcp_inner socket)));
  _ ← register_event_source socket (as_callback (client_callback fuel));
  _ ← modify (set_overtime {| it_interval := Duration_ZERO; it_value := overtime |});
  total ← lift (Duration_add duration overtime);
  add_duration {| it_interval := Duration_ZERO; it_value := total |}.

(** [sessions_handle.join()]: [worker] is what the thread has made of the sessions it shares when
    it ends, [None] when it does not end; its outcome is ignored.  The result is [None] while
    [execute] does not return. *)
Definition ControlClient_execute (ln : f64 -> f64) (fuel : nat) (clocks : nat -> (nat -> option Duration) * (nat -> option Duration))
    (control : ClientConfiguration) (sessions_configuration : LightSender.Configuration) (turns : list turn)
    (worker : option (list Session)) : op EventLoop CommonError (option TwampResult) :=
  _ ← ControlClient_execute_setup fuel control sessions_configuration;
  finished ← run turns;
  if finished : bool then
    match worker with
    | Some sessions =>
        _ ← modify (fun l => with_os l (set_cl_shared (with_sessions sessions (cl_shared (os l))) (os l)));
        finish (fun l => sh_sessions (cl_shared (os l))) ln fuel clocks true
    | None => mret None
    end
  else mret None.
End client.

(** ** Lemmas *)

Section server_facts.
Context `{BP : BuildProfile, HE : HostEndian} {W : Type} `{LC : Libc W, EO : EpollOs W, MU : MioUdp W}.
Context `{SB : BeBytes SenderMessage, RB : BeBytes ReflectedMessage}.
Context `{GB : BeBytes ServerGreeting, CB : BeBytes ClientSetupResponse, StB : BeBytes ServerStart}.
Context `{CoB : BeBytes ControlMessage, AB : BeBytes AcceptSessionMessage, QB : BeBytes RequestTwSession}.
Implicit Types s : Acceptor (W:=W).

(** Only unauthenticated mode is offered. *)
Definition server_modes : Modes := Modes_set (Modes_new 0) Unauthenticated.

(** A connection [sock] is waiting at the listener and takes the greeting; [c] is the control
    session it gets and [w] the system afterwards. *)
Definition connection (listener : TimestampedTcpSocket) s (sock : TimestampedTcpSocket) (c : ControlSession) (w : W) : Prop :=
  exists addr w1 r,
    TcpSocket_accept listener (ac_os s) = (Ok (sock, addr), w1) /\
    TcpSocket_send sock (greeting server_modes) (sys_clock w1).2 = (Ok r, w) /\
    c = with_state ServerCtrlConnectionState.Negotiation
          (ControlSession_new (from_timespec (sys_clock w1).1) (tcp_inner sock) server_modes 1 1).

(** The acceptor once the connection is accepted. *)
Definition accepted (w : W) (c : ControlSession) (sock : TimestampedTcpSocket) s : Acceptor :=
  Build_Acceptor w (control_sessions s ++ [c]) (ac_registered s ++ [sock]) (ac_messages s) (ac_worker_free s) (ac_loop_free s).

Lemma accept_callback_spec listener token s sock c w : connection listener s sock c w -> ac_loop_free s = true ->
  accept_callback listener token s = (Ok 0, accepted w c sock s).
Proof.
  intros (addr & w1 & r & Ha & Hg & ->) Hf. unfold accept_callback.
  assert (E1 : on_ac (TcpSocket_accept listener) s = (Ok (sock, addr), set_ac_os w1 s)).
  { unfold on_ac, zoom. by rewrite Ha. }
  rewrite (bind_Ok _ _ _ _ _ E1). cbv beta iota. unfold or_drop.
  set (t := from_timespec (sys_clock w1).1) in *.
  assert (E2 : on_ac now (set_ac_os w1 s) = (Ok t, set_ac_os (sys_clock w1).2 s)).
  { unfold on_ac, zoom, now, effect, mbind, op_bind. cbn. by destruct (sys_clock w1). }
  rewrite (bind_Ok _ _ _ _ _ E2). set (c0 := ControlSession_new t (tcp_inner sock) server_modes 1 1).
  assert (E3 : on_control c0 (fun ok cs l => if ok : bool then l ++ [cs] else l) (transition sock) (set_ac_os (sys_clock w1).2 s)
    = (Ok (), Build_Acceptor w (control_sessions s ++ [with_state ServerCtrlConnectionState.Negotiation c0])
                (ac_registered s) (ac_messages s) (ac_worker_free s) (ac_loop_free s))).
  { unfold on_control, transition. rewrite bind_gets. subst c0. cbn [state sv_session ControlSession_new].
    unfold transition_greeting. rewrite bind_gets. cbn [supported_modes sv_session ControlSession_new ac_os set_ac_os].
    erewrite bind_attempt_Ok; [|unfold on_sys, zoom; cbn [sv_os]; rewrite Hg; reflexivity]. reflexivity. }
  rewrite (bind_Ok _ _ _ _ _ E3), bind_gets. cbn [ac_loop_free]. rewrite Hf, bind_modify. unfold accepted. cbn. rewrite Hf. reflexivity.
Qed.

(** The callback of an accepted socket steps its own session when no older one has its
    descriptor, whatever the transition gives but a panic. *)
Lemma session_callback_own s sock cs c : control_sessions s = cs ++ [c] -> cs_id c = tcp_inner sock ->
  Forall (fun x => cs_id x <> tcp_inner sock) cs ->
  let v := transition sock (Build_Server (ac_os s) c (ac_messages s) (ac_worker_free s)) in
  is_panic v.1 = false ->
  exists w, session_callback sock s =
    (Ok 0, Build_Acceptor w (cs ++ [sv_session v.2]) (ac_registered s) (sv_messages v.2) (ac_worker_free s) (ac_loop_free s)).
Proof.
  intros Hs Hid Hcs v Hp. unfold session_callback. rewrite bind_gets, Hs.
  rewrite (proj2 (list_find_Some _ (cs ++ [c]) (length cs) c)).
  2:{ split; [|split; [done|]].
      - rewrite lookup_app_r by lia. by rewrite Nat.sub_diag.
      - intros j y Hj Hlt. rewrite lookup_app_l in Hj by done. exact (Forall_lookup_1 _ _ _ _ Hcs Hj). }
  assert (Hrun : on_control c (fun _ cs' => <[length cs := cs']>) (transition sock) s =
    (v.1, Build_Acceptor (sv_os v.2) (cs ++ [sv_session v.2]) (ac_registered s) (sv_messages v.2) (ac_worker_free s) (ac_loop_free s))).
  { unfold on_control. fold v. rewrite Hs. destruct v as [o v2]. cbn [fst snd].
    rewrite insert_app_r_alt by lia. by rewrite Nat.sub_diag. }
  destruct v as [[[]|e|p] v2]; cbn [fst snd] in *; [| |done].
  - rewrite (bind_attempt_Ok _ _ _ _ _ Hrun). cbn. by exists (sv_os v2).
  - rewrite (bind_attempt_Err _ _ _ _ _ Hrun). cbn. unfold on_ac, zoom, effect, mbind, op_bind. cbn.
    destruct (sys_close _ _) as [r w]. by exists w.
Qed.

(** Nothing the control loop does by itself touches the sessions or the queues. *)
Lemma acceptor_quiet s0 : quiet (W:=Acceptor) (T:=TimestampedTcpSocket) (fun s => exists w, s = set_ac_os w s0).
Proof.
  apply part_quiet.
  - intros w s [w' ->]. by exists w.
  - intros x s [w ->]. cbn. unfold on_part. destruct (sys_close _ _) as [r w']. by exists w'.
Qed.
End server_facts.

Section client_facts.
Context `{BP : BuildProfile, HE : HostEndian} {W : Type} `{LC : Libc W, EO : EpollOs W}.
Context `{SB : BeBytes SenderMessage, RB : BeBytes ReflectedMessage}.
Context `{GB : BeBytes ServerGreeting, CB : BeBytes ClientSetupResponse, StB : BeBytes ServerStart}.
Context `{CoB : BeBytes ControlMessage, AB : BeBytes AcceptSessionMessage, QB : BeBytes RequestTwSession}.

(** The state the client's first callback finds, whatever the system has become. *)
Definition client_start (conf : LightSender.Configuration) (s : Client W) : Client W :=
  Build_Client (with_sessions ((fun host => Session_new (source_ip_address conf) host) <$> hosts conf) (cl_shared s))
    (ClientControlSession_new 0 (Modes_new (u8_of_mode Unauthenticated)) 0 conf) (cl_messages s) (cl_locks s) (cl_tokens s).
Definition os_of (s0 s : Client W) : Prop := exists w, s = set_cl_shared (with_sh_os (cl_shared s0) w) s0.

Lemma os_of_sys {A} s0 (f : W -> A * W) s : os_of s0 s ->
  os_of s0 (on_part cl_shared set_cl_shared (on_part sh_os set_sh_os f) s).2.
Proof. intros [w ->]. unfold on_part. cbn. destruct (f w) as [a w']. by exists w'. Qed.

Lemma client_quiet s0 : quiet (W:=Client W) (T:=TimestampedTcpSocket) (os_of s0).
Proof. constructor; intros; by apply os_of_sys. Qed.

Lemma client_libc_call s0 f : (forall s, os_of s0 s -> os_of s0 (f s).2) -> preserves (os_of s0) (libc_call f).
Proof.
  intros Hf. unfold libc_call. apply preserves_bind; [by apply preserves_effect|]. intros r.
  case_match; [|apply preserves_ret]. apply preserves_bind; [apply preserves_gets|]. intros e. apply preserves_fail.
Qed.

(** The options of the control socket. *)
Definition control_options (socket : TimestampedTcpSocket) : op (Client W) CommonError Z :=
  _ ← set_fcntl_options (tcp_inner socket); set_timestamping_options (tcp_inner socket).

Lemma control_options_quiet s0 socket : preserves (os_of s0) (control_options socket).
Proof.
  unfold control_options, set_fcntl_options, set_timestamping_options, set_socket_options.
  repeat first [apply client_libc_call; intros s Hs; by apply os_of_sys|apply preserves_bind; [|intros]].
Qed.
End client_facts.

Section turns.
Context {W T : Type} `{LC : Libc W, EO : EpollOs W, AR : AsRawFd W T}.
Implicit Types l : LinuxEventLoop (W:=W) (T:=T).

(** A turn whose only event is handled: the messages, the event, and a quiet sweep. *)
Lemma one_event_turn l l1 l2 ms t P : quiet (T:=T) P -> for_each handle_message ms l = (Ok (), l1) ->
  handle_event t l1 = (Ok NextEvent, l2) -> P (os l2) ->
  (forall k s, sources l2 !! k = Some s -> timed_sources l2 !! k = None) ->
  exists w, run_turn {| t_messages := ms; t_polled := inr [(t, true)] |} l = (Ok false, with_os l2 w) /\ P w.
Proof.
  intros Hq Hm He HP Hd. destruct (sweep_noop l2 Hd) as (w & Es). exists w. split.
  - unfold run_turn. cbn [t_messages t_polled]. rewrite (bind_Ok _ _ _ _ _ Hm), bind_ret.
    cbn [handle_events]. rewrite bind_bind, (bind_Ok _ _ _ _ _ He), bind_ret, (bind_Ok _ _ _ _ _ Es). reflexivity.
  - pose proof (sweep_quiet P Hq l2 HP) as H. by rewrite Es in H.
Qed.

(** A [Register] message alone. *)
Lemma register_message l src cb P : registers (W:=W) -> quiet (T:=T) P -> P (os l) -> exists w,
  for_each handle_message [(Register (src, cb), true)] l = (Ok (),
    with_os (with_channel_token (next_token l) (with_sources (<[next_token l := (src, cb)]> (sources l))
      (with_next_token (as_u 64 (next_token l + 1)) l))) w) /\ P w.
Proof.
  intros Hr Hq HP. destruct (register_event_source_spec src cb l Hr) as (w & E). exists w. split.
  - cbn [for_each handle_message]. rewrite bind_bind, (bind_Ok _ _ _ _ _ E). reflexivity.
  - pose proof (register_event_source_quiet P src cb Hq l HP) as H. by rewrite E in H.
Qed.
End turns.

Lemma worker_starts_exact {W T} `{EpollOs W} (l : LinuxEventLoop (W:=W) (T:=T)) : registers (W:=W) ->
  worker_starts l = (Ok (), with_os l (poll_new (os l)).2).
Proof.
  intros [Hn _]. unfold worker_starts. specialize (Hn (os l)).
  match goal with |- context [(sys ?f ≫= ?k) ?l0] => destruct (bind_sys f k l0) as (r & w & -> & E) end.
  rewrite E in Hn |- *. cbn in Hn. by subst r.
Qed.

(** Without a poll of its own the worker's channel is lost, and the client panics. *)
Lemma worker_without_poll {W T} `{EpollOs W} (l : LinuxEventLoop (W:=W) (T:=T)) e w : poll_new (os l) = (Some e, w) ->
  worker_starts l = (Panic UnwrapFailed, with_os l w).
Proof.
  intros E. unfold worker_starts.
  match goal with |- context [(sys ?f ≫= ?k) ?l0] => destruct (bind_sys f k l0) as (r & w' & -> & E') end.
  rewrite E in E'. by injection E' as <- <-.
Qed.

Section client_run.
Context `{BuildProfile, HostEndian} {W : Type} `{LC : Libc W, EO : EpollOs W}.
Context `{BeBytes SenderMessage, BeBytes ReflectedMessage, BeBytes ServerGreeting, BeBytes ClientSetupResponse, BeBytes ServerStart}.
Context `{BeBytes ControlMessage, BeBytes AcceptSessionMessage, BeBytes RequestTwSession}.

(** The client's loop at [run]: the socket's callback, no timer but the deadline, the overtime. *)
Definition client_ready (fuel : nat) sock (timeout : Z) (w : Client W) : LinuxEventLoop (T:=TimestampedTcpSocket) := {|
  sources := {[ 0 := (sock, as_callback (client_callback fuel)) ]}; timed_sources := ∅; next_token := 2;
  overtime := Some {| it_interval := Duration_ZERO; it_value := Duration_from_secs timeout |}; overtime_exceptions := [];
  cleanup := None; cleanup_token := None; channel_token := USIZE_MAX; os := w |}.

Lemma client_ready_inv fuel sock timeout w : loop_inv 2 (client_ready fuel sock timeout w).
Proof using. constructor; cbn; [lia|intros t s [<- _]%lookup_singleton_Some; lia|done..]. Qed.

Lemma duration_add_secs a b : 0 <= a -> 0 <= b -> a + b < 2 ^ 64 ->
  Duration_add (E:=CommonError) (Duration_from_secs a) (Duration_from_secs b) = Ok (Duration_from_secs (a + b)).
Proof using.
  intros Ha Hb Hs. unfold Duration_add, Duration_from_secs. cbn [as_secs subsec_nanos].
  change ((0 + 0) / NANOS_PER_SEC) with 0. change ((0 + 0) mod NANOS_PER_SEC) with 0. cbn zeta. rewrite Z.add_0_r.
  rewrite decide_True by (unfold in_u; lia). done.
Qed.

Lemma arm_client (c0 c : Client W) spec t : os_of c0 c -> os_of c0 (arm spec t c).
Proof using.
  intros Hc. unfold arm. pose proof (os_of_sys c0 (timerfd_create CLOCK_REALTIME TFD_NONBLOCK) c Hc) as Hc1.
  change (on_part cl_shared set_cl_shared (on_part sh_os set_sh_os (timerfd_create CLOCK_REALTIME TFD_NONBLOCK)) c)
    with (timerfd_create (W:=Client W) CLOCK_REALTIME TFD_NONBLOCK c) in Hc1.
  destruct (timerfd_create CLOCK_REALTIME TFD_NONBLOCK c) as [fd c1]. apply os_of_sys, os_of_sys, Hc1.
Qed.

(** The client's set-up. *)
Lemma client_setup_spec fuel control conf (s0 s1 s2 : Client W) sock r :
  registers (W:=Client W) ->
  0 <= cfg_duration conf -> 0 <= last_message_timeout conf -> cfg_duration conf + last_message_timeout conf < 2 ^ 64 ->
  connect_control control (poll_new s0).2 = (Ok sock, s1) -> control_options sock (client_start conf (poll_new s1).2) = (Ok r, s2) ->
  ControlClient_execute_setup fuel control conf (empty_loop s0) = (Ok 1, client_ready fuel sock (last_message_timeout conf)
    (arm {| it_interval := Duration_ZERO; it_value := Duration_from_secs (cfg_duration conf + last_message_timeout conf) |} 1
       (poll_register (tcp_inner sock) 0 s2).2)).
Proof using.
  intros Hr Hd Ht Hs Hc Ho. unfold ControlClient_execute_setup.
  rewrite (bind_Ok _ _ _ _ _ (worker_starts_exact (empty_loop s0) Hr)).
  rewrite (bind_Ok _ _ _ _ _ (sys_op_Ok _ (with_os (empty_loop s0) (poll_new s0).2) _ _ Hc)).
  rewrite (bind_Ok _ _ _ _ _ (new_loop_exact (drop_value sock) _ Hr)), bind_modify. cbn [os with_os empty_loop].
  fold (client_start conf (poll_new s1).2). set (l0 := with_os _ (client_start conf _)).
  assert (E2 : sys_op (T:=TimestampedTcpSocket) (or_drop (fun s => (sys_close (tcp_inner sock) s).2) (control_options sock)) l0 = (Ok r, with_os l0 s2)).
  { apply (sys_op_Ok (or_drop _ _) l0). unfold or_drop. cbn [os with_os l0]. by rewrite Ho. }
  rewrite (bind_Ok _ _ _ _ _ E2), (bind_Ok _ _ _ _ _ (register_event_source_exact sock (as_callback (client_callback fuel)) _ Hr)), bind_modify.
  rewrite duration_add_secs by done. rewrite bind_lift_Ok, (add_duration_exact _ _ Hr). reflexivity.
Qed.
End client_run.

(** ** Properties *)


(** C21: the client's control connection is set up as intended and its loop ends at its deadline.
    Once the socket is connected and takes its options, the loop has the socket's callback
    (token 0), the overtime of the configured timeout, one empty session per target and a
    control session that awaits the server's greeting; the last thing asked of the system is a
    timer (token 1) created, armed once, with the sum of the configured duration and timeout as
    its first expiry, and registered.  When it fires and then the overtime (2), the client's
    loop ends.  [execute] then waits for the worker: if that ends, the outcome is that of the
    analyses (C20) on the sessions it leaves, and otherwise [execute] never returns. *)
Theorem control_client_test `{BuildProfile, HostEndian} {W} `{Libc W, EpollOs W}
    `{BeBytes SenderMessage, BeBytes ReflectedMessage, BeBytes ServerGreeting, BeBytes ClientSetupResponse, BeBytes ServerStart}
    `{BeBytes ControlMessage, BeBytes AcceptSessionMessage, BeBytes RequestTwSession}
    ln fuel clocks control conf (s0 s1 s2 : Client W) sock r worker rest :
  registers (W:=Client W) ->
  0 <= cfg_duration conf -> 0 <= last_message_timeout conf -> cfg_duration conf + last_message_timeout conf < 2 ^ 64 ->
  connect_control control (poll_new s0).2 = (Ok sock, s1) -> control_options sock (client_start conf (poll_new s1).2) = (Ok r, s2) ->
  exists l, ControlClient_execute_setup fuel control conf (empty_loop s0) = (Ok 1, l) /\
    sources l = {[ 0 := (sock, as_callback (client_callback fuel)) ]} /\ timed_sources l = ∅ /\ next_token l = 2 /\
    overtime l = Some {| it_interval := Duration_ZERO; it_value := Duration_from_secs (last_message_timeout conf) |} /\
    os l = arm {| it_interval := Duration_ZERO; it_value := Duration_from_secs (cfg_duration conf + last_message_timeout conf) |} 1
             (poll_register (tcp_inner sock) 0 s2).2 /\
    cc_state (cl_session (os l)) = SenderSessionState.AwaitingServerGreeting /\
    sh_sessions (cl_shared (os l)) = (fun host => Session_new (source_ip_address conf) host) <$> hosts conf /\
    (ControlClient_execute ln fuel clocks control conf (events_turn [1] :: events_turn [2] :: rest) worker (empty_loop s0)).1 =
      match worker with
      | Some sessions => option_map (fun rs => {| session_results := rs; tr_error := None |}) <$> calculate_session_results ln fuel clocks sessions
      | None => Ok None
      end.
Proof.
  intros Hr Hd Ht Hsum Hc Ho. pose proof (client_setup_spec fuel control conf s0 s1 s2 sock r Hr Hd Ht Hsum Hc Ho) as E.
  eexists. split; [exact E|]. do 5 (split; [done|]). set (l := client_ready _ _ _ _) in *.
  assert (P : os_of (client_start conf (poll_new s1).2) (os l)).
  { apply arm_client, os_of_sys. pose proof (control_options_quiet (client_start conf (poll_new s1).2) sock (client_start conf (poll_new s1).2)) as Hq.
    rewrite Ho in Hq. apply Hq. by exists (sh_os (cl_shared (poll_new s1).2)). }
  destruct P as [w P]. split; [by rewrite P|]. split; [by rewrite P|].
  destruct (duration_ends 2 l 1 {| it_interval := Duration_ZERO; it_value := Duration_from_secs (last_message_timeout conf) |} rest Hr)
    as (w' & _ & Er); [apply client_ready_inv|done..|].
  unfold ControlClient_execute. rewrite (bind_Ok _ _ _ _ _ E), (bind_Ok _ _ _ _ _ Er).
  destruct worker as [sessions|]; [|done]. rewrite bind_modify. by rewrite (finish_Ok (fun l => sh_sessions (cl_shared (os l)))).
Qed.

(** ** Concrete runs *)

Import Scripted ScriptedLoop BigEndian.
#[local] Existing Instance DEBUG.
#[local] Existing Instance LE.
#[local] Existing Instance ScriptedMio.scripted_mio.

(** A client whose connection is accepted on descriptor 5 and that takes the 64 bytes of the
    greeting. *)
Definition waiting_client : scripted :=
  scripted_of [5; 64] [{| dg_bytes := []; dg_name := (socketaddr_to_sockaddr sample_addr).1 ++ replicate 112 0; dg_stack := []; dg_cmsgs := [] |}].
Definition control_world : Acceptor (W:=scripted) := Build_Acceptor waiting_client [] [] [] true true.
Definition listening : LinuxEventLoop (W:=Acceptor (W:=scripted)) :=
  with_next_token 1 (with_sources {[ 0 := (TcpSocket 3, as_callback accept_callback) ]} (empty_loop control_world)).

Lemma acceptor_registers : registers (W:=Acceptor (W:=scripted)).
Proof. by split. Qed.
Lemma client_registers : registers (W:=Client scripted).
Proof. by split. Qed.

Lemma listening_inv : loop_inv 1 listening.
Proof. by constructor; cbn; [|intros t s [<- _]%lookup_singleton_Some|..]. Qed.

Definition greeted : scripted := (TcpSocket_send (TcpSocket 5) (greeting server_modes) (TcpSocket_accept (TcpSocket 3) waiting_client).2).2.
Definition start_of_test : DateTime := {| sec := 1700000000; nanos := 5 |}.
Definition first_session : ControlSession :=
  with_state ServerCtrlConnectionState.Negotiation (ControlSession_new start_of_test 5 server_modes 1 1).


Definition sample_conf : LightSender.Configuration := LightSender.Configuration_new [sample_addr] sample_addr 5 100 0 1.
Definition sample_host : ClientConfiguration := {| cl_mode := "FULL_SENDER"; cl_control_host := sample_addr; cl_source := sample_addr |}.
Definition connecting : Client scripted :=
  Build_Client (Build_Shared (scripted_of [4] []) [] false) (sample_client SenderSessionState.FinalState) [] [] [].
Definition connected : Client scripted := (connect_control sample_host (poll_new connecting).2).2.

(** The worker ends with the session as it was; the timer is created on descriptor 0. *)
Example control_client_test_witness : exists l : LinuxEventLoop,
  ControlClient_execute_setup 9 sample_host sample_conf (empty_loop connecting) = (Ok 1, l) /\
  overtime l = Some {| it_interval := Duration_ZERO; it_value := Duration_from_secs 1 |} /\
  os l = arm {| it_interval := Duration_ZERO; it_value := Duration_from_secs 6 |} 1 
    (poll_register 4 0 (control_options (TcpSocket 4) (client_start sample_conf (poll_new connected).2)).2).2 /\
  (ControlClient_execute id 9 (fun _ => (fun _ => None, fun _ => None)) sample_host sample_conf [events_turn [1]; events_turn [2]]
    (Some [Session_new sample_addr sample_addr]) (empty_loop connecting)).1 =
    option_map (fun rs => {| session_results := rs; tr_error := None |}) <$>
      calculate_session_results id 9 (fun _ => (fun _ => None, fun _ => None)) [Session_new sample_addr sample_addr].
Proof.
  destruct (control_client_test id 9 (fun _ => (fun _ => None, fun _ => None)) sample_host sample_conf connecting connected
    (control_options (TcpSocket 4) (client_start sample_conf (poll_new connected).2)).2 (TcpSocket 4) 0 (Some [Session_new sample_addr sample_addr]) []
    client_registers) as (l & E & _ & _ & _ & Ho & Hos & _ & _ & Ex);
    [cbn; lia..|apply fst_eq_pair; reflexivity|apply fst_eq_pair; reflexivity|].
  exists l. split; [exact E|]. split; [exact Ho|]. split; [exact Hos|exact Ex].
Defined.
