(* ===== verification/Worker.v ===== *)
(** * The worker thread of [twamp/src/twamp_control/control_client.rs]

    The control client's test runs on the event loop of a second thread, to which the state
    machine of [ControlClient] sends messages.  Here the two are put together: what [run_test]
    sends, handled by the worker's loop, which runs on for ever when nothing is sent. *)
From stdpp Require Import base list option numbers strings gmap.
From Stdlib Require Import ZArith Lia.
From S2P Require Import Prelude Float64 Errors Time Net DataModel Messages Wire Session Sockets EventLoop Shared LightSender Control ControlClient.
Local Open Scope Z_scope.

Section worker.
Context {W : Type} `{LC : Libc W, EO : EpollOs W}.
#[local] Abbreviation EventLoop := (LinuxEventLoop (W:=Shared W) (T:=TimestampedUdpSocket)).
#[local] Abbreviation Message := (EventLoopMessages (W:=Shared W) (T:=TimestampedUdpSocket)).

(** The body of the thread; the channel's mutex is free whenever the loop wants it. *)
Definition client_worker (overtime : Duration) (turns : list turn) : op EventLoop CommonError bool :=
  _ ← new_loop id;
  _ ← modify (set_overtime {| it_interval := Duration_ZERO; it_value := overtime |});
  run turns.

(** A turn that finds messages and no event. *)
Definition messages_turn (ms : list Message) : turn := {| t_messages := (fun m => (m, true)) <$> ms; t_polled := inr [] |}.

Implicit Types l : EventLoop.

Lemma run_messages ms l l' : for_each handle_message ((fun m => (m, true)) <$> ms) l = (Ok (), l') ->
  (forall t s, sources l' !! t = Some s -> timed_sources l' !! t = None) ->
  exists w, run_turn (messages_turn ms) l = (Ok false, with_os l' w).
Proof.
  intros Hm Hd. destruct (sweep_noop l' Hd) as (w & Es). exists w.
  unfold run_turn. cbn [messages_turn t_messages t_polled]. rewrite (bind_Ok _ _ _ _ _ Hm), bind_ret.
  cbn [handle_events]. by rewrite bind_ret, (bind_Ok _ _ _ _ _ Es).
Qed.

Lemma add_cleanup_spec spec l : registers (W:=Shared W) -> exists w, add_cleanup spec l =
  (Ok (next_token l), with_os (with_cleanup_token (Some (next_token l)) (with_next_token (as_u 64 (next_token l + 1)) (with_cleanup (Some spec) l))) w).
Proof.
  intros Hr. unfold add_cleanup. rewrite bind_modify.
  destruct (create_timer_os spec (with_cleanup (Some spec) l)) as (fd & w & E). rewrite (bind_Ok _ _ _ _ _ E).
  unfold generate_token. run_op. cbn [next_token with_os with_cleanup].
  match goal with |- context [(register_fd fd ?n ≫= _) ?l1] => destruct (register_fd_os fd n l1 Hr) as (w2 & E2) end.
  rewrite (bind_Ok _ _ _ _ _ E2). run_op. by exists w2.
Qed.

(** The worker's loop while the test runs. *)
Definition test_running (over clean : Itimerspec) sock (rx tx : CallBack) fd (w : Shared W) : EventLoop := {|
  sources := {[ 0 := (sock, rx) ]}; timed_sources := {[ 1 := (fd, 0, tx) ]}; next_token := 3; overtime := Some over;
  overtime_exceptions := []; cleanup := Some clean; cleanup_token := Some 2; channel_token := 2; os := w |}.

Lemma test_running_inv over clean sock rx tx fd w : loop_inv 3 (test_running over clean sock rx tx fd w).
Proof.
  constructor; cbn; [lia|..].
  - intros t s [<- _]%lookup_singleton_Some. lia.
  - intros t s [<- _]%lookup_singleton_Some. lia.
  - by intros t s [<- _]%lookup_singleton_Some.
  - by intros t [= <-].
Qed.

(** A socket, a timer on its token and a clean-up, as messages to a new loop. *)
Lemma worker_sets_up over clean interval sock rx tx thread w0 : registers (W:=Shared W) ->
  exists l1 fd w, run_turn (messages_turn [Register (sock, rx)]) (set_overtime over (empty_loop w0)) = (Ok false, l1) /\
    channel_token l1 = 0 /\
    run_turn (messages_turn [RegisterTimed interval 0 tx; TimedCleanup clean thread]) l1 = (Ok false, test_running over clean sock rx tx fd w).
Proof.
  intros Hr. set (l0 := set_overtime over (empty_loop w0)).
  destruct (register_event_source_spec sock rx l0 Hr) as (w & E).
  edestruct (run_messages [Register (sock, rx)] l0) as (w1 & E1).
  { cbn [fmap list_fmap for_each handle_message]. rewrite bind_bind, (bind_Ok _ _ _ _ _ E). reflexivity. }
  { done. }
  match type of E1 with _ = (_, ?x) => set (l1 := x) in * end. exists l1.
  destruct (register_timer_spec interval 0 tx (sock, rx) l1 Hr eq_refl) as (fd & w2 & E2).
  match type of E2 with _ = (_, ?x) => set (l2 := with_channel_token 1 x) in * end.
  destruct (add_cleanup_spec clean l2 Hr) as (w3 & E3).
  edestruct (run_messages [RegisterTimed interval 0 tx; TimedCleanup clean thread] l1) as (w4 & E4).
  { cbn [fmap list_fmap for_each handle_message]. rewrite bind_bind, (bind_Ok _ _ _ _ _ E2).
    unfold set_token. cbn iota. rewrite bind_modify. change (with_channel_token (next_token l1) _) with l2.
    rewrite !bind_bind, (bind_Ok _ _ _ _ _ E3), bind_bind, bind_modify. reflexivity. }
  { cbn. intros t s [[<- _]|[_ Hs]]%lookup_insert_Some; [done|by apply lookup_empty_Some in Hs]. }
  exists fd, w4. split; [exact E1|]. split; [done|]. rewrite E4. reflexivity.
Qed.
End worker.

(** ** Properties *)

(** C15: the client's test runs on its worker: once the acknowledgement is in, [run_test] hands the
    test over in three messages, the last two after the worker has given a token (at whichever
    poll); handled by the worker's loop, the first gives the token [run_test] read, 0, and after
    the others the test socket is registered with the receiving callback, the sending timer is
    on that socket, and the clean-up timer (2) is set.  When it fires and the overtime (3) after
    it, the worker ends with the error of the clean-up, which is ignored when it is joined. *)
Theorem client_worker_test `{BuildProfile, HostEndian} {W} `{Libc W, EpollOs W}
    `{BeBytes SenderMessage, BeBytes ReflectedMessage, BeBytes ControlMessage}
    fuel socket (s : Client W) sock w1 w2 r timeout k rest over w0 more :
  let t := test_session (cl_session s) in
  registers (W:=Shared W) ->
  create_udp_socket t (cl_shared s) = (Ok sock, w1) -> cl_locks s = [] ->
  cl_tokens s = replicate k USIZE_MAX ++ 0 :: rest ->
  Duration_add (E:=CommonError) (ss_duration t) (ss_last_message_timeout t) = Ok timeout ->
  TcpSocket_send socket stop_sessions w1 = (Ok r, w2) ->
  exists s' m1 m2 m3, run_test fuel socket s = (Ok true, s') /\ cl_messages s' = cl_messages s ++ [m1; m2; m3] /\
    exists l1 l2, run_turn (messages_turn [m1]) (set_overtime {| it_interval := Duration_ZERO; it_value := over |} (empty_loop (poll_new w0).2)) = (Ok false, l1) /\
      channel_token l1 = 0 /\ run_turn (messages_turn [m2; m3]) l1 = (Ok false, l2) /\
      sources l2 = {[ 0 := (sock, as_callback (fueled (LightSender.rx_callback fuel))) ]} /\
      (exists fd, timed_sources l2 = {[ 1 := (fd, 0, as_callback (tx_callback (ss_padding t))) ]}) /\
      exists w, client_worker over (messages_turn [m1] :: messages_turn [m2; m3] :: events_turn [2] :: events_turn [3] :: more) (empty_loop w0) =
        (Err (Generic "Failed to unregister timed event source: token not found"), in_overtime w l2).
Proof.
  intros t Hr Hu Hl Ht Hd Hs.
  pose proof (client_runs_test fuel socket s sock w1 w2 r timeout k 0 rest Hu Hl Ht ltac:(done) Hd Hs) as E.
  eexists _, _, _, _. split; [exact E|]. split; [reflexivity|]. fold t.
  set (o := {| it_interval := Duration_ZERO; it_value := over |}).
  match goal with |- context [TimedCleanup ?c ?th] => match goal with |- context [RegisterTimed ?i 0 ?tx] => match goal with |- context [Register (sock, ?rx)] =>
    destruct (worker_sets_up o c i sock rx tx th (poll_new w0).2 Hr) as (l1 & fd & w & E1 & Et & E2);
    pose proof (test_running_inv o c sock rx tx fd w) as Hinv; set (l2 := test_running o c sock rx tx fd w) in * end end end.
  exists l1, l2. split; [exact E1|]. split; [exact Et|]. split; [exact E2|]. split; [done|]. split; [by exists fd|].
  destruct (duration_turn 3 l2 2 o Hr Hinv) as (w' & E3); [done|by split|]. exists w'.
  unfold client_worker. rewrite (bind_Ok _ _ _ _ _ (new_loop_exact id _ Hr)), bind_modify. cbn [os empty_loop]. fold o. cbn [run].
  rewrite (bind_Ok _ _ _ _ _ E1). cbn iota. rewrite (bind_Ok _ _ _ _ _ E2). cbn iota. rewrite (bind_Ok _ _ _ _ _ E3). cbn iota.
  by eapply (overtime_end_fails 3 l2 w' _ more).
Qed.

(** A worker that is given nothing does not end: without a message there is nothing in its poll,
    not even a timer, and after any number of empty turns its loop still runs.  The control
    client, which joins the worker whatever became of the control session, then never returns,
    its own deadline notwithstanding. *)
Theorem worker_idle {W} `{Libc W, EpollOs W} over n (w0 : Shared W) : registers (W:=Shared W) ->
  client_worker over (replicate n (messages_turn [])) (empty_loop w0) =
    (Ok false, set_overtime {| it_interval := Duration_ZERO; it_value := over |} (empty_loop (poll_new w0).2)).
Proof.
  intros Hr. unfold client_worker. rewrite (bind_Ok _ _ _ _ _ (new_loop_exact id _ Hr)), bind_modify. cbn [os empty_loop].
  set (l := set_overtime _ _). induction n as [|n IH]; [done|]. cbn [replicate run].
  rewrite (bind_Ok _ _ _ false l); [exact IH|]. unfold run_turn. cbn [messages_turn t_messages t_polled fmap list_fmap for_each].
  rewrite bind_ret. run_op. cbn [handle_events]. run_op. rewrite (bind_Ok _ _ _ _ _ (sweep_exact l ltac:(done))). change (map_to_list (sources l)) with (map_to_list (∅ : gmap Token (Source (W:=Shared W) (T:=TimestampedUdpSocket)))). by rewrite map_to_list_empty.
Qed.

(** ** Concrete runs *)

Import Scripted ScriptedLoop BigEndian.
#[local] Existing Instance DEBUG.
#[local] Existing Instance LE.

Example client_worker_test_witness : exists s' w (l : LinuxEventLoop) ms,
  run_test 9 (TcpSocket 4) testing_client = (Ok true, s') /\ cl_messages s' = ms /\ length ms = 3%nat /\
  client_worker (Duration_from_secs 1) [messages_turn (take 1 ms); messages_turn (drop 1 ms); events_turn [2]; events_turn [3]]
    (empty_loop sample_world) =
    (Err (Generic "Failed to unregister timed event source: token not found"), in_overtime w l).
Proof.
  destruct (client_worker_test 9 (TcpSocket 4) testing_client (UdpSocket_new 7) test_bound
    (TcpSocket_send (TcpSocket 4) stop_sessions test_bound).2 (0, {| sec := 1700000000; nanos := 5 |})
    {| as_secs := 6; subsec_nanos := 0 |} 1 [] (Duration_from_secs 1) sample_world [] shared_registers)
    as (s' & m1 & m2 & m3 & E & Em & l1 & l & _ & _ & _ & _ & _ & w & Ew);
    [apply fst_eq_pair; vm_compute; reflexivity|reflexivity|reflexivity|reflexivity|apply fst_eq_pair; vm_compute; reflexivity|].
  exists s', w, l, [m1; m2; m3]. split; [exact E|]. split; [exact Em|]. split; [reflexivity|exact Ew].
Defined.

Example worker_idle_witness : client_worker (Duration_from_secs 1) [messages_turn []; messages_turn []] (empty_loop sample_world) =
  (Ok false, set_overtime {| it_interval := Duration_ZERO; it_value := Duration_from_secs 1 |} (empty_loop sample_world)).
Proof. exact (worker_idle (Duration_from_secs 1) 2 sample_world shared_registers). Defined.
