(* ===== verification/Exchange.v ===== *)
(** * A test between a light sender and a reflector

    The two roles composed: the sender's callbacks ([LightSender]) and those of a reflector (the
    light one of [Reflector] or the control server's of [Control]) run in turn over a network that may lose a packet on its way out or on its
    way back.  The packets are the bytes the program hands to [sendmsg], delivered to the socket
    they are addressed to; the times are what the clocks and the kernel's receive timestamps
    show.  The abstract specification is the table of packets the sender should end up with. *)
From stdpp Require Import base list option numbers strings.
From Stdlib Require Import ZArith Lia.
From S2P Require Import Prelude Float64 Errors Time Net DataModel Messages Wire Session Sockets EventLoop Shared Control LightSender Reflector.
Local Open Scope Z_scope.
Import BigEndian.
#[local] Existing Instance LE.

(** ** The system of one host *)

(** What the clock shows, the datagrams waiting, and what was sent: name and bytes. *)
Record host_os := { clock_at : DateTime; inbox : list datagram; outbox : list (list Z * list Z) }.

Definition stamp (t : DateTime) : timespec := {| tv_sec := sec t; tv_nsec := nanos t |}.
Definition nothing_sent {A} (a : A) (w : host_os) : A * host_os := (a, w).
Definition EAGAIN : Z := 11.

#[export] Instance host_libc : Libc host_os := {
  sys_socket _ _ := nothing_sent 0;
  sys_bind _ _ _ := nothing_sent 0;
  sys_connect _ _ _ := nothing_sent 0;
  sys_listen _ _ := nothing_sent 0;
  sys_accept _ := nothing_sent (-1, ([], []));
  sys_getpeername _ := nothing_sent (-1, ([], []));
  sys_setsockopt _ _ _ _ := nothing_sent 0;
  sys_fcntl _ _ _ := nothing_sent 0;
  sys_close _ := nothing_sent 0;
  sys_send _ _ _ := nothing_sent (-1);
  sys_sendmsg _ h data w :=
    (Z.of_nat (length data), {| clock_at := clock_at w; inbox := inbox w; outbox := outbox w ++ [(msg_name h, data)] |});
  sys_recv _ _ _ := nothing_sent (-1, []);
  sys_recvmsg _ _ _ w :=
    match inbox w with
    | [] => ((-1, empty_datagram), w)
    | dg :: rest => ((Z.of_nat (length (dg_bytes dg)), dg), {| clock_at := clock_at w; inbox := rest; outbox := outbox w |})
    end;
  sys_recvmmsg _ _ _ _ := nothing_sent (-1, []);
  sys_clock w := (stamp (clock_at w), w);
  last_errno _ := EAGAIN;
  strerror _ := "Resource temporarily unavailable"%string
}.

(** ** The network *)

Definition name_of (a : SocketAddr) : list Z := (socketaddr_to_sockaddr a).1.

(** A packet with the kernel's receive timestamp. *)
Definition packet (from : SocketAddr) (at_ : DateTime) (data : list Z) : datagram := {|
  dg_bytes := data; dg_name := name_of from ++ replicate 112 0; dg_stack := [];
  dg_cmsgs := [{| cmsg_level := SOL_SOCKET; cmsg_type := SCM_TIMESTAMPING;
                  cmsg_timespecs := [stamp at_; {| tv_sec := 0; tv_nsec := 0 |}; {| tv_sec := 0; tv_nsec := 0 |}] |}] |}.

(** What [from] sent to [to] arrives there; a packet for another address does not. *)
Definition deliver (from to : SocketAddr) (at_ : DateTime) (sent : list (list Z * list Z)) : list datagram :=
  (fun p => packet from at_ p.2) <$> filter (fun p => p.1 = name_of to) sent.

(** One packet's journey: its fate and the times of its four events. *)
Record round := { fate_of : fate; at_send : DateTime; at_reflector : DateTime; at_reply : DateTime; at_sender : DateTime }.

(** A reflector's callback, given the address it is bound to. *)
Definition Reflecting : Type := SocketAddr -> TimestampedUdpSocket -> Token -> op (Shared host_os) CommonError Z.

(** The two reflectors of the program. *)
Inductive role := LightReflector | ControlReflector.
Definition reflecting `{BuildProfile} (r : role) : Reflecting :=
  match r with LightReflector => Reflector.rx_callback | ControlReflector => Control.rx_callback end.

Section exchange.
Context `{BP : BuildProfile}.
Variables (callback : Reflecting) (saddr raddr : SocketAddr) (sock : TimestampedUdpSocket) (padding : Z).

(** A callback run on a host; a failure ends the exchange. *)
Definition run_on (call : TimestampedUdpSocket -> Token -> op (Shared host_os) CommonError Z) (now : DateTime)
    (waiting : list datagram) (sessions : list Session) : option (list Session * list (list Z * list Z)) :=
  match call sock 0 (Build_Shared {| clock_at := now; inbox := waiting; outbox := [] |} sessions false) with
  | (Ok _, s) => Some (sh_sessions s, outbox (sh_os s))
  | _ => None
  end.

(** The loop calls back only when something waits. *)
Definition run_waiting call now waiting sessions :=
  match waiting with [] => Some (sessions, []) | _ => run_on call now waiting sessions end.

Definition exchange_round (r : round) (st : list Session * list Session) : option (list Session * list Session) :=
  '(senders, out) ← run_on (tx_callback padding) (at_send r) [] st.1;
  let arrived := match fate_of r with LostForward => [] | _ => deliver saddr raddr (at_reflector r) out end in
  '(reflectors, out) ← run_waiting (callback raddr) (at_reply r) arrived st.2;
  let returned := match fate_of r with Delivered => deliver raddr saddr (at_sender r) out | _ => [] end in
  '(senders, _) ← run_waiting (fueled (LightSender.rx_callback 2)) (at_sender r) returned senders;
  Some (senders, reflectors).

Fixpoint exchange (rounds : list round) (st : list Session * list Session) : option (list Session * list Session) :=
  match rounds with
  | [] => Some st
  | r :: rounds' => st' ← exchange_round r st; exchange rounds' st'
  end.
End exchange.

(** ** The specification *)

Definition ideal_packet (n k : Z) (r : round) : PacketResults :=
  match fate_of r with
  | Delivered => {| sender_seq := n; reflector_seq := Some k; t1 := at_send r; t2 := Some (at_reflector r);
                    t3 := Some (at_reply r); t4 := Some (at_sender r) |}
  | _ => {| sender_seq := n; reflector_seq := None; t1 := at_send r; t2 := None; t3 := None; t4 := None |}
  end.

(** The reflector's next number. *)
Definition counted (k : Z) (r : round) : Z := match fate_of r with LostForward => k | _ => k + 1 end.

(** The packets of the rounds, the sender counting from [n], the reflector from [k]. *)
Fixpoint ideal (n k : Z) (rounds : list round) : list PacketResults :=
  match rounds with
  | [] => []
  | r :: rounds' => ideal_packet n k r :: ideal (n + 1) (counted k r) rounds'
  end.

(** A time that NTP timestamps carry without loss. *)
Definition exact_time (t : DateTime) : Prop := time_before_2036 t /\ nanos t <= 999999761.
Definition round_wf (r : round) : Prop :=
  exact_time (at_send r) /\ exact_time (at_reflector r) /\ exact_time (at_reply r) /\ exact_time (at_sender r).

(** ** Lemmas *)

Lemma from_stamp t : time_before_2036 t -> from_timespec (stamp t) = t.
Proof.
  intros [[Hs Hn] _]. unfold from_timespec, stamp, in_u, NANOS_PER_SEC in *. cbn [tv_sec tv_nsec].
  rewrite !as_u_small by (unfold in_u; lia). by destruct t.
Qed.

Lemma deliver_one from to at_ data : deliver from to at_ [(name_of to, data)] = [packet from at_ data].
Proof. unfold deliver. rewrite filter_cons_True by done. done. Qed.

Section node.
Context `{BP : BuildProfile}.
Variables (sock : TimestampedUdpSocket).
Implicit Types (w : host_os) (s : Session).

(** Receiving a delivered packet. *)
Lemma receive_packet buffer a port at_ data now rest out sessions b : v4_wf a -> in_u 16 port -> time_before_2036 at_ ->
  UdpSocket_receive_from sock buffer
    (Build_Shared {| clock_at := now; inbox := packet (SockV4 a port) at_ data :: rest; outbox := out |} sessions b) =
  (Ok (write_buffer buffer data, Z.of_nat (length data), SockV4 a port, at_),
   Build_Shared {| clock_at := now; inbox := rest; outbox := out |} sessions b).
Proof.
  intros Ha Hp Ht. erewrite receive_from_v4; [|exact Ha|exact Hp| |reflexivity|reflexivity|reflexivity]; [|lia].
  cbn. by rewrite from_stamp.
Qed.

Lemma receive_nothing buffer now out sessions b :
  UdpSocket_receive_from sock buffer (Build_Shared {| clock_at := now; inbox := []; outbox := out |} sessions b) =
  (Err (Io (os_error EAGAIN)), Build_Shared {| clock_at := now; inbox := []; outbox := out |} sessions b).
Proof. reflexivity. Qed.

Lemma received_prefix buffer data : (length data <= length buffer)%nat ->
  length (write_buffer buffer data) = length buffer /\ take (length data) (write_buffer buffer data) = data.
Proof.
  intros Hl. unfold write_buffer. rewrite length_app, length_drop, take_app_length. split; [lia|done].
Qed.

(** The probe of one tick. *)
Definition probe (padding : Z) (s : Session) (n : NtpTimestamp) : SenderMessage :=
  SenderMessage_new (seq_number s) n (ErrorEstimate_new 1 0 1 1) (replicate (Z.to_nat (MIN_UNAUTH_PADDING + padding)) 0).

Definition sent_at (t : DateTime) (s : Session) : Session := {|
  rx_socket_address := rx_socket_address s; tx_socket_address := tx_socket_address s;
  seq_number := as_u 32 (seq_number s + 1);
  results := results s ++ [{| sender_seq := seq_number s; reflector_seq := None; t1 := t; t2 := None; t3 := None; t4 := None |}];
  last_updated := last_updated s |}.

Lemma tick padding t s : exact_time t -> 0 <= padding < 2 ^ 63 -> exists n, ntp_wf n /\
  run_on sock (tx_callback padding) t [] [s] =
    Some ([sent_at t s], [(name_of (tx_socket_address s), to_be_bytes (probe padding s n))]).
Proof.
  intros [Ht Hn] Hp. pose proof Ht as [[Hs Hns] Hs']. unfold run_on, tx_callback, try_lock. run_op. cbn [sh_busy]. run_op.
  cbn [sh_sessions tx_send].
  set (sh := Build_Shared _ _ _).
  destruct (ntp_now_at sh) as (n & En & Hnwf); [cbn; unfold in_u, NTP_EPOCH in *; lia|cbn; done|].
  exists n. split; [done|]. run_op. rewrite (bind_Ok _ _ _ _ _ En). rewrite u_arith_in by (unfold in_u, MIN_UNAUTH_PADDING; lia). run_op.
  match goal with |- context [UdpSocket_send_to sock ?a ?m] =>
    destruct (send_to_shared sock a m (with_sh_os sh (sys_clock (sh_os sh)).2)) as (r & w & E & Es) end.
  rewrite (bind_attempt_Ok _ _ _ _ _ E). run_op. subst sh. cbn [sh_busy with_sh_os]. run_op. cbn [sh_sessions with_sh_os tx_record].
  destruct (ntp_of_datetime_ok (E:=CommonError) t) as (n' & En' & Hn'); [done|done|]. cbn [sh_os clock_at sys_clock host_libc snd fst with_sh_os].
  rewrite from_stamp, En' by done. cbn [mbind outcome_bind].
  destruct (sender_results (SenderMessage_new (seq_number s) n' (ErrorEstimate_new 1 0 1 1) []) Hn') as (d & Ed & _ & Er).
  cbn [timestamp_] in Ed. rewrite (ntp_of_datetime_back t n' Ht Hn En') in Ed. injection Ed as <-.
  unfold add_to_sent. rewrite Er. cbn [mbind outcome_bind]. run_op.
  injection Es as <- <-. done.
Qed.

(** The reflector between two rounds: it knows the sender from the first packet on. *)
Definition reflector_at (raddr saddr : SocketAddr) (k : Z) (rs : list Session) : Prop :=
  (k = 0 /\ rs = []) \/
  exists x, rs = [x] /\ rx_socket_address x = raddr /\ tx_socket_address x = saddr /\ seq_number x = k.

(** Answering in a session, on a host. *)
Lemma answer_on_host x e saddr t2 t3 m now_in out sessions : exact_time t2 -> exact_time t3 -> padded m -> ntp_wf (timestamp_ m) ->
  exists n3 n2 x', 
    answer_in sock x e saddr t2 m (Build_Shared {| clock_at := t3; inbox := now_in; outbox := out |} sessions false) =
      (Ok x', Build_Shared {| clock_at := t3; inbox := now_in;
         outbox := out ++ [(name_of saddr, to_be_bytes (reply_with (seq_number x) e n3 n2 m))] |} sessions false) /\
    rx_socket_address x' = rx_socket_address x /\ tx_socket_address x' = tx_socket_address x /\
    seq_number x' = as_u 32 (seq_number x + 1) /\ ntp_wf n3 /\ ntp_wf n2 /\
    datetime_of_ntp (E:=CommonError) n3 = Ok t3 /\ datetime_of_ntp (E:=CommonError) n2 = Ok t2.
Proof.
  intros [H2 N2] [H3 N3] Hp Hm. unfold answer_in. rewrite (bind_Ok _ _ _ _ _ (now_shared _)).
  cbn [sh_os sys_clock host_libc clock_at fst snd]. rewrite from_stamp by done.
  destruct (reflected_message_with (seq_number x) e t3 t2 m H3 H2 Hp) as (n3 & n2 & E & Hn3 & Hn2 & E3 & E2).
  rewrite E, bind_lift_Ok. set (reply := reply_with _ _ _ _ _).
  match goal with |- context [UdpSocket_send_to sock saddr reply] => match goal with |- context [(_ ≫= _) ?sh] =>
    destruct (send_to_shared sock saddr reply sh) as (r & w & Es & Ew) end end.
  rewrite (bind_Ok _ _ _ _ _ Es). injection Ew as <- <-.
  destruct (record_answer x reply) as (x' & r' & Ex & Hrx & Htx & Hseq & _); [done|].
  unfold lift. rewrite Ex. exists n3, n2, x'. split; [done|]. 
  pose proof (ntp_of_datetime_back t3 n3 H3 N3 E3). pose proof (ntp_of_datetime_back t2 n2 H2 N2 E2). done.
Qed.

Lemma decode_probe (m : SenderMessage) : cwf c_sender_head (sender_head m) ->
  exists k, parse (T:=SenderMessage) (to_be_bytes m) = Ok (m, k).
Proof.
  intros Hm. pose proof (be_roundtrip (T:=SenderMessage) (fixed:=false) m [] Hm (or_intror eq_refl)) as E.
  rewrite app_nil_r in E. unfold parse. rewrite E. by eexists.
Qed.

Lemma decode_reply (m : ReflectedMessage) : cwf c_reflected_head (reflected_head m) ->
  exists k, parse (T:=ReflectedMessage) (to_be_bytes m) = Ok (m, k).
Proof.
  intros Hm. pose proof (be_roundtrip (T:=ReflectedMessage) (fixed:=false) m [] Hm (or_intror eq_refl)) as E.
  rewrite app_nil_r in E. unfold parse. rewrite E. by eexists.
Qed.

(** A well-formed answer. *)
Definition answered_with (k : Z) (m : SenderMessage) (t2 t3 : DateTime) (reply : ReflectedMessage) : Prop :=
  cwf c_reflected_head (reflected_head reply) /\ reflected_wf reply /\
  reflector_sequence_number reply = k /\ sender_sequence_number reply = sequence_number m /\
  datetime_of_ntp (E:=CommonError) (rm_timestamp reply) = Ok t3 /\
  datetime_of_ntp (E:=CommonError) (receive_timestamp reply) = Ok t2 /\
  (length (rm_padding reply) <= length (padding m))%nat.

Lemma reply_answered k e n3 n2 m t2 t3 : in_u 32 k -> cwf c_error_estimate e -> ntp_wf n3 -> ntp_wf n2 ->
  cwf c_sender_head (sender_head m) -> ntp_wf (timestamp_ m) ->
  datetime_of_ntp (E:=CommonError) n3 = Ok t3 -> datetime_of_ntp (E:=CommonError) n2 = Ok t2 ->
  answered_with k m t2 t3 (reply_with k e n3 n2 m).
Proof.
  intros Hk He Hn3 Hn2 (Hs & _ & Hes) Hm E3 E2. split; [|split; [done|repeat split; try done]].
  - change (cwf (c_uint 4) k /\ cwf c_ntp n3 /\ cwf c_error_estimate e /\ cwf (c_uint 2) 0 /\ cwf c_ntp n2 /\
      cwf (c_uint 4) (sequence_number m) /\ cwf c_ntp (timestamp_ m) /\ cwf c_error_estimate (error_estimate m) /\
      cwf (c_uint 2) 0 /\ cwf (c_uint 1) 255).
    pose proof (c_ntp_wf n3 Hn3). pose proof (c_ntp_wf n2 Hn2). pose proof (c_ntp_wf _ Hm). done.
  - cbn. rewrite length_replicate. lia.
Qed.

(** What a reflector promises: a probe is answered once, to its sender, with the reflector's next number and the
    times of its reception and of the answer. *)
Class Reflects (callback : Reflecting) : Prop := reflect : forall a port raddr t2 t3 (m : SenderMessage) k rs,
  v4_wf a -> in_u 16 port -> exact_time t2 -> exact_time t3 ->
  padded m -> ntp_wf (timestamp_ m) -> cwf c_sender_head (sender_head m) -> (length (to_be_bytes m) <= Z.to_nat (2 ^ 16))%nat ->
  0 <= k < 2 ^ 32 - 1 -> reflector_at raddr (SockV4 a port) k rs ->
  exists reply rs', answered_with k m t2 t3 reply /\ reflector_at raddr (SockV4 a port) (k + 1) rs' /\
    run_on sock (callback raddr) t3 [packet (SockV4 a port) t2 (to_be_bytes m)] rs =
      Some (rs', [(name_of (SockV4 a port), to_be_bytes reply)]).

Lemma probe_received a port t2 t3 (m : SenderMessage) rs : v4_wf a -> in_u 16 port -> time_before_2036 t2 ->
  (length (to_be_bytes m) <= Z.to_nat (2 ^ 16))%nat ->
  received sock (Build_Shared {| clock_at := t3; inbox := [packet (SockV4 a port) t2 (to_be_bytes m)]; outbox := [] |} rs false)
    (Build_Shared {| clock_at := t3; inbox := []; outbox := [] |} rs false)
    (write_buffer rx_buffer (to_be_bytes m)) (Z.of_nat (length (to_be_bytes m))) (SockV4 a port) t2 /\
  take (Z.to_nat (Z.of_nat (length (to_be_bytes m)))) (write_buffer rx_buffer (to_be_bytes m)) = to_be_bytes m.
Proof.
  intros Ha Hport H2 Hl.
  assert (Hbuf : (length (to_be_bytes m) <= length rx_buffer)%nat) by (unfold rx_buffer; by rewrite length_replicate).
  destruct (received_prefix rx_buffer _ Hbuf) as [Hlen Htake]. rewrite Nat2Z.id. split; [|done].
  split; [by apply receive_packet|]. split; [|done]. lia.
Qed.

Lemma reflector_knows raddr saddr x x' k : reflector_at raddr saddr k [x] -> seq_number x = k -> 0 <= k < 2 ^ 32 - 1 ->
  rx_socket_address x' = rx_socket_address x -> tx_socket_address x' = tx_socket_address x ->
  seq_number x' = as_u 32 (seq_number x + 1) -> reflector_at raddr saddr (k + 1) [x'].
Proof.
  intros [[_ [=]]|(y & [= <-] & Hrx & Htx & _)] <- Hk Erx Etx Eseq. right. exists x'.
  rewrite Erx, Etx, Eseq, as_u_small by (unfold in_u; lia). done.
Qed.

Lemma reflector_new raddr saddr x' : rx_socket_address x' = raddr -> tx_socket_address x' = saddr ->
  seq_number x' = as_u 32 (0 + 1) -> reflector_at raddr saddr (0 + 1) [x'].
Proof. intros Erx Etx Eseq. right. by exists x'. Qed.

(** A known sender, found in its session. *)
Lemma knows_sender raddr saddr x : rx_socket_address x = raddr -> tx_socket_address x = saddr ->
  list_find (fun s => of_peer raddr saddr s = true) [x] = Some (0%nat, x).
Proof. intros Hrx Htx. cbn [list_find]. unfold of_peer. by rewrite decide_True by (by rewrite !bool_decide_true). Qed.

#[export] Instance light_reflects : Reflects Reflector.rx_callback.
Proof.
  intros a port raddr t2 t3 m k rs Ha Hport H2 H3 Hp Hm Hh Hl Hk Hrs. destruct (decode_probe m Hh) as (len & Em).
  destruct (probe_received a port t2 t3 m rs Ha Hport (proj1 H2) Hl) as [Hrx Htake]. unfold run_on.
  rewrite (rx_callback_received _ _ _ _ _ _ _ _ _ Hrx), Htake, Em. run_op. cbn [fst sh_sessions].
  assert (Hk' : in_u 32 k) by (unfold in_u; lia). pose proof Hrs as [[-> ->]|(x & -> & Hrxa & Htx & Hx)].
  - cbn [list_find].
    destruct (answer_on_host (Session_new raddr (SockV4 a port)) (ErrorEstimate_new 0 0 0 1) (SockV4 a port) t2 t3 m [] [] [] H2 H3 Hp Hm)
      as (n3 & n2 & x' & E & Erx & Etx & Eseq & Hn3 & Hn2 & E3 & E2).
    rewrite (bind_Ok _ _ _ _ _ E). run_op. cbn [sh_sessions with_sessions sh_os outbox app].
    eexists _, _. split; [|split; [|reflexivity]]; [by apply reply_answered|by apply reflector_new].
  - rewrite knows_sender by done.
    destruct (answer_on_host x (ErrorEstimate_new 1 0 1 1) (SockV4 a port) t2 t3 m [] [] [x] H2 H3 Hp Hm)
      as (n3 & n2 & x' & E & Erx & Etx & Eseq & Hn3 & Hn2 & E3 & E2).
    rewrite (bind_Ok _ _ _ _ _ E). run_op. cbn [sh_sessions with_sessions sh_os outbox app list_insert insert]. rewrite Hx in *.
    eexists _, _. split; [|split; [|reflexivity]]; [by apply reply_answered|]. eapply reflector_knows; [exact Hrs|done..|by rewrite Hx].
Qed.

(** An answer without its padding is an answer. *)
Lemma bare_answered k m t2 t3 r : answered_with k m t2 t3 r -> answered_with k m t2 t3 (bare r).
Proof. intros (Hh & Hw & Hk & Hs & E3 & E2 & _). split_and!; try done. cbn. lia. Qed.

#[export] Instance control_reflects : Reflects Control.rx_callback.
Proof.
  intros a port raddr t2 t3 m k rs Ha Hport H2 H3 Hp Hm Hh Hl Hk Hrs. destruct (decode_probe m Hh) as (len & Em).
  destruct (probe_received a port t2 t3 m rs Ha Hport (proj1 H2) Hl) as [Hrx Htake]. unfold run_on.
  rewrite (control_received _ _ _ _ _ _ _ _ _ Hrx), Htake, Em. run_op. cbn [fst sh_sessions].
  assert (Hk' : in_u 32 k) by (unfold in_u; lia). pose proof Hrs as [[-> ->]|(x & -> & Hrxa & Htx & Hx)].
  - cbn [list_find]. rewrite (bind_Ok _ _ _ _ _ (now_shared _)). cbn [sh_os sys_clock host_libc clock_at fst snd].
    pose proof H2 as [T2 N2]. pose proof H3 as [T3 N3]. rewrite from_stamp by done.
    destruct (reflected_message_with 0 (ErrorEstimate_new 0 0 0 1) t3 t2 m T3 T2 Hp) as (n3 & n2 & E & Hn3 & Hn2 & E3 & E2).
    rewrite first_reflected_bare, E by done. cbn [fmap outcome_fmap]. rewrite bind_lift_Ok. set (reply := bare _).
    match goal with |- context [(UdpSocket_send_to sock ?to reply ≫= _) ?sh] =>
      destruct (send_to_shared sock to reply sh) as (r & w & Es & Ew) end.
    rewrite (bind_Ok _ _ _ _ _ Es). injection Ew as <- <-.
    destruct (record_answer (Session_new raddr (SockV4 a port)) reply) as (x' & r' & Ex & Erx & Etx & Eseq & _); [done|].
    rewrite Ex. run_op. cbn [sh_sessions with_sessions with_sh_os sh_os outbox app].
    exists reply, [x']. split; [|split; [by apply reflector_new|reflexivity]].
    apply bare_answered, reply_answered; try done; [exact (ntp_of_datetime_back t3 n3 T3 N3 E3)|exact (ntp_of_datetime_back t2 n2 T2 N2 E2)].
  - rewrite knows_sender by done.
    destruct (answer_on_host x (ErrorEstimate_new 1 0 1 1) (SockV4 a port) t2 t3 m [] [] [x] H2 H3 Hp Hm)
      as (n3 & n2 & x' & E & Erx & Etx & Eseq & Hn3 & Hn2 & E3 & E2).
    rewrite (bind_Ok _ _ _ _ _ E). run_op. cbn [sh_sessions with_sessions sh_os outbox app list_insert insert]. rewrite Hx in *.
    eexists _, _. split; [|split; [|reflexivity]]; [by apply reply_answered|]. eapply reflector_knows; [exact Hrs|done..|by rewrite Hx].
Qed.

#[export] Instance reflecting_reflects r : Reflects (reflecting r).
Proof. destruct r; apply _. Qed.

(** The sender stores an answer. *)
Lemma store a port t reply s s' : v4_wf a -> in_u 16 port -> exact_time t -> cwf c_reflected_head (reflected_head reply) ->
  (length (to_be_bytes reply) <= 4096)%nat -> tx_socket_address s = SockV4 a port ->
  add_to_received s reply t = Ok s' ->
  run_on sock (fueled (LightSender.rx_callback 2)) t [packet (SockV4 a port) t (to_be_bytes reply)] [s] = Some ([s'], []).
Proof.
  intros Ha Hport Ht Hh Hl Htx Hadd. destruct (decode_reply reply Hh) as (len & Em).
  assert (Hbuf : (length (to_be_bytes reply) <= length DEFAULT_BUFFER)%nat) by (unfold DEFAULT_BUFFER; by rewrite length_replicate).
  destruct (received_prefix DEFAULT_BUFFER _ Hbuf) as [Hlen Htake].
  unfold run_on, fueled, LightSender.rx_callback. cbn [rx_loop].
  match goal with |- context [((?m ≫= ?f) ≫= ?g) ?sh] => rewrite (bind_bind m f g sh) end.
  rewrite (bind_attempt_Ok _ _ _ _ _ (receive_packet _ a port t _ _ _ _ _ _ Ha Hport (proj1 Ht))).
  rewrite Hlen. unfold DEFAULT_BUFFER in Hbuf at 1. rewrite length_replicate in Hbuf.
  rewrite (proj2 (Z.ltb_ge _ _)) by (unfold DEFAULT_BUFFER; rewrite length_replicate; lia).
  rewrite Nat2Z.id, Htake. run_op. cbn [sh_busy sh_sessions]. unfold rx_store. rewrite Em. cbn [fst].
  cbn [list_find]. rewrite decide_True by (by rewrite bool_decide_true). rewrite Hadd. run_op.
  match goal with |- context [with_sessions ?l ?sh] =>
    change (with_sessions l sh) with (Build_Shared {| clock_at := t; inbox := []; outbox := [] |} [s'] false) end.
  rewrite (bind_attempt_Err _ _ _ _ _ (receive_nothing _ _ _ _ _)). reflexivity.
Qed.
End node.

Section rounds.
Context `{BP : BuildProfile}.
Variables (callback : Reflecting) (saddr raddr : Ipv4Addr) (sport rport : Z) (sock : TimestampedUdpSocket) (padding : Z).
Context `{RF : !Reflects sock callback}.
Hypothesis saddr_wf : v4_wf saddr.
Hypothesis raddr_wf : v4_wf raddr.
Hypothesis sport_wf : in_u 16 sport.
Hypothesis rport_wf : in_u 16 rport.
Hypothesis padding_wf : 0 <= padding <= 1024.
Let sender_at := SockV4 saddr sport.
Let reflector := SockV4 raddr rport.

Lemma probe_wf s n : in_u 32 (seq_number s) -> ntp_wf n ->
  padded (probe padding s n) /\ cwf c_sender_head (sender_head (probe padding s n)) /\
  length (Messages.padding (probe padding s n)) = Z.to_nat (27 + padding) /\
  (length (to_be_bytes (probe padding s n)) <= Z.to_nat (2 ^ 16))%nat.
Proof using padding_wf.
  intros Hs Hn. pose proof (c_ntp_wf n Hn) as Hw. unfold padded, MIN_UNAUTH_PADDING. cbn [probe Messages.padding].
  unfold MIN_UNAUTH_PADDING. rewrite length_replicate. split; [lia|]. split; [split; [exact Hs|split; [exact Hw|by repeat split]]|]. split; [done|].
  cbn [to_be_bytes SenderMessage_bytes Messages.padding probe]. rewrite length_app, length_replicate.
  assert (length (enc c_sender_head (sender_head (probe padding s n))) = 14%nat) as ->
    by reflexivity.
  unfold MIN_UNAUTH_PADDING. lia.
Qed.

(** Before a round: the sender's session and the reflector's. *)
Record exchange_inv (k : Z) (s : Session) (rs : list Session) : Prop := {
  ex_session : session_inv s;
  ex_address : tx_socket_address s = reflector;
  ex_reflector : reflector_at reflector sender_at k rs
}.

Lemma sent_at_inv t s : exact_time t -> session_inv s -> session_inv (sent_at t s).
Proof.
  intros [[Ht _] _] [Hs Hn Hl Hp]. constructor; cbn [results seq_number last_updated sent_at]; rewrite ?length_app; cbn [length];
    rewrite ?Nat.add_1_r, ?Hn, ?as_u_succ; [|done|lia|].
  - rewrite fmap_app, Hs. cbn [fmap list_fmap sender_seq]. by apply seqs_snoc.
  - apply Forall_app. split; [done|]. constructor; [|done]. destruct Ht. unfold packet_u32, datetime_u32, in_u, NANOS_PER_SEC in *. cbn. lia.
Qed.

Lemma reply_length (m : ReflectedMessage) : length (to_be_bytes m) = (41 + length (rm_padding m))%nat.
Proof using. cbn [to_be_bytes ReflectedMessage_bytes]. by rewrite length_app. Qed.

(** An answer to the packet just sent completes it. *)
Lemma complete s n k r reply : session_inv s -> Z.of_nat (length (results s)) < 2 ^ 31 -> round_wf r ->
  fate_of r = Delivered ->
  answered_with k (probe padding s n) (at_reflector r) (at_reply r) reply ->
  exists s', add_to_received (sent_at (at_send r) s) reply (at_sender r) = Ok s' /\ session_inv s' /\
    tx_socket_address s' = tx_socket_address s /\
    results s' = results s ++ [ideal_packet (Z.of_nat (length (results s))) k r].
Proof using.
  intros Hs Hl (H1 & H2 & H3 & H4) Hf (_ & Hwf & Hk & Hseq & E3 & E2 & _). pose proof (sent_at_inv _ s H1 Hs) as Hs1.
  assert (Hn : seq_number s = Z.of_nat (length (results s))).
  { rewrite (inv_seq_number s Hs). apply as_u_small. unfold in_u. lia. }
  cbn [probe sequence_number] in Hseq. rewrite Hn in Hseq.
  assert (Hd4 : datetime_u32 (at_sender r)).
  { destruct H4 as [[[? ?] _] _]. split; unfold in_u, NANOS_PER_SEC in *; lia. }
  destruct (add_to_received_update (sent_at (at_send r) s) reply (at_sender r) Hs1 Hwf) as (p & s' & Ep & E & _ & _ & Hres);
    [cbn [results sent_at]; rewrite length_app; cbn [length]; lia|lia|].
  exists s'. split; [done|]. split; [by eapply session_inv_received|]. split.
  { destruct (add_to_received_spec (sent_at (at_send r) s) reply (at_sender r) Hwf) as (p' & _ & _ & _ & E').
    rewrite E in E'. by injection E' as ->. }
  rewrite Hseq, Nat2Z.id in Hres. cbn [results sent_at] in Hres.
  rewrite lookup_app_r, Nat.sub_diag in Hres by lia. cbn [lookup list_lookup] in Hres. rewrite Hres.
  rewrite insert_app_r_alt, Nat.sub_diag by lia. cbn [insert list_insert]. do 2 f_equal.
  revert Ep. unfold packet_results, ReflectedMessage_Message, unwrap_datetime, try_datetime. rewrite E2, E3.
  destruct (datetime_of_ntp_ok (E:=CommonError) (sender_timestamp reply)) as (d & -> & _); [apply Hwf|].
  cbn [mbind outcome_bind]. intros [= <-]. unfold receive_into, ideal_packet. cbn. by rewrite Hf, Hk, Hn.
Qed.

Lemma run_round k s rs r : exchange_inv k s rs -> round_wf r ->
  Z.of_nat (length (results s)) < 2 ^ 31 -> 0 <= k < 2 ^ 31 ->
  exists s' rs', exchange_round callback sender_at reflector sock padding r ([s], rs) = Some ([s'], rs') /\
    exchange_inv (counted k r) s' rs' /\
    results s' = results s ++ [ideal_packet (Z.of_nat (length (results s))) k r].
Proof using All.
  intros [Hs Ha Hrs] Hr Hl Hk. pose proof Hr as (H1 & H2 & H3 & H4). unfold exchange_round. cbn [fst snd].
  destruct (tick sock padding (at_send r) s H1 ltac:(lia)) as (n & Hn & ->). cbn [mbind option_bind].
  rewrite Ha, deliver_one.
  assert (Hseq : in_u 32 (seq_number s)) by (rewrite (inv_seq_number s Hs); by apply as_u_range).
  assert (Eseq : seq_number s = Z.of_nat (length (results s))).
  { rewrite (inv_seq_number s Hs). apply as_u_small. unfold in_u. lia. }
  destruct (probe_wf s n Hseq Hn) as (Hp & Hh & Hpad & Hlen).
  pose proof (sent_at_inv (at_send r) s H1 Hs) as Hs1.
  destruct (reflect sock saddr sport reflector (at_reflector r) (at_reply r) (probe padding s n) k rs saddr_wf sport_wf H2 H3
    Hp Hn Hh Hlen ltac:(lia) Hrs) as (reply & rs' & Hreply & Hrs' & E).
  unfold counted, run_waiting. destruct (fate_of r) eqn:Hf; cbn [mbind option_bind].
  - do 2 eexists. split; [reflexivity|]. split; [by constructor|]. unfold ideal_packet. rewrite Hf, <-Eseq. done.
  - fold sender_at in E. rewrite E. cbn [mbind option_bind]. do 2 eexists. split; [reflexivity|].
    split; [by constructor|]. unfold ideal_packet. rewrite Hf, <-Eseq. done.
  - fold sender_at in E. rewrite E. cbn [mbind option_bind]. fold sender_at. rewrite deliver_one.
    destruct (complete s n k r reply Hs Hl Hr Hf Hreply) as (s' & Es & Hs' & Htx & Hres).
    rewrite (store sock raddr rport (at_sender r) reply (sent_at (at_send r) s) s' raddr_wf rport_wf H4); [|apply Hreply| |done|done].
    + cbn [mbind option_bind]. do 2 eexists. split; [reflexivity|]. split; [|done].
      constructor; [done|by rewrite Htx|done].
    + rewrite reply_length. destruct Hreply as (_ & _ & _ & _ & _ & _ & ?). lia.
Qed.

Lemma run_rounds rounds k s rs : exchange_inv k s rs -> Forall round_wf rounds ->
  Z.of_nat (length (results s)) + Z.of_nat (length rounds) < 2 ^ 31 -> 0 <= k -> k + Z.of_nat (length rounds) < 2 ^ 31 ->
  exists s' rs', exchange callback sender_at reflector sock padding rounds ([s], rs) = Some ([s'], rs') /\
    exchange_inv (foldl counted k rounds) s' rs' /\
    results s' = results s ++ ideal (Z.of_nat (length (results s))) k rounds.
Proof using All.
  intros Hi Hw. revert k s rs Hi. induction Hw as [|r rounds Hr Hw IH]; intros k s rs Hi Hl Hk Hkl.
  { exists s, rs. split; [done|]. split; [done|]. by rewrite app_nil_r. }
  cbn [length] in *. destruct (run_round k s rs r Hi Hr) as (s1 & rs1 & E1 & Hi1 & R1); [lia|lia|].
  assert (Hc : k <= counted k r <= k + 1) by (unfold counted; destruct (fate_of r); lia).
  destruct (IH (counted k r) s1 rs1 Hi1) as (s2 & rs2 & E2 & Hi2 & R2); [rewrite R1, length_app; cbn [length]; lia|lia|lia|].
  exists s2, rs2. split; [cbn [exchange]; by rewrite E1|]. split; [done|]. rewrite R2, R1, <-app_assoc, length_app.
  cbn [length ideal app]. do 3 f_equal. lia.
Qed.
End rounds.

Lemma ideal_honest rounds n k : seqs_of <$> ideal n k rounds = honest n k (fate_of <$> rounds).
Proof.
  revert n k. induction rounds as [|r rounds IH]; intros n k; [done|]. cbn [ideal fmap list_fmap honest].
  unfold list_fmap in IH. rewrite IH. unfold ideal_packet, counted, seqs_of. by destruct (fate_of r).
Qed.

Lemma counted_total rounds k :
  foldl counted k rounds = k + Z.of_nat (length (filter (fun r => is_lost_forward (fate_of r) = false) rounds)).
Proof.
  revert k. induction rounds as [|r rounds IH]; intros k; cbn [foldl]; [cbn; lia|]. rewrite IH, filter_cons. unfold counted.
  destruct (fate_of r); cbn [is_lost_forward]; case_decide; try done; cbn [length]; lia.
Qed.

Lemma fresh_inv saddr sport raddr rport :
  exchange_inv saddr raddr sport rport 0 (Session_new (SockV4 saddr sport) (SockV4 raddr rport)) [].
Proof. constructor; [by constructor|done|by left]. Qed.

(** ** Properties *)

(** C2: a light sender and a reflector, the light one or the control server's, measure what happens
    to the packets: whatever the network loses on the way out or back, every callback of both sides succeeds, and the
    sender's table is the ideal one: packet [i] has number [i], its send time, and, exactly
    when its answer came back, the reflector's count of the packets that reached it, the time
    it was received there, the time it was answered and the time the answer was received.  The
    reflector has counted the packets that reached it. *)
Theorem exchange_measures `{BuildProfile} who saddr raddr sport rport sock padding rounds :
  v4_wf saddr -> v4_wf raddr -> in_u 16 sport -> in_u 16 rport -> 0 <= padding <= 1024 ->
  Forall round_wf rounds -> Z.of_nat (length rounds) < 2 ^ 31 ->
  let sender := SockV4 saddr sport in let reflector := SockV4 raddr rport in
  exists s rs, exchange (reflecting who) sender reflector sock padding rounds ([Session_new sender reflector], []) = Some ([s], rs) /\
    results s = ideal 0 0 rounds /\ session_inv s /\
    reflector_at reflector sender (Z.of_nat (length (filter (fun r => is_lost_forward (fate_of r) = false) rounds))) rs.
Proof.
  intros Hs Hr Hsp Hrp Hp Hw Hl sender reflector.
  destruct (run_rounds (reflecting who) saddr raddr sport rport sock padding Hs Hr Hsp Hrp Hp rounds 0 (Session_new sender reflector) [])
    as (s & rs & E & [Hinv _ Hrs] & Hres); [apply fresh_inv|done|cbn; lia|lia|lia|].
  exists s, rs. split; [done|]. split; [done|]. split; [done|]. by rewrite counted_total in Hrs.
Qed.

(** C10: the loss report of a test is true end to end: when the answers of the first, the second
    and the last packet come back, the sender's report after the exchange counts exactly the
    packets the network lost on the way out, on the way back and in total. *)
Theorem exchange_loss_exact `{BuildProfile} who saddr raddr sport rport sock padding rounds fates :
  v4_wf saddr -> v4_wf raddr -> in_u 16 sport -> in_u 16 rport -> 0 <= padding <= 1024 ->
  Forall round_wf rounds -> Z.of_nat (length rounds) < 2 ^ 31 ->
  fate_of <$> rounds = Delivered :: Delivered :: fates ++ [Delivered] ->
  let sender := SockV4 saddr sport in let reflector := SockV4 raddr rport in
  exists s rs, exchange (reflecting who) sender reflector sock padding rounds ([Session_new sender reflector], []) = Some ([s], rs) /\
    analyze_packet_loss s = Ok (lost_forward fates, lost fates - lost_forward fates, lost fates).
Proof.
  intros Hs Hr Hsp Hrp Hp Hw Hl Hf sender reflector.
  destruct (run_rounds (reflecting who) saddr raddr sport rport sock padding Hs Hr Hsp Hrp Hp rounds 0 (Session_new sender reflector) [])
    as (s & rs & E & _ & Hres); [apply fresh_inv|done|cbn; lia|lia|lia|].
  exists s, rs. split; [done|]. cbn [results Session_new length app Z.of_nat] in Hres.
  apply (analyze_exact s 0 fates); [|lia|].
  - by rewrite Hres, ideal_honest, Hf.
  - apply (f_equal length) in Hf. rewrite length_fmap in Hf. cbn [length] in Hf. rewrite length_app in Hf. cbn [length] in Hf. lia.
Qed.

(** ** Concrete runs *)

Definition at_second (s : Z) : DateTime := {| sec := 1700000000 + s; nanos := 250 |}.
Definition round_at (s : Z) (f : fate) : round :=
  {| fate_of := f; at_send := at_second s; at_reflector := at_second (s + 1); at_reply := at_second (s + 2); at_sender := at_second (s + 3) |}.
Definition sample_rounds : list round :=
  [round_at 0 Delivered; round_at 10 Delivered; round_at 20 LostForward; round_at 30 LostBackward; round_at 40 Delivered].
Definition host_a : Ipv4Addr := Ipv4Addr_new 10 0 0 1.
Definition host_b : Ipv4Addr := Ipv4Addr_new 10 0 0 2.

Lemma sample_rounds_wf : Forall round_wf sample_rounds.
Proof.
  assert (forall s, 0 <= s <= 100 -> exact_time (at_second s)) as Ht.
  { intros s Hs. unfold exact_time, time_before_2036, datetime_wf, in_u, NANOS_PER_SEC, NTP_EPOCH, at_second. cbn. lia. }
  repeat constructor; cbn -[at_second]; apply Ht; lia.
Qed.
Lemma host_wf : v4_wf host_a /\ v4_wf host_b.
Proof. split; unfold v4_wf; repeat (constructor; [unfold byte_ok; cbn; lia|]); constructor. Qed.

Example exchange_measures_witness : exists s rs,
  exchange (BP:=DEBUG) (reflecting (H:=DEBUG) ControlReflector) (SockV4 host_a 4000) (SockV4 host_b 862) (UdpSocket_new 3) 0 sample_rounds
    ([Session_new (SockV4 host_a 4000) (SockV4 host_b 862)], []) = Some ([s], rs) /\
  seqs_of <$> results s = [(0, Some 0); (1, Some 1); (2, None); (3, None); (4, Some 3)].
Proof.
  destruct (exchange_measures (H:=DEBUG) ControlReflector host_a host_b 4000 862 (UdpSocket_new 3) 0 sample_rounds) as (s & rs & E & Hr & _);
    [apply host_wf|apply host_wf|unfold in_u; lia|unfold in_u; lia|lia|exact sample_rounds_wf|cbn; lia|].
  exists s, rs. split; [exact E|]. rewrite Hr. reflexivity.
Defined.

Example exchange_loss_exact_witness : exists s rs,
  exchange (BP:=RELEASE) (reflecting (H:=RELEASE) LightReflector) (SockV4 host_a 4000) (SockV4 host_b 862) (UdpSocket_new 3) 1024 sample_rounds
    ([Session_new (SockV4 host_a 4000) (SockV4 host_b 862)], []) = Some ([s], rs) /\
  @analyze_packet_loss RELEASE s = Ok (1, 1, 2).
Proof.
  apply (exchange_loss_exact (H:=RELEASE) LightReflector host_a host_b 4000 862 (UdpSocket_new 3) 1024 sample_rounds [LostForward; LostBackward]);
    [apply host_wf|apply host_wf|unfold in_u; lia|unfold in_u; lia|lia|exact sample_rounds_wf|cbn; lia|reflexivity].
Defined.
