(* ===== verification/Network.v ===== *)
(** * Sender and reflector over an asynchronous network

    The two hosts of [Exchange], with no order imposed: the sender's timer fires at any time, and
    the network delivers any packet ever sent, late, out of order, several times or never.  The
    states two hosts can reach are those of the step relation [net_step]. *)
From stdpp Require Import base list option numbers strings relations.
From Stdlib Require Import ZArith Lia.
From S2P Require Import Prelude Float64 Errors Time Net DataModel Messages Wire Session Sockets EventLoop Shared Control LightSender Reflector Exchange.
Local Open Scope Z_scope.
Import BigEndian.
#[local] Existing Instance LE.

(** Both hosts' sessions, and all that each has sent to the other, in sending order. *)
Record net := { senders : list Session; reflectors : list Session; probes : list (list Z); answers_sent : list (list Z) }.

Definition addressed_to (a : SocketAddr) (sent : list (list Z * list Z)) : list (list Z) :=
  snd <$> filter (fun p => p.1 = name_of a) sent.

(** A packet has no answer, or what one answer said and a time of reception. *)
Definition unanswered (p : PacketResults) : Prop := reflector_seq p = None /\ t2 p = None /\ t3 p = None /\ t4 p = None.
Definition taken_from `{BuildProfile} (reply : ReflectedMessage) (p : PacketResults) : Prop :=
  reflector_seq p = Some (reflector_sequence_number reply) /\
  (exists a2, t2 p = Some a2 /\ datetime_of_ntp (E:=CommonError) (receive_timestamp reply) = Ok a2) /\
  (exists a3, t3 p = Some a3 /\ datetime_of_ntp (E:=CommonError) (rm_timestamp reply) = Ok a3) /\ is_Some (t4 p).

Section network.
Context `{BP : BuildProfile}.
Variables (callback : Reflecting) (saddr raddr : Ipv4Addr) (sport rport : Z) (sock : TimestampedUdpSocket) (padding : Z).
Context `{RF : !Reflects sock callback}.
Let sender_at := SockV4 saddr sport.
Let reflector_addr := SockV4 raddr rport.

Inductive net_step : net -> net -> Prop :=
  | net_tick n t ss out : exact_time t ->
      run_on sock (tx_callback padding) t [] (senders n) = Some (ss, out) ->
      net_step n {| senders := ss; reflectors := reflectors n;
                    probes := probes n ++ addressed_to reflector_addr out; answers_sent := answers_sent n |}
  | net_reflect n a2 a3 data rs out : exact_time a2 -> exact_time a3 -> data ∈ probes n ->
      run_on sock (callback reflector_addr) a3 [packet sender_at a2 data] (reflectors n) = Some (rs, out) ->
      net_step n {| senders := senders n; reflectors := rs; probes := probes n;
                    answers_sent := answers_sent n ++ addressed_to sender_at out |}
  | net_receive n a4 data ss out : exact_time a4 -> data ∈ answers_sent n ->
      run_on sock (fueled (LightSender.rx_callback 2)) a4 [packet reflector_addr a4 data] (senders n) = Some (ss, out) ->
      net_step n {| senders := ss; reflectors := reflectors n; probes := probes n; answers_sent := answers_sent n |}.

Definition fresh_net : net :=
  {| senders := [Session_new sender_at reflector_addr]; reflectors := []; probes := []; answers_sent := [] |}.

(** Fewer than 2^31 packets each way. *)
Definition small (n : net) : Prop :=
  Z.of_nat (length (probes n)) < 2 ^ 31 /\ Z.of_nat (length (answers_sent n)) < 2 ^ 31.

(** A probe of a packet the session has recorded. *)
Definition good_probe (s : Session) (data : list Z) : Prop := exists s0 n, data = to_be_bytes (probe padding s0 n) /\
  ntp_wf n /\ in_u 32 (seq_number s0) /\ seq_number s0 < Z.of_nat (length (results s)).

(** The reflector's [k]-th answer, to a packet the session has recorded. *)
Definition good_answer (s : Session) (k : Z) (data : list Z) : Prop := exists s0 n a2 a3 reply,
  data = to_be_bytes reply /\ answered_with k (probe padding s0 n) a2 a3 reply /\ exact_time a2 /\ exact_time a3 /\
  0 <= seq_number s0 < Z.of_nat (length (results s)).

(** Packet [i] has no answer, or the [k]-th answer, which was to it. *)
Definition good_record (n : net) (i : nat) (p : PacketResults) : Prop := unanswered p \/
  exists k data reply, answers_sent n !! k = Some data /\ data = to_be_bytes reply /\
    cwf c_reflected_head (reflected_head reply) /\ reflector_sequence_number reply = Z.of_nat k /\
    sender_sequence_number reply = Z.of_nat i /\ taken_from reply p.

Record net_inv (n : net) (s : Session) : Prop := {
  net_senders : senders n = [s];
  net_session : session_inv s;
  net_address : tx_socket_address s = reflector_addr;
  net_reflectors : reflector_at reflector_addr sender_at (Z.of_nat (length (answers_sent n))) (reflectors n);
  net_sent : length (probes n) = length (results s);
  net_probes : Forall (good_probe s) (probes n);
  net_answers : forall k data, answers_sent n !! k = Some data -> good_answer s (Z.of_nat k) data;
  net_records : forall i p, results s !! i = Some p -> good_record n i p
}.

Hypothesis saddr_wf : v4_wf saddr.
Hypothesis raddr_wf : v4_wf raddr.
Hypothesis sport_wf : in_u 16 sport.
Hypothesis rport_wf : in_u 16 rport.
Hypothesis padding_wf : 0 <= padding <= 1024.

Lemma addressed_one a data : addressed_to a [(name_of a, data)] = [data].
Proof using. unfold addressed_to. by rewrite filter_cons_True. Qed.

Lemma fresh_net_inv : net_inv fresh_net (Session_new sender_at reflector_addr).
Proof using. constructor; try done; by left. Qed.

Lemma good_probe_more s s' data : (length (results s) <= length (results s'))%nat -> good_probe s data -> good_probe s' data.
Proof using. intros Hl (s0 & n & ? & ? & ? & ?). exists s0, n. split_and!; (done || lia). Qed.
Lemma good_answer_more s s' k data : (length (results s) <= length (results s'))%nat -> good_answer s k data -> good_answer s' k data.
Proof using. intros Hl (s0 & n & a2 & a3 & reply & ? & ? & ? & ? & ? & ?). exists s0, n, a2, a3, reply. split_and!; (done || lia). Qed.
Lemma good_record_more n n' i p : answers_sent n `prefix_of` answers_sent n' -> good_record n i p -> good_record n' i p.
Proof using.
  intros [l Hl] [Hu|(k & data & reply & Hk & H)]; [by left|]. right. exists k, data, reply. split; [|done].
  rewrite Hl. by apply lookup_app_l_Some.
Qed.

Lemma small_seq n s : net_inv n s -> small n -> in_u 32 (seq_number s) /\ seq_number s = Z.of_nat (length (results s)).
Proof using.
  intros Hi [Hp _]. rewrite (net_sent _ _ Hi) in Hp. rewrite (inv_seq_number s (net_session _ _ Hi)).
  rewrite as_u_small by (unfold in_u; lia). unfold in_u. lia.
Qed.

(** The sender's timer can always fire, and keeps the invariant. *)
Lemma tick_step n s t : net_inv n s -> small n -> exact_time t -> exists m,
  run_on sock (tx_callback padding) t [] (senders n) = Some ([sent_at t s], [(name_of reflector_addr, m)]) /\
  net_inv {| senders := [sent_at t s]; reflectors := reflectors n;
             probes := probes n ++ [m]; answers_sent := answers_sent n |} (sent_at t s).
Proof using padding_wf.
  intros Hi Hsm Ht. destruct (small_seq n s Hi Hsm) as [Hseq Eseq]. destruct Hi as [Hs Hinv Ha Hr Hn Hp Hans Hrec].
  rewrite Hs. destruct (tick sock padding t s Ht ltac:(lia)) as (nt & Hnt & E). rewrite E, Ha.
  eexists. split; [reflexivity|].
  assert (Hlen : length (results (sent_at t s)) = S (length (results s))) by (cbn; rewrite length_app; cbn; lia).
  constructor; cbn [senders reflectors probes answers_sent]; try done.
  - by apply sent_at_inv.
  - rewrite length_app, Hlen. cbn. lia.
  - apply Forall_app. split; [eapply Forall_impl; [exact Hp|]; intros; by eapply good_probe_more; [|done]; lia|].
    constructor; [|done]. exists s, nt. rewrite Hlen. split_and!; (done || lia).
  - intros k data Hk. eapply good_answer_more; [|by apply Hans]. lia.
  - intros i p. cbn [results sent_at]. intros [Hip|(_ & Hip)]%lookup_app_Some; [by apply Hrec|].
    left. apply list_lookup_singleton_Some in Hip as [_ <-]. done.
Qed.

(** Every packet that reaches the reflector is answered, and the invariant kept. *)
Lemma reflect_step n s a2 a3 data : net_inv n s -> small n -> exact_time a2 -> exact_time a3 -> data ∈ probes n -> exists m rs,
  run_on sock (callback reflector_addr) a3 [packet sender_at a2 data] (reflectors n) = Some (rs, [(name_of sender_at, m)]) /\
  net_inv {| senders := senders n; reflectors := rs; probes := probes n; answers_sent := answers_sent n ++ [m] |} s.
Proof using RF padding_wf saddr_wf sport_wf.
  intros Hi [_ Hsm] H2 H3 Hd. destruct Hi as [Hs Hinv Ha Hr Hn Hp Hans Hrec].
  pose proof (proj1 (Forall_forall _ _) Hp _ Hd) as (s0 & nt & -> & Hnt & Hseq & Hlt).
  destruct (probe_wf padding padding_wf s0 nt Hseq Hnt) as (Hpad & Hh & _ & Hlen).
  destruct (reflect sock saddr sport reflector_addr a2 a3 (probe padding s0 nt) (Z.of_nat (length (answers_sent n))) (reflectors n) saddr_wf sport_wf H2 H3
    Hpad Hnt Hh Hlen ltac:(lia) Hr) as (reply & rs & Hreply & Hrs & E).
  exists (to_be_bytes reply), rs. split; [exact E|]. constructor; cbn [senders reflectors probes answers_sent]; try done.
  - rewrite length_app. cbn [length]. by rewrite Nat2Z.inj_add.
  - intros k data [Hk|(Hk & Hdata)]%lookup_app_Some; [by apply Hans|].
    apply list_lookup_singleton_Some in Hdata as [Hk0 <-]. assert (k = length (answers_sent n)) as -> by lia.
    exists s0, nt, a2, a3, reply. unfold in_u in Hseq. split_and!; (done || lia).
  - intros i p Hip. eapply good_record_more; [|by apply Hrec]. cbn. by exists [to_be_bytes reply].
Qed.

Lemma taken_receive reply p r a4 k m a2 a3 : packet_results reply = Ok r -> answered_with k m a2 a3 reply ->
  taken_from reply (receive_into p r a4).
Proof using.
  intros Er (_ & Hwf & _ & _ & E3 & E2 & _). revert Er.
  unfold packet_results, ReflectedMessage_Message, unwrap_datetime, try_datetime. rewrite E2, E3.
  destruct (datetime_of_ntp_ok (E:=CommonError) (sender_timestamp reply)) as (d & -> & _); [apply Hwf|].
  cbn [mbind outcome_bind]. intros [= <-]. unfold taken_from, receive_into. cbn. rewrite E2, E3. split_and!; eauto.
Qed.

(** Every answer that reaches the sender is recorded, and the invariant kept. *)
Lemma receive_step n s a4 data : net_inv n s -> small n -> exact_time a4 -> data ∈ answers_sent n -> exists s',
  run_on sock (fueled (LightSender.rx_callback 2)) a4 [packet reflector_addr a4 data] (senders n) = Some ([s'], []) /\
  net_inv {| senders := [s']; reflectors := reflectors n; probes := probes n; answers_sent := answers_sent n |} s' /\
  exists i p reply len, parse data = Ok (reply, len) /\ sender_sequence_number reply = Z.of_nat i /\
    results s' !! i = Some p /\ taken_from reply p.
Proof using raddr_wf rport_wf padding_wf.
  intros Hi Hsm H4 Hd. destruct (small_seq n s Hi Hsm) as [_ Eseq]. destruct Hi as [Hs Hinv Ha Hr Hn Hp Hans Hrec].
  apply list_elem_of_lookup_1 in Hd as [k Hk].
  destruct (Hans k data Hk) as (s0 & nt & a2 & a3 & reply & -> & Hreply & H2 & H3 & Hseq).
  pose proof Hreply as (Hh & Hwf & Hrk & Hrs & _ & _ & Hpad). cbn [probe sequence_number Messages.padding] in Hrs, Hpad.
  destruct (add_to_received_update s reply a4 Hinv Hwf) as (r & s' & Er & E & _ & _ & Hres);
    [destruct Hsm; lia|lia|]. rewrite Hrs in Hres.
  destruct (lookup_lt_is_Some_2 (results s) (Z.to_nat (seq_number s0))) as [p Hip]; [lia|]. rewrite Hip in Hres.
  assert (Hlen : length (results s') = length (results s)) by (rewrite Hres; apply length_insert).
  assert (Htx : tx_socket_address s' = tx_socket_address s).
  { destruct (add_to_received_spec s reply a4 Hwf) as (p' & _ & _ & _ & E'). rewrite E in E'. by injection E' as ->. }
  assert (Htaken : taken_from reply (receive_into p r a4)) by (by eapply taken_receive).
  exists s'. rewrite Hs. split; [|split].
  - apply (store sock raddr rport a4 reply s s' raddr_wf rport_wf H4 Hh); [|by rewrite Ha|done].
    rewrite reply_length. rewrite length_replicate in Hpad. unfold MIN_UNAUTH_PADDING in Hpad. lia.
  - constructor; cbn [senders reflectors probes answers_sent]; try done.
    + destruct H4 as [[[? ?] _] _]. eapply session_inv_received; [exact Hinv|exact Hwf| |exact E].
      split; unfold in_u, NANOS_PER_SEC in *; lia.
    + by rewrite Htx.
    + by rewrite Hlen.
    + eapply Forall_impl; [exact Hp|]. intros. eapply good_probe_more; [|done]. lia.
    + intros k' data Hk'. eapply good_answer_more; [|by apply Hans]. lia.
    + rewrite Hres. intros i q [(<- & <- & _)|(_ & Hq)]%list_lookup_insert_Some; [|exact (Hrec i q Hq)].
      right. exists k, (to_be_bytes reply), reply. rewrite Z2Nat.id by lia. done.
  - destruct (decode_reply reply Hh) as (len & Ed).
    exists (Z.to_nat (seq_number s0)), (receive_into p r a4), reply, len. rewrite Z2Nat.id by lia. split_and!; try done.
    rewrite Hres. apply list_lookup_insert_eq. lia.
Qed.

Lemma net_step_inv n s n' : net_inv n s -> small n' -> net_step n n' -> exists s', net_inv n' s'.
Proof using All.
  intros Hi Hsm Hstep. assert (Hn : small n).
  { destruct Hsm. destruct Hstep; unfold small; cbn [probes answers_sent] in *; rewrite ?length_app in *; lia. }
  destruct Hstep as [n t ss out Ht E|n a2 a3 data rs out H2 H3 Hd E|n a4 data ss out H4 Hd E].
  - destruct (tick_step n s t Hi Hn Ht) as (m & E' & Hi'). rewrite E in E'. injection E' as -> ->.
    rewrite addressed_one. by eexists.
  - destruct (reflect_step n s a2 a3 data Hi Hn H2 H3 Hd) as (m & rs' & E' & Hi').
    fold sender_at reflector_addr in E. rewrite E in E'. injection E' as -> ->. rewrite addressed_one. by eexists.
  - destruct (receive_step n s a4 data Hi Hn H4 Hd) as (s' & E' & Hi' & _). rewrite E in E'. injection E' as -> ->. by eexists.
Qed.

Lemma reachable_inv n : rtc net_step fresh_net n -> small n -> exists s, net_inv n s.
Proof using All.
  intros Hr. revert Hr. apply (rtc_ind_r (fun n => small n -> exists s, net_inv n s)).
  - intros _. eexists. apply fresh_net_inv.
  - intros x y _ Hstep IH Hsm. destruct IH as [s Hs].
    { destruct Hsm. destruct Hstep; unfold small; cbn [probes answers_sent] in *; rewrite ?length_app in *; lia. }
    by eapply net_step_inv.
Qed.
End network.

(** ** Properties *)

(** C3: over a network that delays, reorders, duplicates and loses packets as it likes, and
    whichever reflector answers, the light one or the control server's, the sender's table never lies: in every reachable state packet [i] is numbered [i] and either
    has no answer, or carries the count and the two times of one answer the reflector really
    sent, the [k]-th it sent, to a probe numbered [i], together with a time of reception;
    nothing is mixed from two answers or taken from the answer to another packet. *)
Theorem network_records_true `{BuildProfile} who saddr raddr sport rport sock padding n :
  v4_wf saddr -> v4_wf raddr -> in_u 16 sport -> in_u 16 rport -> 0 <= padding <= 1024 ->
  rtc (net_step (reflecting who) saddr raddr sport rport sock padding) (fresh_net saddr raddr sport rport) n -> small n ->
  exists s, senders n = [s] /\ session_inv s /\ length (results s) = length (probes n) /\
    forall i p, results s !! i = Some p -> sender_seq p = Z.of_nat i /\ (unanswered p \/
      exists k data reply len, answers_sent n !! k = Some data /\ parse data = Ok (reply, len) /\
        reflector_sequence_number reply = Z.of_nat k /\ sender_sequence_number reply = Z.of_nat i /\ taken_from reply p).
Proof.
  intros Hs Hr Hsp Hrp Hp Hreach Hsm.
  destruct (reachable_inv (reflecting who) saddr raddr sport rport sock padding Hs Hr Hsp Hrp Hp n Hreach Hsm) as [s Hi].
  destruct Hi as [Hse Hinv _ _ Hn _ _ Hrec]. exists s. split; [done|]. split; [done|]. split; [done|].
  intros i p Hip. split.
  - pose proof (lookup_lt_Some _ _ _ Hip). pose proof (f_equal (fun l => l !! i) (inv_seqs s Hinv)) as Hseq. cbn in Hseq.
    rewrite !list_lookup_fmap, Hip, lookup_seq_lt in Hseq by done. injection Hseq as ->.
    apply as_u_small. destruct Hsm. unfold in_u. lia.
  - destruct (Hrec i p Hip) as [?|(k & data & reply & Hk & -> & Hh & ? & ? & ?)]; [by left|]. right.
    destruct (decode_reply reply Hh) as (len & E). by exists k, (to_be_bytes reply), reply, len.
Qed.


(** ** Concrete runs *)

Lemma sample_time_ok : exact_time (at_second 0).
Proof. unfold exact_time, time_before_2036, datetime_wf, in_u, NANOS_PER_SEC, NTP_EPOCH, at_second. cbn. lia. Qed.
#[local] Abbreviation sample_step := (net_step (BP:=DEBUG) (reflecting (H:=DEBUG) ControlReflector) host_a host_b 4000 862 (UdpSocket_new 3) 0).

(** One probe that is answered twice. *)
Lemma sample_net : exists n, rtc sample_step (fresh_net host_a host_b 4000 862) n /\ small n /\
  length (probes n) = 1%nat /\ length (answers_sent n) = 2%nat.
Proof.
  assert (Ha : v4_wf host_a) by apply host_wf. assert (H4000 : in_u 16 4000) by (unfold in_u; lia).
  destruct (tick_step (BP:=DEBUG) host_a host_b 4000 862 (UdpSocket_new 3) 0 ltac:(lia) _ _ (at_second 0)
    (fresh_net_inv (BP:=DEBUG) host_a host_b 4000 862 0) ltac:(done) sample_time_ok) as (m & E1 & I1).
  match type of I1 with net_inv _ _ _ _ _ ?n _ => set (n1 := n) in * end.
  assert (Hsm1 : small n1) by (unfold small; subst n1; cbn; lia). assert (Hm1 : m ∈ probes n1) by (subst n1; cbn; by left).
  destruct (reflect_step (BP:=DEBUG) (reflecting (H:=DEBUG) ControlReflector) host_a host_b 4000 862 (UdpSocket_new 3) 0 Ha H4000 ltac:(lia) n1 _ (at_second 0) (at_second 0) m
    I1 Hsm1 sample_time_ok sample_time_ok Hm1) as (m2 & rs & E2 & I2).
  match type of I2 with net_inv _ _ _ _ _ ?n _ => set (n2 := n) in * end.
  assert (Hsm2 : small n2) by (unfold small; subst n2 n1; cbn; lia).
  destruct (reflect_step (BP:=DEBUG) (reflecting (H:=DEBUG) ControlReflector) host_a host_b 4000 862 (UdpSocket_new 3) 0 Ha H4000 ltac:(lia) n2 _ (at_second 0) (at_second 0) m
    I2 Hsm2 sample_time_ok sample_time_ok Hm1) as (m3 & rs3 & E3 & I3).
  eexists. split; [|split; [|split]].
  - eapply rtc_l; [eapply net_tick; [exact sample_time_ok|exact E1]|]. rewrite addressed_one.
    eapply rtc_l; [eapply (net_reflect _ _ _ _ _ _ _ n1); [exact sample_time_ok|exact sample_time_ok|by left|exact E2]|]. rewrite addressed_one.
    eapply rtc_once, (net_reflect _ _ _ _ _ _ _ n2); [exact sample_time_ok|exact sample_time_ok|by left|exact E3].
  - rewrite addressed_one. unfold small; subst n2 n1; cbn; lia.
  - reflexivity.
  - rewrite addressed_one. reflexivity.
Qed.

Example network_records_true_witness : exists n s, length (answers_sent n) = 2%nat /\ senders n = [s] /\ length (results s) = 1%nat.
Proof.
  destruct sample_net as (n & Hr & Hsm & Hp & Ha).
  destruct (network_records_true (H:=DEBUG) ControlReflector host_a host_b 4000 862 (UdpSocket_new 3) 0 n) as (s & Hs & _ & Hl & _);
    [apply host_wf|apply host_wf|unfold in_u; lia|unfold in_u; lia|lia|exact Hr|exact Hsm|].
  exists n, s. rewrite Hl. done.
Defined.

